(* ===== verification/_CoqProject ===== *)
-Q . S2P
Prelude.v
Bytes.v
Md5.v
Utf8.v
Json.v
Types.v
Pebble.v
FileSystem.v
Crash.v
DataDir.v
DataDirSpec.v
DiskKV.v
DiskKVSpec.v
Samples.v
UpdateSpec.v
QuerySpec.v
NodeHost.v
Permissions.v
PermissionSamples.v
PermissionsSpec.v
AuthorizeSpec.v
GrantSpec.v
Interference.v
MaintenanceSpec.v
Http.v
KvService.v
Routes.v
Serve.v
ServeSpec.v
RoutesSpec.v
Net.v
NetSpec.v
Url.v
GoCache.v
CertCache.v
HostPolicy.v
Watcher.v
Gateway.v
Proxy.v
GatewaySpec.v
ProxySpec.v
FrontSpec.v
SharedError.v
Router.v
RouterSpec.v
ApiSpec.v
Bootstrap.v
Swarm.v
Nats.v
Startup.v
BootstrapSpec.v
FoundingSpec.v
JoinSpec.v
SwarmSpec.v
SnapshotSpec.v
RecoverSpec.v
OpenSpec.v
Replication.v
ReplicationSpec.v
Config.v
ConfigSpec.v
Main.v
MainSpec.v
Utils.v
Support.v
SelfTests.v
