(* ===== verification/Prelude.v ===== *)
(** * Verification of roo, a clustered reverse proxy over a Raft key-value store

    roo (the Go package under [src/roo]) is one process per machine.  Each
    process takes part in a Raft cluster (the package dragonboat) that
    replicates a key-value store, serves an HTTP API on port 6299, and
    forwards HTTP requests to the destinations stored in the cluster.

    ** The parts and how they interact

    - The replicated state machine ([roo/kvdisk.go]).  Dragonboat feeds it
      committed log entries ([Update]), queries ([Lookup]) and snapshots.
      Its contents live in a Pebble store in a data directory that survives
      crashes.
    - The key-value service ([roo/kv.go]).  [execute] reads through
      [SyncRead] and writes through [SyncPropose] of the node host; [serve]
      is the body of every API request.
    - Permissions ([roo/permissions.go]) are keys of the store; their answers
      are cached in the same store and expire.
    - Routes ([roo/docker.go], [roo/kvdocker.go]) come from the labels of
      Docker tasks and are stored under keys that the proxy
      ([roo/proxy.go]) builds from a request.
    - Certificates ([roo/kvcache.go]) and the hosts they may be asked for
      (the host policy in [roo/roo.go]) are looked up in the store too.
    - The API server ([roo/roo.go]) dispatches requests by path and hands
      out one token per request; so does the handler of everything else,
      which asks the proxy ([roo/proxy.go]) to forward it.
    - A node that starts asks its peers over this API whether to found a
      cluster or to join one ([connect] in [roo/kv.go]).  The leader removes
      members that do not answer ([roo/kvwatcher.go]) and has a manager of
      the swarm renew the routes ([roo/kvdocker.go]).
    - NATS sessions ([roo/nats.go]) are loaded at start.  [main]
      ([roo/roo.go]) reads the configuration and puts the parts in their order; a buffer pool and a
      dialer ([roo/bufferpool.go], [roo/network.go]) serve the proxy and the
      requests to other nodes; [roo/tests.go] has self tests.

    ** How the code is modelled

    A Go call is a value of [go]: a return, a returned error, or a panic.  A
    function with effects is a value of [io S A] over the state [S] it
    touches; it also records every state it goes through, so that a crash
    can be placed after any effect.  Bytes and strings are Rocq strings, a
    byte slice that may be nil is an [option string], integers are [Z] with
    their bounds where the code depends on them.  The clock, random numbers,
    the order in which a Go map is ranged over, and the body of a request
    are arguments.  Locks and timeouts are not modelled: a computation runs
    alone, except in four transition systems: the tokens of overlapping
    requests ([Gateway]), the error variable they share ([SharedError]),
    the buffers they hold ([Support]), and the replicas of a shard
    ([Replication]); and in [Interference] other
    clients write before any call of a check.  Log messages are left out.

    Third-party packages are type classes: their operations, with laws that
    state their documented behaviour and a concrete instance.  [Pebble]
    (the store), [NodeHost] (dragonboat), [Docker] (the Docker client) and
    [GoCache] (go-cache), [Mux] (gorilla/mux), [Nats] (the NATS client),
    [Membership] and [RaftHost] (the calls of dragonboat on members and
    replicas), [HttpClient] (requests to other nodes), [Resolver] (the name
    service), [Listeners] (the servers of [net/http]).  The Go library is modelled as far as it is used:
    [encoding/json], UTF-8, base64, little-endian words, MD5, SHA-1, FNV, the file
    calls of package [os], the addresses of [net], [net/url], decimal
    integers, response writers of [net/http].

    ** The files

    Foundations:
    - [Prelude]: outcomes, effects, their equations and automation ([go_step],
      [split_all], the databases [go_run], [go_str], [go_core]), strings and
      lists.
    - [Bytes]: [roo/utils.go] (comparisons of rights, random strings, hash)
      with the words, base64 and decimals of the Go library.  [Md5], [Utf8],
      [Json]: digest, runes, reader and printer of JSON with their round
      trip.
    - [Types]: the structs of [roo/typedefs.go] and [roo/permissions.go] and
      their JSON texts; [Unmarshal_KVData] and its siblings are the round
      trips.
    - [Pebble], [FileSystem]: the store and the file system, in which any
      call may fail.  [Crash]: specifications that hold at every state a
      computation goes through.

    The replicated state machine:
    - [DataDir]: the functions on the data directory; [DataDirSpec]: what
      they guarantee, with [Committed] as the invariant across crashes.
    - [DiskKV]: every method of [DiskKV] and [pebbledb].  [DiskKVSpec]: the
      abstract state of a replica is a map from keys to values
      ([Replica s m]), and an encoded command acts on it as [exec] says.
    - [UpdateSpec]: a log of commands is executed in order, whatever its
      batching; arbitrary bytes cannot break a replica's invariant; entries
      that stop a replica; a crash leaves none or all of a batch.
      [QuerySpec]: every form of query reads the map.  [SnapshotSpec]: what
      is saved is read back.  [RecoverSpec]: a follower that restores a
      snapshot equals its leader, and at every crash point the next run
      finds the old contents or the whole snapshot.  [OpenSpec]: first runs
      and restarts.  [Samples]: a concrete replica for the witnesses.
    - [Replication]: a shard, that is, a committed log and the machines
      that run [DiskKV] over it, as the steps that dragonboat's documentation
      allows: entries in order, snapshots that are not older, [Open] after a
      restart, and a stop in the middle of any call.  The abstract
      specification is [state_after], the contents after a position of the
      log.  [ReplicationSpec]: every replica holds what the log asks for up
      to its index ([replicas_agree]), never falls back
      ([applied_never_lost]), can always catch up ([catches_up]), unless an
      entry does not decode ([poison_stops_shard]).

    The service:
    - [NodeHost]: the interface of the cluster.  Its laws say that in a
      healthy cluster reads and proposals act on one replicated map;
      [replica_implements_node] shows that a running replica acts on its own
      map in just this way, which is the link between the two halves.
    - [Permissions]: every function of [roo/permissions.go].
      [PermissionsSpec]: [decision], what a request should be answered, as a
      function of the permission keys alone, and the equivalence of
      [authorize] with it.  [AuthorizeSpec]: soundness, transparency of the
      cache and its limits, the directories that are consulted.
      [GrantSpec]: what [permiss] changes and what it leaves.
      [Interference]: what a check answers while others write and calls
      fail: a yes has been justified at one of its moments
      ([authorize_has_moment]), and a permission that lasts is found
      ([authorize_stable]).
      [MaintenanceSpec]: [revoke], [prune] and the life of a cache entry.
    - [KvService]: [execute] and the stubs of the session interface.
      [Http]: response writers.  [Routes]: [roo/docker.go], and the keys,
      values and writing of routes; [RoutesSpec]: a request to the origin of
      a route finds its destination.  [Serve]: every case of [serve];
      [ServeSpec]: put and get, scans, permission checks, joins.
    - [GoCache], [CertCache], [HostPolicy]: the caches in memory, the
      certificates, and the names certificates may be asked for.
    - [Gateway]: the API handlers with their tokens, the daily limit;
      [GatewaySpec]: where tokens go, and what the API answers when it is
      full, not ready, or attacked.  [SharedError]: what handlers that overlap
      make of their one error variable.  [Router]: the table of routes, with
      those of the profiler in debug mode, and the server as a whole; [RouterSpec]: which handler a path reaches.
      [ApiSpec]: what a client of the server sees that puts and gets values
      and writes and checks permissions; [Codec] is the class of the
      structs whose texts are read back.

    The proxy:
    - [Net]: addresses and the functions of [roo/utils.go] on them;
      [NetSpec]: the round trip of addresses.  [Url]: [url.Parse].
    - [Proxy]: the handler of forwarded requests, with its table of proxies,
      its cache and its tokens.  [ProxySpec]: where a request goes and when
      a changed route takes effect.  [FrontSpec]: from the labels of the
      swarm to the upstream server, and what the daily limit does.

    Nodes and their cluster:
    - [Bootstrap]: [connect], from the choice of an address to the start of
      the replica, and the goroutines it leaves behind.  [BootstrapSpec]:
      the search ends, and what holds whatever the peers answer.
      [FoundingSpec]: what nodes do that see a fixed network: of any
      number that see each other one founds the cluster ([one_founder]);
      and the cases that split a cluster or leave a node stuck.  [JoinSpec]: a
      newcomer whose requests pass through the API of a member
      ([apiServer], [serve]) joins it.
    - [Watcher]: how the leader removes members that do not answer, and
      that it keeps one that does ([watcher_spares]).
      [Swarm]: how it asks the managers to renew the routes.
      [SwarmSpec]: one round of this, from the leader through the API of a
      manager to the proxy that forwards a request.
    - [Config]: the configuration file, decoded into the structs of
      [roo/typedefs.go], and what the other parts read of it.
      [ConfigSpec]: which keys count, and the ranges of the numbers.
    - [Startup]: overrides, delay, peers and tokens at the start of [main].
      [Nats]: the NATS sessions, how they are loaded, and what becomes of a
      message.  [Main]: [main] as the composition of these, from the file to
      the listeners; [MainSpec]: a process that starts among its peers
      founds their cluster and serves, and what keeps one from starting.
    - [Utils]: [sha] and the cleaning of texts of [roo/utils.go].
      [Support]: the buffer pool and the dialer; two requests never hold the
      same buffer.  [SelfTests]: what the self tests leave in the store and
      on the disk.

    ** Fuel and bounds

    [Json.value] takes fuel: each nested call consumes a byte, so twice the
    length of the text plus two suffices ([parse_fuel]).  [readRecords]
    takes fuel: each record consumes eight bytes, so the length of the
    stream suffices ([readSnapshot_terminates]).  The loops of [connect]
    take the [BOOTSTRAP_WAIT_S] rounds after which the code gives up, and
    [checkBootstrap] two; this is enough whatever the peers answer
    ([findCluster_bounded]).  [startReplica], [markStarted] and [announce]
    repeat without a bound in the code: their result says whether they have
    succeeded within the attempts given.  Log indices are below
    [2 ^ 64], as [Update] stores them in eight bytes; the keys of expiry
    times are ordered as long as a time has at most fifteen digits
    ([timely]).

    ** What is not modelled

    Sleeps, deadlines and timers: the ticks of a timer are a list of
    signals ([worker]), or the round of a loop is modelled alone.  What the
    upstream server answers and which headers ReverseProxy drops on the
    way.  The cleaning of paths by gorilla/mux before it matches them.
    Behind a listener: connections, TLS and the exchange with the
    certificate authority, which belong to the Go library; the model has
    the addresses, timeouts and cipher suites they are given.  What the
    profiler answers, and the clean-up of memory in debug mode.  The handlers of
    [Gateway] have an error variable each; the one they share is in
    [SharedError].  The goroutine that writes routes is run
    after its handler returns.  Raft itself, that is, how dragonboat gets a
    log committed: [Replication] starts from the log. *)
From Stdlib Require Export ZArith Lia Ascii NArith.
From Stdlib Require String.
From stdpp Require Export base gmap strings list fin_maps sorting.

#[global] Open Scope Z_scope.

(** ** Go values

    A Go [string] is a byte sequence, and so is a Rocq [string].  A Go
    [[]byte] is a slice that may also be [nil]; the code tests for [nil]
    (a [nil] value deletes a key), so a slice is an [option string]. *)
Abbreviation slice := (option string).

Definition slice_bytes (b : slice) : string := default "" b.

(** [len(b)] of a slice: 0 for [nil]. *)
Definition slice_len (b : slice) : nat := String.length (slice_bytes b).

(** Bytes as numbers, and back with the conversion of [byte(x)]. *)
Definition b2z (c : ascii) : Z := Z.of_N (N_of_ascii c).
Definition z2b (z : Z) : ascii := ascii_of_N (Z.to_N (z mod 256)).

(** ** Outcomes of Go calls

    [Ret] is a normal return with a [nil] error, [Err] a return with an
    error, [Panic] a run-time panic or a call of [panic]. *)
Inductive goerror :=
  | ErrorString (s : string)
  | ErrorWrap (prefix : string) (e : goerror)
  | ErrNotExist
  | ErrNotFound
  | ErrCacheMiss
  | ErrExternal (code : nat).

Inductive go (A : Type) :=
  | Ret (a : A)
  | Err (e : goerror)
  | Panic (msg : string).
Arguments Ret {A} a.
Arguments Err {A} e.
Arguments Panic {A} msg.

#[export] Instance goerror_eq_dec : EqDecision goerror.
Proof. solve_decision. Defined.

#[export] Instance go_eq_dec {A} `{EqDecision A} : EqDecision (go A).
Proof. solve_decision. Defined.

Definition go_bind {A B} (m : go A) (k : A -> go B) : go B :=
  match m with
  | Ret a => k a
  | Err e => Err e
  | Panic p => Panic p
  end.

Definition go_of_sum {A} (x : goerror + A) : go A :=
  match x with
  | inl e => Err e
  | inr a => Ret a
  end.

(** ** Effects

    A computation over a state [S] yields the states it went through (one
    per externally visible effect, oldest first), its last state and its
    outcome.  The states it went through are the points where the process
    can die, so crash properties quantify over them. *)
Definition io (S A : Type) : Type := S -> list S * (S * go A).

Section Io.
Context {S : Type}.

Definition lift {A} (m : go A) : io S A := fun s => ([], (s, m)).
Definition ret {A} (a : A) : io S A := lift (Ret a).
Definition fail {A} (e : goerror) : io S A := lift (Err e).
Definition panic {A} (msg : string) : io S A := lift (Panic msg).
Definition get : io S S := fun s => ([], (s, Ret s)).

(** Change the state; the new state is visible from outside. *)
Definition put (s' : S) : io S unit := fun _ => ([s'], (s', Ret tt)).
Definition modify (f : S -> S) : io S unit := fun s => ([f s], (f s, Ret tt)).

(** The common [if err != nil { return err }]. *)
Definition bind {A B} (m : io S A) (k : A -> io S B) : io S B := fun s =>
  let '(t1, (s1, r)) := m s in
  match r with
  | Ret a => let '(t2, out) := k a s1 in (t1 ++ t2, out)
  | Err e => (t1, (s1, Err e))
  | Panic p => (t1, (s1, Panic p))
  end.

(** A call whose error the code inspects. *)
Definition try {A} (m : io S A) : io S (goerror + A) := fun s =>
  let '(t, (s1, r)) := m s in
  match r with
  | Ret a => (t, (s1, Ret (inr a)))
  | Err e => (t, (s1, Ret (inl e)))
  | Panic p => (t, (s1, Panic p))
  end.

(** [defer cleanup()] for a cleanup that panics or returns normally: it
    runs after a return and after an error. *)
Definition deferred {A} (cleanup : io S unit) (m : io S A) : io S A := fun s =>
  let '(t1, (s1, r)) := m s in
  match r with
  | Panic p => (t1, (s1, Panic p))
  | _ =>
      let '(t2, (s2, c)) := cleanup s1 in
      (t1 ++ t2, (s2, match c with Ret _ => r | Err e => r | Panic p => Panic p end))
  end.

(** The state and the outcome without the history. *)
Definition run {A} (m : io S A) (s : S) : S * go A := snd (m s).
Definition history {A} (m : io S A) (s : S) : list S := fst (m s).
End Io.

Notation "'let*' x := m 'in' k" := (bind m (fun x => k))
  (at level 10, x name, m at level 100, k at level 200).
Notation "'let*' ' p := m 'in' k" := (bind m (fun x => match x with p => k end))
  (at level 10, p pattern, m at level 100, k at level 200).
Notation "'let?' x := m 'in' k" := (go_bind m (fun x => k))
  (at level 10, x name, m at level 100, k at level 200).

(** ** Automation *)

(** [go] databases: [go_str] normalises string concatenation, [go_core]
    holds the facts about the model that close side conditions. *)
Create Rewrite HintDb go_str.
Create HintDb go_core discriminated.

(** Case analysis on the scrutinee of a match or a conditional. *)
Ltac split_match :=
  match goal with
  | |- context [match ?x with _ => _ end] =>
      lazymatch x with
      | context [match _ with _ => _ end] => fail
      | _ => destruct x eqn:?
      end
  | H : context [match ?x with _ => _ end] |- _ =>
      lazymatch x with
      | context [match _ with _ => _ end] => fail
      | _ => destruct x eqn:?
      end
  end.
Ltac split_all := repeat (split_match; simplify_eq/=).

(** Linear arithmetic with division and remainder by constants. *)
Ltac div_lia := Z.to_euclidean_division_equations; lia.

(** ** Bytes *)

Lemma b2z_range c : 0 <= b2z c < 256.
Proof. unfold b2z. pose proof (N_ascii_bounded c). lia. Qed.

Lemma z2b_b2z c : z2b (b2z c) = c.
Proof.
  unfold z2b. rewrite Z.mod_small by apply b2z_range.
  unfold b2z. rewrite N2Z.id. apply ascii_N_embedding.
Qed.

Lemma b2z_z2b z : b2z (z2b z) = z mod 256.
Proof.
  unfold z2b, b2z. pose proof (Z.mod_pos_bound z 256).
  rewrite N_ascii_embedding by lia. lia.
Qed.

#[export] Instance b2z_inj : Inj (=) (=) b2z.
Proof. intros a b E. by rewrite <- (z2b_b2z a), E, z2b_b2z. Qed.

(** ** Strings *)

#[global] Arguments String.append !_ _ /.

Lemma string_app_nil_r (s : string) : s +:+ "" = s.
Proof. induction s; simpl; congruence. Qed.

Lemma string_app_assoc (a b c : string) : (a +:+ b) +:+ c = a +:+ (b +:+ c).
Proof. induction a; simpl; congruence. Qed.

Lemma string_app_nil_l (s : string) : "" +:+ s = s.
Proof. done. Qed.

Lemma string_app_cons c (a b : string) : String c a +:+ b = String c (a +:+ b).
Proof. done. Qed.

Lemma string_length_app (a b : string) :
  String.length (a +:+ b) = (String.length a + String.length b)%nat.
Proof. induction a; simpl; lia. Qed.

#[export] Hint Rewrite string_app_nil_r string_app_assoc string_app_nil_l
  string_app_cons string_length_app : go_str.

(** The first [n] bytes of a string, and the rest. *)
Fixpoint stake (n : nat) (s : string) : string :=
  match n, s with
  | S n, String c s => String c (stake n s)
  | _, _ => ""
  end.

Fixpoint sdrop (n : nat) (s : string) : string :=
  match n, s with
  | S n, String _ s => sdrop n s
  | _, _ => s
  end.

Lemma stake_sdrop n s : stake n s +:+ sdrop n s = s.
Proof. revert s; induction n; intros [|c s]; simpl; try done. by rewrite IHn. Qed.

Lemma stake_app n a b : String.length a = n -> stake n (a +:+ b) = a.
Proof. intros <-. induction a; simpl; [by destruct b|congruence]. Qed.

Lemma sdrop_app n a b : String.length a = n -> sdrop n (a +:+ b) = b.
Proof. intros <-. induction a; simpl; [by destruct b|congruence]. Qed.

Lemma stake_length n s : (n <= String.length s)%nat -> String.length (stake n s) = n.
Proof. revert s; induction n; intros [|c s]; simpl; intros; try lia. rewrite IHn; lia. Qed.

Lemma sdrop_length n s : String.length (sdrop n s) = (String.length s - n)%nat.
Proof. revert s; induction n; intros [|c s]; simpl; try lia. by rewrite IHn. Qed.

#[export] Instance string_app_inj_r (t : string) : Inj (=) (=) (fun s : string => s +:+ t).
Proof.
  intros a b E.
  assert (String.length a = String.length b) as L.
  { apply (f_equal String.length) in E. rewrite !string_length_app in E. lia. }
  clear -L E. revert b L E. induction a; intros [|c b] L E; simpl in *; try lia; [done|].
  simplify_eq. f_equal. apply IHa; [lia|done].
Qed.

(** [strings.HasPrefix(s, p)], [bytes.HasPrefix(s, p)]. *)
Fixpoint has_prefix (p s : string) {struct p} : bool :=
  match p, s with
  | "", _ => true
  | String c p', String d s' => Ascii.eqb c d && has_prefix p' s'
  | _, _ => false
  end.

Lemma has_prefix_spec p s : has_prefix p s = true <-> exists t, s = p +:+ t.
Proof.
  revert s. induction p as [|c p IH]; intros [|d s]; simpl.
  - split; [by exists ""|done].
  - split; [by eexists|done].
  - split; [done|]. intros [t ?]; done.
  - rewrite andb_true_iff, Ascii.eqb_eq, IH. split.
    + intros [-> [t ->]]. by exists t.
    + intros [t Ht]. injection Ht as -> ->. eauto.
Qed.

Lemma has_prefix_app p t : has_prefix p (p +:+ t) = true.
Proof. apply has_prefix_spec. by eexists. Qed.
#[export] Hint Resolve has_prefix_app : go_core.

(** [strings.Split(s, sep)] and [strings.Join] for a one-byte separator. *)
Fixpoint split (sep : ascii) (s : string) : list string :=
  match s with
  | "" => [""]
  | String c s' =>
      if decide (c = sep) then "" :: split sep s'
      else match split sep s' with
           | [] => [String c ""]
           | w :: ws => String c w :: ws
           end
  end.

Fixpoint join (sep : ascii) (ws : list string) : string :=
  match ws with
  | [] => ""
  | [w] => w
  | w :: ws' => w +:+ String sep (join sep ws')
  end.

(** [strings.Contains(s, c)] for one byte. *)
Fixpoint has_byte (c : ascii) (s : string) : bool :=
  match s with
  | "" => false
  | String d s' => bool_decide (d = c) || has_byte c s'
  end.

Lemma split_ne_nil sep s : split sep s <> [].
Proof. destruct s; simpl; [done|]. case_decide; [done|]. by destruct (split sep s). Qed.

Lemma join_cons sep w ws :
  ws <> [] -> join sep (w :: ws) = w +:+ String sep (join sep ws).
Proof. by destruct ws. Qed.

Lemma join_split sep s : join sep (split sep s) = s.
Proof.
  induction s as [|c s IH]; [done|]. simpl. case_decide as E.
  - rewrite join_cons by apply split_ne_nil. subst. by rewrite IH.
  - pose proof (split_ne_nil sep s). destruct (split sep s) as [|w ws]; [done|].
    destruct ws; simpl in *; by rewrite <- IH.
Qed.

Lemma split_app sep w s :
  has_byte sep w = false ->
  split sep (w +:+ String sep s) = w :: split sep s.
Proof.
  induction w as [|c w IH]; simpl; intros H; [by rewrite decide_True|].
  apply orb_false_iff in H as [?%bool_decide_eq_false ?].
  rewrite decide_False by done. by rewrite IH.
Qed.

Lemma split_none sep w : has_byte sep w = false -> split sep w = [w].
Proof.
  induction w as [|c w IH]; simpl; intros H; [done|].
  apply orb_false_iff in H as [?%bool_decide_eq_false ?].
  rewrite decide_False by done. by rewrite IH.
Qed.

Lemma split_join sep ws :
  ws <> [] -> Forall (fun w => has_byte sep w = false) ws ->
  split sep (join sep ws) = ws.
Proof.
  induction ws as [|w ws IH]; [done|]. intros _ [Hw Hws]%Forall_cons.
  destruct ws as [|w' ws]; [by apply split_none|].
  rewrite join_cons by done. rewrite split_app by done. f_equal. by apply IH.
Qed.

Lemma has_byte_app c a b : has_byte c (a +:+ b) = has_byte c a || has_byte c b.
Proof. induction a; simpl; [done|]. by rewrite IHa, orb_assoc. Qed.
#[export] Hint Rewrite has_byte_app : go_str.

(** Two texts that agree up to the first separator. *)
Lemma app_sep_inj sep a b s t :
  has_byte sep a = false -> has_byte sep b = false ->
  a +:+ String sep s = b +:+ String sep t -> a = b /\ s = t.
Proof.
  intros Ha Hb E. apply (f_equal (split sep)) in E as E'.
  rewrite !split_app in E' by done. injection E' as -> _.
  split; [done|]. apply (inj (String.append b)) in E. by injection E.
Qed.

(** Run a computation on a component of the state. *)
Definition zoom {S T A} (view : T -> S) (update : S -> T -> T) (m : io S A) : io T A := fun t =>
  let '(h, (s, r)) := m (view t) in (map (fun s => update s t) h, (update s t, r)).

Lemma filter_Forall {A} (P : A -> Prop) `{forall x, Decision (P x)} (l : list A) :
  Forall P l -> filter P l = l.
Proof. induction 1; [done|]. rewrite filter_cons_True by done. by f_equal. Qed.

Lemma filter_Forall_not {A} (P : A -> Prop) `{forall x, Decision (P x)} (l : list A) :
  Forall (fun x => ~ P x) l -> filter P l = [].
Proof. induction 1; [done|]. by rewrite filter_cons_False. Qed.

Lemma existsb_ext {A} (f g : A -> bool) l : (forall x, f x = g x) -> existsb f l = existsb g l.
Proof. intros E. induction l; simpl; congruence. Qed.

Lemma StronglySorted_filter {A} (R : relation A) (P : A -> Prop) `{forall x, Decision (P x)}
    (l : list A) :
  StronglySorted R l -> StronglySorted R (filter P l).
Proof.
  induction 1 as [|x l Hl IH Hx]; [constructor|].
  destruct (decide (P x)); [rewrite filter_cons_True by done|by rewrite filter_cons_False].
  constructor; [done|]. apply Forall_forall. intros y [_ Hy]%list_elem_of_filter.
  by eapply Forall_forall in Hx.
Qed.

(** ** What a computation returns, and the states it goes through *)

Section IoLemmas.
Context {S : Type}.

Lemma run_bind {A B} (m : io S A) (k : A -> io S B) s :
  run (bind m k) s =
  match run m s with
  | (s1, Ret a) => run (k a) s1
  | (s1, Err e) => (s1, Err e)
  | (s1, Panic p) => (s1, Panic p)
  end.
Proof.
  unfold run, bind. destruct (m s) as [t [s1 [a|e|p]]]; simpl; [|done..].
  by destruct (k a s1) as [t2 [s2 r]].
Qed.

Lemma history_bind {A B} (m : io S A) (k : A -> io S B) s :
  history (bind m k) s =
  history m s ++
  match run m s with
  | (s1, Ret a) => history (k a) s1
  | _ => []
  end.
Proof.
  unfold run, history, bind. destruct (m s) as [t [s1 [a|e|p]]]; simpl; try by rewrite app_nil_r.
  by destruct (k a s1) as [t2 [s2 r]].
Qed.

Lemma run_try {A} (m : io S A) s :
  run (try m) s =
  match run m s with
  | (s1, Ret a) => (s1, Ret (inr a))
  | (s1, Err e) => (s1, Ret (inl e))
  | (s1, Panic p) => (s1, Panic p)
  end.
Proof. unfold run, try. by destruct (m s) as [t [s1 [a|e|p]]]. Qed.

Lemma history_try {A} (m : io S A) s : history (try m) s = history m s.
Proof. unfold history, try. by destruct (m s) as [t [s1 [a|e|p]]]. Qed.

Lemma run_deferred {A} (c : io S unit) (m : io S A) s :
  run (deferred c m) s =
  match run m s with
  | (s1, Panic p) => (s1, Panic p)
  | (s1, r) =>
      let '(s2, rc) := run c s1 in
      (s2, match rc with Panic p => Panic p | _ => r end)
  end.
Proof.
  unfold run, deferred. destruct (m s) as [t [s1 [a|e|p]]]; simpl; [..|done];
    by destruct (c s1) as [t2 [s2 [?|?|?]]].
Qed.

Lemma history_deferred {A} (c : io S unit) (m : io S A) s :
  history (deferred c m) s =
  history m s ++
  match run m s with
  | (_, Panic _) => []
  | (s1, _) => history c s1
  end.
Proof.
  unfold run, history, deferred. destruct (m s) as [t [s1 [a|e|p]]]; simpl;
    [by destruct (c s1) as [t2 [s2 [?|?|?]]]..|by rewrite app_nil_r].
Qed.

Lemma run_ret {A} (a : A) s : run (ret a : io S A) s = (s, Ret a).
Proof. done. Qed.
Lemma run_lift {A} (m : go A) s : run (lift m : io S A) s = (s, m).
Proof. done. Qed.
Lemma run_fail {A} e s : run (fail e : io S A) s = (s, Err e).
Proof. done. Qed.
Lemma run_panic {A} p s : run (panic p : io S A) s = (s, Panic p).
Proof. done. Qed.
Lemma run_get s : run (get : io S S) s = (s, Ret s).
Proof. done. Qed.
Lemma run_modify f s : run (modify f : io S unit) s = (f s, Ret tt).
Proof. done. Qed.
Lemma run_zoom {T A} (view : T -> S) (update : S -> T -> T) (m : io S A) t :
  run (zoom view update m) t = let '(s, r) := run m (view t) in (update s t, r).
Proof. unfold run, zoom. by destruct (m (view t)) as [h [s r]]. Qed.
Lemma history_zoom {T A} (view : T -> S) (update : S -> T -> T) (m : io S A) t :
  history (zoom view update m) t = map (fun s => update s t) (history m (view t)).
Proof. unfold history, zoom. by destruct (m (view t)) as [h [s r]]. Qed.
End IoLemmas.

Create Rewrite HintDb go_run.
#[export] Hint Rewrite @run_bind @run_try @run_deferred @run_ret @run_lift @run_fail @run_panic
  @run_get @run_modify @run_zoom : go_run.

(** Step a computation one call at a time. *)
Ltac go_step := autorewrite with go_run; cbn beta iota zeta.

(** ** The byte order of strings *)

Lemma string_le_cons c a d b :
  String.le (String c a) (String d b) <-> b2z c < b2z d \/ (c = d /\ String.le a b).
Proof.
  unfold String.le, String.leb. cbn [String.compare]. unfold Ascii.compare, b2z.
  destruct (N.compare_spec (N_of_ascii c) (N_of_ascii d)) as [E|L|L].
  - assert (c = d) as -> by (apply (f_equal ascii_of_N) in E; by rewrite !ascii_N_embedding in E).
    change (Is_true (String.leb a b)) with (String.le a b).
    split; [by right|]. intros [?|[_ ?]]; [lia|done].
  - split; [left; lia|done].
  - split; [done|]. intros [?|[-> _]]; lia.
Qed.

Lemma string_le_nil s : String.le "" s.
Proof. by destruct s. Qed.

Lemma string_le_cons_nil c s : ~ String.le (String c s) "".
Proof. by intros ?. Qed.

Lemma string_le_app p t : String.le p (p +:+ t).
Proof. induction p; [apply string_le_nil|]. apply string_le_cons. by right. Qed.

Lemma string_le_app_cancel p a b : String.le (p +:+ a) (p +:+ b) <-> String.le a b.
Proof.
  induction p as [|c p IH]; [done|]. rewrite !string_app_cons, string_le_cons, IH.
  split; [intros [?|[_ ?]]; [lia|done]|by right].
Qed.

(** The texts with prefix [p] are an interval of the order. *)
Lemma string_le_prefix p k t : String.le p k -> String.le k (p +:+ t) -> has_prefix p k = true.
Proof.
  revert k. induction p as [|c p IH]; intros [|d k]; try done.
  rewrite string_app_cons, !string_le_cons. intros [?|[-> Hp]] [?|[E Hk]]; try lia.
  - subst. lia.
  - simpl. rewrite Ascii.eqb_refl. by apply IH.
Qed.
