(* ===== verification/Bytes.v ===== *)
(** * Byte-level helpers: [roo/utils.go] and what the code uses of
    [encoding/binary], [encoding/base64], [hash/fnv] and [fmt]

    The right-mask comparisons [bitwiseAnd] and [bitwiseGreaterOrEqual],
    [Contains], [randString] and [hash] of [utils.go]; little-endian
    integers, base64 text and zero-padded decimals of the Go library. *)
From S2P Require Import Prelude.
From stdpp Require Import pretty.
#[local] Open Scope Z_scope.

(** ** [encoding/binary]: little-endian words *)
Module LittleEndian.
(** The [n] low bytes of [z], least significant first. *)
Fixpoint put (n : nat) (z : Z) : string :=
  match n with
  | O => ""
  | S n => String (z2b z) (put n (z / 256))
  end.

Fixpoint val (s : string) : Z :=
  match s with
  | "" => 0
  | String c s => b2z c + 256 * val s
  end.

(** [binary.LittleEndian.PutUint64] into an 8-byte buffer. *)
Definition PutUint64 (z : Z) : string := put 8 z.

(** [binary.LittleEndian.Uint64] reads 8 bytes and panics on fewer. *)
Definition Uint64 (s : string) : go Z :=
  if (String.length s <? 8)%nat then Panic "index out of range"
  else Ret (val (stake 8 s)).

Lemma put_length n z : String.length (put n z) = n.
Proof. revert z; induction n; intros z; simpl; [done|]. by rewrite IHn. Qed.

Lemma val_put n z : val (put n z) = z mod 256 ^ Z.of_nat n.
Proof.
  revert z; induction n as [|n IH]; intros z; [by rewrite Z.mod_1_r|].
  cbn [put val]. rewrite b2z_z2b, IH.
  rewrite Nat2Z.inj_succ, Z.pow_succ_r by lia.
  rewrite Z.rem_mul_r by lia. lia.
Qed.

Lemma val_range s : 0 <= val s < 256 ^ Z.of_nat (String.length s).
Proof.
  induction s as [|c s IH]; [done|].
  cbn [val String.length]. rewrite Nat2Z.inj_succ, Z.pow_succ_r by lia.
  pose proof (b2z_range c). lia.
Qed.

Lemma put_val s : put (String.length s) (val s) = s.
Proof.
  induction s as [|c s IH]; [done|]. cbn [val String.length put].
  pose proof (b2z_range c).
  assert (z2b (b2z c + 256 * val s) = c) as ->.
  { apply (inj b2z). rewrite b2z_z2b, (Z.mul_comm 256), Z.mod_add by lia.
    by apply Z.mod_small. }
  replace ((b2z c + 256 * val s) / 256) with (val s); [by rewrite IH|].
  rewrite (Z.mul_comm 256), Z.div_add, Z.div_small by lia. lia.
Qed.

Lemma Uint64_PutUint64 z : 0 <= z < 2 ^ 64 -> Uint64 (PutUint64 z) = Ret z.
Proof.
  intros H. unfold Uint64, PutUint64. rewrite put_length. simpl (_ <? _)%nat. cbv iota.
  rewrite <- (string_app_nil_r (put 8 z)), stake_app by apply put_length.
  rewrite val_put. f_equal. by apply Z.mod_small.
Qed.
#[global] Arguments PutUint64 : simpl never.
#[global] Arguments Uint64 : simpl never.
End LittleEndian.

(** ** [encoding/base64]: standard alphabet with padding *)
Module Base64.
Definition alphabet : string :=
  "ABCDEFGHIJKLMNOPQRSTUVWXYZabcdefghijklmnopqrstuvwxyz0123456789+/".

(** The character of a 6-bit group. *)
Definition char (k : Z) : ascii :=
  default "A"%char (String.get (Z.to_nat (k mod 64)) alphabet).

(** The 6-bit group of a character. *)
Definition digit (c : ascii) : option Z :=
  let z := b2z c in
  if (65 <=? z) && (z <=? 90) then Some (z - 65)
  else if (97 <=? z) && (z <=? 122) then Some (z - 71)
  else if (48 <=? z) && (z <=? 57) then Some (z + 4)
  else if z =? 43 then Some 62
  else if z =? 47 then Some 63
  else None.

Fixpoint encode (s : string) : string :=
  match s with
  | "" => ""
  | String a "" =>
      let x := b2z a in
      String (char (x / 4)) (String (char (x * 16)) "==")
  | String a (String b "") =>
      let x := b2z a in let y := b2z b in
      String (char (x / 4)) (String (char (x * 16 + y / 16))
        (String (char (y * 4)) "="))
  | String a (String b (String c s')) =>
      let x := b2z a in let y := b2z b in let z := b2z c in
      String (char (x / 4)) (String (char (x * 16 + y / 16))
        (String (char (y * 4 + z / 64)) (String (char z) (encode s'))))
  end.

(** The decoder skips line breaks, takes quads, and accepts padding
    only in the last one; it does not check the discarded bits. *)
Fixpoint strip_newlines (s : string) : string :=
  match s with
  | "" => ""
  | String c s' =>
      if (b2z c =? 10) || (b2z c =? 13) then strip_newlines s'
      else String c (strip_newlines s')
  end.

Fixpoint decode_quads (s : string) : option string :=
  match s with
  | "" => Some ""
  | String a (String b (String c (String d s'))) =>
      x ← digit a; y ← digit b;
      if decide (c = "="%char) then
        if decide (d = "="%char) then
          if decide (s' = "") then Some (String (z2b (x * 4 + y / 16)) "") else None
        else None
      else
        z ← digit c;
        if decide (d = "="%char) then
          if decide (s' = "")
          then Some (String (z2b (x * 4 + y / 16)) (String (z2b (y * 16 + z / 4)) ""))
          else None
        else
          w ← digit d;
          rest ← decode_quads s';
          Some (String (z2b (x * 4 + y / 16)) (String (z2b (y * 16 + z / 4))
                  (String (z2b (z * 64 + w)) rest)))
  | _ => None
  end.

Definition decode (s : string) : option string := decode_quads (strip_newlines s).

(** Facts about single characters, checked over the 64 groups. *)
Definition char_ok (k : Z) : bool :=
  let z := b2z (char k) in
  bool_decide (digit (char k) = Some k) && negb (z =? 61) && (32 <=? z) && (z <? 128) &&
  negb (z =? 34) && negb (z =? 92) && negb (z =? 60) && negb (z =? 62) && negb (z =? 38).

Lemma char_ok_all : forallb char_ok (map Z.of_nat (seq 0 64)) = true.
Proof. vm_compute. reflexivity. Qed.

Lemma char_mod k : char k = char (k mod 64).
Proof. unfold char. by rewrite Z.mod_mod by lia. Qed.

Lemma char_facts k :
  digit (char k) = Some (k mod 64) /\ char k <> "="%char /\
  32 <= b2z (char k) < 128 /\ b2z (char k) <> 34 /\ b2z (char k) <> 92 /\
  b2z (char k) <> 60 /\ b2z (char k) <> 62 /\ b2z (char k) <> 38.
Proof.
  pose proof char_ok_all as H. rewrite forallb_forall in H.
  specialize (H (k mod 64)). pose proof (Z.mod_pos_bound k 64).
  assert (In (k mod 64) (map Z.of_nat (seq 0 64))) as Hin.
  { apply in_map_iff. exists (Z.to_nat (k mod 64)). split; [lia|].
    apply in_seq. lia. }
  specialize (H Hin). unfold char_ok in H. rewrite <- char_mod in H.
  destruct (bool_decide _) eqn:E; [|done]. apply bool_decide_eq_true in E.
  split_and!; try done; try lia.
  intros E'. rewrite E' in H. vm_compute in H. done.
Qed.

Lemma digit_char k : digit (char k) = Some (k mod 64).
Proof. apply char_facts. Qed.

Lemma char_ne_pad k : char k <> "="%char.
Proof. apply char_facts. Qed.

(** Induction in steps of three bytes, as the encoder proceeds. *)
Lemma string_ind3 (P : string -> Prop) :
  P "" -> (forall a, P (String a "")) -> (forall a b, P (String a (String b ""))) ->
  (forall a b c s, P s -> P (String a (String b (String c s)))) -> forall s, P s.
Proof.
  intros H0 H1 H2 H3 s.
  assert (P s /\ (forall a, P (String a s)) /\ forall a b, P (String a (String b s))) as [? _];
    [|done].
  induction s as [|c s (IH0 & IH1 & IH2)]; split_and!; eauto.
Qed.

(** Characters of the encoding: all printable ASCII, no line break and
    none of the characters a JSON text escapes. *)
Definition plain (c : ascii) : bool :=
  let z := b2z c in
  (32 <=? z) && (z <? 128) && negb (z =? 34) && negb (z =? 92) &&
  negb (z =? 60) && negb (z =? 62) && negb (z =? 38).

Fixpoint all_plain (s : string) : bool :=
  match s with "" => true | String c s => plain c && all_plain s end.

Lemma plain_char k : plain (char k) = true.
Proof.
  pose proof (char_facts k) as (_ & _ & ? & ? & ? & ? & ? & ?). unfold plain. lia.
Qed.

Lemma encode_plain s : all_plain (encode s) = true.
Proof.
  induction s using string_ind3; cbn [encode all_plain]; rewrite ?plain_char; done.
Qed.

Lemma strip_plain s : all_plain s = true -> strip_newlines s = s.
Proof.
  induction s as [|c s IH]; simpl; [done|]. intros [Hp Hs]%andb_true_iff.
  unfold plain in Hp. rewrite IH by done.
  destruct (_ || _) eqn:E; [lia|done].
Qed.

Lemma z2b_of c z : z mod 256 = b2z c -> z2b z = c.
Proof. intros E. apply (inj b2z). by rewrite b2z_z2b. Qed.

Ltac not_pad :=
  match goal with
  | |- context [decide (char ?k = _)] =>
      destruct (decide (char k = "="%char)) as [E|_]; [by apply char_ne_pad in E|]
  end.

Lemma decode_quads_encode s : decode_quads (encode s) = Some s.
Proof.
  induction s as [|a|a b|a b c s IH] using string_ind3; [done|..];
    cbn [encode decode_quads]; rewrite !digit_char; simpl;
    rewrite ?digit_char; simpl.
  - do 2 f_equal. apply z2b_of.
    pose proof (b2z_range a). div_lia.
  - not_pad. pose proof (b2z_range a). pose proof (b2z_range b).
    repeat f_equal; apply z2b_of; div_lia.
  - do 2 (not_pad; simpl). rewrite IH. simpl.
    pose proof (b2z_range a). pose proof (b2z_range b). pose proof (b2z_range c).
    repeat f_equal; apply z2b_of; div_lia.
Qed.

Lemma decode_encode s : decode (encode s) = Some s.
Proof.
  unfold decode. rewrite strip_plain by apply encode_plain. apply decode_quads_encode.
Qed.
End Base64.

(** ** Decimal text: [strconv.FormatUint(n, 10)] and the verb [%015d] *)
Module Decimal.
Definition FormatUint (n : Z) : string := pretty (Z.to_N n).

(** Exactly [w] decimal digits of [n], most significant first. *)
Fixpoint fixed (w : nat) (n : Z) : string :=
  match w with
  | O => ""
  | S w => String (z2b (48 + (n / 10 ^ Z.of_nat w) mod 10)) (fixed w n)
  end.

(** [fmt.Sprintf("%015d", n)]: zeros fill up to 15 characters, the sign
    included; longer numbers are not cut. *)
Definition pad15 (n : Z) : string :=
  if (0 <=? n) && (n <? 10 ^ 15) then fixed 15 n
  else if (n <? 0) && (- 10 ^ 14 <? n) then String "-" (fixed 14 (- n))
  else pretty n.

Lemma fixed_length w n : String.length (fixed w n) = w.
Proof. induction w; simpl; congruence. Qed.

(** The text of a number holds digits only. *)
Lemma digit_go c x s :
  (forall d, c <> pretty_N_char d) -> has_byte c (pretty_N_go x s) = has_byte c s.
Proof.
  intros Hc. revert s. induction (N.lt_wf_0 x) as [x _ IH]; intros s.
  assert (x = 0 \/ 0 < x)%N as [->|Hx] by lia; [done|].
  rewrite pretty_N_go_step by done. rewrite IH by (by apply N.div_lt). simpl.
  by rewrite bool_decide_eq_false_2 by (intros E; by apply (Hc (x mod 10)%N)).
Qed.

Lemma FormatUint_digits c n :
  (forall d, c <> pretty_N_char d) -> has_byte c (FormatUint n) = false.
Proof.
  intros Hc. unfold FormatUint, pretty, pretty_N. case_decide.
  - simpl. by rewrite bool_decide_eq_false_2 by (intros E; by apply (Hc 0%N)).
  - by rewrite digit_go.
Qed.

Lemma FormatUint_slash n : has_byte "/" (FormatUint n) = false.
Proof. apply FormatUint_digits. intros d. unfold pretty_N_char. by repeat case_match. Qed.

Lemma FormatUint_inj a b : 0 <= a -> 0 <= b -> FormatUint a = FormatUint b -> a = b.
Proof. intros Ha Hb E. apply pretty_N_inj in E. lia. Qed.
End Decimal.

(** ** [roo/utils.go] *)

(** [Contains]: linear search with [==]. *)
Fixpoint Contains {T} `{EqDecision T} (s : list T) (e : T) : bool :=
  match s with
  | [] => false
  | v :: s' => if decide (v = e) then true else Contains s' e
  end.

(** The loop of [bitwiseAnd] over two masks of the same length. *)
Fixpoint bitwiseAnd_loop (b1 b2 : string) : bool :=
  match b1, b2 with
  | String x b1', String y b2' =>
      if 0 <? Z.land (b2z x) (b2z y) then true else bitwiseAnd_loop b1' b2'
  | _, _ => false
  end.

Definition bitwiseAnd (ba1 ba2 : slice) : bool :=
  match ba1, ba2 with
  | Some b1, Some b2 =>
      if decide (String.length b1 <> String.length b2) then false
      else bitwiseAnd_loop b1 b2
  | _, _ => false
  end.

(** [s[i]] for an index in range. *)
Definition byte_at (s : string) (i : nat) : Z := default 0 (b2z <$> String.get i s).

(** The loop of [bitwiseGreaterOrEqual], [i] counting down to 0. *)
Fixpoint bitwiseGreaterOrEqual_loop (n : nat) (gte ste : string) : bool :=
  match n with
  | O => false
  | S i =>
      if byte_at ste i <=? byte_at gte i then true
      else if 0 <? byte_at ste i then false
      else bitwiseGreaterOrEqual_loop i gte ste
  end.

Definition bitwiseGreaterOrEqual (gte ste : slice) : bool :=
  match gte, ste with
  | Some g, Some s =>
      if decide (String.length g <> String.length s) then false
      else bitwiseGreaterOrEqual_loop (String.length g) g s
  | _, _ => false
  end.

(** [hash/fnv]: 32-bit FNV-1a, and [hash] of [utils.go]. *)
Fixpoint fnv32a (h : Z) (s : string) : Z :=
  match s with
  | "" => h
  | String c s' => fnv32a (Z.lxor h (b2z c) * 16777619 mod 2 ^ 32) s'
  end.

Definition hash (s : string) : Z := fnv32a 2166136261 s.

Definition letterBytes : string := "abcdefghijklmnopqrstuvwxyz0123456789".

(** [randString]: the results of [rand.Intn(36)] are an argument. *)
Definition randString (rnd : nat -> nat) (len : nat) : string :=
  foldr (fun i s => String (default "a"%char (String.get (rnd i) letterBytes)) s) ""
    (seq 0 len).

(** *** Facts about the comparisons *)

Lemma Contains_spec {T} `{EqDecision T} (s : list T) e : Contains s e = true <-> e ∈ s.
Proof.
  induction s as [|v s IH]; simpl.
  - split; [done|]. by intros ?%not_elem_of_nil.
  - rewrite elem_of_cons. case_decide; subst; [by split; auto|]. rewrite IH.
    split; [by auto|]. intros [->|?]; done.
Qed.

Lemma byte_at_range s i : 0 <= byte_at s i < 256.
Proof. unfold byte_at. destruct (String.get i s); simpl; [apply b2z_range|lia]. Qed.

Lemma byte_at_0 c s : byte_at (String c s) 0 = b2z c.
Proof. done. Qed.

Lemma byte_at_S c s i : byte_at (String c s) (S i) = byte_at s i.
Proof. done. Qed.

Lemma bitwiseAnd_loop_spec b1 b2 :
  String.length b1 = String.length b2 ->
  bitwiseAnd_loop b1 b2 = true <->
  exists i, (i < String.length b1)%nat /\ Z.land (byte_at b1 i) (byte_at b2 i) <> 0.
Proof.
  revert b2. induction b1 as [|x b1 IH]; intros [|y b2]; simpl; intros L; try lia.
  - split; [done|]. intros (i & ? & _); lia.
  - pose proof (b2z_range x). pose proof (b2z_range y).
    assert (0 <= Z.land (b2z x) (b2z y)) by (apply Z.land_nonneg; lia).
    destruct (Z.ltb_spec 0 (Z.land (b2z x) (b2z y))).
    + split; [|done]. intros _. exists 0%nat. rewrite !byte_at_0. split; lia.
    + rewrite IH by lia. split.
      * intros (i & ? & ?). exists (S i). rewrite !byte_at_S. split; [lia|done].
      * intros ([|i] & ? & Hi); [rewrite !byte_at_0 in Hi; lia|].
        rewrite !byte_at_S in Hi. exists i. split; [lia|done].
Qed.

(** Only the last byte of the masks matters to the loop: the first
    iteration always returns. *)
Lemma bitwiseGreaterOrEqual_loop_last n g s :
  bitwiseGreaterOrEqual_loop (S n) g s = (byte_at s n <=? byte_at g n).
Proof.
  cbn [bitwiseGreaterOrEqual_loop].
  pose proof (byte_at_range g n). pose proof (byte_at_range s n).
  destruct (Z.leb_spec (byte_at s n) (byte_at g n)); [done|].
  destruct (Z.ltb_spec 0 (byte_at s n)); [done|lia].
Qed.

Lemma fnv32a_range s h : 0 <= h < 2 ^ 32 -> 0 <= fnv32a h s < 2 ^ 32.
Proof.
  revert h. induction s as [|c s IH]; intros h Hh; simpl; [done|].
  apply IH. apply Z.mod_pos_bound. lia.
Qed.

Lemma randString_cons rnd n i :
  foldr (fun i s => String (default "a"%char (String.get (rnd i) letterBytes)) s) ""
    (seq i (S n)) =
  String (default "a"%char (String.get (rnd i) letterBytes))
    (foldr (fun i s => String (default "a"%char (String.get (rnd i) letterBytes)) s) ""
      (seq (S i) n)).
Proof. done. Qed.

Lemma randString_length rnd n : String.length (randString rnd n) = n.
Proof.
  unfold randString. generalize 0%nat as i.
  induction n as [|n IH]; intros i; [done|]. rewrite randString_cons. simpl. by rewrite IH.
Qed.
