(* ===== verification/Md5.v ===== *)
(** * The digest [crypto/md5]

    Executable MD5, used by the data-directory file (its first eight
    digest bytes guard the directory name) and by [GetHash].  Checked
    against the test vectors of RFC 1321. *)
From S2P Require Import Prelude Bytes.

Definition w32 (z : Z) : Z := z mod 2 ^ 32.
Definition rotl32 (x n : Z) : Z := w32 (Z.lor (Z.shiftl x n) (Z.shiftr x (32 - n))).

Definition md5_K : list Z :=
  [  3614090360; 3905402710; 606105819; 3250441966; 4118548399; 1200080426;
     2821735955; 4249261313; 1770035416; 2336552879; 4294925233; 2304563134;
     1804603682; 4254626195; 2792965006; 1236535329; 4129170786; 3225465664;
     643717713; 3921069994; 3593408605; 38016083; 3634488961; 3889429448;
     568446438; 3275163606; 4107603335; 1163531501; 2850285829; 4243563512;
     1735328473; 2368359562; 4294588738; 2272392833; 1839030562; 4259657740;
     2763975236; 1272893353; 4139469664; 3200236656; 681279174; 3936430074;
     3572445317; 76029189; 3654602809; 3873151461; 530742520; 3299628645;
     4096336452; 1126891415; 2878612391; 4237533241; 1700485571; 2399980690;
     4293915773; 2240044497; 1873313359; 4264355552; 2734768916; 1309151649;
     4149444226; 3174756917; 718787259; 3951481745 ].

Definition md5_shifts : list Z := [7; 12; 17; 22; 5; 9; 14; 20; 4; 11; 16; 23; 6; 10; 15; 21].

Definition state4 : Type := Z * Z * Z * Z.

Definition md5_init : state4 := (1732584193, 4023233417, 2562383102, 271733878).

(** Step [i] of a block whose sixteen words are [m]. *)
Definition md5_step (m : list Z) (st : state4) (i : nat) : state4 :=
  let '(a, b, c, d) := st in
  let round := (i / 16)%nat in
  let not32 x := Z.lxor x (2 ^ 32 - 1) in
  let '(f, g) :=
    match round with
    | 0%nat => (Z.lor (Z.land b c) (Z.land (not32 b) d), i)
    | 1%nat => (Z.lor (Z.land d b) (Z.land (not32 d) c), (5 * i + 1) mod 16)%nat
    | 2%nat => (Z.lxor b (Z.lxor c d), (3 * i + 5) mod 16)%nat
    | _ => (Z.lxor c (Z.lor b (not32 d)), (7 * i) mod 16)%nat
    end in
  let s := nth (4 * round + i mod 4) md5_shifts 0 in
  let x := w32 (a + f + nth i md5_K 0 + nth g m 0) in
  (d, w32 (b + rotl32 x s), b, c).

(** The little-endian words of a 64-byte block. *)
Fixpoint words (n : nat) (s : string) : list Z :=
  match n with
  | O => []
  | S n => LittleEndian.val (stake 4 s) :: words n (sdrop 4 s)
  end.

Definition md5_block (st : state4) (blk : string) : state4 :=
  let '(a, b, c, d) := st in
  let '(a', b', c', d') := foldl (md5_step (words 16 blk)) st (seq 0 64) in
  (w32 (a + a'), w32 (b + b'), w32 (c + c'), w32 (d + d')).

Fixpoint md5_blocks (n : nat) (st : state4) (s : string) : state4 :=
  match n with
  | O => st
  | S n => md5_blocks n (md5_block st (stake 64 s)) (sdrop 64 s)
  end.

Fixpoint zeros (n : nat) : string :=
  match n with O => "" | S n => String "000" (zeros n) end.

(** The message with its padding: one bit, zeros, the length in bits. *)
Definition md5_pad (s : string) : string :=
  let n := Z.of_nat (String.length s) in
  s +:+ String (z2b 128) (zeros (Z.to_nat ((55 - n) mod 64)) +:+
    LittleEndian.put 8 (8 * n)).

Definition md5_sum (s : string) : string :=
  let p := md5_pad s in
  let '(a, b, c, d) := md5_blocks (String.length p / 64) md5_init p in
  LittleEndian.put 4 a +:+ LittleEndian.put 4 b +:+ LittleEndian.put 4 c +:+ LittleEndian.put 4 d.

(** Test vectors, as the digest's little-endian value. *)
Example md5_empty :
  LittleEndian.val (md5_sum "") = 0x7e42f8ec980980e904b2008fd98c1dd4.
Proof. vm_compute. reflexivity. Qed.

Example md5_two_blocks :
  LittleEndian.val (md5_sum
    "12345678901234567890123456789012345678901234567890123456789012345678901234567890") =
  0x7ab607212eda49ac55c9e32ba2f4ed57.
Proof. vm_compute. reflexivity. Qed.

Lemma md5_length s : String.length (md5_sum s) = 16%nat.
Proof.
  unfold md5_sum. destruct (md5_blocks _ _ _) as [[[a b] c] d].
  by rewrite !string_length_app, !LittleEndian.put_length.
Qed.
