(* ===== verification/Utf8.v ===== *)
(** * UTF-8 as Go reads and writes it ([unicode/utf8])

    Decoding accepts exactly the well-formed sequences; any other byte
    counts as one invalid byte and is replaced by U+FFFD when a text is
    coerced to UTF-8, as [encoding/json] does with every string. *)
From S2P Require Import Prelude.

Definition RuneError : Z := 65533.

Definition in_range (lo hi z : Z) : bool := (lo <=? z) && (z <=? hi).
Definition cont (c : ascii) : bool := in_range 128 191 (b2z c).

(** Well-formed sequences of two, three and four bytes. *)
Definition mb2 (c0 c1 : ascii) : bool := in_range 194 223 (b2z c0) && cont c1.

Definition mb3 (c0 c1 c2 : ascii) : bool :=
  (((b2z c0 =? 224) && in_range 160 191 (b2z c1)) ||
   ((b2z c0 =? 237) && in_range 128 159 (b2z c1)) ||
   (in_range 225 239 (b2z c0) && negb (b2z c0 =? 237) && cont c1)) && cont c2.

Definition mb4 (c0 c1 c2 c3 : ascii) : bool :=
  (((b2z c0 =? 240) && in_range 144 191 (b2z c1)) ||
   ((b2z c0 =? 244) && in_range 128 143 (b2z c1)) ||
   (in_range 241 243 (b2z c0) && cont c1)) && cont c2 && cont c3.

Definition rune2 (c0 c1 : ascii) : Z := (b2z c0 - 192) * 64 + (b2z c1 - 128).
Definition rune3 (c0 c1 c2 : ascii) : Z :=
  (b2z c0 - 224) * 4096 + (b2z c1 - 128) * 64 + (b2z c2 - 128).
Definition rune4 (c0 c1 c2 c3 : ascii) : Z :=
  (b2z c0 - 240) * 262144 + (b2z c1 - 128) * 4096 + (b2z c2 - 128) * 64 + (b2z c3 - 128).

(** [utf8.EncodeRune]; also what the verb [%c] prints. *)
Definition encode_rune (r : Z) : string :=
  let enc r :=
    if r <? 128 then String (z2b r) ""
    else if r <? 2048 then String (z2b (192 + r / 64)) (String (z2b (128 + r mod 64)) "")
    else if r <? 65536 then
      String (z2b (224 + r / 4096))
        (String (z2b (128 + (r / 64) mod 64)) (String (z2b (128 + r mod 64)) ""))
    else
      String (z2b (240 + r / 262144)) (String (z2b (128 + (r / 4096) mod 64))
        (String (z2b (128 + (r / 64) mod 64)) (String (z2b (128 + r mod 64)) ""))) in
  if in_range 0 55295 r || in_range 57344 1114111 r then enc r else enc RuneError.

(** Fold over the runes of a text from the right: [fr raw r acc] for the
    well-formed sequence [raw] of rune [r], [fb c acc] for an invalid byte. *)
Fixpoint utf8_fold {A} (fr : string -> Z -> A -> A) (fb : ascii -> A -> A) (z : A)
    (s : string) : A :=
  match s with
  | "" => z
  | String c0 s1 =>
      if b2z c0 <? 128 then fr (String c0 "") (b2z c0) (utf8_fold fr fb z s1)
      else match s1 with
      | "" => fb c0 (utf8_fold fr fb z s1)
      | String c1 s2 =>
          if mb2 c0 c1
          then fr (String c0 (String c1 "")) (rune2 c0 c1) (utf8_fold fr fb z s2)
          else match s2 with
          | "" => fb c0 (utf8_fold fr fb z s1)
          | String c2 s3 =>
              if mb3 c0 c1 c2
              then fr (String c0 (String c1 (String c2 ""))) (rune3 c0 c1 c2)
                     (utf8_fold fr fb z s3)
              else match s3 with
              | "" => fb c0 (utf8_fold fr fb z s1)
              | String c3 s4 =>
                  if mb4 c0 c1 c2 c3
                  then fr (String c0 (String c1 (String c2 (String c3 ""))))
                         (rune4 c0 c1 c2 c3) (utf8_fold fr fb z s4)
                  else fb c0 (utf8_fold fr fb z s1)
              end
          end
      end
  end.

(** No well-formed sequence starts at the byte [c0] followed by [s1]. *)
Definition bad_at (c0 : ascii) (s1 : string) : bool :=
  negb (b2z c0 <? 128) &&
  match s1 with
  | "" => true
  | String c1 s2 => negb (mb2 c0 c1) &&
      match s2 with
      | "" => true
      | String c2 s3 => negb (mb3 c0 c1 c2) &&
          match s3 with
          | "" => true
          | String c3 _ => negb (mb4 c0 c1 c2 c3)
          end
      end
  end.

(** [utf8.ValidString], and the coercion to valid UTF-8. *)
Definition valid_utf8 (s : string) : bool := utf8_fold (fun _ _ b => b) (fun _ _ => false) true s.
Definition replacement : string := encode_rune RuneError.
Definition sanitize (s : string) : string :=
  utf8_fold (fun raw _ acc => raw +:+ acc) (fun _ acc => replacement +:+ acc) "" s.

(** ** Reasoning rune by rune *)

Lemma utf8_ind (P : string -> Prop) :
  P "" ->
  (forall c s, (b2z c <? 128) = true -> P s -> P (String c s)) ->
  (forall c0 c1 s, mb2 c0 c1 = true -> P s -> P (String c0 (String c1 s))) ->
  (forall c0 c1 c2 s, mb3 c0 c1 c2 = true -> P s ->
     P (String c0 (String c1 (String c2 s)))) ->
  (forall c0 c1 c2 c3 s, mb4 c0 c1 c2 c3 = true -> P s ->
     P (String c0 (String c1 (String c2 (String c3 s))))) ->
  (forall c s, bad_at c s = true -> P s -> P (String c s)) ->
  forall s, P s.
Proof.
  intros H0 H1 H2 H3 H4 HB s.
  remember (String.length s) as n eqn:E. assert (String.length s <= n)%nat as L by lia.
  clear E. revert s L. induction n as [|n IH]; intros [|c0 s1] L; simpl in L; try lia; auto.
  assert (P s1) as IH1 by (apply IH; lia).
  destruct (b2z c0 <? 128) eqn:E0; [by auto|].
  assert (bad_at c0 s1 = true -> P (String c0 s1)) as Hbad by auto.
  unfold bad_at in Hbad. rewrite E0 in Hbad. simpl in Hbad.
  destruct s1 as [|c1 s2]; [auto|].
  destruct (mb2 c0 c1) eqn:E2; [apply H2, IH; simpl in *; auto; lia|]. simpl in Hbad.
  destruct s2 as [|c2 s3]; [auto|].
  destruct (mb3 c0 c1 c2) eqn:E3; [apply H3, IH; simpl in *; auto; lia|]. simpl in Hbad.
  destruct s3 as [|c3 s4]; [auto|].
  destruct (mb4 c0 c1 c2 c3) eqn:E4; [apply H4, IH; simpl in *; auto; lia|].
  simpl in Hbad. auto.
Qed.

Ltac utf8_bool := intros; unfold mb2, mb3, mb4, cont, in_range in *; lia.

Lemma mb2_lead c0 c1 : mb2 c0 c1 = true -> (b2z c0 <? 128) = false.
Proof. utf8_bool. Qed.
Lemma mb3_lead c0 c1 c2 : mb3 c0 c1 c2 = true -> (b2z c0 <? 128) = false /\ mb2 c0 c1 = false.
Proof. intros H. split; utf8_bool. Qed.
Lemma mb4_lead c0 c1 c2 c3 :
  mb4 c0 c1 c2 c3 = true ->
  (b2z c0 <? 128) = false /\ mb2 c0 c1 = false /\ mb3 c0 c1 c2 = false.
Proof. intros H. split_and!; utf8_bool. Qed.

Section Fold.
Context {A : Type} (fr : string -> Z -> A -> A) (fb : ascii -> A -> A) (z : A).
Abbreviation fold := (utf8_fold fr fb z).

Lemma fold_ascii c s :
  (b2z c <? 128) = true -> fold (String c s) = fr (String c "") (b2z c) (fold s).
Proof. intros H. cbn [utf8_fold]. by rewrite H. Qed.

Lemma fold_2 c0 c1 s :
  mb2 c0 c1 = true ->
  fold (String c0 (String c1 s)) = fr (String c0 (String c1 "")) (rune2 c0 c1) (fold s).
Proof. intros H. cbn [utf8_fold]. by rewrite (mb2_lead c0 c1), H. Qed.

Lemma fold_3 c0 c1 c2 s :
  mb3 c0 c1 c2 = true ->
  fold (String c0 (String c1 (String c2 s))) =
  fr (String c0 (String c1 (String c2 ""))) (rune3 c0 c1 c2) (fold s).
Proof. intros H. destruct (mb3_lead _ _ _ H) as [E0 E1]. cbn [utf8_fold]. by rewrite E0, E1, H. Qed.

Lemma fold_4 c0 c1 c2 c3 s :
  mb4 c0 c1 c2 c3 = true ->
  fold (String c0 (String c1 (String c2 (String c3 s)))) =
  fr (String c0 (String c1 (String c2 (String c3 "")))) (rune4 c0 c1 c2 c3) (fold s).
Proof.
  intros H. destruct (mb4_lead _ _ _ _ H) as (E0 & E1 & E2).
  cbn [utf8_fold]. by rewrite E0, E1, E2, H.
Qed.

Lemma fold_bad c s : bad_at c s = true -> fold (String c s) = fb c (fold s).
Proof.
  unfold bad_at. intros H. cbn [utf8_fold].
  destruct (b2z c <? 128); [done|].
  destruct s as [|c1 s]; [done|]. destruct (mb2 c c1); [done|].
  destruct s as [|c2 s]; [done|]. destruct (mb3 c c1 c2); [done|].
  destruct s as [|c3 s]; [done|]. by destruct (mb4 c c1 c2 c3).
Qed.
End Fold.

(** Rewrite one step of a fold by the case at hand. *)
Ltac fold_step :=
  first [rewrite fold_ascii by done | rewrite fold_2 by done | rewrite fold_3 by done
        |rewrite fold_4 by done | rewrite fold_bad by done].

(** ** Validity and coercion *)

Lemma valid_cons_ascii c s : (b2z c <? 128) = true -> valid_utf8 (String c s) = valid_utf8 s.
Proof. intros. unfold valid_utf8. by fold_step. Qed.

Lemma sanitize_valid s : valid_utf8 s = true -> sanitize s = s.
Proof.
  unfold valid_utf8, sanitize.
  induction s using utf8_ind; [done|..]; repeat fold_step; cbn [String.append]; intros;
    try done; by rewrite IHs.
Qed.

(** A valid text in front is read rune by rune before what follows. *)
Lemma utf8_fold_app {A} (fr : string -> Z -> A -> A) fb z s t :
  valid_utf8 s = true ->
  utf8_fold fr fb z (s +:+ t) = utf8_fold fr fb (utf8_fold fr fb z t) s.
Proof.
  unfold valid_utf8.
  induction s as [|c s H IH|c0 c1 s H IH|c0 c1 c2 s H IH|c0 c1 c2 c3 s H IH|c s H IH]
    using utf8_ind; [done|..]; repeat fold_step; intros Hv; cbn [String.append];
    repeat fold_step; by rewrite ?IH.
Qed.

Lemma valid_app s t : valid_utf8 s = true -> valid_utf8 t = true -> valid_utf8 (s +:+ t) = true.
Proof.
  intros Hs Ht. unfold valid_utf8 in *. rewrite utf8_fold_app by done. by rewrite Ht.
Qed.

Lemma sanitize_app s t : valid_utf8 s = true -> sanitize (s +:+ t) = s +:+ sanitize t.
Proof.
  intros Hs. unfold sanitize. rewrite utf8_fold_app by done. revert Hs.
  unfold valid_utf8. generalize (utf8_fold (fun raw _ acc => raw +:+ acc)
    (fun (_ : ascii) acc => replacement +:+ acc) "" t) as acc. intros acc.
  induction s using utf8_ind; [done|..]; repeat fold_step; intros; try done;
    autorewrite with go_str; by rewrite IHs.
Qed.

Lemma sanitize_is_valid s : valid_utf8 (sanitize s) = true.
Proof.
  unfold sanitize.
  induction s as [|c s H IH|c0 c1 s H IH|c0 c1 c2 s H IH|c0 c1 c2 c3 s H IH|c s H IH]
    using utf8_ind; [done|..]; fold_step; apply valid_app; try done;
    unfold valid_utf8; by fold_step.
Qed.

Lemma sanitize_idem s : sanitize (sanitize s) = sanitize s.
Proof. apply sanitize_valid, sanitize_is_valid. Qed.

(** ASCII texts are valid. *)
Fixpoint all_ascii (s : string) : bool :=
  match s with "" => true | String c s => (b2z c <? 128) && all_ascii s end.

Lemma ascii_valid s : all_ascii s = true -> valid_utf8 s = true.
Proof.
  induction s; [done|]. cbn [all_ascii]. intros [? ?]%andb_true_iff.
  rewrite valid_cons_ascii by done. auto.
Qed.

Lemma encode_rune_valid r : valid_utf8 (encode_rune r) = true.
Proof.
  unfold encode_rune, valid_utf8, RuneError.
  destruct (in_range 0 55295 r || in_range 57344 1114111 r) eqn:E; [|done].
  unfold in_range in E.
  destruct (Z.ltb_spec r 128); [|destruct (Z.ltb_spec r 2048); [|destruct (Z.ltb_spec r 65536)]].
  - rewrite fold_ascii; [done|]. rewrite b2z_z2b, Z.mod_small; lia.
  - rewrite fold_2; [done|]. unfold mb2, cont, in_range. rewrite !b2z_z2b. div_lia.
  - rewrite fold_3; [done|]. unfold mb3, cont, in_range. rewrite !b2z_z2b. div_lia.
  - rewrite fold_4; [done|]. unfold mb4, cont, in_range. rewrite !b2z_z2b. div_lia.
Qed.

#[export] Hint Resolve valid_app ascii_valid encode_rune_valid sanitize_is_valid : go_core.

(** ** [strings.TrimSpace] *)

(** [unicode.IsSpace] *)
Definition is_space (r : Z) : bool :=
  in_range 9 13 r || bool_decide (r ∈ [32; 133; 160; 5760; 8232; 8233; 8239; 8287; 12288]) ||
  in_range 8192 8202 r.

(** The runes of a text, each with whether it is white space. *)
Definition spaced (s : string) : list (string * bool) :=
  utf8_fold (fun raw r acc => (raw, is_space r) :: acc) (fun c acc => (String c "", false) :: acc)
    [] s.

Fixpoint drop_space (l : list (string * bool)) : list (string * bool) :=
  match l with
  | (_, true) :: l => drop_space l
  | _ => l
  end.

Definition TrimSpace (s : string) : string :=
  foldr (fun p acc => p.1 +:+ acc) "" (rev (drop_space (rev (drop_space (spaced s))))).
