(* ===== verification/Json.v ===== *)
(** * JSON texts as [encoding/json] reads and writes them

    The value grammar of the Go scanner (strict RFC 8259, nesting limited
    to 10000), string literals with Go's escapes and its coercion to
    UTF-8, and the printer of [json.Marshal] with HTML escaping.  Fuel of
    the parser: one unit per nested call, each of which consumes input, so
    twice the length of the text plus two always suffices. *)
From S2P Require Import Prelude Utf8.

(** Parsed texts; a string is stored decoded, a number as its literal. *)
#[warnings="-register-all"]
Inductive json :=
  | JNull
  | JBool (b : bool)
  | JNum (lit : string)
  | JStr (s : string)
  | JArr (l : list json)
  | JObj (ms : list (string * json)).

(** ** String literals *)

Definition hex_digit (k : Z) : ascii :=
  if k <? 10 then z2b (48 + k) else z2b (87 + k).

Definition hex_val (c : ascii) : option Z :=
  let z := b2z c in
  if in_range 48 57 z then Some (z - 48)
  else if in_range 97 102 z then Some (z - 87)
  else if in_range 65 70 z then Some (z - 55)
  else None.

(** [\uXXXX] *)
Definition esc_u (r : Z) : string :=
  String "\" (String "u" (String (hex_digit (r / 4096)) (String (hex_digit ((r / 256) mod 16))
    (String (hex_digit ((r / 16) mod 16)) (String (hex_digit (r mod 16)) ""))))).

(** How [json.Marshal] writes the rune [r] whose bytes are [raw]. *)
Definition esc_rune (raw : string) (r : Z) : string :=
  if r =? 34 then String "\" (String "034" "")
  else if r =? 92 then String "\" (String "\" "")
  else if r =? 8 then String "\" (String "b" "")
  else if r =? 12 then String "\" (String "f" "")
  else if r =? 10 then String "\" (String "n" "")
  else if r =? 13 then String "\" (String "r" "")
  else if r =? 9 then String "\" (String "t" "")
  else if (r <? 32) || (r =? 60) || (r =? 62) || (r =? 38) || (r =? 8232) || (r =? 8233)
  then esc_u r
  else raw.

Definition escape (s : string) : string :=
  utf8_fold (fun raw r acc => esc_rune raw r +:+ acc) (fun _ acc => esc_u RuneError +:+ acc) "" s.

Definition quote (s : string) : string := String "034" (escape s +:+ String "034" "").

Definition simple_escape (e : ascii) : option ascii :=
  let z := b2z e in
  if z =? 34 then Some "034"%char
  else if z =? 92 then Some "\"%char
  else if z =? 47 then Some "/"%char
  else if z =? 98 then Some "008"%char
  else if z =? 102 then Some "012"%char
  else if z =? 110 then Some "010"%char
  else if z =? 114 then Some "013"%char
  else if z =? 116 then Some "009"%char
  else None.

Definition hex4 (a b c d : ascii) : option Z :=
  w ← hex_val a; x ← hex_val b; y ← hex_val c; z ← hex_val d;
  Some (w * 4096 + x * 256 + y * 16 + z).

Definition cat (p : string) (o : option (string * string)) : option (string * string) :=
  '(s, rest) ← o; Some (p +:+ s, rest).

(** The body of a string literal after its opening quote: the decoded
    string and the text after the closing quote. *)
Fixpoint unquote (s : string) : option (string * string) :=
  match s with
  | "" => None
  | String c0 s1 =>
      if b2z c0 =? 34 then Some ("", s1)
      else if b2z c0 =? 92 then
        match s1 with
        | "" => None
        | String e s2 =>
            if b2z e =? 117 then
              match s2 with
              | String h1 (String h2 (String h3 (String h4 s6))) =>
                  match hex4 h1 h2 h3 h4 with
                  | None => None
                  | Some r =>
                      if in_range 55296 57343 r then
                        match s6 with
                        | String b (String u (String k1 (String k2 (String k3 (String k4 s12))))) =>
                            match hex4 k1 k2 k3 k4 with
                            | Some r2 =>
                                if (b2z b =? 92) && (b2z u =? 117) &&
                                   in_range 55296 56319 r && in_range 56320 57343 r2
                                then cat (encode_rune
                                       ((r - 55296) * 1024 + (r2 - 56320) + 65536)) (unquote s12)
                                else cat replacement (unquote s6)
                            | None => cat replacement (unquote s6)
                            end
                        | _ => cat replacement (unquote s6)
                        end
                      else cat (encode_rune r) (unquote s6)
                  end
              | _ => None
              end
            else match simple_escape e with
                 | Some ch => cat (String ch "") (unquote s2)
                 | None => None
                 end
        end
      else if b2z c0 <? 32 then None
      else if b2z c0 <? 128 then cat (String c0 "") (unquote s1)
      else match s1 with
      | "" => cat replacement (unquote s1)
      | String c1 s2 =>
          if mb2 c0 c1 then cat (String c0 (String c1 "")) (unquote s2)
          else match s2 with
          | "" => cat replacement (unquote s1)
          | String c2 s3 =>
              if mb3 c0 c1 c2
              then cat (String c0 (String c1 (String c2 ""))) (unquote s3)
              else match s3 with
              | "" => cat replacement (unquote s1)
              | String c3 s4 =>
                  if mb4 c0 c1 c2 c3
                  then cat (String c0 (String c1 (String c2 (String c3 "")))) (unquote s4)
                  else cat replacement (unquote s1)
              end
          end
      end
  end.

(** ** Values *)

Fixpoint skip_ws (s : string) : string :=
  match s with
  | String c s' =>
      if (b2z c =? 32) || (b2z c =? 9) || (b2z c =? 10) || (b2z c =? 13)
      then skip_ws s' else s
  | "" => ""
  end.

Definition is_digit (c : ascii) : bool := in_range 48 57 (b2z c).

Fixpoint span_digits (s : string) : string * string :=
  match s with
  | String c s' =>
      if is_digit c then let '(d, r) := span_digits s' in (String c d, r) else ("", s)
  | "" => ("", "")
  end.

(** [.] and digits, if the text goes on with a point. *)
Definition parse_frac (s : string) : option (string * string) :=
  match s with
  | String c s1 =>
      if b2z c =? 46 then
        match span_digits s1 with
        | ("", _) => None
        | (d, r) => Some (String c d, r)
        end
      else Some ("", s)
  | "" => Some ("", s)
  end.

(** The exponent, if any. *)
Definition parse_exp (s : string) : option (string * string) :=
  match s with
  | String c s1 =>
      if (b2z c =? 101) || (b2z c =? 69) then
        let '(sg, s2) :=
          match s1 with
          | String g s2 => if (b2z g =? 43) || (b2z g =? 45) then (String g "", s2) else ("", s1)
          | "" => ("", s1)
          end in
        match span_digits s2 with
        | ("", _) => None
        | (d, r) => Some (String c (sg +:+ d), r)
        end
      else Some ("", s)
  | "" => Some ("", s)
  end.

(** A number literal. *)
Definition parse_num (s : string) : option (string * string) :=
  let '(sg, s1) :=
    match s with
    | String c s1 => if b2z c =? 45 then (String c "", s1) else ("", s)
    | "" => ("", s)
    end in
  '(int, s2) ← match s1 with
    | String c s2 =>
        if b2z c =? 48 then Some (String c "", s2)
        else if is_digit c then Some (span_digits s1) else None
    | "" => None
    end;
  '(frac, s3) ← parse_frac s2;
  '(ex, s4) ← parse_exp s3;
  Some (sg +:+ int +:+ frac +:+ ex, s4).

Definition maxNestingDepth : Z := 10000.

(** One level of each reader, given the readers one level down. *)
Abbreviation reader A := (Z -> string -> option (A * string)).

Definition value_body (members : reader (list (string * json))) (elements : reader (list json))
    (d : Z) (s : string) : option (json * string) :=
  match skip_ws s with
  | "" => None
  | String c s1 =>
      if b2z c =? 123 then
        if maxNestingDepth <=? d then None
        else match skip_ws s1 with
        | String c2 s2 =>
            if b2z c2 =? 125 then Some (JObj [], s2)
            else '(ms, r) ← members (d + 1) s1; Some (JObj ms, r)
        | "" => None
        end
      else if b2z c =? 91 then
        if maxNestingDepth <=? d then None
        else match skip_ws s1 with
        | String c2 s2 =>
            if b2z c2 =? 93 then Some (JArr [], s2)
            else '(l, r) ← elements (d + 1) s1; Some (JArr l, r)
        | "" => None
        end
      else if b2z c =? 34 then '(t, r) ← unquote s1; Some (JStr t, r)
      else if has_prefix "null" (String c s1) then Some (JNull, sdrop 3 s1)
      else if has_prefix "true" (String c s1) then Some (JBool true, sdrop 3 s1)
      else if has_prefix "false" (String c s1) then Some (JBool false, sdrop 4 s1)
      else '(lit, r) ← parse_num (String c s1); Some (JNum lit, r)
  end.

Definition members_body (value : reader json) (members : reader (list (string * json)))
    (d : Z) (s : string) : option (list (string * json) * string) :=
  match skip_ws s with
  | String q s1 =>
      if b2z q =? 34 then
        '(k, s2) ← unquote s1;
        match skip_ws s2 with
        | String col s3 =>
            if b2z col =? 58 then
              '(v, s4) ← value d s3;
              match skip_ws s4 with
              | String c s5 =>
                  if b2z c =? 44 then '(ms, r) ← members d s5; Some ((k, v) :: ms, r)
                  else if b2z c =? 125 then Some ([(k, v)], s5)
                  else None
              | "" => None
              end
            else None
        | "" => None
        end
      else None
  | "" => None
  end.

Definition elements_body (value : reader json) (elements : reader (list json))
    (d : Z) (s : string) : option (list json * string) :=
  '(v, s1) ← value d s;
  match skip_ws s1 with
  | String c s2 =>
      if b2z c =? 44 then '(l, r) ← elements d s2; Some (v :: l, r)
      else if b2z c =? 93 then Some ([v], s2)
      else None
  | "" => None
  end.

Fixpoint value (n : nat) (d : Z) (s : string) {struct n} : option (json * string) :=
  match n with
  | O => None
  | S n => value_body (members n) (elements n) d s
  end
with members (n : nat) (d : Z) (s : string) {struct n} :
    option (list (string * json) * string) :=
  match n with
  | O => None
  | S n => members_body (value n) (members n) d s
  end
with elements (n : nat) (d : Z) (s : string) {struct n} : option (list json * string) :=
  match n with
  | O => None
  | S n => elements_body (value n) (elements n) d s
  end.

(** A whole text: one value and nothing else but white space. *)
Definition parse (s : string) : option json :=
  '(v, r) ← value (2 * String.length s + 2) 0 s;
  if decide (skip_ws r = "") then Some v else None.

(** ** Printing *)

Fixpoint print (j : json) : string :=
  match j with
  | JNull => "null"
  | JBool true => "true"
  | JBool false => "false"
  | JNum lit => lit
  | JStr s => quote s
  | JArr l => String "[" (join "," (map print l) +:+ "]")
  | JObj ms =>
      String "{" (join "," (map (fun '(k, v) => quote k +:+ String ":" (print v)) ms) +:+ "}")
  end.


(** ** Round trip of string literals *)

(** The coercion a text goes through when it is written and read back. *)
Fixpoint clean (j : json) : json :=
  match j with
  | JStr s => JStr (sanitize s)
  | JArr l => JArr (map clean l)
  | JObj ms => JObj (map (fun '(k, v) => (sanitize k, clean v)) ms)
  | _ => j
  end.

Lemma unquote_ascii c t :
  (b2z c <? 128) = true ->
  unquote (esc_rune (String c "") (b2z c) +:+ t) = cat (String c "") (unquote t).
Proof. destruct c as [[] [] [] [] [] [] [] []]; intros H; [discriminate H || reflexivity..]. Qed.

Lemma esc_u_error t : unquote (esc_u RuneError +:+ t) = cat replacement (unquote t).
Proof. reflexivity. Qed.

Lemma unquote_2 c0 c1 t :
  mb2 c0 c1 = true ->
  unquote (esc_rune (String c0 (String c1 "")) (rune2 c0 c1) +:+ t) =
  cat (String c0 (String c1 "")) (unquote t).
Proof.
  intros H. pose proof (mb2_lead _ _ H) as HL.
  assert (128 <= rune2 c0 c1 < 2048) by (unfold rune2; unfold mb2, cont, in_range in H; lia).
  unfold esc_rune. repeat (rewrite (proj2 (Z.eqb_neq _ _)) by lia).
  rewrite (proj2 (Z.ltb_ge _ _)) by lia. cbn [orb].
  cbn [String.append unquote]. rewrite HL, H.
  rewrite !(proj2 (Z.eqb_neq _ _)) by lia. rewrite (proj2 (Z.ltb_ge _ _)) by lia. done.
Qed.

Lemma unquote_3 c0 c1 c2 t :
  mb3 c0 c1 c2 = true ->
  unquote (esc_rune (String c0 (String c1 (String c2 ""))) (rune3 c0 c1 c2) +:+ t) =
  cat (String c0 (String c1 (String c2 ""))) (unquote t).
Proof.
  intros H. pose proof (mb3_lead _ _ _ H) as [HL H2].
  assert (2048 <= rune3 c0 c1 c2) by (unfold rune3; unfold mb3, cont, in_range in H; lia).
  destruct (decide (rune3 c0 c1 c2 = 8232 \/ rune3 c0 c1 c2 = 8233)) as [Hs|Hs].
  - assert (b2z c0 = 226 /\ b2z c1 = 128 /\ (b2z c2 = 168 \/ b2z c2 = 169)) as (E0 & E1 & E2)
      by (unfold rune3 in Hs; unfold mb3, cont, in_range in H; lia).
    assert (c0 = z2b 226 /\ c1 = z2b 128) as [-> ->] by (by rewrite <- E0, <- E1, !z2b_b2z).
    destruct E2 as [E2|E2]; assert (c2 = z2b (b2z c2)) as Ec by (by rewrite z2b_b2z);
      rewrite E2 in Ec; subst c2; reflexivity.
  - unfold esc_rune. repeat (rewrite (proj2 (Z.eqb_neq _ _)) by lia).
    rewrite (proj2 (Z.ltb_ge _ _)) by lia. cbn [orb].
    cbn [String.append unquote]. rewrite HL, H2, H.
    rewrite !(proj2 (Z.eqb_neq _ _)) by lia. rewrite (proj2 (Z.ltb_ge _ _)) by lia. done.
Qed.

Lemma unquote_4 c0 c1 c2 c3 t :
  mb4 c0 c1 c2 c3 = true ->
  unquote (esc_rune (String c0 (String c1 (String c2 (String c3 "")))) (rune4 c0 c1 c2 c3) +:+ t) =
  cat (String c0 (String c1 (String c2 (String c3 "")))) (unquote t).
Proof.
  intros H. pose proof (mb4_lead _ _ _ _ H) as (HL & H2 & H3).
  assert (65536 <= rune4 c0 c1 c2 c3) by (unfold rune4; unfold mb4, cont, in_range in H; lia).
  unfold esc_rune. repeat (rewrite (proj2 (Z.eqb_neq _ _)) by lia).
  rewrite (proj2 (Z.ltb_ge _ _)) by lia. cbn [orb].
  cbn [String.append unquote]. rewrite HL, H2, H3, H.
  rewrite !(proj2 (Z.eqb_neq _ _)) by lia. rewrite (proj2 (Z.ltb_ge _ _)) by lia. done.
Qed.

Lemma cat_cat p q o : cat p (cat q o) = cat (p +:+ q) o.
Proof. destruct o as [[s r]|]; [|done]. simpl. by rewrite string_app_assoc. Qed.

Lemma unquote_escape s r :
  unquote (escape s +:+ String "034" r) = Some (sanitize s, r).
Proof.
  unfold escape, sanitize.
  induction s as [|c s H IH|c0 c1 s H IH|c0 c1 c2 s H IH|c0 c1 c2 c3 s H IH|c s H IH]
    using utf8_ind; [done|..]; repeat fold_step; rewrite string_app_assoc.
  - by rewrite unquote_ascii, IH.
  - by rewrite unquote_2, IH.
  - by rewrite unquote_3, IH.
  - by rewrite unquote_4, IH.
  - by rewrite esc_u_error, IH.
Qed.

(** ** Fuel *)

(** Every reader returns a proper suffix of its input. *)
Lemma cat_length p o s r :
  cat p o = Some (s, r) -> exists s', o = Some (s', r).
Proof. destruct o as [[s' r']|]; simpl; intros; simplify_eq; eauto. Qed.

Lemma unquote_length s t r : unquote s = Some (t, r) -> (String.length r < String.length s)%nat.
Proof.
  remember (String.length s) as n eqn:E. assert (String.length s <= n)%nat as L by lia.
  assert (String.length r < String.length s -> String.length r < n)%nat as T by lia.
  intros H. apply T. clear E T. revert s L t r H.
  induction n as [|n IH]; intros [|c0 s1] L t r H; simpl in L; try lia; [done..|].
  assert (forall s' p, (String.length s' <= String.length s1)%nat ->
    cat p (unquote s') = Some (t, r) -> (String.length r < S (String.length s1))%nat) as K.
  { intros s' p Hs [s'' Hu]%cat_length. apply IH in Hu; lia. }
  cbn [String.length]. cbn [unquote] in H.
  destruct (b2z c0 =? 34); [injection H as <- <-; lia|].
  destruct (b2z c0 =? 92).
  { destruct s1 as [|e s2]; [done|]. destruct (b2z e =? 117).
    - do 4 (destruct s2 as [|? s2]; [done|]). destruct (hex4 _ _ _ _); [|done].
      assert (forall p, cat p (unquote s2) = Some (t, r) ->
        (String.length r < S (String.length (String e (String a (String a0 (String a1
           (String a2 s2)))))))%nat) as K2 by (intros p; apply K; simpl; lia).
      destruct (in_range _ _ _); [|by eapply K2].
      do 6 (destruct s2 as [|? s2]; [by eapply K2|]).
      destruct (hex4 a5 a6 a7 a8); [|by eapply K2].
      destruct (_ && _); [|by eapply K2]. eapply K; [|exact H]. simpl. lia.
    - destruct (simple_escape e); [|done]. eapply K; [|exact H]. simpl. lia. }
  destruct (b2z c0 <? 32); [done|].
  destruct (b2z c0 <? 128); [by eapply K|].
  destruct s1 as [|c1 s2]; [by eapply K|].
  destruct (mb2 c0 c1); [eapply K; [|exact H]; simpl; lia|].
  destruct s2 as [|c2 s3]; [by eapply K|].
  destruct (mb3 c0 c1 c2); [eapply K; [|exact H]; simpl; lia|].
  destruct s3 as [|c3 s4]; [by eapply K|].
  destruct (mb4 c0 c1 c2 c3); [eapply K; [|exact H]; simpl; lia|by eapply K].
Qed.

Lemma skip_ws_length s : (String.length (skip_ws s) <= String.length s)%nat.
Proof. induction s as [|c s IH]; simpl; [lia|]. destruct (_ || _); simpl; lia. Qed.

Lemma skip_ws_cons s c t : skip_ws s = String c t -> (String.length t < String.length s)%nat.
Proof. intros E. pose proof (skip_ws_length s) as H. rewrite E in H. simpl in H. lia. Qed.

Lemma sdrop_le n s : (String.length (sdrop n s) <= String.length s)%nat.
Proof. rewrite sdrop_length. lia. Qed.

Lemma span_digits_length s d r :
  span_digits s = (d, r) -> (String.length d + String.length r = String.length s)%nat.
Proof.
  revert d r. induction s as [|c s IH]; simpl; intros d r H; [by simplify_eq|].
  destruct (is_digit c); [|by simplify_eq].
  destruct (span_digits s) as [d' r'] eqn:E. simplify_eq. simpl. rewrite <- (IH d' r); done.
Qed.

Lemma parse_frac_length s f r : parse_frac s = Some (f, r) -> (String.length r <= String.length s)%nat.
Proof.
  unfold parse_frac. destruct s as [|c s]; [intros; by simplify_eq|].
  destruct (_ =? _); [|intros; by simplify_eq].
  destruct (span_digits s) as [d r'] eqn:E. apply span_digits_length in E.
  destruct d; [done|]. intros. simplify_eq. simpl in *. lia.
Qed.

Lemma parse_exp_length s f r : parse_exp s = Some (f, r) -> (String.length r <= String.length s)%nat.
Proof.
  unfold parse_exp. destruct s as [|c s]; [intros; by simplify_eq|].
  destruct (_ || _); [|intros; by simplify_eq].
  assert (forall d t, (String.length t <= String.length s)%nat ->
    match span_digits t with
    | ("", _) => None
    | (d', r') => Some (String c (d +:+ d'), r')
    end = Some (f, r) -> (String.length r <= S (String.length s))%nat) as K.
  { intros d t L. destruct (span_digits t) as [d' r'] eqn:E. apply span_digits_length in E.
    destruct d'; [done|]. intros. simplify_eq. simpl in *. lia. }
  destruct s as [|g s2]; [by apply K|].
  destruct (_ || _); (apply K; simpl; lia).
Qed.

Lemma parse_num_length s n r : parse_num s = Some (n, r) -> (String.length r < String.length s)%nat.
Proof.
  unfold parse_num. intros H.
  set (p := match s with "" => _ | String _ _ => _ end) in H.
  assert (String.length p.2 <= String.length s)%nat as Lp.
  { subst p. destruct s as [|c s1]; [done|]. destruct (_ =? _); simpl; lia. }
  destruct p as [sg s1]. simpl in Lp.
  destruct s1 as [|c s2]; [done|].
  assert (exists i t, (if b2z c =? 48 then Some (String c "", s2)
      else if is_digit c then Some (span_digits (String c s2)) else None) = Some (i, t) /\
      (String.length t <= String.length s2)%nat) as (i & t & E & Lt).
  { destruct (b2z c =? 48); [by eauto|].
    destruct (is_digit c) eqn:D; [|done].
    destruct (span_digits (String c s2)) as [i t] eqn:E. exists i, t. split; [done|].
    pose proof (span_digits_length _ _ _ E) as L. simpl in E, L. rewrite D in E.
    destruct (span_digits s2); simplify_eq. simpl in L. lia. }
  rewrite E in H. simpl in H.
  destruct (parse_frac t) as [[fr u]|] eqn:EF; [|done]. apply parse_frac_length in EF. simpl in H.
  destruct (parse_exp u) as [[ex w]|] eqn:EX; [|done]. apply parse_exp_length in EX. simpl in H.
  simplify_eq. simpl in Lp. lia.
Qed.

(** The steps of the readers, as equations for any continuation. *)
Definition shorter {A} (s : string) (o : option (A * string)) : Prop :=
  forall v r, o = Some (v, r) -> (String.length r < String.length s)%nat.

Lemma shorter_bind {A B} (s t : string) (o : option (A * string)) (f : A -> B) :
  shorter s o -> (String.length s <= String.length t)%nat ->
  shorter t ('(x, r) ← o; Some (f x, r)).
Proof.
  intros H L v r E. destruct o as [[x r']|]; simpl in E; simplify_eq.
  specialize (H _ _ eq_refl). lia.
Qed.

Lemma shorter_none {A} s : shorter s (@None (A * string)).
Proof. by intros ???. Qed.

Lemma value_body_shorter ms es d s :
  (forall d s, shorter s (ms d s)) -> (forall d s, shorter s (es d s)) ->
  shorter s (value_body ms es d s).
Proof.
  intros IHm IHe. unfold value_body.
  destruct (skip_ws s) as [|c s1] eqn:E; [apply shorter_none|]. apply skip_ws_cons in E.
  assert (forall c2 s2, skip_ws s1 = String c2 s2 ->
    (String.length s2 < String.length s)%nat) as K by (intros c2 s2 ?%skip_ws_cons; lia).
  destruct (b2z c =? 123).
  { destruct (_ <=? _); [apply shorter_none|].
    destruct (skip_ws s1) as [|c2 s2] eqn:E2; [apply shorter_none|].
    specialize (K _ _ eq_refl). destruct (_ =? _); [intros v r ?; by simplify_eq|].
    eapply shorter_bind; [apply IHm|lia]. }
  destruct (b2z c =? 91).
  { destruct (_ <=? _); [apply shorter_none|].
    destruct (skip_ws s1) as [|c2 s2] eqn:E2; [apply shorter_none|].
    specialize (K _ _ eq_refl). destruct (_ =? _); [intros v r ?; by simplify_eq|].
    eapply shorter_bind; [apply IHe|lia]. }
  assert (forall k, (String.length (sdrop k s1) < String.length s)%nat) as D
    by (intros k; pose proof (sdrop_le k s1); lia).
  destruct (b2z c =? 34).
  { eapply shorter_bind; [intros ??; apply unquote_length|lia]. }
  repeat (destruct (has_prefix _ _); [intros v r ?; simplify_eq; apply D|]).
  intros v r H. destruct (parse_num (String c s1)) as [[lit r']|] eqn:EP; [|done].
  apply parse_num_length in EP. simpl in *. simplify_eq. lia.
Qed.

Lemma members_body_shorter vs ms d s :
  (forall d s, shorter s (vs d s)) -> (forall d s, shorter s (ms d s)) ->
  shorter s (members_body vs ms d s).
Proof.
  intros IHv IHm. unfold members_body.
  destruct (skip_ws s) as [|q s1] eqn:E; [apply shorter_none|]. apply skip_ws_cons in E.
  destruct (_ =? _); [|apply shorter_none].
  destruct (unquote s1) as [[k s2]|] eqn:EU; [|apply shorter_none]. apply unquote_length in EU.
  simpl. destruct (skip_ws s2) as [|col s3] eqn:E3; [apply shorter_none|].
  apply skip_ws_cons in E3. destruct (_ =? _); [|apply shorter_none].
  destruct (vs d s3) as [[v s4]|] eqn:EV; [|apply shorter_none]. apply IHv in EV. simpl.
  destruct (skip_ws s4) as [|c s5] eqn:E5; [apply shorter_none|]. apply skip_ws_cons in E5.
  destruct (b2z c =? 44); [eapply (shorter_bind s5 s); [apply IHm|lia]|].
  destruct (b2z c =? 125); [|apply shorter_none]. intros ?? ?. simplify_eq. lia.
Qed.

Lemma elements_body_shorter vs es d s :
  (forall d s, shorter s (vs d s)) -> (forall d s, shorter s (es d s)) ->
  shorter s (elements_body vs es d s).
Proof.
  intros IHv IHe. unfold elements_body.
  destruct (vs d s) as [[v s1]|] eqn:EV; [|apply shorter_none]. apply IHv in EV. simpl.
  destruct (skip_ws s1) as [|c s2] eqn:E2; [apply shorter_none|]. apply skip_ws_cons in E2.
  destruct (b2z c =? 44); [eapply (shorter_bind s2 s); [apply IHe|lia]|].
  destruct (b2z c =? 93); [|apply shorter_none]. intros ?? ?. simplify_eq. lia.
Qed.

Lemma readers_shorter n :
  (forall d s, shorter s (value n d s)) /\
  (forall d s, shorter s (members n d s)) /\
  (forall d s, shorter s (elements n d s)).
Proof.
  induction n as [|n (IHv & IHm & IHe)]; [done|]. split_and!; intros d s; cbn.
  - by apply value_body_shorter.
  - by apply members_body_shorter.
  - by apply elements_body_shorter.
Qed.

(** More fuel never changes an answer once there is enough of it. *)
Lemma fuel_step n :
  (forall d s, (2 * String.length s + 1 <= n)%nat -> value n d s = value (S n) d s) /\
  (forall d s, (2 * String.length s + 1 <= n)%nat -> members n d s = members (S n) d s) /\
  (forall d s, (2 * String.length s + 2 <= n)%nat -> elements n d s = elements (S n) d s).
Proof.
  induction n as [|n (IHv & IHm & IHe)]; [split_and!; lia|].
  split_and!; intros d s L; [change (value_body (members n) (elements n) d s =
      value_body (members (S n)) (elements (S n)) d s); unfold value_body
    |change (members_body (value n) (members n) d s =
      members_body (value (S n)) (members (S n)) d s); unfold members_body
    |change (elements_body (value n) (elements n) d s =
      elements_body (value (S n)) (elements (S n)) d s); unfold elements_body].
  - destruct (skip_ws s) as [|c s1] eqn:E; [done|]. apply skip_ws_cons in E.
    by rewrite IHm, IHe by lia.
  - destruct (skip_ws s) as [|q s1] eqn:E; [done|].
    apply skip_ws_cons in E. destruct (_ =? _); [|done].
    destruct (unquote s1) as [[k s2]|] eqn:EU; [|done]. apply unquote_length in EU.
    cbn [mbind option_bind].
    destruct (skip_ws s2) as [|col s3] eqn:E3; [done|]. apply skip_ws_cons in E3.
    destruct (_ =? _); [|done]. rewrite IHv by lia.
    destruct (value (S n) d s3) as [[v s4]|] eqn:EV; [|done].
    apply (proj1 (readers_shorter _)) in EV. cbn [mbind option_bind].
    destruct (skip_ws s4) as [|c s5] eqn:E5; [done|]. apply skip_ws_cons in E5.
    by rewrite IHm by lia.
  - rewrite IHv by lia.
    destruct (value (S n) d s) as [[v s1]|] eqn:EV; [|done].
    apply (proj1 (readers_shorter _)) in EV. cbn [mbind option_bind].
    destruct (skip_ws s1) as [|c s2] eqn:E2; [done|]. apply skip_ws_cons in E2.
    by rewrite IHe by lia.
Qed.

(** An answer stays when fuel is added. *)
Lemma fuel_mono n :
  (forall d s x, value n d s = Some x -> value (S n) d s = Some x) /\
  (forall d s x, members n d s = Some x -> members (S n) d s = Some x) /\
  (forall d s x, elements n d s = Some x -> elements (S n) d s = Some x).
Proof.
  induction n as [|n (IHv & IHm & IHe)]; [done|].
  split_and!; intros d s x; [change (value_body (members n) (elements n) d s = Some x ->
      value_body (members (S n)) (elements (S n)) d s = Some x); unfold value_body
    |change (members_body (value n) (members n) d s = Some x ->
      members_body (value (S n)) (members (S n)) d s = Some x); unfold members_body
    |change (elements_body (value n) (elements n) d s = Some x ->
      elements_body (value (S n)) (elements (S n)) d s = Some x); unfold elements_body].
  - destruct (skip_ws s) as [|c s1]; [done|].
    destruct (b2z c =? 123); [|destruct (b2z c =? 91); [|done]];
      (destruct (_ <=? _); [done|]); (destruct (skip_ws s1) as [|c2 s2]; [done|]);
      (destruct (_ =? _); [done|]); intros ([y r] & E & ?)%bind_Some.
    + by rewrite (IHm _ _ _ E).
    + by rewrite (IHe _ _ _ E).
  - destruct (skip_ws s) as [|q s1]; [done|]. destruct (_ =? _); [|done].
    destruct (unquote s1) as [[k s2]|]; [|done]. cbn [mbind option_bind].
    destruct (skip_ws s2) as [|col s3]; [done|]. destruct (_ =? _); [|done].
    intros ([v s4] & E & H)%bind_Some. rewrite (IHv _ _ _ E). cbn [mbind option_bind].
    destruct (skip_ws s4) as [|c s5]; [done|]. destruct (b2z c =? 44); [|done].
    apply bind_Some in H as ([y r] & E' & ?). by rewrite (IHm _ _ _ E').
  - intros ([v s1] & E & H)%bind_Some. rewrite (IHv _ _ _ E). cbn [mbind option_bind].
    destruct (skip_ws s1) as [|c s2]; [done|]. destruct (b2z c =? 44); [|done].
    apply bind_Some in H as ([y r] & E' & ?). by rewrite (IHe _ _ _ E').
Qed.

Lemma value_mono n m d s x : (n <= m)%nat -> value n d s = Some x -> value m d s = Some x.
Proof. induction 1; [done|]. intros. by apply fuel_mono, IHle. Qed.
Lemma members_mono n m d s x : (n <= m)%nat -> members n d s = Some x -> members m d s = Some x.
Proof. induction 1; [done|]. intros. by apply fuel_mono, IHle. Qed.
Lemma elements_mono n m d s x : (n <= m)%nat -> elements n d s = Some x -> elements m d s = Some x.
Proof. induction 1; [done|]. intros. by apply fuel_mono, IHle. Qed.

(** The fuel of [parse] is enough: every larger amount gives the same. *)
Lemma value_enough n d s :
  (2 * String.length s + 2 <= n)%nat -> value (2 * String.length s + 2) d s = value n d s.
Proof.
  induction 1 as [|n L IH]; [done|]. rewrite IH. apply (proj1 (fuel_step n)). lia.
Qed.

Lemma parse_fuel s : forall n v r,
  value n 0 s = Some (v, r) -> skip_ws r = "" -> parse s = Some v.
Proof.
  intros n v r H Hr. unfold parse.
  set (m := Nat.max n (2 * String.length s + 2)).
  rewrite (value_enough m) by lia.
  rewrite (value_mono n m _ _ (v, r)) by (done || lia). cbn [mbind option_bind].
  by rewrite decide_True.
Qed.

(** ** Round trip of whole texts *)

Lemma json_ind' (P : json -> Prop) :
  P JNull -> (forall b, P (JBool b)) -> (forall lit, P (JNum lit)) -> (forall s, P (JStr s)) ->
  (forall l, Forall P l -> P (JArr l)) ->
  (forall ms, Forall (fun m => P m.2) ms -> P (JObj ms)) -> forall j, P j.
Proof.
  intros Hn Hb Hm Hs Ha Ho. fix F 1.
  intros [|b|lit|s|l|ms]; [exact Hn|apply Hb|apply Hm|apply Hs|..].
  - apply Ha. induction l; constructor; auto.
  - apply Ho. induction ms as [|[k v] ms]; constructor; auto.
Qed.

(** Number literals that are decimal integers, as [json.Marshal] writes
    them. *)
Fixpoint all_digits (s : string) : bool :=
  match s with "" => true | String c s' => is_digit c && all_digits s' end.
Definition plain_nat (s : string) : bool :=
  match s with
  | "" => false
  | String c s' => if b2z c =? 48 then bool_decide (s' = "") else is_digit c && all_digits s'
  end.
Definition plain_int (s : string) : bool :=
  match s with
  | "" => false
  | String c s' => if b2z c =? 45 then plain_nat s' else plain_nat s
  end.

(** Texts whose number literals are integers, and their nesting depth. *)
Fixpoint plain_numbers (j : json) : bool :=
  match j with
  | JNum lit => plain_int lit
  | JArr l => forallb plain_numbers l
  | JObj ms => forallb (fun '(_, v) => plain_numbers v) ms
  | _ => true
  end.

Fixpoint depth (j : json) : Z :=
  match j with
  | JArr l => 1 + foldr Z.max 0 (map depth l)
  | JObj ms => 1 + foldr Z.max 0 (map (fun '(_, v) => depth v) ms)
  | _ => 0
  end.

Definition starts (s : string) : Prop :=
  exists c t, s = String c t /\ skip_ws s = s /\ b2z c <> 93 /\ b2z c <> 125.

(** The first byte of an integer. *)
Lemma plain_int_head lit :
  plain_int lit = true -> exists c s, lit = String c s /\ (b2z c = 45 \/ 48 <= b2z c <= 57).
Proof.
  destruct lit as [|c s]; [done|]. intros H. exists c, s. split; [done|]. simpl in H.
  destruct (Z.eqb_spec (b2z c) 45); [by left|]. right. destruct (Z.eqb_spec (b2z c) 48); [lia|].
  apply andb_true_iff in H as [H _]. unfold is_digit, in_range in H. lia.
Qed.

Lemma number_starts c s : b2z c = 45 \/ 48 <= b2z c <= 57 -> starts (String c s).
Proof.
  intros H. exists c, s. split_and!; [done| |lia|lia]. cbn [skip_ws].
  by rewrite !(proj2 (Z.eqb_neq _ _)) by lia.
Qed.

Lemma print_starts j r : plain_numbers j = true -> starts (print j +:+ r).
Proof.
  destruct j as [|[]|lit|s|l|ms]; try (by (do 2 eexists; split_and!)).
  intros (c & s & -> & Hc)%plain_int_head. by apply number_starts.
Qed.

Lemma skip_starts s : starts s -> skip_ws s = s.
Proof. by intros (? & ? & ? & ? & _). Qed.

(** A text that does not go on with a number. *)
Definition delimited (r : string) : Prop :=
  match r with
  | "" => True
  | String c _ => is_digit c = false /\ b2z c <> 46 /\ b2z c <> 101 /\ b2z c <> 69
  end.

Lemma span_digits_all s r :
  all_digits s = true -> match r with "" => True | String c _ => is_digit c = false end ->
  span_digits (s +:+ r) = (s, r).
Proof.
  intros Hs Hr. induction s as [|c s IH]; simpl in *.
  - destruct r as [|c r]; [done|]. simpl. by rewrite Hr.
  - apply andb_true_iff in Hs as [-> Hs]. by rewrite IH.
Qed.

Lemma parse_num_plain lit r :
  plain_int lit = true -> delimited r -> parse_num (lit +:+ r) = Some (lit, r).
Proof.
  intros Hl Hr.
  assert (parse_frac r = Some ("", r) /\ parse_exp r = Some ("", r)) as [Pf Pe].
  { destruct r as [|c r]; [done|]. destruct Hr as (_ & H1 & H2 & H3). simpl.
    by rewrite !(proj2 (Z.eqb_neq _ _)) by done. }
  assert (match r with "" => True | String c _ => is_digit c = false end) as Hd
    by (destruct r; [done|by destruct Hr]).
  assert (forall n, plain_nat n = true ->
    match n +:+ r with
    | String c s2 =>
        if b2z c =? 48 then Some (String c "", s2)
        else if is_digit c then Some (span_digits (n +:+ r)) else None
    | "" => None
    end = Some (n, r)) as K.
  { intros [|c n] Hn; [done|]. simpl in Hn |- *. destruct (b2z c =? 48).
    - apply bool_decide_eq_true in Hn. by subst.
    - apply andb_true_iff in Hn as [Hc Hn]. rewrite Hc. by rewrite (span_digits_all n r). }
  unfold parse_num. destruct lit as [|c lit]; [done|]. rewrite string_app_cons. simpl in Hl.
  destruct (b2z c =? 45).
  - cbv beta iota. rewrite K by done. cbn [mbind option_bind]. rewrite Pf. cbn [mbind option_bind].
    rewrite Pe. cbn [mbind option_bind]. by autorewrite with go_str.
  - pose proof (K (String c lit) Hl) as E. rewrite string_app_cons in E. cbv beta iota in E |- *. rewrite E.
    cbn [mbind option_bind]. rewrite Pf. cbn [mbind option_bind]. rewrite Pe.
    cbn [mbind option_bind]. by autorewrite with go_str.
Qed.

Lemma value_number n d lit r :
  plain_int lit = true -> delimited r -> value (S n) d (lit +:+ r) = Some (JNum lit, r).
Proof.
  intros Hl Hr. pose proof (parse_num_plain lit r Hl Hr) as P.
  destruct (plain_int_head lit Hl) as (c & s & -> & Hc).
  change (value_body (members n) (elements n) d (String c (s +:+ r)) =
    Some (JNum (String c s), r)).
  unfold value_body. rewrite (skip_starts (String c _)) by (by apply number_starts).
  rewrite !(proj2 (Z.eqb_neq _ _)) by lia.
  assert (c <> "n"%char /\ c <> "t"%char /\ c <> "f"%char) as (Hn & Ht & Hf)
    by (assert (b2z "n" = 110 /\ b2z "t" = 116 /\ b2z "f" = 102) by done;
        split_and!; intros ->; lia).
  cbn [has_prefix]. apply Ascii.eqb_neq in Hn, Ht, Hf. rewrite Ascii.eqb_sym in Hn, Ht, Hf.
  rewrite Hn, Ht, Hf. cbn [andb]. rewrite string_app_cons in P. by rewrite P.
Qed.

Lemma quote_starts k r : starts (quote k +:+ r).
Proof. by (do 2 eexists; split_and!). Qed.

(** What the round trip says of one value, for any text [r] after it that
    does not make a number longer. *)
Definition reads_back (j : json) : Prop :=
  forall d r, delimited r -> plain_numbers j = true -> d + depth j <= maxNestingDepth ->
  exists n, value n d (print j +:+ r) = Some (clean j, r).

Lemma depth_cons (x : Z) l d :
  d + foldr Z.max 0 (x :: l) <= maxNestingDepth ->
  d + x <= maxNestingDepth /\ d + foldr Z.max 0 l <= maxNestingDepth.
Proof. simpl. lia. Qed.

Lemma elements_body_comma vs es d s v t :
  vs d s = Some (v, String "," t) ->
  elements_body vs es d s = '(l, r) ← es d t; Some (v :: l, r).
Proof. intros H. unfold elements_body. by rewrite H. Qed.

Lemma elements_body_end vs es d s v t :
  vs d s = Some (v, String "]" t) -> elements_body vs es d s = Some ([v], t).
Proof. intros H. unfold elements_body. by rewrite H. Qed.

(** A member whose value is followed by a comma, or by the end. *)
Lemma members_body_comma vs ms d k s v t :
  vs d s = Some (v, String "," t) ->
  members_body vs ms d (quote k +:+ String ":" s) =
  '(l, r) ← ms d t; Some ((sanitize k, v) :: l, r).
Proof.
  intros H. unfold members_body. rewrite skip_starts by apply quote_starts.
  unfold quote. autorewrite with go_str. change (b2z "034" =? 34) with true. cbv iota.
  rewrite unquote_escape. cbn [mbind option_bind].
  change (skip_ws (String ":" s)) with (String ":" s). cbv iota.
  change (b2z ":" =? 58) with true. cbv iota. by rewrite H.
Qed.

Lemma members_body_end vs ms d k s v t :
  vs d s = Some (v, String "}" t) ->
  members_body vs ms d (quote k +:+ String ":" s) = Some ([(sanitize k, v)], t).
Proof.
  intros H. unfold members_body. rewrite skip_starts by apply quote_starts.
  unfold quote. autorewrite with go_str. change (b2z "034" =? 34) with true. cbv iota.
  rewrite unquote_escape. cbn [mbind option_bind].
  change (skip_ws (String ":" s)) with (String ":" s). cbv iota.
  change (b2z ":" =? 58) with true. cbv iota. by rewrite H.
Qed.

Lemma elements_read l d r :
  l <> [] -> Forall reads_back l -> forallb plain_numbers l = true ->
  d + foldr Z.max 0 (map depth l) <= maxNestingDepth ->
  exists n, elements n d (join "," (map print l) +:+ String "]" r) = Some (map clean l, r).
Proof.
  induction l as [|j l IH]; [done|].
  intros _ [Hj Hl]%Forall_cons [Nj Nl]%andb_true_iff [Dj Dl]%depth_cons.
  destruct (decide (l = [])) as [->|Hne].
  - destruct (Hj d (String "]" r) ltac:(done) Nj Dj) as [n Hn]. exists (S n).
    by apply (elements_body_end (value n)).
  - destruct (IH Hne Hl Nl Dl) as [m Hm]. cbn [map].
    rewrite join_cons by (by destruct l). autorewrite with go_str.
    destruct (Hj d (String "," (join "," (map print l) +:+ String "]" r)) ltac:(done) Nj Dj) as [n Hn].
    exists (S (Nat.max n m)).
    etransitivity; [apply (elements_body_comma (value (Nat.max n m)) (elements (Nat.max n m)))|].
    + apply (value_mono n); [lia|exact Hn].
    + by rewrite (elements_mono m (Nat.max n m) _ _ _ (Nat.le_max_r _ _) Hm).
Qed.

Abbreviation print_member := (fun '(k, v) => quote k +:+ String ":" (print v)).

Lemma members_read ms d r :
  ms <> [] -> Forall (fun m => reads_back m.2) ms ->
  forallb (fun '(_, v) => plain_numbers v) ms = true ->
  d + foldr Z.max 0 (map (fun '(_, v) => depth v) ms) <= maxNestingDepth ->
  exists n, members n d (join "," (map print_member ms) +:+ String "}" r) =
    Some (map (fun '(k, v) => (sanitize k, clean v)) ms, r).
Proof.
  induction ms as [|[k v] ms IH]; [done|].
  intros _ [Hj Hl]%Forall_cons [Nj Nl]%andb_true_iff [Dj Dl]%depth_cons. simpl in Hj.
  destruct (decide (ms = [])) as [->|Hne].
  - destruct (Hj d (String "}" r) ltac:(done) Nj Dj) as [n Hn]. exists (S n).
    cbn [map join]. autorewrite with go_str. by apply (members_body_end (value n)).
  - destruct (IH Hne Hl Nl Dl) as [m Hm]. cbn [map].
    rewrite join_cons by (by destruct ms). autorewrite with go_str.
    destruct (Hj d (String "," (join "," (map print_member ms) +:+ String "}" r)) ltac:(done) Nj Dj)
      as [n Hn].
    exists (S (Nat.max n m)).
    etransitivity; [apply (members_body_comma (value (Nat.max n m)) (members (Nat.max n m)))|].
    + apply (value_mono n); [lia|exact Hn].
    + by rewrite (members_mono m (Nat.max n m) _ _ _ (Nat.le_max_r _ _) Hm).
Qed.

Lemma value_bracket n d t :
  d < maxNestingDepth -> starts t ->
  value (S n) d (String "[" t) = '(l, r) ← elements n (d + 1) t; Some (JArr l, r).
Proof.
  intros D (c & u & -> & E & H & _).
  change (value_body (members n) (elements n) d (String "[" (String c u)) =
    '(l, r) ← elements n (d + 1) (String c u); Some (JArr l, r)).
  unfold value_body. change (skip_ws (String "[" ?t)) with (String "[" t). cbv iota.
  change (b2z "[" =? 123) with false. change (b2z "[" =? 91) with true. cbv iota.
  rewrite (proj2 (Z.leb_gt _ _)) by done. rewrite E. by rewrite (proj2 (Z.eqb_neq _ _)).
Qed.

Lemma value_brace n d t :
  d < maxNestingDepth -> starts t ->
  value (S n) d (String "{" t) = '(ms, r) ← members n (d + 1) t; Some (JObj ms, r).
Proof.
  intros D (c & u & -> & E & _ & H).
  change (value_body (members n) (elements n) d (String "{" (String c u)) =
    '(ms, r) ← members n (d + 1) (String c u); Some (JObj ms, r)).
  unfold value_body. change (skip_ws (String "{" ?t)) with (String "{" t). cbv iota.
  change (b2z "{" =? 123) with true. cbv iota.
  rewrite (proj2 (Z.leb_gt _ _)) by done. rewrite E. by rewrite (proj2 (Z.eqb_neq _ _)).
Qed.

Lemma value_empty d t : d < maxNestingDepth ->
  value 1 d (String "[" (String "]" t)) = Some (JArr [], t) /\
  value 1 d (String "{" (String "}" t)) = Some (JObj [], t).
Proof. intros D. cbn. unfold value_body. cbn. by rewrite (proj2 (Z.leb_gt _ _)). Qed.

Lemma depth_max_nonneg l : 0 <= foldr Z.max 0 l.
Proof. induction l; simpl; lia. Qed.

Lemma value_reads_back j : reads_back j.
Proof.
  induction j as [|b|lit|s|l IH|ms IH] using json_ind'; intros d r Hr N D;
    [exists 1%nat; reflexivity|destruct b; exists 1%nat; reflexivity|
     exists 1%nat; by apply value_number|..].
  - exists 1%nat. cbn [print]. unfold quote. autorewrite with go_str.
    change (('(t, u) ← unquote (escape s +:+ String "034" r); Some (JStr t, u)) =
      Some (JStr (sanitize s), r)). by rewrite unquote_escape.
  - cbn [print depth] in *. autorewrite with go_str.
    pose proof (depth_max_nonneg (map depth l)).
    destruct l as [|j l]; [exists 1%nat; apply value_empty; lia|].
    destruct (elements_read (j :: l) (d + 1) r ltac:(done) IH N ltac:(lia)) as [n Hn].
    exists (S n). rewrite value_bracket; [by rewrite Hn|lia|].
    cbn [map]. apply andb_true_iff in N as [N _].
    destruct l; [by apply print_starts|].
    cbn [map]. rewrite join_cons by done. autorewrite with go_str. by apply print_starts.
  - cbn [print depth] in *. autorewrite with go_str.
    pose proof (depth_max_nonneg (map (fun '(_, v) => depth v) ms)).
    destruct ms as [|[k v] ms]; [exists 1%nat; apply value_empty; lia|].
    destruct (members_read ((k, v) :: ms) (d + 1) r ltac:(done) IH N ltac:(lia)) as [n Hn].
    exists (S n). rewrite value_brace; [by rewrite Hn|lia|].
    destruct ms as [|m ms]; [cbn [map join]|cbn [map]; rewrite join_cons by done];
      autorewrite with go_str; apply quote_starts.
Qed.

(** Reading back a printed text gives the value with its strings coerced
    to UTF-8. *)
Lemma parse_print j :
  plain_numbers j = true -> depth j <= maxNestingDepth -> parse (print j) = Some (clean j).
Proof.
  intros N D. destruct (value_reads_back j 0 "" I N D) as [n Hn].
  rewrite string_app_nil_r in Hn. by apply parse_fuel in Hn.
Qed.

(** ** Strings of a parsed text are valid UTF-8 *)

Fixpoint utf8_json (j : json) : bool :=
  match j with
  | JStr s => valid_utf8 s
  | JArr l => forallb utf8_json l
  | JObj ms => forallb (fun '(k, v) => valid_utf8 k && utf8_json v) ms
  | _ => true
  end.

Lemma cat_valid p o s r :
  (forall s' r', o = Some (s', r') -> valid_utf8 s' = true) -> valid_utf8 p = true ->
  cat p o = Some (s, r) -> valid_utf8 s = true.
Proof. destruct o as [[s' r']|]; simpl; intros; simplify_eq. apply valid_app; eauto. Qed.

Lemma simple_escape_valid e c : simple_escape e = Some c -> valid_utf8 (String c "") = true.
Proof.
  unfold simple_escape. intros H.
  repeat (destruct (_ =? _); [by injection H as <-|]). done.
Qed.

Lemma valid_2 c0 c1 : mb2 c0 c1 = true -> valid_utf8 (String c0 (String c1 "")) = true.
Proof. intros. unfold valid_utf8. by repeat fold_step. Qed.
Lemma valid_3 c0 c1 c2 :
  mb3 c0 c1 c2 = true -> valid_utf8 (String c0 (String c1 (String c2 ""))) = true.
Proof. intros. unfold valid_utf8. by repeat fold_step. Qed.
Lemma valid_4 c0 c1 c2 c3 :
  mb4 c0 c1 c2 c3 = true -> valid_utf8 (String c0 (String c1 (String c2 (String c3 "")))) = true.
Proof. intros. unfold valid_utf8. by repeat fold_step. Qed.

Lemma unquote_valid s t r : unquote s = Some (t, r) -> valid_utf8 t = true.
Proof.
  remember (String.length s) as n eqn:E. assert (String.length s <= n)%nat as L by lia.
  clear E. revert s L t r.
  induction n as [|n IH]; intros [|c0 s1] L t r H; simpl in L; try lia; [done..|].
  assert (forall s' p, (String.length s' <= String.length s1)%nat -> valid_utf8 p = true ->
    cat p (unquote s') = Some (t, r) -> valid_utf8 t = true) as K.
  { intros s' p Hs Hp. apply cat_valid; [|done]. intros ??. apply IH. lia. }
  assert (cat replacement (unquote s1) = Some (t, r) -> valid_utf8 t = true) as KR
    by (apply K; done).
  cbn [unquote] in H.
  destruct (b2z c0 =? 34); [by injection H as <- <-|].
  destruct (b2z c0 =? 92).
  { destruct s1 as [|e s2]; [done|]. destruct (b2z e =? 117).
    - do 4 (destruct s2 as [|? s2]; [done|]). destruct (hex4 _ _ _ _) as [x|]; [|done].
      assert (forall p, valid_utf8 p = true -> cat p (unquote s2) = Some (t, r) ->
        valid_utf8 t = true) as K2 by (intros p; apply K; simpl; lia).
      destruct (in_range _ _ _); [|eapply K2; [apply encode_rune_valid|exact H]].
      do 6 (destruct s2 as [|? s2]; [exact (K2 replacement eq_refl H)|]).
      destruct (hex4 a5 a6 a7 a8); [|exact (K2 replacement eq_refl H)].
      destruct (_ && _); [|exact (K2 replacement eq_refl H)].
      eapply K; [| |exact H]; [simpl; lia|apply encode_rune_valid].
    - destruct (simple_escape e) as [ch|] eqn:Es; [|done].
      eapply K; [| |exact H]; [simpl; lia|by eapply simple_escape_valid]. }
  destruct (b2z c0 <? 32); [done|].
  destruct (b2z c0 <? 128) eqn:E0; [eapply K; [| |exact H]; [lia|by rewrite valid_cons_ascii]|].
  destruct s1 as [|c1 s2]; [exact (KR H)|].
  destruct (mb2 c0 c1) eqn:E2; [eapply K; [| |exact H]; [simpl; lia|by apply valid_2]|].
  destruct s2 as [|c2 s3]; [exact (KR H)|].
  destruct (mb3 c0 c1 c2) eqn:E3; [eapply K; [| |exact H]; [simpl; lia|by apply valid_3]|].
  destruct s3 as [|c3 s4]; [exact (KR H)|].
  destruct (mb4 c0 c1 c2 c3) eqn:E4; [eapply K; [| |exact H]; [simpl; lia|by apply valid_4]|].
  exact (KR H).
Qed.

(** Every result of a reader satisfies [P]. *)
Definition yields {A} (P : A -> bool) (o : option (A * string)) : Prop :=
  forall v r, o = Some (v, r) -> P v = true.

Lemma yields_bind {A B} (P : A -> bool) (Q : B -> bool) (o : option (A * string)) (f : A -> B) :
  yields P o -> (forall x, P x = true -> Q (f x) = true) -> yields Q ('(x, r) ← o; Some (f x, r)).
Proof. intros H F v r E. destruct o as [[x r']|]; simpl in E; simplify_eq. eauto. Qed.

Lemma yields_None {A} (P : A -> bool) : yields P None.
Proof. by intros ???. Qed.
#[local] Hint Resolve yields_None : go_core.

Abbreviation utf8_members := (forallb (fun '(k, v) => valid_utf8 k && utf8_json v)).

Lemma value_body_utf8 ms es d s :
  (forall d s, yields utf8_members (ms d s)) -> (forall d s, yields (forallb utf8_json) (es d s)) ->
  yields utf8_json (value_body ms es d s).
Proof.
  intros IHm IHe. unfold value_body.
  destruct (skip_ws s) as [|c s1]; [auto with go_core|].
  destruct (b2z c =? 123).
  { destruct (_ <=? _); [auto with go_core|].
    destruct (skip_ws s1); [auto with go_core|].
    destruct (_ =? _); [intros ?? ?; by simplify_eq|]. by eapply yields_bind. }
  destruct (b2z c =? 91).
  { destruct (_ <=? _); [auto with go_core|].
    destruct (skip_ws s1); [auto with go_core|].
    destruct (_ =? _); [intros ?? ?; by simplify_eq|]. by eapply yields_bind. }
  destruct (b2z c =? 34); [by eapply yields_bind; [intros ??; apply unquote_valid|]|].
  repeat (destruct (has_prefix _ _); [intros ?? ?; by simplify_eq|]).
  by apply (yields_bind (fun _ => true)).
Qed.

Lemma members_body_utf8 vs ms d s :
  (forall d s, yields utf8_json (vs d s)) -> (forall d s, yields utf8_members (ms d s)) ->
  yields utf8_members (members_body vs ms d s).
Proof.
  intros IHv IHm. unfold members_body.
  destruct (skip_ws s) as [|q s1]; [auto with go_core|].
  destruct (_ =? _); [|auto with go_core].
  destruct (unquote s1) as [[k s2]|] eqn:EU; [|apply yields_None].
  apply unquote_valid in EU. simpl.
  destruct (skip_ws s2) as [|col s3]; [auto with go_core|].
  destruct (_ =? _); [|auto with go_core].
  destruct (vs d s3) as [[v s4]|] eqn:EV; [|apply yields_None]. apply IHv in EV. simpl.
  destruct (skip_ws s4) as [|c s5]; [auto with go_core|].
  destruct (b2z c =? 44).
  { eapply yields_bind; [apply IHm|]. intros x Hx. simpl. by rewrite EU, EV, Hx. }
  destruct (b2z c =? 125); [|auto with go_core].
  intros ?? ?. simplify_eq. simpl. by rewrite EU, EV.
Qed.

Lemma elements_body_utf8 vs es d s :
  (forall d s, yields utf8_json (vs d s)) -> (forall d s, yields (forallb utf8_json) (es d s)) ->
  yields (forallb utf8_json) (elements_body vs es d s).
Proof.
  intros IHv IHe. unfold elements_body.
  destruct (vs d s) as [[v s1]|] eqn:EV; [|apply yields_None]. apply IHv in EV. simpl.
  destruct (skip_ws s1) as [|c s2]; [auto with go_core|].
  destruct (b2z c =? 44).
  { eapply yields_bind; [apply IHe|]. intros x Hx. simpl. by rewrite EV, Hx. }
  destruct (b2z c =? 93); [|auto with go_core].
  intros ?? ?. simplify_eq. simpl. by rewrite EV.
Qed.

Lemma readers_utf8 n :
  (forall d s, yields utf8_json (value n d s)) /\
  (forall d s, yields utf8_members (members n d s)) /\
  (forall d s, yields (forallb utf8_json) (elements n d s)).
Proof.
  induction n as [|n (IHv & IHm & IHe)]; [done|]. split_and!; intros d s; cbn.
  - by apply value_body_utf8.
  - by apply members_body_utf8.
  - by apply elements_body_utf8.
Qed.

Lemma parse_utf8 s j : parse s = Some j -> utf8_json j = true.
Proof.
  unfold parse. destruct (value _ 0 s) as [[v r]|] eqn:E; simpl; [|done].
  case_decide; intros; simplify_eq. by eapply readers_utf8.
Qed.
