(* ===== verification/Types.v ===== *)
(** * The data of [roo/typedefs.go] and [roo/permissions.go], and how
    [encoding/json] stores it

    Records for the structs that travel through the Raft log, the HTTP API
    and snapshots, with their [json.Marshal] and [json.Unmarshal].
    Unmarshalling decodes into an existing value: [null] and unknown
    members change nothing, a member of the wrong type is an error that
    leaves its field alone while the rest is still decoded, member names
    match without regard to case.  (A JSON array decoded twice into one
    slice, by a repeated member name, may show older elements past the
    slice's length; they are taken as zero here.) *)
From S2P Require Import Prelude Bytes Utf8 Json.
From stdpp Require Import pretty.
#[local] Open Scope Z_scope.

(** ** The structs *)

Record KVData := mkKVData { Key : string; Val : slice }.

(** [Batch] is a slice of pointers: the slice and each pointer may be nil. *)
Record KVBatch := mkKVBatch { BatchAction : string; Batch : option (list (option KVData)) }.

Record KVAction := mkKVAction { Action : string; Data : option KVData }.

Record TypedString := mkTypedString { TVal : string; TRune : Z }.

Record Permission := mkPermission {
  PEntity : TypedString; PContext : TypedString; PAction : TypedString;
  PRight : slice; PDelete : bool }.

Record Request := mkRequest {
  User : TypedString; Entities : option (list TypedString); Resource : TypedString;
  RAction : TypedString; RRight : slice }.

Record ClusterStatus := mkClusterStatus {
  Client : string; Binding : string; Conns : Z; ReplicaID : Z; ShardID : Z;
  Hosts : option (list string); Instantiated : Z; Started : Z }.

#[export] Instance KVData_eq_dec : EqDecision KVData.
Proof. solve_decision. Defined.
#[export] Instance TypedString_eq_dec : EqDecision TypedString.
Proof. solve_decision. Defined.

Definition zeroKVData : KVData := mkKVData "" None.
Definition zeroTypedString : TypedString := mkTypedString "" 0.
Definition zeroPermission : Permission :=
  mkPermission zeroTypedString zeroTypedString zeroTypedString None false.
Definition zeroRequest : Request :=
  mkRequest zeroTypedString None zeroTypedString zeroTypedString None.
Definition zeroClusterStatus : ClusterStatus := mkClusterStatus "" "" 0 0 0 None 0 0.

(** ** Decoding *)

(** The new value, and [false] when an error was recorded. *)
Definition decoder (T : Type) : Type := T -> json -> T * bool.

(** Member names match up to the simple case folding of the Go library,
    under which U+212A and U+017F count as [K] and [S]. *)
Definition fold_name (s : string) : string :=
  utf8_fold
    (fun raw r acc =>
       (if in_range 97 122 r then String (z2b (r - 32)) ""
        else if r =? 8490 then "K" else if r =? 383 then "S" else raw) +:+ acc)
    (fun c acc => String c acc) "" s.

Definition field_is (name key : string) : bool :=
  bool_decide (fold_name key = fold_name name).

Definition dec_string : decoder string := fun cur j =>
  match j with
  | JStr s => (s, true)
  | JNull => (cur, true)
  | _ => (cur, false)
  end.

Definition dec_bool : decoder bool := fun cur j =>
  match j with
  | JBool b => (b, true)
  | JNull => (cur, true)
  | _ => (cur, false)
  end.

(** [strconv.ParseUint] and [strconv.ParseInt] on a decimal literal. *)
Fixpoint digits_val (acc : Z) (s : string) : option Z :=
  match s with
  | "" => Some acc
  | String c s' => if is_digit c then digits_val (acc * 10 + (b2z c - 48)) s' else None
  end.

Definition ParseUint (s : string) : option Z :=
  match s with
  | "" => None
  | _ => z ← digits_val 0 s; if z <? 2 ^ 64 then Some z else None
  end.

Definition parse_int (lo hi : Z) (s : string) : option Z :=
  z ← match s with
      | "" => None
      | String c s' =>
          if b2z c =? 45 then
            match s' with
            | "" => None
            | _ => if lo <? 0 then Z.opp <$> digits_val 0 s' else None
            end
          else digits_val 0 s
      end;
  if in_range lo hi z then Some z else None.

Definition dec_int (lo hi : Z) : decoder Z := fun cur j =>
  match j with
  | JNum lit =>
      match parse_int lo hi lit with
      | Some z => (z, true)
      | None => (cur, false)
      end
  | JNull => (cur, true)
  | _ => (cur, false)
  end.

Definition dec_rune : decoder Z := dec_int (- 2 ^ 31) (2 ^ 31 - 1).
Definition dec_int64 : decoder Z := dec_int (- 2 ^ 63) (2 ^ 63 - 1).
Definition dec_uint64 : decoder Z := dec_int 0 (2 ^ 64 - 1).

(** A slice: the elements present are decoded in place. *)
Fixpoint dec_elements {T} (zero : T) (dec : decoder T) (cur : list T) (l : list json)
    : list T * bool :=
  match l with
  | [] => ([], true)
  | j :: l' =>
      let '(x, ok) := dec (default zero (head cur)) j in
      let '(xs, oks) := dec_elements zero dec (tail cur) l' in
      (x :: xs, ok && oks)
  end.

Definition dec_slice {T} (zero : T) (dec : decoder T) : decoder (option (list T)) := fun cur j =>
  match j with
  | JNull => (None, true)
  | JArr l => let '(xs, ok) := dec_elements zero dec (default [] cur) l in (Some xs, ok)
  | _ => (cur, false)
  end.

(** [[]byte]: base64 text, or an array of numbers. *)
Definition string_of_bytes (l : list Z) : string := foldr (fun z s => String (z2b z) s) "" l.
Fixpoint bytes_of_string (s : string) : list Z :=
  match s with "" => [] | String c s' => b2z c :: bytes_of_string s' end.

Definition dec_bytes : decoder slice := fun cur j =>
  match j with
  | JNull => (None, true)
  | JStr s =>
      match Base64.decode s with
      | Some b => (Some b, true)
      | None => (cur, false)
      end
  | JArr l =>
      let '(bs, ok) := dec_elements 0 (dec_int 0 255) (bytes_of_string (slice_bytes cur)) l in
      (Some (string_of_bytes bs), ok)
  | _ => (cur, false)
  end.

(** A pointer: [null] makes it nil, anything else allocates if needed. *)
Definition dec_ptr {T} (zero : T) (dec : decoder T) : decoder (option T) := fun cur j =>
  match j with
  | JNull => (None, true)
  | _ => let '(x, ok) := dec (default zero cur) j in (Some x, ok)
  end.

(** A struct, given what each member does to it. *)
Definition dec_struct {T} (member : string -> decoder T) : decoder T := fun cur j =>
  match j with
  | JNull => (cur, true)
  | JObj ms =>
      foldl (fun '(t, ok) '(k, v) => let '(t', ok') := member k t v in (t', ok && ok'))
        (cur, true) ms
  | _ => (cur, false)
  end.

(** Decode one field of a struct. *)
Definition field {T F} (dec : decoder F) (get : T -> F) (set : T -> F -> T) : decoder T :=
  fun t j => let '(x, ok) := dec (get t) j in (set t x, ok).

Definition no_field {T} : decoder T := fun t _ => (t, true).

Definition dec_KVData : decoder KVData := dec_struct (fun k =>
  if field_is "Key" k then field dec_string Key (fun t x => mkKVData x (Val t))
  else if field_is "Val" k then field dec_bytes Val (fun t x => mkKVData (Key t) x)
  else no_field).

Definition dec_KVBatch : decoder KVBatch := dec_struct (fun k =>
  if field_is "Action" k
  then field dec_string BatchAction (fun t x => mkKVBatch x (Batch t))
  else if field_is "Batch" k
  then field (dec_slice None (dec_ptr zeroKVData dec_KVData)) Batch
         (fun t x => mkKVBatch (BatchAction t) x)
  else no_field).

Definition dec_KVAction : decoder KVAction := dec_struct (fun k =>
  if field_is "Action" k then field dec_string Action (fun t x => mkKVAction x (Data t))
  else if field_is "Data" k
  then field (dec_ptr zeroKVData dec_KVData) Data (fun t x => mkKVAction (Action t) x)
  else no_field).

Definition dec_TypedString : decoder TypedString := dec_struct (fun k =>
  if field_is "Val" k then field dec_string TVal (fun t x => mkTypedString x (TRune t))
  else if field_is "Rune" k then field dec_rune TRune (fun t x => mkTypedString (TVal t) x)
  else no_field).

Definition dec_Permission : decoder Permission := dec_struct (fun k =>
  if field_is "Entity" k then field dec_TypedString PEntity
    (fun t x => mkPermission x (PContext t) (PAction t) (PRight t) (PDelete t))
  else if field_is "Context" k then field dec_TypedString PContext
    (fun t x => mkPermission (PEntity t) x (PAction t) (PRight t) (PDelete t))
  else if field_is "Action" k then field dec_TypedString PAction
    (fun t x => mkPermission (PEntity t) (PContext t) x (PRight t) (PDelete t))
  else if field_is "Right" k then field dec_bytes PRight
    (fun t x => mkPermission (PEntity t) (PContext t) (PAction t) x (PDelete t))
  else if field_is "Delete" k then field dec_bool PDelete
    (fun t x => mkPermission (PEntity t) (PContext t) (PAction t) (PRight t) x)
  else no_field).

Definition dec_Request : decoder Request := dec_struct (fun k =>
  if field_is "User" k then field dec_TypedString User
    (fun t x => mkRequest x (Entities t) (Resource t) (RAction t) (RRight t))
  else if field_is "Entities" k
  then field (dec_slice zeroTypedString dec_TypedString) Entities
    (fun t x => mkRequest (User t) x (Resource t) (RAction t) (RRight t))
  else if field_is "Resource" k then field dec_TypedString Resource
    (fun t x => mkRequest (User t) (Entities t) x (RAction t) (RRight t))
  else if field_is "Action" k then field dec_TypedString RAction
    (fun t x => mkRequest (User t) (Entities t) (Resource t) x (RRight t))
  else if field_is "Right" k then field dec_bytes RRight
    (fun t x => mkRequest (User t) (Entities t) (Resource t) (RAction t) x)
  else no_field).

Definition dec_ClusterStatus : decoder ClusterStatus := dec_struct (fun k =>
  if field_is "Client" k then field dec_string Client (fun t x =>
    mkClusterStatus x (Binding t) (Conns t) (ReplicaID t) (ShardID t) (Hosts t)
      (Instantiated t) (Started t))
  else if field_is "Binding" k then field dec_string Binding (fun t x =>
    mkClusterStatus (Client t) x (Conns t) (ReplicaID t) (ShardID t) (Hosts t)
      (Instantiated t) (Started t))
  else if field_is "Conns" k then field dec_int64 Conns (fun t x =>
    mkClusterStatus (Client t) (Binding t) x (ReplicaID t) (ShardID t) (Hosts t)
      (Instantiated t) (Started t))
  else if field_is "ReplicaID" k then field dec_uint64 ReplicaID (fun t x =>
    mkClusterStatus (Client t) (Binding t) (Conns t) x (ShardID t) (Hosts t)
      (Instantiated t) (Started t))
  else if field_is "ShardID" k then field dec_uint64 ShardID (fun t x =>
    mkClusterStatus (Client t) (Binding t) (Conns t) (ReplicaID t) x (Hosts t)
      (Instantiated t) (Started t))
  else if field_is "Hosts" k then field (dec_slice "" dec_string) Hosts (fun t x =>
    mkClusterStatus (Client t) (Binding t) (Conns t) (ReplicaID t) (ShardID t) x
      (Instantiated t) (Started t))
  else if field_is "Instantiated" k then field dec_int64 Instantiated (fun t x =>
    mkClusterStatus (Client t) (Binding t) (Conns t) (ReplicaID t) (ShardID t) (Hosts t)
      x (Started t))
  else if field_is "Started" k then field dec_int64 Started (fun t x =>
    mkClusterStatus (Client t) (Binding t) (Conns t) (ReplicaID t) (ShardID t) (Hosts t)
      (Instantiated t) x)
  else no_field).

(** [json.Unmarshal(text, &v)]: a malformed text changes nothing. *)
Definition Unmarshal {T} (dec : decoder T) (cur : T) (text : string) : T * bool :=
  match parse text with
  | Some j => dec cur j
  | None => (cur, false)
  end.

(** ** Encoding *)

Definition enc_bytes (b : slice) : json :=
  match b with
  | None => JNull
  | Some s => JStr (Base64.encode s)
  end.

Definition enc_KVData (d : KVData) : json :=
  JObj [("Key", JStr (Key d)); ("Val", enc_bytes (Val d))].

Definition enc_ptr {T} (enc : T -> json) (p : option T) : json :=
  match p with
  | None => JNull
  | Some x => enc x
  end.

Definition enc_KVAction (a : KVAction) : json :=
  JObj [("Action", JStr (Action a)); ("Data", enc_ptr enc_KVData (Data a))].

Definition enc_KVBatch (b : KVBatch) : json :=
  JObj [("Action", JStr (BatchAction b));
        ("Batch", match Batch b with
                  | None => JNull
                  | Some l => JArr (map (enc_ptr enc_KVData) l)
                  end)].

(** [json.Marshal] of the three structs; it never fails on them. *)
Definition MarshalKVData (d : KVData) : string := print (enc_KVData d).
Definition MarshalKVAction (a : KVAction) : string := print (enc_KVAction a).
Definition MarshalKVBatch (b : KVBatch) : string := print (enc_KVBatch b).

#[global] Arguments MarshalKVData : simpl never.
#[global] Arguments MarshalKVAction : simpl never.
#[global] Arguments MarshalKVBatch : simpl never.

(** ** What reading back a written struct gives *)

(** A key or an action as it survives a JSON text. *)
Definition sanitize_data (d : KVData) : KVData := mkKVData (sanitize (Key d)) (Val d).

Definition sanitize_action (a : KVAction) : KVAction :=
  mkKVAction (sanitize (Action a)) (option_map sanitize_data (Data a)).

Definition sanitize_batch (b : KVBatch) : KVBatch :=
  mkKVBatch (sanitize (BatchAction b)) (option_map (map (option_map sanitize_data)) (Batch b)).

Lemma plain_ascii s : Base64.all_plain s = true -> all_ascii s = true.
Proof.
  induction s as [|c s IH]; simpl; [done|]. unfold Base64.plain.
  intros [? ?]%andb_true_iff. rewrite IH by done. lia.
Qed.

Lemma sanitize_base64 s : sanitize (Base64.encode s) = Base64.encode s.
Proof. apply sanitize_valid, ascii_valid, plain_ascii, Base64.encode_plain. Qed.

Lemma dec_bytes_clean cur b : dec_bytes cur (clean (enc_bytes b)) = (b, true).
Proof.
  destruct b as [s|]; [|done]. simpl. by rewrite sanitize_base64, Base64.decode_encode.
Qed.

(** Decide which member a literal name selects. *)
Ltac eval_fields :=
  repeat (cbn [foldl dec_string Key Val Action Data BatchAction Batch];
  match goal with
  | |- context [field_is ?a ?b] =>
      let v := eval vm_compute in (field_is a b) in
      change (field_is a b) with v
  end; cbv beta iota); cbn [Key Val Action Data BatchAction Batch].

Lemma dec_KVData_obj cur s v :
  dec_KVData cur (JObj [("Key", JStr s); ("Val", v)]) =
  let '(x, ok) := dec_bytes (Val cur) v in (mkKVData s x, ok).
Proof.
  unfold dec_KVData, dec_struct, field, no_field. eval_fields. by destruct (dec_bytes _ _).
Qed.

Lemma dec_KVAction_obj cur s v :
  dec_KVAction cur (JObj [("Action", JStr s); ("Data", v)]) =
  let '(x, ok) := dec_ptr zeroKVData dec_KVData (Data cur) v in (mkKVAction s x, ok).
Proof.
  unfold dec_KVAction, dec_struct, field, no_field. eval_fields. by destruct (dec_ptr _ _ _ _).
Qed.

Lemma dec_KVBatch_obj cur s v :
  dec_KVBatch cur (JObj [("Action", JStr s); ("Batch", v)]) =
  let '(x, ok) := dec_slice None (dec_ptr zeroKVData dec_KVData) (Batch cur) v in
  (mkKVBatch s x, ok).
Proof.
  unfold dec_KVBatch, dec_struct, field, no_field. eval_fields. by destruct (dec_slice _ _ _ _).
Qed.

Lemma dec_KVData_clean cur d : dec_KVData cur (clean (enc_KVData d)) = (sanitize_data d, true).
Proof.
  change (clean (enc_KVData d)) with
    (JObj [("Key", JStr (sanitize (Key d))); ("Val", clean (enc_bytes (Val d)))]).
  by rewrite dec_KVData_obj, dec_bytes_clean.
Qed.

Lemma dec_ptr_clean cur p :
  dec_ptr zeroKVData dec_KVData cur (clean (enc_ptr enc_KVData p)) = (option_map sanitize_data p, true).
Proof.
  destruct p as [d|]; [|done]. cbn [enc_ptr option_map].
  unfold dec_ptr. destruct (clean (enc_KVData d)) eqn:E; try discriminate E.
  by rewrite <- E, dec_KVData_clean.
Qed.

Lemma dec_KVAction_clean cur a :
  dec_KVAction cur (clean (enc_KVAction a)) = (sanitize_action a, true).
Proof.
  change (clean (enc_KVAction a)) with
    (JObj [("Action", JStr (sanitize (Action a)));
           ("Data", clean (enc_ptr enc_KVData (Data a)))]).
  by rewrite dec_KVAction_obj, dec_ptr_clean.
Qed.

Lemma dec_elements_clean cur l :
  dec_elements None (dec_ptr zeroKVData dec_KVData) cur (map clean (map (enc_ptr enc_KVData) l)) =
  (map (option_map sanitize_data) l, true).
Proof.
  revert cur. induction l as [|p l IH]; intros cur; [done|].
  cbn [map dec_elements]. rewrite dec_ptr_clean. by rewrite IH.
Qed.

Lemma dec_KVBatch_clean cur b :
  dec_KVBatch cur (clean (enc_KVBatch b)) = (sanitize_batch b, true).
Proof.
  destruct b as [a [l|]]; [|reflexivity].
  change (clean (enc_KVBatch (mkKVBatch a (Some l)))) with
    (JObj [("Action", JStr (sanitize a));
           ("Batch", JArr (map clean (map (enc_ptr enc_KVData) l)))]).
  rewrite dec_KVBatch_obj. cbn [dec_slice]. by rewrite dec_elements_clean.
Qed.

Lemma enc_KVData_ok d : plain_numbers (enc_KVData d) = true /\ depth (enc_KVData d) = 1.
Proof. by destruct d as [k [v|]]. Qed.

Lemma enc_ptr_ok p :
  plain_numbers (enc_ptr enc_KVData p) = true /\ 0 <= depth (enc_ptr enc_KVData p) <= 1.
Proof. destruct p as [d|]; [|done]. simpl enc_ptr. by destruct (enc_KVData_ok d) as [? ->]. Qed.

Lemma enc_KVAction_ok a :
  plain_numbers (enc_KVAction a) = true /\ depth (enc_KVAction a) <= 2.
Proof. destruct (enc_ptr_ok (Data a)) as [Hn Hd]. split; simpl; [by rewrite Hn|lia]. Qed.

Lemma enc_list_ok l :
  forallb plain_numbers (map (enc_ptr enc_KVData) l) = true /\
  foldr Z.max 0 (map depth (map (enc_ptr enc_KVData) l)) <= 1.
Proof.
  induction l as [|p l [IHn IHd]]; [done|]. destruct (enc_ptr_ok p) as [Hn Hd].
  cbn [map forallb foldr]. rewrite Hn. split; [done|lia].
Qed.

Lemma enc_KVBatch_ok b :
  plain_numbers (enc_KVBatch b) = true /\ depth (enc_KVBatch b) <= 3.
Proof.
  destruct b as [a [l|]]; [|done]. destruct (enc_list_ok l) as [Hn Hd].
  split; cbn [enc_KVBatch plain_numbers depth forallb map foldr Batch]; [by rewrite Hn|lia].
Qed.

(** The parser inverts the printer on the three structs. *)
Lemma parse_KVData d : parse (MarshalKVData d) = Some (clean (enc_KVData d)).
Proof.
  apply parse_print; [apply enc_KVData_ok|].
  destruct (enc_KVData_ok d) as [_ ->]. done.
Qed.

Lemma parse_KVAction a : parse (MarshalKVAction a) = Some (clean (enc_KVAction a)).
Proof.
  apply parse_print; [apply enc_KVAction_ok|].
  destruct (enc_KVAction_ok a). unfold maxNestingDepth. lia.
Qed.

Lemma parse_KVBatch b : parse (MarshalKVBatch b) = Some (clean (enc_KVBatch b)).
Proof.
  apply parse_print; [apply enc_KVBatch_ok|].
  destruct (enc_KVBatch_ok b). unfold maxNestingDepth. lia.
Qed.

Lemma Unmarshal_KVData cur d :
  Unmarshal dec_KVData cur (MarshalKVData d) = (sanitize_data d, true).
Proof. unfold Unmarshal. by rewrite parse_KVData, dec_KVData_clean. Qed.

Lemma Unmarshal_KVAction cur a :
  Unmarshal dec_KVAction cur (MarshalKVAction a) = (sanitize_action a, true).
Proof. unfold Unmarshal. by rewrite parse_KVAction, dec_KVAction_clean. Qed.

Lemma Unmarshal_KVBatch cur b :
  Unmarshal dec_KVBatch cur (MarshalKVBatch b) = (sanitize_batch b, true).
Proof. unfold Unmarshal. by rewrite parse_KVBatch, dec_KVBatch_clean. Qed.

(** Reading a struct as one of the others: the members that do not occur
    keep their values. *)
Lemma Unmarshal_data_as_batch cur d :
  Unmarshal dec_KVBatch cur (MarshalKVData d) = (cur, true).
Proof. unfold Unmarshal. rewrite parse_KVData. by destruct d as [k [v|]]. Qed.

Lemma Unmarshal_data_as_action cur d :
  Unmarshal dec_KVAction cur (MarshalKVData d) = (cur, true).
Proof. unfold Unmarshal. rewrite parse_KVData. by destruct d as [k [v|]]. Qed.

Lemma Unmarshal_action_as_batch cur a :
  Unmarshal dec_KVBatch cur (MarshalKVAction a) =
  (mkKVBatch (sanitize (Action a)) (Batch cur), true).
Proof. unfold Unmarshal. rewrite parse_KVAction. by destruct a as [x [[k [v|]]|]]. Qed.

(** ** Keys that come out of a text are valid UTF-8 *)

(** A property of the value a struct decoder keeps, given that each member
    keeps it. *)
Lemma dec_struct_keeps {T} (P : T -> Prop) (member : string -> decoder T) cur j :
  (forall k v t, utf8_json v = true -> P t -> P (member k t v).1) ->
  utf8_json j = true -> P cur -> P (dec_struct member cur j).1.
Proof.
  intros HM Hj Hc. destruct j as [| | | | |ms]; try done. simpl in *.
  generalize true as ok. revert cur Hc.
  induction ms as [|[k v] ms IH]; simpl in *; intros cur Hc ok; [done|].
  apply andb_true_iff in Hj as [[_ Hv]%andb_true_iff Hms].
  specialize (HM k v cur Hv Hc). destruct (member k cur v) as [t' ok']. by apply IH.
Qed.

Lemma dec_string_utf8 cur j :
  utf8_json j = true -> valid_utf8 cur = true -> valid_utf8 (dec_string cur j).1 = true.
Proof. by destruct j. Qed.

Definition utf8_key (d : KVData) : Prop := valid_utf8 (Key d) = true.

Lemma dec_KVData_utf8 cur j :
  utf8_json j = true -> utf8_key cur -> utf8_key (dec_KVData cur j).1.
Proof.
  intros Hj. apply dec_struct_keeps; [|done]. intros k v t Hv Ht. unfold field.
  destruct (field_is "Key" k).
  - pose proof (dec_string_utf8 (Key t) v Hv Ht). by destruct (dec_string _ _).
  - destruct (field_is "Val" k); [|done]. by destruct (dec_bytes _ _).
Qed.

Definition utf8_ptr (p : option KVData) : Prop := forall d, p = Some d -> utf8_key d.

Lemma dec_ptr_utf8 cur j :
  utf8_json j = true -> utf8_ptr cur -> utf8_ptr (dec_ptr zeroKVData dec_KVData cur j).1.
Proof.
  intros Hj Hc.
  assert (utf8_key (dec_KVData (default zeroKVData cur) j).1) as K.
  { apply dec_KVData_utf8; [done|]. destruct cur; [by apply Hc|done]. }
  unfold dec_ptr. destruct j; [by intros ?|..];
    destruct (dec_KVData _ _); intros ? [= <-]; exact K.
Qed.

Lemma dec_elements_utf8 cur l :
  forallb utf8_json l = true -> Forall utf8_ptr cur ->
  Forall utf8_ptr (dec_elements None (dec_ptr zeroKVData dec_KVData) cur l).1.
Proof.
  revert cur. induction l as [|j l IH]; intros cur Hl Hc; [constructor|].
  cbn [forallb] in Hl. apply andb_true_iff in Hl as [Hj Hl].
  assert (utf8_ptr (default None (head cur))) as Hh by (destruct Hc; [by intros ?|done]).
  assert (Forall utf8_ptr (tail cur)) as Ht by (by destruct Hc).
  pose proof (dec_ptr_utf8 _ j Hj Hh) as H1. specialize (IH _ Hl Ht). cbn [dec_elements].
  destruct (dec_ptr _ _ _ _), (dec_elements _ _ _ _). by constructor.
Qed.

Lemma dec_KVBatch_utf8 cur j l :
  utf8_json j = true -> (forall l, Batch cur = Some l -> Forall utf8_ptr l) ->
  Batch (dec_KVBatch cur j).1 = Some l -> Forall utf8_ptr l.
Proof.
  intros Hj Hc. revert l.
  apply (dec_struct_keeps (fun t => forall l, Batch t = Some l -> Forall utf8_ptr l)); try done.
  intros k v t Hv Ht l. unfold field. destruct (field_is "Action" k).
  { destruct (dec_string _ _). apply Ht. }
  destruct (field_is "Batch" k); [|apply Ht].
  unfold dec_slice. destruct v as [| | | |js|]; try by (apply Ht || done).
  assert (Forall utf8_ptr (default [] (Batch t))) as Hd.
  { destruct (Batch t); [by apply Ht|constructor]. }
  pose proof (dec_elements_utf8 _ js Hv Hd) as K.
  destruct (dec_elements _ _ _ _). intros [= <-]. exact K.
Qed.

Lemma dec_KVAction_utf8 cur j :
  utf8_json j = true -> utf8_ptr (Data cur) -> utf8_ptr (Data (dec_KVAction cur j).1).
Proof.
  intros Hj Hc. apply (dec_struct_keeps (fun t => utf8_ptr (Data t))); try done.
  intros k v t Hv Ht. unfold field. destruct (field_is "Action" k).
  { by destruct (dec_string _ _). }
  destruct (field_is "Data" k); [|done].
  pose proof (dec_ptr_utf8 (Data t) v Hv Ht). by destruct (dec_ptr _ _ _ _).
Qed.

(** The same for a whole text. *)
Lemma Unmarshal_keeps {T} (P : T -> Prop) (dec : decoder T) cur text :
  (forall j, utf8_json j = true -> P (dec cur j).1) -> P cur ->
  P (Unmarshal dec cur text).1.
Proof.
  intros Hd Hc. unfold Unmarshal. destruct (parse text) eqn:E; [|done].
  by apply Hd, (parse_utf8 text).
Qed.

(** ** Decimal texts are read back *)

Lemma digits_val_ge s : forall acc z, 0 <= acc -> digits_val acc s = Some z -> acc <= z.
Proof.
  induction s as [|c s IH]; intros acc z Ha E; simpl in E; [by simplify_eq|].
  destruct (is_digit c) eqn:Ec; [|done]. unfold is_digit, in_range in Ec.
  apply IH in E; lia.
Qed.

Lemma ParseUint_range s z : ParseUint s = Some z -> 0 <= z < 2 ^ 64.
Proof.
  unfold ParseUint. destruct s as [|c s]; [done|]. destruct (digits_val 0 _) as [x|] eqn:E; [|done].
  cbn [mbind option_bind]. destruct (Z.ltb_spec x (2 ^ 64)); [|done]. intros [= <-].
  apply digits_val_ge in E; lia.
Qed.

Lemma pretty_N_char_val d :
  (d < 10)%N -> is_digit (pretty_N_char d) = true /\ b2z (pretty_N_char d) - 48 = Z.of_N d.
Proof.
  intros Hd. assert (d ∈ map N.of_nat (seq 0 10)) as H.
  { apply list_elem_of_fmap. exists (N.to_nat d). rewrite N2Nat.id. split; [done|].
    apply elem_of_seq. lia. }
  repeat (apply elem_of_cons in H as [-> |H]; [by vm_compute|]). by apply elem_of_nil in H.
Qed.

Lemma digits_val_pretty x s : digits_val 0 (pretty_N_go x s) = digits_val (Z.of_N x) s.
Proof.
  revert s. induction (N.lt_wf_0 x) as [x _ IH]; intros s.
  assert (x = 0 \/ 0 < x)%N as [->|Hx] by lia; [done|].
  rewrite pretty_N_go_step by done. rewrite IH by (by apply N.div_lt).
  destruct (pretty_N_char_val (x mod 10)) as [Hc Hv]; [by apply N.mod_lt|].
  simpl. rewrite Hc, Hv. f_equal. rewrite N2Z.inj_div, N2Z.inj_mod. pose proof (Z.div_mod (Z.of_N x) 10). lia.
Qed.

Lemma ParseUint_FormatUint z : 0 <= z < 2 ^ 64 -> ParseUint (Decimal.FormatUint z) = Some z.
Proof.
  intros Hz. unfold Decimal.FormatUint, pretty, pretty_N. case_decide as E.
  - replace z with 0 by lia. done.
  - assert (digits_val 0 (pretty_N_go (Z.to_N z) "") = Some z) as D.
    { rewrite digits_val_pretty. simpl. f_equal. lia. }
    unfold ParseUint. destruct (pretty_N_go (Z.to_N z) "") as [|c s] eqn:Ep.
    { cbn in D. injection D as D. lia. }
    rewrite D. cbn [mbind option_bind]. rewrite (proj2 (Z.ltb_lt _ _)); [done|lia].
Qed.

(** ** The status of a node *)

(** An integer as a JSON number. *)
Definition enc_int (n : Z) : json :=
  JNum (if n <? 0 then String "-" (Decimal.FormatUint (- n)) else Decimal.FormatUint n).

Definition enc_ClusterStatus (s : ClusterStatus) : json :=
  JObj [("Client", JStr (Client s)); ("Binding", JStr (Binding s)); ("Conns", enc_int (Conns s));
        ("ReplicaID", enc_int (ReplicaID s)); ("ShardID", enc_int (ShardID s));
        ("Hosts", match Hosts s with None => JNull | Some l => JArr (map JStr l) end);
        ("Instantiated", enc_int (Instantiated s)); ("Started", enc_int (Started s))].

Definition MarshalClusterStatus (s : ClusterStatus) : string := print (enc_ClusterStatus s).
#[global] Arguments MarshalClusterStatus : simpl never.

(** Fields within the ranges of their types. *)
Definition status_ok (s : ClusterStatus) : Prop :=
  - 2 ^ 63 <= Conns s < 2 ^ 63 /\ 0 <= ReplicaID s < 2 ^ 64 /\ 0 <= ShardID s < 2 ^ 64 /\
  - 2 ^ 63 <= Instantiated s < 2 ^ 63 /\ - 2 ^ 63 <= Started s < 2 ^ 63.

Definition sanitize_status (s : ClusterStatus) : ClusterStatus :=
  mkClusterStatus (sanitize (Client s)) (sanitize (Binding s)) (Conns s) (ReplicaID s) (ShardID s)
    (option_map (map sanitize) (Hosts s)) (Instantiated s) (Started s).

Lemma pretty_digits x s :
  (0 < x)%N -> all_digits s = true -> plain_nat (pretty_N_go x s) = true.
Proof.
  revert s. induction (N.lt_wf_0 x) as [x _ IH]; intros s Hx Hs.
  rewrite pretty_N_go_step by done. destruct (pretty_N_char_val (x mod 10)) as [Hc Hv];
    [by apply N.mod_lt|].
  destruct (decide (x / 10 = 0)%N) as [E|E].
  - pose proof (N.div_mod' x 10) as D. rewrite E in *. cbn [pretty_N_go]. simpl.
    rewrite Hc, Hs, (proj2 (Z.eqb_neq _ _)); [done|lia].
  - apply IH; [by apply N.div_lt|by apply N.neq_0_lt_0|]. simpl. by rewrite Hc, Hs.
Qed.

Lemma plain_FormatUint z : plain_nat (Decimal.FormatUint z) = true.
Proof.
  unfold Decimal.FormatUint, pretty, pretty_N. case_decide; [done|]. apply pretty_digits; [lia|done].
Qed.

Lemma plain_nat_int s : plain_nat s = true -> plain_int s = true.
Proof.
  destruct s as [|c s]; [done|]. intros H. simpl. destruct (Z.eqb_spec (b2z c) 45); [|done].
  simpl in H. destruct (Z.eqb_spec (b2z c) 48); [lia|].
  apply andb_true_iff in H as [H _]. unfold is_digit, in_range in H. lia.
Qed.

Lemma enc_int_plain z : plain_numbers (enc_int z) = true.
Proof.
  unfold enc_int. simpl. destruct (z <? 0); [apply plain_FormatUint|].
  apply plain_nat_int, plain_FormatUint.
Qed.

Lemma digits_val_FormatUint z : 0 <= z -> digits_val 0 (Decimal.FormatUint z) = Some z.
Proof.
  intros Hz. unfold Decimal.FormatUint, pretty, pretty_N. case_decide as E; [by replace z with 0 by lia|].
  rewrite digits_val_pretty. simpl. f_equal. lia.
Qed.

Lemma dec_enc_int lo hi cur z :
  (z < 0 -> lo < 0) -> lo <= z <= hi -> dec_int lo hi cur (enc_int z) = (z, true).
Proof.
  intros Hneg Hz. unfold enc_int, dec_int, parse_int.
  destruct (Z.ltb_spec z 0) as [N|N].
  - change (b2z "-" =? 45) with true. cbv iota.
    pose proof (plain_FormatUint (- z)) as P. pose proof (digits_val_FormatUint (- z) ltac:(lia)) as D.
    destruct (Decimal.FormatUint (- z)) as [|c s]; [done|]. rewrite (proj2 (Z.ltb_lt _ _)) by lia.
    rewrite D. cbn [fmap option_fmap option_map mbind option_bind].
    replace (- - z) with z by lia. unfold in_range. by rewrite !(proj2 (Z.leb_le _ _)) by lia.
  - pose proof (plain_FormatUint z) as P. pose proof (digits_val_FormatUint z N) as D.
    destruct (Decimal.FormatUint z) as [|c s]; [done|]. apply plain_nat_int in P as Q.
    rewrite (proj2 (Z.eqb_neq (b2z c) 45)).
    + rewrite D. cbn [mbind option_bind]. unfold in_range. by rewrite !(proj2 (Z.leb_le _ _)) by lia.
    + simpl in P. destruct (Z.eqb_spec (b2z c) 48); [lia|].
      apply andb_true_iff in P as [P _]. unfold is_digit, in_range in P. lia.
Qed.

Lemma dec_strings cur l :
  dec_elements "" dec_string cur (map clean (map JStr l)) = (map sanitize l, true).
Proof. revert cur. induction l as [|s l IH]; intros cur; [done|]. cbn [map dec_elements clean dec_string]. by rewrite IH. Qed.

Lemma clean_enc_int z : clean (enc_int z) = enc_int z.
Proof. done. Qed.

Lemma dec_ClusterStatus_clean s cur :
  status_ok s -> dec_ClusterStatus cur (clean (enc_ClusterStatus s)) = (sanitize_status s, true).
Proof.
  intros (H1 & H2 & H3 & H4 & H5).
  change (clean (enc_ClusterStatus s)) with
    (JObj [("Client", JStr (sanitize (Client s))); ("Binding", JStr (sanitize (Binding s)));
           ("Conns", enc_int (Conns s)); ("ReplicaID", enc_int (ReplicaID s));
           ("ShardID", enc_int (ShardID s));
           ("Hosts", clean (match Hosts s with None => JNull | Some l => JArr (map JStr l) end));
           ("Instantiated", enc_int (Instantiated s)); ("Started", enc_int (Started s))]).
  assert (dec_slice "" dec_string (Hosts cur)
    (clean (match Hosts s with None => JNull | Some l => JArr (map JStr l) end)) =
    (option_map (map sanitize) (Hosts s), true)) as EH.
  { destruct (Hosts s) as [l|]; [|done]. cbn [clean dec_slice]. by rewrite dec_strings. }
  unfold dec_ClusterStatus, dec_struct, field, no_field, dec_int64, dec_uint64.
  repeat (eval_fields; cbn [Client Binding Conns ReplicaID ShardID Hosts Instantiated Started];
    rewrite ?EH; rewrite ?dec_enc_int by lia).
  done.
Qed.

Lemma enc_ClusterStatus_ok s :
  plain_numbers (enc_ClusterStatus s) = true /\ depth (enc_ClusterStatus s) <= 2.
Proof.
  assert (plain_numbers (match Hosts s with None => JNull | Some l => JArr (map JStr l) end) = true /\
    0 <= depth (match Hosts s with None => JNull | Some l => JArr (map JStr l) end) <= 1) as [K1 K2].
  { destruct (Hosts s) as [l|]; [|done]. cbn [plain_numbers depth].
    induction l as [|x l [IH1 IH2]]; [done|]. split; [done|]. cbn [map foldr depth] in *. lia. }
  split.
  - unfold enc_ClusterStatus. cbn [plain_numbers forallb]. by rewrite !enc_int_plain, K1.
  - unfold enc_ClusterStatus. set (h := match Hosts s with None => _ | _ => _ end) in *.
    unfold enc_int. cbn [depth map foldr]. lia.
Qed.

(** The status of a node is read back by its peers. *)
Lemma Unmarshal_ClusterStatus s cur :
  status_ok s ->
  Unmarshal dec_ClusterStatus cur (MarshalClusterStatus s) = (sanitize_status s, true).
Proof.
  intros Hs. destruct (enc_ClusterStatus_ok s) as [N D]. unfold Unmarshal, MarshalClusterStatus.
  rewrite parse_print; [by apply dec_ClusterStatus_clean|done|unfold maxNestingDepth; lia].
Qed.
