(* ===== verification/Pebble.v ===== *)
(** * The interface of the Pebble store

    Pebble is a third-party package: its operations are the class [Pebble]
    and what the code relies on of its documentation is the class
    [PebbleLaws], stated through the map [pb_view] a store represents.
    [PebbleHealthy] adds that no operation meets an I/O error and
    [StableIter] that the value slices of an iterator may be kept after the
    iterator moves on, which Pebble's documentation does not promise.  A
    store held in a [gmap] is an instance of all of them. *)
From S2P Require Import Prelude.

(** ** Contents *)

Inductive batch_op :=
  | OpSet (k v : string)
  | OpDelete (k : string).

Definition run_op (m : gmap string string) (op : batch_op) : gmap string string :=
  match op with
  | OpSet k v => <[k := v]> m
  | OpDelete k => delete k m
  end.

Definition run_ops (m : gmap string string) (ops : list batch_op) : gmap string string :=
  foldl run_op m ops.

Lemma run_ops_app m a b : run_ops m (a ++ b) = run_ops (run_ops m a) b.
Proof. apply foldl_app. Qed.

(** The entries of a store in the byte order of their keys. *)
Definition key_le (a b : string * string) : Prop := String.le a.1 b.1.
#[export] Instance key_le_dec : RelDecision key_le := fun a b => String.le_dec a.1 b.1.
#[export] Instance key_le_trans : Transitive key_le.
Proof. intros a b c. unfold key_le. apply transitivity. Qed.
#[export] Instance key_le_total : Total key_le.
Proof. intros a b. unfold key_le. apply total, _. Qed.

Definition sorted_entries (m : gmap string string) : list (string * string) :=
  merge_sort key_le (map_to_list m).

Lemma sorted_entries_perm m : sorted_entries m ≡ₚ map_to_list m.
Proof. apply merge_sort_Permutation. Qed.

Lemma elem_of_sorted_entries m k v : (k, v) ∈ sorted_entries m <-> m !! k = Some v.
Proof. rewrite sorted_entries_perm. apply elem_of_map_to_list. Qed.

Lemma sorted_entries_sorted m : StronglySorted key_le (sorted_entries m).
Proof. apply StronglySorted_merge_sort; apply _. Qed.

Lemma list_to_map_sorted_entries m : list_to_map (sorted_entries m) = m.
Proof.
  rewrite <- (list_to_map_to_list m) at 2. apply list_to_map_proper.
  - rewrite sorted_entries_perm. apply NoDup_fst_map_to_list.
  - apply sorted_entries_perm.
Qed.

(** [lo <= k < hi] for bounds that may be absent. *)
Definition in_bounds (lo hi : option string) (kv : string * string) : Prop :=
  (forall l, lo = Some l -> String.le l kv.1) /\
  (forall h, hi = Some h -> ~ String.le h kv.1).

#[export] Instance in_bounds_dec lo hi kv : Decision (in_bounds lo hi kv).
Proof.
  unfold in_bounds. apply and_dec.
  - destruct lo as [l|]; [|by left].
    destruct (decide (String.le l kv.1)); [left|right]; naive_solver.
  - destruct hi as [h|]; [|by left].
    destruct (decide (String.le h kv.1)); [right|left]; naive_solver.
Defined.

(** ** The interface *)

Class Pebble (DB : Type) := {
  (* Open of a directory that holds a store, or of a fresh one *)
  pb_Open : option DB -> goerror + DB;
  pb_Get : DB -> string -> goerror + string;
  (* Apply of a write batch with Sync set *)
  pb_Apply : DB -> list batch_op -> goerror + DB;
  (* the key-value pairs an iterator with these bounds shows, in order *)
  pb_iter : DB -> option string -> option string -> list (string * string);
  (* what the value slices taken during an iteration hold after it *)
  pb_retained : DB -> list (string * string) -> list (string * string);
}.

Class PebbleLaws (DB : Type) `{Pebble DB} := {
  pb_view : DB -> gmap string string;
  pb_Open_fresh : forall db, pb_Open None = inr db -> pb_view db = ∅;
  pb_Open_again : forall db db', pb_Open (Some db) = inr db' -> pb_view db' = pb_view db;
  pb_Get_inr : forall db k v, pb_Get db k = inr v -> pb_view db !! k = Some v;
  pb_Get_missing : forall db k, pb_Get db k = inl ErrNotFound -> pb_view db !! k = None;
  pb_Apply_inr : forall db ops db',
    pb_Apply db ops = inr db' -> pb_view db' = run_ops (pb_view db) ops;
  pb_iter_spec : forall db lo hi,
    pb_iter db lo hi = filter (in_bounds lo hi) (sorted_entries (pb_view db));
}.

Class PebbleHealthy (DB : Type) `{PebbleLaws DB} : Prop := {
  healthy_Open : forall o, exists db, pb_Open o = inr db;
  healthy_Get : forall db k e, pb_Get db k = inl e -> e = ErrNotFound;
  healthy_Apply : forall db ops, exists db', pb_Apply db ops = inr db';
}.

Class StableIter (DB : Type) `{Pebble DB} : Prop :=
  stable_iter : forall db l, pb_retained db l = l.

Section Derived.
Context {DB : Type} `{PebbleLaws DB}.

Lemma pb_iter_all db : pb_iter db None None = sorted_entries (pb_view db).
Proof.
  rewrite pb_iter_spec. apply filter_Forall, Forall_true. by split; intros ?.
Qed.

Lemma pb_Get_healthy `{!PebbleHealthy DB} db k :
  pb_Get db k = match pb_view db !! k with Some v => inr v | None => inl ErrNotFound end.
Proof.
  destruct (pb_Get db k) as [e|v] eqn:E.
  - pose proof (healthy_Get _ _ _ E) as ->. by rewrite pb_Get_missing.
  - by rewrite (pb_Get_inr _ _ _ E).
Qed.
End Derived.

(** ** A store in memory *)

#[export] Instance gmap_Pebble : Pebble (gmap string string) := {
  pb_Open o := inr (default ∅ o);
  pb_Get m k := match m !! k with Some v => inr v | None => inl ErrNotFound end;
  pb_Apply m ops := inr (run_ops m ops);
  pb_iter m lo hi := filter (in_bounds lo hi) (sorted_entries m);
  pb_retained _ l := l;
}.

#[export, refine] Instance gmap_PebbleLaws : PebbleLaws (gmap string string) := {
  pb_view m := m;
}.
Proof.
  - intros db E. by injection E as <-.
  - intros db db' E. by injection E as <-.
  - intros db k v. simpl. destruct (db !! k); congruence.
  - intros db k. simpl. destruct (db !! k); congruence.
  - intros db ops db' E. by injection E as <-.
  - done.
Defined.

#[export] Instance gmap_PebbleHealthy : PebbleHealthy (gmap string string).
Proof.
  split.
  - intros o. by eexists.
  - intros db k e. simpl. destruct (db !! k); congruence.
  - intros db ops. by eexists.
Qed.

#[export] Instance gmap_StableIter : StableIter (gmap string string).
Proof. done. Qed.
