(* ===== verification/FileSystem.v ===== *)
(** * The part of package [os] and [path/filepath] the data directory uses

    A file system maps clean relative paths to files and directories; a
    directory may hold a Pebble store.  Any call may fail: [faults] names
    the calls that do, and with which error, so a theorem about all [FS]
    values covers the error paths.  Completed calls take effect in order
    and survive the death of the process (loss of power, which [fsync]
    guards against, is not modelled). *)
From S2P Require Import Prelude Pebble.

Inductive os_call :=
  | CStat (p : string)
  | CMkdirAll (p : string)
  | COpen (p : string)
  | CCreate (p : string)
  | CWrite (p : string)
  | CSync (p : string)
  | CClose (p : string)
  | CReadAll (p : string)
  | CReadDir (p : string)
  | CRename (a b : string)
  | CRemoveAll (p : string).

Section FS.
Context {DB : Type}.

Inductive node :=
  | NFile (content : string)
  | NDir (store : option DB).

Record FS := mkFS {
  nodes : gmap string node;
  faults : os_call -> option goerror;
}.

Definition set_nodes (ns : gmap string node) (fs : FS) : FS := mkFS ns (faults fs).

(** A call: its fault, or its effect and outcome. *)
Definition os {A} (c : os_call) (body : gmap string node -> gmap string node * go A) : io FS A :=
  fun fs =>
    match faults fs c with
    | Some e => ([], (fs, Err e))
    | None => let '(ns, r) := body (nodes fs) in
              ([set_nodes ns fs], (set_nodes ns fs, r))
    end.

(** ** Paths *)

(** [filepath.Join(dir, name)] of a clean directory and a single name. *)
Definition path_join (dir name : string) : string := dir +:+ String "/" name.

(** [filepath.Dir(p)] of a clean relative path. *)
Definition path_dir (p : string) : string :=
  match split "/" p with
  | [] | [_] => "."
  | ws => join "/" (removelast ws)
  end.

(** [p] and the directories above it, outermost first. *)
Definition ancestors (p : string) : list string :=
  let ws := split "/" p in
  map (fun n => join "/" (take (S n) ws)) (seq 0 (length ws)).

Definition under (dir p : string) : bool := bool_decide (p = dir) || has_prefix (path_join dir "") p.

(** The name of an immediate entry of [dir]. *)
Definition child_name (dir p : string) : option string :=
  if has_prefix (path_join dir "") p then
    let name := sdrop (String.length (path_join dir "")) p in
    if has_byte "/" name || bool_decide (name = "") then None else Some name
  else None.

(** ** Calls *)

(** [os.Stat]: whether the path is a directory. *)
Definition Stat (p : string) : io FS bool :=
  os (CStat p) (fun ns => (ns, match ns !! p with
    | None => Err ErrNotExist
    | Some (NFile _) => Ret false
    | Some (NDir _) => Ret true
    end)).

Fixpoint mkdirs (ns : gmap string node) (ps : list string) : gmap string node * go unit :=
  match ps with
  | [] => (ns, Ret tt)
  | p :: ps =>
      match ns !! p with
      | None => mkdirs (<[p := NDir None]> ns) ps
      | Some (NDir _) => mkdirs ns ps
      | Some (NFile _) => (ns, Err (ErrorString "not a directory"))
      end
  end.

Definition MkdirAll (p : string) : io FS unit :=
  os (CMkdirAll p) (fun ns => mkdirs ns (ancestors p)).

(** [os.Open], [os.OpenFile(p, os.O_RDONLY, _)]. *)
Definition OpenRead (p : string) : io FS unit :=
  os (COpen p) (fun ns => (ns, match ns !! p with
    | None => Err ErrNotExist
    | Some _ => Ret tt
    end)).

Definition Close (p : string) : io FS unit := os (CClose p) (fun ns => (ns, Ret tt)).
Definition Sync (p : string) : io FS unit := os (CSync p) (fun ns => (ns, Ret tt)).

(** [os.Create]: truncates. *)
Definition Create (p : string) : io FS unit :=
  os (CCreate p) (fun ns =>
    match ns !! path_dir p, ns !! p with
    | _, Some (NDir _) => (ns, Err (ErrorString "is a directory"))
    | Some (NDir _), _ => (<[p := NFile ""]> ns, Ret tt)
    | _, _ => (ns, Err ErrNotExist)
    end).

(** A write at the end of an open file; the file may have been unlinked. *)
Definition Write (p s : string) : io FS unit :=
  os (CWrite p) (fun ns =>
    match ns !! p with
    | Some (NFile c) => (<[p := NFile (c +:+ s)]> ns, Ret tt)
    | _ => (ns, Ret tt)
    end).

Definition ReadAll (p : string) : io FS string :=
  os (CReadAll p) (fun ns => (ns, match ns !! p with
    | Some (NFile c) => Ret c
    | Some (NDir _) => Err (ErrorString "is a directory")
    | None => Err ErrNotExist
    end)).

(** [ioutil.ReadDir]: names with whether they are directories, sorted. *)
Definition dir_entries (ns : gmap string node) (dir : string) : list (string * bool) :=
  omap (fun '(p, n) =>
      (fun name => (name, match n with NDir _ => true | NFile _ => false end)) <$>
      child_name dir p)
    (merge_sort (fun a b => String.le a.1 b.1) (map_to_list ns)).

Definition ReadDir (dir : string) : io FS (list (string * bool)) :=
  os (CReadDir dir) (fun ns => (ns, match ns !! dir with
    | Some (NDir _) => Ret (dir_entries ns dir)
    | Some (NFile _) => Err (ErrorString "not a directory")
    | None => Err ErrNotExist
    end)).

(** [os.Rename] of a file. *)
Definition Rename (a b : string) : io FS unit :=
  os (CRename a b) (fun ns =>
    match ns !! a, ns !! b with
    | Some (NFile c), (None | Some (NFile _)) => (<[b := NFile c]> (delete a ns), Ret tt)
    | Some (NFile _), Some (NDir _) => (ns, Err (ErrorString "file exists"))
    | Some (NDir _), _ => (ns, Err (ErrorString "directory rename"))
    | None, _ => (ns, Err ErrNotExist)
    end).

Definition remove_under (p : string) (ns : gmap string node) : gmap string node :=
  filter (fun '(q, _) => under p q = false) ns.

Definition RemoveAll (p : string) : io FS unit :=
  os (CRemoveAll p) (fun ns => (remove_under p ns, Ret tt)).

(** ** Lookups after the calls *)

Lemma lookup_remove_under p ns q :
  remove_under p ns !! q = if under p q then None else ns !! q.
Proof.
  unfold remove_under. destruct (under p q) eqn:E.
  - apply map_lookup_filter_None. right. intros x _ H. congruence.
  - destruct (ns !! q) as [x|] eqn:Hq.
    + apply map_lookup_filter_Some. done.
    + apply map_lookup_filter_None. by left.
Qed.

Lemma lookup_mkdirs ns ps ns' q :
  mkdirs ns ps = (ns', Ret tt) ->
  ns' !! q = match ns !! q with
             | Some n => Some n
             | None => if decide (q ∈ ps) then Some (NDir None) else None
             end.
Proof.
  revert ns. induction ps as [|p ps IH]; simpl; intros ns H.
  - simplify_eq. by destruct (ns' !! q).
  - destruct (ns !! p) as [[c|st]|] eqn:Hp; [done|..]; apply IH in H as ->.
    + destruct (ns !! q) as [n|] eqn:Hq; [done|].
      assert (q <> p) by congruence.
      destruct (decide (q ∈ ps)), (decide (q ∈ p :: ps)); set_solver.
    + rewrite lookup_insert. destruct (decide (p = q)) as [->|Hne].
      * rewrite Hp. destruct (decide (q ∈ q :: ps)); set_solver.
      * destruct (ns !! q); [done|].
        destruct (decide (q ∈ ps)), (decide (q ∈ p :: ps)); set_solver.
Qed.
End FS.
Arguments node : clear implicits.
Arguments FS : clear implicits.
