(* ===== verification/Crash.v ===== *)
(** * Specifications of computations that may stop at any point

    [spec P m Q E C]: from a state in [P], every state that [m] goes
    through satisfies the crash condition [C]; a return satisfies [Q], an
    error [E] and a panic [C].  [keeps I m] is the case of an invariant. *)
From S2P Require Import Prelude Pebble FileSystem.

Section Crash.
Context {S : Type}.

Definition spec {A} (P : S -> Prop) (m : io S A) (Q : A -> S -> Prop) (E C : S -> Prop) : Prop :=
  forall s, P s ->
    Forall C (history m s) /\
    match run m s with
    | (s', Ret a) => Q a s'
    | (s', Err _) => E s'
    | (s', Panic _) => C s'
    end.

Definition keeps {A} (I : S -> Prop) (m : io S A) : Prop := spec I m (fun _ => I) I I.

Lemma spec_conseq {A} (P P' : S -> Prop) (m : io S A) (Q Q' : A -> S -> Prop) (E E' C C' : S -> Prop) :
  spec P m Q E C -> (forall s, P' s -> P s) -> (forall a s, Q a s -> Q' a s) ->
  (forall s, E s -> E' s) -> (forall s, C s -> C' s) -> spec P' m Q' E' C'.
Proof.
  intros H HP HQ HE HC s Hs. destruct (H s (HP s Hs)) as [H1 H2]. split.
  - by eapply Forall_impl.
  - destruct (run m s) as [s' [a|e|p]]; eauto.
Qed.

Lemma spec_bind {A B} (P : S -> Prop) (m : io S A) (k : A -> io S B) Q R (E C : S -> Prop) :
  spec P m Q E C -> (forall a, spec (Q a) (k a) R E C) -> spec P (bind m k) R E C.
Proof.
  intros Hm Hk s Hs. destruct (Hm s Hs) as [H1 H2].
  rewrite history_bind, run_bind. destruct (run m s) as [s1 [a|e|p]].
  - destruct (Hk a s1 H2) as [H3 H4]. split; [by apply Forall_app|done].
  - by rewrite app_nil_r.
  - by rewrite app_nil_r.
Qed.

Lemma spec_try {A} (P : S -> Prop) (m : io S A) Q (E E' C : S -> Prop) :
  spec P m Q E C ->
  spec P (try m) (fun r s => match r with inl _ => E s | inr a => Q a s end) E' C.
Proof.
  intros Hm s Hs. destruct (Hm s Hs) as [H1 H2].
  rewrite history_try, run_try. by destruct (run m s) as [s1 [a|e|p]].
Qed.

(** A cleanup that keeps what both ends of [m] promise. *)
Lemma spec_deferred {A} (P : S -> Prop) (c : io S unit) (m : io S A) Q (E C : S -> Prop) :
  spec P m Q E C -> (forall a, spec (Q a) c (fun _ => Q a) (Q a) C) ->
  spec E c (fun _ => E) E C -> spec P (deferred c m) Q E C.
Proof.
  intros Hm Hc He s Hs. destruct (Hm s Hs) as [H1 H2].
  rewrite history_deferred, run_deferred. destruct (run m s) as [s1 [a|e|p]].
  - destruct (Hc a s1 H2) as [H3 H4]. split; [by apply Forall_app|].
    by destruct (run c s1) as [s2 [?|?|?]].
  - destruct (He s1 H2) as [H3 H4]. split; [by apply Forall_app|].
    by destruct (run c s1) as [s2 [?|?|?]].
  - by rewrite app_nil_r.
Qed.

Lemma spec_lift {A} (P : S -> Prop) (m : go A) Q (E C : S -> Prop) :
  (forall s, P s -> match m with Ret a => Q a s | Err _ => E s | Panic _ => C s end) ->
  spec P (lift m) Q E C.
Proof. intros H s Hs. specialize (H s Hs). by destruct m. Qed.

Lemma spec_get (P : S -> Prop) (E C : S -> Prop) : spec P get (fun a s => P s /\ a = s) E C.
Proof. by intros s Hs. Qed.

Lemma spec_modify (P : S -> Prop) f (Q : unit -> S -> Prop) (E C : S -> Prop) :
  (forall s, P s -> Q tt (f s) /\ C (f s)) -> spec P (modify f) Q E C.
Proof. intros H s Hs. destruct (H s Hs). split; [by constructor|done]. Qed.

(** A specification for each value of something known in advance. *)
Lemma spec_exists {A X} (P : X -> S -> Prop) (m : io S A) Q (E C : S -> Prop) :
  (forall x, spec (P x) m Q E C) -> spec (fun s => exists x, P x s) m Q E C.
Proof. intros H s [x Hx]. by apply (H x). Qed.

Lemma spec_pure {A} (phi : Prop) (P : S -> Prop) (m : io S A) Q (E C : S -> Prop) :
  (phi -> spec P m Q E C) -> spec (fun s => phi /\ P s) m Q E C.
Proof. intros H s [Hphi Hs]. by apply H. Qed.

Lemma keeps_bind {A B} (I : S -> Prop) (m : io S A) (k : A -> io S B) :
  keeps I m -> (forall a, keeps I (k a)) -> keeps I (bind m k).
Proof. intros. by eapply spec_bind. Qed.

Lemma keeps_try {A} (I : S -> Prop) (m : io S A) : keeps I m -> keeps I (try m).
Proof. intros H. eapply spec_conseq; [by apply spec_try| | |done..]; [done|by intros [] ?]. Qed.

Lemma keeps_deferred {A} (I : S -> Prop) (c : io S unit) (m : io S A) :
  keeps I m -> keeps I c -> keeps I (deferred c m).
Proof. intros. by apply spec_deferred. Qed.

Lemma keeps_lift {A} (I : S -> Prop) (m : go A) : keeps I (lift m).
Proof. apply spec_lift. by destruct m. Qed.
End Crash.

(** A computation on a component; [F] is about the rest of the state. *)
Lemma spec_zoom {S T A} (view : T -> S) (update : S -> T -> T) (F : T -> Prop)
    (P : S -> Prop) (m : io S A) Q E C :
  (forall s t, view (update s t) = s) -> (forall s t, F t -> F (update s t)) ->
  spec P m Q E C ->
  spec (fun t => P (view t) /\ F t) (zoom view update m)
    (fun a t => Q a (view t) /\ F t) (fun t => E (view t) /\ F t) (fun t => C (view t) /\ F t).
Proof.
  intros HV HF Hm t [Hs Ht]. destruct (Hm _ Hs) as [H1 H2].
  rewrite history_zoom, run_zoom. split.
  - apply Forall_map. eapply Forall_impl; [done|]. intros s' Hs'.
    cbn. rewrite HV. eauto.
  - destruct (run m (view t)) as [s1 [a|e|p]]; rewrite HV; eauto.
Qed.

(** ** File system calls *)

Section Calls.
Context {DB : Type}.
Abbreviation state := (gmap string (node DB)).

(** An assertion about the files, as one about the file system. *)
Definition on (I : state -> Prop) (fs : FS DB) : Prop := I (nodes fs).

Lemma spec_os {A} (P : state -> Prop) c (body : state -> state * go A) Q E C :
  (forall ns, P ns -> E ns) ->
  (forall ns, P ns ->
    C (body ns).1 /\
    match (body ns).2 with
    | Ret a => Q a (body ns).1
    | Err _ => E (body ns).1
    | Panic _ => C (body ns).1
    end) ->
  spec (on P) (os c body) (fun a => on (Q a)) (on E) (on C).
Proof.
  intros HE HB fs Hs. unfold history, run, os. destruct (faults fs c); simpl.
  - split; [constructor|by apply HE].
  - destruct (HB _ Hs) as [HC HR]. destruct (body (nodes fs)) as [ns r]. simpl in *.
    split; [by repeat constructor|by destruct r].
Qed.

Lemma keeps_os {A} (I : state -> Prop) c (body : state -> state * go A) :
  (forall ns, I ns -> I (body ns).1) -> keeps (on I) (os c body).
Proof.
  intros H. apply (spec_os I c body (fun _ => I) I I); [done|].
  intros ns Hn. specialize (H ns Hn). by destruct ((body ns).2).
Qed.

(** A call that only reads keeps everything. *)
Lemma keeps_read {A} (I : state -> Prop) c (f : state -> go A) :
  keeps (on I) (os c (fun ns => (ns, f ns))).
Proof. by apply keeps_os. Qed.

Lemma keeps_Stat I p : keeps (on I) (Stat p).
Proof. apply keeps_read. Qed.
Lemma keeps_OpenRead I p : keeps (on I) (OpenRead p).
Proof. apply keeps_read. Qed.
Lemma keeps_Close I p : keeps (on I) (Close p).
Proof. apply keeps_read. Qed.
Lemma keeps_Sync I p : keeps (on I) (Sync p).
Proof. apply keeps_read. Qed.
Lemma keeps_ReadDir I p : keeps (on I) (ReadDir p).
Proof. apply keeps_read. Qed.
End Calls.

(** ** A file system without faults *)

Section Calm.
Context {DB : Type}.

Definition calm (fs : FS DB) : Prop := forall c, faults fs c = None.

Lemma calm_set_nodes ns fs : calm fs -> calm (set_nodes ns fs).
Proof. done. Qed.

Lemma set_nodes_nodes (fs : FS DB) : set_nodes (nodes fs) fs = fs.
Proof. by destruct fs. Qed.

Lemma set_nodes_twice ns ns' (fs : FS DB) : set_nodes ns (set_nodes ns' fs) = set_nodes ns fs.
Proof. done. Qed.

Lemma run_os {A} c body (fs : FS DB) :
  calm fs ->
  run (os c body : io (FS DB) A) fs =
  (set_nodes (body (nodes fs)).1 fs, (body (nodes fs)).2).
Proof. intros Hc. unfold run, os. rewrite (Hc c). by destruct (body (nodes fs)). Qed.

Lemma run_read {A} c f (fs : FS DB) :
  calm fs -> run (os c (fun ns => (ns, f ns)) : io (FS DB) A) fs = (fs, f (nodes fs)).
Proof. intros Hc. rewrite run_os by done. simpl. by rewrite set_nodes_nodes. Qed.

Lemma run_Stat_dir p st fs :
  calm fs -> nodes fs !! p = Some (NDir st) -> run (Stat p) fs = (fs, Ret true).
Proof. intros Hc E. unfold Stat. rewrite run_read by done. by rewrite E. Qed.
Lemma run_OpenRead p n fs : calm fs -> nodes fs !! p = Some n -> run (OpenRead p) fs = (fs, Ret tt).
Proof. intros Hc E. unfold OpenRead. rewrite run_read by done. by rewrite E. Qed.
Lemma run_Close p fs : calm fs -> run (Close p) fs = (fs, Ret tt).
Proof. apply run_read. Qed.
Lemma run_Sync p fs : calm fs -> run (Sync p) fs = (fs, Ret tt).
Proof. apply run_read. Qed.
Lemma run_ReadAll p s fs :
  calm fs -> nodes fs !! p = Some (NFile s) -> run (ReadAll p) fs = (fs, Ret s).
Proof. intros Hc E. unfold ReadAll. rewrite run_read by done. by rewrite E. Qed.
Lemma run_RemoveAll p fs :
  calm fs -> run (RemoveAll p) fs = (set_nodes (remove_under p (nodes fs)) fs, Ret tt).
Proof. intros Hc. unfold RemoveAll. by rewrite run_os by done. Qed.
End Calm.

#[export] Hint Resolve calm_set_nodes : go_core.
#[export] Hint Resolve keeps_bind keeps_try keeps_deferred keeps_lift keeps_Stat keeps_OpenRead
  keeps_Close keeps_Sync keeps_ReadDir : go_core.
