(* ===== verification/DataDir.v ===== *)
(** * The data directory of a replica: [roo/kvdisk.go], lines 47-68 and 143-291

    A replica keeps its Pebble store in a randomly named directory below
    its node directory; the file [current] names the directory in use,
    guarded by eight bytes of its MD5 digest, and is replaced atomically by
    renaming [current.updating] over it. *)
From S2P Require Import Prelude Bytes Md5 Pebble FileSystem.

Definition testDBDirName : string := "cluster-data".
Definition currentDBFilename : string := "current".
Definition updatingDBFilename : string := "current.updating".

Section DataDir.
Context {DB : Type} `{Pebble DB}.

Abbreviation FS := (FS DB).

Definition syncDir (dir : string) : io FS unit :=
  let* isdir := Stat dir in
  if isdir : bool then
    let* _ := OpenRead dir in
    let* r := try (Sync dir) in
    let* c := try (Close dir) in
    lift (go_of_sum (match r with inl e => inl e | inr _ => c end))
  else panic "not a dir".

Definition isNewRun (dir : string) : io FS bool :=
  let* r := try (Stat (path_join dir currentDBFilename)) in
  ret (match r with inl ErrNotExist => true | _ => false end).

Definition getNodeDBDirName (clusterID ReplicaID : Z) : string :=
  path_join testDBDirName
    (Decimal.FormatUint clusterID +:+ "_" +:+ Decimal.FormatUint ReplicaID).

(** The random number and the time are arguments. *)
Definition getNewRandomDBDirName (dir : string) (rn ct : Z) : string :=
  path_join dir (Decimal.FormatUint rn +:+ "_" +:+ Decimal.FormatUint ct).

Definition replaceCurrentDBFile (dir : string) : io FS unit :=
  let* _ := Rename (path_join dir updatingDBFilename) (path_join dir currentDBFilename) in
  syncDir dir.

(** [if err := m; err != nil { panic(err) }] *)
Definition must (m : io FS unit) : io FS unit :=
  let* r := try m in
  match r with
  | inl _ => panic "panic(err)"
  | inr _ => ret tt
  end.

(** The guard in front of the directory name. *)
Definition checksum (dbdir : string) : string := stake 8 (md5_sum dbdir).

Definition saveCurrentDBDirName (dir dbdir : string) : io FS unit :=
  let fp := path_join dir updatingDBFilename in
  let* _ := Create fp in
  deferred (let* _ := must (Close fp) in must (syncDir dir))
    (let* _ := Write fp (checksum dbdir) in
     let* _ := Write fp dbdir in
     Sync fp).

(** The checks on what [current] holds. *)
Definition checkCurrent (data : string) : go string :=
  if (String.length data <=? 8)%nat then Panic "corrupted content"
  else if decide (stake 8 data = checksum (sdrop 8 data)) then Ret (sdrop 8 data)
  else Panic "corrupted content with not matched crc".

Definition getCurrentDBDirName (dir : string) : io FS string :=
  let fp := path_join dir currentDBFilename in
  let* _ := OpenRead fp in
  deferred (must (Close fp))
    (let* data := ReadAll fp in
     lift (checkCurrent data)).

Definition createNodeDataDir (dir : string) : io FS unit :=
  let* _ := MkdirAll dir in
  syncDir (path_dir dir).

(** The loop over the entries of the directory. *)
Fixpoint removeOthers (dir dbdir : string) (files : list (string * bool)) : io FS unit :=
  match files with
  | [] => ret tt
  | (name, isdir) :: files =>
      if isdir : bool then
        let toDelete := path_join dir name in
        if decide (toDelete <> dbdir) then
          let* _ := RemoveAll toDelete in
          removeOthers dir dbdir files
        else removeOthers dir dbdir files
      else removeOthers dir dbdir files
  end.

Definition cleanupNodeDataDir (dir : string) : io FS unit :=
  let* _ := try (RemoveAll (path_join dir updatingDBFilename)) in
  let* dbdir := getCurrentDBDirName dir in
  let* files := ReadDir dir in
  removeOthers dir dbdir files.

(** [pebble.Open] on a directory. *)
Definition openStore (dbdir : string) : io FS unit := fun fs =>
  match nodes fs !! dbdir with
  | Some (NDir st) =>
      match pb_Open st with
      | inl e => ([], (fs, Err e))
      | inr db =>
          let fs' := set_nodes (<[dbdir := NDir (Some db)]> (nodes fs)) fs in
          ([fs'], (fs', Ret tt))
      end
  | _ => ([], (fs, Err ErrNotExist))
  end.

(** [createDB], up to the handle it returns. *)
Definition createDB (dbdir : string) : io FS unit :=
  let* _ := MkdirAll dbdir in
  openStore dbdir.
End DataDir.
