(* ===== verification/DataDirSpec.v ===== *)
(** * What the data directory guarantees

    [Committed ns dir d db]: the file [current] of the node directory [dir]
    names the directory [d], which holds the store [db].  The functions of
    [DataDir] keep it, and the replacement of [current] moves from one
    committed directory to the next in one step. *)
From S2P Require Import Prelude Bytes Md5 Pebble FileSystem Crash DataDir.

(** ** Paths *)

Lemma path_join_app dir n : path_join dir n = dir +:+ String "/" n.
Proof. done. Qed.

#[export] Instance path_join_inj dir : Inj (=) (=) (path_join dir).
Proof. intros a b E. apply (inj (String.append dir)) in E. by injection E. Qed.

Lemma path_join_longer dir n p : p = path_join dir n -> p <> dir.
Proof.
  intros -> E. apply (f_equal String.length) in E.
  unfold path_join in E. rewrite string_length_app in E. simpl in E. lia.
Qed.

(** [n] is a single path element. *)
Definition plain_name (n : string) : Prop := has_byte "/" n = false /\ n <> "".

Lemma has_prefix_join dir a b :
  plain_name a -> plain_name b ->
  has_prefix (path_join (path_join dir a) "") (path_join dir b) = false.
Proof.
  intros [Ha _] [Hb _]. apply not_true_iff_false. rewrite has_prefix_spec. intros [t E].
  unfold path_join in E. rewrite !string_app_assoc in E.
  apply (inj (String.append dir)) in E. simpl in E. injection E as E. subst b.
  rewrite has_byte_app in Hb. simpl in Hb. by rewrite orb_true_r in Hb.
Qed.

Lemma under_sibling dir a b :
  plain_name a -> plain_name b -> a <> b -> under (path_join dir a) (path_join dir b) = false.
Proof.
  intros Ha Hb Hne. unfold under. rewrite has_prefix_join by done.
  rewrite bool_decide_eq_false_2; [done|]. by intros ?%(inj _).
Qed.

Lemma under_short p q : (String.length q < String.length p)%nat -> under p q = false.
Proof.
  intros L. unfold under. apply orb_false_iff. split.
  - apply bool_decide_eq_false_2. intros ->. lia.
  - apply not_true_iff_false. rewrite has_prefix_spec. intros [t ->].
    unfold path_join in L. rewrite !string_length_app in L. lia.
Qed.

Lemma path_join_length dir n :
  String.length (path_join dir n) = (String.length dir + S (String.length n))%nat.
Proof. unfold path_join. by rewrite string_length_app. Qed.

Lemma split_path_join dir n :
  has_byte "/" dir = false -> split "/" (path_join dir n) = dir :: split "/" n.
Proof. intros. unfold path_join. by apply split_app. Qed.

Lemma node_plain c r :
  plain_name (Decimal.FormatUint c +:+ "_" +:+ Decimal.FormatUint r).
Proof.
  split.
  - autorewrite with go_str. by rewrite !Decimal.FormatUint_slash.
  - by destruct (Decimal.FormatUint c).
Qed.

Lemma split_node c r :
  split "/" (getNodeDBDirName c r) =
  [testDBDirName; Decimal.FormatUint c +:+ "_" +:+ Decimal.FormatUint r].
Proof.
  unfold getNodeDBDirName. rewrite split_path_join by done.
  by rewrite split_none by apply node_plain.
Qed.

Lemma ancestors_node c r :
  ancestors (getNodeDBDirName c r) = [testDBDirName; getNodeDBDirName c r].
Proof. unfold ancestors. by rewrite split_node. Qed.

Lemma path_dir_node c r : path_dir (getNodeDBDirName c r) = testDBDirName.
Proof. unfold path_dir. by rewrite split_node. Qed.

(** The same one level down. *)
Lemma split_node_child c r n :
  plain_name n ->
  split "/" (path_join (getNodeDBDirName c r) n) =
  [testDBDirName; Decimal.FormatUint c +:+ "_" +:+ Decimal.FormatUint r; n].
Proof.
  intros [Hn _]. unfold getNodeDBDirName, path_join.
  rewrite string_app_assoc, string_app_cons, <- path_join_app, split_path_join by done.
  f_equal. rewrite split_app by apply node_plain. by rewrite split_none.
Qed.

Lemma ancestors_child c r n :
  plain_name n ->
  ancestors (path_join (getNodeDBDirName c r) n) =
  [testDBDirName; getNodeDBDirName c r; path_join (getNodeDBDirName c r) n].
Proof.
  intros Hn. unfold ancestors. rewrite split_node_child by done.
  reflexivity.
Qed.

Lemma path_dir_child c r n :
  plain_name n -> path_dir (path_join (getNodeDBDirName c r) n) = getNodeDBDirName c r.
Proof. intros Hn. unfold path_dir. by rewrite split_node_child. Qed.

(** The names of stores: not those of the two files. *)
Definition db_name (dir d : string) : Prop :=
  exists n, d = path_join dir n /\ plain_name n /\
    n <> currentDBFilename /\ n <> updatingDBFilename.

Lemma db_name_random dir rn ct : db_name dir (getNewRandomDBDirName dir rn ct).
Proof.
  exists (Decimal.FormatUint rn +:+ "_" +:+ Decimal.FormatUint ct).
  split; [done|]. split; [apply node_plain|].
  assert (has_byte "_" (Decimal.FormatUint rn +:+ "_" +:+ Decimal.FormatUint ct) = true) as K.
  { autorewrite with go_str. simpl. by rewrite orb_true_r. }
  split; intros E; by rewrite E in K.
Qed.

Lemma plain_current : plain_name currentDBFilename.
Proof. done. Qed.
Lemma plain_updating : plain_name updatingDBFilename.
Proof. done. Qed.
#[export] Hint Resolve plain_current plain_updating db_name_random : go_core.

Lemma checksum_length d : String.length (checksum d) = 8%nat.
Proof. unfold checksum. apply stake_length. rewrite md5_length. lia. Qed.

(** What [current] holds is accepted, and only that. *)
Lemma checkCurrent_saved d : d <> "" -> checkCurrent (checksum d +:+ d) = Ret d.
Proof.
  intros Hd. unfold checkCurrent. rewrite string_length_app, checksum_length.
  rewrite sdrop_app, stake_app by apply checksum_length.
  destruct d as [|c d]; [done|]. simpl Nat.leb. by destruct (decide _).
Qed.

(** ** Committed directories *)

Section Committed.
Context {DB : Type} `{Pebble DB}.
Abbreviation state := (gmap string (node DB)).

Definition is_dir (ns : state) (p : string) : Prop := exists st, ns !! p = Some (NDir st).

(** The file [current] of node directory [dir] names [d]. *)
Definition names (dir d : string) (ns : state) : Prop :=
  ns !! path_join dir currentDBFilename = Some (NFile (checksum d +:+ d)).

Record Committed (c r : Z) (d : string) (db : DB) (ns : state) : Prop := {
  com_root : is_dir ns testDBDirName;
  com_dir : is_dir ns (getNodeDBDirName c r);
  com_name : db_name (getNodeDBDirName c r) d;
  com_current : names (getNodeDBDirName c r) d ns;
  com_store : ns !! d = Some (NDir (Some db)) }.

Lemma Committed_names c r d db ns :
  Committed c r d db ns -> d <> "" /\ names (getNodeDBDirName c r) d ns.
Proof.
  intros HC. split; [|by eapply com_current].
  by destruct (com_name _ _ _ _ _ HC) as (n & -> & _).
Qed.

(** What does not touch these paths keeps a committed directory. *)
Lemma Committed_frame c r d db ns ns' :
  (forall p, p = testDBDirName \/ p = getNodeDBDirName c r \/ p = d \/
     p = path_join (getNodeDBDirName c r) currentDBFilename -> ns' !! p = ns !! p) ->
  Committed c r d db ns -> Committed c r d db ns'.
Proof.
  intros F [[st1 H1] [st2 H2] H3 H4 H5].
  split; [exists st1|exists st2|done|red|]; by rewrite F by tauto.
Qed.

Lemma node_length c r :
  (String.length testDBDirName < String.length (getNodeDBDirName c r))%nat.
Proof. unfold getNodeDBDirName. rewrite path_join_length. lia. Qed.

(** An entry of the node directory is none of the directories above it. *)
Lemma child_ne c r n :
  path_join (getNodeDBDirName c r) n <> getNodeDBDirName c r /\
  path_join (getNodeDBDirName c r) n <> testDBDirName.
Proof.
  pose proof (node_length c r). pose proof (path_join_length (getNodeDBDirName c r) n).
  split; intros E; rewrite E in *; lia.
Qed.

(** Changing another entry of the node directory. *)
Lemma Committed_insert c r d db ns n x :
  n <> currentDBFilename -> path_join (getNodeDBDirName c r) n <> d ->
  Committed c r d db ns ->
  Committed c r d db (<[path_join (getNodeDBDirName c r) n := x]> ns).
Proof.
  intros Hn Hd. apply Committed_frame. destruct (child_ne c r n) as [Hc1 Hc2].
  intros p Hp. apply lookup_insert_ne.
  destruct Hp as [->|[->|[->| ->]]]; [congruence..|]. by intros ?%(inj _).
Qed.

(** Adding a directory that was not there. *)
Lemma Committed_mkdirs c r d db ns ps ns' :
  mkdirs ns ps = (ns', Ret tt) -> Committed c r d db ns -> Committed c r d db ns'.
Proof.
  intros E HC. apply (Committed_frame c r d db ns); [|done].
  destruct HC as [[st1 H1] [st2 H2] H3 H4 H5]. unfold names in H4.
  intros p Hp. rewrite (lookup_mkdirs _ _ _ _ E).
  by destruct Hp as [->|[->|[->| ->]]]; rewrite ?H1, ?H2, ?H4, ?H5.
Qed.

(** Removing another entry of the node directory, with what is below it. *)
Lemma Committed_remove c r d db ns n :
  plain_name n -> n <> currentDBFilename -> path_join (getNodeDBDirName c r) n <> d ->
  Committed c r d db ns ->
  Committed c r d db (remove_under (path_join (getNodeDBDirName c r) n) ns).
Proof.
  intros Hn Hne Hd HC. apply (Committed_frame c r d db ns); [|done].
  destruct (com_name _ _ _ _ _ HC) as (n' & -> & Hn' & _ & _).
  pose proof (node_length c r). pose proof (path_join_length (getNodeDBDirName c r) n).
  intros p Hp. rewrite lookup_remove_under.
  destruct Hp as [->|[->|[->| ->]]].
  - by rewrite under_short by lia.
  - by rewrite under_short by lia.
  - rewrite under_sibling; try done. congruence.
  - by rewrite under_sibling by (done || apply plain_current).
Qed.

(** ** The functions of [DataDir] *)

Lemma keeps_syncDir I p : keeps (on I) (@syncDir DB p).
Proof.
  unfold syncDir. apply keeps_bind; [auto with go_core|]. intros [|]; [|apply keeps_lift].
  repeat (apply keeps_bind; [auto with go_core|intros]). apply keeps_lift.
Qed.

Lemma keeps_must (I : FS DB -> Prop) (m : io (FS DB) unit) : keeps I m -> keeps I (must m).
Proof.
  intros Hm. unfold must. apply keeps_bind; [by apply keeps_try|].
  intros [e|a]; apply keeps_lift.
Qed.

Lemma keeps_isNewRun I dir : keeps (on I) (@isNewRun DB dir).
Proof.
  unfold isNewRun. apply keeps_bind; [auto with go_core|]. intros; apply keeps_lift.
Qed.

(** Reading [current] gives the directory it names. *)
Lemma spec_getCurrent (I : state -> Prop) dir d :
  (forall ns, I ns -> d <> "" /\ names dir d ns) ->
  spec (on I) (getCurrentDBDirName dir) (fun x fs => x = d /\ on I fs) (on I) (on I).
Proof.
  intros HI. unfold getCurrentDBDirName.
  eapply spec_bind; [apply keeps_OpenRead|]. intros [].
  apply spec_deferred.
  - eapply (spec_bind _ _ _ (fun x => on (fun ns => x = checksum d +:+ d /\ I ns))).
    + unfold ReadAll. apply (spec_os I _ _ (fun x ns => x = checksum d +:+ d /\ I ns) I I);
        [done|]. intros ns Hn. simpl. by rewrite (proj2 (HI ns Hn)).
    + intros x. apply spec_lift. intros fs [-> Hfs].
      rewrite checkCurrent_saved; [done|]. by apply (HI _ Hfs).
  - intros x. eapply spec_pure. intros ->.
    eapply spec_conseq; [apply (keeps_must (on I)), keeps_Close|done|done|done|done].
  - apply keeps_must, keeps_Close.
Qed.

(** Saving the name writes [current.updating] and nothing else. *)
Lemma spec_saveCurrent (I : state -> Prop) dir d :
  (forall ns x, I ns -> I (<[path_join dir updatingDBFilename := x]> ns)) ->
  spec (on I) (saveCurrentDBDirName dir d)
    (fun _ => on (fun ns : state => ns !! path_join dir updatingDBFilename =
                              Some (NFile (checksum d +:+ d)) /\ I ns))
    (on I) (on I).
Proof.
  intros HI. unfold saveCurrentDBDirName. set (fp := path_join dir updatingDBFilename) in *.
  set (J := fun s (ns : state) => ns !! fp = Some (NFile s) /\ I ns).
  assert (forall s t, spec (on (J s)) (Write fp t) (fun _ => on (J (s +:+ t))) (on I) (on I)) as W.
  { intros s t. apply (spec_os (J s) _ _ (fun _ => J (s +:+ t)) I I); [by intros ns []|].
    intros ns [E Hn]. rewrite E. simpl. split; [by apply HI|]. split; [|by apply HI].
    by rewrite lookup_insert_eq. }
  assert (forall K, keeps (on K) (let* _ := must (@Close DB fp) in must (syncDir dir))) as D.
  { intros K. apply keeps_bind; [apply keeps_must, keeps_Close|].
    intros []. apply keeps_must, keeps_syncDir. }
  eapply (spec_bind _ _ _ (fun _ => on (J ""))).
  { apply (spec_os I _ _ (fun _ => J "") I I); [done|]. intros ns Hn.
    destruct (ns !! path_dir fp) as [[?|?]|], (ns !! fp) as [[?|?]|]; simpl; try done;
      (split; [by apply HI|split; [by rewrite lookup_insert_eq|by apply HI]]). }
  intros []. apply spec_deferred; [|intros u|apply D].
  - eapply spec_bind; [apply W|intros []].
    eapply spec_bind; [apply W|intros []]. rewrite string_app_nil_l.
    eapply spec_conseq; [apply (keeps_Sync (J (checksum d +:+ d)))|done|done|..];
      by intros fs [].
  - eapply spec_conseq; [apply (D (J (checksum d +:+ d)))|done|done|done|]. by intros fs [].
Qed.

(** Renaming is the one step that changes what [current] names. *)
Lemma spec_replaceCurrent (I J : state -> Prop) dir s :
  (forall ns, I ns -> ns !! path_join dir updatingDBFilename = Some (NFile s) ->
     J (<[path_join dir currentDBFilename := NFile s]>
          (delete (path_join dir updatingDBFilename) ns))) ->
  spec (on (fun ns : state => ns !! path_join dir updatingDBFilename = Some (NFile s) /\ I ns))
    (replaceCurrentDBFile dir) (fun _ => on J)
    (on (fun ns => I ns \/ J ns)) (on (fun ns => I ns \/ J ns)).
Proof.
  intros HJ. unfold replaceCurrentDBFile.
  eapply (spec_bind _ _ _ (fun _ => on J)).
  - apply (spec_os _ _ _ (fun _ => J) (fun ns => I ns \/ J ns) (fun ns => I ns \/ J ns));
      [by intros ns []; left|].
    intros ns [E Hn]. rewrite E. specialize (HJ ns Hn E).
    destruct (ns !! path_join dir currentDBFilename) as [[?|?]|]; simpl; auto.
  - intros []. eapply spec_conseq; [apply (keeps_syncDir J)|done|done|..]; by right.
Qed.

(** *** Without faults *)

Lemma run_syncDir p (fs : FS DB) :
  calm fs -> is_dir (nodes fs) p -> run (syncDir p) fs = (fs, Ret tt).
Proof.
  intros Hc [st E]. unfold syncDir. rewrite run_bind, (run_Stat_dir _ st) by done.
  cbv iota. rewrite run_bind, (run_OpenRead _ (NDir st)) by done.
  go_step. rewrite run_Sync by done. go_step. rewrite run_Close by done. done.
Qed.

Lemma run_getCurrent dir d (fs : FS DB) :
  calm fs -> d <> "" -> names dir d (nodes fs) ->
  run (getCurrentDBDirName dir) fs = (fs, Ret d).
Proof.
  intros Hc Hd E. unfold getCurrentDBDirName, must.
  rewrite run_bind, (run_OpenRead _ _ _ Hc E). go_step. rewrite (run_ReadAll _ _ _ Hc E).
  rewrite checkCurrent_saved by done. go_step. by rewrite run_Close by done.
Qed.

Lemma run_saveCurrent dir d (fs : FS DB) :
  calm fs -> is_dir (nodes fs) dir ->
  path_dir (path_join dir updatingDBFilename) = dir ->
  ~ is_dir (nodes fs) (path_join dir updatingDBFilename) ->
  run (saveCurrentDBDirName dir d) fs =
  (set_nodes (<[path_join dir updatingDBFilename := NFile (checksum d +:+ d)]> (nodes fs)) fs,
   Ret tt).
Proof.
  intros Hc Hd Hp Hn. unfold saveCurrentDBDirName, must. set (fp := path_join _ _) in *.
  assert (forall s t, run (Write fp t) (set_nodes (<[fp := NFile s]> (nodes fs)) fs) =
    (set_nodes (<[fp := NFile (s +:+ t)]> (nodes fs)) fs, Ret tt)) as W.
  { intros s t. unfold Write. rewrite run_os by done. simpl nodes.
    by rewrite lookup_insert_eq, set_nodes_twice, insert_insert_eq. }
  assert (run (Create fp) fs = (set_nodes (<[fp := NFile ""]> (nodes fs)) fs, Ret tt)) as C.
  { unfold Create. rewrite run_os, Hp by done. destruct Hd as [st ->].
    destruct (nodes fs !! fp) as [[?|st']|] eqn:E; try done. destruct Hn. by exists st'. }
  rewrite run_bind, C. rewrite run_deferred, run_bind, W. cbv iota. rewrite run_bind, W.
  rewrite run_Sync by done. go_step. rewrite run_Close by done. go_step.
  rewrite run_syncDir; [done|done|]. destruct Hd as [st Hd]. exists st.
  simpl. rewrite lookup_insert_ne; [done|]. by apply path_join_longer with updatingDBFilename.
Qed.

Lemma run_replaceCurrent dir s (fs : FS DB) :
  calm fs -> is_dir (nodes fs) dir ->
  nodes fs !! path_join dir updatingDBFilename = Some (NFile s) ->
  ~ is_dir (nodes fs) (path_join dir currentDBFilename) ->
  run (replaceCurrentDBFile dir) fs =
  (set_nodes (<[path_join dir currentDBFilename := NFile s]>
     (delete (path_join dir updatingDBFilename) (nodes fs))) fs, Ret tt).
Proof.
  intros Hc [st Hd] E Hn. unfold replaceCurrentDBFile.
  assert (run (Rename (path_join dir updatingDBFilename) (path_join dir currentDBFilename)) fs =
    (set_nodes (<[path_join dir currentDBFilename := NFile s]>
      (delete (path_join dir updatingDBFilename) (nodes fs))) fs, Ret tt)) as R.
  { unfold Rename. rewrite run_os, E by done.
    destruct (nodes fs !! path_join dir currentDBFilename) as [[?|st']|] eqn:E2; try done.
    destruct Hn. by exists st'. }
  rewrite run_bind, R. apply run_syncDir; [done|]. exists st. simpl.
  rewrite lookup_insert_ne, lookup_delete_ne; [done|..];
    eapply not_eq_sym, not_eq_sym, path_join_longer; done.
Qed.

Lemma run_createNodeDataDir c r (fs : FS DB) :
  calm fs -> is_dir (nodes fs) testDBDirName -> is_dir (nodes fs) (getNodeDBDirName c r) ->
  run (createNodeDataDir (getNodeDBDirName c r)) fs = (fs, Ret tt).
Proof.
  intros Hc [st1 H1] [st2 H2]. unfold createNodeDataDir, MkdirAll.
  rewrite run_bind, run_os, ancestors_node by done. cbn [mkdirs].
  rewrite H1, H2, path_dir_node. simpl fst. rewrite set_nodes_nodes. simpl snd.
  apply run_syncDir; [done|]. by exists st1.
Qed.

(** ** What a new run finds *)

Lemma child_name_spec dir p n :
  child_name dir p = Some n <-> p = path_join dir n /\ plain_name n.
Proof.
  unfold child_name. destruct (has_prefix (path_join dir "") p) eqn:E.
  - apply has_prefix_spec in E as [t ->]. rewrite sdrop_app by done.
    unfold path_join at 1. rewrite string_app_assoc. simpl (String "/" "" +:+ t).
    rewrite <- path_join_app. destruct (has_byte "/" t || bool_decide (t = "")) eqn:Et.
    + split; [done|]. intros [->%(inj _) [H1 H2]].
      rewrite H1, bool_decide_eq_false_2 in Et; done.
    + apply orb_false_iff in Et as [H1 H2%bool_decide_eq_false].
      split; [by intros [= <-]|]. by intros [->%(inj _) _].
  - split; [done|]. intros [-> _]. assert (has_prefix (path_join dir "") (path_join dir n) = true)
      as K; [|congruence].
    apply has_prefix_spec. exists n. unfold path_join. by rewrite string_app_assoc.
Qed.

Lemma elem_of_dir_entries (ns : state) dir n isdir :
  (n, isdir) ∈ dir_entries ns dir <->
  plain_name n /\ exists x, ns !! path_join dir n = Some x /\
    isdir = match x with NDir _ => true | NFile _ => false end.
Proof.
  unfold dir_entries. rewrite list_elem_of_omap. split.
  - intros ([p x] & Hp & E). rewrite merge_sort_Permutation in Hp.
    apply elem_of_map_to_list in Hp. apply fmap_Some in E as (n' & E & [= -> ->]).
    apply child_name_spec in E as [-> Hn]. split; [done|]. by exists x.
  - intros (Hn & x & Hx & ->). exists (path_join dir n, x). split.
    + rewrite merge_sort_Permutation. by apply elem_of_map_to_list.
    + by rewrite (proj2 (child_name_spec _ _ _) (conj eq_refl Hn)).
Qed.

(** The entries the loop may remove. *)
Definition removable (files : list (string * bool)) : Prop :=
  Forall (fun '(n, isdir) => plain_name n /\ (isdir = true -> n <> currentDBFilename)) files.

Lemma removable_entries dir d (ns : state) : names dir d ns -> removable (dir_entries ns dir).
Proof.
  intros K. apply Forall_forall. intros [n isdir] (Hn & x & Hx & ->)%elem_of_dir_entries.
  split; [done|]. intros E ->. unfold names in K. rewrite Hx in K. by injection K as ->.
Qed.

Lemma keeps_removeOthers c r d db files :
  removable files ->
  keeps (on (Committed c r d db)) (removeOthers (getNodeDBDirName c r) d files).
Proof.
  induction 1 as [|[n isdir] files [Hn Hd] Hf IH]; [apply keeps_lift|]. simpl.
  destruct isdir; [|done]. case_decide; [|done].
  apply keeps_bind; [|done]. apply keeps_os. intros ns HC. by apply Committed_remove; auto.
Qed.

Lemma Committed_updating c r d db ns :
  Committed c r d db ns -> path_join (getNodeDBDirName c r) updatingDBFilename <> d.
Proof.
  intros HC. destruct (com_name _ _ _ _ _ HC) as (n & -> & _ & _ & Hn). by intros ?%(inj _).
Qed.

Lemma updating_ne_current : updatingDBFilename <> currentDBFilename.
Proof. discriminate. Qed.

Lemma Committed_remove_updating c r d db ns :
  Committed c r d db ns ->
  Committed c r d db (remove_under (path_join (getNodeDBDirName c r) updatingDBFilename) ns).
Proof.
  intros HC. apply Committed_remove; auto using plain_updating, updating_ne_current.
  by eapply Committed_updating.
Qed.

Lemma keeps_cleanup c r d db :
  keeps (on (Committed c r d db)) (cleanupNodeDataDir (getNodeDBDirName c r)).
Proof.
  unfold cleanupNodeDataDir. apply keeps_bind.
  { apply keeps_try, keeps_os. intros ns HC. by apply Committed_remove_updating. }
  intros _. eapply spec_bind; [apply (spec_getCurrent _ _ d); apply Committed_names|].
  intros x. apply spec_pure. intros ->.
  eapply (spec_bind _ _ _ (fun files fs => removable files /\ on (Committed c r d db) fs)).
  - apply (spec_os (Committed c r d db) _ _
      (fun files ns => removable files /\ Committed c r d db ns)); [done|].
    intros ns HC. split; [done|].
    destruct (ns !! getNodeDBDirName c r) as [[?|?]|]; simpl; try done.
    split; [eapply removable_entries, HC|done].
  - intros files. apply spec_pure. apply keeps_removeOthers.
Qed.

(** *** The loop removes the other directories and nothing else *)

Section Cleanup.
Context (c r : Z) (d : string) (I : state -> Prop).
Abbreviation dir := (getNodeDBDirName c r).

(** What the cleanup relies on, and keeps. *)
Hypothesis I_dir : forall ns, I ns -> is_dir ns dir.
Hypothesis I_names : forall ns, I ns -> names dir d ns.
Hypothesis I_remove : forall ns n,
  plain_name n -> n <> currentDBFilename -> path_join dir n <> d -> I ns ->
  I (remove_under (path_join dir n) ns).
Hypothesis d_name : db_name dir d.

Lemma remove_under_sub p (ns : state) : remove_under p ns ⊆ ns.
Proof.
  apply map_subseteq_spec. intros q x. rewrite lookup_remove_under. by destruct (under _ _).
Qed.

Lemma run_removeOthers files (fs : FS DB) :
  calm fs -> I (nodes fs) -> removable files ->
  exists ns', run (removeOthers dir d files) fs = (set_nodes ns' fs, Ret tt) /\
    I ns' /\ ns' ⊆ nodes fs /\
    forall n, (n, true) ∈ files -> path_join dir n <> d -> ns' !! path_join dir n = None.
Proof.
  intros Hc HI Hf. revert fs Hc HI.
  induction Hf as [|[n isdir] files [Hn Hd] Hf IH]; intros fs Hc HI.
  { exists (nodes fs). rewrite set_nodes_nodes. split_and!; try done.
    by intros n ?%not_elem_of_nil. }
  simpl. destruct isdir; [case_decide as E|]; cycle 1.
  - destruct (IH fs Hc HI) as (ns' & R & HI' & Hs & Hr). exists ns'. split_and!; try done.
    intros m Hm Hne. apply elem_of_cons in Hm as [[= ->]|Hm]; [done|auto].
  - destruct (IH fs Hc HI) as (ns' & R & HI' & Hs & Hr). exists ns'. split_and!; try done.
    intros m Hm Hne. apply elem_of_cons in Hm as [[=]|Hm]; auto.
  - rewrite run_bind, run_RemoveAll by done.
    set (rm := remove_under (path_join dir n) (nodes fs)).
    destruct (IH (set_nodes rm fs)) as (ns' & R & HI' & Hs & Hr); [done|by apply I_remove; auto|].
    exists ns'. rewrite R. split_and!; try done; [trans rm; [done|apply remove_under_sub]|].
    intros m Hm Hne. apply elem_of_cons in Hm as [[= ->]|Hm]; [|auto].
    apply eq_None_not_Some. intros [x Hx]. eapply lookup_weaken in Hx; [|exact Hs].
    subst rm. simpl in Hx. rewrite lookup_remove_under in Hx. unfold under in Hx.
    by rewrite bool_decide_eq_true_2 in Hx.
Qed.

Lemma run_cleanup (fs : FS DB) :
  calm fs -> I (nodes fs) ->
  exists ns', run (cleanupNodeDataDir dir) fs = (set_nodes ns' fs, Ret tt) /\
    I ns' /\ ns' ⊆ nodes fs /\
    forall n, plain_name n -> is_dir ns' (path_join dir n) -> path_join dir n = d.
Proof.
  intros Hc HI. unfold cleanupNodeDataDir. go_step. rewrite run_RemoveAll by done.
  assert (I (remove_under (path_join dir updatingDBFilename) (nodes fs))) as HI2.
  { apply I_remove; auto using plain_updating, updating_ne_current.
    destruct d_name as (n & -> & _ & _ & Hn). by intros ?%(inj _). }
  set (rm := remove_under _ _) in *.
  assert (d <> "") as Hd by (by destruct d_name as (n & -> & _)).
  rewrite run_bind, (run_getCurrent dir d (set_nodes rm fs)) by auto.
  rewrite run_bind. unfold ReadDir. rewrite run_read by done. simpl nodes.
  destruct (I_dir rm HI2) as [st Hst]. rewrite Hst. simpl.
  destruct (run_removeOthers (dir_entries rm dir) (set_nodes rm fs))
    as (ns' & R & HI' & Hs & Hr); [done|done|by eapply removable_entries, I_names|].
  rewrite R. exists ns'.
  split_and!; [done|done|trans rm; [done|apply remove_under_sub]|].
  intros n Hn [st' Hst']. destruct (decide (path_join dir n = d)) as [|Hne]; [done|].
  assert (ns' !! path_join dir n = None) as K; [|congruence].
  apply Hr; [|done]. apply elem_of_dir_entries. split; [done|].
  exists (NDir st'). split; [|done]. by eapply lookup_weaken.
Qed.
End Cleanup.

Lemma run_cleanup_committed c r d db (fs : FS DB) :
  calm fs -> Committed c r d db (nodes fs) ->
  exists ns', run (cleanupNodeDataDir (getNodeDBDirName c r)) fs = (set_nodes ns' fs, Ret tt) /\
    Committed c r d db ns' /\ ns' ⊆ nodes fs /\
    forall n, plain_name n -> is_dir ns' (path_join (getNodeDBDirName c r) n) ->
      path_join (getNodeDBDirName c r) n = d.
Proof.
  intros Hc HC. apply (run_cleanup c r d (Committed c r d db)); try done.
  - apply com_dir.
  - apply com_current.
  - intros ns n. apply Committed_remove.
  - by eapply com_name.
Qed.
End Committed.
