(* ===== verification/DiskKV.v ===== *)
(** * The replicated state machine: [roo/kvdisk.go], lines 70-141 and 293-714

    [DiskKV] applies Raft log entries to a Pebble store, answers queries,
    and saves and restores snapshots.  Its state is the record [DiskKV],
    the store handles opened so far (a pointer to a [pebbledb] is an index
    into them, so that an old handle stays visible to those who hold it)
    and the file system.  The read-write locks of [pebbledb] exclude
    concurrent calls and have no counterpart in this sequential model. *)
From S2P Require Import Prelude Bytes Md5 Json Types Pebble FileSystem DataDir.

Definition appliedIndexKey : string := "disk_kv_applied_index".
Definition GET : string := "GET".
Definition SCAN : string := "SCAN".
Definition REVERSE_SCAN : string := "REVERSE".
Definition PUT : string := "PUT".

(** A Raft log entry and the result it is given. *)
Record Entry := mkEntry { Index : Z; Cmd : string; Result : Z }.

(** What a client may pass to [Lookup]. *)
Inductive query :=
  | QString (s : string)
  | QData (d : KVData)
  | QAction (a : KVAction)
  | QBytes (s : string).

(** What [Lookup] answers: a byte slice, or a map. *)
Inductive answer :=
  | ABytes (b : slice)
  | AMap (m : gmap string string).

(** The dynamic type of the key given to [Get]. *)
Inductive any_key :=
  | KeyBytes (b : slice)
  | KeyString (s : string)
  | KeyOther.

(** [io.Writer]; a failed write leaves the writer unusable. *)
Class Writer (W : Type) := writer_write : W -> string -> goerror + W.

(** A buffer, and a hash, take every write. *)
#[export] Instance buffer_Writer : Writer string := fun w s => inr (w +:+ s).

(** [io.ReadFull] on a stream given by its bytes. *)
Definition ReadFull (r : string) (n : Z) : go (string * string) :=
  if Z.of_nat (String.length r) <? n
  then Err (ErrorString (if decide (r = "") then "EOF" else "unexpected EOF"))
  else Ret (stake (Z.to_nat n) r, sdrop (Z.to_nat n) r).

(** [make([]byte, n)] panics beyond the address space of the platform. *)
Definition maxAlloc : Z := 2 ^ 48.

(** ** Log entries *)

(** The loop over a batch; a nil element is dereferenced. *)
Fixpoint batchOps (l : list (option KVData)) : go (list batch_op) :=
  match l with
  | [] => Ret []
  | None :: _ => Panic "nil pointer dereference"
  | Some a :: l =>
      let? ops := batchOps l in
      Ret (match Val a with
           | None => OpDelete (Key a)
           | Some v => OpSet (Key a) v
           end :: ops)
  end.

(** The writes of one command; [None] when it is skipped. *)
Definition commandOps (cmd : string) : go (option (list batch_op)) :=
  match Unmarshal dec_KVBatch (mkKVBatch "" None) cmd with
  | (mkKVBatch _ (Some l), true) => let? ops := batchOps l in Ret (Some ops)
  | _ =>
      let '(actionKV, ok) := Unmarshal dec_KVAction (mkKVAction "" (Some zeroKVData)) cmd in
      let single d :=
        Ret (Some [match Val d with
                   | None => OpDelete (Key d)
                   | Some v => OpSet (Key d) v
                   end]) in
      let again :=
        match Data actionKV with
        | None => Ret None (* Unmarshal into a nil pointer is an error *)
        | Some d =>
            let '(d', ok') := Unmarshal dec_KVData d cmd in
            if negb ok' || bool_decide (Key d' = "") then Ret None else single d'
        end in
      if negb ok then again
      else match Data actionKV with
           | None => Panic "nil pointer dereference"
           | Some d => if decide (Key d = "") then again else single d
           end
  end.

(** The loop of [Update]: the write batch, and the entries with results. *)
Fixpoint updateEntries (ents : list Entry) : go (list batch_op * list Entry) :=
  match ents with
  | [] => Ret ([], [])
  | e :: ents =>
      let? o := commandOps (Cmd e) in
      let? rest := updateEntries ents in
      match o with
      | None => Ret (rest.1, e :: rest.2)
      | Some ops =>
          Ret (ops ++ rest.1,
               mkEntry (Index e) (Cmd e) (Z.of_nat (String.length (Cmd e))) :: rest.2)
      end
  end.

(** ** Queries *)

(** The first part of [Lookup]: which action on which data. *)
Definition resolveQuery (cmd : query) : go (string * KVData) :=
  let of_action a :=
    match Data a with
    | None => Panic "nil pointer dereference"
    | Some d => Ret (Action a, d)
    end in
  match cmd with
  | QString c => Ret (GET, mkKVData c None)
  | QData d => Ret (GET, d)
  | QAction a => of_action a
  | QBytes c =>
      let '(actionKV, ok) := Unmarshal dec_KVAction (mkKVAction "" (Some zeroKVData)) c in
      if negb ok || bool_decide (Action actionKV = "") then
        match Data actionKV with
        | None => Panic "nil pointer dereference"
        | Some d =>
            let '(d', ok') := Unmarshal dec_KVData d c in
            if ok' && negb (bool_decide (Key d' = "")) then Ret (GET, d')
            else Ret (GET, mkKVData c (Val d'))
        end
      else of_action actionKV
  end.

(** The loop of [scan]: seek to the query, stop at the first key that does
    not have it as a prefix. *)
Fixpoint seekGE (q : string) (l : list (string * string)) : list (string * string) :=
  match l with
  | [] => []
  | (k, v) :: l' => if decide (String.le q k) then l else seekGE q l'
  end.

Fixpoint takePrefixed (q : string) (l : list (string * string)) : list (string * string) :=
  match l with
  | [] => []
  | (k, v) :: l' => if has_prefix q k then (k, v) :: takePrefixed q l' else []
  end.

(** ** Snapshot records *)

(** Length and text of each record, as [saveToWriter] writes them. *)
Fixpoint writeRecords {W} `{Writer W} (w : W) (values : list KVData) : goerror + W :=
  match values with
  | [] => inr w
  | dataKv :: values =>
      let data := MarshalKVData dataKv in
      match writer_write w (LittleEndian.PutUint64 (Z.of_nat (String.length data))) with
      | inl e => inl e
      | inr w =>
          match writer_write w data with
          | inl e => inl e
          | inr w => writeRecords w values
          end
      end
  end.

(** The loop of [RecoverFromSnapshot]: the writes of [total] records. *)
Fixpoint readRecords (fuel : nat) (total : Z) (r : string) : go (list batch_op) :=
  if total <=? 0 then Ret []
  else match fuel with
  | O => Panic "out of fuel"
  | S fuel =>
      let? p := ReadFull r 8 in
      let? toRead := LittleEndian.Uint64 p.1 in
      if maxAlloc <? toRead then Panic "makeslice: len out of range"
      else
        let? q := ReadFull p.2 toRead in
        let '(dataKv, ok) := Unmarshal dec_KVData zeroKVData q.1 in
        if ok : bool then
          let? ops := readRecords fuel (total - 1) q.2 in
          Ret (OpSet (Key dataKv) (slice_bytes (Val dataKv)) :: ops)
        else Panic "panic(err)"
  end.

(** ** The state machine *)

Section DiskKV.
Context {DB : Type} `{Pebble DB}.

(** [pebbledb]: the directory of the store stands for [db *pebble.DB]; the
    iterator and write options are constants. *)
Record pebbledb := mkPebbledb { pd_dir : string; pd_closed : bool }.

Record DiskKV := mkDiskKV {
  dk_clusterID : Z; dk_ReplicaID : Z; dk_lastApplied : Z;
  dk_db : option nat; dk_closed : bool; dk_aborted : bool }.

Record sys := mkSys { s_fs : FS DB; s_handles : list pebbledb; s_kv : DiskKV }.

Definition NewDiskKV (clusterID ReplicaID : Z) : DiskKV :=
  mkDiskKV clusterID ReplicaID 0 None false false.

Definition set_fs (fs : FS DB) (s : sys) : sys := mkSys fs (s_handles s) (s_kv s).
Definition set_handles (hs : list pebbledb) (s : sys) : sys := mkSys (s_fs s) hs (s_kv s).
Definition set_kv (d : DiskKV) (s : sys) : sys := mkSys (s_fs s) (s_handles s) d.
Definition set_lastApplied (i : Z) (s : sys) : sys :=
  let d := s_kv s in
  set_kv (mkDiskKV (dk_clusterID d) (dk_ReplicaID d) i (dk_db d) (dk_closed d) (dk_aborted d)) s.
Definition set_db (p : option nat) (s : sys) : sys :=
  let d := s_kv s in
  set_kv (mkDiskKV (dk_clusterID d) (dk_ReplicaID d) (dk_lastApplied d) p (dk_closed d)
    (dk_aborted d)) s.
Definition set_closed (s : sys) : sys :=
  let d := s_kv s in
  set_kv (mkDiskKV (dk_clusterID d) (dk_ReplicaID d) (dk_lastApplied d) (dk_db d) true
    (dk_aborted d)) s.

Definition on_fs {A} (m : io (FS DB) A) : io sys A := zoom s_fs set_fs m.

(** The contents behind a handle. *)
Definition store_at (fs : FS DB) (dir : string) : option DB :=
  match nodes fs !! dir with
  | Some (NDir (Some db)) => Some db
  | _ => None
  end.

Definition handle_store (s : sys) (i : nat) : option DB :=
  h ← s_handles s !! i; store_at (s_fs s) (pd_dir h).

(** Run [k] on an open handle; Pebble panics when its store is closed. *)
Definition with_store {A} (i : nat) (k : pebbledb -> DB -> io sys A) : io sys A := fun s =>
  match s_handles s !! i with
  | None => panic "nil pointer dereference" s
  | Some h =>
      if pd_closed h then panic "pebble: closed" s
      else match store_at (s_fs s) (pd_dir h) with
           | None => fail (ErrExternal 0) s
           | Some db => k h db s
           end
  end.

(** [createDB] with the handle it returns. *)
Definition newHandle (dbdir : string) : io sys nat :=
  let* _ := on_fs (createDB dbdir) in
  fun s =>
    let s' := set_handles (s_handles s ++ [mkPebbledb dbdir false]) s in
    ([s'], (s', Ret (length (s_handles s)))).

(** *** [pebbledb] *)

Definition lookup (i : nat) (query : string) : io sys slice := fun s =>
  match s_handles s !! i with
  | Some (mkPebbledb _ true) => fail (ErrorString "db already closed") s
  | _ =>
      with_store i (fun _ db =>
        match pb_Get db query with
        | inl e => fail e
        | inr val => if (String.length val =? 0)%nat then ret (Some "") else ret (Some val)
        end) s
  end.

Definition scan (i : nat) (query : string) : io sys (gmap string string) := fun s =>
  match s_handles s !! i with
  | Some (mkPebbledb _ true) => fail (ErrorString "db already closed") s
  | _ =>
      with_store i (fun _ db =>
        ret (list_to_map (takePrefixed query (seekGE query (pb_iter db None None))))) s
  end.

Definition close (i : nat) : io sys unit := fun s =>
  match s_handles s !! i with
  | None => panic "nil pointer dereference" s
  | Some h => modify (set_handles (<[i := mkPebbledb (pd_dir h) true]> (s_handles s))) s
  end.

(** A batch written to the store, synced. *)
Definition applyBatch (i : nat) (ops : list batch_op) : io sys unit :=
  with_store i (fun h db =>
    match pb_Apply db ops with
    | inl e => fail e
    | inr db' =>
        modify (fun s => set_fs (set_nodes (<[pd_dir h := NDir (Some db')]> (nodes (s_fs s)))
          (s_fs s)) s)
    end).

Definition delete (i : nat) (query : string) : io sys unit := fun s =>
  match s_handles s !! i with
  | Some (mkPebbledb _ true) => fail (ErrorString "db already closed") s
  | _ => applyBatch i [OpDelete query] s
  end.

Definition queryAppliedIndex (i : nat) : io sys Z :=
  with_store i (fun _ db =>
    match pb_Get db appliedIndexKey with
    | inl ErrNotFound => ret 0
    | inl e => fail e
    | inr val =>
        if (String.length val =? 0)%nat then ret 0 else lift (LittleEndian.Uint64 val)
    end).

(** *** [DiskKV] *)

Definition Open (rn ct : Z) : io sys Z :=
  let* s := get in
  let dir := getNodeDBDirName (dk_clusterID (s_kv s)) (dk_ReplicaID (s_kv s)) in
  let* r := try (on_fs (createNodeDataDir dir)) in
  match r with
  | inl _ => panic "panic(err)"
  | inr _ =>
      let* fresh := on_fs (isNewRun dir) in
      let* dbdir :=
        if fresh : bool then
          let dbdir := getNewRandomDBDirName dir rn ct in
          let* _ := on_fs (saveCurrentDBDirName dir dbdir) in
          let* _ := on_fs (replaceCurrentDBFile dir) in
          ret dbdir
        else
          let* _ := on_fs (cleanupNodeDataDir dir) in
          let* dbdir := on_fs (getCurrentDBDirName dir) in
          let* st := try (on_fs (Stat dbdir)) in
          match st with
          | inl ErrNotExist => panic "db dir unexpectedly deleted"
          | _ => ret dbdir
          end in
      let* db := newHandle dbdir in
      let* _ := modify (set_db (Some db)) in
      let* r := try (queryAppliedIndex db) in
      match r with
      | inl _ => panic "panic(err)"
      | inr appliedIndex =>
          let* _ := modify (set_lastApplied appliedIndex) in
          ret appliedIndex
      end
  end.

Definition Get (key : any_key) : io sys slice :=
  let* s := get in
  match dk_db (s_kv s) with
  | None => fail (ErrorString "db closed")
  | Some db =>
      match (match key with
             | KeyBytes k => Some (slice_bytes k)
             | KeyString k => Some k
             | KeyOther => None
             end) with
      | None => fail (ErrorString "[ERROR] Unsupported query type for key")
      | Some kb =>
          let* r := try (lookup db kb) in
          match r with
          | inr v =>
              if dk_closed (s_kv s)
              then panic "lookup returned valid result when DiskKV is already closed"
              else ret v
          | inl ErrNotFound => ret None
          | inl e => fail e
          end
      end
  end.

Definition Scan (key : string) : io sys (gmap string string) :=
  let* s := get in
  match dk_db (s_kv s) with
  | None => fail (ErrorString "db closed")
  | Some db =>
      let* r := try (scan db key) in
      match r with
      | inr v =>
          if dk_closed (s_kv s)
          then panic "scan returned valid result when DiskKV is already closed"
          else ret v
      | inl e => fail e
      end
  end.

(** The values of the map are the slices the iterator handed out. *)
Definition ReverseScan (key : string) (val : slice) : io sys (gmap string string) :=
  let* s := get in
  match dk_db (s_kv s) with
  | None => fail (ErrorString "Could not connect to db")
  | Some db =>
      with_store db (fun _ st =>
        ret (list_to_map (pb_retained st (pb_iter st val (Some key)))))
  end.

Definition Lookup (cmd : query) : io sys answer :=
  let* q := lift (resolveQuery cmd) in
  let '(action, d) := q in
  if decide (action = SCAN) then let* m := Scan (Key d) in ret (AMap m)
  else if decide (action = REVERSE_SCAN)
  then let* m := ReverseScan (Key d) (Val d) in ret (AMap m)
  else let* v := Get (KeyString (Key d)) in ret (ABytes v).

Definition Update (ents : list Entry) : io sys (list Entry) :=
  let* s := get in
  if dk_aborted (s_kv s) then panic "update() called after abort set to true"
  else if dk_closed (s_kv s) then panic "update called after Close()"
  else match dk_db (s_kv s) with
  | None => panic "nil pointer dereference"
  | Some db =>
      let* r := lift (updateEntries ents) in
      let '(ops, ents') := r in
      match last ents with
      | None => panic "index out of range"
      | Some e =>
          let* _ := applyBatch db
            (ops ++ [OpSet appliedIndexKey (LittleEndian.PutUint64 (Index e))]) in
          if Index e <=? dk_lastApplied (s_kv s) then panic "lastApplied not moving forward"
          else
            let* _ := modify (set_lastApplied (Index e)) in
            ret ents'
      end
  end.

(** [Sync] is a no-op. *)
Definition SyncKV : io sys unit := ret tt.

(** [diskKVCtx]: the handle and the store as it was. *)
Record diskKVCtx := mkCtx { ctx_db : nat; ctx_snapshot : DB }.

Definition PrepareSnapshot : io sys diskKVCtx :=
  let* s := get in
  if dk_closed (s_kv s) then panic "prepare snapshot called after Close()"
  else if dk_aborted (s_kv s) then panic "prepare snapshot called after abort"
  else match dk_db (s_kv s) with
  | None => panic "nil pointer dereference"
  | Some db => with_store db (fun _ st => ret (mkCtx db st))
  end.

(** The entries of a snapshot, as [saveToWriter] collects them. *)
Definition snapshotValues (ss : DB) : list KVData :=
  map (fun '(k, v) => mkKVData k (Some v)) (pb_retained ss (pb_iter ss None None)).

Definition saveToWriter {W} `{Writer W} (ss : DB) (w : W) : goerror + W :=
  let values := snapshotValues ss in
  match writer_write w (LittleEndian.PutUint64 (Z.of_nat (length values))) with
  | inl e => inl e
  | inr w => writeRecords w values
  end.

Definition SaveSnapshot {W} `{Writer W} (ctx : diskKVCtx) (w : W) : io sys W :=
  let* s := get in
  if dk_closed (s_kv s) then panic "prepare snapshot called after Close()"
  else if dk_aborted (s_kv s) then panic "prepare snapshot called after abort"
  else lift (go_of_sum (saveToWriter (ctx_snapshot ctx) w)).

(** The batch a snapshot stream stands for. *)
Definition readSnapshot (r : string) : go (list batch_op) :=
  let? p := ReadFull r 8 in
  let? total := LittleEndian.Uint64 p.1 in
  readRecords (S (String.length p.2)) total p.2.

Definition RecoverFromSnapshot (rn ct : Z) (r : string) : io sys unit :=
  let* s := get in
  if dk_closed (s_kv s) then panic "recover from snapshot called after Close()"
  else
    let dir := getNodeDBDirName (dk_clusterID (s_kv s)) (dk_ReplicaID (s_kv s)) in
    let dbdir := getNewRandomDBDirName dir rn ct in
    let* oldDirName := on_fs (getCurrentDBDirName dir) in
    let* db := newHandle dbdir in
    let* ops := lift (readSnapshot r) in
    let* _ := applyBatch db ops in
    let* _ := on_fs (saveCurrentDBDirName dir dbdir) in
    let* _ := on_fs (replaceCurrentDBFile dir) in
    let* i := try (queryAppliedIndex db) in
    match i with
    | inl _ => panic "panic(err)"
    | inr newLastApplied =>
        if newLastApplied <? dk_lastApplied (s_kv s) then panic "last applied not moving forward"
        else
          let* _ := modify (set_lastApplied newLastApplied) in
          let* _ := modify (set_db (Some db)) in
          let* _ := match dk_db (s_kv s) with
                    | Some old => close old
                    | None => ret tt
                    end in
          let* _ := on_fs (RemoveAll oldDirName) in
          on_fs (syncDir (path_dir oldDirName))
    end.

Definition CloseKV : io sys unit :=
  let* s := get in
  let* _ := modify (set_db None) in
  match dk_db (s_kv s) with
  | Some db =>
      let* _ := modify set_closed in
      close db
  | None => if dk_closed (s_kv s) then panic "close called twice" else ret tt
  end.

Definition GetHash : io sys Z :=
  let* s := get in
  match dk_db (s_kv s) with
  | None => panic "nil pointer dereference"
  | Some db =>
      with_store db (fun _ ss =>
        match saveToWriter ss "" with
        | inl e => fail e
        | inr h => lift (LittleEndian.Uint64 (stake 8 (md5_sum h)))
        end)
  end.
End DiskKV.
