(* ===== verification/DiskKVSpec.v ===== *)
(** * What the replicated state machine guarantees

    The abstract state of a replica is a finite map from keys to values;
    one of its keys holds the index of the last log entry applied.  Log
    entries that carry an encoded [command] act on it as [exec] says.
    [Replica s m] relates a running replica to its abstract state. *)
From S2P Require Import Prelude Bytes Md5 Utf8 Json Types Pebble FileSystem Crash DataDir.
From S2P Require Import DataDirSpec DiskKV.

(** ** Commands *)

(** What the API proposes: a key with its value, the same wrapped in an
    action, or a batch. *)
Inductive command :=
  | CData (d : KVData)
  | CAction (action : string) (d : KVData)
  | CBatch (action : string) (l : list KVData).

Definition encode (c : command) : string :=
  match c with
  | CData d => MarshalKVData d
  | CAction a d => MarshalKVAction (mkKVAction a (Some d))
  | CBatch a l => MarshalKVBatch (mkKVBatch a (Some (map Some l)))
  end.

(** A missing value deletes the key. *)
Definition write (m : gmap string string) (d : KVData) : gmap string string :=
  match Val d with
  | None => base.delete (sanitize (Key d)) m
  | Some v => <[sanitize (Key d) := v]> m
  end.

Definition exec (m : gmap string string) (c : command) : gmap string string :=
  match c with
  | CData d | CAction _ d => if decide (Key d = "") then m else write m d
  | CBatch _ l => foldl write m l
  end.

Definition accepted (c : command) : bool :=
  match c with
  | CData d | CAction _ d => negb (bool_decide (Key d = ""))
  | CBatch _ _ => true
  end.

Lemma sanitize_empty s : sanitize s = "" <-> s = "".
Proof.
  split; [|by intros ->]. unfold sanitize.
  induction s as [|c s|c0 c1 s|c0 c1 c2 s|c0 c1 c2 c3 s|c s] using utf8_ind; [done|..];
    by fold_step.
Qed.

Definition data_op (d : KVData) : batch_op :=
  match Val d with
  | None => OpDelete (sanitize (Key d))
  | Some v => OpSet (sanitize (Key d)) v
  end.

Lemma batchOps_sanitized l :
  batchOps (map (option_map sanitize_data) (map Some l)) = Ret (map data_op l).
Proof.
  induction l as [|d l IH]; [done|]. cbn [map option_map batchOps]. rewrite IH.
  by destruct d as [k [v|]].
Qed.

(** The writes an encoded command stands for. *)
Definition command_ops (c : command) : option (list batch_op) :=
  match c with
  | CData d | CAction _ d => if decide (Key d = "") then None else Some [data_op d]
  | CBatch _ l => Some (map data_op l)
  end.

Lemma Unmarshal_action_as_data cur a :
  Unmarshal dec_KVData cur (MarshalKVAction a) = (cur, true).
Proof. unfold Unmarshal. rewrite parse_KVAction. by destruct a as [x [[k [v|]]|]]. Qed.

Lemma commandOps_encode c : commandOps (encode c) = Ret (command_ops c).
Proof.
  destruct c as [[k v]|a [k v]|a l]; unfold commandOps; cbn [encode].
  - rewrite Unmarshal_data_as_batch, Unmarshal_data_as_action. simpl.
    rewrite Unmarshal_KVData. simpl. unfold data_op. simpl. destruct (decide (k = "")) as [->|Hk]; [done|].
    rewrite bool_decide_eq_false_2; [done|]. simpl. by rewrite sanitize_empty.
  - rewrite Unmarshal_action_as_batch, Unmarshal_KVAction. simpl. unfold data_op. simpl.
    destruct (decide (k = "")) as [->|Hk].
    + rewrite decide_True by done. by rewrite Unmarshal_action_as_data.
    + rewrite decide_False; [done|]. by rewrite sanitize_empty.
  - rewrite Unmarshal_KVBatch. cbn [sanitize_batch Batch BatchAction option_map].
    by rewrite batchOps_sanitized.
Qed.

Lemma run_data_op m d : run_op m (data_op d) = write m d.
Proof. unfold data_op, write. by destruct (Val d). Qed.

Lemma run_command_ops m c : run_ops m (default [] (command_ops c)) = exec m c.
Proof.
  destruct c as [d|a d|a l]; simpl.
  1,2: destruct (decide (Key d = "")); [done|]; simpl; apply run_data_op.
  revert m. induction l as [|d l IH]; intros m; [done|]. simpl. rewrite run_data_op. apply IH.
Qed.

(** The results of a list of entries that carry the commands [cs]. *)
Definition result (e : Entry) (c : command) : Entry :=
  mkEntry (Index e) (Cmd e)
    (if accepted c then Z.of_nat (String.length (Cmd e)) else Result e).

Lemma updateEntries_encode ents cs :
  map Cmd ents = map encode cs ->
  updateEntries ents =
  Ret (flat_map (fun c => default [] (command_ops c)) cs, zip_with result ents cs).
Proof.
  revert cs. induction ents as [|e ents IH]; intros [|c cs]; try done.
  intros [= E1 E2]. cbn [updateEntries]. rewrite E1, commandOps_encode. simpl.
  rewrite (IH cs) by done. simpl. destruct e as [i cmd res]. unfold result. simpl in *. subst cmd.
  destruct c as [d|a d|a l]; simpl; [..|done];
    by destruct (decide (Key d = "")) as [Hk|Hk]; simpl;
      [rewrite bool_decide_eq_true_2|rewrite bool_decide_eq_false_2].
Qed.

Lemma run_flat_map m cs :
  run_ops m (flat_map (fun c => default [] (command_ops c)) cs) = foldl exec m cs.
Proof.
  revert m. induction cs as [|c cs IH]; intros m; [done|]. simpl.
  by rewrite run_ops_app, run_command_ops, IH.
Qed.

(** A log in pieces: the writes and the results come in the same order. *)
Lemma updateEntries_app e1 e2 :
  updateEntries (e1 ++ e2) =
  let? r1 := updateEntries e1 in
  let? r2 := updateEntries e2 in
  Ret (r1.1 ++ r2.1, r1.2 ++ r2.2).
Proof.
  induction e1 as [|e e1 IH]; simpl.
  - by destruct (updateEntries e2) as [[ops es]|?|?].
  - rewrite IH. destruct (commandOps (Cmd e)) as [o|?|?]; simpl; [|done..].
    destruct (updateEntries e1) as [[ops1 es1]|?|?]; simpl; [|by destruct o..].
    destruct (updateEntries e2) as [[ops2 es2]|?|?]; simpl; [|by destruct o..].
    destruct o; simpl; by rewrite ?app_assoc.
Qed.

(** ** Keys stay valid UTF-8 *)

Definition op_key (op : batch_op) : string :=
  match op with OpSet k _ => k | OpDelete k => k end.

Definition utf8_op (op : batch_op) : Prop := valid_utf8 (op_key op) = true.

Definition utf8_keys (m : gmap string string) : Prop :=
  map_Forall (fun k _ => valid_utf8 k = true) m.

Lemma utf8_keys_run_ops m ops : utf8_keys m -> Forall utf8_op ops -> utf8_keys (run_ops m ops).
Proof.
  intros Hm Ho. revert m Hm. induction Ho as [|op ops Hop _ IH]; intros m Hm; [done|].
  apply IH. destruct op as [k v|k]; simpl.
  - by apply map_Forall_insert_2.
  - by apply map_Forall_delete.
Qed.

Lemma utf8_keys_empty : utf8_keys ∅.
Proof. apply map_Forall_empty. Qed.

Lemma batchOps_utf8 l ops : Forall utf8_ptr l -> batchOps l = Ret ops -> Forall utf8_op ops.
Proof.
  intros Hl. revert ops. induction Hl as [|p l Hp _ IH]; intros ops; simpl.
  - intros [= <-]. constructor.
  - destruct p as [d|]; [|done]. destruct (batchOps l) as [ops'| |]; simpl; [|done..].
    intros [= <-]. constructor; [|by apply IH]. specialize (Hp d eq_refl). by destruct (Val d).
Qed.

Lemma commandOps_utf8 cmd ops : commandOps cmd = Ret (Some ops) -> Forall utf8_op ops.
Proof.
  assert (forall cur, utf8_key cur -> utf8_key (Unmarshal dec_KVData cur cmd).1) as KD.
  { intros cur Hc. apply Unmarshal_keeps; [|done]. intros j Hj. by apply dec_KVData_utf8. }
  assert (utf8_ptr (Data (Unmarshal dec_KVAction (mkKVAction "" (Some zeroKVData)) cmd).1)) as KA.
  { apply (Unmarshal_keeps (fun a => utf8_ptr (Data a))).
    - intros j Hj. apply dec_KVAction_utf8; [done|]. by intros d [= <-].
    - by intros d [= <-]. }
  assert (forall l, Batch (Unmarshal dec_KVBatch (mkKVBatch "" None) cmd).1 = Some l ->
    Forall utf8_ptr l) as KB.
  { apply (Unmarshal_keeps (fun b => forall l, Batch b = Some l -> Forall utf8_ptr l)).
    - intros j Hj l. by apply dec_KVBatch_utf8.
    - done. }
  assert (forall d, utf8_key d -> Forall utf8_op
    [match Val d with None => OpDelete (Key d) | Some v => OpSet (Key d) v end]) as KS.
  { intros d Hd. repeat constructor. by destruct (Val d). }
  unfold commandOps. intros E.
  assert (exists d, utf8_key d /\
    ops = [match Val d with None => OpDelete (Key d) | Some v => OpSet (Key d) v end]
    \/ exists l, Forall utf8_ptr l /\ batchOps l = Ret ops) as [d [[Hd ->]|(l & Hl & Eb)]];
    [|by apply KS|by eapply batchOps_utf8].
  destruct (Unmarshal dec_KVBatch _ cmd) as [[a [l|]] []] eqn:Eb;
    [exists zeroKVData; right; exists l; split; [by apply KB|];
     destruct (batchOps l); simpl in E; congruence|..].
  all: destruct (Unmarshal dec_KVAction _ cmd) as [[a' [d|]] ok]; simpl in *;
    [specialize (KA d eq_refl); specialize (KD d KA)|by destruct ok].
  all: destruct (Unmarshal dec_KVData d cmd) as [d' ok']; simpl in *.
  all: destruct ok; simpl in E; [case_decide|]; try (injection E as <-; by eauto).
  all: destruct (negb ok' || _); [done|]; injection E as <-; by eauto.
Qed.

Lemma updateEntries_utf8 ents ops es :
  updateEntries ents = Ret (ops, es) -> Forall utf8_op ops.
Proof.
  revert ops es. induction ents as [|e ents IH]; intros ops es; simpl.
  - intros [= <- <-]. constructor.
  - destruct (commandOps (Cmd e)) as [o| |] eqn:E; simpl; [|done..].
    destruct (updateEntries ents) as [[ops' es']| |]; simpl; [|done..].
    specialize (IH _ _ eq_refl). destruct o as [o|]; intros [= <- <-]; [|done].
    apply Forall_app. split; [by eapply commandOps_utf8|done].
Qed.

Lemma updateEntries_length ents ops es :
  updateEntries ents = Ret (ops, es) -> map Index es = map Index ents.
Proof.
  revert ops es. induction ents as [|e ents IH]; intros ops es; simpl; [by intros [= <- <-]|].
  destruct (commandOps (Cmd e)) as [o| |] eqn:E; simpl; [|done..].
  destruct (updateEntries ents) as [[ops' es']| |]; simpl; [|done..].
  specialize (IH _ _ eq_refl). by destruct o; intros [= <- <-]; simpl; rewrite <- IH.
Qed.

(** ** Running replicas *)

Definition applied_index (m : gmap string string) : go Z :=
  match m !! appliedIndexKey with
  | None => Ret 0
  | Some v => if (String.length v =? 0)%nat then Ret 0 else LittleEndian.Uint64 v
  end.

(** The map with the applied index recorded in it. *)
Definition stamp (i : Z) (m : gmap string string) : gmap string string :=
  <[appliedIndexKey := LittleEndian.PutUint64 i]> m.

Lemma applied_index_stamp i m : 0 <= i < 2 ^ 64 -> applied_index (stamp i m) = Ret i.
Proof.
  intros Hi. unfold applied_index, stamp. rewrite lookup_insert_eq.
  by rewrite LittleEndian.Uint64_PutUint64.
Qed.

Lemma utf8_keys_stamp i m : utf8_keys m -> utf8_keys (stamp i m).
Proof. intros Hm. by apply map_Forall_insert_2. Qed.

Section Replica.
Context {DB : Type} `{PebbleLaws DB}.
Abbreviation sys := (sys (DB := DB)).
Abbreviation cid s := (dk_clusterID (s_kv s)).
Abbreviation rid s := (dk_ReplicaID (s_kv s)).
Abbreviation files s := (nodes (s_fs s)).

(** An open replica: its store [db], behind handle [i], is the one its data
    directory names. *)
Record Running (s : sys) (i : nat) (h : pebbledb) (db : DB) : Prop := {
  run_db : dk_db (s_kv s) = Some i;
  run_handle : s_handles s !! i = Some h;
  run_handle_open : pd_closed h = false;
  run_open : dk_closed (s_kv s) = false;
  run_aborted : dk_aborted (s_kv s) = false;
  run_files : Committed (cid s) (rid s) (pd_dir h) db (files s) }.

(** [s] is a running replica with contents [m]. *)
Definition Replica (s : sys) (m : gmap string string) : Prop :=
  exists i h db, Running s i h db /\ pb_view db = m /\ utf8_keys m /\
    applied_index m = Ret (dk_lastApplied (s_kv s)).

Lemma Running_store s i h db : Running s i h db -> store_at (s_fs s) (pd_dir h) = Some db.
Proof. intros R. unfold store_at. by rewrite (com_store _ _ _ _ _ (run_files _ _ _ _ R)). Qed.

Lemma run_with_store {A} s i h db (k : pebbledb -> DB -> io sys A) :
  Running s i h db -> run (with_store i k) s = run (k h db) s.
Proof.
  intros R. unfold run, with_store.
  by rewrite (run_handle _ _ _ _ R), (run_handle_open _ _ _ _ R), (Running_store _ _ _ _ R).
Qed.

(** Replacing the store of a running replica. *)
Definition with_db (s : sys) (h : pebbledb) (db : DB) : sys :=
  set_fs (set_nodes (<[pd_dir h := NDir (Some db)]> (files s)) (s_fs s)) s.

Lemma Committed_store c r d db db' (ns : gmap string (node DB)) :
  Committed c r d db ns -> Committed c r d db' (<[d := NDir (Some db')]> ns).
Proof.
  intros [H1 H2 (n & -> & Hn & Hc & Hu) H4 _]. destruct (child_ne c r n) as [N1 N2].
  destruct H1 as [st1 H1], H2 as [st2 H2].
  split; [exists st1|exists st2|by exists n|red|by rewrite lookup_insert_eq];
    rewrite lookup_insert_ne; try done. intros ?%(inj _). congruence.
Qed.

Lemma Running_with_db s i h db db' : Running s i h db -> Running (with_db s h db') i h db'.
Proof. intros [H1 H2 H3 H4 H5 H6]. split; try done. simpl. by eapply Committed_store. Qed.

Lemma run_applyBatch s i h db db' ops :
  Running s i h db -> pb_Apply db ops = inr db' ->
  run (applyBatch i ops) s = (with_db s h db', Ret tt).
Proof. intros R E. unfold applyBatch. rewrite (run_with_store _ _ h db) by done. by rewrite E. Qed.

Lemma Running_set_lastApplied s i h db x :
  Running s i h db -> Running (set_lastApplied x s) i h db.
Proof. intros [H1 H2 H3 H4 H5 H6]. by split. Qed.

(** *** Update *)

Lemma Update_run_to `{!PebbleHealthy DB} s m ents ops es e :
  Replica s m -> updateEntries ents = Ret (ops, es) -> last ents = Some e ->
  dk_lastApplied (s_kv s) < Index e < 2 ^ 64 -> 0 <= Index e ->
  exists h db', let s' := set_lastApplied (Index e) (with_db s h db') in
    run (Update ents) s = (s', Ret es) /\ Replica s' (stamp (Index e) (run_ops m ops)).
Proof.
  intros (i & h & db & R & <- & Hk & Ha) EU EL Hi Hnn.
  destruct (healthy_Apply db (ops ++ [OpSet appliedIndexKey (LittleEndian.PutUint64 (Index e))]))
    as [db' EA].
  exists h, db'. split.
  - unfold Update. rewrite run_bind, run_get.
    rewrite (run_aborted _ _ _ _ R), (run_open _ _ _ _ R), (run_db _ _ _ _ R), EU, EL.
    go_step. rewrite (run_applyBatch _ _ _ _ _ _ R EA).
    destruct (Z.leb_spec (Index e) (dk_lastApplied (s_kv s))); [lia|]. by go_step.
  - exists i, h, db'. split_and!.
    + by eapply Running_set_lastApplied, Running_with_db.
    + rewrite (pb_Apply_inr _ _ _ EA), run_ops_app. done.
    + apply utf8_keys_stamp, utf8_keys_run_ops; [done|]. by eapply updateEntries_utf8.
    + apply applied_index_stamp. simpl. lia.
Qed.

(** Entries that do not decode are noticed before anything is written. *)
Lemma Update_undecodable s m ents :
  Replica s m -> match updateEntries ents with Ret _ => False | _ => True end ->
  run (Update ents) s =
  (s, match updateEntries ents with Ret _ => Panic "" | Err e => Err e | Panic p => Panic p end).
Proof.
  intros (i & h & db & R & _) HU. unfold Update. rewrite run_bind, run_get.
  rewrite (run_aborted _ _ _ _ R), (run_open _ _ _ _ R), (run_db _ _ _ _ R).
  rewrite run_bind, run_lift. by destruct (updateEntries ents).
Qed.

Lemma Update_run `{!PebbleHealthy DB} s m ents ops es e :
  Replica s m -> updateEntries ents = Ret (ops, es) -> last ents = Some e ->
  dk_lastApplied (s_kv s) < Index e < 2 ^ 64 -> 0 <= Index e ->
  exists s', run (Update ents) s = (s', Ret es) /\
    Replica s' (stamp (Index e) (run_ops m ops)) /\ dk_lastApplied (s_kv s') = Index e.
Proof.
  intros R EU EL Hi Hnn.
  destruct (Update_run_to s m ents ops es e) as (h & db' & E & R'); eauto.
Qed.

(** Whatever goes wrong, a state [Update] goes through, or ends in, holds
    the old contents or the new ones. *)
Definition old_or_new (c r : Z) (m m' : gmap string string) (ns : gmap string (node DB)) : Prop :=
  exists d db, Committed c r d db ns /\ (pb_view db = m \/ pb_view db = m').

Lemma spec_Update s m ents :
  Replica s m ->
  let m' := match updateEntries ents, last ents with
            | Ret (ops, _), Some e => stamp (Index e) (run_ops m ops)
            | _, _ => m
            end in
  let ok s' := old_or_new (cid s) (rid s) m m' (files s') in
  spec (eq s) (Update ents) (fun _ => ok) ok ok.
Proof.
  intros (i & h & db & R & <- & _) m' ok.
  assert (ok s) as Hs by (do 2 eexists; split; [apply (run_files _ _ _ _ R)|by left]).
  intros s' <-. unfold Update. rewrite history_bind, run_bind, run_get.
  rewrite (run_aborted _ _ _ _ R), (run_open _ _ _ _ R), (run_db _ _ _ _ R).
  rewrite history_bind, run_bind, run_lift. subst m'.
  destruct (updateEntries ents) as [[ops es]| |]; [|split; [constructor|done]..].
  destruct (last ents) as [e|]; [|split; [constructor|done]].
  rewrite history_bind, run_bind.
  assert (ok s /\ forall db', pb_Apply db (ops ++
    [OpSet appliedIndexKey (LittleEndian.PutUint64 (Index e))]) = inr db' ->
    ok (with_db s h db') /\ ok (set_lastApplied (Index e) (with_db s h db'))) as [_ K].
  { split; [done|]. intros db' E. apply pb_Apply_inr in E.
    rewrite run_ops_app in E. split; exists (pd_dir h), db';
      (split; [by eapply Committed_store, run_files|by right]). }
  unfold history, run, applyBatch, with_store. cbn -[ok LittleEndian.PutUint64].
  rewrite (run_handle _ _ _ _ R), (run_handle_open _ _ _ _ R), (Running_store _ _ _ _ R).
  destruct (pb_Apply db _) as [err|db'] eqn:E; [split; [constructor|done]|].
  destruct (K db' eq_refl) as [K1 K2]. simpl.
  destruct (_ <=? _); (split; [by repeat constructor|done]).
Qed.
(** *** Opening *)

Lemma mkdirs_present (ns : gmap string (node DB)) ps :
  Forall (is_dir ns) ps -> mkdirs ns ps = (ns, Ret tt).
Proof. induction 1 as [|p ps [st E] _ IH]; [done|]. simpl. by rewrite E. Qed.

Lemma Committed_ancestors c r d db (ns : gmap string (node DB)) :
  Committed c r d db ns -> Forall (is_dir ns) (ancestors d).
Proof.
  intros HC. destruct (com_name _ _ _ _ _ HC) as (n & -> & Hn & _).
  rewrite ancestors_child by done.
  repeat constructor; [apply HC..|]. eexists. apply HC.
Qed.

Lemma run_queryAppliedIndex `{!PebbleHealthy DB} s i h db x :
  s_handles s !! i = Some h -> pd_closed h = false -> store_at (s_fs s) (pd_dir h) = Some db ->
  applied_index (pb_view db) = Ret x ->
  run (queryAppliedIndex i) s = (s, Ret x).
Proof.
  intros Eh Ec Es Ex. unfold run, queryAppliedIndex, with_store. rewrite Eh, Ec, Es.
  rewrite pb_Get_healthy. unfold applied_index in Ex.
  destruct (pb_view db !! appliedIndexKey) as [v|]; [|by injection Ex as <-].
  destruct (_ =? _)%nat; [by injection Ex as <-|]. by rewrite Ex.
Qed.

(** The handle on a directory that already holds a store. *)
Lemma run_newHandle `{!PebbleHealthy DB} c r d db s :
  calm (s_fs s) -> Committed c r d db (files s) ->
  exists db', pb_view db' = pb_view db /\
    run (newHandle d) s =
    (mkSys (set_nodes (<[d := NDir (Some db')]> (files s)) (s_fs s))
       (s_handles s ++ [mkPebbledb d false]) (s_kv s), Ret (length (s_handles s))).
Proof.
  intros Hc HC. destruct (healthy_Open (Some db)) as [db' E]. exists db'.
  split; [by apply pb_Open_again|]. unfold newHandle, on_fs, createDB, MkdirAll. go_step.
  rewrite run_os by done. rewrite mkdirs_present by (by eapply Committed_ancestors).
  simpl fst. rewrite set_nodes_nodes. simpl snd. cbv iota.
  unfold run, openStore. rewrite (com_store _ _ _ _ _ HC), E. done.
Qed.

(** The directory [d] is the only one that a run leaves behind. *)
Definition only_dir (c r : Z) (d : string) (ns : gmap string (node DB)) : Prop :=
  forall n, plain_name n -> is_dir ns (path_join (getNodeDBDirName c r) n) ->
    path_join (getNodeDBDirName c r) n = d.

Lemma run_isNewRun_false c r d db (fs : FS DB) :
  calm fs -> Committed c r d db (nodes fs) ->
  run (isNewRun (getNodeDBDirName c r)) fs = (fs, Ret false).
Proof.
  intros Hc HC. unfold isNewRun, Stat. go_step. rewrite run_read by done.
  by rewrite (com_current _ _ _ _ _ HC).
Qed.

(** A process started over a committed directory. *)
Lemma Open_run `{!PebbleHealthy DB} c r d db fs hs rn ct x :
  calm fs -> Committed c r d db (nodes fs) -> utf8_keys (pb_view db) ->
  applied_index (pb_view db) = Ret x ->
  exists s', run (Open rn ct) (mkSys fs hs (NewDiskKV c r)) = (s', Ret x) /\
    Replica s' (pb_view db) /\ only_dir c r d (files s') /\ calm (s_fs s') /\
    dk_lastApplied (s_kv s') = x /\ cid s' = c /\ rid s' = r.
Proof.
  intros Hc HC Hk Hx. destruct (run_cleanup_committed c r d db fs Hc HC) as (ns' & RC & HC' & _ & Hd).
  destruct (Committed_names _ _ _ _ _ HC') as [Hne Hcur].
  destruct (run_newHandle c r d db (mkSys (set_nodes ns' fs) hs (NewDiskKV c r)))
    as (db' & EV & RN); [done|done|].
  set (s1 := mkSys (set_nodes (<[d := NDir (Some db')]> ns') fs)
    (hs ++ [mkPebbledb d false]) (NewDiskKV c r)).
  set (s2 := set_lastApplied x (set_db (Some (length hs)) s1)).
  assert (Committed c r d db' (<[d := NDir (Some db')]> ns')) as HC2.
  { by eapply Committed_store. }
  exists s2. split; [|split_and!].
  - unfold Open. rewrite run_bind, run_get. cbn [s_kv NewDiskKV dk_clusterID dk_ReplicaID].
    unfold on_fs. rewrite run_bind, run_try, run_zoom. cbn [s_fs].
    rewrite run_createNodeDataDir by (done || apply HC). cbv iota beta.
    rewrite run_bind, run_zoom. cbn [s_fs set_fs].
    rewrite (run_isNewRun_false c r d db) by done. cbv iota beta.
    rewrite !run_bind, run_zoom. cbn [s_fs set_fs]. rewrite RC. cbv iota beta.
    rewrite run_bind, run_zoom. cbn [s_fs set_fs].
    rewrite (run_getCurrent _ d) by done. cbv iota beta.
    rewrite run_bind, run_try, run_zoom. cbn [s_fs set_fs].
    rewrite (run_Stat_dir _ (Some db)) by (done || apply HC'). go_step.
    unfold set_fs. cbn [s_fs s_handles s_kv]. rewrite RN. go_step.
    rewrite (run_queryAppliedIndex _ _ (mkPebbledb d false) db' x); try done.
    + simpl. by rewrite lookup_app_r, Nat.sub_diag by done.
    + unfold store_at. simpl. by rewrite lookup_insert_eq.
    + by rewrite EV.
  - exists (length hs), (mkPebbledb d false), db'. split_and!; try done.
    split; try done. simpl. by rewrite lookup_app_r, Nat.sub_diag by done.
  - intros n Hn [st E]. apply Hd; [done|]. simpl in E.
    destruct (decide (path_join (getNodeDBDirName c r) n = d)) as [<-|Hne'].
    + exists (Some db). apply HC'.
    + exists st. by rewrite lookup_insert_ne in E.
  - done.
  - done.
  - done.
  - done.
Qed.
End Replica.

(** ** Properties of [Update] and [Open] *)

Lemma applied_index_range m x : applied_index m = Ret x -> 0 <= x < 2 ^ 64.
Proof.
  unfold applied_index, LittleEndian.Uint64. destruct (m !! appliedIndexKey) as [v|];
    [|by intros [= <-]]. destruct (_ =? _)%nat; [by intros [= <-]|].
  destruct (Nat.ltb_spec (String.length v) 8); [done|]. intros [= <-].
  pose proof (LittleEndian.val_range (stake 8 v)) as V. rewrite stake_length in V by lia. exact V.
Qed.

(** Writes act key by key, so what the stamp covers does not matter. *)
Lemma run_ops_agree m1 m2 ops k :
  (m1 !! k = m2 !! k) -> run_ops m1 ops !! k = run_ops m2 ops !! k.
Proof.
  revert m1 m2. induction ops as [|[k' v|k'] ops IH]; intros m1 m2 E; [done|..];
    apply IH; simpl; destruct (decide (k' = k)) as [->|].
  - by rewrite !lookup_insert_eq.
  - by rewrite !lookup_insert_ne.
  - by rewrite !lookup_delete_eq.
  - by rewrite !lookup_delete_ne.
Qed.

Lemma stamp_run_ops i j m ops : stamp i (run_ops (stamp j m) ops) = stamp i (run_ops m ops).
Proof.
  apply map_eq. intros k. unfold stamp at 1 3. destruct (decide (appliedIndexKey = k)) as [<-|Hk].
  - by rewrite !lookup_insert_eq.
  - rewrite !lookup_insert_ne by done. apply run_ops_agree. unfold stamp.
    by rewrite lookup_insert_ne.
Qed.

(** Decoding a log entry fails in one way only. *)
Lemma batchOps_panic l : (exists ops, batchOps l = Ret ops) \/ batchOps l = Panic "nil pointer dereference".
Proof.
  induction l as [|[d|] l [[ops E]|E]]; simpl; try rewrite E; simpl; eauto.
Qed.

Lemma commandOps_panic cmd :
  (exists o, commandOps cmd = Ret o) \/ commandOps cmd = Panic "nil pointer dereference".
Proof.
  unfold commandOps.
  destruct (Unmarshal dec_KVBatch _ cmd) as [[a [l|]] []];
    [destruct (batchOps_panic l) as [[ops ->]| ->]; simpl; by eauto|..].
  all: destruct (Unmarshal dec_KVAction _ cmd) as [[a' [d|]] []]; simpl; eauto.
  all: try (destruct (decide (Key d = "")); [|by eauto]).
  all: destruct (Unmarshal dec_KVData d cmd) as [d' ok']; destruct (negb ok' || _); by eauto.
Qed.

Lemma updateEntries_panic ents e :
  e ∈ ents -> commandOps (Cmd e) = Panic "nil pointer dereference" ->
  updateEntries ents = Panic "nil pointer dereference".
Proof.
  intros He E. induction ents as [|e' ents IH]; [by apply not_elem_of_nil in He|]. simpl.
  apply elem_of_cons in He as [<-|He]; [by rewrite E|].
  destruct (commandOps_panic (Cmd e')) as [[o ->]| ->]; [|done]. simpl. by rewrite IH.
Qed.

Lemma commandOps_nil_data a :
  commandOps (MarshalKVAction (mkKVAction a None)) = Panic "nil pointer dereference".
Proof.
  unfold commandOps. rewrite Unmarshal_action_as_batch. cbn [Batch BatchAction].
  by rewrite Unmarshal_KVAction.
Qed.

Lemma batchOps_nil l : None ∈ l -> batchOps l = Panic "nil pointer dereference".
Proof.
  induction l as [|[d|] l IH]; intros Hl; [by apply not_elem_of_nil in Hl| |done].
  apply elem_of_cons in Hl as [|Hl]; [done|]. simpl. by rewrite IH.
Qed.

Lemma commandOps_nil_element a l :
  None ∈ l ->
  commandOps (MarshalKVBatch (mkKVBatch a (Some l))) = Panic "nil pointer dereference".
Proof.
  intros Hl. unfold commandOps. rewrite Unmarshal_KVBatch.
  cbn [sanitize_batch Batch BatchAction option_map]. rewrite batchOps_nil; [done|].
  apply list_elem_of_fmap. by exists None.
Qed.

(** A file system with the given files and no faults. *)
Definition quiet {DB} (ns : gmap string (node DB)) : FS DB := mkFS ns (fun _ => None).
