(* ===== verification/Samples.v ===== *)
(** * A replica to try things on

    The store is a [gmap] in memory, the data directory holds the two files
    a run leaves behind, and nothing fails.  The witnesses of the
    properties start from it. *)
From S2P Require Import Prelude Bytes Md5 Utf8 Json Types Pebble FileSystem Crash DataDir.
From S2P Require Import DataDirSpec DiskKV DiskKVSpec.

Definition sample_dir : string := getNodeDBDirName 1 1.
Definition sample_store : string := path_join sample_dir "7_9".

Definition sample_files (m : gmap string string) : gmap string (node (gmap string string)) :=
  <[testDBDirName := NDir None]> (<[sample_dir := NDir None]>
  (<[path_join sample_dir currentDBFilename := NFile (checksum sample_store +:+ sample_store)]>
  {[ sample_store := NDir (Some m) ]})).

Definition sample (m : gmap string string) (x : Z) : sys (DB := gmap string string) :=
  mkSys (quiet (sample_files m)) [mkPebbledb sample_store false]
    (mkDiskKV 1 1 x (Some 0%nat) false false).

Lemma sample_committed m : Committed 1 1 sample_store m (sample_files m).
Proof.
  split; change (getNodeDBDirName 1 1) with sample_dir; unfold sample_files.
  - exists None. by rewrite lookup_insert_eq.
  - exists None. by rewrite lookup_insert_ne, lookup_insert_eq.
  - exists "7_9". split; [done|]. split; [done|]. split; discriminate.
  - red. by rewrite 2!lookup_insert_ne, lookup_insert_eq.
  - by rewrite 3!lookup_insert_ne, lookup_singleton_eq.
Qed.

Lemma sample_Replica m x : utf8_keys m -> applied_index m = Ret x -> Replica (sample m x) m.
Proof.
  intros Hm Hx. exists 0%nat, (mkPebbledb sample_store false), m. split_and!; try done.
  split; try done. apply sample_committed.
Qed.

Lemma sample_empty : Replica (sample ∅ 0) ∅.
Proof. apply sample_Replica; [apply utf8_keys_empty|done]. Qed.

Definition sample_map (i : Z) : gmap string string := stamp i {["a" := "x"]}.

Lemma sample_map_Replica i : 0 <= i < 2 ^ 64 -> Replica (sample (sample_map i) i) (sample_map i).
Proof.
  intros Hi. apply sample_Replica; [|by apply applied_index_stamp].
  apply utf8_keys_stamp, map_Forall_insert_2; [done|apply utf8_keys_empty].
Qed.

(** A short log. *)
Definition sample_commands : list command :=
  [CData (mkKVData "a" (Some "x")); CAction PUT (mkKVData "" None);
   CBatch PUT [mkKVData "b" (Some "y"); mkKVData "a" None]].

Definition sample_log : list Entry :=
  zip_with (fun i c => mkEntry i (encode c) 0) [1; 2; 5] sample_commands.

Definition sample_last : Entry := mkEntry 5 (encode (List.last sample_commands (CData zeroKVData))) 0.

Definition sample_ops : list batch_op :=
  flat_map (fun c => default [] (command_ops c)) sample_commands.

Definition sample_results : list Entry := zip_with result sample_log sample_commands.

Definition sample_next : Entry := mkEntry 6 (encode (CData (mkKVData "c" (Some "z")))) 0.

Lemma sample_log_update :
  updateEntries sample_log =
  Ret (sample_ops,
       sample_results).
Proof. by apply (updateEntries_encode _ sample_commands). Qed.
