(* ===== verification/UpdateSpec.v ===== *)
(** * The log: properties of [Update]

    The refinement of the abstract map, independence of batching, bytes
    from untrusted clients, the entries that stop a replica, and crashes. *)
From S2P Require Import Prelude Bytes Md5 Utf8 Json Types Pebble FileSystem Crash DataDir.
From S2P Require Import DataDirSpec DiskKV DiskKVSpec Samples.

Section Properties.
Context {DB : Type} `{PebbleHealthy DB}.
Abbreviation sys := (sys (DB := DB)).

(** C2: a log of encoded commands takes a running replica to a running
    replica whose contents are the commands executed in order on the
    abstract map, with the index of the last entry recorded in the same
    atomic write; the result of each entry is the length of its command,
    or stays as it was when the command has no key. *)
Theorem Update_refines (s : sys) m ents cs e :
  Replica s m -> map Cmd ents = map encode cs -> last ents = Some e ->
  dk_lastApplied (s_kv s) < Index e < 2 ^ 64 ->
  exists s', run (Update ents) s = (s', Ret (zip_with result ents cs)) /\
    Replica s' (stamp (Index e) (foldl exec m cs)) /\ dk_lastApplied (s_kv s') = Index e.
Proof.
  intros R Ec El Hi.
  assert (0 <= Index e) by (destruct R as (?&?&?&_&_&_&Hx); apply applied_index_range in Hx; lia).
  rewrite <- run_flat_map. by eapply Update_run; [| apply updateEntries_encode| | |].
Qed.


(** How Raft cuts the log into batches does not matter: applying two
    batches one after the other and applying them as one batch return the
    same results and leave the same contents and the same index. *)
Theorem Update_batching (s : sys) m e1 e2 o1 r1 o2 r2 l1 l2 :
  Replica s m -> updateEntries e1 = Ret (o1, r1) -> updateEntries e2 = Ret (o2, r2) ->
  last e1 = Some l1 -> last e2 = Some l2 ->
  dk_lastApplied (s_kv s) < Index l1 < Index l2 -> Index l2 < 2 ^ 64 ->
  exists s1 s2 s3 m',
    run (Update e1) s = (s1, Ret r1) /\ run (Update e2) s1 = (s2, Ret r2) /\
    run (Update (e1 ++ e2)) s = (s3, Ret (r1 ++ r2)) /\
    Replica s2 m' /\ Replica s3 m' /\
    dk_lastApplied (s_kv s2) = dk_lastApplied (s_kv s3).
Proof.
  intros R U1 U2 L1 L2 Hi Hm.
  assert (0 <= dk_lastApplied (s_kv s))
    by (destruct R as (?&?&?&_&_&_&Hx); apply applied_index_range in Hx; lia).
  destruct (Update_run s m e1 o1 r1 l1) as (s1 & E1 & R1 & A1); try done; [lia..|].
  destruct (Update_run s1 _ e2 o2 r2 l2 R1) as (s2 & E2 & R2 & A2); try done; [lia..|].
  rewrite stamp_run_ops, <- run_ops_app in R2.
  destruct (Update_run s m (e1 ++ e2) (o1 ++ o2) (r1 ++ r2) l2) as (s3 & E3 & R3 & A3); try done.
  - rewrite updateEntries_app, U1. simpl. by rewrite U2.
  - rewrite last_app. by rewrite L2.
  - lia.
  - lia.
  - exists s1, s2, s3, (stamp (Index l2) (run_ops m (o1 ++ o2))). split_and!; try done. congruence.
Qed.

(** An action without data, or a batch with a null element, stops the
    whole call with a nil dereference before anything is written, so the
    same log entry stops the replica again after every restart. *)
Theorem Update_nil_data (s : sys) m ents e a l :
  Replica s m -> e ∈ ents ->
  Cmd e = MarshalKVAction (mkKVAction a None) \/
  (Cmd e = MarshalKVBatch (mkKVBatch a (Some l)) /\ None ∈ l) ->
  run (Update ents) s = (s, Panic "nil pointer dereference").
Proof.
  intros (i & h & db & R & _) He Hc. unfold Update. rewrite run_bind, run_get.
  rewrite (run_aborted _ _ _ _ R), (run_open _ _ _ _ R), (run_db _ _ _ _ R).
  rewrite run_bind, run_lift, (updateEntries_panic ents e He); [done|].
  destruct Hc as [->|[-> Hl]]; [apply commandOps_nil_data|by apply commandOps_nil_element].
Qed.

(** A batch whose last index is not beyond the recorded one panics, but
    only after its writes, with the lower index, have reached the store. *)
Theorem Update_stale (s : sys) m ents ops es e :
  Replica s m -> updateEntries ents = Ret (ops, es) -> last ents = Some e ->
  Index e <= dk_lastApplied (s_kv s) ->
  exists s' i h db, run (Update ents) s = (s', Panic "lastApplied not moving forward") /\
    Running s' i h db /\ pb_view db = stamp (Index e) (run_ops m ops).
Proof.
  intros (i & h & db & R & <- & _) EU EL Hi.
  destruct (healthy_Apply db (ops ++ [OpSet appliedIndexKey (LittleEndian.PutUint64 (Index e))]))
    as [db' EA].
  exists (with_db s h db'), i, h, db'. split_and!.
  - unfold Update. rewrite run_bind, run_get.
    rewrite (run_aborted _ _ _ _ R), (run_open _ _ _ _ R), (run_db _ _ _ _ R), EU, EL.
    go_step. rewrite (run_applyBatch _ _ _ _ _ _ R EA).
    by destruct (Z.leb_spec (Index e) (dk_lastApplied (s_kv s))); [|lia].
  - by apply Running_with_db with db.
  - by rewrite (pb_Apply_inr _ _ _ EA), run_ops_app.
Qed.

End Properties.

(** *** The properties at work *)

Lemma Update_refines_witness :
  exists s', run (Update sample_log) (sample ∅ 0) =
      (s', Ret sample_results) /\
    Replica s' (stamp 5 (foldl exec ∅ sample_commands)) /\ dk_lastApplied (s_kv s') = 5.
Proof.
  apply (Update_refines (sample ∅ 0) ∅ sample_log sample_commands sample_last);
    [apply sample_empty|reflexivity|reflexivity|done].
Defined.


Lemma Update_batching_witness :
  exists s1 s2 s3 m',
    run (Update sample_log) (sample ∅ 0) =
      (s1, Ret sample_results) /\
    run (Update [sample_next]) s1 = (s2, Ret [mkEntry 6 (Cmd sample_next) 24]) /\
    run (Update (sample_log ++ [sample_next])) (sample ∅ 0) =
      (s3, Ret (sample_results ++
                [mkEntry 6 (Cmd sample_next) 24])) /\
    Replica s2 m' /\ Replica s3 m' /\ dk_lastApplied (s_kv s2) = dk_lastApplied (s_kv s3).
Proof.
  apply (Update_batching (sample ∅ 0) ∅ sample_log
    [sample_next] sample_ops sample_results [OpSet "c" "z"] [mkEntry 6 (Cmd sample_next) 24]
    sample_last sample_next);
    [apply sample_empty|apply sample_log_update|vm_compute; reflexivity|reflexivity|reflexivity
    |done|done].
Defined.

Lemma Update_nil_data_witness :
  run (Update [mkEntry 1 (MarshalKVAction (mkKVAction PUT None)) 0]) (sample ∅ 0) =
  (sample ∅ 0, Panic "nil pointer dereference").
Proof.
  apply (Update_nil_data (sample ∅ 0) ∅ _ (mkEntry 1 (MarshalKVAction (mkKVAction PUT None)) 0)
    PUT []); [apply sample_empty|by apply list_elem_of_singleton|by left].
Defined.

Lemma Update_stale_witness :
  exists s' i h db, run (Update sample_log) (sample (sample_map 9) 9) =
      (s', Panic "lastApplied not moving forward") /\
    Running s' i h db /\
    pb_view db = stamp 5 (run_ops (sample_map 9)
      sample_ops).
Proof.
  apply (Update_stale (sample (sample_map 9) 9) (sample_map 9) sample_log sample_ops
    sample_results sample_last);
    [by apply sample_map_Replica|apply sample_log_update|reflexivity|done].
Defined.

