(* ===== verification/QuerySpec.v ===== *)
(** * What the queries answer

    [Lookup] against a running replica reads its abstract map: [GET] one
    key, [SCAN] the keys with a prefix, [REVERSE] the keys in an interval. *)
From S2P Require Import Prelude Bytes Utf8 Json Types Pebble FileSystem Crash DataDir DataDirSpec.
From S2P Require Import DiskKV DiskKVSpec Samples.



Lemma seekGE_spec q l :
  StronglySorted key_le l -> seekGE q l = filter (fun kv => String.le q kv.1) l.
Proof.
  induction 1 as [|[k v] l Hl IH Hk]; [done|]. cbn [seekGE].
  destruct (decide (String.le q k)) as [L|L].
  - rewrite filter_cons_True by done. f_equal. symmetry. apply filter_Forall.
    eapply Forall_impl; [exact Hk|]. intros kv Hkv. by trans k.
  - by rewrite filter_cons_False by done.
Qed.

Lemma takePrefixed_spec q l :
  StronglySorted key_le l -> Forall (fun kv => String.le q kv.1) l ->
  takePrefixed q l = filter (fun kv => has_prefix q kv.1 = true) l.
Proof.
  induction 1 as [|[k v] l Hl IH Hk]; [done|]. intros [Hq Hqs]%Forall_cons. cbn [takePrefixed].
  destruct (has_prefix q k) eqn:E.
  - rewrite filter_cons_True by done. by rewrite IH.
  - rewrite filter_cons_False by (simpl; congruence). symmetry. apply filter_Forall_not.
    eapply Forall_impl; [exact Hk|]. intros [k' v'] Hkv. simpl. intros [t ->]%has_prefix_spec.
    assert (has_prefix q k = true); [|congruence]. by eapply string_le_prefix.
Qed.

Lemma NoDup_fst_filter (l : list (string * string)) (P : string * string -> Prop)
    `{forall kv, Decision (P kv)} :
  NoDup l.*1 -> NoDup (filter P l).*1.
Proof.
  induction l as [|kv l IH]; [done|]. intros [Hn Hl]%NoDup_cons.
  destruct (decide (P kv)); [rewrite filter_cons_True by done|by rewrite filter_cons_False; auto].
  apply NoDup_cons. split; [|auto]. intros (kv' & E & Hk)%list_elem_of_fmap.
  apply Hn. rewrite E. apply list_elem_of_fmap. exists kv'.
  by apply list_elem_of_filter in Hk as [_ ?].
Qed.

(** A map whose entries are those of [m] that satisfy [P]. *)
Lemma list_to_map_filter (m : gmap string string) (P : string * string -> Prop)
    `{forall kv, Decision (P kv)} :
  list_to_map (filter P (sorted_entries m)) = filter P m.
Proof.
  apply map_eq. intros k. apply option_eq. intros v.
  rewrite map_lookup_filter_Some, <- elem_of_list_to_map.
  - by rewrite list_elem_of_filter, elem_of_sorted_entries, (comm and).
  - apply NoDup_fst_filter. rewrite sorted_entries_perm. apply NoDup_fst_map_to_list.
Qed.
(** ** Which action a query stands for *)

Lemma resolve_action a d :
  sanitize a <> "" ->
  resolveQuery (QBytes (MarshalKVAction (mkKVAction a (Some d)))) =
  Ret (sanitize a, sanitize_data d).
Proof.
  intros Ha. unfold resolveQuery. rewrite Unmarshal_KVAction. simpl.
  by rewrite bool_decide_eq_false_2.
Qed.

Lemma resolve_data d :
  Key d <> "" -> resolveQuery (QBytes (MarshalKVData d)) = Ret (GET, sanitize_data d).
Proof.
  intros Hk. unfold resolveQuery. rewrite Unmarshal_data_as_action. simpl.
  rewrite Unmarshal_KVData. simpl. rewrite bool_decide_eq_false_2; [done|].
  by rewrite sanitize_empty.
Qed.

Lemma resolve_raw c : parse c = None -> resolveQuery (QBytes c) = Ret (GET, mkKVData c None).
Proof. intros E. unfold resolveQuery, Unmarshal. by rewrite E. Qed.

(** What an action answers over the contents [m]. *)
Definition answer_of (m : gmap string string) (action : string) (d : KVData) : answer :=
  if decide (action = SCAN) then AMap (filter (fun kv => has_prefix (Key d) kv.1 = true) m)
  else if decide (action = REVERSE_SCAN) then AMap (filter (in_bounds (Val d) (Some (Key d))) m)
  else ABytes (m !! Key d).

Section Queries.
Context {DB : Type} `{PebbleHealthy DB}.
Abbreviation sys := (sys (DB := DB)).

Lemma run_lookup s i h (db : DB) k :
  Running s i h db ->
  run (lookup i k) s =
  (s, match pb_view db !! k with Some v => Ret (Some v) | None => Err ErrNotFound end).
Proof.
  intros R. unfold run, lookup, with_store.
  rewrite (run_handle _ _ _ _ R), (run_handle_open _ _ _ _ R), (Running_store _ _ _ _ R).
  rewrite pb_Get_healthy. destruct h as [dir []]; [by destruct R|].
  destruct (pb_view db !! k) as [v|]; [|done]. by destruct v.
Qed.

Lemma run_scan s i h (db : DB) q :
  Running s i h db ->
  run (scan i q) s = (s, Ret (filter (fun kv => has_prefix q kv.1 = true) (pb_view db))).
Proof.
  intros R. unfold run, scan, with_store.
  rewrite (run_handle _ _ _ _ R), (run_handle_open _ _ _ _ R), (Running_store _ _ _ _ R).
  destruct h as [dir []]; [by destruct R|]. simpl.
  rewrite pb_iter_all, seekGE_spec by apply sorted_entries_sorted.
  rewrite takePrefixed_spec; cycle 1.
  { apply StronglySorted_filter, sorted_entries_sorted. }
  { apply Forall_forall. by intros kv [? _]%list_elem_of_filter. }
  rewrite list_filter_filter, <- list_to_map_filter. do 4 f_equal.
  apply list_filter_iff. intros kv. split; [by intros [? _]|]. intros Hp. split; [done|].
  apply has_prefix_spec in Hp as [t ->]. apply string_le_app.
Qed.

Lemma run_Get s m k : Replica (DB := DB) s m -> run (Get (KeyString k)) s = (s, Ret (m !! k)).
Proof.
  intros (i & h & db & R & <- & _). unfold Get. rewrite run_bind, run_get.
  rewrite (run_db _ _ _ _ R). cbv iota beta. rewrite run_bind, run_try, (run_lookup _ _ _ _ _ R).
  rewrite (run_open _ _ _ _ R). by destruct (pb_view db !! k).
Qed.

Lemma run_Scan s m q :
  Replica (DB := DB) s m ->
  run (Scan q) s = (s, Ret (filter (fun kv => has_prefix q kv.1 = true) m)).
Proof.
  intros (i & h & db & R & <- & _). unfold Scan. rewrite run_bind, run_get.
  rewrite (run_db _ _ _ _ R). cbv iota beta. rewrite run_bind, run_try, (run_scan _ _ _ _ _ R).
  by rewrite (run_open _ _ _ _ R).
Qed.

Lemma run_ReverseScan `{!StableIter DB} s m k v :
  Replica (DB := DB) s m ->
  run (ReverseScan k v) s = (s, Ret (filter (in_bounds v (Some k)) m)).
Proof.
  intros (i & h & db & R & <- & _). unfold ReverseScan. rewrite run_bind, run_get.
  rewrite (run_db _ _ _ _ R). cbv iota beta. rewrite (run_with_store _ _ _ _ _ R).
  by rewrite run_ret, stable_iter, pb_iter_spec, list_to_map_filter.
Qed.

Lemma run_Lookup `{!StableIter DB} s m cmd action d :
  Replica (DB := DB) s m -> resolveQuery cmd = Ret (action, d) ->
  run (Lookup cmd) s = (s, Ret (answer_of m action d)).
Proof.
  intros R E. unfold Lookup, answer_of. rewrite run_bind, run_lift, E. cbv beta iota.
  destruct (decide (action = SCAN)); [by rewrite run_bind, (run_Scan _ _ _ R)|].
  destruct (decide (action = REVERSE_SCAN)); [by rewrite run_bind, (run_ReverseScan _ _ _ _ R)|].
  by rewrite run_bind, (run_Get _ _ _ R).
Qed.
End Queries.

(** ** Properties of [Lookup] *)

Section Properties.
Context {DB : Type} `{PebbleHealthy DB} `{!StableIter DB}.
Abbreviation sys := (sys (DB := DB)).

(** Every form of query leaves the replica as it is and is answered
    from its contents: a bare key and a [KVData] read the key, a [KVAction]
    does what its action says, and bytes are read as an encoded action, as
    encoded data, or else as the key itself. *)
Theorem Lookup_answers (s : sys) m :
  Replica s m ->
  (forall k, run (Lookup (QString k)) s = (s, Ret (ABytes (m !! k)))) /\
  (forall d, run (Lookup (QData d)) s = (s, Ret (ABytes (m !! Key d)))) /\
  (forall a d, run (Lookup (QAction (mkKVAction a (Some d)))) s = (s, Ret (answer_of m a d))) /\
  (forall a d, sanitize a <> "" ->
     run (Lookup (QBytes (MarshalKVAction (mkKVAction a (Some d))))) s =
     (s, Ret (answer_of m (sanitize a) (sanitize_data d)))) /\
  (forall d, Key d <> "" ->
     run (Lookup (QBytes (MarshalKVData d))) s = (s, Ret (ABytes (m !! sanitize (Key d))))) /\
  (forall c, parse c = None -> run (Lookup (QBytes c)) s = (s, Ret (ABytes (m !! c)))).
Proof.
  intros R.
  assert (forall cmd d, resolveQuery cmd = Ret (GET, d) ->
    run (Lookup cmd) s = (s, Ret (ABytes (m !! Key d)))) as G.
  { intros cmd d E. by rewrite (run_Lookup _ _ _ _ _ R E). }
  split_and!; intros.
  - by apply (G _ (mkKVData k None)).
  - by apply G.
  - by apply run_Lookup.
  - by apply run_Lookup; [|apply resolve_action].
  - by apply (G _ (sanitize_data d)), resolve_data.
  - by apply (G _ (mkKVData c None)), resolve_raw.
Qed.

(** A scan answers exactly the entries whose key starts with the query,
    although the loop stops at the first key that does not. *)
Theorem Lookup_scan (s : sys) m q :
  Replica s m ->
  exists r, run (Lookup (QAction (mkKVAction SCAN (Some (mkKVData q None))))) s = (s, Ret (AMap r)) /\
    forall k v, r !! k = Some v <-> m !! k = Some v /\ exists t, k = q +:+ t.
Proof.
  intros R. eexists. split; [exact (run_Lookup s m (QAction (mkKVAction SCAN (Some (mkKVData q None)))) _ _ R eq_refl)|]. intros k v.
  by rewrite map_lookup_filter_Some, has_prefix_spec.
Qed.

(** A reverse scan answers exactly the entries between the lower bound
    sent as the value (included, if there is one) and the key (excluded). *)
Theorem Lookup_reverse (s : sys) m lo hi :
  Replica s m ->
  exists r, run (Lookup (QAction (mkKVAction REVERSE_SCAN (Some (mkKVData hi lo))))) s =
      (s, Ret (AMap r)) /\
    forall k v, r !! k = Some v <->
      m !! k = Some v /\ (forall l, lo = Some l -> String.le l k) /\ ~ String.le hi k.
Proof.
  intros R. eexists. split; [exact (run_Lookup s m (QAction (mkKVAction REVERSE_SCAN (Some (mkKVData hi lo)))) _ _ R
    eq_refl)|]. intros k v.
  rewrite map_lookup_filter_Some. unfold in_bounds. cbn [fst]. split.
  - intros [Hm [Hl Hh]]. eauto.
  - intros (Hm & Hl & Hh). split_and!; try done. by intros ? [= <-].
Qed.

(** A committed write is what the next read of its key sees; a write
    without a value leaves the key absent. *)
Theorem Update_then_Lookup (s : sys) m i a d res :
  Replica s m -> dk_lastApplied (s_kv s) < i < 2 ^ 64 ->
  Key d <> "" -> sanitize (Key d) <> appliedIndexKey ->
  exists s' res', run (Update [mkEntry i (encode (CAction a d)) res]) s = (s', Ret [res']) /\
    run (Lookup (QString (sanitize (Key d)))) s' = (s', Ret (ABytes (Val d))).
Proof.
  intros R Hi Hk Hr.
  assert (0 <= i) by (destruct R as (?&?&?&_&_&_&Hx); apply applied_index_range in Hx; lia).
  destruct (Update_run s m [mkEntry i (encode (CAction a d)) res] _ _
    (mkEntry i (encode (CAction a d)) res) R
    (updateEntries_encode [mkEntry i (encode (CAction a d)) res] [CAction a d] eq_refl) eq_refl) as (s' & E & R' & _); try done.
  exists s'. eexists. split; [exact E|]. rewrite (run_Lookup _ _ (QString (sanitize (Key d))) _ _ R' eq_refl).
  unfold answer_of. simpl. do 3 f_equal. unfold stamp. rewrite lookup_insert_ne by done.
  rewrite decide_False by done. simpl. rewrite run_data_op. unfold write.
  destruct (Val d); [by rewrite lookup_insert_eq|by rewrite lookup_delete_eq].
Qed.
End Properties.

Lemma Lookup_answers_witness :
  run (Lookup (QString "a")) (sample (sample_map 9) 9) =
  (sample (sample_map 9) 9, Ret (ABytes (Some "x"))).
Proof. exact (proj1 (Lookup_answers _ _ (sample_map_Replica 9 ltac:(done))) "a"). Defined.

Lemma Lookup_scan_witness :
  exists r, run (Lookup (QAction (mkKVAction SCAN (Some (mkKVData "d" None)))))
      (sample (sample_map 9) 9) = (sample (sample_map 9) 9, Ret (AMap r)) /\
    forall k v, r !! k = Some v <-> sample_map 9 !! k = Some v /\ exists t, k = "d" +:+ t.
Proof. exact (Lookup_scan _ _ "d" (sample_map_Replica 9 ltac:(done))). Defined.

Lemma Lookup_reverse_witness :
  exists r, run (Lookup (QAction (mkKVAction REVERSE_SCAN (Some (mkKVData "b" (Some "a"))))))
      (sample (sample_map 9) 9) = (sample (sample_map 9) 9, Ret (AMap r)) /\
    forall k v, r !! k = Some v <-> sample_map 9 !! k = Some v /\
      (forall l, Some "a" = Some l -> String.le l k) /\ ~ String.le "b" k.
Proof. exact (Lookup_reverse _ _ (Some "a") "b" (sample_map_Replica 9 ltac:(done))). Defined.

Lemma Update_then_Lookup_witness :
  exists s' res', run (Update [mkEntry 1 (encode (CAction PUT (mkKVData "k" (Some "v")))) 0])
      (sample ∅ 0) = (s', Ret [res']) /\
    run (Lookup (QString "k")) s' = (s', Ret (ABytes (Some "v"))).
Proof.
  exact (Update_then_Lookup (sample ∅ 0) ∅ 1 PUT (mkKVData "k" (Some "v")) 0 sample_empty
    ltac:(done) ltac:(done) ltac:(done)).
Defined.
