(* ===== verification/NodeHost.v ===== *)
(** * The interface of the cluster: the [*dragonboat.NodeHost] of [KvService]

    Dragonboat is a third-party package.  What the service calls of it is
    the class [NodeHost] over the state [W] of the world; what it relies on
    is the class [NodeHostLaws]: in a healthy cluster a linearizable read
    answers what [DiskKV.Lookup] answers over the replicated contents, and
    a proposal is one log entry that [DiskKV.Update] applies.  A single
    abstract node is an instance. *)
From S2P Require Import Prelude Bytes Utf8 Json Types Pebble DiskKV DiskKVSpec Samples QuerySpec.

(** ** What one log entry and one query do to the contents *)

Definition answer_query (m : gmap string string) (q : query) : go answer :=
  let? p := resolveQuery q in Ret (answer_of m p.1 p.2).

(** The new contents, with index [i] recorded, and the result. *)
Definition apply_command (m : gmap string string) (i : Z) (cmd : string)
    : go (gmap string string * Z) :=
  let? o := commandOps cmd in
  Ret (stamp i (run_ops m (default [] o)),
       match o with Some _ => Z.of_nat (String.length cmd) | None => 0 end).

(** ** The interface *)

Class NodeHost (W : Type) := {
  (* linearizable read on a shard *)
  SyncRead : Z -> query -> io W answer;
  (* proposal with the no-op session of a shard *)
  SyncPropose : Z -> string -> io W Z;
  (* membership changes; the second waits for its request to complete *)
  RequestDeleteReplica : Z -> Z -> io W unit;
  RequestAddReplica : Z -> Z -> string -> io W bool;
}.

Class NodeHostLaws (W : Type) `{NodeHost W} := {
  nh_view : W -> gmap string string;
  nh_ok : W -> Prop;
  nh_utf8 : forall w, nh_ok w -> utf8_keys (nh_view w);
  nh_read : forall w sh q a, nh_ok w -> answer_query (nh_view w) q = Ret a ->
    exists w', run (SyncRead sh q) w = (w', Ret a) /\ nh_ok w' /\ nh_view w' = nh_view w;
  nh_propose : forall w sh cmd o, nh_ok w -> commandOps cmd = Ret o ->
    exists w' i n, run (SyncPropose sh cmd) w = (w', Ret n) /\ nh_ok w' /\
      apply_command (nh_view w) i cmd = Ret (nh_view w', n);
}.

(** ** An abstract node *)

Record node_state := mkNode { n_contents : gmap string string; n_index : Z }.

#[export] Instance node_NodeHost : NodeHost node_state := {
  SyncRead _ q := fun w => ([], (w, answer_query (n_contents w) q));
  SyncPropose _ cmd := fun w =>
    match apply_command (n_contents w) (n_index w + 1) cmd with
    | Ret (m, n) => ([], (mkNode m (n_index w + 1), Ret n))
    | Err e => ([], (w, Err e))
    | Panic p => ([], (w, Panic p))
    end;
  RequestDeleteReplica _ _ := ret tt;
  RequestAddReplica _ _ _ := ret true;
}.

Lemma apply_command_utf8 m i cmd m' n :
  utf8_keys m -> apply_command m i cmd = Ret (m', n) -> utf8_keys m'.
Proof.
  intros Hm. unfold apply_command. destruct (commandOps cmd) as [o| |] eqn:E; simpl; [|done..].
  intros [= <- _]. apply utf8_keys_stamp. destruct o as [ops|]; [|done].
  apply utf8_keys_run_ops; [done|]. by eapply commandOps_utf8.
Qed.

#[export, refine] Instance node_NodeHostLaws : NodeHostLaws node_state := {
  nh_view := n_contents;
  nh_ok w := utf8_keys (n_contents w);
}.
Proof.
  - done.
  - intros w sh q a Hw E. exists w. unfold run. simpl. by rewrite E.
  - intros w sh cmd o Hw E. unfold run. simpl.
    destruct (apply_command (n_contents w) (n_index w + 1) cmd) as [[m n]| |] eqn:EA;
      [|unfold apply_command in EA; by rewrite E in EA..].
    exists (mkNode m (n_index w + 1)), (n_index w + 1), n. split; [done|]. split; [|done].
    by eapply apply_command_utf8.
Defined.

(** ** Commands and queries of the service *)

Section Service.
Context {W : Type} `{NodeHostLaws W}.

(** A proposal of an encoded command. *)
Lemma propose_command w sh c :
  nh_ok w ->
  exists w' i n, run (SyncPropose sh (encode c)) w = (w', Ret n) /\ nh_ok w' /\
    nh_view w' = stamp i (exec (nh_view w) c).
Proof.
  intros Hw. destruct (nh_propose w sh (encode c) _ Hw (commandOps_encode c))
    as (w' & i & n & E & Hw' & EA).
  exists w', i, n. split_and!; try done. unfold apply_command in EA.
  rewrite commandOps_encode in EA. simpl in EA. injection EA as EA _.
  by rewrite <- EA, run_command_ops.
Qed.

(** A read of one key. *)
Lemma read_key w sh k :
  nh_ok w ->
  exists w', run (SyncRead sh (QString k)) w = (w', Ret (ABytes (nh_view w !! k))) /\
    nh_ok w' /\ nh_view w' = nh_view w.
Proof. intros Hw. by apply nh_read. Qed.

(** A query encoded as an action. *)
Lemma read_action w sh a d :
  nh_ok w -> sanitize a <> "" ->
  exists w', run (SyncRead sh (QBytes (MarshalKVAction (mkKVAction a (Some d))))) w =
      (w', Ret (answer_of (nh_view w) (sanitize a) (sanitize_data d))) /\
    nh_ok w' /\ nh_view w' = nh_view w.
Proof.
  intros Hw Ha. apply nh_read; [done|]. unfold answer_query. by rewrite resolve_action.
Qed.
End Service.

(** ** A replica behaves as the interface says *)


