(* ===== verification/Permissions.v ===== *)
(** * Permissions: [roo/permissions.go]

    Permissions are keys [p:e:{entity}:{type}:{context}] of the replicated
    store, with a suffix for a named action.  [authorize] looks for one for
    the user or one of the user's entities, on the resource or a path above
    it, and remembers the one it found under a cache key; [prune] removes
    expired cache entries and [revoke] those of a user.  The clock and the
    random generator are arguments. *)
From S2P Require Import Prelude Bytes Utf8 Json Types Pebble DiskKV NodeHost.

(** The part of [Configuration] the service reads. *)
Record AppConfig := mkAppConfig {
  CacheSeconds : Z;
  AuthorizeSubpaths : bool;
  PermissionCheckExact : bool;
  cfg_ShardID : Z;
  cfg_Binding : string;
  AllowOrigin : string }.

(** [time.Now().Unix()] and the results of [rand.Intn]. *)
Record ambient := mkAmbient { am_now : Z; am_rnd : nat -> nat }.

(** [fmt.Sprintf(":%c:%s", r, s)] *)
Definition colon_rune (r : Z) (s : string) : string := ":" +:+ encode_rune r +:+ ":" +:+ s.

Definition getPermissionString (entity context action : TypedString) (right : slice)
    (delete : bool) : KVData :=
  let c := if (String.length (TVal context) =? 0)%nat then "/" else TVal context in
  let k := "p:e:" +:+ TVal entity +:+ ":" +:+ encode_rune (TRune context) +:+ ":" +:+ c in
  let '(k, v) :=
    if (0 <? String.length (TVal action))%nat
    then (k +:+ colon_rune (TRune action) (TVal action), Some (String (z2b 1) ""))
    else (k, right) in
  mkKVData k (if delete then None else v).

(** The test on the bytes found under a permission key. *)
Definition permits (exact : bool) (bytes right : slice) : bool :=
  if (slice_len bytes =? 0)%nat then false
  else if (slice_len bytes =? 1)%nat && (0 <? Z.land (byte_at (slice_bytes bytes) 0) 1) then true
  else if exact then bitwiseAnd bytes right
  else bitwiseGreaterOrEqual right bytes.

Definition getCacheKey (request : Request) : string :=
  let k := "c:" +:+ TVal (User request) +:+ ":" +:+ TVal (Resource request) in
  if (0 <? String.length (TVal (RAction request)))%nat
  then k +:+ colon_rune (TRune (RAction request)) (TVal (RAction request))
  else k +:+ ":" +:+ slice_bytes (RRight request).

(** One value of the batch [permiss] writes. *)
Definition permissValue (p : Permission) : KVData :=
  let k := "p:e:" +:+ TVal (PEntity p) +:+ ":" +:+ encode_rune (TRune (PContext p)) +:+ ":" +:+
           TVal (PContext p) in
  let '(k, v) :=
    if (0 <? String.length (TVal (PAction p)))%nat
    then (k +:+ colon_rune (TRune (PAction p)) (TVal (PAction p)), Some (String (z2b 1) ""))
    else (k, PRight p) in
  mkKVData k (if PDelete p then None else v).

(** The key under which a cached answer is checked again. *)
Definition recheckData (request : Request) (c : string) : KVData :=
  if (0 <? String.length (TVal (RAction request)))%nat
  then mkKVData ("p:" +:+ c +:+ colon_rune (TRune (RAction request)) (TVal (RAction request)))
         (Some (String (z2b 1) ""))
  else mkKVData ("p:" +:+ c) (RRight request).

Section Permissions.
Context {W : Type} `{NodeHost W} (AppConfig : AppConfig).
Abbreviation shard := (cfg_ShardID AppConfig).

Definition checkPermission (kv : KVData) : io W bool :=
  let* r := try (SyncRead shard (QString (Key kv))) in
  ret (match r with
       | inr (ABytes bytes) => permits (PermissionCheckExact AppConfig) bytes (Val kv)
       | _ => false
       end).

Definition permiss (permissions : list Permission) : io W unit :=
  let kvb := MarshalKVBatch (mkKVBatch PUT (Some (map Some (map permissValue permissions)))) in
  let* _ := SyncPropose shard kvb in
  ret tt.

(** A proposal of one key with its value; no value deletes the key. *)
Definition proposeData (d : KVData) : io W unit :=
  let* _ := SyncPropose shard (MarshalKVData d) in
  ret tt.

Definition ttl (am : ambient) (key : string) : io W unit :=
  let k := "ttl:" +:+ Decimal.pad15 (am_now am + CacheSeconds AppConfig) +:+ ":" +:+
           randString (am_rnd am) 12 in
  proposeData (mkKVData k (Some key)).

Definition cache (am : ambient) (request : Request) (entity context : TypedString) : io W unit :=
  if CacheSeconds AppConfig <=? 1 then ret tt
  else
    let k := getCacheKey request in
    let v := "e:" +:+ TVal entity +:+ ":" +:+ encode_rune (TRune context) +:+ ":" +:+
             TVal context in
    let* _ := proposeData (mkKVData k (Some v)) in
    let* _ := try (ttl am k) in
    ret tt.

Definition hit (request : Request) : io W string :=
  let* r := try (SyncRead shard (QString (getCacheKey request))) in
  ret (match r with
       | inr (ABytes bytes) => slice_bytes bytes
       | _ => ""
       end).

(** One permission looked up, and remembered if it is there. *)
Definition tryEntity (am : ambient) (request : Request) (entity : TypedString) (path : string)
    : io W bool :=
  let context := mkTypedString path (TRune (Resource request)) in
  let* ok := checkPermission
    (getPermissionString entity context (RAction request) (RRight request) false) in
  if ok : bool then
    let* _ := try (cache am request entity context) in
    ret true
  else ret false.

(** The loop over the entities of the request. *)
Fixpoint tryEntities (am : ambient) (request : Request) (es : list TypedString) (path : string)
    : io W bool :=
  match es with
  | [] => ret false
  | e :: es =>
      if decide (TVal e = TVal (User request)) then tryEntities am request es path
      else
        let* ok := tryEntity am request e path in
        if ok : bool then ret true else tryEntities am request es path
  end.

(** The loop over the parts of the resource; [idx] is the index of the
    first part left. *)
Fixpoint tryParts (am : ambient) (request : Request) (idx : nat) (parts : list string)
    (path : string) : io W bool :=
  match parts with
  | [] => ret false
  | part :: parts =>
      let path := if (0 <? idx)%nat then path +:+ "/" +:+ part else path in
      let* ok := tryEntity am request (User request) path in
      if ok : bool then ret true
      else
        let* ok := tryEntities am request (default [] (Entities request)) path in
        if ok : bool then ret true else tryParts am request (S idx) parts path
  end.

(** The part of [authorize] that trusts the cache, after checking that the
    entity is still one of the request and the permission still there. *)
Definition tryCached (request : Request) (c : string) : io W bool :=
  match split ":" c with
  | [_; entity; _; _] =>
      let found :=
        bool_decide (entity = TVal (User request)) ||
        existsb (fun e => bool_decide (entity = TVal e)) (default [] (Entities request)) in
      if found then checkPermission (recheckData request c) else ret false
  | _ => ret false
  end.

Definition authorize (am : ambient) (request : Request) : io W bool :=
  let* c := if 0 <? CacheSeconds AppConfig then hit request else ret "" in
  let* ok := if (0 <? String.length c)%nat then tryCached request c else ret false in
  if ok : bool then ret true
  else
    let '(parts, path) :=
      if AuthorizeSubpaths AppConfig then (split "/" (TVal (Resource request)), "")
      else ([TVal (Resource request)], TVal (Resource request)) in
    tryParts am request 0 parts path.

(** The loop of [prune] over the entries of the answer, in the order
    [items] in which the map is ranged over. *)
Fixpoint pruneItems (items : list (string * string)) : io W unit :=
  match items with
  | [] => ret tt
  | (i, b) :: items =>
      let* _ := proposeData (mkKVData i None) in
      let* _ := proposeData (mkKVData b None) in
      pruneItems items
  end.

Definition prune (am : ambient) (order : gmap string string -> list (string * string)) : io W unit :=
  let k := "ttl:" +:+ Decimal.pad15 (am_now am) in
  let kv := MarshalKVAction (mkKVAction REVERSE_SCAN (Some (mkKVData k (Some "ttl:")))) in
  let* result := SyncRead shard (QBytes kv) in
  match result with
  | AMap items => pruneItems (order items)
  | ABytes _ => panic "interface conversion"
  end.

(** The loop of [revoke]: a failed proposal is skipped. *)
Fixpoint revokeItems (items : list (string * string)) : io W unit :=
  match items with
  | [] => ret tt
  | (i, _) :: items =>
      let* _ := try (proposeData (mkKVData i None)) in
      revokeItems items
  end.

Definition revoke (order : gmap string string -> list (string * string)) (user : string)
    : io W unit :=
  let kv := MarshalKVAction (mkKVAction SCAN (Some (mkKVData ("c:" +:+ user) None))) in
  let* result := SyncRead shard (QBytes kv) in
  match result with
  | AMap items => revokeItems (order items)
  | ABytes _ => panic "interface conversion"
  end.
End Permissions.
