(* ===== verification/PermissionSamples.v ===== *)
(** * A node with some permissions, for the witnesses *)
From S2P Require Import Prelude Bytes Utf8 Json Types Pebble DiskKV DiskKVSpec NodeHost.
From S2P Require Import Permissions.

(** The rune [d] of the contexts. *)
Definition rune_d : Z := 100.
Definition rune_w : Z := 119.

Definition alice : TypedString := mkTypedString "alice" 101.
Definition staff : TypedString := mkTypedString "staff" 101.
Definition no_action : TypedString := mkTypedString "" 0.
Definition right (z : Z) : slice := Some (String (z2b z) "").

(** [staff] may write below [/org]. *)
Definition staff_grant : Permission :=
  mkPermission staff (mkTypedString "/org" rune_d) no_action (right 16) false.

Definition request_for (resource : string) (r : slice) : Request :=
  mkRequest alice (Some [staff]) (mkTypedString resource rune_d) no_action r.

Definition cfg_sample : AppConfig := mkAppConfig 60 true false 1 "10.0.0.1" "*".
Definition cfg_flat : AppConfig := mkAppConfig 60 false false 1 "10.0.0.1" "*".
Definition cfg_uncached : AppConfig := mkAppConfig 0 true false 1 "10.0.0.1" "*".
Definition now_sample (t : Z) : ambient := mkAmbient t (fun _ => 0%nat).

Definition empty_node : node_state := mkNode ∅ 0.
Definition node_sample : node_state := mkNode {["p:e:staff:d:/org" := String (z2b 16) ""]} 1.

Lemma empty_node_ok : nh_ok empty_node.
Proof. apply utf8_keys_empty. Qed.

Lemma node_sample_ok : nh_ok node_sample.
Proof. by apply map_Forall_singleton. Qed.

Lemma map_to_list_order (m : gmap string string) : map_to_list m ≡ₚ map_to_list m.
Proof. done. Qed.
