(* ===== verification/PermissionsSpec.v ===== *)
(** * What the permissions guarantee

    The decision on a request is a function of the permission keys of the
    store ([decision]); the cache may only shorten the way to it.  The
    theorems hold in any healthy cluster ([NodeHostLaws]). *)
From S2P Require Import Prelude Bytes Utf8 Json Types Pebble DiskKV DiskKVSpec QuerySpec NodeHost.
From S2P Require Import Permissions.
From S2P Require Import PermissionSamples.

(** ** The decision *)

(** A permission key with a value that passes the test. *)
Definition granted (cfg : AppConfig) (m : gmap string string) (kv : KVData) : bool :=
  permits (PermissionCheckExact cfg) (m !! Key kv) (Val kv).

(** The paths [authorize] visits, in order. *)
Fixpoint paths_from (path : string) (parts : list string) : list string :=
  match parts with
  | [] => []
  | part :: parts => let path := path +:+ "/" +:+ part in path :: paths_from path parts
  end.

Definition paths (cfg : AppConfig) (request : Request) : list string :=
  if AuthorizeSubpaths cfg then "" :: paths_from "" (tail (split "/" (TVal (Resource request))))
  else [TVal (Resource request)].

Definition subjects (request : Request) : list TypedString :=
  User request :: default [] (Entities request).

Definition permission_of (request : Request) (e : TypedString) (path : string) : KVData :=
  getPermissionString e (mkTypedString path (TRune (Resource request)))
    (RAction request) (RRight request) false.

Definition decision_at cfg m request path : bool :=
  existsb (fun e => granted cfg m (permission_of request e path)) (subjects request).

Definition decision cfg m request : bool :=
  existsb (decision_at cfg m request) (paths cfg request).

(** What the cache adds: an entry for the request whose entity is one of
    the request and whose permission is in the store now. *)
Definition cached_decision cfg m request : bool :=
  match m !! getCacheKey request with
  | Some c =>
      match split ":" c with
      | [_; entity; _; _] =>
          existsb (fun e => bool_decide (entity = TVal e)) (subjects request) &&
          granted cfg m (recheckData request c)
      | _ => false
      end
  | None => false
  end.

(** ** Keys *)

(** The permission keys are not touched by the cache. *)
Definition same_permissions (m m' : gmap string string) : Prop :=
  forall k, has_prefix "p:" k = true -> m' !! k = m !! k.

Lemma same_permissions_refl m : same_permissions m m.
Proof. done. Qed.

Lemma same_permissions_trans m1 m2 m3 :
  same_permissions m1 m2 -> same_permissions m2 m3 -> same_permissions m1 m3.
Proof. intros A B k Hk. by rewrite B, A. Qed.

Lemma permission_key request e path :
  exists t, Key (permission_of request e path) = "p:" +:+ t.
Proof. unfold permission_of, getPermissionString. by destruct (0 <? _)%nat; eexists. Qed.

Lemma recheck_key request c : exists t, Key (recheckData request c) = "p:" +:+ t.
Proof. unfold recheckData. by destruct (0 <? _)%nat; eexists. Qed.

Lemma granted_same cfg m m' kv :
  same_permissions m m' -> (exists t, Key kv = "p:" +:+ t) -> granted cfg m' kv = granted cfg m kv.
Proof.
  intros S [t E]. unfold granted. rewrite S; [done|]. rewrite E. apply has_prefix_app.
Qed.

Lemma decision_at_same cfg m m' request path :
  same_permissions m m' -> decision_at cfg m' request path = decision_at cfg m request path.
Proof.
  intros S. unfold decision_at. induction (subjects request) as [|e es IH]; [done|]. simpl.
  rewrite IH. f_equal. apply granted_same; [done|]. apply permission_key.
Qed.

Lemma exec_put m k v : k <> "" -> exec m (CData (mkKVData k v)) = write m (mkKVData k v).
Proof. intros Hk. simpl. by destruct (decide (k = "")). Qed.

(** Writing or deleting a key of another family. *)
Lemma exec_same_permissions m i p t v :
  valid_utf8 p = true -> (forall t t', p +:+ t <> "p:" +:+ t') ->
  same_permissions m (stamp i (exec m (CData (mkKVData (p +:+ t) v)))).
Proof.
  intros Hp Hne k Hk. apply has_prefix_spec in Hk as [u ->].
  unfold stamp. rewrite lookup_insert_ne by done. simpl.
  case_decide; [done|]. unfold write. simpl. rewrite sanitize_app by done.
  destruct v; [by rewrite lookup_insert_ne by apply Hne|by rewrite lookup_delete_ne by apply Hne].
Qed.

Lemma cache_key_prefix request : exists t, getCacheKey request = "c:" +:+ t.
Proof. unfold getCacheKey. by destruct (0 <? _)%nat; eexists. Qed.

(** ** The service in a healthy cluster *)

Section Service.
Context {W : Type} `{NodeHostLaws W} (cfg : AppConfig).

(** A computation that returns [a] and leaves the contents alone. *)
Definition reads {A} (m : io W A) (w : W) (a : A) : Prop :=
  exists w', run m w = (w', Ret a) /\ nh_ok w' /\ nh_view w' = nh_view w.

Lemma run_checkPermission w kv :
  nh_ok w -> reads (checkPermission cfg kv) w (granted cfg (nh_view w) kv).
Proof.
  intros Hw. destruct (read_key w (cfg_ShardID cfg) (Key kv) Hw) as (w' & E & Hw' & V).
  exists w'. split; [|done]. unfold checkPermission. rewrite run_bind, run_try, E. done.
Qed.

Lemma run_hit w request :
  nh_ok w -> reads (hit cfg request) w (default "" (nh_view w !! getCacheKey request)).
Proof.
  intros Hw. destruct (read_key w (cfg_ShardID cfg) (getCacheKey request) Hw) as (w' & E & Hw' & V).
  exists w'. split; [|done]. unfold hit. by rewrite run_bind, run_try, E.
Qed.

Lemma run_proposeData w d :
  nh_ok w ->
  exists w' i, run (proposeData cfg d) w = (w', Ret tt) /\ nh_ok w' /\
    nh_view w' = stamp i (exec (nh_view w) (CData d)).
Proof.
  intros Hw. destruct (propose_command w (cfg_ShardID cfg) (CData d) Hw)
    as (w' & i & n & E & Hw' & V).
  exists w', i. split; [|done]. unfold proposeData. rewrite run_bind. simpl encode in E.
  by rewrite E.
Qed.

Lemma run_ttl w am key :
  nh_ok w ->
  exists w' i, run (ttl cfg am key) w = (w', Ret tt) /\ nh_ok w' /\
    nh_view w' = stamp i (exec (nh_view w) (CData (mkKVData
      ("ttl:" +:+ Decimal.pad15 (am_now am + CacheSeconds cfg) +:+ ":" +:+
       randString (am_rnd am) 12) (Some key)))).
Proof. intros Hw. by apply run_proposeData. Qed.

(** What [cache] stores. *)
Definition cacheValue (request : Request) (entity context : TypedString) : string :=
  "e:" +:+ TVal entity +:+ ":" +:+ encode_rune (TRune context) +:+ ":" +:+ TVal context.

(** The key that makes a cached answer expire. *)
Definition ttlKey (am : ambient) : string :=
  "ttl:" +:+ Decimal.pad15 (am_now am + CacheSeconds cfg) +:+ ":" +:+ randString (am_rnd am) 12.

(** The contents after a permission is remembered. *)
Lemma run_cache_view w am request entity context :
  nh_ok w -> 1 < CacheSeconds cfg ->
  exists w' i j, run (cache cfg am request entity context) w = (w', Ret tt) /\ nh_ok w' /\
    nh_view w' = stamp j (exec (stamp i (exec (nh_view w)
      (CData (mkKVData (getCacheKey request) (Some (cacheValue request entity context))))))
      (CData (mkKVData (ttlKey am) (Some (getCacheKey request))))).
Proof.
  intros Hw L. unfold cache. rewrite (proj2 (Z.leb_gt _ _)) by lia.
  destruct (run_proposeData w (mkKVData (getCacheKey request)
    (Some (cacheValue request entity context))) Hw) as (w1 & i & E1 & Hw1 & V1).
  destruct (run_ttl w1 am (getCacheKey request) Hw1) as (w2 & j & E2 & Hw2 & V2).
  exists w2, i, j. split_and!; [|done|].
  - rewrite run_bind. unfold cacheValue in E1. rewrite E1. by rewrite run_bind, run_try, E2.
  - by rewrite V2, V1.
Qed.

Lemma run_cache w am request entity context :
  nh_ok w ->
  exists w', run (cache cfg am request entity context) w = (w', Ret tt) /\ nh_ok w' /\
    same_permissions (nh_view w) (nh_view w') /\
    (1 < CacheSeconds cfg -> valid_utf8 (getCacheKey request) = true ->
     nh_view w' !! getCacheKey request = Some (cacheValue request entity context)).
Proof.
  intros Hw. destruct (Z.leb_spec (CacheSeconds cfg) 1) as [L|L].
  { unfold cache. rewrite (proj2 (Z.leb_le _ _) L). exists w. split_and!; try done. lia. }
  destruct (run_cache_view w am request entity context Hw L) as (w2 & i & j & E & Hw2 & V).
  exists w2. destruct (cache_key_prefix request) as [t Et]. split_and!; [done..| |].
  - rewrite V. eapply same_permissions_trans; [|apply exec_same_permissions; done].
    rewrite Et. by apply exec_same_permissions.
  - intros _ Hv. rewrite V. unfold stamp at 1. rewrite lookup_insert_ne by (by rewrite Et).
    rewrite exec_put by done. unfold write. cbn [Val Key]. unfold ttlKey.
    rewrite sanitize_app by done. rewrite lookup_insert_ne by (by rewrite Et).
    unfold stamp. rewrite lookup_insert_ne by (by rewrite Et).
    rewrite exec_put by (by rewrite Et). unfold write. cbn [Val Key].
    rewrite sanitize_valid by done. by rewrite lookup_insert_eq.
Qed.

(** A computation that answers [b] and leaves the permissions alone. *)
Definition answers (m : io W bool) (w : W) (b : bool) : Prop :=
  exists w', run m w = (w', Ret b) /\ nh_ok w' /\ same_permissions (nh_view w) (nh_view w').

Lemma reads_answers m w b : reads m w b -> answers m w b.
Proof. intros (w' & E & Hw & V). exists w'. split_and!; try done. by rewrite V. Qed.

Lemma answers_ret w b : nh_ok w -> answers (ret b) w b.
Proof. intros Hw. by exists w. Qed.

(** [if m then true else k], as the code writes it. *)
Lemma answers_or (m k : io W bool) w b b' :
  answers m w b ->
  (b = false -> forall w', nh_ok w' -> same_permissions (nh_view w) (nh_view w') ->
     answers k w' b') ->
  answers (let* ok := m in if ok : bool then ret true else k) w (b || b').
Proof.
  intros (w1 & E1 & Hw1 & S1) Hk. unfold answers. rewrite run_bind, E1. destruct b.
  - by exists w1.
  - destruct (Hk eq_refl w1 Hw1 S1) as (w2 & E2 & Hw2 & S2).
    exists w2. split_and!; try done. by eapply same_permissions_trans.
Qed.

Lemma run_tryEntity w am request e path :
  nh_ok w ->
  answers (tryEntity cfg am request e path) w
    (granted cfg (nh_view w) (permission_of request e path)).
Proof.
  intros Hw. destruct (run_checkPermission w (permission_of request e path) Hw)
    as (w1 & E1 & Hw1 & V1).
  unfold answers, tryEntity. rewrite run_bind. unfold permission_of in E1. rewrite E1.
  fold (permission_of request e path). destruct (granted _ _ _); [|by exists w1; rewrite V1].
  destruct (run_cache w1 am request e (mkTypedString path (TRune (Resource request))) Hw1)
    as (w2 & E2 & Hw2 & S2 & _).
  exists w2. rewrite run_bind, run_try, E2. rewrite <- V1. by split_and!.
Qed.

(** Only the name of an entity matters, so skipping the user is sound. *)
Lemma permission_of_name request e e' path :
  TVal e = TVal e' -> permission_of request e path = permission_of request e' path.
Proof. intros E. unfold permission_of, getPermissionString. by rewrite E. Qed.

Lemma run_tryEntities w am request es path :
  nh_ok w -> granted cfg (nh_view w) (permission_of request (User request) path) = false ->
  answers (tryEntities cfg am request es path) w
    (existsb (fun e => granted cfg (nh_view w) (permission_of request e path)) es).
Proof.
  revert w. induction es as [|e es IH]; intros w Hw Hu; [by apply answers_ret|].
  cbn [tryEntities existsb]. destruct (decide (TVal e = TVal (User request))) as [E|E].
  - rewrite (permission_of_name _ _ _ _ E), Hu. by apply IH.
  - apply answers_or; [by apply run_tryEntity|]. intros _ w' Hw' S.
    erewrite existsb_ext; [apply IH; [done|]|].
    + rewrite (granted_same _ (nh_view w)); [done|done|apply permission_key].
    + intros e'. simpl. symmetry. apply granted_same; [done|apply permission_key].
Qed.

Lemma existsb_paths_same m m' request l :
  same_permissions m m' ->
  existsb (decision_at cfg m' request) l = existsb (decision_at cfg m request) l.
Proof. intros S. apply existsb_ext. intros path. by apply decision_at_same. Qed.

(** The paths the loop visits from index [idx] on. *)
Definition visited (idx : nat) (parts : list string) (path : string) : list string :=
  match idx, parts with
  | _, [] => []
  | O, _ :: parts => path :: paths_from path parts
  | S _, _ => paths_from path parts
  end.

Lemma run_tryParts w am request idx parts path :
  nh_ok w ->
  answers (tryParts cfg am request idx parts path) w
    (existsb (decision_at cfg (nh_view w) request) (visited idx parts path)).
Proof.
  revert w idx path. induction parts as [|part parts IH]; intros w idx path Hw.
  { destruct idx; by apply answers_ret. }
  cbn [tryParts]. set (path' := if (0 <? idx)%nat then _ else _).
  assert (visited idx (part :: parts) path = path' :: visited (S idx) parts path') as ->
    by (by destruct idx, parts).
  cbn [existsb]. unfold decision_at at 1, subjects. cbn [existsb]. rewrite <- orb_assoc.
  apply answers_or; [by apply run_tryEntity|]. intros Hu w1 Hw1 S1.
  assert (granted cfg (nh_view w1) (permission_of request (User request) path') = false) as Hu1.
  { rewrite (granted_same _ (nh_view w)); [done|done|apply permission_key]. }
  apply answers_or.
  - erewrite existsb_ext; [by apply run_tryEntities|].
    intros e. simpl. symmetry. apply granted_same; [done|apply permission_key].
  - intros _ w2 Hw2 S2. rewrite <- (existsb_paths_same (nh_view w) (nh_view w2));
      [by apply IH|by eapply same_permissions_trans].
Qed.

Lemma existsb_member request entity :
  bool_decide (entity = TVal (User request)) ||
  existsb (fun e => bool_decide (entity = TVal e)) (default [] (Entities request)) =
  existsb (fun e => bool_decide (entity = TVal e)) (subjects request).
Proof. done. Qed.

Lemma run_tryCached w request c :
  nh_ok w -> reads (tryCached cfg request c) w
    (match split ":" c with
     | [_; entity; _; _] =>
         existsb (fun e => bool_decide (entity = TVal e)) (subjects request) &&
         granted cfg (nh_view w) (recheckData request c)
     | _ => false
     end).
Proof.
  intros Hw. assert (reads (ret false) w false) as Hret by (by exists w).
  unfold tryCached. destruct (split ":" c) as [|t [|entity [|r [|x []]]]]; try done.
  rewrite existsb_member. destruct (existsb _ _); [|done]. by apply run_checkPermission.
Qed.

Lemma run_fromCache w request :
  nh_ok w ->
  let c := if 0 <? CacheSeconds cfg then default "" (nh_view w !! getCacheKey request) else "" in
  answers (if (0 <? String.length c)%nat then tryCached cfg request c else ret false) w
    (if 0 <? CacheSeconds cfg then cached_decision cfg (nh_view w) request else false).
Proof.
  intros Hw c. unfold cached_decision. subst c. destruct (0 <? CacheSeconds cfg);
    [|by apply answers_ret].
  destruct (nh_view w !! getCacheKey request) as [c|]; [|by apply answers_ret]. simpl default.
  destruct c as [|a c]; [by apply answers_ret|].
  by apply reads_answers, run_tryCached.
Qed.

Lemma run_visit w w' am request :
  nh_ok w' -> same_permissions (nh_view w) (nh_view w') ->
  answers (let '(parts, path) :=
      if AuthorizeSubpaths cfg then (split "/" (TVal (Resource request)), "")
      else ([TVal (Resource request)], TVal (Resource request)) in
    tryParts cfg am request 0 parts path) w' (decision cfg (nh_view w) request).
Proof.
  intros Hw S. unfold decision. rewrite <- (existsb_paths_same _ _ request _ S). unfold paths.
  destruct (AuthorizeSubpaths cfg).
  - pose proof (split_ne_nil "/" (TVal (Resource request))) as Hn.
    pose proof (run_tryParts w' am request 0 (split "/" (TVal (Resource request))) "" Hw) as K.
    by destruct (split "/" (TVal (Resource request))).
  - by apply (run_tryParts w' am request 0 [TVal (Resource request)]).
Qed.

(** The whole decision, cache included. *)
Lemma run_authorize w am request :
  nh_ok w ->
  answers (authorize cfg am request) w
    ((if 0 <? CacheSeconds cfg then cached_decision cfg (nh_view w) request else false) ||
     decision cfg (nh_view w) request).
Proof.
  intros Hw. unfold authorize.
  assert (exists w1 c, run (if 0 <? CacheSeconds cfg then hit cfg request else ret "") w =
      (w1, Ret c) /\ nh_ok w1 /\ nh_view w1 = nh_view w /\
    c = (if 0 <? CacheSeconds cfg then default "" (nh_view w !! getCacheKey request) else ""))
    as (w1 & c & E1 & Hw1 & V1 & ->).
  { destruct (0 <? CacheSeconds cfg).
    - destruct (run_hit w request Hw) as (w1 & E & Hw1 & V). eauto 8.
    - eauto 8. }
  rewrite <- V1 in E1 |- *. unfold answers. rewrite run_bind, E1, <- V1. cbv iota beta.
  set (c := if 0 <? CacheSeconds cfg then default "" (nh_view w1 !! getCacheKey request) else "").
  refine (answers_or (if (0 <? String.length c)%nat then tryCached cfg request c else ret false)
    _ w1 _ _ (run_fromCache w1 request Hw1) _).
  intros _ w2 Hw2 S2. by apply run_visit.
Qed.
End Service.

(** ** Paths *)

Lemma paths_from_spec path parts p :
  p ∈ paths_from path parts <->
  exists l1 l2, parts = l1 ++ l2 /\ l1 <> [] /\ p = path +:+ "/" +:+ join "/" l1.
Proof.
  revert path. induction parts as [|x parts IH]; intros path; simpl.
  - split; [by intros ?%not_elem_of_nil|]. intros (l1 & l2 & E & Hn & _). by destruct l1.
  - rewrite elem_of_cons, IH. split.
    + intros [->|(l1 & l2 & -> & Hn & ->)].
      * by exists [x], parts.
      * exists (x :: l1), l2. split_and!; try done. rewrite join_cons by done.
        by rewrite !string_app_assoc.
    + intros ([|y l1] & l2 & E & Hn & ->); [done|]. injection E as <- ->.
      destruct l1 as [|y l1]; [by left|]. right. exists (y :: l1), l2. split_and!; try done.
      rewrite (join_cons _ x) by done. by rewrite !string_app_assoc.
Qed.

Lemma join_app sep l1 l2 :
  l1 <> [] -> l2 <> [] -> join sep (l1 ++ l2) = join sep l1 +:+ String sep (join sep l2).
Proof.
  induction l1 as [|x l1 IH]; [done|]. intros _ H2. destruct l1 as [|y l1].
  - simpl app. by rewrite join_cons.
  - change ((x :: y :: l1) ++ l2) with (x :: ((y :: l1) ++ l2)).
    rewrite (join_cons sep x) by done. rewrite IH by done. rewrite (join_cons sep x) by done.
    by rewrite string_app_assoc.
Qed.

Lemma split_app_any sep a b : split sep (a +:+ String sep b) = split sep a ++ split sep b.
Proof.
  induction a as [|c a IH]; simpl; [by rewrite decide_True|]. rewrite IH.
  destruct (decide (c = sep)); [done|].
  pose proof (split_ne_nil sep a). by destruct (split sep a).
Qed.

(** The paths of an absolute resource are the resource and the directories
    above it, down to the empty path. *)
Lemma paths_of_absolute cfg request s p :
  AuthorizeSubpaths cfg = true -> TVal (Resource request) = "/" +:+ s ->
  p ∈ paths cfg request <->
  p = TVal (Resource request) \/ exists t, TVal (Resource request) = p +:+ "/" +:+ t.
Proof.
  intros HA HR. unfold paths. rewrite HA, HR.
  assert (split "/" ("/" +:+ s) = "" :: split "/" s) as -> by apply (split_app_any "/" "").
  simpl tail. rewrite elem_of_cons, paths_from_spec. split.
  - intros [->|(l1 & l2 & E & Hn & ->)]; [right; by exists s|].
    assert (s = join "/" (l1 ++ l2)) as -> by (by rewrite <- E, join_split).
    destruct l2 as [|y l2]; [left; by rewrite app_nil_r|]. right.
    exists (join "/" (y :: l2)). by rewrite join_app, !string_app_assoc.
  - intros [->|[t E]].
    + right. exists (split "/" s), []. rewrite app_nil_r, join_split.
      split_and!; try done. apply split_ne_nil.
    + destruct p as [|c p]; [by left|]. right. simpl in E. injection E as <- ->.
      exists (split "/" p), (split "/" t). rewrite <- split_app_any, join_split.
      split_and!; try done. apply split_ne_nil.
Qed.

(** The part before the first slash counts for nothing. *)
Lemma paths_tail cfg request first s :
  AuthorizeSubpaths cfg = true -> has_byte "/" first = false ->
  TVal (Resource request) = first +:+ "/" +:+ s ->
  paths cfg request = "" :: paths_from "" (split "/" s).
Proof.
  intros HA Hf HR. unfold paths. rewrite HA, HR.
  change ("/" +:+ s) with (String "/" s). by rewrite (split_app "/" first s Hf).
Qed.

(** ** Rights *)

(** When rights are not compared exactly, a stored right of one byte
    without the action bit lets through every request that is numerically
    at least as high, and no lower one: to hold [OPEN] (4) is to pass for
    [EDIT] (64) and to fail for [LIST] (2). *)
Theorem permits_one_byte x y :
  Z.land (b2z x) 1 = 0 ->
  permits false (Some (String x "")) (Some (String y "")) = (b2z x <=? b2z y).
Proof.
  intros Hx. unfold permits, bitwiseGreaterOrEqual.
  change (slice_len (Some (String x ""))) with 1%nat.
  change (byte_at (slice_bytes (Some (String x ""))) 0) with (b2z x). rewrite Hx. cbn.
  change (byte_at (String x "") 0) with (b2z x). change (byte_at (String y "") 0) with (b2z y).
  destruct (b2z x <=? b2z y); [done|]. by destruct (0 <? b2z x).
Qed.

(** Only the last byte of a longer right is ever compared. *)
Theorem permits_last_byte s r :
  (2 <= String.length s)%nat -> String.length r = String.length s ->
  permits false (Some s) (Some r) =
  (byte_at s (String.length s - 1) <=? byte_at r (String.length s - 1)).
Proof.
  intros Hl He. unfold permits, bitwiseGreaterOrEqual, slice_len, slice_bytes. simpl default.
  destruct (Nat.eqb_spec (String.length s) 0); [lia|].
  destruct (Nat.eqb_spec (String.length s) 1); [lia|]. cbn [andb].
  rewrite decide_False by (intros K; by apply K). rewrite He.
  destruct (String.length s) as [|k] eqn:Ek; [lia|].
  rewrite bitwiseGreaterOrEqual_loop_last. by rewrite Nat.sub_1_r.
Qed.

(** Compared exactly, a right of two bytes or more passes when it shares
    a bit with the request of the same length. *)
Theorem permits_exact s r :
  (2 <= String.length s)%nat -> String.length r = String.length s ->
  permits true (Some s) (Some r) = true <->
  exists i, (i < String.length s)%nat /\ Z.land (byte_at s i) (byte_at r i) <> 0.
Proof.
  intros Hl He. unfold permits, bitwiseAnd, slice_len, slice_bytes. simpl default.
  destruct (Nat.eqb_spec (String.length s) 0); [lia|].
  destruct (Nat.eqb_spec (String.length s) 1); [lia|]. cbn [andb].
  rewrite decide_False by (intros K; by apply K). by apply bitwiseAnd_loop_spec.
Qed.

(** ** Authorization *)

Definition suffix_of (request : Request) : string :=
  if (0 <? String.length (TVal (RAction request)))%nat
  then colon_rune (TRune (RAction request)) (TVal (RAction request)) else "".

Definition required_of (request : Request) : slice :=
  if (0 <? String.length (TVal (RAction request)))%nat
  then Some (String (z2b 1) "") else RRight request.

Lemma permission_of_eq request e path :
  permission_of request e path =
  mkKVData ("p:e:" +:+ TVal e +:+ ":" +:+ encode_rune (TRune (Resource request)) +:+ ":" +:+
    (if (String.length path =? 0)%nat then "/" else path) +:+ suffix_of request)
    (required_of request).
Proof.
  unfold permission_of, getPermissionString, suffix_of, required_of. cbn [TVal TRune].
  destruct (0 <? _)%nat; by rewrite ?string_app_nil_r, ?string_app_assoc.
Qed.

Lemma recheckData_eq request c :
  recheckData request c = mkKVData ("p:" +:+ c +:+ suffix_of request) (required_of request).
Proof.
  unfold recheckData, suffix_of, required_of.
  destruct (0 <? _)%nat; by rewrite ?string_app_nil_r.
Qed.

Lemma split_four c a b r x : split ":" c = [a; b; r; x] -> c = a +:+ ":" +:+ b +:+ ":" +:+ r +:+ ":" +:+ x.
Proof. intros E. by rewrite <- (join_split ":" c), E. Qed.

(** ** Witnesses *)

Lemma permits_one_byte_witness :
  permits false (Some (String (z2b 4) "")) (Some (String (z2b 64) "")) = true /\
  permits false (Some (String (z2b 4) "")) (Some (String (z2b 2) "")) = false.
Proof.
  split; [exact (permits_one_byte (z2b 4) (z2b 64) eq_refl)|
          exact (permits_one_byte (z2b 4) (z2b 2) eq_refl)].
Defined.

Lemma permits_last_byte_witness : permits false (Some "zA") (Some "aB") = true.
Proof. exact (permits_last_byte "zA" "aB" (le_n 2) eq_refl). Defined.

Lemma permits_exact_witness :
  permits true (Some "AB") (Some "CD") = true <->
  exists i, (i < 2)%nat /\ Z.land (byte_at "AB" i) (byte_at "CD" i) <> 0.
Proof. exact (permits_exact "AB" "CD" (le_n 2) eq_refl). Defined.
