(* ===== verification/AuthorizeSpec.v ===== *)
(** * Properties of [authorize], [permiss], [prune] and [revoke] *)
From S2P Require Import Prelude Bytes Utf8 Json Types Pebble DiskKV DiskKVSpec QuerySpec NodeHost.
From S2P Require Import Permissions PermissionsSpec.
From S2P Require Import PermissionSamples.

(** ** The cache *)

(** A text without the separator of keys. *)
Definition clean (s : string) : Prop := has_byte ":" s = false.

(** What the store remembers for a request is an entry [cache] wrote for
    it; an entry for the root is checked again under a key with an empty
    context, which must not hold a permission. *)
Definition truthful (cfg : AppConfig) (m : gmap string string) (request : Request) : Prop :=
  forall c, m !! getCacheKey request = Some c -> exists e path,
    c = cacheValue request e (mkTypedString path (TRune (Resource request))) /\
    path ∈ paths cfg request /\ (path = "" -> granted cfg m (recheckData request c) = false) /\
    clean (TVal e) /\ clean (encode_rune (TRune (Resource request))) /\ clean path.

Lemma split_cacheValue request e context :
  clean (TVal e) -> clean (encode_rune (TRune context)) -> clean (TVal context) ->
  split ":" (cacheValue request e context) =
  ["e"; TVal e; encode_rune (TRune context); TVal context].
Proof.
  intros A B C. unfold cacheValue.
  change ("e:" +:+ TVal e +:+ ":" +:+ encode_rune (TRune context) +:+ ":" +:+ TVal context) with
    ("e" +:+ String ":" (TVal e +:+ String ":" (encode_rune (TRune context) +:+
      String ":" (TVal context)))).
  rewrite split_app by done. rewrite split_app by done. rewrite split_app by done.
  by rewrite split_none.
Qed.

(** Checking a cache entry again is checking the permission it stands for. *)
Lemma recheck_permission request e path :
  path <> "" ->
  recheckData request (cacheValue request e (mkTypedString path (TRune (Resource request)))) =
  permission_of request e path.
Proof.
  intros Hp. rewrite recheckData_eq, permission_of_eq. unfold cacheValue. cbn [TVal TRune].
  destruct path as [|a path]; [done|]. change (String.length (String a path) =? 0)%nat with false.
  cbv iota. f_equal. by rewrite ?string_app_assoc.
Qed.

Lemma existsb_true {A} (f : A -> bool) l : existsb f l = true <-> exists x, x ∈ l /\ f x = true.
Proof. rewrite existsb_exists. by setoid_rewrite list_elem_of_In. Qed.

Lemma cached_decision_truthful cfg m request :
  truthful cfg m request -> cached_decision cfg m request = true ->
  decision cfg m request = true.
Proof.
  intros HT. unfold cached_decision. destruct (m !! getCacheKey request) as [c|] eqn:E; [|done].
  destruct (HT c E) as (e & path & -> & Hpath & Hne & A & B & C).
  rewrite split_cacheValue by done. intros [Hm Hg]%andb_true_iff.
  apply existsb_true in Hm as (e' & He' & Ee%bool_decide_eq_true).
  assert (path <> "") as Hn by (intros E0; by rewrite (Hne E0) in Hg).
  rewrite recheck_permission in Hg by done. unfold decision. apply existsb_true.
  exists path. split; [done|]. unfold decision_at. apply existsb_true. exists e'. split; [done|].
  by rewrite <- (permission_of_name request e e').
Qed.

(** The same request for another resource of the same type. *)
Definition with_resource (request : Request) (x : string) : Request :=
  mkRequest (User request) (Entities request) (mkTypedString x (TRune (Resource request)))
    (RAction request) (RRight request).

Section Properties.
Context {W : Type} `{NodeHostLaws W} (cfg : AppConfig) (am : ambient).

Lemma run_authorize_truthful w request :
  nh_ok w -> truthful cfg (nh_view w) request ->
  exists w', run (authorize cfg am request) w = (w', Ret (decision cfg (nh_view w) request)) /\
    nh_ok w'.
Proof.
  intros Hw HT. destruct (run_authorize cfg w am request Hw) as (w' & E & Hw' & _).
  exists w'. split; [|done]. rewrite E. do 2 f_equal.
  destruct (0 <? CacheSeconds cfg); [|done].
  destruct (cached_decision cfg (nh_view w) request) eqn:EC; [|done].
  by rewrite (cached_decision_truthful _ _ _ HT EC).
Qed.

(** In a healthy cluster [authorize] always answers: yes exactly when a
    permission key of the user or of one of the entities passes on one of
    the paths, or when the cache holds an entry for the request that still
    passes; it changes no permission. *)
Theorem authorize_decides w request :
  nh_ok w ->
  exists w', run (authorize cfg am request) w =
      (w', Ret ((if 0 <? CacheSeconds cfg then cached_decision cfg (nh_view w) request else false)
                || decision cfg (nh_view w) request)) /\
    nh_ok w' /\ same_permissions (nh_view w) (nh_view w').
Proof. apply run_authorize. Qed.

(** C8: the cache is transparent for a request whose entry, if any, was
    written for it: the answer is the one without a cache. *)
Theorem authorize_transparent w request :
  nh_ok w -> truthful cfg (nh_view w) request ->
  exists w', run (authorize cfg am request) w = (w', Ret (decision cfg (nh_view w) request)) /\
    nh_ok w'.
Proof. apply run_authorize_truthful. Qed.
(** With subpaths on, a request for an absolute resource is allowed
    exactly when the user or an entity holds a permission that passes on the
    resource itself or on a directory above it, down to the root. *)
Theorem authorize_absolute w request s :
  nh_ok w -> AuthorizeSubpaths cfg = true -> TVal (Resource request) = "/" +:+ s ->
  truthful cfg (nh_view w) request ->
  exists w' b, run (authorize cfg am request) w = (w', Ret b) /\
    (b = true <-> exists p e, e ∈ subjects request /\
       (p = TVal (Resource request) \/ exists t, TVal (Resource request) = p +:+ "/" +:+ t) /\
       granted cfg (nh_view w) (permission_of request e p) = true).
Proof.
  intros Hw HA HR HT. destruct (run_authorize_truthful w request Hw HT) as (w' & E & _).
  exists w', (decision cfg (nh_view w) request). split; [done|].
  unfold decision. rewrite existsb_true. split.
  - intros (p & Hp & He). apply existsb_true in He as (e & He & G).
    apply (paths_of_absolute cfg request s) in Hp; [|done..]. by exists p, e.
  - intros (p & e & He & Hp & G). exists p. split; [by apply (paths_of_absolute cfg request s)|].
    apply existsb_true. by exists e.
Qed.

(** With subpaths on, a resource that does not start with a slash loses
    its first part: it is decided as the absolute resource that is left. *)
Theorem authorize_relative w request first s :
  nh_ok w -> AuthorizeSubpaths cfg = true -> CacheSeconds cfg <= 0 -> has_byte "/" first = false ->
  exists w1 w2 b,
    run (authorize cfg am (with_resource request (first +:+ "/" +:+ s))) w = (w1, Ret b) /\
    run (authorize cfg am (with_resource request ("/" +:+ s))) w = (w2, Ret b).
Proof.
  intros Hw HA HC Hf. set (r1 := with_resource request (first +:+ "/" +:+ s)).
  set (r2 := with_resource request ("/" +:+ s)).
  destruct (run_authorize cfg w am r1 Hw) as (w1 & E1 & _).
  destruct (run_authorize cfg w am r2 Hw) as (w2 & E2 & _).
  assert ((0 <? CacheSeconds cfg) = false) as Hc by lia. rewrite Hc in E1, E2.
  exists w1, w2, (decision cfg (nh_view w) r2). split; [|done]. rewrite E1. do 2 f_equal.
  cbn [orb]. unfold decision. rewrite (paths_tail cfg r1 first s), (paths_tail cfg r2 "" s) by done.
  done.
Qed.

(** Whatever the cache holds, a yes rests on a permission key that is
    in the store now, passes for what was asked, and belongs to the user or
    to one of the entities of the request. *)
Theorem authorize_sound w w' request :
  nh_ok w -> run (authorize cfg am request) w = (w', Ret true) ->
  exists e t r context, e ∈ subjects request /\
    granted cfg (nh_view w)
      (mkKVData ("p:" +:+ t +:+ ":" +:+ TVal e +:+ ":" +:+ r +:+ ":" +:+ context +:+
                 suffix_of request) (required_of request)) = true.
Proof.
  intros Hw E. destruct (run_authorize cfg w am request Hw) as (w2 & E2 & _ & _).
  rewrite E in E2. injection E2 as _ E2. symmetry in E2. apply orb_true_iff in E2 as [E2|E2].
  - destruct (0 <? CacheSeconds cfg); [|done]. unfold cached_decision in E2.
    destruct (nh_view w !! getCacheKey request) as [c|]; [|done].
    destruct (split ":" c) as [|t [|entity [|r [|x []]]]] eqn:ES; try done.
    apply andb_true_iff in E2 as [Hm Hg].
    apply existsb_true in Hm as (e & He & ->%bool_decide_eq_true).
    exists e, t, r, x. split; [done|]. apply split_four in ES as ->.
    rewrite recheckData_eq in Hg. by rewrite !string_app_assoc in Hg.
  - apply existsb_true in E2 as (path & _ & E2). apply existsb_true in E2 as (e & He & Hg).
    rewrite permission_of_eq in Hg. eexists e, "e", _, _. split; [done|]. exact Hg.
Qed.

(** A permission that is found is remembered under the key of the request. *)
Lemma run_tryEntity_caches w request e path :
  nh_ok w -> granted cfg (nh_view w) (permission_of request e path) = true ->
  1 < CacheSeconds cfg -> valid_utf8 (getCacheKey request) = true ->
  exists w', run (tryEntity cfg am request e path) w = (w', Ret true) /\ nh_ok w' /\
    same_permissions (nh_view w) (nh_view w') /\
    nh_view w' !! getCacheKey request =
      Some (cacheValue request e (mkTypedString path (TRune (Resource request)))).
Proof.
  intros Hw Hg Hs Hv. destruct (run_checkPermission cfg w (permission_of request e path) Hw)
    as (w1 & E1 & Hw1 & V1). unfold permission_of in E1.
  destruct (run_cache cfg w1 am request e (mkTypedString path (TRune (Resource request))) Hw1)
    as (w2 & E2 & Hw2 & S2 & C2).
  exists w2. rewrite <- V1. split_and!; try done; [|by apply C2].
  unfold tryEntity. rewrite run_bind, E1. fold (permission_of request e path).
  rewrite Hg, run_bind, run_try, E2. done.
Qed.

(** A request for a whole resource by a user without entities. *)
Definition plain_request (user path : string) (kind : Z) (right : slice) : Request :=
  mkRequest (mkTypedString user 0) None (mkTypedString path kind) (mkTypedString "" 0) right.

(** The cache key does not hold the type of the resource, so a yes for
    a resource of one type, once remembered, is a yes for the resource of
    the same name of any other type, although no permission allows it. *)
Theorem authorize_type_confusion w user path kind1 kind2 right :
  nh_ok w -> AuthorizeSubpaths cfg = false -> 1 < CacheSeconds cfg ->
  clean user -> clean path -> path <> "" -> clean (encode_rune kind1) ->
  let r1 := plain_request user path kind1 right in
  let r2 := plain_request user path kind2 right in
  valid_utf8 (getCacheKey r1) = true -> nh_view w !! getCacheKey r1 = None ->
  granted cfg (nh_view w) (permission_of r1 (User r1) path) = true ->
  granted cfg (nh_view w) (permission_of r2 (User r2) path) = false ->
  exists w0 w1 w2,
    run (authorize cfg am r2) w = (w0, Ret false) /\
    run (authorize cfg am r1) w = (w1, Ret true) /\
    run (authorize cfg am r2) w1 = (w2, Ret true).
Proof.
  intros Hw HA HS Hu Hp Hne Hk r1 r2 Hv HN G1 G2.
  assert (forall r m, r = r1 \/ r = r2 -> decision cfg m r =
    granted cfg m (permission_of r (User r) path)) as D.
  { intros r m Hr. unfold decision, decision_at, paths. rewrite HA.
    destruct Hr as [->| ->]; simpl; by rewrite !orb_false_r. }
  assert ((0 <? CacheSeconds cfg) = true) as Hc by lia.
  destruct (run_authorize cfg w am r2 Hw) as (w0 & E0 & _).
  rewrite Hc, D, G2 in E0 by auto. unfold cached_decision in E0.
  change (getCacheKey r2) with (getCacheKey r1) in E0. rewrite HN in E0.
  destruct (run_hit cfg w r1 Hw) as (w' & EH & Hw' & V').
  destruct (run_tryEntity_caches w' r1 (User r1) path) as (w1 & E1 & Hw1 & S1 & C1);
    [done|by rewrite V'|done|done|].
  destruct (run_authorize cfg w1 am r2 Hw1) as (w2 & E2 & _).
  exists w0, w1, w2. split_and!; [done| |].
  - unfold authorize. rewrite Hc, run_bind, EH, HN. cbn [default].
    change (run (let* ok := ret false in if ok : bool then ret true else
      let '(parts, p) := if AuthorizeSubpaths cfg then (split "/" path, "") else ([path], path) in
      tryParts cfg am r1 0 parts p) w' = (w1, Ret true)).
    rewrite run_bind, run_ret. cbv iota beta. rewrite HA. cbn [tryParts Nat.ltb Nat.leb].
    by rewrite run_bind, E1.
  - rewrite E2, Hc. do 2 f_equal. unfold cached_decision.
    change (getCacheKey r2) with (getCacheKey r1). rewrite C1, split_cacheValue by done.
    simpl. rewrite bool_decide_eq_true_2 by done. simpl.
    change (recheckData r2) with (recheckData r1).
    rewrite (recheck_permission r1 (User r1)) by done.
    rewrite (granted_same _ (nh_view w)); [by rewrite G1| |apply permission_key].
    by rewrite <- V'.
Qed.
End Properties.

(** ** A cluster that does not answer *)

Section FailClosed.
Context {W : Type} `{NodeHost W} (cfg : AppConfig) (am : ambient).
Hypothesis reads_fail : forall w sh q, exists w' e, run (SyncRead sh q) w = (w', Err e).

(** A computation that answers no. *)
Definition refuses (m : io W bool) : Prop := forall w, exists w', run m w = (w', Ret false).

Lemma refuses_or (m k : io W bool) :
  refuses m -> refuses k -> refuses (let* ok := m in if ok : bool then ret true else k).
Proof. intros Hm Hk w. rewrite run_bind. destruct (Hm w) as [w1 ->]. apply Hk. Qed.

Lemma refuses_checkPermission kv : refuses (checkPermission cfg kv).
Proof.
  intros w. unfold checkPermission. rewrite run_bind, run_try.
  destruct (reads_fail w (cfg_ShardID cfg) (QString (Key kv))) as (w' & e & ->). by exists w'.
Qed.

Lemma refuses_tryEntity request e path : refuses (tryEntity cfg am request e path).
Proof.
  intros w. unfold tryEntity. rewrite run_bind.
  destruct (refuses_checkPermission (getPermissionString e
    (mkTypedString path (TRune (Resource request))) (RAction request) (RRight request) false) w)
    as [w' ->]. by exists w'.
Qed.

Lemma refuses_tryEntities request es path : refuses (tryEntities cfg am request es path).
Proof.
  induction es as [|e es IH]; [by intros w; exists w|]. cbn [tryEntities].
  case_decide; [done|]. apply refuses_or; [apply refuses_tryEntity|done].
Qed.

Lemma refuses_tryParts request idx parts path : refuses (tryParts cfg am request idx parts path).
Proof.
  revert idx path. induction parts as [|part parts IH]; intros idx path; [by intros w; exists w|].
  cbn [tryParts]. apply refuses_or; [apply refuses_tryEntity|].
  apply refuses_or; [apply refuses_tryEntities|apply IH].
Qed.

(** When the cluster does not answer reads, nothing is allowed. *)
Theorem authorize_fail_closed w request :
  exists w', run (authorize cfg am request) w = (w', Ret false).
Proof.
  unfold authorize. rewrite run_bind.
  assert (exists w1, run (if 0 <? CacheSeconds cfg then hit cfg request else ret "") w =
    (w1, Ret "")) as [w1 ->].
  { destruct (0 <? CacheSeconds cfg); [|by exists w]. unfold hit. rewrite run_bind, run_try.
    destruct (reads_fail w (cfg_ShardID cfg) (QString (getCacheKey request))) as (w' & e & ->).
    by exists w'. }
  cbv iota beta. change (0 <? String.length "")%nat with false. cbv iota.
  rewrite run_bind, run_ret. cbv iota beta.
  destruct (AuthorizeSubpaths cfg); apply refuses_tryParts.
Qed.
End FailClosed.

(** ** Witnesses *)

(** A node host without a leader. *)
Definition no_leader : NodeHost unit := {|
  SyncRead _ _ := fail (ErrExternal 1);
  SyncPropose _ _ := fail (ErrExternal 1);
  RequestDeleteReplica _ _ := fail (ErrExternal 1);
  RequestAddReplica _ _ _ := fail (ErrExternal 1) |}.

Lemma authorize_fail_closed_witness :
  exists w', run (@authorize unit no_leader cfg_sample (now_sample 5)
    (request_for "/org" (right 16))) tt = (w', Ret false).
Proof.
  apply (@authorize_fail_closed unit no_leader cfg_sample (now_sample 5)).
  intros w sh q. by exists w, (ErrExternal 1).
Defined.

Lemma authorize_decides_witness :
  exists w', run (authorize cfg_sample (now_sample 5) (request_for "/org/x" (right 16))) node_sample =
      (w', Ret true) /\ nh_ok w' /\ same_permissions (n_contents node_sample) (nh_view w').
Proof.
  exact (authorize_decides cfg_sample (now_sample 5) node_sample (request_for "/org/x" (right 16))
    node_sample_ok).
Defined.

Lemma authorize_transparent_witness :
  exists w', run (authorize cfg_sample (now_sample 5) (request_for "/org/x" (right 2))) node_sample =
      (w', Ret false) /\ nh_ok w'.
Proof.
  exact (authorize_transparent cfg_sample (now_sample 5) node_sample (request_for "/org/x" (right 2))
    node_sample_ok ltac:(intros c E; discriminate E)).
Defined.

Lemma authorize_sound_witness :
  exists e t r context, e ∈ [alice; staff] /\
    granted cfg_sample (n_contents node_sample)
      (mkKVData ("p:" +:+ t +:+ ":" +:+ TVal e +:+ ":" +:+ r +:+ ":" +:+ context) (right 16)) = true.
Proof.
  destruct (authorize_sound cfg_sample (now_sample 5) node_sample
    (fst (run (authorize cfg_sample (now_sample 5) (request_for "/org" (right 16))) node_sample))
    (request_for "/org" (right 16)) node_sample_ok ltac:(by vm_compute))
    as (e & t & r & context & He & G).
  exists e, t, r, context. split; [exact He|]. by rewrite !string_app_nil_r in G.
Defined.

Lemma authorize_type_confusion_witness :
  let r1 := plain_request "staff" "/org" rune_d (right 16) in
  let r2 := plain_request "staff" "/org" rune_w (right 16) in
  exists w0 w1 w2,
    run (authorize cfg_flat (now_sample 5) r2) node_sample = (w0, Ret false) /\
    run (authorize cfg_flat (now_sample 5) r1) node_sample = (w1, Ret true) /\
    run (authorize cfg_flat (now_sample 5) r2) w1 = (w2, Ret true).
Proof.
  exact (authorize_type_confusion cfg_flat (now_sample 5) node_sample "staff" "/org" rune_d rune_w
    (right 16) node_sample_ok eq_refl ltac:(done) eq_refl eq_refl ltac:(done) eq_refl eq_refl eq_refl
    eq_refl eq_refl).
Defined.

Lemma authorize_absolute_witness :
  exists w' b, run (authorize cfg_sample (now_sample 5) (request_for "/org/x" (right 16))) node_sample =
      (w', Ret b) /\
    (b = true <-> exists p e, e ∈ [alice; staff] /\
       (p = "/org/x" \/ exists t, "/org/x" = p +:+ "/" +:+ t) /\
       granted cfg_sample (n_contents node_sample)
         (permission_of (request_for "/org/x" (right 16)) e p) = true).
Proof.
  exact (authorize_absolute cfg_sample (now_sample 5) node_sample (request_for "/org/x" (right 16))
    "org/x" node_sample_ok eq_refl eq_refl ltac:(intros c E; discriminate E)).
Defined.

Lemma authorize_relative_witness :
  exists w1 w2 b,
    run (authorize cfg_uncached (now_sample 5) (request_for "other/org" (right 16))) node_sample =
      (w1, Ret b) /\
    run (authorize cfg_uncached (now_sample 5) (request_for "/org" (right 16))) node_sample =
      (w2, Ret b).
Proof.
  exact (authorize_relative cfg_uncached (now_sample 5) node_sample (request_for "" (right 16))
    "other" "org" node_sample_ok eq_refl ltac:(simpl; lia) eq_refl).
Defined.
