(* ===== verification/GrantSpec.v ===== *)
(** * Granting: what [permiss] writes and which requests it decides *)
From S2P Require Import Prelude Bytes Utf8 Json Types Pebble DiskKV DiskKVSpec QuerySpec NodeHost.
From S2P Require Import Permissions PermissionsSpec.
From S2P Require Import AuthorizeSpec.
From S2P Require Import PermissionSamples.

(** The value a permission stores; none deletes the key. *)
Definition stored_of (p : Permission) : slice := Val (permissValue p).

(** The suffix of its key. *)
Definition action_suffix (p : Permission) : string :=
  if (0 <? String.length (TVal (PAction p)))%nat
  then colon_rune (TRune (PAction p)) (TVal (PAction p)) else "".

Lemma permissValue_key p :
  Key (permissValue p) =
  "p:e:" +:+ TVal (PEntity p) +:+ ":" +:+ encode_rune (TRune (PContext p)) +:+ ":" +:+
  TVal (PContext p) +:+ action_suffix p.
Proof.
  unfold permissValue, action_suffix. destruct (0 <? _)%nat; cbn [Key];
    by rewrite ?string_app_nil_r, ?string_app_assoc.
Qed.

(** The request a permission answers on a path: the root is written [/]
    and visited as the empty path. *)
Definition matches (p : Permission) (request : Request) (e : TypedString) (path : string) : Prop :=
  TVal e = TVal (PEntity p) /\
  (if (String.length path =? 0)%nat then "/" else path) = TVal (PContext p) /\
  TRune (Resource request) = TRune (PContext p) /\ RAction request = PAction p.

Lemma matches_key p request e path :
  matches p request e path ->
  Key (permission_of request e path) = Key (permissValue p).
Proof.
  intros (He & Hp & Hr & Ha). rewrite permission_of_eq, permissValue_key. cbn [Key].
  unfold suffix_of, action_suffix. by rewrite He, Hr, Ha, Hp.
Qed.

(** Texts up to the first separator are equal when the wholes are. *)
Lemma clean_inj a b x y :
  clean a -> clean b -> a +:+ ":" +:+ x = b +:+ ":" +:+ y -> a = b /\ x = y.
Proof.
  unfold clean. revert b. induction a as [|c a IH]; intros [|d b]; cbn [has_byte].
  - by intros _ _ [= ->].
  - intros _ Hb [= <- _]. by destruct (Ascii.eqb_spec ":" ":").
  - intros Ha _ [= -> _]. by destruct (Ascii.eqb_spec ":" ":").
  - intros [_ Ha]%orb_false_iff [_ Hb]%orb_false_iff [= -> E].
    destruct (IH b Ha Hb E) as [-> ->]. done.
Qed.

(** ** What a batch of writes leaves under a key *)

Lemma write_other m d k : sanitize (Key d) <> k -> write m d !! k = m !! k.
Proof.
  intros Hk. unfold write. destruct (Val d); [by rewrite lookup_insert_ne|by rewrite lookup_delete_ne].
Qed.

Lemma writes_other m l k :
  Forall (fun d => sanitize (Key d) <> k) l -> foldl write m l !! k = m !! k.
Proof.
  intros Hl. revert m. induction Hl as [|d l Hd _ IH]; intros m; [done|].
  cbn [foldl]. rewrite IH. by apply write_other.
Qed.

Lemma writes_last m l1 d l2 k :
  sanitize (Key d) = k -> Forall (fun d => sanitize (Key d) <> k) l2 ->
  foldl write m (l1 ++ d :: l2) !! k = Val d.
Proof.
  intros <- Hl. rewrite foldl_app. cbn [foldl]. rewrite writes_other by done. unfold write.
  destruct (Val d); [by rewrite lookup_insert_eq|by rewrite lookup_delete_eq].
Qed.

Lemma stamp_permission i m k : has_prefix "p:" k = true -> stamp i m !! k = m !! k.
Proof. intros [t ->]%has_prefix_spec. unfold stamp. by rewrite lookup_insert_ne. Qed.

Section Service.
Context {W : Type} `{NodeHostLaws W} (cfg : AppConfig) (am : ambient).

Lemma run_permiss w ps :
  nh_ok w ->
  exists w' i, run (permiss cfg ps) w = (w', Ret tt) /\ nh_ok w' /\
    nh_view w' = stamp i (foldl write (nh_view w) (map permissValue ps)).
Proof.
  intros Hw. destruct (propose_command w (cfg_ShardID cfg) (CBatch PUT (map permissValue ps)) Hw)
    as (w' & i & n & E & Hw' & V).
  exists w', i. split; [|done]. unfold permiss. rewrite run_bind. simpl encode in E. by rewrite E.
Qed.

(** Permissions none of whose keys a request reads change no decision. *)
Lemma permiss_frame w ps request :
  nh_ok w ->
  (forall p e path, p ∈ ps -> e ∈ subjects request ->
     sanitize (Key (permissValue p)) <> Key (permission_of request e path)) ->
  exists w', run (permiss cfg ps) w = (w', Ret tt) /\ nh_ok w' /\
    decision cfg (nh_view w') request = decision cfg (nh_view w) request.
Proof.
  intros Hw Hk. destruct (run_permiss w ps Hw) as (w' & i & E & Hw' & V).
  exists w'. split_and!; try done. unfold decision. apply existsb_ext. intros path.
  assert (forall e, e ∈ subjects request ->
    granted cfg (nh_view w') (permission_of request e path) =
    granted cfg (nh_view w) (permission_of request e path)) as G.
  { intros e He. destruct (permission_key request e path) as [t Et].
    unfold granted. rewrite V, stamp_permission by (rewrite Et; apply has_prefix_app).
    rewrite writes_other; [done|]. apply Forall_map, Forall_forall. intros p Hp. by apply Hk. }
  unfold decision_at. induction (subjects request) as [|e es IH]; [done|]. cbn [existsb].
  f_equal; [apply G; set_solver|]. apply IH; intros; [apply Hk|apply G]; set_solver.
Qed.

(** A key that is granted allows every request that reads it. *)
Lemma granted_decision m request e path :
  e ∈ subjects request -> path ∈ paths cfg request ->
  granted cfg m (permission_of request e path) = true -> decision cfg m request = true.
Proof.
  intros He Hp G. apply existsb_true. exists path. split; [done|]. apply existsb_true. by exists e.
Qed.

(** The last permission written for a key decides it. *)
Lemma written_granted m i l1 p l2 request e path :
  matches p request e path -> valid_utf8 (Key (permissValue p)) = true ->
  (forall q, q ∈ l2 -> sanitize (Key (permissValue q)) <> Key (permissValue p)) ->
  granted cfg (stamp i (foldl write m (map permissValue (l1 ++ p :: l2)))) (permission_of request e path) =
    (if PDelete p then false
     else permits (PermissionCheckExact cfg) (stored_of p) (required_of request)).
Proof.
  intros HM Hv Hl. destruct (permission_key request e path) as [t Et].
  unfold granted. rewrite stamp_permission by (rewrite Et; apply has_prefix_app).
  rewrite (matches_key p) by done. rewrite map_app. cbn [map]. rewrite writes_last.
  - rewrite permission_of_eq. cbn [Val]. unfold stored_of. destruct (PDelete p) eqn:ED; [|done].
    unfold permissValue. rewrite ED. by destruct (0 <? _)%nat.
  - by apply sanitize_valid.
  - apply Forall_map, Forall_forall. intros q Hq. by apply Hl.
Qed.

(** After [permiss], the last permission written for a key decides the
    requests that read it: the stored right is compared with the one asked
    for, a deleted permission allows nothing, and a request that passes on
    one of its paths is authorized. *)
Theorem permiss_grants w l1 p l2 request e path :
  nh_ok w -> matches p request e path ->
  valid_utf8 (Key (permissValue p)) = true ->
  (forall q, q ∈ l2 -> sanitize (Key (permissValue q)) <> Key (permissValue p)) ->
  exists w', run (permiss cfg (l1 ++ p :: l2)) w = (w', Ret tt) /\ nh_ok w' /\
    granted cfg (nh_view w') (permission_of request e path) =
      (if PDelete p then false
       else permits (PermissionCheckExact cfg) (stored_of p) (required_of request)) /\
    (PDelete p = false -> e ∈ subjects request -> path ∈ paths cfg request ->
     permits (PermissionCheckExact cfg) (stored_of p) (required_of request) = true ->
     exists w'', run (authorize cfg am request) w' = (w'', Ret true)).
Proof.
  intros Hw HM Hv Hl. destruct (run_permiss w (l1 ++ p :: l2) Hw) as (w' & i & E & Hw' & V).
  pose proof (written_granted (nh_view w) i l1 p l2 request e path HM Hv Hl) as G. rewrite <- V in G.
  exists w'. split_and!; [done..|]. intros HD He Hp HP. rewrite HD, HP in G.
  destruct (run_authorize cfg w' am request Hw') as (w'' & E'' & _). exists w''. rewrite E''.
  by rewrite (granted_decision _ _ _ _ He Hp G), orb_true_r.
Qed.

(** Permissions for entities that a request does not name change no
    decision on it, as long as the names hold no separator. *)
Theorem permiss_isolated w ps request :
  nh_ok w -> (forall e, e ∈ subjects request -> clean (TVal e)) ->
  (forall p, p ∈ ps -> clean (TVal (PEntity p)) /\ valid_utf8 (Key (permissValue p)) = true /\
     forall e, e ∈ subjects request -> TVal e <> TVal (PEntity p)) ->
  exists w', run (permiss cfg ps) w = (w', Ret tt) /\ nh_ok w' /\
    decision cfg (nh_view w') request = decision cfg (nh_view w) request.
Proof.
  intros Hw Hs Hp. apply permiss_frame; [done|]. intros p e path Ip Ie.
  destruct (Hp p Ip) as (Hc & Hv & Hne). rewrite sanitize_valid by done.
  rewrite permissValue_key, permission_of_eq. cbn [Key]. intros E.
  apply (inj (String.append "p:e:")) in E. apply clean_inj in E as [E _]; [|done|by apply Hs].
  by apply (Hne e Ie).
Qed.

(** A permission written with an empty context is never read: the
    requests look under [/], which [permiss] does not write. *)
Theorem permiss_empty_context w p request :
  nh_ok w -> TVal (PContext p) = "" -> TVal (PAction p) = "" ->
  clean (TVal (PEntity p)) -> clean (encode_rune (TRune (PContext p))) ->
  valid_utf8 (TVal (PEntity p)) = true ->
  (forall e, e ∈ subjects request -> clean (TVal e)) ->
  clean (encode_rune (TRune (Resource request))) ->
  exists w', run (permiss cfg [p]) w = (w', Ret tt) /\ nh_ok w' /\
    decision cfg (nh_view w') request = decision cfg (nh_view w) request.
Proof.
  intros Hw Hx Ha Hc Hr Hv Hs Hk. apply permiss_frame; [done|].
  intros ? e path ->%list_elem_of_singleton Ie. rewrite permissValue_key, permission_of_eq.
  unfold action_suffix. rewrite Hx, Ha. cbn [Key String.length Nat.ltb Nat.leb].
  rewrite sanitize_valid by (repeat (apply valid_app; [done || apply encode_rune_valid|]); done).
  intros E. apply (inj (String.append "p:e:")) in E.
  apply clean_inj in E as [_ E]; [|done|by apply Hs].
  apply clean_inj in E as [_ E]; [|done..].
  destruct path as [|c path]; cbn in E; discriminate E.
Qed.
End Service.

(** ** Witnesses *)

Lemma permiss_grants_witness :
  exists w', run (permiss cfg_sample [staff_grant]) empty_node = (w', Ret tt) /\ nh_ok w' /\
    granted cfg_sample (nh_view w') (permission_of (request_for "/org/x" (right 16)) staff "/org") = true /\
    exists w'', run (authorize cfg_sample (now_sample 5) (request_for "/org/x" (right 16))) w' =
      (w'', Ret true).
Proof.
  destruct (permiss_grants cfg_sample (now_sample 5) empty_node [] staff_grant []
    (request_for "/org/x" (right 16)) staff "/org" empty_node_ok) as (w' & E & Hw' & G & A).
  - by split_and!.
  - done.
  - intros q Hq. by apply not_elem_of_nil in Hq.
  - exists w'. split_and!; [exact E|exact Hw'|exact G|]. apply A; [done|..|done].
    + by apply (proj1 (Contains_spec [alice; staff] staff)).
    + by apply (proj1 (Contains_spec ["" ; "/org"; "/org/x"] "/org")).
Defined.

Lemma permiss_isolated_witness :
  exists w', run (permiss cfg_sample [staff_grant]) empty_node = (w', Ret tt) /\ nh_ok w' /\
    decision cfg_sample (nh_view w') (plain_request "alice" "/org" rune_d (right 16)) = false.
Proof.
  apply (permiss_isolated cfg_sample empty_node [staff_grant]
    (plain_request "alice" "/org" rune_d (right 16)) empty_node_ok).
  - by intros e ->%list_elem_of_singleton.
  - intros p ->%list_elem_of_singleton. split_and!; [done..|].
    by intros e ->%list_elem_of_singleton.
Defined.

Lemma permiss_empty_context_witness :
  exists w', run (permiss cfg_sample
      [mkPermission alice (mkTypedString "" rune_d) no_action (right 16) false]) empty_node =
      (w', Ret tt) /\ nh_ok w' /\
    decision cfg_sample (nh_view w') (plain_request "alice" "/" rune_d (right 16)) = false.
Proof.
  apply (permiss_empty_context cfg_sample empty_node
    (mkPermission alice (mkTypedString "" rune_d) no_action (right 16) false)
    (plain_request "alice" "/" rune_d (right 16)) empty_node_ok eq_refl eq_refl eq_refl eq_refl eq_refl).
  - by intros e ->%list_elem_of_singleton.
  - done.
Defined.
