(* ===== verification/Interference.v ===== *)
(** * Checks while others write

    The other theorems about permissions let a request run alone.  Here the
    other clients of the cluster may change its contents before any read
    or proposal of the request, in any way, and any call may fail.  What
    a check answers is related to the contents at the moments when its
    calls were served. *)
From S2P Require Import Prelude Bytes Utf8 Json Types Pebble DiskKV DiskKVSpec QuerySpec NodeHost.
From S2P Require Import Permissions PermissionsSpec AuthorizeSpec PermissionSamples.

Abbreviation contents := (gmap string string).

(** The contents, the number of calls that have been served, and the
    contents when each of them was. *)
Record busy := mkBusy { bz_store : contents; bz_clock : nat; bz_moments : list contents }.

Section Busy.
(** What the others do before a call, and which calls fail. *)
Context (others : nat -> contents -> contents) (fails : nat -> bool).

Definition arrive (b : busy) : busy :=
  let m := others (bz_clock b) (bz_store b) in mkBusy m (S (bz_clock b)) (bz_moments b ++ [m]).

Definition serve_read (q : query) : io busy answer := fun b =>
  ([], (arrive b, if fails (bz_clock b) then Err (ErrExternal 1) else answer_query (bz_store (arrive b)) q)).

Definition serve_proposal (cmd : string) : io busy Z := fun b =>
  if fails (bz_clock b) then ([], (arrive b, Err (ErrExternal 1)))
  else match apply_command (bz_store (arrive b)) (Z.of_nat (bz_clock (arrive b))) cmd with
       | Ret (m, n) => ([], (mkBusy m (bz_clock (arrive b)) (bz_moments (arrive b)), Ret n))
       | Err e => ([], (arrive b, Err e))
       | Panic p => ([], (arrive b, Panic p))
       end.

#[local] Instance busy_NodeHost : NodeHost busy := {
  SyncRead _ q := serve_read q;
  SyncPropose _ cmd := serve_proposal cmd;
  RequestDeleteReplica _ _ := ret tt;
  RequestAddReplica _ _ _ := ret true }.

(** ** A yes has a moment *)

(** A computation goes on from the moments so far, and a yes has one of its
    own at which [Q] holds. *)
Definition yes_at (Q : contents -> Prop) (m : io busy bool) : Prop := forall b, exists l,
  bz_moments (run m b).1 = bz_moments b ++ l /\ ((run m b).2 = Ret true -> exists x, x ∈ l /\ Q x).

Definition goes_on {A} (m : io busy A) : Prop := forall b, exists l, bz_moments (run m b).1 = bz_moments b ++ l.

Lemma goes_on_ret {A} (a : A) : goes_on (ret a).
Proof. intros b. exists []. by rewrite app_nil_r. Qed.

Lemma goes_on_bind {A B} (m : io busy A) (k : A -> io busy B) :
  goes_on m -> (forall a, goes_on (k a)) -> goes_on (bind m k).
Proof.
  intros Hm Hk b. rewrite run_bind. destruct (Hm b) as [l E]. destruct (run m b) as [b1 [a|e|p]]; [|by exists l..].
  destruct (Hk a b1) as [l' E']. exists (l ++ l'). cbn [fst] in *. by rewrite E', E, app_assoc.
Qed.

Lemma goes_on_try {A} (m : io busy A) : goes_on m -> goes_on (try m).
Proof. intros Hm b. rewrite run_try. destruct (Hm b) as [l E]. destruct (run m b) as [b1 []]; by exists l. Qed.

Lemma goes_on_read sh q : goes_on (SyncRead sh q).
Proof. intros b. by eexists. Qed.

Lemma goes_on_propose sh cmd : goes_on (SyncPropose sh cmd).
Proof.
  intros b. exists [bz_store (arrive b)]. cbn [SyncPropose busy_NodeHost]. unfold run, serve_proposal.
  destruct (fails _); [done|]. by destruct (apply_command _ _ _) as [[m n]| |].
Qed.

Lemma yes_at_false Q : yes_at Q (ret false).
Proof. intros b. exists []. by rewrite app_nil_r. Qed.

Lemma yes_at_after {A} Q (m : io busy A) (k : A -> io busy bool) :
  goes_on m -> (forall a, yes_at Q (k a)) -> yes_at Q (bind m k).
Proof.
  intros Hm Hk b. rewrite run_bind. destruct (Hm b) as [l E]. destruct (run m b) as [b1 [a|e|p]]; [|by exists l..].
  destruct (Hk a b1) as (l' & E' & HQ). exists (l ++ l'). cbn [fst] in *. split; [by rewrite E', E, app_assoc|].
  intros (x & Hx & H)%HQ. exists x. split; [|done]. apply elem_of_app. by right.
Qed.

Lemma yes_at_or Q (m k : io busy bool) :
  yes_at Q m -> yes_at Q k -> yes_at Q (let* ok := m in if ok : bool then ret true else k).
Proof.
  intros Hm Hk b. rewrite run_bind. destruct (Hm b) as (l & E & HQ). destruct (run m b) as [b1 [[]|e|p]].
  - exists l. split; [done|]. intros _. by apply HQ.
  - destruct (Hk b1) as (l' & E' & HQ'). exists (l ++ l'). cbn [fst] in *. split; [by rewrite E', E, app_assoc|].
    intros (x & Hx & H)%HQ'. exists x. split; [|done]. apply elem_of_app. by right.
  - by exists l.
  - by exists l.
Qed.

(** What follows a yes, and answers yes itself. *)
Lemma yes_at_then {A} Q (m : io busy bool) (k : io busy A) :
  yes_at Q m -> goes_on k ->
  yes_at Q (let* ok := m in if ok : bool then let* _ := k in ret true else ret false).
Proof.
  intros Hm Hk b. rewrite run_bind. destruct (Hm b) as (l & E & HQ). destruct (run m b) as [b1 [[]|e|p]];
    [|by exists l..].
  destruct (HQ eq_refl) as (x & Hx & H). rewrite run_bind. destruct (Hk b1) as [l' E']. exists (l ++ l').
  assert (x ∈ l ++ l') as Hx' by (apply elem_of_app; by left). cbn [fst] in *.
  destruct (run k b1) as [b2 [a|e|p]]; rewrite ?run_ret; cbn [fst snd] in *; (split; [by rewrite E', E, app_assoc|]);
    intros _; by exists x.
Qed.

Section Authorize.
Context (cfg : AppConfig) (am : ambient) (request : Request).

(** A permission that passes for the user or an entity of the request. *)
Definition justified (m : contents) : Prop :=
  exists e t r context, e ∈ subjects request /\
    granted cfg m (mkKVData ("p:" +:+ t +:+ ":" +:+ TVal e +:+ ":" +:+ r +:+ ":" +:+ context +:+
      suffix_of request) (required_of request)) = true.

Lemma check_yes kv : yes_at (fun m => granted cfg m kv = true) (checkPermission cfg kv).
Proof.
  intros b. exists [bz_store (arrive b)]. unfold checkPermission. rewrite run_bind, run_try.
  change (run (SyncRead (cfg_ShardID cfg) (QString (Key kv))) b) with (arrive b,
    if fails (bz_clock b) then Err (ErrExternal 1) else answer_query (bz_store (arrive b)) (QString (Key kv))).
  destruct (fails _); [done|]. split; [done|]. intros [= G]. exists (bz_store (arrive b)). split; [by left|exact G].
Qed.

Lemma yes_at_weaken (Q Q' : contents -> Prop) m : (forall x, Q x -> Q' x) -> yes_at Q m -> yes_at Q' m.
Proof.
  intros HQ Hm b. destruct (Hm b) as (l & E & H). exists l. split; [done|].
  intros (x & Hx & HX)%H. exists x. auto.
Qed.

Lemma goes_on_propose_data d : goes_on (proposeData cfg d).
Proof. apply goes_on_bind; [apply goes_on_propose|intros; apply goes_on_ret]. Qed.

Lemma goes_on_cache e c : goes_on (cache cfg am request e c).
Proof.
  unfold cache. destruct (CacheSeconds cfg <=? 1); [apply goes_on_ret|].
  apply goes_on_bind; [apply goes_on_propose_data|]. intros _.
  apply goes_on_bind; [apply goes_on_try, goes_on_propose_data|intros; apply goes_on_ret].
Qed.

Lemma entity_yes e path : e ∈ subjects request -> yes_at justified (tryEntity cfg am request e path).
Proof.
  intros He. unfold tryEntity. apply yes_at_then; [|apply goes_on_try, goes_on_cache].
  eapply yes_at_weaken; [|apply check_yes]. intros m G.
  fold (permission_of request e path) in G. rewrite permission_of_eq in G.
  eexists e, "e", _, _. split; [done|]. exact G.
Qed.

Lemma entities_yes es path :
  (forall e, e ∈ es -> e ∈ subjects request) -> yes_at justified (tryEntities cfg am request es path).
Proof.
  induction es as [|e es IH]; intros Hs; [apply yes_at_false|]. cbn [tryEntities].
  destruct (decide _); [apply IH; intros x Hx; apply Hs; by right|].
  apply yes_at_or; [apply entity_yes, Hs; by left|apply IH; intros x Hx; apply Hs; by right].
Qed.

Lemma parts_yes idx parts path : yes_at justified (tryParts cfg am request idx parts path).
Proof.
  revert idx path. induction parts as [|part parts IH]; intros idx path; [apply yes_at_false|].
  cbn [tryParts]. apply yes_at_or; [apply entity_yes; by left|].
  apply yes_at_or; [|apply IH]. apply entities_yes. intros e He. by right.
Qed.

Lemma cached_yes c : yes_at justified (tryCached cfg request c).
Proof.
  unfold tryCached. destruct (split ":" c) as [|t [|entity [|r [|x []]]]] eqn:ES; try apply yes_at_false.
  rewrite existsb_member. destruct (existsb _ _) eqn:Hm; [|apply yes_at_false].
  apply existsb_true in Hm as (e & He & ->%bool_decide_eq_true).
  eapply yes_at_weaken; [|apply check_yes]. intros m G. apply split_four in ES as ->.
  rewrite recheckData_eq in G. exists e, t, r, x. split; [done|]. by rewrite !string_app_assoc in G.
Qed.

(** C7: whatever the other clients write in the meantime, and whatever
    calls fail, a check that answers yes has seen a justification: at one of
    the moments when its calls were served, the store held a permission key
    that passes for what was asked and belongs to the user or to an entity
    of the request.  In particular a permission that is gone before the
    check begins, and does not come back, lets nobody in. *)
Theorem authorize_has_moment b b' :
  run (authorize cfg am request) b = (b', Ret true) ->
  exists l m, bz_moments b' = bz_moments b ++ l /\ m ∈ l /\ justified m.
Proof.
  assert (yes_at justified (authorize cfg am request)) as K.
  { unfold authorize. apply yes_at_after.
    - destruct (0 <? CacheSeconds cfg); [|apply goes_on_ret]. unfold hit.
      apply goes_on_bind; [apply goes_on_try, goes_on_read|intros; apply goes_on_ret].
    - intros c. apply yes_at_or; [destruct (0 <? String.length c)%nat; [apply cached_yes|apply yes_at_false]|].
      destruct (AuthorizeSubpaths cfg); apply parts_yes. }
  intros E. destruct (K b) as (l & El & H). rewrite E in *. cbn [fst snd] in *.
  destruct (H eq_refl) as (m & Hm & J). by exists l, m.
Qed.

(** ** A lasting permission is found *)

Section Lasting.
(** No call fails, and the permission [kv] passes at the start and after
    whatever the others do. *)
Context (served : forall n, fails n = false).
Context (kv : KVData) (lasts : forall n m, granted cfg m kv = true -> granted cfg (others n m) kv = true).
Abbreviation lasting b := (granted cfg (bz_store b) kv = true).

(** While the permission lasts the computation returns, and [f] says that
    it is sure to answer yes. *)
Definition settles (f : bool) (m : io busy bool) : Prop := forall b, lasting b ->
  exists b' r, run m b = (b', Ret r) /\ (r = true \/ f = false /\ r = false /\ lasting b').

Lemma settles_less f m : settles f m -> settles false m.
Proof.
  intros Hm b Hb. destruct (Hm b Hb) as (b' & r & E & H). exists b', r. split; [done|].
  destruct H as [?|(_ & ?)]; auto.
Qed.

Lemma settles_ret : settles false (ret false).
Proof. intros b Hb. exists b, false. auto. Qed.

Lemma settles_or f g (m k : io busy bool) :
  settles f m -> settles g k -> settles (f || g) (let* ok := m in if ok : bool then ret true else k).
Proof.
  intros Hm Hk b Hb. destruct (Hm b Hb) as (b1 & r & E & H). rewrite run_bind, E.
  destruct r; [exists b1, true; split; [done|by left]|]. destruct H as [?|(-> & _ & Hb1)]; [done|].
  destruct (Hk b1 Hb1) as (b2 & r2 & E2 & H2). exists b2, r2. by rewrite E2.
Qed.

Lemma run_read_served q b :
  run (SyncRead (cfg_ShardID cfg) q) b = (arrive b, answer_query (bz_store (arrive b)) q).
Proof. cbn [SyncRead busy_NodeHost]. unfold run, serve_read. by rewrite served. Qed.

Lemma arrive_lasting b : lasting b -> lasting (arrive b).
Proof. apply lasts. Qed.

Lemma check_settles kv' : settles (bool_decide (kv' = kv)) (checkPermission cfg kv').
Proof.
  intros b Hb%arrive_lasting. exists (arrive b), (granted cfg (bz_store (arrive b)) kv').
  split; [unfold checkPermission; by rewrite run_bind, run_try, run_read_served|].
  case_bool_decide as K; [subst kv'; by left|]. destruct (granted _ _ kv'); auto.
Qed.

Lemma proposal_served d b : exists b', run (proposeData cfg d) b = (b', Ret tt).
Proof.
  unfold proposeData. rewrite run_bind. cbn [SyncPropose busy_NodeHost]. change (MarshalKVData d) with (encode (CData d)).
  unfold run at 1, serve_proposal, apply_command. rewrite served, commandOps_encode. by eexists.
Qed.

Lemma cache_served e c b : exists b', run (try (cache cfg am request e c)) b = (b', Ret (inr tt)).
Proof.
  rewrite run_try. unfold cache. destruct (CacheSeconds cfg <=? 1); [by exists b|]. rewrite run_bind.
  edestruct proposal_served as [b1 ->]. rewrite run_bind, run_try. unfold ttl.
  edestruct proposal_served as [b2 ->]. by exists b2.
Qed.

Definition sought (path : string) (e : TypedString) : bool := bool_decide (permission_of request e path = kv).

Lemma tryEntity_settles e path : settles (sought path e) (tryEntity cfg am request e path).
Proof.
  intros b Hb. destruct (check_settles (permission_of request e path) b Hb) as (b1 & r & E & H).
  unfold tryEntity. fold (permission_of request e path). rewrite run_bind, E. destruct r; [|by exists b1, false].
  rewrite run_bind. destruct (cache_served e (mkTypedString path (TRune (Resource request))) b1) as [b2 ->].
  exists b2, true. auto.
Qed.

Lemma tryEntities_settles es path :
  sought path (User request) = false -> settles (existsb (sought path) es) (tryEntities cfg am request es path).
Proof.
  intros Hu. induction es as [|e es IH]; [apply settles_ret|]. cbn [tryEntities existsb].
  destruct (decide (TVal e = TVal (User request))) as [E|].
  - unfold sought in *. by rewrite (permission_of_name _ _ _ _ E), Hu.
  - apply settles_or; [apply tryEntity_settles|done].
Qed.

Lemma tryEntities_returns es path : settles false (tryEntities cfg am request es path).
Proof.
  induction es as [|e es IH]; [apply settles_ret|]. cbn [tryEntities].
  destruct (decide _); [done|]. apply (settles_or false false); [|done]. eapply settles_less, tryEntity_settles.
Qed.

Lemma tryParts_settles idx parts path :
  settles (existsb (fun p => existsb (sought p) (subjects request)) (visited idx parts path))
    (tryParts cfg am request idx parts path).
Proof.
  revert idx path. induction parts as [|part parts IH]; intros idx path; [destruct idx; apply settles_ret|].
  cbn [tryParts]. set (path' := if (0 <? idx)%nat then _ else _).
  assert (visited idx (part :: parts) path = path' :: visited (S idx) parts path') as ->
    by (by destruct idx, parts).
  cbn [existsb]. unfold subjects at 1. cbn [existsb]. rewrite <- orb_assoc.
  pose proof (tryEntity_settles (User request) path') as K. specialize (IH (S idx) path').
  destruct (sought path' (User request)) eqn:Hu.
  - apply (settles_or true (false || false)); [done|].
    apply settles_or; [apply tryEntities_returns|by eapply settles_less].
  - apply settles_or; [done|]. apply settles_or; [by apply tryEntities_settles|done].
Qed.

Lemma cached_settles c : settles false (tryCached cfg request c).
Proof.
  unfold tryCached. destruct (split ":" c) as [|t [|entity [|r [|x []]]]]; try apply settles_ret.
  destruct (_ || _); [|apply settles_ret]. eapply settles_less, check_settles.
Qed.

Lemma hit_returns b : lasting b -> exists b' c,
  run (if 0 <? CacheSeconds cfg then hit cfg request else ret "") b = (b', Ret c) /\ lasting b'.
Proof.
  intros Hb. destruct (0 <? CacheSeconds cfg); [|by exists b, ""]. unfold hit.
  rewrite run_bind, run_try, run_read_served. exists (arrive b). eexists. split; [done|by apply arrive_lasting].
Qed.

Lemma authorize_settles :
  settles (existsb (fun p => existsb (sought p) (subjects request)) (paths cfg request)) (authorize cfg am request).
Proof.
  intros b Hb. unfold authorize. destruct (hit_returns b Hb) as (b1 & c & E & Hb1). rewrite run_bind, E.
  refine (settles_or false _ _ _ _ _ b1 Hb1).
  { destruct (0 <? String.length c)%nat; [apply cached_settles|apply settles_ret]. }
  unfold paths. destruct (AuthorizeSubpaths cfg); [|apply (tryParts_settles 0)].
  destruct (split "/" (TVal (Resource request))) eqn:ES; [by apply split_ne_nil in ES|].
  exact (tryParts_settles 0 _ "").
Qed.
End Lasting.

(** C9: a permission that lasts lets its owner in, however busy the cluster
    is.  When no call fails, and a permission key of the user or of an
    entity of the request, for one of the paths the check visits, passes at
    the start and after each write of the others, the check returns, and
    answers yes. *)
Theorem authorize_stable e path b :
  (forall n, fails n = false) -> e ∈ subjects request -> path ∈ paths cfg request ->
  granted cfg (bz_store b) (permission_of request e path) = true ->
  (forall n m, granted cfg m (permission_of request e path) = true ->
     granted cfg (others n m) (permission_of request e path) = true) ->
  exists b', run (authorize cfg am request) b = (b', Ret true).
Proof.
  intros served He Hp Hb lasts.
  destruct (authorize_settles served _ lasts b Hb) as (b' & r & E & H). exists b'. rewrite E.
  destruct H as [->|(H & _)]; [done|]. exfalso. apply Bool.not_true_iff_false in H. apply H.
  apply existsb_true. exists path. split; [done|]. apply existsb_true. exists e. split; [done|].
  by apply bool_decide_eq_true.
Qed.
End Authorize.
End Busy.

(** ** Concrete inputs *)

(** Somebody else takes every key away once [k] calls have been served. *)
Definition emptied_after (k n : nat) (m : contents) : contents := if (k <? n)%nat then ∅ else m.

(** The read of the cache fails, and the permission is taken away right
    after the check has seen it. *)
Lemma authorize_has_moment_witness :
  exists b' l m, bz_moments b' = l /\ m ∈ l /\
    justified cfg_sample (request_for "/org" (right 16)) m /\ bz_store b' !! "p:e:staff:d:/org" = None.
Proof.
  pose (b' := (run (authorize (H := busy_NodeHost (emptied_after 4) (fun n => (n =? 0)%nat)) cfg_sample
    (now_sample 5) (request_for "/org" (right 16))) (mkBusy (n_contents node_sample) 0 [])).1).
  destruct (authorize_has_moment (emptied_after 4) (fun n => (n =? 0)%nat) cfg_sample (now_sample 5)
    (request_for "/org" (right 16)) (mkBusy (n_contents node_sample) 0 []) b') as (l & m & E & Hm & J).
  - vm_compute. reflexivity.
  - exists b', l, m. split_and!; [exact E|exact Hm|exact J|]. vm_compute. reflexivity.
Defined.

(** The others write a key of their own before each call. *)
Lemma authorize_stable_witness :
  exists b', run (authorize (H := busy_NodeHost (fun _ m => <["other" := "x"]> m) (fun _ => false)) cfg_sample
    (now_sample 5) (request_for "/org/x" (right 16))) (mkBusy (n_contents node_sample) 0 []) = (b', Ret true).
Proof.
  refine (authorize_stable (fun _ m => <["other" := "x"]> m) (fun _ => false) cfg_sample (now_sample 5)
    (request_for "/org/x" (right 16)) staff "/org" _ _ _ _ _ _).
  - intros n. reflexivity.
  - apply elem_of_cons. right. apply list_elem_of_singleton. reflexivity.
  - vm_compute. apply elem_of_cons. right. apply elem_of_cons. left. reflexivity.
  - vm_compute. reflexivity.
  - intros n m G. unfold granted in *.
    assert (Key (permission_of (request_for "/org/x" (right 16)) staff "/org") <> "other") as K
      by (vm_compute; discriminate).
    rewrite lookup_insert_ne; [exact G|]. intros E. apply K. symmetry. exact E.
Defined.
