(* ===== verification/MaintenanceSpec.v ===== *)
(** * Cleaning the cache: [revoke], [prune] and the life of an entry *)
From S2P Require Import Prelude Bytes Utf8 Json Types Pebble DiskKV DiskKVSpec QuerySpec NodeHost.
From S2P Require Import Permissions PermissionsSpec.
From S2P Require Import PermissionSamples.

(** ** Deleting keys *)

(** A key that is not the one of the applied index. *)
Definition free_key (k : string) : Prop := k <> appliedIndexKey /\ k <> "".

Lemma stamp_free i m k : free_key k -> stamp i m !! k = m !! k.
Proof. intros [Hk _]. unfold stamp. by rewrite lookup_insert_ne by (intros E; by apply Hk). Qed.

(** [m'] is [m] without the keys [ks], as they are written on the wire. *)
Definition removed (ks : list string) (m m' : gmap string string) : Prop :=
  forall k, free_key k -> m' !! k = if decide (k ∈ map sanitize ks) then None else m !! k.

Lemma removed_nil m : removed [] m m.
Proof. intros k _. by rewrite decide_False by apply not_elem_of_nil. Qed.

Lemma removed_app ks1 ks2 m1 m2 m3 :
  removed ks1 m1 m2 -> removed ks2 m2 m3 -> removed (ks1 ++ ks2) m1 m3.
Proof.
  intros A B k Hk. rewrite (B k Hk), (A k Hk), map_app.
  destruct (decide (k ∈ map sanitize ks2)) as [I|N].
  - by rewrite decide_True by (apply elem_of_app; by right).
  - apply decide_ext. rewrite elem_of_app. tauto.
Qed.

Lemma removed_delete i m k : removed [k] m (stamp i (exec m (CData (mkKVData k None)))).
Proof.
  intros j Hj. rewrite (stamp_free i _ j Hj). destruct Hj as [_ Hj]. cbn [map exec Key].
  destruct (decide (k = "")) as [->|Hk].
  - rewrite decide_False; [done|]. change (sanitize "") with "". by rewrite list_elem_of_singleton.
  - unfold write. cbn [Val Key]. destruct (decide (j = sanitize k)) as [->|Hne].
    + rewrite lookup_delete_eq, decide_True; [done|]. by apply list_elem_of_singleton.
    + rewrite lookup_delete_ne by done. by rewrite decide_False by (by rewrite list_elem_of_singleton).
Qed.

(** The fixed-width numbers of the expiry keys are ordered as numbers. *)
Lemma fixed_mod w n : Decimal.fixed w n = Decimal.fixed w (n mod 10 ^ Z.of_nat w).
Proof.
  revert n. induction w as [|w IH]; intros n; [done|]. cbn [Decimal.fixed].
  assert (0 < 10 ^ Z.of_nat w) as Hp by lia.
  assert (10 ^ Z.of_nat (S w) = 10 ^ Z.of_nat w * 10) as Ep by (rewrite Nat2Z.inj_succ, Z.pow_succ_r; lia).
  rewrite Ep. f_equal.
  - do 2 f_equal. rewrite Z.rem_mul_r by lia.
    rewrite (Z.mul_comm (10 ^ Z.of_nat w)), Z.div_add by lia.
    rewrite (Z.div_small (n mod _)) by (apply Z.mod_pos_bound; lia).
    by rewrite Z.add_0_l, Z.mod_mod by lia.
  - rewrite (IH (n mod (10 ^ Z.of_nat w * 10))), (IH n). f_equal. rewrite Z.rem_mul_r by lia.
    rewrite (Z.mul_comm (10 ^ Z.of_nat w)), Z.mod_add by lia. by rewrite Z.mod_mod by lia.
Qed.

Lemma fixed_le w a b s :
  0 <= a < 10 ^ Z.of_nat w -> 0 <= b < 10 ^ Z.of_nat w ->
  String.le (Decimal.fixed w a) (Decimal.fixed w b +:+ s) <-> a <= b.
Proof.
  revert a b. induction w as [|w IH]; intros a b Ha Hb.
  { simpl in *. split; [lia|]. intros _. apply string_le_nil. }
  cbn [Decimal.fixed]. rewrite string_app_cons, string_le_cons.
  rewrite (fixed_mod w a), (fixed_mod w b).
  assert (0 < 10 ^ Z.of_nat w) as Hp by lia. set (p := 10 ^ Z.of_nat w) in *.
  assert (10 ^ Z.of_nat (S w) = 10 * p) as Ep by (subst p; rewrite Nat2Z.inj_succ, Z.pow_succ_r; lia).
  rewrite Ep in Ha, Hb. rewrite IH by (apply Z.mod_pos_bound; lia).
  assert (0 <= a / p < 10 /\ 0 <= b / p < 10) as [Da Db].
  { split; (split; [apply Z.div_pos; lia|apply Z.div_lt_upper_bound; lia]). }
  rewrite !b2z_z2b, !(Z.mod_small (_ / p) 10) by lia. rewrite !(Z.mod_small (48 + _) 256) by lia.
  pose proof (Z.div_mod a p ltac:(lia)) as Ea. pose proof (Z.div_mod b p ltac:(lia)) as Eb.
  pose proof (Z.mod_pos_bound a p Hp). pose proof (Z.mod_pos_bound b p Hp).
  split.
  - intros [L|[E L]]; [nia|]. apply (f_equal b2z) in E. rewrite !b2z_z2b in E.
    rewrite !(Z.mod_small (48 + _) 256) in E by lia. nia.
  - intros L. destruct (Z.lt_trichotomy (a / p) (b / p)) as [C|[C|C]]; [left; lia|right|nia].
    rewrite C. split; [done|]. nia.
Qed.

(** The entries whose time to live has passed at [now]. *)
Definition expired (m : gmap string string) (now : Z) : gmap string string :=
  filter (in_bounds (Some "ttl:") (Some ("ttl:" +:+ Decimal.pad15 now))) m.

(** The times that fill the fifteen digits of an expiry key. *)
Definition timely (t : Z) : Prop := 0 <= t < 10 ^ 15.

Lemma pad15_fixed t : timely t -> Decimal.pad15 t = Decimal.fixed 15 t.
Proof. intros Ht. unfold timely in Ht. unfold Decimal.pad15. by rewrite (proj2 (andb_true_iff _ _)) by lia. Qed.

Lemma pad15_utf8 t : timely t -> valid_utf8 (Decimal.pad15 t) = true.
Proof.
  intros Ht. rewrite pad15_fixed by done. apply ascii_valid. generalize 15%nat as w.
  induction w as [|w IH]; [done|]. cbn [Decimal.fixed all_ascii].
  rewrite IH, b2z_z2b, andb_true_r. pose proof (Z.mod_pos_bound (t / 10 ^ Z.of_nat w) 10).
  rewrite Z.mod_small by lia. lia.
Qed.

Lemma get_ascii s n c : all_ascii s = true -> String.get n s = Some c -> b2z c < 128.
Proof.
  revert n. induction s as [|d s IH]; [done|]. cbn [all_ascii]. intros n [Hd Hs]%andb_true_iff.
  destruct n; cbn [String.get]; [intros [= <-]; lia|by apply IH].
Qed.

Lemma randString_utf8 rnd n : valid_utf8 (randString rnd n) = true.
Proof.
  apply ascii_valid. unfold randString. generalize 0%nat as i.
  induction n as [|n IH]; intros i; [done|]. rewrite randString_cons. cbn [all_ascii].
  rewrite IH, andb_true_r. destruct (String.get (rnd i) letterBytes) as [c|] eqn:E; [|done].
  pose proof (get_ascii letterBytes _ c eq_refl E). simpl. lia.
Qed.

(** An expiry key is in the range exactly when its second has passed. *)
Lemma expired_ttl now t x v :
  timely now -> timely t ->
  in_bounds (Some "ttl:") (Some ("ttl:" +:+ Decimal.pad15 now))
    ("ttl:" +:+ Decimal.pad15 t +:+ ":" +:+ x, v) <-> t < now.
Proof.
  intros Hn Ht. unfold in_bounds. cbn [fst].
  split.
  - intros [_ K]. specialize (K _ eq_refl). rewrite string_le_app_cancel, !pad15_fixed, fixed_le in K by done. lia.
  - intros L. split; intros ? E; apply (inj Some) in E as <-; [apply (string_le_app "ttl:")|].
    rewrite string_le_app_cancel, !pad15_fixed, fixed_le by done. lia.
Qed.

Section Service.
Context {W : Type} `{NodeHostLaws W} (cfg : AppConfig).

(** ** [revoke] and [prune] *)

Lemma run_delete w k :
  nh_ok w ->
  exists w', run (proposeData cfg (mkKVData k None)) w = (w', Ret tt) /\ nh_ok w' /\
    removed [k] (nh_view w) (nh_view w').
Proof.
  intros Hw. destruct (run_proposeData cfg w (mkKVData k None) Hw) as (w' & i & E & Hw' & V).
  exists w'. split_and!; try done. rewrite V. apply removed_delete.
Qed.

Lemma run_revokeItems w items :
  nh_ok w ->
  exists w', run (revokeItems cfg items) w = (w', Ret tt) /\ nh_ok w' /\
    removed items.*1 (nh_view w) (nh_view w').
Proof.
  revert w. induction items as [|[k b] items IH]; intros w Hw.
  { exists w. split_and!; done || apply removed_nil. }
  destruct (run_delete w k Hw) as (w1 & E1 & Hw1 & R1).
  destruct (IH w1 Hw1) as (w2 & E2 & Hw2 & R2).
  exists w2. split_and!; try done.
  - cbn [revokeItems]. by rewrite run_bind, run_try, E1.
  - exact (removed_app [k] _ _ _ _ R1 R2).
Qed.

Lemma run_pruneItems w items :
  nh_ok w ->
  exists w', run (pruneItems cfg items) w = (w', Ret tt) /\ nh_ok w' /\
    removed (items ≫= fun kv => [kv.1; kv.2]) (nh_view w) (nh_view w').
Proof.
  revert w. induction items as [|[k b] items IH]; intros w Hw.
  { exists w. split_and!; done || apply removed_nil. }
  destruct (run_delete w k Hw) as (w1 & E1 & Hw1 & R1).
  destruct (run_delete w1 b Hw1) as (w2 & E2 & Hw2 & R2).
  destruct (IH w2 Hw2) as (w3 & E3 & Hw3 & R3).
  exists w3. split_and!; try done.
  - cbn [pruneItems]. by rewrite run_bind, E1, run_bind, E2.
  - exact (removed_app [k; b] _ _ _ _ (removed_app [k] [b] _ _ _ R1 R2) R3).
Qed.

(** The keys of the store are written on the wire as they are. *)
Lemma sanitize_key w k : nh_ok w -> is_Some (nh_view w !! k) -> sanitize k = k.
Proof. intros Hw [v Hk]. apply sanitize_valid. exact (nh_utf8 w Hw k v Hk). Qed.

(** The keys of an answer, in the order it is ranged over. *)
Lemma listed_keys w (found : gmap string string) order k :
  nh_ok w -> found ⊆ nh_view w -> order found ≡ₚ map_to_list found ->
  k ∈ map sanitize (order found).*1 <-> is_Some (found !! k).
Proof.
  intros Hw Hf Ho. rewrite Ho.
  assert (forall j, is_Some (found !! j) -> sanitize j = j) as K.
  { intros j [v Hj]. apply (sanitize_key w); [done|]. exists v. by eapply lookup_weaken. }
  split.
  - intros (j & -> & (kv & -> & Hj)%list_elem_of_fmap)%list_elem_of_fmap.
    destruct kv as [j v]. apply elem_of_map_to_list in Hj. cbn [fst]. by rewrite K by eauto.
  - intros [v Hv]. apply list_elem_of_fmap. exists k. split; [by rewrite K by eauto|].
    apply list_elem_of_fmap. exists (k, v). split; [done|]. by apply elem_of_map_to_list.
Qed.

Lemma run_revoke w order user :
  nh_ok w -> (forall m, order m ≡ₚ map_to_list m) ->
  exists w', run (revoke cfg order user) w = (w', Ret tt) /\ nh_ok w' /\
    (forall k, free_key k -> nh_view w' !! k =
      if has_prefix ("c:" +:+ sanitize user) k then None else nh_view w !! k) /\
    same_permissions (nh_view w) (nh_view w').
Proof.
  intros Hw Ho.
  destruct (read_action w (cfg_ShardID cfg) SCAN (mkKVData ("c:" +:+ user) None) Hw)
    as (w1 & E1 & Hw1 & V1); [done|].
  set (found := filter (fun kv => has_prefix ("c:" +:+ sanitize user) kv.1 = true) (nh_view w)).
  assert (answer_of (nh_view w) (sanitize SCAN) (sanitize_data (mkKVData ("c:" +:+ user) None)) =
    AMap found) as EA by (unfold answer_of, sanitize_data; cbn [Key Val]; by rewrite sanitize_app).
  rewrite EA in E1. destruct (run_revokeItems w1 (order found) Hw1) as (w2 & E2 & Hw2 & R2).
  assert (forall k, free_key k -> nh_view w2 !! k =
      if has_prefix ("c:" +:+ sanitize user) k then None else nh_view w !! k) as K.
  { intros k Hk. rewrite (R2 k Hk), V1.
    pose proof (listed_keys w found order k Hw (map_filter_subseteq _ _) (Ho found)) as I.
    destruct (has_prefix ("c:" +:+ sanitize user) k) eqn:HP.
    - case_decide as D; [done|]. destruct (nh_view w !! k) as [v|] eqn:HV; [|done].
      destruct D. apply I. exists v. by apply map_lookup_filter_Some_2.
    - rewrite decide_False; [done|]. rewrite I. intros [v [_ Hv]%map_lookup_filter_Some].
      cbn [fst] in Hv. congruence. }
  exists w2. split_and!; try done.
  - unfold revoke. by rewrite run_bind, E1.
  - intros k Hk. apply has_prefix_spec in Hk as [t ->]. by rewrite K.
Qed.


(** What [prune] removes at [now]: the expiry keys of the past and the keys
    they name. *)
Definition overdue (m : gmap string string) (now : Z) (k : string) : Prop :=
  exists e v, expired m now !! e = Some v /\ (k = e \/ k = sanitize v).

Lemma run_prune w am order :
  nh_ok w -> timely (am_now am) -> (forall m, order m ≡ₚ map_to_list m) ->
  exists w', run (prune cfg am order) w = (w', Ret tt) /\ nh_ok w' /\
    forall k, free_key k ->
      (overdue (nh_view w) (am_now am) k -> nh_view w' !! k = None) /\
      (~ overdue (nh_view w) (am_now am) k -> nh_view w' !! k = nh_view w !! k).
Proof.
  intros Hw Ht Ho.
  destruct (read_action w (cfg_ShardID cfg) REVERSE_SCAN
    (mkKVData ("ttl:" +:+ Decimal.pad15 (am_now am)) (Some "ttl:")) Hw) as (w1 & E1 & Hw1 & V1); [done|].
  set (found := expired (nh_view w) (am_now am)).
  assert (answer_of (nh_view w) (sanitize REVERSE_SCAN) (sanitize_data
    (mkKVData ("ttl:" +:+ Decimal.pad15 (am_now am)) (Some "ttl:"))) = AMap found) as EA.
  { unfold answer_of, sanitize_data. cbn [Key Val].
    by rewrite sanitize_app, (sanitize_valid (Decimal.pad15 _)) by (done || by apply pad15_utf8). }
  rewrite EA in E1. destruct (run_pruneItems w1 (order found) Hw1) as (w2 & E2 & Hw2 & R2).
  exists w2. split_and!; [unfold prune; by rewrite run_bind, E1|done|].
  intros k Hk. rewrite (R2 k Hk), V1.
  assert (k ∈ map sanitize (order found ≫= (fun kv => [kv.1; kv.2])) <->
    overdue (nh_view w) (am_now am) k) as I.
  { rewrite list_elem_of_fmap. split.
    - intros (j & -> & ([e v] & Hj & Hev)%list_elem_of_bind). rewrite Ho in Hev.
      apply elem_of_map_to_list in Hev. exists e, v. split; [done|]. cbn [fst snd] in Hj.
      apply elem_of_cons in Hj as [->|Hj%list_elem_of_singleton]; [left|right; by subst].
      apply (sanitize_key w); [done|]. exists v. by apply map_lookup_filter_Some in Hev as [? _].
    - intros (e & v & Hev & Hj). exists (if decide (k = e) then e else v).
      assert (sanitize e = e) as Ee.
      { apply (sanitize_key w); [done|]. exists v. by apply map_lookup_filter_Some in Hev as [? _]. }
      split; [case_decide; [by subst|]; by destruct Hj|]. apply list_elem_of_bind. exists (e, v).
      split; [|rewrite Ho; by apply elem_of_map_to_list]. case_decide; set_solver. }
  destruct (decide (k ∈ _)); split; tauto.
Qed.

(** [prune] removes exactly the expiry keys whose second has passed and
    the keys they name, in whatever order the answer is ranged over. *)
Theorem prune_exact w am order :
  nh_ok w -> timely (am_now am) -> (forall m, order m ≡ₚ map_to_list m) ->
  exists w', run (prune cfg am order) w = (w', Ret tt) /\ nh_ok w' /\
    forall k, free_key k ->
      (overdue (nh_view w) (am_now am) k -> nh_view w' !! k = None) /\
      (~ overdue (nh_view w) (am_now am) k -> nh_view w' !! k = nh_view w !! k).
Proof. apply run_prune. Qed.

(** ** Expiry *)

Lemma cache_key_free request : free_key (getCacheKey request).
Proof. by destruct (cache_key_prefix request) as [t ->]. Qed.

(** A stored cache entry and its expiry key. *)
Lemma cached_entries w am request e context :
  nh_ok w -> 1 < CacheSeconds cfg -> timely (am_now am + CacheSeconds cfg) ->
  valid_utf8 (getCacheKey request) = true ->
  exists w', run (cache cfg am request e context) w = (w', Ret tt) /\ nh_ok w' /\
    nh_view w' !! getCacheKey request = Some (cacheValue request e context) /\
    nh_view w' !! ttlKey cfg am = Some (getCacheKey request) /\
    forall k, free_key k -> k <> getCacheKey request -> k <> ttlKey cfg am ->
      nh_view w' !! k = nh_view w !! k.
Proof.
  intros Hw Hc Ht Hv. destruct (run_cache_view cfg w am request e context Hw Hc)
    as (w' & i & j & E & Hw' & V). destruct (cache_key_prefix request) as [t Et].
  assert (sanitize (ttlKey cfg am) = ttlKey cfg am) as Es.
  { apply sanitize_valid. unfold ttlKey. apply valid_app; [done|].
    apply valid_app; [by apply pad15_utf8|]. apply valid_app; [done|]. apply randString_utf8. }
  assert (free_key (ttlKey cfg am)) as Hf by done. pose proof (cache_key_free request) as Hf'.
  assert (ttlKey cfg am <> getCacheKey request) as Hne by (by rewrite Et).
  exists w'. rewrite V. split_and!; [done..| | |].
  all: intros; rewrite stamp_free by done; rewrite exec_put by done; unfold write; cbn [Val Key];
    rewrite Es.
  - rewrite lookup_insert_ne by done. rewrite stamp_free by done.
    rewrite exec_put by apply Hf'. unfold write. cbn [Val Key].
    by rewrite sanitize_valid, lookup_insert_eq by done.
  - by rewrite lookup_insert_eq.
  - rewrite lookup_insert_ne by done. rewrite stamp_free by done.
    rewrite exec_put by apply Hf'. unfold write. cbn [Val Key].
    by rewrite sanitize_valid, lookup_insert_ne by done.
Qed.

End Service.

(** ** Witnesses *)


Lemma prune_exact_witness :
  exists w', run (prune cfg_sample (now_sample 5) map_to_list) node_sample = (w', Ret tt) /\
    nh_ok w' /\ forall k, free_key k ->
      (overdue (n_contents node_sample) 5 k -> nh_view w' !! k = None) /\
      (~ overdue (n_contents node_sample) 5 k -> nh_view w' !! k = n_contents node_sample !! k).
Proof.
  refine (prune_exact cfg_sample node_sample (now_sample 5) map_to_list node_sample_ok _
    map_to_list_order).
  unfold timely. simpl. lia.
Defined.

