(* ===== verification/Http.v ===== *)
(** * Responses of [net/http]

    A response writer holds the headers set so far; the status and the
    headers it had are fixed by the first [WriteHeader], or by the first
    [Write], which implies status 200.  Setting a header later changes
    nothing of what the client sees. *)
From S2P Require Import Prelude.

Definition StatusOK : Z := 200.
Definition StatusBadRequest : Z := 400.
Definition StatusForbidden : Z := 403.
Definition StatusTooManyRequests : Z := 429.
Definition StatusServiceUnavailable : Z := 503.

Definition upper (c : ascii) : ascii :=
  if (97 <=? b2z c) && (b2z c <=? 122) then z2b (b2z c - 32) else c.
Definition lower (c : ascii) : ascii :=
  if (65 <=? b2z c) && (b2z c <=? 90) then z2b (b2z c + 32) else c.

(** The canonical form of a header name of letters and dashes. *)
Fixpoint canonical_from (first : bool) (s : string) : string :=
  match s with
  | "" => ""
  | String c s => String (if first then upper c else lower c) (canonical_from (bool_decide (c = "-"%char)) s)
  end.
Definition CanonicalHeaderKey : string -> string := canonical_from true.

Record response := mkResponse {
  r_header : gmap string string;
  r_sent : option (Z * gmap string string);
  r_body : string }.

Definition new_response : response := mkResponse ∅ None "".

Definition Header_Set (k v : string) (r : response) : response :=
  mkResponse (<[CanonicalHeaderKey k := v]> (r_header r)) (r_sent r) (r_body r).

Definition WriteHeader (code : Z) (r : response) : response :=
  match r_sent r with
  | None => mkResponse (r_header r) (Some (code, r_header r)) (r_body r)
  | Some _ => r
  end.

Definition Write (b : string) (r : response) : response :=
  let r := WriteHeader StatusOK r in
  mkResponse (r_header r) (r_sent r) (r_body r +:+ b).

(** [http.Error(w, msg, code)] *)
Definition Error (msg : string) (code : Z) (r : response) : response :=
  let r := Header_Set "Content-Type" "text/plain; charset=utf-8" r in
  let r := Header_Set "X-Content-Type-Options" "nosniff" r in
  Write (msg +:+ String (z2b 10) "") (WriteHeader code r).

(** The status the client sees; a handler that returns without writing
    anything sends 200. *)
Definition status (r : response) : Z :=
  match r_sent r with Some (code, _) => code | None => StatusOK end.

(** The headers the client sees. *)
Definition sent_header (k : string) (r : response) : option string :=
  match r_sent r with
  | Some (_, h) => h !! CanonicalHeaderKey k
  | None => r_header r !! CanonicalHeaderKey k
  end.
