(* ===== verification/KvService.v ===== *)
(** * The service over the cluster: [execute] of [roo/kv.go]

    Reads and writes of [KVAction]s through the node host; the other
    methods of the [session] interface are stubs. *)
From S2P Require Import Prelude Bytes Utf8 Json Types Pebble DiskKV NodeHost Permissions.

(** What [execute] returns as an [interface{}]: the answer of a read or the
    result of a proposal. *)
Inductive executed := Read (a : answer) | Proposed (n : Z).

(** [result.([]byte)] and [result.(map[string][]byte)] *)
Definition as_bytes {S} (x : executed) : io S slice :=
  match x with
  | Read (ABytes b) => ret b
  | _ => panic "interface conversion"
  end.
Definition as_map {S} (x : executed) : io S (gmap string string) :=
  match x with
  | Read (AMap m) => ret m
  | _ => panic "interface conversion"
  end.

Section Execute.
Context {W : Type} `{NodeHost W} (AppConfig : AppConfig).
Abbreviation shard := (cfg_ShardID AppConfig).

Definition execute (action : KVAction) : io W executed :=
  match Data action with
  | None => fail (ErrorString ("Key missing " +:+ Action action))
  | Some data =>
      if decide (Action action = SCAN) then
        let* result := SyncRead shard (QAction action) in ret (Read result)
      else if decide (Action action = GET) then
        let* result := SyncRead shard (QAction action) in ret (Read result)
      else if decide (Action action = PUT) then
        if decide (Key data = "") then fail (ErrorString ("Key missing " +:+ Action action))
        else
          let* n := SyncPropose shard (MarshalKVAction action) in ret (Proposed n)
      else fail (ErrorString ("Method not implemented (execute) in kv " +:+ Action action))
  end.
End Execute.

Section Stubs.
Context {W : Type}.

Definition close_session : io W unit := fail (ErrorString "[ERROR] KV close not implemented").
Definition listen : io W unit := fail (ErrorString "[ERROR] KV listen not implemented").
Definition auth : io W unit := fail (ErrorString "[ERROR] KV auth not implemented").
Definition write_session : io W unit :=
  fail (ErrorString "Could not write to any kv server in cluster").
End Stubs.
