(* ===== verification/Routes.v ===== *)
(** * Routes of the proxy: [roo/docker.go] and [roo/kvdocker.go]

    A route maps an origin (scheme, host, port) to a destination.  The
    labels of the tasks of a Docker swarm give the routes; they are stored
    in the cluster under [GetKey] with the value [GetValue].  The Docker
    client is a parameter. *)
From S2P Require Import Prelude Bytes Utf8 Json Types Pebble DiskKV NodeHost Permissions.
From S2P Require Import KvService.

Definition HOST_PREFIX : string := "com.roo.host:".
Definition PEER_PREFIX : string := "com.roo.peer:".
Definition NODE_POSTFIX : string := ":node".
Definition SWARM_MANAGER_PREFIX : string := "com.roo.swarm.manager:".
Definition SWARM_WORKER_PREFIX : string := "com.roo.swarm.worker:".
Definition CACHE_PREFIX : string := "com.roo.cache:".
Definition KV_PORT : string := ":6300".
Definition API_PORT : string := ":6299".
Definition BOOTSTRAP_WAIT_S : Z := 60.

Record Route := mkRoute {
  OriginScheme : string; OriginHost : string; OriginPort : string;
  DestinationScheme : string; DestinationHost : string; DestinationPort : string }.

(** [GetKey] works on a copy of the route, whose scheme and port it sets. *)
Definition GetKey (rt : Route) : string :=
  let key := HOST_PREFIX +:+ OriginHost rt in
  let scheme := if decide (OriginScheme rt = "") then "https" else OriginScheme rt in
  let port :=
    if bool_decide (scheme = "http") &&
       (bool_decide (OriginPort rt = "80") || bool_decide (OriginPort rt = ":http"))
    then "" else OriginPort rt in
  let port :=
    if bool_decide (scheme = "https") &&
       (bool_decide (port = "443") || bool_decide (port = ":https"))
    then "" else port in
  let key := if (0 <? String.length port)%nat then key +:+ ":" +:+ port else key in
  if (String.length scheme =? 0)%nat then key +:+ ":https" else key +:+ ":" +:+ scheme.

Definition GetValue (rt : Route) : string :=
  let scheme := if (String.length (DestinationScheme rt) =? 0)%nat then "http"
                else DestinationScheme rt in
  scheme +:+ "://" +:+ DestinationHost rt +:+ ":" +:+ DestinationPort rt.

(** The key under which [Proxy] of [roo/proxy.go] looks a request up. *)
Definition requestKey (tls : bool) (host : string) : string :=
  HOST_PREFIX +:+ host +:+ (if tls then ":https" else ":http").

(** ** The swarm *)

(** A task, with the labels of its container; some tasks have none. *)
Record Task := mkTask { ContainerSpec : option (gmap string string) }.

(** What is used of the Docker client. *)
Class Docker (W : Type) := {
  NewClientWithOpts : io W unit;
  TaskList : io W (list Task);
}.

Definition label (labels : gmap string string) (k : string) : string := default "" (labels !! k).

(** The body of the loop over the hosts of a task. *)
Definition hostRoutes (labels : gmap string string) (host : string) : list Route :=
  let host := TrimSpace host in
  if decide (host = "") then []
  else
    let route := mkRoute (label labels "OriginScheme") host (label labels "OriginPort")
      (label labels "DestinationScheme") (label labels "DestinationHost")
      (label labels "DestinationPort") in
    if bool_decide (OriginHost route = "") || bool_decide (DestinationHost route = "") ||
       bool_decide (DestinationPort route = "")
    then [] else [route].

Definition taskHosts (labels : gmap string string) : list string :=
  split "," (label labels "OriginHosts") ++ [label labels "OriginHost"].

Fixpoint taskRoutes (tasks : list Task) : go (list Route) :=
  match tasks with
  | [] => Ret []
  | task :: tasks =>
      match ContainerSpec task with
      | None => Panic "nil pointer dereference"
      | Some labels =>
          let? rest := taskRoutes tasks in
          Ret ((taskHosts labels ≫= hostRoutes labels) ++ rest)
      end
  end.

Section Swarm.
Context {W : Type} `{NodeHost W, Docker W} (AppConfig : AppConfig).

Definition GetDockerRoutes : io W (list Route) :=
  let* r := try NewClientWithOpts in
  match r with
  | inl _ => fail (ErrorString "Couldn't connect to docker socket")
  | inr _ =>
      let* r := try TaskList in
      match r with
      | inl _ => fail (ErrorString "[WARNING] Error loading swarm tasks")
      | inr tasks => lift (taskRoutes tasks)
      end
  end.

Definition routeAction (rt : Route) : KVAction :=
  mkKVAction PUT (Some (mkKVData (GetKey rt) (Some (GetValue rt)))).

(** The goroutine that writes the routes: failures are logged. *)
Fixpoint writeRoutes (actions : list KVAction) : io W unit :=
  match actions with
  | [] => ret tt
  | action :: actions =>
      let* _ := try (execute AppConfig action) in
      writeRoutes actions
  end.

(** The returned error, and the actions given to the goroutine. *)
Definition updateFromSwarm (updateRole : bool) : io W (option goerror * list KVAction) :=
  let* r := try GetDockerRoutes in
  let* _ :=
    if updateRole then
      let rolePrefix := match r with inr _ => SWARM_MANAGER_PREFIX | inl _ => SWARM_WORKER_PREFIX end in
      let* _ := try (execute AppConfig
        (mkKVAction PUT (Some (mkKVData (rolePrefix +:+ cfg_Binding AppConfig) (Some ""))))) in
      ret tt
    else ret tt in
  ret (match r with
       | inr routes => (None, map routeAction routes)
       | inl e => (Some e, [])
       end).
End Swarm.
