(* ===== verification/Serve.v ===== *)
(** * Requests of the API: [serve] of [roo/kv.go]

    The handler works on the node, on the response being written and on the
    goroutines it has started.  What [ioutil.ReadAll] makes of the request
    body, and the clock and random numbers of [authorize], are arguments.
    The texts of errors of the JSON reader are left out. *)
From S2P Require Import Prelude Bytes Utf8 Json Types Pebble DiskKV NodeHost Permissions.
From S2P Require Import KvService Routes.
From S2P Require Import Http.

Definition SERVE_GET_PING : Z := 1.
Definition SERVE_GET_KV : Z := 1.
Definition SERVE_PUT_KV : Z := 2.
Definition SERVE_GET_KVS : Z := 3.
Definition SERVE_POST_JOIN : Z := 4.
Definition SERVE_POST_SWARM : Z := 5.
Definition SERVE_POST_REMOVE : Z := 6.
Definition SERVE_POST_RESCUE : Z := 7.
Definition SERVE_POST_PERM : Z := 8.
Definition SERVE_PUT_PERM : Z := 9.
Definition SERVE_DELETE_PERM : Z := 10.

(** [Values] is a pointer to a map. *)
Record ServiceArgs := mkServiceArgs { ServiceType : Z; Values : option (gmap string string) }.

(** The body of a request, or the error of reading it. *)
Abbreviation request_body := (goerror + string)%type.

(** The state of a handler. *)
Record handling (W : Type) := mkHandling {
  h_node : W;
  h_response : response;
  h_spawned : list (list KVAction) }.
Arguments mkHandling {W} _ _ _.
Arguments h_node {W} _.
Arguments h_response {W} _.
Arguments h_spawned {W} _.

(** [json.Marshal] of an answer, and of the two replies. *)
Definition enc_answer (a : answer) : json :=
  match a with
  | ABytes b => enc_bytes b
  | AMap m => JObj (map (fun '(k, v) => (k, enc_bytes (Some v))) (sorted_entries m))
  end.
Definition MarshalOk : string := print (JObj [("ok", JBool true)]).
Definition MarshalResults (query : string) (a : answer) : string :=
  print (JObj [("query", JStr query); ("results", enc_answer a)]).

Section Serve.
Context {W : Type} `{NodeHost W, Docker W} (AppConfig : AppConfig) (am : ambient).
Abbreviation M := (io (handling W)).

Definition on_node {A} (m : io W A) : M A :=
  zoom h_node (fun w h => mkHandling w (h_response h) (h_spawned h)) m.
Definition respond (f : response -> response) : M unit :=
  modify (fun h => mkHandling (h_node h) (f (h_response h)) (h_spawned h)).
Definition spawn (actions : list KVAction) : M unit :=
  modify (fun h => mkHandling (h_node h) (h_response h) (h_spawned h ++ [actions])).

(** [if err != nil { return fmt.Errorf(prefix, err) }] *)
Definition or_fail {A} (prefix : string) (m : M A) : M A :=
  let* r := try m in
  match r with
  | inl e => fail (ErrorWrap prefix e)
  | inr a => ret a
  end.

Definition ReadAll (body : request_body) : M string := lift (go_of_sum body).

(** [( *s.Values)[k]] *)
Definition value_of (s : ServiceArgs) (k : string) : M string :=
  match Values s with
  | None => panic "nil pointer dereference"
  | Some values => ret (default "" (values !! k))
  end.

Definition servePostPerm (body : request_body) : M unit :=
  let* data := or_fail "Could not parse body" (ReadAll body) in
  let '(pRequest, ok) := Unmarshal (dec_ptr zeroRequest dec_Request) (Some zeroRequest) data in
  if negb ok then fail (ErrorString "Could not parse object")
  else match pRequest with
  | None => panic "nil pointer dereference"
  | Some request =>
      let* ok := or_fail "Could not authorize" (on_node (authorize AppConfig am request)) in
      if ok : bool then respond (WriteHeader StatusOK) else respond (WriteHeader StatusForbidden)
  end.

Definition serveGetKv (s : ServiceArgs) : M unit :=
  let* key := value_of s "key" in
  let* result := or_fail "Could not get key in cluster"
    (on_node (execute AppConfig (mkKVAction GET (Some (mkKVData key None))))) in
  let* _ := respond (WriteHeader StatusOK) in
  let* b := as_bytes result in
  respond (Write (slice_bytes b)).

Definition servePutPerm (body : request_body) : M unit :=
  let* data := or_fail "Could not parse body" (ReadAll body) in
  let '(perms, ok) := Unmarshal
    (dec_ptr None (dec_slice zeroPermission dec_Permission)) (Some (Some [])) data in
  if negb ok then fail (ErrorString "Could not parse object")
  else match perms with
  | None => panic "nil pointer dereference"
  | Some perms =>
      let* _ := or_fail "Could not set permission"
        (on_node (permiss AppConfig (default [] perms))) in
      respond (WriteHeader StatusOK)
  end.

Definition serveDeletePerm (order : gmap string string -> list (string * string)) (s : ServiceArgs)
    : M unit :=
  let* user := value_of s "user" in
  if (0 <? String.length user)%nat then
    let* _ := or_fail "Could not remove user" (on_node (revoke AppConfig order user)) in
    respond (WriteHeader StatusOK)
  else fail (ErrorString "Could not delete empty user").

Definition servePutKv (s : ServiceArgs) (body : request_body) : M unit :=
  let* r := try (ReadAll body) in
  match r with
  | inl _ => fail (ErrorString "Could not read posted value")
  | inr data =>
      let* key := value_of s "key" in
      let* _ := or_fail "Could not write key to cluster"
        (on_node (execute AppConfig (mkKVAction PUT (Some (mkKVData key (Some data)))))) in
      let* _ := respond (Header_Set "Content-Type" "application/json") in
      let* _ := respond (WriteHeader StatusOK) in
      respond (Write MarshalOk)
  end.

(** The key of a scan without its leading slash. *)
Definition scanKey (key : string) : string :=
  match key with
  | String "/" rest => rest
  | _ => key
  end.

Definition serveGetKvs (s : ServiceArgs) : M unit :=
  let* key := value_of s "key" in
  let key := scanKey key in
  let* result := or_fail "Could not scan cluster"
    (on_node (execute AppConfig (mkKVAction SCAN (Some (mkKVData key None))))) in
  let json := match result with
              | Read a => MarshalResults key a
              | Proposed n => print (JObj [("query", JStr key); ("results", JNum (Decimal.FormatUint n))])
              end in
  let* _ := respond (Header_Set "Content-Type" "application/json") in
  let* _ := respond (WriteHeader StatusOK) in
  respond (Write json).

Definition servePostSwarm : M unit :=
  let* r := on_node (updateFromSwarm AppConfig false) in
  match r with
  | (Some e, _) => fail e
  | (None, actions) =>
      let* _ := spawn actions in
      let* _ := respond (WriteHeader StatusOK) in
      respond (Write "")
  end.

(** [PEER_PREFIX + cs.Binding + NODE_POSTFIX] *)
Definition peerKey (binding : string) : string := PEER_PREFIX +:+ binding +:+ NODE_POSTFIX.

(** The removal of an older replica of the joining node. *)
Definition removeOld (cs : ClusterStatus) (nodestring : string) : M unit :=
  let* r := try (on_node
    (execute AppConfig (mkKVAction GET (Some (mkKVData (peerKey (Binding cs)) None))))) in
  match r with
  | inl _ => ret tt
  | inr result =>
      let* b := as_bytes result in
      if decide (slice_bytes b = nodestring) then ret tt
      else match ParseUint (slice_bytes b) with
           | Some oldnode => on_node (RequestDeleteReplica (ShardID cs) oldnode)
           | None => ret tt
           end
  end.

Definition servePostJoin (body : request_body) : M unit :=
  let* r := try (ReadAll body) in
  match r with
  | inl _ => fail (ErrorString "Bad JS (body)")
  | inr data =>
      if (0 <? String.length data)%nat then
        let '(cs, ok) := Unmarshal dec_ClusterStatus zeroClusterStatus data in
        if negb ok then fail (ErrorString "Bad request (data)")
        else
          let nodestring := Decimal.FormatUint (ReplicaID cs) in
          let* _ := removeOld cs nodestring in
          let* rs := try (on_node
            (RequestAddReplica (ShardID cs) (ReplicaID cs) (Binding cs +:+ KV_PORT))) in
          match rs with
          | inl _ => panic "nil pointer dereference"
          | inr true =>
              let* _ := on_node (execute AppConfig (mkKVAction PUT
                (Some (mkKVData (peerKey (Binding cs)) (Some nodestring))))) in
              respond (WriteHeader StatusOK)
          | inr false => fail (ErrorString "Membership add failed")
          end
      else fail (ErrorString "Bad request (body)")
  end.

Definition serve (order : gmap string string -> list (string * string)) (s : ServiceArgs)
    (body : request_body) : M unit :=
  if ServiceType s =? SERVE_POST_PERM then servePostPerm body
  else if ServiceType s =? SERVE_GET_KV then serveGetKv s
  else if ServiceType s =? SERVE_PUT_PERM then servePutPerm body
  else if ServiceType s =? SERVE_DELETE_PERM then serveDeletePerm order s
  else if ServiceType s =? SERVE_PUT_KV then servePutKv s body
  else if ServiceType s =? SERVE_GET_KVS then serveGetKvs s
  else if ServiceType s =? SERVE_POST_REMOVE then fail (ErrorString "Remove not implemented")
  else if ServiceType s =? SERVE_POST_RESCUE then fail (ErrorString "Rescue not implemented")
  else if ServiceType s =? SERVE_POST_SWARM then servePostSwarm
  else if ServiceType s =? SERVE_POST_JOIN then servePostJoin body
  else fail (ErrorString "[ERROR] KV service not implemented").
End Serve.
