(* ===== verification/ServeSpec.v ===== *)
(** * What the requests of the API do

    Over a healthy cluster ([NodeHostLaws]): a value that was put is what
    is got, a scan answers the entries in JSON, a permission check answers
    200 or 403, a node that joins is registered. *)
From S2P Require Import Prelude Bytes Utf8 Json Types Pebble DiskKV DiskKVSpec QuerySpec NodeHost.
From S2P Require Import Permissions PermissionSamples PermissionsSpec AuthorizeSpec.
From S2P Require Import MaintenanceSpec.
From S2P Require Import KvService Routes Http Serve.

(** ** Steps of a handler *)

Section Steps.
Context {W : Type}.
Abbreviation M := (io (handling W)).

Lemma run_on_node {A} (m : io W A) w r g :
  run (on_node m) (mkHandling w r g) =
  let '(w', x) := run m w in (mkHandling w' r g, x).
Proof. unfold on_node. by rewrite run_zoom. Qed.

Lemma run_respond f w r g :
  run (respond f) (mkHandling (W := W) w r g) = (mkHandling w (f r) g, Ret tt).
Proof. unfold respond. by rewrite run_modify. Qed.

Lemma run_or_fail {A} prefix (m : M A) h :
  run (or_fail prefix m) h =
  match run m h with
  | (h', Ret a) => (h', Ret a)
  | (h', Err e) => (h', Err (ErrorWrap prefix e))
  | (h', Panic p) => (h', Panic p)
  end.
Proof. unfold or_fail. rewrite run_bind, run_try. by destruct (run m h) as [h' [a|e|p]]. Qed.

(** The arguments of a request with one variable in its path. *)
Definition for_var (name : string) (service : Z) (x : string) : ServiceArgs :=
  mkServiceArgs service (Some {[name := x]}).

Lemma run_value_of name n x (h : handling W) :
  run (value_of (for_var name n x) name) h = (h, Ret x).
Proof. unfold value_of, for_var. cbn [Values]. by rewrite lookup_singleton_eq. Qed.

Lemma run_body data (h : handling W) : run (ReadAll (inr data)) h = (h, Ret data).
Proof. done. Qed.
End Steps.

#[export] Hint Rewrite @run_on_node @run_respond @run_or_fail @run_value_of @run_body : go_run.
Abbreviation for_key := (for_var "key").

(** ** [execute] *)

Section Service.
Context {W : Type} `{NodeHostLaws W, Docker W} (cfg : AppConfig) (am : ambient)
  (order : gmap string string -> list (string * string)).

Lemma run_execute_read w a d :
  nh_ok w -> a = GET \/ a = SCAN ->
  exists w', run (execute cfg (mkKVAction a (Some d))) w =
      (w', Ret (Read (answer_of (nh_view w) a d))) /\ nh_ok w' /\ nh_view w' = nh_view w.
Proof.
  intros Hw Ha. destruct (nh_read w (cfg_ShardID cfg) (QAction (mkKVAction a (Some d)))
    (answer_of (nh_view w) a d) Hw eq_refl) as (w' & E & Hw' & V).
  exists w'. split; [|done]. unfold execute. cbn [Data Action].
  destruct Ha as [-> | ->]; [rewrite decide_False by done|]; rewrite decide_True by done;
    by rewrite run_bind, E.
Qed.

Lemma run_execute_put w d :
  nh_ok w -> Key d <> "" ->
  exists w' i n, run (execute cfg (mkKVAction PUT (Some d))) w = (w', Ret (Proposed n)) /\
    nh_ok w' /\ nh_view w' = stamp i (write (nh_view w) d).
Proof.
  intros Hw Hk. destruct (propose_command w (cfg_ShardID cfg) (CAction PUT d) Hw)
    as (w' & i & n & E & Hw' & V).
  exists w', i, n. split_and!; [|done|].
  - unfold execute. cbn [Data Action]. rewrite !decide_False by done. rewrite decide_True by done.
    rewrite decide_False by done. rewrite run_bind. simpl encode in E. by rewrite E.
  - rewrite V. simpl. by rewrite decide_False.
Qed.

(** ** Keys and values *)

Lemma run_putKv w r g key data :
  nh_ok w -> key <> "" ->
  exists w' i, run (serve cfg am order (for_key SERVE_PUT_KV key) (inr data)) (mkHandling w r g) =
      (mkHandling w' (Write MarshalOk (WriteHeader StatusOK
         (Header_Set "Content-Type" "application/json" r))) g, Ret tt) /\
    nh_ok w' /\ nh_view w' = stamp i (write (nh_view w) (mkKVData key (Some data))).
Proof.
  intros Hw Hk. destruct (run_execute_put w (mkKVData key (Some data)) Hw Hk)
    as (w' & i & n & E & Hw' & V).
  exists w', i. split; [|done].
  change (serve cfg am order (for_key SERVE_PUT_KV key) (inr data)) with
    (servePutKv (W := W) cfg (for_key SERVE_PUT_KV key) (inr data)).
  unfold servePutKv. do 3 go_step. rewrite E. by do 3 go_step.
Qed.

Lemma run_getKv w r g key :
  nh_ok w ->
  exists w', run (serve cfg am order (for_key SERVE_GET_KV key) (inr "")) (mkHandling w r g) =
      (mkHandling w' (Write (slice_bytes (nh_view w !! key)) (WriteHeader StatusOK r)) g, Ret tt) /\
    nh_ok w' /\ nh_view w' = nh_view w.
Proof.
  intros Hw. destruct (run_execute_read w GET (mkKVData key None) Hw) as (w' & E & Hw' & V);
    [by left|].
  exists w'. split; [|done].
  change (serve cfg am order (for_key SERVE_GET_KV key) (inr "")) with
    (serveGetKv (W := W) cfg (for_key SERVE_GET_KV key)).
  unfold serveGetKv. do 3 go_step. rewrite E. by do 3 go_step.
Qed.

(** A value put under a key is answered [{"ok":true}], and the next
    request for the key answers the value, byte for byte. *)
Theorem serve_put_get w key data :
  nh_ok w -> key <> "" -> valid_utf8 key = true -> key <> appliedIndexKey ->
  exists w1 w2 r1 r2,
    run (serve cfg am order (for_key SERVE_PUT_KV key) (inr data)) (mkHandling w new_response []) =
      (mkHandling w1 r1 [], Ret tt) /\
    status r1 = StatusOK /\ sent_header "Content-Type" r1 = Some "application/json" /\
    parse (r_body r1) = Some (JObj [("ok", JBool true)]) /\
    run (serve cfg am order (for_key SERVE_GET_KV key) (inr "")) (mkHandling w1 new_response []) =
      (mkHandling w2 r2 [], Ret tt) /\
    status r2 = StatusOK /\ r_body r2 = data.
Proof.
  intros Hw Hk Hv Ha. destruct (run_putKv w new_response [] key data Hw Hk)
    as (w1 & i & E1 & Hw1 & V1).
  destruct (run_getKv w1 new_response [] key Hw1) as (w2 & E2 & Hw2 & V2).
  exists w1, w2. do 2 eexists. split_and!; [exact E1|done..|exact E2|done|].
  rewrite V1. unfold stamp. rewrite lookup_insert_ne by done. unfold write. cbn [Val Key].
  rewrite sanitize_valid by done. rewrite lookup_insert_eq. done.
Qed.

(** ** Scans *)

(** The entries of [m] as the members of a JSON object, sorted by key. *)
Definition members_of (m : gmap string string) : list (string * json) :=
  map (fun '(k, v) => (k, JStr (Base64.encode v))) (sorted_entries m).

Lemma enc_answer_ok m :
  plain_numbers (enc_answer (AMap m)) = true /\ depth (enc_answer (AMap m)) = 1.
Proof.
  cbn [enc_answer plain_numbers depth]. induction (sorted_entries m) as [|[k v] l [IH1 IH2]]; [done|].
  split; [done|]. simpl in IH2 |- *. lia.
Qed.

Lemma clean_answer m : utf8_keys m -> Json.clean (enc_answer (AMap m)) = JObj (members_of m).
Proof.
  intros Hm. cbn [enc_answer Json.clean]. f_equal. rewrite map_map. apply map_ext_in.
  intros [k v] Hk%list_elem_of_In%elem_of_sorted_entries. cbn [enc_bytes Json.clean].
  by rewrite sanitize_base64, (sanitize_valid k (Hm k v Hk)).
Qed.

Lemma parse_results query m :
  utf8_keys m ->
  parse (MarshalResults query (AMap m)) =
  Some (JObj [("query", JStr (sanitize query)); ("results", JObj (members_of m))]).
Proof.
  intros Hm. destruct (enc_answer_ok m) as [N D]. unfold MarshalResults. rewrite parse_print.
  - cbn [Json.clean map]. by rewrite <- clean_answer.
  - cbn [plain_numbers forallb]. by rewrite N.
  - cbn [depth map foldr]. unfold maxNestingDepth. rewrite D. lia.
Qed.

(** A scan over HTTP drops one leading slash of the key and answers a
    JSON object with the query and, in the order of their keys, exactly
    the entries whose key starts with it, the values in base64. *)
Theorem serve_scan w key :
  nh_ok w ->
  exists w' r,
    run (serve cfg am order (for_key SERVE_GET_KVS key) (inr "")) (mkHandling w new_response []) =
      (mkHandling w' r [], Ret tt) /\
    nh_ok w' /\ nh_view w' = nh_view w /\ status r = StatusOK /\
    parse (r_body r) = Some (JObj
      [("query", JStr (sanitize (scanKey key)));
       ("results", JObj (members_of
          (filter (fun kv => has_prefix (scanKey key) kv.1 = true) (nh_view w))))]).
Proof.
  intros Hw. destruct (run_execute_read w SCAN (mkKVData (scanKey key) None) Hw)
    as (w' & E & Hw' & V); [by right|].
  exists w'. eexists. split_and!; [|done|done| |].
  - change (serve cfg am order (for_key SERVE_GET_KVS key) (inr "")) with
      (serveGetKvs (W := W) cfg (for_key SERVE_GET_KVS key)).
    unfold serveGetKvs. do 3 go_step. rewrite E. do 3 go_step. reflexivity.
  - done.
  - cbn [r_body Write WriteHeader Header_Set]. unfold answer_of. rewrite decide_True by done.
    cbn [Key]. apply parse_results.
    intros k v [Hk _]%map_lookup_filter_Some. exact (nh_utf8 w Hw k v Hk).
Qed.

(** ** Permissions *)

Lemma run_postPerm w r g body request :
  nh_ok w -> Unmarshal (dec_ptr zeroRequest dec_Request) (Some zeroRequest) body = (Some request, true) ->
  exists w', run (servePostPerm cfg am (inr body)) (mkHandling w r g) =
    (mkHandling w' (WriteHeader
       (if (if 0 <? CacheSeconds cfg then cached_decision cfg (nh_view w) request else false)
           || decision cfg (nh_view w) request
        then StatusOK else StatusForbidden) r) g, Ret tt) /\ nh_ok w' /\
    same_permissions (nh_view w) (nh_view w').
Proof.
  intros Hw EU. destruct (run_authorize cfg w am request Hw) as (w' & E & Hw' & S').
  exists w'. split; [|done]. unfold servePostPerm. do 3 go_step. rewrite EU. cbn [negb].
  do 3 go_step. rewrite E. by destruct (_ || _).
Qed.

(** A permission check answers 200 with an empty body when the request
    is allowed, and 403 when it is not; a body that is no request is an
    error, and [null] brings the handler down. *)
Theorem serve_check w body :
  nh_ok w ->
  (forall request,
     Unmarshal (dec_ptr zeroRequest dec_Request) (Some zeroRequest) body = (Some request, true) ->
     truthful cfg (nh_view w) request ->
     exists w' r, run (serve cfg am order (mkServiceArgs SERVE_POST_PERM None) (inr body))
         (mkHandling w new_response []) = (mkHandling w' r [], Ret tt) /\
       r_body r = "" /\
       status r = (if decision cfg (nh_view w) request then StatusOK else StatusForbidden)) /\
  (parse body = None ->
     run (serve cfg am order (mkServiceArgs SERVE_POST_PERM None) (inr body))
       (mkHandling w new_response []) =
     (mkHandling w new_response [], Err (ErrorString "Could not parse object"))) /\
  (parse body = Some JNull ->
     run (serve cfg am order (mkServiceArgs SERVE_POST_PERM None) (inr body))
       (mkHandling w new_response []) =
     (mkHandling w new_response [], Panic "nil pointer dereference")).
Proof.
  intros Hw.
  change (serve cfg am order (mkServiceArgs SERVE_POST_PERM None) (inr body)) with
    (servePostPerm (W := W) cfg am (inr body)).
  split_and!.
  - intros request EU HT. destruct (run_postPerm w new_response [] body request Hw EU)
      as (w' & E & _).
    exists w'. eexists. split; [exact E|]. split; [by destruct (_ || _)|].
    assert ((if 0 <? CacheSeconds cfg then cached_decision cfg (nh_view w) request else false)
      || decision cfg (nh_view w) request = decision cfg (nh_view w) request) as ->.
    { destruct (0 <? CacheSeconds cfg); [|done].
      destruct (cached_decision cfg (nh_view w) request) eqn:EC; [|done].
      by rewrite (cached_decision_truthful _ _ _ HT EC). }
    by destruct (decision cfg (nh_view w) request).
  - intros E. unfold servePostPerm. do 3 go_step. unfold Unmarshal. by rewrite E.
  - intros E. unfold servePostPerm. do 3 go_step. unfold Unmarshal. by rewrite E.
Qed.

(** Removing a user's permissions over HTTP answers 200 and leaves
    every permission of the user in place: only cache entries go. *)
Theorem serve_delete_perm w user :
  nh_ok w -> user <> "" -> (forall m, order m ≡ₚ map_to_list m) ->
  exists w' r,
    run (serve cfg am order (for_var "user" SERVE_DELETE_PERM user) (inr ""))
      (mkHandling w new_response []) = (mkHandling w' r [], Ret tt) /\
    status r = StatusOK /\ same_permissions (nh_view w) (nh_view w') /\
    forall request, decision cfg (nh_view w') request = decision cfg (nh_view w) request.
Proof.
  intros Hw Hu Ho. destruct (run_revoke cfg w order user Hw Ho) as (w' & E & Hw' & _ & S').
  exists w', (WriteHeader StatusOK new_response). split_and!; [|done|done|].
  - change (serve cfg am order (for_var "user" SERVE_DELETE_PERM user) (inr "")) with
      (serveDeletePerm (W := W) cfg order (for_var "user" SERVE_DELETE_PERM user)).
    unfold serveDeletePerm. do 3 go_step. destruct user as [|c user]; [done|].
    cbn [String.length Nat.ltb Nat.leb]. do 3 go_step. rewrite E. by do 3 go_step.
  - intros request. by apply existsb_paths_same.
Qed.

(** ** Joining *)

Section Join.
(** The membership requests leave the contents alone, and removing a
    replica succeeds. *)
Hypothesis delete_ok : forall w sh n, nh_ok w ->
  exists w', run (RequestDeleteReplica sh n) w = (w', Ret tt) /\ nh_ok w' /\ nh_view w' = nh_view w.
Hypothesis add_ok : forall w sh n a w' x, nh_ok w ->
  run (RequestAddReplica sh n a) w = (w', x) -> nh_ok w' /\ nh_view w' = nh_view w.

Lemma run_removeOld w r g cs nodestring :
  nh_ok w ->
  exists w', run (removeOld cfg cs nodestring) (mkHandling w r g) = (mkHandling w' r g, Ret tt) /\
    nh_ok w' /\ nh_view w' = nh_view w.
Proof.
  intros Hw. destruct (run_execute_read w GET (mkKVData (peerKey (Binding cs)) None) Hw)
    as (w1 & E1 & Hw1 & V1); [by left|].
  change (answer_of _ GET _) with (ABytes (nh_view w !! peerKey (Binding cs))) in E1.
  unfold removeOld. do 3 go_step. rewrite E1. cbn [as_bytes]. do 3 go_step.
  case_decide; [by exists w1|].
  destruct (ParseUint _) as [old|]; [|by exists w1].
  destruct (delete_ok w1 (ShardID cs) old Hw1) as (w2 & E2 & Hw2 & V2).
  exists w2. do 3 go_step. rewrite E2. split_and!; try done. by rewrite V2.
Qed.

Lemma run_postJoin w r g body cs :
  nh_ok w -> body <> "" -> Unmarshal dec_ClusterStatus zeroClusterStatus body = (cs, true) ->
  exists w1, nh_ok w1 /\ nh_view w1 = nh_view w /\
    let out := run (servePostJoin cfg (inr body)) (mkHandling w r g) in
    match run (RequestAddReplica (ShardID cs) (ReplicaID cs) (Binding cs +:+ ":6300")) w1 with
    | (_, Ret true) => exists w', out = (mkHandling w' (WriteHeader StatusOK r) g, Ret tt) /\
        nh_ok w' /\
        (free_key (sanitize (peerKey (Binding cs))) ->
         nh_view w' !! sanitize (peerKey (Binding cs)) = Some (Decimal.FormatUint (ReplicaID cs)))
    | (w2, Ret false) =>
        out = (mkHandling w2 r g, Err (ErrorString "Membership add failed"))
    | (w2, Err _) => out = (mkHandling w2 r g, Panic "nil pointer dereference")
    | (w2, Panic p) => out = (mkHandling w2 r g, Panic p)
    end.
Proof.
  intros Hw Hb EU.
  destruct (run_removeOld w r g cs (Decimal.FormatUint (ReplicaID cs)) Hw) as (w1 & E1 & Hw1 & V1).
  exists w1. split_and!; [done..|]. cbv zeta.
  unfold servePostJoin. do 3 go_step. destruct body as [|c body]; [done|].
  cbn [String.length Nat.ltb Nat.leb]. rewrite EU. cbn [negb]. do 2 go_step. rewrite E1.
  do 3 go_step. unfold KV_PORT.
  destruct (run (RequestAddReplica _ _ _) w1) as [w2 x] eqn:EA.
  destruct (add_ok _ _ _ _ _ _ Hw1 EA) as [Hw2 V2]. destruct x as [[|]|e|p]; try done.
  destruct (run_execute_put w2 (mkKVData (peerKey (Binding cs))
    (Some (Decimal.FormatUint (ReplicaID cs)))) Hw2) as (w3 & i & n & E3 & Hw3 & V3); [done|].
  exists w3. split_and!.
  - do 3 go_step. rewrite E3. do 3 go_step. reflexivity.
  - done.
  - intros Hf. rewrite V3, stamp_free by done. unfold write. cbn [Val Key].
    by rewrite lookup_insert_eq.
Qed.

(** A node that asks to join is added to the shard it names; once the
    cluster has accepted it, its replica number is stored under the key of
    its address and the answer is 200.  A request that does not complete is
    an error, and one that the node host refuses brings the handler down. *)
Theorem serve_join w body cs :
  nh_ok w -> body <> "" -> Unmarshal dec_ClusterStatus zeroClusterStatus body = (cs, true) ->
  exists w1, nh_ok w1 /\ nh_view w1 = nh_view w /\
    let out := run (serve cfg am order (mkServiceArgs SERVE_POST_JOIN None) (inr body))
      (mkHandling w new_response []) in
    match run (RequestAddReplica (ShardID cs) (ReplicaID cs) (Binding cs +:+ ":6300")) w1 with
    | (_, Ret true) => exists w' r, out = (mkHandling w' r [], Ret tt) /\ status r = StatusOK /\
        (free_key (sanitize (peerKey (Binding cs))) ->
         nh_view w' !! sanitize (peerKey (Binding cs)) = Some (Decimal.FormatUint (ReplicaID cs)))
    | (w2, Ret false) =>
        out = (mkHandling w2 new_response [], Err (ErrorString "Membership add failed"))
    | (w2, Err _) => out = (mkHandling w2 new_response [], Panic "nil pointer dereference")
    | (w2, Panic p) => out = (mkHandling w2 new_response [], Panic p)
    end.
Proof.
  intros Hw Hb EU. destruct (run_postJoin w new_response [] body cs Hw Hb EU) as (w1 & Hw1 & V1 & K).
  exists w1. split_and!; [done..|]. cbv zeta in *.
  change (serve cfg am order (mkServiceArgs SERVE_POST_JOIN None) (inr body)) with
    (servePostJoin (W := W) cfg (inr body)).
  destruct (run (RequestAddReplica _ _ _) w1) as [w2 [[|]|e|p]]; try exact K.
  destruct K as (w' & E & _ & K). exists w', (WriteHeader StatusOK new_response). by split_and!.
Qed.
End Join.
End Service.

(** ** Witnesses *)

#[local] Instance no_docker : Docker node_state := {
  NewClientWithOpts := fail (ErrExternal 0); TaskList := ret [] }.

Lemma serve_put_get_witness :
  exists w1 w2 r1 r2,
    run (serve cfg_sample (now_sample 5) map_to_list (for_key SERVE_PUT_KV "a") (inr "x"))
      (mkHandling empty_node new_response []) = (mkHandling w1 r1 [], Ret tt) /\
    status r1 = 200 /\ sent_header "Content-Type" r1 = Some "application/json" /\
    parse (r_body r1) = Some (JObj [("ok", JBool true)]) /\
    run (serve cfg_sample (now_sample 5) map_to_list (for_key SERVE_GET_KV "a") (inr ""))
      (mkHandling w1 new_response []) = (mkHandling w2 r2 [], Ret tt) /\
    status r2 = 200 /\ r_body r2 = "x".
Proof.
  exact (serve_put_get cfg_sample (now_sample 5) map_to_list empty_node "a" "x" empty_node_ok
    ltac:(done) eq_refl ltac:(done)).
Defined.

Lemma serve_scan_witness :
  exists w' r,
    run (serve cfg_sample (now_sample 5) map_to_list (for_key SERVE_GET_KVS "/p:") (inr ""))
      (mkHandling node_sample new_response []) = (mkHandling w' r [], Ret tt) /\
    nh_ok w' /\ nh_view w' = n_contents node_sample /\ status r = 200 /\
    parse (r_body r) = Some (JObj [("query", JStr "p:");
      ("results", JObj [("p:e:staff:d:/org", JStr "EA==")])]).
Proof. exact (serve_scan cfg_sample (now_sample 5) map_to_list node_sample "/p:" node_sample_ok). Defined.

Definition check_body : string := print (JObj
  [("User", JObj [("Val", JStr "alice")]); ("Entities", JArr [JObj [("Val", JStr "staff")]]);
   ("Resource", JObj [("Val", JStr "/org/x"); ("Rune", JNum "100")]); ("Right", JStr "EA==")]).

Definition check_request : Request :=
  mkRequest (mkTypedString "alice" 0) (Some [mkTypedString "staff" 0])
    (mkTypedString "/org/x" 100) zeroTypedString (right 16).

Lemma serve_check_witness :
  exists w' r,
    run (serve cfg_sample (now_sample 5) map_to_list (mkServiceArgs SERVE_POST_PERM None)
      (inr check_body)) (mkHandling node_sample new_response []) = (mkHandling w' r [], Ret tt) /\
    r_body r = "" /\ status r = 200.
Proof.
  refine (proj1 (serve_check cfg_sample (now_sample 5) map_to_list node_sample check_body
    node_sample_ok) check_request _ _); [by vm_compute|].
  intros c E. discriminate E.
Defined.

Lemma serve_delete_perm_witness :
  exists w' r,
    run (serve cfg_sample (now_sample 5) map_to_list (for_var "user" SERVE_DELETE_PERM "staff") (inr ""))
      (mkHandling node_sample new_response []) = (mkHandling w' r [], Ret tt) /\
    status r = 200 /\ same_permissions (n_contents node_sample) (nh_view w') /\
    forall request, decision cfg_sample (nh_view w') request =
      decision cfg_sample (n_contents node_sample) request.
Proof.
  exact (serve_delete_perm cfg_sample (now_sample 5) map_to_list node_sample "staff" node_sample_ok
    ltac:(done) map_to_list_order).
Defined.

Definition join_body : string :=
  print (JObj [("Binding", JStr "10.0.0.2"); ("ReplicaID", JNum "7"); ("ShardID", JNum "1")]).
Definition join_status : ClusterStatus := mkClusterStatus "" "10.0.0.2" 0 7 1 None 0 0.

Lemma serve_join_witness :
  exists w' r,
    run (serve cfg_sample (now_sample 5) map_to_list (mkServiceArgs SERVE_POST_JOIN None)
      (inr join_body)) (mkHandling empty_node new_response []) = (mkHandling w' r [], Ret tt) /\
    status r = 200 /\ nh_view w' !! "com.roo.peer:10.0.0.2:node" = Some "7".
Proof.
  destruct (serve_join cfg_sample (now_sample 5) map_to_list
    ltac:(intros w sh n Hw; by exists w) ltac:(intros w sh n a w' x Hw [= <- <-]; done)
    empty_node join_body join_status empty_node_ok ltac:(done) ltac:(by vm_compute))
    as (w1 & Hw1 & V1 & w' & r & E & S & K).
  exists w', r. split_and!; [exact E|exact S|]. apply K. by split.
Defined.
