(* ===== verification/RoutesSpec.v ===== *)
(** * Routes reach the requests they are meant for *)
From S2P Require Import Prelude Bytes Utf8 Json Types Pebble DiskKV DiskKVSpec QuerySpec NodeHost.
From S2P Require Import Permissions PermissionSamples PermissionsSpec GrantSpec MaintenanceSpec.
From S2P Require Import KvService Routes Http Serve ServeSpec.

(** ** Keys *)

Definition https (rt : Route) : bool := negb (bool_decide (OriginScheme rt = "http")).

(** The host a client names in a request for the origin: the port is left
    out when it is the one of the scheme. *)
Definition authority (rt : Route) : string :=
  if decide (OriginPort rt = "") then OriginHost rt
  else if decide (OriginPort rt = if https rt then "443" else "80") then OriginHost rt
  else OriginHost rt +:+ ":" +:+ OriginPort rt.

(** A scheme and a port as the labels should give them. *)
Definition plain_origin (rt : Route) : Prop :=
  OriginScheme rt ∈ [""; "http"; "https"] /\ OriginPort rt ∉ [":http"; ":https"].

Lemma plain_scheme rt :
  plain_origin rt -> OriginScheme rt = "http" \/ OriginScheme rt = "" \/ OriginScheme rt = "https".
Proof. intros [Hs _]. set_solver. Qed.

(** The key, once the scheme and whether the port is left out are known. *)
Lemma GetKey_port rt scheme :
  (if decide (OriginScheme rt = "") then "https" else OriginScheme rt) = scheme -> scheme <> "" ->
  OriginPort rt <> "" -> OriginPort rt ∉ [":http"; ":https"] ->
  (scheme = "http" -> OriginPort rt <> "80") -> (scheme = "https" -> OriginPort rt <> "443") ->
  GetKey rt = HOST_PREFIX +:+ OriginHost rt +:+ ":" +:+ OriginPort rt +:+ ":" +:+ scheme.
Proof.
  intros Es Hs Hp Hc H1 H2. unfold GetKey. rewrite Es.
  assert (bool_decide (scheme = "http") &&
    (bool_decide (OriginPort rt = "80") || bool_decide (OriginPort rt = ":http")) = false) as ->.
  { destruct (decide (scheme = "http")); [|by rewrite bool_decide_eq_false_2 by done].
    rewrite !(bool_decide_eq_false_2 (OriginPort rt = _)), andb_false_r by (auto; set_solver). done. }
  assert (bool_decide (scheme = "https") &&
    (bool_decide (OriginPort rt = "443") || bool_decide (OriginPort rt = ":https")) = false) as ->.
  { destruct (decide (scheme = "https")); [|by rewrite bool_decide_eq_false_2 by done].
    rewrite !(bool_decide_eq_false_2 (OriginPort rt = _)), andb_false_r by (auto; set_solver). done. }
  destruct (OriginPort rt) as [|c p]; [done|]. destruct scheme as [|d scheme]; [done|].
  change (0 <? String.length (String c p))%nat with true.
  change (String.length (String d scheme) =? 0)%nat with false. by rewrite !string_app_assoc.
Qed.

(** The stored key of a route is the one its requests look up. *)
Lemma GetKey_requestKey rt : plain_origin rt -> GetKey rt = requestKey (https rt) (authority rt).
Proof.
  intros HP. pose proof HP as [_ Hp]. unfold requestKey, authority.
  destruct (decide (OriginPort rt = "")) as [E|Hne].
  { unfold GetKey, https. rewrite E. by destruct (plain_scheme rt HP) as [->|[->| ->]]. }
  destruct (decide (OriginPort rt = if https rt then "443" else "80")) as [E|Hd].
  { unfold GetKey, https in *. destruct (plain_scheme rt HP) as [Es|[Es|Es]];
      rewrite Es in *; simpl in E; by rewrite E. }
  rewrite (GetKey_port rt (if https rt then "https" else "http")); try done.
  - destruct (https rt); by rewrite !string_app_assoc.
  - unfold https. by destruct (plain_scheme rt HP) as [->|[->| ->]].
  - by destruct (https rt).
  - by destruct (https rt).
  - by destruct (https rt).
Qed.

Lemma GetKey_prefix rt : exists t, GetKey rt = HOST_PREFIX +:+ t.
Proof.
  unfold GetKey. set (s := if decide (_ = "") then _ else _). clearbody s.
  set (p := if _ && _ then "" else if _ && _ then "" else _). clearbody p.
  destruct (0 <? String.length p)%nat, (String.length s =? 0)%nat;
    rewrite ?string_app_assoc; by eexists.
Qed.

(** ** The routes of the tasks *)

Lemma elem_of_hostRoutes labels host rt :
  rt ∈ hostRoutes labels host <->
  TrimSpace host <> "" /\ label labels "DestinationHost" <> "" /\
  label labels "DestinationPort" <> "" /\
  rt = mkRoute (label labels "OriginScheme") (TrimSpace host) (label labels "OriginPort")
    (label labels "DestinationScheme") (label labels "DestinationHost")
    (label labels "DestinationPort").
Proof.
  unfold hostRoutes. destruct (decide (TrimSpace host = "")) as [E|E].
  { rewrite E. split; [by intros ?%not_elem_of_nil|]. by intros []. }
  cbn [OriginHost DestinationHost DestinationPort].
  destruct (bool_decide _ || _ || _) eqn:EB.
  - split; [by intros ?%not_elem_of_nil|]. intros (_ & H1 & H2 & _).
    apply orb_true_iff in EB as [[EB|EB]%orb_true_iff|EB]; by apply bool_decide_eq_true in EB.
  - apply orb_false_iff in EB as [[EB1 EB2]%orb_false_iff EB3].
    apply bool_decide_eq_false in EB1, EB2, EB3. rewrite list_elem_of_singleton. tauto.
Qed.

Lemma taskRoutes_elem tasks routes rt :
  taskRoutes tasks = Ret routes ->
  rt ∈ routes <-> exists task labels host, task ∈ tasks /\ ContainerSpec task = Some labels /\
    host ∈ taskHosts labels /\ rt ∈ hostRoutes labels host.
Proof.
  revert routes. induction tasks as [|task tasks IH]; intros routes; cbn [taskRoutes].
  { intros [= <-]. split; [by intros ?%not_elem_of_nil|]. by intros (? & ? & ? & ?%not_elem_of_nil & _). }
  destruct (ContainerSpec task) as [labels|] eqn:EC; [|done].
  destruct (taskRoutes tasks) as [rest| |]; [|done..]. simpl. intros [= <-].
  rewrite elem_of_app, list_elem_of_bind, (IH rest eq_refl). split.
  - intros [(host & Hr & Hh)|(task' & labels' & host & Ht & H')].
    + exists task, labels, host. split_and!; try done. by left.
    + exists task', labels', host. split; [by right|done].
  - intros (task' & labels' & host & Ht & Hc & Hh & Hr).
    apply elem_of_cons in Ht as [->|Ht]; [left|right; by exists task', labels', host].
    rewrite EC in Hc. injection Hc as <-. by exists host.
Qed.

Section Service.
Context {W : Type} `{NodeHostLaws W, Docker W} (cfg : AppConfig).

(** When the Docker client answers, the routes are exactly those of the
    tasks: one for each host of the two labels that is not blank, its white
    space trimmed, if the task names a destination host and port. *)
Theorem GetDockerRoutes_exact (w w1 w2 : W) tasks :
  run NewClientWithOpts w = (w1, Ret tt) -> run TaskList w1 = (w2, Ret tasks) ->
  (forall task, task ∈ tasks -> is_Some (ContainerSpec task)) ->
  exists routes, run GetDockerRoutes w = (w2, Ret routes) /\
    forall rt, rt ∈ routes <-> exists task labels host,
      task ∈ tasks /\ ContainerSpec task = Some labels /\
      (host ∈ split "," (label labels "OriginHosts") \/ host = label labels "OriginHost") /\
      TrimSpace host <> "" /\
      label labels "DestinationHost" <> "" /\ label labels "DestinationPort" <> "" /\
      rt = mkRoute (label labels "OriginScheme") (TrimSpace host) (label labels "OriginPort")
        (label labels "DestinationScheme") (label labels "DestinationHost")
        (label labels "DestinationPort").
Proof.
  intros E1 E2 Hs. assert (exists routes, taskRoutes tasks = Ret routes) as [routes ER].
  { clear E2. induction tasks as [|task tasks IH]; [by eexists|]. cbn [taskRoutes].
    destruct (Hs task) as [labels ->]; [by left|].
    destruct IH as [rest ->]; [intros t Ht; apply Hs; by right|]. by eexists. }
  exists routes. split.
  { unfold GetDockerRoutes. do 2 go_step. rewrite E1. do 2 go_step. rewrite E2. go_step. by rewrite ER. }
  intros rt. rewrite (taskRoutes_elem _ _ _ ER). setoid_rewrite elem_of_hostRoutes.
  unfold taskHosts. setoid_rewrite elem_of_app. setoid_rewrite list_elem_of_singleton. done.
Qed.

(** ** Writing the routes *)

Lemma write_lookup_same m m' d k : m !! k = m' !! k -> write m d !! k = write m' d !! k.
Proof.
  intros E. unfold write. destruct (decide (sanitize (Key d) = k)) as [<-|Hne].
  - destruct (Val d); [by rewrite !lookup_insert_eq|by rewrite !lookup_delete_eq].
  - destruct (Val d); [by rewrite !lookup_insert_ne|by rewrite !lookup_delete_ne].
Qed.

Lemma writes_lookup_same m m' l k :
  m !! k = m' !! k -> foldl write m l !! k = foldl write m' l !! k.
Proof.
  revert m m'. induction l as [|d l IH]; intros m m' E; [done|]. cbn [foldl].
  apply IH. by apply write_lookup_same.
Qed.

Definition routeData (rt : Route) : KVData := mkKVData (GetKey rt) (Some (GetValue rt)).

Lemma run_writeRoutes w routes :
  nh_ok w ->
  exists w', run (writeRoutes cfg (map routeAction routes)) w = (w', Ret tt) /\ nh_ok w' /\
    forall k, free_key k -> nh_view w' !! k = foldl write (nh_view w) (map routeData routes) !! k.
Proof.
  revert w. induction routes as [|rt routes IH]; intros w Hw; [by exists w|].
  destruct (run_execute_put cfg w (routeData rt) Hw) as (w1 & i & n & E1 & Hw1 & V1).
  { destruct (GetKey_prefix rt) as [t Et]. unfold routeData. cbn [Key]. by rewrite Et. }
  destruct (IH w1 Hw1) as (w2 & E2 & Hw2 & V2).
  exists w2. split_and!; [|done|].
  - cbn [map writeRoutes]. rewrite run_bind, run_try. unfold routeData in E1.
    unfold routeAction at 1. by rewrite E1.
  - intros k Hk. rewrite (V2 k Hk). cbn [map foldl]. apply writes_lookup_same.
    by rewrite V1, stamp_free.
Qed.

(** The value of a route is stored under the key its requests look up. *)
Lemma written_route w routes1 rt routes2 :
  nh_ok w -> plain_origin rt -> valid_utf8 (GetKey rt) = true ->
  (forall rt', rt' ∈ routes2 -> sanitize (GetKey rt') <> GetKey rt) ->
  exists w1, run (writeRoutes cfg (map routeAction (routes1 ++ rt :: routes2))) w = (w1, Ret tt) /\
    nh_ok w1 /\ nh_view w1 !! requestKey (https rt) (authority rt) = Some (GetValue rt).
Proof.
  intros Hw HP Hv Hl. destruct (run_writeRoutes w (routes1 ++ rt :: routes2) Hw)
    as (w1 & E1 & Hw1 & V1).
  exists w1. split_and!; [done..|]. rewrite <- GetKey_requestKey by done. rewrite V1.
  - rewrite map_app. cbn [map]. rewrite writes_last; [done|by apply sanitize_valid|].
    apply Forall_map, Forall_forall. intros rt' Hr. by apply Hl.
  - by destruct (GetKey_prefix rt) as [t ->].
Qed.

(** Once the routes of the swarm are written, a request to the origin
    of a route finds its destination: the key the proxy builds from the
    scheme and the host of the request is the one under which the route was
    stored, unless a later route has the same origin. *)
Theorem routes_resolve w routes1 rt routes2 :
  nh_ok w -> plain_origin rt -> valid_utf8 (GetKey rt) = true ->
  (forall rt', rt' ∈ routes2 -> sanitize (GetKey rt') <> GetKey rt) ->
  exists w1 w2,
    run (writeRoutes cfg (map routeAction (routes1 ++ rt :: routes2))) w = (w1, Ret tt) /\
    run (execute cfg (mkKVAction GET (Some
      (mkKVData (requestKey (https rt) (authority rt)) None)))) w1 =
      (w2, Ret (Read (ABytes (Some (GetValue rt))))).
Proof.
  intros Hw HP Hv Hl. destruct (written_route w routes1 rt routes2 Hw HP Hv Hl) as (w1 & E1 & Hw1 & V1).
  destruct (run_execute_read cfg w1 GET (mkKVData (requestKey (https rt) (authority rt)) None) Hw1)
    as (w2 & E2 & _); [by left|].
  exists w1, w2. split; [done|]. rewrite E2. do 2 f_equal.
  change (answer_of (nh_view w1) GET _) with
    (ABytes (nh_view w1 !! requestKey (https rt) (authority rt))). by rewrite V1.
Qed.
End Service.

(** ** Witnesses *)

Definition demo_labels : gmap string string :=
  <["OriginHosts" := "a.example, b.example"]> (<["OriginPort" := "443"]>
  (<["DestinationHost" := "web"]> {["DestinationPort" := "80"]})).
Definition demo_route (host : string) : Route := mkRoute "" host "443" "" "web" "80".

#[local] Instance demo_docker : Docker node_state := {
  NewClientWithOpts := ret tt; TaskList := ret [mkTask (Some demo_labels)] }.

Lemma GetDockerRoutes_exact_witness :
  exists routes, run GetDockerRoutes empty_node = (empty_node, Ret routes) /\
    demo_route "b.example" ∈ routes.
Proof.
  destruct (GetDockerRoutes_exact empty_node empty_node empty_node [mkTask (Some demo_labels)])
    as (routes & E & HR).
  - done.
  - done.
  - intros task ->%list_elem_of_singleton. by eexists.
  - exists routes. split; [exact E|]. apply HR.
    exists (mkTask (Some demo_labels)), demo_labels, " b.example".
    split_and!; try done; [by left|].
    left. by apply (proj1 (Contains_spec (split "," "a.example, b.example") " b.example")).
Defined.

Lemma routes_resolve_witness :
  exists w1 w2,
    run (writeRoutes cfg_sample (map routeAction [demo_route "a.example"; demo_route "b.example"]))
      empty_node = (w1, Ret tt) /\
    run (execute cfg_sample (mkKVAction GET (Some
      (mkKVData "com.roo.host:a.example:https" None)))) w1 =
      (w2, Ret (Read (ABytes (Some "http://web:80")))).
Proof.
  refine (routes_resolve cfg_sample empty_node [] (demo_route "a.example") [demo_route "b.example"]
    empty_node_ok _ eq_refl _).
  - split; [by left|]. by apply (bool_decide_unpack _).
  - by intros rt ->%list_elem_of_singleton.
Defined.
