(* ===== verification/Net.v ===== *)
(** * Addresses: package [net], and [roo/utils.go] on the address of a client

    An address is the eight 16-bit groups of its sixteen bytes; an IPv4
    address is the group sequence [0:0:0:0:0:ffff] followed by its four
    bytes, as [net.ParseIP] returns it.  (A four-byte [net.IP] counts as
    its sixteen-byte form: [To4] and [String], all that the code uses, do
    not tell them apart.) *)
From S2P Require Import Prelude Bytes Utf8 Json Types.

(** ** [net.SplitHostPort] *)

(** The position of the last occurrence of a byte, and of the first. *)
Fixpoint last_index (c : ascii) (s : string) : option nat :=
  match s with
  | "" => None
  | String d s =>
      match last_index c s with
      | Some i => Some (S i)
      | None => if decide (d = c) then Some 0%nat else None
      end
  end.
Fixpoint first_index (c : ascii) (s : string) : option nat :=
  match s with
  | "" => None
  | String d s => if decide (d = c) then Some 0%nat else S <$> first_index c s
  end.

(** The host and the port, or none for an error. *)
Definition SplitHostPort (hostport : string) : option (string * string) :=
  i ← last_index ":" hostport;
  let port := sdrop (S i) hostport in
  '(host, j, k) ←
    (match hostport with
     | String "[" _ =>
         fin ← first_index "]" hostport;
         if decide (S fin = i) then Some (stake (fin - 1) (sdrop 1 hostport), 1%nat, S fin)
         else None
     | _ =>
         let host := stake i hostport in
         if has_byte ":" host then None else Some (host, 0%nat, 0%nat)
     end);
  if has_byte "[" (sdrop j hostport) || has_byte "]" (sdrop k hostport) then None
  else Some (host, port).

(** ** [net.ParseIP] *)

Definition IP : Type := list Z.

Definition is_octet (z : Z) : Prop := 0 <= z < 256.
Definition is_group (z : Z) : Prop := 0 <= z < 65536.
Definition valid_ip (ip : IP) : Prop := length ip = 8%nat /\ Forall is_group ip.

(** A decimal field: no empty field, no leading zero, at most 255. *)
Definition octet (s : string) : option Z :=
  match s with
  | String "0" (String _ _) => None
  | _ => z ← ParseUint s; if z <? 256 then Some z else None
  end.

(** The two groups of a dotted text. *)
Definition parseIPv4Fields (s : string) : option (list Z) :=
  match split "." s with
  | [a; b; c; d] =>
      a ← octet a; b ← octet b; c ← octet c; d ← octet d;
      Some [a * 256 + b; c * 256 + d]
  | _ => None
  end.

Definition is_hex (c : ascii) : bool := bool_decide (is_Some (hex_val c)).
Definition hex_acc (acc : Z) (c : ascii) : Z := acc * 16 + default 0 (hex_val c).

(** The hexadecimal digits a text starts with: their number, their value,
    and the rest. *)
Fixpoint span_hex (off : nat) (acc : Z) (s : string) : nat * Z * string :=
  match s with
  | String c s' => if is_hex c then span_hex (S off) (hex_acc acc c) s' else (off, acc, s)
  | "" => (off, acc, "")
  end.

(** The loop of [parseIPv6], which has room for [n] more groups: the groups
    and the place of the [::]. *)
Fixpoint v6_groups (n : nat) (acc : list Z) (ellipsis : option nat) (s : string)
    : option (list Z * option nat) :=
  match n with
  | O => if decide (s = "") then Some (acc, ellipsis) else None
  | S n' =>
      let '(off, g, rest) := span_hex 0 0 s in
      if ((off =? 0) || (4 <? off))%nat then None
      else match rest with
      | String "." _ =>
          if (bool_decide (ellipsis = None) && negb (length acc =? 6)%nat) || (n <? 2)%nat
          then None
          else ab ← parseIPv4Fields s; Some (acc ++ ab, ellipsis)
      | "" => Some (acc ++ [g], ellipsis)
      | String ":" "" => None
      | String ":" (String ":" t) =>
          if bool_decide (is_Some ellipsis) then None
          else if decide (t = "") then Some (acc ++ [g], Some (length (acc ++ [g])))
          else v6_groups n' (acc ++ [g]) (Some (length (acc ++ [g]))) t
      | String ":" t => v6_groups n' (acc ++ [g]) ellipsis t
      | _ => None
      end
  end.

(** The [::] stands for the missing groups, at least one. *)
Definition expand (r : list Z * option nat) : option IP :=
  let '(gs, ellipsis) := r in
  if decide (length gs = 8%nat) then if bool_decide (ellipsis = None) then Some gs else None
  else match ellipsis with
       | None => None
       | Some e => Some (take e gs ++ repeat 0 (8 - length gs) ++ drop e gs)
       end.

Definition parseIPv6 (s : string) : option IP :=
  if has_byte "%" s then None
  else match s with
  | String ":" (String ":" "") => Some (repeat 0 8)
  | String ":" (String ":" t) => v6_groups 8 [] (Some 0%nat) t ≫= expand
  | _ => v6_groups 8 [] None s ≫= expand
  end.

(** The first byte that tells the kind of an address. *)
Fixpoint first_special (s : string) : option ascii :=
  match s with
  | "" => None
  | String c s' => if bool_decide (c ∈ [".";":";"%"]%char) then Some c else first_special s'
  end.

Definition v4_prefix : list Z := [0; 0; 0; 0; 0; 65535].

Definition ParseIP (s : string) : option IP :=
  match first_special s with
  | Some "."%char => app v4_prefix <$> parseIPv4Fields s
  | Some ":"%char => parseIPv6 s
  | _ => None
  end.

(** ** [IP.To4] and [IP.String] *)

Definition To4 (ip : IP) : option (Z * Z * Z * Z) :=
  match ip with
  | [0; 0; 0; 0; 0; 65535; x; y] => Some (x / 256, x mod 256, y / 256, y mod 256)
  | _ => None
  end.

Definition is4 (ip : IP) : bool := bool_decide (is_Some (To4 ip)).

(** A group without leading zeros. *)
Definition hex_word (z : Z) : string :=
  let tail1 := String (hex_digit (z mod 16)) "" in
  let tail2 := if 16 <=? z then String (hex_digit ((z / 16) mod 16)) tail1 else tail1 in
  let tail3 := if 256 <=? z then String (hex_digit ((z / 256) mod 16)) tail2 else tail2 in
  if 4096 <=? z then String (hex_digit ((z / 4096) mod 16)) tail3 else tail3.

(** The zeros a list starts with. *)
Fixpoint zeros (l : list Z) : nat :=
  match l with
  | 0 :: l => S (zeros l)
  | _ => 0
  end.

(** Where the longest run of at least two zeros starts, and its length. *)
Fixpoint longest (i : nat) (l : list Z) (start n : nat) : nat * nat :=
  match l with
  | [] => (start, n)
  | _ :: t =>
      let m := zeros l in
      if ((2 <=? m) && (n <? m))%nat then longest (S i) t i m else longest (S i) t start n
  end.

Definition groups_text (l : list Z) : string := join ":" (map hex_word l).

Definition IP_String (ip : IP) : string :=
  match To4 ip with
  | Some (a, b, c, d) => join "." (map Decimal.FormatUint [a; b; c; d])
  | None =>
      match longest 0 ip 0 0 with
      | (_, O) => groups_text ip
      | (s, n) => groups_text (take s ip) +:+ "::" +:+ groups_text (drop (s + n) ip)
      end
  end.

(** ** [roo/utils.go] *)

(** The address of a client: the last address in a list that parses. *)
Fixpoint last_ip (rev_parts : list string) : string :=
  match rev_parts with
  | [] => ""
  | p :: ps =>
      match ParseIP (TrimSpace p) with
      | Some ip => IP_String ip
      | None => last_ip ps
      end
  end.

Definition cleanIP (ip : string) : string := last_ip (rev (split "," ip)).

(** [forwarded] is the header [X-Forwarded-For], empty when there is none. *)
Definition getIP (forwarded RemoteAddr : string) : string :=
  let ip :=
    if decide (forwarded = "") then
      match SplitHostPort RemoteAddr with
      | Some (ip, _) => ip
      | None => RemoteAddr
      end
    else forwarded in
  cleanIP ip.

Definition getHost (host : string) : string :=
  match SplitHostPort host with
  | None => host
  | Some (addr, _) => addr
  end.

(** What an interface lists. *)
Inductive netAddr := IPNet (ip : option IP) | IPAddr (ip : option IP) | OtherAddr.

Definition addr_ip (a : netAddr) : option IP :=
  match a with
  | IPNet ip => ip
  | IPAddr ip => ip
  | OtherAddr => None
  end.

(** The addresses of the interfaces, of which any call may fail. *)
Fixpoint getMyIPs_loop (filterIPv4 : bool) (ifaces : list (go (list netAddr))) : go (list IP) :=
  match ifaces with
  | [] => Ret []
  | i :: ifaces =>
      let? addrs := i in
      let? rest := getMyIPs_loop filterIPv4 ifaces in
      Ret (filter (fun ip => filterIPv4 && is4 ip = true) (omap addr_ip addrs) ++ rest)
  end.

Definition getMyIPs (filterIPv4 : bool) (ifaces : go (list (go (list netAddr)))) : go (list IP) :=
  let? ifaces := ifaces in getMyIPs_loop filterIPv4 ifaces.

Definition getIPsString (ipbs : list IP) : list string := map IP_String ipbs.

Example parse_examples :
  map (fun s => IP_String <$> ParseIP s)
    ["10.0.0.1"; "::1"; "1::"; "fe80:0:0:1:0:0:0:2"; "::ffff:1.2.3.4"; "1:2:3:4:5:6:7:8";
     "1.2.3"; "01.2.3.4"; "1:2"; "::1%eth0"; "1::2::3"; "1:2:3:4:5:6:7::"; "::"; "1.2.3.256"] =
  [Some "10.0.0.1"; Some "::1"; Some "1::"; Some "fe80:0:0:1::2"; Some "1.2.3.4";
   Some "1:2:3:4:5:6:7:8"; None; None; None; None; None; Some "1:2:3:4:5:6:7:0"; Some "::"; None].
Proof. vm_compute. reflexivity. Qed.
