(* ===== verification/NetSpec.v ===== *)
(** * Addresses are printed and read back

    [ParseIP] returns eight groups of sixteen bits and [IP_String] prints
    them in the one form that [ParseIP] reads back as the same address;
    what [cleanIP] makes of a client's address is such a form. *)
From S2P Require Import Prelude Bytes Utf8 Json Types Net.

(** ** Decimal fields *)

Lemma octet_range s z : octet s = Some z -> is_octet z.
Proof.
  unfold octet. assert ((z0 ← ParseUint s; if z0 <? 256 then Some z0 else None) = Some z ->
    is_octet z) as K.
  { intros E. destruct (ParseUint s) as [x|] eqn:Ex; [|done]. cbn [mbind option_bind] in E.
    destruct (Z.ltb_spec x 256); [|done]. injection E as <-.
    pose proof (ParseUint_range _ _ Ex). unfold is_octet. lia. }
  intros E. apply K. by repeat (split_match; try done).
Qed.

(** Every octet is read back, and holds no separator. *)
Definition octet_ok (z : Z) : bool :=
  let s := Decimal.FormatUint z in
  bool_decide (octet s = Some z) && negb (has_byte "." s) && negb (has_byte ":" s) &&
  bool_decide (first_special (s +:+ ".") = Some "."%char).

Lemma octets_ok : forallb octet_ok (seqZ 0 256) = true.
Proof. vm_compute. reflexivity. Qed.

Lemma octet_format z :
  is_octet z -> octet (Decimal.FormatUint z) = Some z /\
  has_byte "." (Decimal.FormatUint z) = false /\
  first_special (Decimal.FormatUint z +:+ ".") = Some "."%char.
Proof.
  intros Hz. pose proof octets_ok as K. rewrite forallb_forall in K.
  specialize (K z). rewrite <- list_elem_of_In, elem_of_seqZ in K.
  assert (octet_ok z = true) as O by (apply K; unfold is_octet in Hz; lia).
  unfold octet_ok in O. rewrite !andb_true_iff, !negb_true_iff, !bool_decide_eq_true in O.
  naive_solver.
Qed.

Lemma first_special_app s t c : first_special s = Some c -> first_special (s +:+ t) = Some c.
Proof. induction s as [|d s IH]; [done|]. simpl. case_bool_decide; [done|apply IH]. Qed.

Lemma parse_dotted a b c d :
  Forall is_octet [a; b; c; d] ->
  ParseIP (join "." (map Decimal.FormatUint [a; b; c; d])) =
  Some (v4_prefix ++ [a * 256 + b; c * 256 + d]).
Proof.
  intros H. decompose_Forall_hyps.
  destruct (octet_format a) as (Ea & Ha & Fa), (octet_format b) as (Eb & Hb & _),
    (octet_format c) as (Ec & Hc & _), (octet_format d) as (Ed & Hd & _); [done..|].
  unfold ParseIP. replace (first_special _) with (Some "."%char); [|symmetry].
  2:{ cbn [map join]. replace (Decimal.FormatUint a +:+ String "." _) with
        ((Decimal.FormatUint a +:+ ".") +:+ (Decimal.FormatUint b +:+ String "."
          (Decimal.FormatUint c +:+ String "." (Decimal.FormatUint d))))
        by (by rewrite string_app_assoc).
      by apply first_special_app. }
  unfold parseIPv4Fields. cbn [map join].
  rewrite !split_app, split_none by done. by rewrite Ea, Eb, Ec, Ed.
Qed.

(** ** Hexadecimal groups *)

Definition all_hex (s : string) : bool := forallb is_hex (String.list_ascii_of_string s).

(** Every group is one to four digits that are read back. *)
Definition group_ok (z : Z) : bool :=
  let s := hex_word z in
  (let '(n, g, t) := span_hex 0 0 s in (n =? String.length s)%nat && (g =? z) && String.eqb t "") &&
  (0 <? String.length s)%nat &&
  (String.length s <? 5)%nat && all_hex s.

Lemma groups_ok :
  forallb (fun a => forallb (fun b => group_ok (256 * a + b)) (seqZ 0 256)) (seqZ 0 256) = true.
Proof. vm_cast_no_check (@eq_refl bool true). Qed.

Lemma hex_word_ok z :
  is_group z ->
  span_hex 0 0 (hex_word z) = (String.length (hex_word z), z, "") /\
  (0 < String.length (hex_word z) < 5)%nat /\ all_hex (hex_word z) = true.
Proof.
  intros Hz. pose proof groups_ok as K. rewrite forallb_forall in K.
  specialize (K (z / 256)). rewrite <- list_elem_of_In, elem_of_seqZ, forallb_forall in K.
  unfold is_group in Hz. specialize (K ltac:(div_lia) (z mod 256)).
  rewrite <- list_elem_of_In, elem_of_seqZ, <- Z.div_mod in K by done.
  assert (group_ok z = true) as O by (apply K; div_lia).
  unfold group_ok in O. rewrite !andb_true_iff, !Nat.ltb_lt in O.
  destruct (span_hex 0 0 (hex_word z)) as [[n g] t].
  rewrite !andb_true_iff, Nat.eqb_eq, Z.eqb_eq, String.eqb_eq in O. naive_solver.
Qed.

(** A text after which no digit follows. *)
Definition no_hex (t : string) : Prop :=
  match t with "" => True | String c _ => is_hex c = false end.

Lemma span_hex_app s t off acc :
  all_hex s = true -> no_hex t ->
  span_hex off acc (s +:+ t) = let '(n, g, _) := span_hex off acc s in (n, g, t).
Proof.
  revert off acc. induction s as [|c s IH]; intros off acc Hs Ht.
  - simpl. destruct t as [|c t]; [done|]. simpl in *. by rewrite Ht.
  - cbn in Hs. apply andb_true_iff in Hs as [Hc Hs]. simpl. rewrite Hc. by apply IH.
Qed.

Lemma span_word z t :
  is_group z -> no_hex t -> span_hex 0 0 (hex_word z +:+ t) = (String.length (hex_word z), z, t).
Proof.
  intros Hz Ht. destruct (hex_word_ok z Hz) as (E & _ & Ha). by rewrite span_hex_app, E.
Qed.

(** One round of the loop. *)
Lemma v6_step n acc e z t :
  is_group z -> no_hex t -> 
  v6_groups (S n) acc e (hex_word z +:+ t) =
  match t with
  | String "." _ => v6_groups (S n) acc e (hex_word z +:+ t)
  | "" => Some (acc ++ [z], e)
  | String ":" "" => None
  | String ":" (String ":" u) =>
      if bool_decide (is_Some e) then None
      else if decide (u = "") then Some (acc ++ [z], Some (length (acc ++ [z])))
      else v6_groups n (acc ++ [z]) (Some (length (acc ++ [z]))) u
  | String ":" u => v6_groups n (acc ++ [z]) e u
  | _ => None
  end.
Proof.
  intros Hz Ht. cbn [v6_groups]. rewrite span_word by done.
  destruct (hex_word_ok z Hz) as (_ & [L1 L2] & _).
  rewrite (proj2 (Nat.eqb_neq _ _)), (proj2 (Nat.ltb_ge _ _)) by lia. cbn [orb].
  by repeat split_match.
Qed.

Lemma hex_word_head z : is_group z -> exists c s, hex_word z = String c s /\ is_hex c = true.
Proof.
  intros Hz. destruct (hex_word_ok z Hz) as (_ & [L1 _] & Ha).
  destruct (hex_word z) as [|c s]; [simpl in L1; lia|]. exists c, s.
  cbn in Ha. by apply andb_true_iff in Ha as [? _].
Qed.

Lemma hex_not_colon c : is_hex c = true -> c <> ":"%char.
Proof. by intros E ->. Qed.

Lemma groups_text_cons z l :
  groups_text (z :: l) = hex_word z +:+ match l with [] => "" | _ => String ":" (groups_text l) end.
Proof. destruct l; [|done]. unfold groups_text. simpl. by rewrite string_app_nil_r. Qed.

Lemma groups_text_head z l : is_group z ->
  exists c s, groups_text (z :: l) = String c s /\ is_hex c = true.
Proof.
  intros Hz. rewrite groups_text_cons. destruct (hex_word_head z Hz) as (c & s & -> & Hc).
  eexists c, _. split; [|done]. reflexivity.
Qed.

(** The groups of a text without [::]. *)
Lemma v6_read l : forall n acc e,
  Forall is_group l -> l <> [] -> (length l <= n)%nat ->
  v6_groups n acc e (groups_text l) = Some (acc ++ l, e).
Proof.
  induction l as [|z l IH]; [done|]. intros n acc e [Hz Hl]%Forall_cons _ Hn.
  destruct n as [|n]; [simpl in Hn; lia|]. rewrite groups_text_cons.
  destruct l as [|z' l]; [by rewrite v6_step|].
  destruct (groups_text_head z' l) as (c & s & E & Hc); [by apply Forall_cons in Hl as [? _]|].
  rewrite E, v6_step by done. apply hex_not_colon in Hc as Hc'.
  replace (acc ++ z :: z' :: l) with ((acc ++ [z]) ++ z' :: l) by (by rewrite <- app_assoc).
  rewrite <- (IH n _ e Hl) by (simpl in *; (done || lia)). rewrite <- E.
  rewrite E. destruct c as [[] [] [] [] [] [] [] []]; done.
Qed.

(** The groups before the [::], with the text after it. *)
Lemma v6_read_before l : forall n acc t,
  Forall is_group l -> l <> [] -> (length l <= n)%nat ->
  v6_groups n acc None (groups_text l +:+ "::" +:+ t) =
  if decide (t = "") then Some (acc ++ l, Some (length (acc ++ l)))
  else v6_groups (n - length l) (acc ++ l) (Some (length (acc ++ l))) t.
Proof.
  induction l as [|z l IH]; [done|]. intros n acc t [Hz Hl]%Forall_cons _ Hn.
  destruct n as [|n]; [simpl in Hn; lia|]. rewrite groups_text_cons.
  destruct l as [|z' l].
  { rewrite string_app_nil_r. rewrite v6_step by done. cbn. by rewrite Nat.sub_0_r. }
  destruct (groups_text_head z' l) as (c & s & E & Hc); [by apply Forall_cons in Hl as [? _]|].
  rewrite string_app_assoc, string_app_cons, E, v6_step by done.
  replace (acc ++ z :: z' :: l) with ((acc ++ [z]) ++ z' :: l) by (by rewrite <- app_assoc).
  replace (S n - length (z :: z' :: l))%nat with (n - length (z' :: l))%nat by done.
  rewrite <- (IH n _ t Hl) by (simpl in *; (done || lia)). rewrite E.
  apply hex_not_colon in Hc. destruct c as [[] [] [] [] [] [] [] []]; done.
Qed.

(** ** The run of zeros that [::] stands for *)

Lemma zeros_split l : l = repeat 0 (zeros l) ++ drop (zeros l) l /\ (zeros l <= length l)%nat.
Proof.
  induction l as [|[| |] l IH]; try (split; [done|simpl; lia]). destruct IH as [E ?].
  cbn. split; [by f_equal|lia].
Qed.

(** There are [n] zeros at [s]. *)
Definition run_at (l : list Z) (s n : nat) : Prop :=
  (s + n <= length l)%nat /\ l = take s l ++ repeat 0 n ++ drop (s + n) l.

Lemma longest_spec l : forall pre s n,
  n = 0%nat \/ run_at (pre ++ l) s n ->
  let '(s', n') := longest (length pre) l s n in n' = 0%nat \/ run_at (pre ++ l) s' n'.
Proof.
  induction l as [|z t IH]; intros pre s n H; [done|].
  cbn [longest]. specialize (IH (pre ++ [z])). rewrite <- app_assoc, length_app in IH.
  cbn [app length] in IH. rewrite Nat.add_1_r in IH.
  destruct ((2 <=? zeros (z :: t))%nat && _); apply IH; [|done].
  right. destruct (zeros_split (z :: t)) as [E L].
  split; [rewrite length_app; lia|]. rewrite take_app_length, drop_app_add. by rewrite <- E.
Qed.

Lemma longest_groups l :
  match longest 0 l 0 0 with (_, O) => True | (s, n) => run_at l s n end.
Proof.
  pose proof (longest_spec l [] 0 0) as K. cbn [app length] in K.
  destruct (longest 0 l 0 0) as [s [|n]]; [done|]. destruct K as [?|?]; [by left|done|done].
Qed.

(** ** The round trip *)

Lemma first_special_hex s t : all_hex s = true -> first_special (s +:+ String ":" t) = Some ":"%char.
Proof.
  induction s as [|c s IH]; [done|]. cbn [all_hex String.list_ascii_of_string forallb].
  intros [Hc Hs]%andb_true_iff. simpl. rewrite bool_decide_false; [by apply IH|].
  intros K. repeat (apply elem_of_cons in K as [-> |K]; [done|]). by apply elem_of_nil in K.
Qed.

Lemma has_percent s : all_hex s = true -> has_byte "%" s = false.
Proof.
  induction s as [|c s IH]; [done|]. cbn [all_hex String.list_ascii_of_string forallb].
  intros [Hc Hs]%andb_true_iff. simpl. rewrite bool_decide_false; [by apply IH|]. by intros ->.
Qed.

Lemma groups_text_percent l : Forall is_group l -> has_byte "%" (groups_text l) = false.
Proof.
  induction 1 as [|z l Hz Hl IH]; [done|]. rewrite groups_text_cons, has_byte_app.
  destruct (hex_word_ok z Hz) as (_ & _ & Ha). rewrite has_percent by done. by destruct l.
Qed.

(** A text of groups that starts with a group and holds a colon. *)
Lemma parse_groups z s :
  is_group z -> has_byte "%" s = false ->
  ParseIP (hex_word z +:+ String ":" s) = v6_groups 8 [] None (hex_word z +:+ String ":" s) ≫= expand.
Proof.
  intros Hz Hs. destruct (hex_word_ok z Hz) as (_ & _ & Ha).
  unfold ParseIP, parseIPv6. rewrite first_special_hex by done.
  rewrite has_byte_app, has_percent by done. cbn [has_byte orb]. rewrite Hs.
  destruct (hex_word_head z Hz) as (c & t & E & Hc). rewrite E.
  apply hex_not_colon in Hc. destruct c as [[] [] [] [] [] [] [] []]; try reflexivity. done.
Qed.

(** A text that starts with [::]. *)
Lemma parse_colons s :
  has_byte "%" s = false ->
  ParseIP ("::" +:+ s) =
  if decide (s = "") then Some (repeat 0 8) else v6_groups 8 [] (Some 0%nat) s ≫= expand.
Proof.
  intros Hs. change (ParseIP _) with (parseIPv6 ("::" +:+ s)). unfold parseIPv6.
  change (has_byte "%" ("::" +:+ s)) with (has_byte "%" s). rewrite Hs.
  destruct s as [|c s]; [done|]. rewrite decide_False by done. reflexivity.
Qed.

(** The address is what [::] and the groups around it stand for. *)
Lemma parse_run ip s n :
  valid_ip ip -> run_at ip s (S n) ->
  ParseIP (groups_text (take s ip) +:+ "::" +:+ groups_text (drop (s + S n) ip)) = Some ip.
Proof.
  intros [L F] [B E]. set (a := take s ip) in *. set (b := drop (s + S n) ip) in *.
  assert (length a = s) as La by (unfold a; rewrite length_take; lia).
  assert (length b = 8 - (s + S n))%nat as Lb by (unfold b; rewrite length_drop; lia).
  assert (Forall is_group a) as Fa by (by apply Forall_take).
  assert (Forall is_group b) as Fb by (by apply Forall_drop).
  clearbody a b.
  assert (expand (a ++ b, Some s) = Some ip) as X.
  { unfold expand. rewrite length_app, La, Lb, decide_False by lia.
    rewrite take_app_length', drop_app_length' by done.
    replace (8 - (s + (8 - (s + S n))))%nat with (S n) by lia. by rewrite <- E. }
  assert (has_byte "%" (groups_text b) = false) as Pb by (by apply groups_text_percent).
  assert (b <> [] -> groups_text b <> "") as Nb.
  { intros Hb. destruct b as [|y b']; [done|].
    destruct (groups_text_head y b') as (c & t & -> & _); [by apply Forall_cons in Fb as [? _]|done]. }
  destruct a as [|z a'].
  - simpl in La. subst s. change (groups_text [] +:+ "::" +:+ groups_text b) with ("::" +:+ groups_text b).
    rewrite parse_colons by done. destruct (decide (b = [])) as [-> |Hb].
    + rewrite decide_True by done. rewrite <- X. simpl in Lb. by replace n with 7%nat by lia.
    + rewrite decide_False by (by apply Nb). rewrite v6_read; [exact X|done|done|lia].
  - pose proof Fa as [Hz Fa']%Forall_cons.
    assert (ParseIP (groups_text (z :: a') +:+ "::" +:+ groups_text b) =
      v6_groups 8 [] None (groups_text (z :: a') +:+ "::" +:+ groups_text b) ≫= expand) as P.
    { rewrite groups_text_cons, string_app_assoc. destruct a' as [|y a''].
      - apply parse_groups; [done|]. done.
      - apply parse_groups; [done|]. rewrite has_byte_app, groups_text_percent by done. done. }
    rewrite P, v6_read_before; [|done..|lia]. rewrite app_nil_l, La.
    destruct (decide (b = [])) as [-> |Hb].
    + rewrite decide_True by done. rewrite app_nil_r in X. exact X.
    + rewrite decide_False by (by apply Nb). rewrite v6_read; [exact X|done|done|lia].
Qed.

Lemma parse_text ip :
  valid_ip ip -> ParseIP (groups_text ip) = Some ip.
Proof.
  intros [L F]. destruct ip as [|z ip]; [done|]. pose proof F as [Hz F']%Forall_cons.
  destruct ip as [|y ip]; [done|].
  rewrite groups_text_cons. rewrite parse_groups by (done || by apply groups_text_percent).
  change (hex_word z +:+ String ":" (groups_text (y :: ip))) with
    (hex_word z +:+ match y :: ip with [] => "" | _ => String ":" (groups_text (y :: ip)) end).
  rewrite <- groups_text_cons, v6_read; [|done|done|lia].
  unfold expand. cbn [mbind option_bind app]. by rewrite decide_True.
Qed.

Lemma To4_spec ip a b c d : valid_ip ip -> To4 ip = Some (a, b, c, d) ->
  Forall is_octet [a; b; c; d] /\ ip = v4_prefix ++ [a * 256 + b; c * 256 + d].
Proof.
  intros [L F] E. unfold To4 in E. repeat split_match; try done. injection E as <- <- <- <-.
  do 6 apply Forall_cons in F as [_ F]. apply Forall_cons in F as [Hx F].
  apply Forall_cons in F as [Hy _]. unfold is_group in *. split.
  - unfold is_octet. repeat constructor; div_lia.
  - unfold v4_prefix. cbn [app]. repeat f_equal; div_lia.
Qed.

Lemma parse_back ip : valid_ip ip -> ParseIP (IP_String ip) = Some ip.
Proof.
  intros V. unfold IP_String. destruct (To4 ip) as [[[[a b] c] d]|] eqn:E4.
  - destruct (To4_spec ip a b c d V E4) as [Ho ->]. by apply parse_dotted.
  - pose proof (longest_groups ip) as K. destruct (longest 0 ip 0 0) as [s [|n]].
    + by apply parse_text.
    + by apply parse_run.
Qed.

(** ** Everything that parses is an address *)

Lemma hex_val_range c z : hex_val c = Some z -> 0 <= z < 16.
Proof. unfold hex_val, in_range. repeat split_match; intros; simplify_eq; lia. Qed.

Lemma span_hex_range s : forall off acc n g r,
  0 <= acc < 16 ^ Z.of_nat off -> span_hex off acc s = (n, g, r) -> 0 <= g < 16 ^ Z.of_nat n.
Proof.
  induction s as [|c s IH]; intros off acc n g r Ha E; simpl in E; [by simplify_eq|].
  unfold is_hex in E. case_bool_decide as Hc; [|by simplify_eq]. destruct Hc as [x Hx].
  eapply IH; [|exact E]. unfold hex_acc. rewrite Hx. cbn [default from_option id].
  pose proof (hex_val_range c x Hx). rewrite Nat2Z.inj_succ, Z.pow_succ_r by lia. lia.
Qed.

Lemma Fields_valid s l : parseIPv4Fields s = Some l -> length l = 2%nat /\ Forall is_group l.
Proof.
  unfold parseIPv4Fields. intros E.
  destruct (split "." s) as [|a [|b [|c [|d [|]]]]]; try done.
  destruct (octet a) as [x|] eqn:Ea, (octet b) as [y|] eqn:Eb, (octet c) as [z|] eqn:Ec,
    (octet d) as [t|] eqn:Ed; try done. injection E as <-.
  apply octet_range in Ea, Eb, Ec, Ed. unfold is_octet, is_group in *.
  split; [done|]. repeat constructor; lia.
Qed.

(** What the loop returns is made of groups, no more than there is room for,
    and the [::] is among them. *)
Definition groups_fit (n : nat) (r : list Z * option nat) : Prop :=
  Forall is_group r.1 /\ (length r.1 <= n)%nat /\
  match r.2 with Some e => (e <= length r.1)%nat | None => True end.

Lemma v6_groups_fit n : forall acc e s r,
  groups_fit (length acc) (acc, e) -> v6_groups n acc e s = Some r -> groups_fit (length acc + n) r.
Proof.
  induction n as [|n IH]; intros acc e s r (Fa & _ & He) E; cbn [v6_groups] in E.
  - case_decide; [|done]. injection E as <-. split_and!; [done|simpl; lia|done].
  - destruct (span_hex 0 0 s) as [[off g] rest] eqn:Es.
    destruct ((off =? 0) || (4 <? off))%nat eqn:Eo; [done|].
    apply orb_false_iff in Eo as [_ Eo%Nat.ltb_ge].
    assert (is_group g) as Hg.
    { apply span_hex_range in Es; [|done]. unfold is_group.
      assert (16 ^ Z.of_nat off <= 16 ^ 4) by (apply Z.pow_le_mono_r; lia). lia. }
    assert (Forall is_group (acc ++ [g])) as Fg by (apply Forall_app_2; [done|by constructor]).
    assert (length (acc ++ [g]) = S (length acc)) as Lg by (rewrite length_app; simpl; lia).
    assert (forall e', match e' with Some e => (e <= S (length acc))%nat | None => True end ->
      forall t, v6_groups n (acc ++ [g]) e' t = Some r -> groups_fit (length acc + S n) r) as K.
    { intros e' He' t Et. replace (length acc + S n)%nat with (length (acc ++ [g]) + n)%nat by lia.
      eapply IH; [|exact Et]. split_and!; [done..|]. simpl. by rewrite Lg. }
    assert (forall e', match e' with Some e => (e <= S (length acc))%nat | None => True end ->
      groups_fit (length acc + S n) (acc ++ [g], e')) as K0.
    { intros e' He'. split_and!; simpl; [done|lia|by rewrite Lg]. }
    assert (match e with Some e => (e <= S (length acc))%nat | None => True end) as He1
      by (destruct e; simpl in *; lia).
    assert (forall ab, parseIPv4Fields s = Some ab -> (1 <= n)%nat ->
      groups_fit (length acc + S n) (acc ++ ab, e)) as K1.
    { intros ab [Lab Fab]%Fields_valid Hn. split_and!; cbn [fst snd] in *.
      - by apply Forall_app_2.
      - rewrite length_app. lia.
      - destruct e; [|done]. rewrite length_app. lia. }
    repeat (split_match; try done); rewrite ?Lg in *; simplify_eq.
    all: try (eapply K; [|done]; simpl; lia || done).
    all: try (apply K0; simpl; lia || done).
    all: destruct (parseIPv4Fields s) as [ab|] eqn:Ev; [|done]; cbn [mbind option_bind] in E;
      injection E as <-; apply K1; [done|].
    all: match goal with H : _ || (_ <? 2)%nat = false |- _ =>
      apply orb_false_iff in H as [_ ?%Nat.ltb_ge]; lia end.
Qed.

Lemma expand_valid r ip : groups_fit 8 r -> expand r = Some ip -> valid_ip ip.
Proof.
  destruct r as [gs e]. intros (F & L & He) E. cbn [fst snd] in *. unfold expand in E.
  case_decide; [case_bool_decide; [|done]; by simplify_eq|].
  destruct e as [e|]; [|done]. injection E as <-. split.
  - rewrite !length_app, repeat_length, length_take, length_drop. lia.
  - apply Forall_app_2; [by apply Forall_take|]. apply Forall_app_2; [|by apply Forall_drop].
    apply Forall_forall. intros z Hz%list_elem_of_In%repeat_spec. by subst.
Qed.

Lemma ParseIP_valid s ip : ParseIP s = Some ip -> valid_ip ip.
Proof.
  assert (forall e t, groups_fit 0 ([], e) -> v6_groups 8 [] e t ≫= expand = Some ip -> valid_ip ip) as K.
  { intros e t He E. destruct (v6_groups 8 [] e t) as [r|] eqn:Er; [|done].
    apply (v6_groups_fit 8 [] e t r He) in Er. by eapply expand_valid. }
  unfold ParseIP. intros E. destruct (first_special s) as [c|]; [|done].
  destruct (decide (c = "."%char)) as [-> |]; [|destruct (decide (c = ":"%char)) as [-> |]].
  - destruct (parseIPv4Fields s) as [l|] eqn:El; [|done]. injection E as <-.
    apply Fields_valid in El as [L F]. split; [simpl; lia|].
    change (Forall is_group (v4_prefix ++ l)). apply Forall_app_2; [|done]. by repeat constructor.
  - unfold parseIPv6 in E. destruct (has_byte "%" s); [done|].
    assert (groups_fit 0 ([], None)) as G0 by (split_and!; simpl; done || lia).
    assert (groups_fit 0 ([], Some 0%nat)) as G1 by (split_and!; simpl; done || lia).
    destruct s as [|c1 [|c2 t]]; [exact (K None "" G0 E)| |].
    { apply (K None (String c1 "") G0). destruct c1 as [[] [] [] [] [] [] [] []]; exact E. }
    destruct (decide (c1 = ":"%char /\ c2 = ":"%char)) as [[-> ->]|Hc].
    + destruct t as [|c t]; [|exact (K _ _ G1 E)]. injection E as <-. by repeat constructor.
    + apply (K None (String c1 (String c2 t)) G0). rewrite <- E.
      destruct c1 as [[] [] [] [] [] [] [] []]; try reflexivity.
      destruct c2 as [[] [] [] [] [] [] [] []]; try reflexivity. by destruct Hc.
  - destruct c as [[] [] [] [] [] [] [] []]; done.
Qed.

(** ** What [cleanIP] returns *)

Definition plain_byte (c : ascii) : bool := (b2z c <? 128) && negb (is_space (b2z c)).
Definition plain_text (s : string) : bool := forallb plain_byte (String.list_ascii_of_string s).

Lemma plain_app a b : plain_text (a +:+ b) = plain_text a && plain_text b.
Proof. unfold plain_text. induction a; simpl; [done|]. by rewrite IHa, andb_assoc. Qed.

Lemma plain_dot s : plain_text (String "." s) = plain_text s.
Proof. done. Qed.
Lemma comma_dot s : has_byte "," (String "." s) = has_byte "," s.
Proof. done. Qed.

Lemma TrimSpace_plain s : plain_text s = true -> TrimSpace s = s.
Proof.
  intros H.
  assert (spaced s = map (fun c => (String c "", false)) (String.list_ascii_of_string s)) as E.
  { induction s as [|c s IH]; [done|]. cbn in H. apply andb_true_iff in H as [Hc Hs].
    unfold plain_byte in Hc. apply andb_true_iff in Hc as [Ha Hc%negb_true_iff].
    unfold spaced in *. cbn [utf8_fold]. rewrite Ha, IH by done. simpl. by rewrite Hc. }
  unfold TrimSpace. rewrite E. clear E H. set (l := map _ _).
  assert (forall l, Forall (fun p => p.2 = false) l -> drop_space l = l) as D.
  { intros [|[t []] l0] F0; [done| |done]. by apply Forall_cons in F0 as [? _]. }
  assert (Forall (fun p => p.2 = false) l) as F.
  { apply Forall_fmap, Forall_forall. by intros c _. }
  rewrite (D l F), D, rev_involutive.
  - unfold l. clear. induction s as [|c s IH]; [done|]. simpl. by rewrite IH.
  - apply Forall_forall. intros p Hp%list_elem_of_In%in_rev%list_elem_of_In.
    by eapply Forall_forall in F.
Qed.

Lemma all_hex_plain s : all_hex s = true -> plain_text s = true /\ has_byte "," s = false.
Proof.
  induction s as [|c s IH]; [done|]. cbn [all_hex String.list_ascii_of_string forallb].
  intros [Hc Hs]%andb_true_iff. destruct (IH Hs) as [P C]. simpl. rewrite C.
  unfold plain_text in *. cbn [String.list_ascii_of_string forallb]. rewrite P, andb_true_r, orb_false_r.
  unfold is_hex, plain_byte in *. apply bool_decide_eq_true in Hc as [x Hx].
  revert x Hx. destruct c as [[] [] [] [] [] [] [] []]; vm_compute; by intros.
Qed.

Lemma groups_text_plain l :
  Forall is_group l -> plain_text (groups_text l) = true /\ has_byte "," (groups_text l) = false.
Proof.
  induction 1 as [|z l Hz Hl [IH1 IH2]]; [done|]. rewrite groups_text_cons, has_byte_app, plain_app.
  destruct (hex_word_ok z Hz) as (_ & _ & Ha). destruct (all_hex_plain _ Ha) as [-> ->].
  by destruct l.
Qed.

Lemma octets_plain :
  forallb (fun z => plain_text (Decimal.FormatUint z) && negb (has_byte "," (Decimal.FormatUint z)))
    (seqZ 0 256) = true.
Proof. vm_compute. reflexivity. Qed.

Lemma octet_plain z :
  is_octet z -> plain_text (Decimal.FormatUint z) = true /\ has_byte "," (Decimal.FormatUint z) = false.
Proof.
  intros Hz. pose proof octets_plain as K. rewrite forallb_forall in K.
  specialize (K z). rewrite <- list_elem_of_In, elem_of_seqZ, andb_true_iff, negb_true_iff in K.
  apply K. unfold is_octet in Hz. lia.
Qed.

Lemma IP_String_plain ip :
  valid_ip ip -> plain_text (IP_String ip) = true /\ has_byte "," (IP_String ip) = false.
Proof.
  intros V. unfold IP_String. destruct (To4 ip) as [[[[a b] c] d]|] eqn:E4.
  - destruct (To4_spec ip a b c d V E4) as [Ho _]. decompose_Forall_hyps.
    destruct (octet_plain a) as [? ?], (octet_plain b) as [? ?], (octet_plain c) as [? ?],
      (octet_plain d) as [? ?]; [done..|]. cbn [map join].
    rewrite !plain_app, !plain_dot, !plain_app, !plain_dot, !plain_app, !plain_dot.
    rewrite !has_byte_app, !comma_dot, !has_byte_app, !comma_dot, !has_byte_app, !comma_dot.
    split; [by repeat (apply andb_true_iff; split)|by repeat (apply orb_false_iff; split)].
  - destruct V as [_ F]. destruct (longest 0 ip 0 0) as [s [|n]]; [by apply groups_text_plain|].
    destruct (groups_text_plain (take s ip)) as [? ?]; [by apply Forall_take|].
    destruct (groups_text_plain (drop (s + S n) ip)) as [? ?]; [by apply Forall_drop|].
    rewrite !plain_app, !has_byte_app. split.
    + by repeat (apply andb_true_iff; split).
    + by repeat (apply orb_false_iff; split).
Qed.

Lemma last_ip_cases l :
  last_ip l = "" \/ exists ip, valid_ip ip /\ last_ip l = IP_String ip.
Proof.
  induction l as [|p l IH]; [by left|]. simpl. destruct (ParseIP (TrimSpace p)) as [ip|] eqn:E; [|done].
  right. exists ip. split; [|done]. by eapply ParseIP_valid.
Qed.

Lemma cleanIP_String ip : valid_ip ip -> cleanIP (IP_String ip) = IP_String ip.
Proof.
  intros V. destruct (IP_String_plain ip V) as [P C]. unfold cleanIP. rewrite split_none by done.
  simpl. rewrite TrimSpace_plain by done. by rewrite parse_back.
Qed.

(** C33: what [cleanIP] keeps of a client's address, whatever the client
    sends, is the empty text or the canonical text of an address, and
    cleaning it again changes nothing. *)
Theorem cleanIP_canonical s :
  (cleanIP s = "" \/ exists ip, valid_ip ip /\ cleanIP s = IP_String ip) /\
  cleanIP (cleanIP s) = cleanIP s.
Proof.
  assert (cleanIP s = "" \/ exists ip, valid_ip ip /\ cleanIP s = IP_String ip) as K
    by apply last_ip_cases.
  split; [done|]. destruct K as [-> |(ip & V & ->)]; [done|]. by apply cleanIP_String.
Qed.


(** The last address of a list counts: [X-Forwarded-For] decides, and a
    proxy that appends the true address decides over the client. *)
Lemma getIP_forwarded forwarded ip remote :
  valid_ip ip -> getIP (forwarded +:+ "," +:+ IP_String ip) remote = IP_String ip.
Proof.
  intros V. destruct (IP_String_plain ip V) as [P C]. unfold getIP. rewrite decide_False.
  2:{ by destruct forwarded. }
  unfold cleanIP. change ("," +:+ IP_String ip) with (String "," (IP_String ip)).
  replace (split "," (forwarded +:+ String "," (IP_String ip)))
    with (split "," forwarded ++ [IP_String ip]).
  - rewrite rev_app_distr. simpl. rewrite TrimSpace_plain by done. by rewrite parse_back.
  - induction forwarded as [|c f IH]; simpl; [by rewrite split_none|].
    case_decide; [by rewrite <- IH|]. rewrite <- IH. by destruct (split "," f) eqn:Es; [apply split_ne_nil in Es|].
Qed.

