(* ===== verification/Url.v ===== *)
(** * [net/url]: the scheme and the host of a URL

    What [roo/proxy.go] uses of [url.Parse]: the scheme, the host, and
    whether there is an error.  The user, the path, the query and the
    fragment are only checked. *)
From S2P Require Import Prelude Bytes Utf8 Json Types Http Net.

Record URL := mkURL { Scheme : string; Host : string }.

#[export] Instance URL_eq_dec : EqDecision URL.
Proof. solve_decision. Defined.

(** [strings.Cut(s, sep)] for a one-byte separator. *)
Fixpoint cut (sep : ascii) (s : string) : string * string * bool :=
  match s with
  | "" => ("", "", false)
  | String c s' =>
      if decide (c = sep) then ("", s', true)
      else let '(a, b, found) := cut sep s' in (String c a, b, found)
  end.

Definition is_letter (c : ascii) : bool :=
  in_range 97 122 (b2z c) || in_range 65 90 (b2z c).
Definition is_alnum (c : ascii) : bool := is_letter c || is_digit c.
Definition one_of (l : string) (c : ascii) : bool := has_byte c l.

(** [stringContainsCTLByte] *)
Definition ctl_byte (c : ascii) : bool := (b2z c <? 32) || (b2z c =? 127).
Fixpoint any_byte (f : ascii -> bool) (s : string) : bool :=
  match s with "" => false | String c s' => f c || any_byte f s' end.

(** [getScheme]: none for an error, else the scheme and the rest. *)
Fixpoint getScheme_from (first : bool) (s : string) : option (option (string * string)) :=
  (* [Some None]: no scheme *)
  match s with
  | "" => Some None
  | String c s' =>
      if is_letter c then
        r ← getScheme_from false s'; Some (option_map (fun p => (String c p.1, p.2)) r)
      else if is_digit c || one_of "+-." c then
        if first then Some None
        else r ← getScheme_from false s'; Some (option_map (fun p => (String c p.1, p.2)) r)
      else if decide (c = ":"%char) then
        if first then None else Some (Some ("", s'))
      else Some None
  end.
Definition getScheme (rawURL : string) : option (string * string) :=
  r ← getScheme_from true rawURL; Some (default ("", rawURL) r).

(** [strings.ToLower] on the letters of a scheme. *)
Fixpoint to_lower (s : string) : string :=
  match s with "" => "" | String c s' => String (lower c) (to_lower s') end.

(** [validOptionalPort] *)
Definition validOptionalPort (port : string) : bool :=
  match port with
  | "" => true
  | String ":" digits => all_digits digits
  | _ => false
  end.

(** A byte that a host may hold as it is: [!shouldEscape(c, encodeHost)]. *)
Definition host_byte (c : ascii) : bool :=
  is_alnum c || one_of "-_.~!$&'()*+,;=:[]<>" c || bool_decide (c = "034"%char).

(** [unescape(s, encodeHost)] and, for [zone], [unescape(s, encodeZone)]. *)
Fixpoint unescape_host (zone : bool) (s : string) : option string :=
  match s with
  | "" => Some ""
  | String "%" (String a (String b s')) =>
      x ← hex_val a; y ← hex_val b;
      let v := x * 16 + y in
      if (if zone then negb (v =? 37) && negb (v =? 32) && negb (host_byte (z2b v))
          else (x <? 8) && negb (v =? 37))
      then None
      else r ← unescape_host zone s'; Some (String (z2b v) r)
  | String "%" _ => None
  | String c s' =>
      if (b2z c <? 128) && negb (host_byte c) then None
      else r ← unescape_host zone s'; Some (String c r)
  end.

(** Whether the percent signs of a path, a fragment or a user are well
    formed. *)
Fixpoint percent_ok (s : string) : bool :=
  match s with
  | "" => true
  | String "%" (String a (String b s')) => is_hex a && is_hex b && percent_ok s'
  | String "%" _ => false
  | String _ s' => percent_ok s'
  end.

(** The place of the first [%25]. *)
Fixpoint zone_index (s : string) : option nat :=
  match s with
  | "" => None
  | String c s' => if has_prefix "%25" s then Some 0%nat else S <$> zone_index s'
  end.

Definition parseHost (host : string) : option string :=
  match host with
  | String "[" _ =>
      i ← last_index "]" host;
      if negb (validOptionalPort (sdrop (S i) host)) then None
      else match zone_index (stake i host) with
           | Some z =>
               h1 ← unescape_host false (stake z host);
               h2 ← unescape_host true (sdrop z (stake i host));
               h3 ← unescape_host false (sdrop i host);
               Some (h1 +:+ h2 +:+ h3)
           | None => unescape_host false host
           end
  | _ =>
      match last_index ":" host with
      | Some i => if negb (validOptionalPort (sdrop i host)) then None else unescape_host false host
      | None => unescape_host false host
      end
  end.

Definition validUserinfo (s : string) : bool :=
  negb (any_byte (fun c => negb (is_alnum c || one_of "-._:~!$&'()*+,;=%@" c)) s).

Definition parseAuthority (authority : string) : option string :=
  match last_index "@" authority with
  | None => parseHost authority
  | Some i =>
      host ← parseHost (sdrop (S i) authority);
      let userinfo := stake i authority in
      if validUserinfo userinfo && percent_ok userinfo then Some host else None
  end.

(** [parse(rawURL, false)] *)
Definition parse_url (rawURL : string) : option URL :=
  if any_byte ctl_byte rawURL then None
  else if decide (rawURL = "*") then Some (mkURL "" "")
  else
    '(scheme, rest) ← getScheme rawURL;
    let scheme := to_lower scheme in
    let rest := (cut "?" rest).1.1 in
    match rest with
    | String "/" rest1 =>
        match rest1 with
        | String "/" rest2 =>
            if bool_decide (scheme = "") && has_prefix "/" rest2 then
              if percent_ok rest then Some (mkURL scheme "") else None
            else
              let '(authority, path, slash) := cut "/" rest2 in
              host ← parseAuthority authority;
              if percent_ok path then Some (mkURL scheme host) else None
        | _ => if percent_ok rest then Some (mkURL scheme "") else None
        end
    | _ =>
        if negb (bool_decide (scheme = "")) then Some (mkURL scheme "")
        else if has_byte ":" (cut "/" rest).1.1 then None
        else if percent_ok rest then Some (mkURL scheme "") else None
    end.

(** [url.Parse]: none for an error. *)
Definition Parse (rawURL : string) : option URL :=
  let '(u, frag, _) := cut "#" rawURL in
  url ← parse_url u;
  if percent_ok frag then Some url else None.

Example Parse_examples :
  map Parse ["http://test_test:80"; "HTTPS://a.b"; "test_test:80"; "localhost:80"; "//h/x"; "http://[::1]:80/";
             "http://a:b"; "http://u:p@h:1/%41?q#f"; "http://h/%zz"; "http:///x"; "a b"; "http://a b"; ""] =
  [Some (mkURL "http" "test_test:80"); Some (mkURL "https" "a.b"); None; Some (mkURL "localhost" "");
   Some (mkURL "" "h"); Some (mkURL "http" "[::1]:80"); None; Some (mkURL "http" "h:1"); None;
   Some (mkURL "http" ""); Some (mkURL "" ""); None; Some (mkURL "" "")].
Proof. vm_compute. reflexivity. Qed.

(** ** A scheme, a host and a port are read back *)

(** A scheme: a letter, then letters, digits and [+-.]. *)
Definition scheme_text (s : string) : bool :=
  match s with
  | "" => false
  | String c s' => is_letter c && negb (any_byte (fun d => negb (is_alnum d || one_of "+-." d)) s')
  end.

(** A host without colons and brackets. *)
Definition plain_host (s : string) : bool :=
  negb (any_byte (fun c => negb (is_alnum c || one_of "-_.~" c)) s) && negb (bool_decide (s = "")).

Lemma any_byte_app f a b : any_byte f (a +:+ b) = any_byte f a || any_byte f b.
Proof. induction a; simpl; [done|]. by rewrite IHa, orb_assoc. Qed.

Lemma any_byte_false f g s : (forall c, f c = true -> g c = true) -> any_byte g s = false -> any_byte f s = false.
Proof.
  intros Hfg. induction s as [|c s IH]; [done|]. simpl. intros [Hc Hs]%orb_false_iff.
  rewrite IH by done. rewrite orb_false_r. destruct (f c) eqn:E; [|done]. by rewrite (Hfg c E) in Hc.
Qed.

Lemma cut_none sep s : has_byte sep s = false -> cut sep s = (s, "", false).
Proof.
  induction s as [|c s IH]; [done|]. simpl. intros [Hc Hs]%orb_false_iff.
  apply bool_decide_eq_false in Hc. rewrite decide_False by done. by rewrite IH.
Qed.

(** A text all of whose bytes satisfy a predicate. *)
Definition all_bytes (f : ascii -> bool) (s : string) : Prop := any_byte (fun c => negb (f c)) s = false.

Lemma all_bytes_cons f c s : all_bytes f (String c s) <-> f c = true /\ all_bytes f s.
Proof. unfold all_bytes. simpl. rewrite orb_false_iff, negb_false_iff. done. Qed.

Lemma all_bytes_app f a b : all_bytes f a -> all_bytes f b -> all_bytes f (a +:+ b).
Proof. unfold all_bytes. rewrite any_byte_app. by intros -> ->. Qed.

Lemma all_bytes_impl f g s : (forall c, f c = true -> g c = true) -> all_bytes f s -> all_bytes g s.
Proof.
  intros Hfg. apply any_byte_false. intros c. rewrite !negb_true_iff. intros Hc.
  destruct (f c) eqn:E; [|done]. by rewrite (Hfg c E) in Hc.
Qed.

Lemma all_bytes_without f c s : all_bytes f s -> f c = false -> has_byte c s = false.
Proof.
  intros Hs Hc. induction s as [|d s IH]; [done|]. apply all_bytes_cons in Hs as [Hd Hs].
  simpl. rewrite IH by done. rewrite bool_decide_eq_false_2; [done|]. intros ->. congruence.
Qed.

Lemma all_bytes_not f g s : all_bytes f s -> (forall c, f c = true -> g c = false) -> any_byte g s = false.
Proof.
  intros Hs Hfg. induction s as [|d s IH]; [done|]. apply all_bytes_cons in Hs as [Hd Hs].
  simpl. by rewrite (Hfg d Hd), IH.
Qed.

(** The bytes of a URL made of a scheme, a host and a port. *)
Definition plain_byte_url (c : ascii) : bool := is_alnum c || one_of "+-._~:/" c.

Lemma byte_cases (P : ascii -> bool) : forallb P (map z2b (seqZ 0 256)) = true -> forall c, P c = true.
Proof.
  intros H c. rewrite forallb_forall in H. apply H. apply list_elem_of_In, list_elem_of_fmap.
  exists (b2z c). rewrite z2b_b2z. split; [done|]. apply elem_of_seqZ. pose proof (b2z_range c). lia.
Qed.

Lemma implb_bytes (f g : ascii -> bool) :
  forallb (fun c => implb (f c) (g c)) (map z2b (seqZ 0 256)) = true ->
  forall c, f c = true -> g c = true.
Proof. intros H c Hc. pose proof (byte_cases _ H c) as K. simpl in K. by rewrite Hc in K. Qed.

Definition scheme_byte (c : ascii) : bool := is_alnum c || one_of "+-." c.
Definition plain_host_byte (c : ascii) : bool := is_alnum c || one_of "-_.~" c.

Lemma all_digits_bytes s : all_digits s = true -> all_bytes is_digit s.
Proof.
  induction s as [|c s IH]; [done|]. simpl. intros [Hc Hs]%andb_true_iff.
  apply all_bytes_cons. split; [done|by apply IH].
Qed.

Lemma plain_host_bytes h : plain_host h = true -> all_bytes plain_host_byte h /\ h <> "".
Proof. unfold plain_host. rewrite andb_true_iff, !negb_true_iff, bool_decide_eq_false. done. Qed.

Lemma scheme_bytes s : scheme_text s = true -> all_bytes scheme_byte s /\
  exists c s', s = String c s' /\ is_letter c = true.
Proof.
  destruct s as [|c s]; [done|]. simpl. intros [Hc Hs%negb_true_iff]%andb_true_iff.
  split; [|by exists c, s]. apply all_bytes_cons. split; [|done]. unfold scheme_byte, is_alnum. by rewrite Hc.
Qed.

Lemma getScheme_read first s rest :
  all_bytes scheme_byte s ->
  (first = true -> exists c s', s = String c s' /\ is_letter c = true) ->
  getScheme_from first (s +:+ String ":" rest) = Some (Some (s, rest)).
Proof.
  revert first. induction s as [|c s IH]; intros first Hs Hf.
  - destruct first; [by destruct (Hf eq_refl) as (? & ? & ? & _)|]. done.
  - apply all_bytes_cons in Hs as [Hc Hs]. rewrite string_app_cons. cbn [getScheme_from].
    rewrite (IH false Hs) by done. cbn [mbind option_bind option_map].
    destruct (is_letter c) eqn:El; [done|]. unfold scheme_byte, is_alnum in Hc. rewrite El in Hc.
    cbn [orb] in Hc. rewrite Hc. destruct first; [|done].
    destruct (Hf eq_refl) as (c' & s' & [= <- <-] & E). congruence.
Qed.

Lemma unescape_plain s : all_bytes (fun c => host_byte c && negb (bool_decide (c = "%"%char))) s ->
  unescape_host false s = Some s.
Proof.
  induction s as [|c s IH]; [done|]. intros [[Hc Hp]%andb_true_iff Hs]%all_bytes_cons.
  apply negb_true_iff, bool_decide_eq_false in Hp.
  assert (unescape_host false (String c s) =
    (if (b2z c <? 128) && negb (host_byte c) then None
     else r ← unescape_host false s; Some (String c r))) as ->.
  { destruct c as [[] [] [] [] [] [] [] []]; try reflexivity. done. }
  rewrite Hc, andb_false_r, IH by done. done.
Qed.

Lemma last_index_none c s : has_byte c s = false -> last_index c s = None.
Proof.
  induction s as [|d s IH]; [done|]. simpl. intros [Hd Hs]%orb_false_iff.
  apply bool_decide_eq_false in Hd. rewrite IH by done. by rewrite decide_False.
Qed.

Lemma last_index_app c s t : has_byte c t = false ->
  last_index c (s +:+ String c t) = Some (String.length s).
Proof.
  intros Ht. induction s as [|d s IH]; simpl.
  - rewrite last_index_none by done. by rewrite decide_True.
  - by rewrite IH.
Qed.

Lemma parseHost_plain h port :
  plain_host h = true -> all_digits port = true -> parseHost (h +:+ String ":" port) = Some (h +:+ String ":" port).
Proof.
  intros [Hh Hne]%plain_host_bytes Hp. pose proof (all_digits_bytes _ Hp) as Hd.
  assert (unescape_host false (h +:+ String ":" port) = Some (h +:+ String ":" port)) as E.
  { apply unescape_plain, all_bytes_app; [|apply all_bytes_cons; split; [done|]].
    - eapply all_bytes_impl; [|exact Hh]. by apply implb_bytes.
    - eapply all_bytes_impl; [|exact Hd]. by apply implb_bytes. }
  assert (parseHost (h +:+ String ":" port) =
    match last_index ":" (h +:+ String ":" port) with
    | Some i => if negb (validOptionalPort (sdrop i (h +:+ String ":" port))) then None
                else unescape_host false (h +:+ String ":" port)
    | None => unescape_host false (h +:+ String ":" port)
    end) as ->.
  { destruct h as [|c h]; [done|]. apply all_bytes_cons in Hh as [Hc _].
    destruct c as [[] [] [] [] [] [] [] []]; try reflexivity. done. }
  rewrite last_index_app by (by eapply all_bytes_without).
  rewrite sdrop_app by done. simpl. by rewrite Hp.
Qed.

(** What [GetValue] of a plain route gives is read back as its scheme, in
    lower case, and its host with the port. *)
Lemma Parse_plain scheme h port :
  scheme_text scheme = true -> plain_host h = true -> all_digits port = true ->
  Parse (scheme +:+ "://" +:+ h +:+ ":" +:+ port) =
  Some (mkURL (to_lower scheme) (h +:+ ":" +:+ port)).
Proof.
  intros Hs Hh Hp. pose proof (plain_host_bytes _ Hh) as [Hhb Hhn].
  pose proof (scheme_bytes _ Hs) as [Hsb Hsl]. pose proof (all_digits_bytes _ Hp) as Hpb.
  change ("://" +:+ h +:+ ":" +:+ port) with (String ":" ("//" +:+ h +:+ ":" +:+ port)).
  set (rest := "//" +:+ h +:+ ":" +:+ port). set (u := scheme +:+ String ":" rest).
  assert (all_bytes plain_byte_url rest) as Hr.
  { unfold rest. apply all_bytes_app; [done|]. apply all_bytes_app.
    - eapply all_bytes_impl; [|exact Hhb]. by apply implb_bytes.
    - apply all_bytes_app; [done|]. eapply all_bytes_impl; [|exact Hpb]. by apply implb_bytes. }
  assert (all_bytes plain_byte_url u) as Hu.
  { unfold u. apply all_bytes_app; [|by apply all_bytes_cons].
    eapply all_bytes_impl; [|exact Hsb]. by apply implb_bytes. }
  unfold Parse. rewrite cut_none by (by eapply all_bytes_without).
  unfold parse_url. rewrite (all_bytes_not plain_byte_url ctl_byte u Hu).
  2:{ intros c Hc. apply negb_true_iff. revert c Hc. by apply implb_bytes. }
  rewrite decide_False.
  2:{ intros E. apply (f_equal (has_byte ":")) in E. unfold u in E. rewrite has_byte_app in E.
      simpl in E. by rewrite orb_true_r in E. }
  unfold getScheme, u. rewrite getScheme_read by done. cbn [mbind option_bind default from_option id].
  rewrite cut_none by (by eapply all_bytes_without). cbn [fst].
  destruct Hsl as (c & s & -> & Hc). cbn [to_lower].
  change rest with (String "/" (String "/" (h +:+ String ":" port))).
  rewrite bool_decide_eq_false_2 by done. cbn [andb].
  assert (has_byte "/" (h +:+ String ":" port) = false) as Hslash.
  { rewrite has_byte_app. rewrite (all_bytes_without plain_host_byte) by done. simpl.
    by rewrite (all_bytes_without is_digit). }
  rewrite cut_none by done. unfold parseAuthority. rewrite last_index_none.
  2:{ rewrite has_byte_app. rewrite (all_bytes_without plain_host_byte) by done. simpl.
      by rewrite (all_bytes_without is_digit). }
  rewrite parseHost_plain by done. done.
Qed.
