(* ===== verification/GoCache.v ===== *)
(** * The interface of [github.com/patrickmn/go-cache]

    A cache of values with a time to live, in memory.  The package is not
    part of the repository: its operations are the class [GoCache], its
    documented behaviour the class [GoCacheLaws], with a map of values and
    expiry times as an instance.  Times are nanoseconds and arguments. *)
From S2P Require Import Prelude.

Class GoCache (C V : Type) := {
  cache_New : C;
  cache_Get : C -> Z -> string -> option V;
  cache_Set : C -> Z -> string -> V -> Z -> C;
  cache_Delete : C -> string -> C;
}.

Class GoCacheLaws (C V : Type) `{GoCache C V} := {
  cache_Get_New : forall t k, cache_Get cache_New t k = None;
  (* a value is there until its time has passed *)
  cache_Get_Set : forall c t k v d t', 0 < d ->
    cache_Get (cache_Set c t k v d) t' k = if t' <=? t + d then Some v else None;
  cache_Get_Set_ne : forall c t k v d t' k', k <> k' ->
    cache_Get (cache_Set c t k v d) t' k' = cache_Get c t' k';
  cache_Get_Delete : forall c t k, cache_Get (cache_Delete c k) t k = None;
  cache_Get_Delete_ne : forall c t k k', k <> k' ->
    cache_Get (cache_Delete c k) t k' = cache_Get c t k';
}.

Definition Second : Z := 10 ^ 9.

#[export] Instance map_GoCache V : GoCache (gmap string (V * Z)) V := {
  cache_New := ∅;
  cache_Get c t k :=
    match c !! k with
    | Some (v, e) => if t <=? e then Some v else None
    | None => None
    end;
  cache_Set c t k v d := <[k := (v, t + d)]> c;
  cache_Delete c k := base.delete k c;
}.

#[export] Instance map_GoCacheLaws V : GoCacheLaws (gmap string (V * Z)) V.
Proof.
  split; cbn; intros.
  - done.
  - by rewrite lookup_insert_eq.
  - by rewrite lookup_insert_ne.
  - by rewrite lookup_delete_eq.
  - by rewrite lookup_delete_ne.
Qed.
