(* ===== verification/CertCache.v ===== *)
(** * The certificate cache: [roo/kvcache.go]

    [KvService] stores certificates for the ACME manager: [Get], [Put] and
    [Delete] go through a cache in memory to keys of the cluster.  The
    cache holds values of any type; [Get] stores a [[]byte] and [Put] a
    pointer to one. *)
From S2P Require Import Prelude Bytes Utf8 Json Types Pebble DiskKV DiskKVSpec QuerySpec NodeHost.
From S2P Require Import Permissions PermissionSamples PermissionsSpec MaintenanceSpec.
From S2P Require Import Routes.
From S2P Require Import GoCache.

(** What the cache holds: a [[]byte], or a [*[]byte]. *)
Inductive cert_value := CertBytes (b : slice) | CertPointer (b : slice).

(** [cache.New(3600*time.Second, ...)] *)
Definition CertExpiration : Z := 3600 * Second.

Section CertCache.
Context {W C : Type} `{NodeHost W} `{GoCache C cert_value} (AppConfig : AppConfig).
Abbreviation shard := (cfg_ShardID AppConfig).

(** The node and [CertCache]. *)
Definition on_cluster {A} (m : io W A) : io (W * C) A := zoom fst (fun w s => (w, s.2)) m.
Definition on_cache (f : C -> C) : io (W * C) unit := modify (fun s => (s.1, f s.2)).

(** At the time [now], in nanoseconds. *)
Definition CertGet (now : Z) (name : string) : io (W * C) slice :=
  let* s := get in
  match cache_Get s.2 now name with
  | Some (CertBytes p) => ret p
  | Some (CertPointer _) => panic "interface conversion"
  | None =>
      let keyname := CACHE_PREFIX +:+ name in
      let* result := on_cluster (SyncRead shard (QString keyname)) in
      match result with
      | AMap _ => panic "interface conversion"
      | ABytes b =>
          if (slice_len b =? 0)%nat then fail ErrCacheMiss
          else
            let* _ := on_cache (fun c => cache_Set c now name (CertBytes b) CertExpiration) in
            ret b
      end
  end.

Definition CertPut (now : Z) (name : string) (data : slice) : io (W * C) unit :=
  let keyname := CACHE_PREFIX +:+ name in
  let* _ := on_cluster (SyncPropose shard (MarshalKVData (mkKVData keyname data))) in
  on_cache (fun c => cache_Set c now name (CertPointer data) CertExpiration).

Definition CertDelete (now : Z) (name : string) : io (W * C) unit :=
  let* _ := on_cache (fun c => cache_Delete c name) in
  CertPut now name (Some "").
End CertCache.

(** ** Properties *)

Section Properties.
Context {W C : Type} `{NodeHostLaws W} `{GoCacheLaws C cert_value} (cfg : AppConfig).

Lemma run_on_cluster {A} (m : io W A) w (c : C) :
  run (on_cluster m) (w, c) = let '(w', x) := run m w in ((w', c), x).
Proof. unfold on_cluster. by rewrite run_zoom. Qed.

Lemma run_on_cache (f : C -> C) (w : W) c : run (on_cache f) (w, c) = ((w, f c), Ret tt).
Proof. done. Qed.

Lemma run_CertPut w (c : C) now name data :
  nh_ok w -> valid_utf8 name = true ->
  exists w', run (CertPut cfg now name data) (w, c) =
      ((w', cache_Set c now name (CertPointer data) CertExpiration), Ret tt) /\ nh_ok w' /\
    nh_view w' !! (CACHE_PREFIX +:+ name) = data /\
    forall k, free_key k -> k <> CACHE_PREFIX +:+ name -> nh_view w' !! k = nh_view w !! k.
Proof.
  intros Hw Hv. destruct (run_proposeData cfg w (mkKVData (CACHE_PREFIX +:+ name) data) Hw)
    as (w' & i & E & Hw' & V).
  assert (sanitize (CACHE_PREFIX +:+ name) = CACHE_PREFIX +:+ name) as Es
    by (by rewrite sanitize_app, sanitize_valid by done).
  exists w'. split_and!; [|done|..].
  - unfold proposeData in E. rewrite run_bind in E. unfold CertPut.
    rewrite run_bind, run_on_cluster. destruct (run (SyncPropose _ _) w) as [w1 [n|e|p]];
      injection E; intros; by subst.
  - rewrite V, stamp_free by done. rewrite exec_put by done. unfold write. cbn [Val Key].
    rewrite Es. by destruct data; rewrite ?lookup_insert_eq, ?lookup_delete_eq.
  - intros k Hk Hne. rewrite V, stamp_free by done. rewrite exec_put by done. unfold write.
    cbn [Val Key]. rewrite Es. by destruct data; rewrite ?lookup_insert_ne, ?lookup_delete_ne.
Qed.

Lemma run_CertGet_miss w (c : C) now name :
  nh_ok w -> cache_Get c now name = None ->
  exists w', nh_ok w' /\ nh_view w' = nh_view w /\
    run (CertGet cfg now name) (w, c) =
      match nh_view w !! (CACHE_PREFIX +:+ name) with
      | Some (String a b) =>
          ((w', cache_Set c now name (CertBytes (Some (String a b))) CertExpiration),
           Ret (Some (String a b)))
      | _ => ((w', c), Err ErrCacheMiss)
      end.
Proof.
  intros Hw Hc. destruct (read_key w (cfg_ShardID cfg) (CACHE_PREFIX +:+ name) Hw)
    as (w' & E & Hw' & V). exists w'. split_and!; [done..|].
  unfold CertGet. go_step. cbn [snd]. rewrite Hc. rewrite run_bind, run_on_cluster, E.
  by destruct (nh_view w !! _) as [[|a b]|].
Qed.

(** C38: on the node that stored a certificate, reading it back within the
    hour brings the handler down, because the cache holds a pointer where
    a slice is expected; later, and on any other node, the certificate is
    read from the cluster. *)
Theorem cert_put_get w (c : C) t name data :
  nh_ok w -> valid_utf8 name = true -> data <> "" ->
  exists w1 c1, run (CertPut cfg t name (Some data)) (w, c) = ((w1, c1), Ret tt) /\
    (forall t', t' <= t + CertExpiration ->
       run (CertGet cfg t' name) (w1, c1) = ((w1, c1), Panic "interface conversion")) /\
    (forall t', t + CertExpiration < t' ->
       exists w2 c2, run (CertGet cfg t' name) (w1, c1) = ((w2, c2), Ret (Some data))) /\
    (forall t', exists w2 c2,
       run (CertGet cfg t' name) (w1, cache_New) = ((w2, c2), Ret (Some data))).
Proof.
  intros Hw Hv Hd. destruct (run_CertPut w c t name (Some data) Hw Hv) as (w1 & E1 & Hw1 & V1 & _).
  assert (forall c' t', cache_Get c' t' name = None ->
    exists w2 c2, run (CertGet cfg t' name) (w1, c') = ((w2, c2), Ret (Some data))) as K.
  { intros c' t' Hc. destruct (run_CertGet_miss w1 c' t' name Hw1 Hc) as (w2 & _ & _ & E2).
    rewrite V1 in E2. destruct data as [|a b]; [done|]. by do 2 eexists. }
  exists w1, (cache_Set c t name (CertPointer (Some data)) CertExpiration). split; [done|].
  split_and!; intros t'.
  - intros Ht. unfold CertGet. go_step. cbn [snd].
    rewrite cache_Get_Set, (proj2 (Z.leb_le _ _) Ht) by done. done.
  - intros Ht. apply K. rewrite cache_Get_Set, (proj2 (Z.leb_gt _ _)) by done. done.
  - apply K. apply cache_Get_New.
Qed.

(** Reading a certificate that is not in memory answers what the
    cluster holds and remembers it; an absent or empty one is a cache miss,
    so a deleted certificate is missed by the other nodes. *)
Theorem cert_get w (c : C) t name :
  nh_ok w -> cache_Get c t name = None ->
  exists w' c', run (CertGet cfg t name) (w, c) = ((w', c'),
      match nh_view w !! (CACHE_PREFIX +:+ name) with
      | Some (String a b) => Ret (Some (String a b))
      | _ => Err ErrCacheMiss
      end) /\ nh_ok w' /\ nh_view w' = nh_view w /\
    forall a b t', nh_view w !! (CACHE_PREFIX +:+ name) = Some (String a b) ->
      t' <= t + CertExpiration ->
      run (CertGet cfg t' name) (w', c') = ((w', c'), Ret (Some (String a b))).
Proof.
  intros Hw Hc. destruct (run_CertGet_miss w c t name Hw Hc) as (w' & Hw' & V & E).
  exists w'. destruct (nh_view w !! _) as [[|a b]|]; eexists; split_and!; try exact E; try done.
  intros ? ? t' [= <- <-] Ht. unfold CertGet. go_step. cbn [snd].
  rewrite cache_Get_Set, (proj2 (Z.leb_le _ _) Ht) by done. done.
Qed.
End Properties.

(** ** Witnesses *)

Lemma cert_put_get_witness :
  exists w1 c1,
    run (CertPut cfg_sample 7 "example" (Some "pem")) (empty_node, cache_New) = ((w1, c1), Ret tt) /\
    run (CertGet cfg_sample 8 "example") (w1, c1) = ((w1, c1), Panic "interface conversion").
Proof.
  destruct (cert_put_get (C := gmap string (cert_value * Z)) cfg_sample empty_node cache_New 7
    "example" "pem" empty_node_ok eq_refl ltac:(done)) as (w1 & c1 & E & K & _).
  exists w1, c1. split; [exact E|]. by apply K.
Defined.

Lemma cert_get_witness :
  exists w' c', run (CertGet cfg_sample 7 "example")
      (mkNode {["com.roo.cache:example" := "pem"]} 1, cache_New (C := gmap string (cert_value * Z))) =
    ((w', c'), Ret (Some "pem")).
Proof.
  destruct (cert_get (C := gmap string (cert_value * Z)) cfg_sample
    (mkNode {["com.roo.cache:example" := "pem"]} 1) cache_New 7 "example") as (w' & c' & E & _).
  - by apply map_Forall_singleton.
  - done.
  - exists w', c'. exact E.
Defined.
