(* ===== verification/HostPolicy.v ===== *)
(** * For which hosts a certificate may be asked: the [HostPolicy] of
    [roo/roo.go]

    The ACME manager asks the policy before it orders a certificate.  The
    policy scans the routes of the cluster and remembers its answer, yes or
    no, for four minutes. *)
From S2P Require Import Prelude Bytes Utf8 Json Types Pebble DiskKV DiskKVSpec QuerySpec NodeHost.
From S2P Require Import Permissions PermissionSamples.
From S2P Require Import KvService Routes Http Serve ServeSpec GoCache CertCache.

(** [cache.New(4*time.Minute, ...)] *)
Definition HostExpiration : Z := 240 * Second.

Section HostPolicy.
Context {W C : Type} `{NodeHost W} `{GoCache C bool} (AppConfig : AppConfig).

(** [ready] tells whether the cluster service has a session. *)
Definition HostPolicy (CheckHostnames ready : bool) (now : Z) (name : string) : io (W * C) unit :=
  if negb CheckHostnames then ret tt
  else if negb ready then fail (ErrorString "Hostname Check Not Ready")
  else
    let* s := get in
    match cache_Get s.2 now name with
    | Some exists_ =>
        if exists_ : bool then ret tt
        else fail (ErrorString "Hostname Check Failed (Repeat)")
    | None =>
        let* r := try (on_cluster (execute AppConfig
          (mkKVAction SCAN (Some (mkKVData (HOST_PREFIX +:+ name) None))))) in
        let* found :=
          match r with
          | inl _ => ret false
          | inr hosts => let* m := as_map hosts in ret (negb (bool_decide (m = ∅)))
          end in
        if found : bool then
          on_cache (fun c => cache_Set c now name true HostExpiration)
        else
          let* _ := on_cache (fun c => cache_Set c now name false HostExpiration) in
          fail (ErrorString "Hostname Check Failed")
    end.
End HostPolicy.

Section Properties.
Context {W C : Type} `{NodeHostLaws W} `{GoCacheLaws C bool} (cfg : AppConfig).

(** Some key of a route starts with the name. *)
Definition routed (m : gmap string string) (name : string) : bool :=
  negb (bool_decide (filter (fun kv => has_prefix (HOST_PREFIX +:+ name) kv.1 = true) m = ∅)).

Lemma routed_iff m name :
  routed m name = true <-> exists t v, m !! (HOST_PREFIX +:+ name +:+ t) = Some v.
Proof.
  unfold routed. rewrite negb_true_iff, bool_decide_eq_false. split.
  - intros [k [v Hk]]%map_choose. apply map_lookup_filter_Some in Hk as [Hk Hp].
    cbn [fst] in Hp. apply has_prefix_spec in Hp as [t ->]. rewrite string_app_assoc in Hk. eauto.
  - intros (t & v & Hk) E. refine (map_filter_empty_not_lookup _ _ _ _ E _ Hk). cbn [fst]. rewrite <- string_app_assoc. apply has_prefix_app.
Qed.

(** C37: a name that is not remembered is allowed exactly when it is a
    prefix of the origin of some route, so a prefix of a served host is
    allowed too; the same answer is given for four minutes, whatever
    becomes of the routes. *)
Theorem host_policy w w2 (c : C) now now2 name :
  nh_ok w -> cache_Get c now name = None -> now2 <= now + HostExpiration ->
  exists w1 c1 out, run (HostPolicy cfg true true now name) (w, c) = ((w1, c1), out) /\
    nh_view w1 = nh_view w /\
    (out = Ret tt <-> exists t v, nh_view w !! (HOST_PREFIX +:+ name +:+ t) = Some v) /\
    exists out2, run (HostPolicy cfg true true now2 name) (w2, c1) = ((w2, c1), out2) /\
      (out2 = Ret tt <-> out = Ret tt).
Proof.
  intros Hw Hc Hn. destruct (run_execute_read cfg w SCAN (mkKVData (HOST_PREFIX +:+ name) None) Hw)
    as (w1 & E & Hw1 & V); [by right|].
  assert (run (HostPolicy cfg true true now name) (w, c) =
    ((w1, cache_Set c now name (routed (nh_view w) name) HostExpiration),
     if routed (nh_view w) name then Ret tt else Err (ErrorString "Hostname Check Failed"))) as ER.
  { unfold HostPolicy. cbn [negb]. go_step. cbn [snd]. rewrite Hc.
    rewrite run_bind, run_try, run_on_cluster, E. cbn [as_map].
    change (answer_of (nh_view w) SCAN _) with
      (AMap (filter (fun kv => has_prefix (HOST_PREFIX +:+ name) kv.1 = true) (nh_view w))).
    do 3 go_step. fold (routed (nh_view w) name). by destruct (routed (nh_view w) name). }
  exists w1, (cache_Set c now name (routed (nh_view w) name) HostExpiration). eexists.
  split; [exact ER|]. split; [done|]. rewrite <- routed_iff.
  split; [by destruct (routed (nh_view w) name)|].
  exists (if routed (nh_view w) name then Ret tt
          else Err (ErrorString "Hostname Check Failed (Repeat)")). split.
  - unfold HostPolicy. cbn [negb]. go_step. cbn [snd].
    rewrite cache_Get_Set, (proj2 (Z.leb_le _ _) Hn) by done. by destruct (routed (nh_view w) name).
  - by destruct (routed (nh_view w) name).
Qed.
End Properties.

Lemma host_policy_witness :
  exists w1 c1,
    run (HostPolicy cfg_sample true true 7 "exa")
      (mkNode {["com.roo.host:example.com:https" := "http://web:80"]} 1,
       cache_New (C := gmap string (bool * Z))) = ((w1, c1), Ret tt).
Proof.
  destruct (host_policy (C := gmap string (bool * Z)) cfg_sample
    (mkNode {["com.roo.host:example.com:https" := "http://web:80"]} 1) empty_node cache_New 7 8 "exa")
    as (w1 & c1 & out & E & _ & K & _).
  - by apply map_Forall_singleton.
  - done.
  - done.
  - exists w1, c1. rewrite (proj2 K) in E; [exact E|].
    exists "mple.com:https", "http://web:80". done.
Defined.
