(* ===== verification/Watcher.v ===== *)
(** * The watcher of the Raft members: [roo/kvwatcher.go]

    Every second the leader asks each member for its status; a member that
    does not answer is removed from the shard, at once if it has not been
    seen answering in the last minute, otherwise if its last answer is
    older than a threshold.  The membership of the shard and the HTTP
    requests are interfaces; the times at which each member is handled are
    arguments. *)
From S2P Require Import Prelude Bytes Utf8 Json Types Pebble DiskKV NodeHost Permissions.
From S2P Require Import PermissionSamples.
From S2P Require Import KvService Routes Net GoCache CertCache.

(** ** Workers *)

(** What the loop of a worker selects from: its ticker and its stopper. *)
Inductive signal := Tick | ShouldStop.

(** The loop, and whether it has returned. *)
Fixpoint worker {T} (tick : nat -> io T unit) (i : nat) (l : list signal) : io T bool :=
  match l with
  | [] => ret false
  | Tick :: l =>
      let* _ := tick i in
      worker tick (S i) l
  | ShouldStop :: _ => ret true
  end.

Lemma worker_keeps {T} (I : T -> Prop) (tick : nat -> io T unit) i l :
  (forall i s, I s -> I (run (tick i) s).1) -> forall s, I s -> I (run (worker tick i l) s).1.
Proof.
  intros Ht. revert i. induction l as [|[] l IH]; intros i s Hs; [done| |done]. cbn [worker]. rewrite run_bind.
  specialize (Ht i s Hs). destruct (run (tick i) s) as [s' []]; [by apply IH|done..].
Qed.

(** ** One tick *)

(** [host, _, _ := net.SplitHostPort(node)] *)
Definition host_of (node : string) : string :=
  match SplitHostPort node with Some (host, _) => host | None => "" end.

(** What the watcher uses of the node host, and of the HTTP client: whether
    a request succeeded with a status from 200 to 299. *)
Class Membership (W : Type) := {
  GetLeaderID : Z -> io W Z;
  SyncGetShardMembership : Z -> io W (list (Z * string));
  HttpGetOk : string -> io W bool;
}.

(** [int64(BOOTSTRAP_WAIT_S)*10^9]: the operator is exclusive or. *)
Definition threshold : Z := Z.lxor (BOOTSTRAP_WAIT_S * 10) 9.

Section Watcher.
Context {W C : Type} `{NodeHost W, Membership W} `{GoCache C Z} (AppConfig : AppConfig)
  (ApiVersionString : string) (own : Z).
Abbreviation shard := (cfg_ShardID AppConfig).

(** The failure of a removal is logged. *)
Definition removeMember (replica : Z) : io (W * C) unit :=
  let* _ := try (on_cluster (RequestDeleteReplica shard replica)) in
  ret tt.

(** One member, whose answer is looked at the time [now]. *)
Definition watchMember (now replica : Z) (node : string) : io (W * C) unit :=
  let host := host_of node in
  let url := "http://" +:+ host +:+ API_PORT +:+ "/roo/" +:+ ApiVersionString +:+ "/status" in
  let* ok := on_cluster (HttpGetOk url) in
  if ok : bool then
    on_cache (fun c => cache_Set c now host now (BOOTSTRAP_WAIT_S * Second))
  else
    let* s := get in
    match cache_Get s.2 now host with
    | Some pinged =>
        if threshold <? now - pinged then removeMember replica else ret tt
    | None => removeMember replica
    end.

Fixpoint watchMembers (clock : nat -> Z) (i : nat) (members : list (Z * string))
    : io (W * C) unit :=
  match members with
  | [] => ret tt
  | (replica, node) :: members =>
      let* _ := watchMember (clock i) replica node in
      watchMembers clock (S i) members
  end.

(** The body of the loop; [own] is the replica of this node. *)
Definition watchTick (clock : nat -> Z) : io (W * C) unit :=
  let* r := try (on_cluster (GetLeaderID shard)) in
  let leader := match r with inr l => l | inl _ => 0 end in
  if decide (leader = own) then
    let* r := try (on_cluster (SyncGetShardMembership shard)) in
    match r with
    | inr members => watchMembers clock 0 members
    | inl _ => ret tt
    end
  else ret tt.

(** [runRaftWatcher]: the cache of answers belongs to the worker. *)
Definition runRaftWatcher (clock : nat -> nat -> Z) (l : list signal) : io W bool :=
  zoom (fun w => (w, cache_New)) (fun s _ => s.1) (worker (fun i => watchTick (clock i)) 0 l).
End Watcher.

(** ** Properties *)

Lemma threshold_value : threshold = 593.
Proof. reflexivity. Qed.

Section Properties.
Context {W C : Type} `{NodeHost W, Membership W} `{GoCacheLaws C Z} (cfg : AppConfig)
  (version : string).

(** What removing a member comes to. *)
Definition removed_state (w : W) (replica : Z) : W * go unit :=
  match run (RequestDeleteReplica (cfg_ShardID cfg) replica) w with
  | (w', Panic p) => (w', Panic p)
  | (w', _) => (w', Ret tt)
  end.

Lemma run_removeMember w (c : C) replica :
  run (removeMember cfg replica) (w, c) =
  let '(w', x) := removed_state w replica in ((w', c), x).
Proof.
  unfold removeMember, removed_state. rewrite run_bind, run_try, run_on_cluster.
  by destruct (run (RequestDeleteReplica _ _) w) as [w' [a|e|p]].
Qed.

(** C40: the grace period is lost: a member that answered at one time and
    misses one request more than 593 nanoseconds later, a tick being a
    second, is removed from the shard; so is one that was never seen, or
    not in the last minute.  A member that answers is kept. *)
Theorem watcher_removes w1 w2 (c : C) t t' replica node url :
  url = "http://" +:+ host_of node +:+ ":6299/roo/" +:+ version +:+ "/status" ->
  run (HttpGetOk url) w1 = (w1, Ret true) -> run (HttpGetOk url) w2 = (w2, Ret false) ->
  exists c1, run (watchMember cfg version t replica node) (w1, c) = ((w1, c1), Ret tt) /\
    (t + 593 < t' ->
       run (watchMember cfg version t' replica node) (w2, c1) =
       let '(w', x) := removed_state w2 replica in ((w', c1), x)) /\
    (cache_Get c t' (host_of node) = None ->
       run (watchMember cfg version t' replica node) (w2, c) =
       let '(w', x) := removed_state w2 replica in ((w', c), x)).
Proof.
  intros -> E1 E2. exists (cache_Set c t (host_of node) t (BOOTSTRAP_WAIT_S * Second)).
  assert (forall t (w : W) (c : C), run (watchMember cfg version t replica node) (w, c) =
    match run (HttpGetOk ("http://" +:+ host_of node +:+ ":6299/roo/" +:+ version +:+ "/status")) w with
    | (w', Ret true) => ((w', cache_Set c t (host_of node) t (BOOTSTRAP_WAIT_S * Second)), Ret tt)
    | (w', Ret false) =>
        run (match cache_Get c t (host_of node) with
             | Some pinged => if threshold <? t - pinged then removeMember cfg replica else ret tt
             | None => removeMember cfg replica
             end) (w', c)
    | (w', Err e) => ((w', c), Err e)
    | (w', Panic p) => ((w', c), Panic p)
    end) as R.
  { intros. unfold watchMember. rewrite run_bind, run_on_cluster.
    change (API_PORT +:+ "/roo/" +:+ version +:+ "/status") with
      (":6299/roo/" +:+ version +:+ "/status").
    destruct (run (HttpGetOk _) w) as [w' [[]|e|p]]; try done. by rewrite run_bind, run_get. }
  split_and!.
  - by rewrite R, E1.
  - intros Ht. rewrite R, E2, cache_Get_Set by done. destruct (t' <=? _).
    + rewrite (proj2 (Z.ltb_lt _ _)) by (rewrite threshold_value; lia). apply run_removeMember.
    + apply run_removeMember.
  - intros Hc. rewrite R, E2, Hc. apply run_removeMember.
Qed.

(** Only the leader removes members: on any other node a tick does
    nothing. *)
Theorem watcher_leader_only own clock w w1 (c : C) leader :
  run (GetLeaderID (cfg_ShardID cfg)) w = (w1, Ret leader) -> leader <> own ->
  run (watchTick cfg version own clock) (w, c) = ((w1, c), Ret tt).
Proof.
  intros E Hne. unfold watchTick. rewrite run_bind, run_try, run_on_cluster, E. cbv iota beta.
  by rewrite decide_False.
Qed.

(** *** Over time *)

Section Spared.
Context (I : W -> Prop) (replica : Z) (node : string).
Abbreviation url n := ("http://" +:+ host_of n +:+ ":6299/roo/" +:+ version +:+ "/status").
Abbreviation shard := (cfg_ShardID cfg).
Hypotheses (I_leader : forall w, I w -> I (run (GetLeaderID shard) w).1)
  (I_get : forall u w, I w -> I (run (HttpGetOk u) w).1)
  (I_members : forall w, I w -> I (run (SyncGetShardMembership shard) w).1)
  (I_others : forall n w, n <> replica -> I w -> I (run (RequestDeleteReplica shard n) w).1)
  (I_node : forall w ms, I w -> (run (SyncGetShardMembership shard) w).2 = Ret ms ->
    Forall (fun m => m.1 = replica -> m.2 = node) ms)
  (I_answers : forall w, I w -> (run (HttpGetOk (url node)) w).2 = Ret true).

Abbreviation held := (fun s : W * C => I s.1).

Lemma member_spared now n addr s :
  (n = replica -> addr = node) -> held s -> held (run (watchMember cfg version now n addr) s).1.
Proof.
  intros Hn. destruct s as [w c]. cbn [fst]. intros Hw. unfold watchMember. rewrite run_bind, run_on_cluster.
  change (API_PORT +:+ "/roo/" +:+ version +:+ "/status") with (":6299/roo/" +:+ version +:+ "/status").
  pose proof (I_get (url addr) w Hw) as Hw'.
  assert (n = replica -> (run (HttpGetOk (url addr)) w).2 = Ret true) as Ha.
  { intros E. rewrite (Hn E). by apply I_answers. }
  destruct (run (HttpGetOk (url addr)) w) as [w' [[]|e|p]]; cbn [fst snd] in *; [done| |done..].
  assert (n <> replica) as Hne by (intros E; by specialize (Ha E)).
  assert (held (run (removeMember cfg n) (w', c)).1) as HR.
  { rewrite run_removeMember. unfold removed_state. specialize (I_others n w' Hne Hw').
    by destruct (run (RequestDeleteReplica _ n) w') as [w2 []]. }
  rewrite run_bind, run_get. cbn [snd]. destruct (cache_Get c now (host_of addr)) as [pinged|]; [|done].
  by destruct (threshold <? now - pinged).
Qed.

Lemma tick_spared own clock s : held s -> held (run (watchTick cfg version own clock) s).1.
Proof.
  destruct s as [w c]. cbn [fst]. intros Hw. unfold watchTick. rewrite run_bind, run_try, run_on_cluster.
  pose proof (I_leader w Hw) as Hw1. destruct (run (GetLeaderID shard) w) as [w1 r]. cbn [fst] in Hw1.
  assert (forall leader : Z, held (run (if decide (leader = own) then
    let* r := try (on_cluster (SyncGetShardMembership shard)) in
    match r with inr members => watchMembers cfg version clock 0 members | inl _ => ret tt end
    else ret tt) (w1, c)).1) as K; [|destruct r; [apply K|apply K|done]].
  intros leader. destruct (decide (leader = own)); [|done]. rewrite run_bind, run_try, run_on_cluster.
  pose proof (I_members w1 Hw1) as Hw2. pose proof (I_node w1) as HN.
  destruct (run (SyncGetShardMembership shard) w1) as [w2 [ms|x|p]]; cbn [fst snd] in *; [|done..].
  specialize (HN ms Hw1 eq_refl). generalize 0%nat as i. clear -Hw2 HN I_get I_others I_answers. intros i.
  assert (held (w2, c)) as Hs by done. revert Hs. generalize (w2, c) as s. clear Hw2. revert i.
  induction HN as [|[n addr] ms Hn _ IH]; intros i s Hs; [done|]. cbn [watchMembers]. rewrite run_bind.
  pose proof (member_spared (clock i) n addr s Hn Hs) as Hs'.
  destruct (run (watchMember cfg version (clock i) n addr) s) as [s' []]; [by apply IH|done..].
Qed.

(** C26: a member that answers is kept, however long the watcher runs and
    whatever becomes of the others: what holds of the cluster as long as
    that replica is not asked to leave holds after any number of ticks. *)
Theorem watcher_spares own clock l w : I w -> I (run (runRaftWatcher cfg version own clock l) w).1.
Proof.
  intros Hw. unfold runRaftWatcher. rewrite run_zoom.
  pose proof (worker_keeps held (fun i => watchTick cfg version own (clock i)) 0 l
    (fun i s => tick_spared own (clock i) s) (w, cache_New) Hw) as K.
  by destruct (run (worker _ 0 l) (w, cache_New)) as [s r].
Qed.
End Spared.
End Properties.

(** ** Witnesses *)

(** A node of the cluster, whether its peers answer, and the removals. *)
Record peers := mkPeers { p_answer : bool; p_removed : list Z }.

#[local] Instance peers_NodeHost : NodeHost peers := {
  SyncRead _ _ := fail (ErrExternal 1);
  SyncPropose _ _ := fail (ErrExternal 1);
  RequestDeleteReplica _ n := modify (fun p => mkPeers (p_answer p) (n :: p_removed p));
  RequestAddReplica _ _ _ := fail (ErrExternal 1) }.
#[local] Instance peers_Membership : Membership peers := {
  GetLeaderID _ := ret 7;
  SyncGetShardMembership _ := ret [(8, "10.0.0.2:6300")];
  HttpGetOk _ := fun p => ([], (p, Ret (p_answer p))) }.

Lemma watcher_removes_witness :
  exists c1,
    run (watchMember cfg_sample "v1" 1000 8 "10.0.0.2:6300")
      (mkPeers true [], cache_New (C := gmap string (Z * Z))) = ((mkPeers true [], c1), Ret tt) /\
    run (watchMember cfg_sample "v1" (1000 + 10 ^ 9) 8 "10.0.0.2:6300") (mkPeers false [], c1) =
      ((mkPeers false [8], c1), Ret tt).
Proof.
  destruct (watcher_removes (C := gmap string (Z * Z)) cfg_sample "v1" (mkPeers true [])
    (mkPeers false []) cache_New 1000 (1000 + 10 ^ 9) 8 "10.0.0.2:6300"
    "http://10.0.0.2:6299/roo/v1/status") as (c1 & E & K & _); [done..|].
  exists c1. split; [exact E|]. by apply K.
Defined.

Lemma watcher_leader_only_witness :
  run (watchTick cfg_sample "v1" 9 (fun _ => 0)) (mkPeers false [], cache_New (C := gmap string (Z * Z))) =
  ((mkPeers false [], cache_New), Ret tt).
Proof.
  by apply (watcher_leader_only cfg_sample "v1" 9 (fun _ => 0) (mkPeers false []) (mkPeers false [])
    cache_New 7).
Defined.

(** Two members, of which only the first answers. *)
Record pair := mkPair { p_asked : list Z }.

#[local] Instance pair_NodeHost : NodeHost pair := {
  SyncRead _ _ := fail (ErrExternal 1);
  SyncPropose _ _ := fail (ErrExternal 1);
  RequestDeleteReplica _ n := modify (fun p => mkPair (n :: p_asked p));
  RequestAddReplica _ _ _ := fail (ErrExternal 1) }.
#[local] Instance pair_Membership : Membership pair := {
  GetLeaderID _ := ret 7;
  SyncGetShardMembership _ := ret [(8, "10.0.0.2:6300"); (9, "10.0.0.3:6300")];
  HttpGetOk u := ret (bool_decide (u = "http://10.0.0.2:6299/roo/v1/status")) }.

Lemma watcher_spares_witness :
  8 ∉ p_asked (run (runRaftWatcher (C := gmap string (Z * Z)) cfg_sample "v1" 7
    (fun i j => Z.of_nat i * 10 ^ 9) [Tick; Tick; Tick; ShouldStop]) (mkPair [])).1 /\
  9 ∈ p_asked (run (runRaftWatcher (C := gmap string (Z * Z)) cfg_sample "v1" 7
    (fun i j => Z.of_nat i * 10 ^ 9) [Tick; Tick; Tick; ShouldStop]) (mkPair [])).1.
Proof.
  split.
  - refine (watcher_spares (C := gmap string (Z * Z)) cfg_sample "v1" (fun p => 8 ∉ p_asked p) 8 "10.0.0.2:6300"
      _ _ _ _ _ _ 7 _ _ (mkPair []) _).
    + intros w Hw. exact Hw.
    + intros u w Hw. exact Hw.
    + intros w Hw. exact Hw.
    + intros n w Hn Hw. simpl. apply not_elem_of_cons. split; [congruence|exact Hw].
    + intros w ms _ E. injection E as <-. repeat (apply Forall_cons_2; [intros E; first [reflexivity|discriminate]|]). apply Forall_nil_2.
    + intros w _. reflexivity.
    + apply not_elem_of_nil.
  - apply (bool_decide_unpack _). vm_compute. exact I.
Defined.
