(* ===== verification/Gateway.v ===== *)
(** * The API server of [roo/roo.go]

    Every API request but a few takes one of [MaximumConnections] tokens
    from the channel [connc] and puts it back when it is done; with no
    token left the answer is 503.  A panic ends the request (the server
    closes the connection) and skips what follows, so the token is not put
    back.  Requests may also be in flight at the same time: [step] is the
    transition system of the tokens. *)
From S2P Require Import Prelude Bytes Utf8 Json Types Pebble DiskKV NodeHost Permissions.
From S2P Require Import KvService Routes Http Serve GoCache.

Definition PONG : string := "PONG".

(** ** Handlers without tokens *)

Definition cors_headers (origin : string) (r : response) : response :=
  let r := Header_Set "access-control-allow-origin" origin r in
  let r := Header_Set "access-control-allow-credentials" "true" r in
  let r := Header_Set "access-control-allow-headers"
             "Authorization,Accept,X-CSRFToken,User,Content-Type,Header" r in
  let r := Header_Set "access-control-allow-methods" "GET,POST,HEAD,PUT,DELETE" r in
  Header_Set "access-control-max-age" "1728000" r.

Definition optionsHandler (origin : string) : response :=
  WriteHeader StatusOK (cors_headers origin new_response).

Definition pingHandler (origin : string) : response :=
  let w := WriteHeader StatusOK new_response in
  let w := Header_Set "access-control-allow-origin" origin w in
  Write PONG w.

Definition statusHandler (origin : string) (st : ClusterStatus) : response :=
  let w := WriteHeader StatusOK new_response in
  let w := Header_Set "access-control-allow-origin" origin w in
  let w := Header_Set "Content-Type" "application/json" w in
  Write (MarshalClusterStatus st) w.

(** ** Handlers with a token *)

(** The node with the goroutines started, the response being written, and
    the tokens in [connc]. *)
Record gateway (W : Type) := mkGateway { gw_handling : handling W; gw_conns : nat }.
Arguments mkGateway {W} _ _.
Arguments gw_handling {W} _.
Arguments gw_conns {W} _.

(** The text a client is sent for an error. *)
Fixpoint error_text (e : goerror) : string :=
  match e with
  | ErrorString s => s
  | ErrorWrap p e => p +:+ ": " +:+ error_text e
  | ErrNotExist => "file does not exist"
  | ErrNotFound => "pebble: not found"
  | ErrCacheMiss => "acme/autocert: certificate cache miss"
  | ErrExternal _ => "error"
  end.

Section Handlers.
Context {W : Type} `{NodeHost W, Docker W} (AppConfig : AppConfig) (am : ambient)
  (order : gmap string string -> list (string * string)).

Definition on_handling {A} (m : io (handling W) A) : io (gateway W) A :=
  zoom gw_handling (fun h g => mkGateway h (gw_conns g)) m.
Definition set_conns (n : nat) : io (gateway W) unit :=
  modify (fun g => mkGateway (gw_handling g) n).
Definition new_request : io (gateway W) unit :=
  on_handling (modify (fun h => mkHandling (h_node h) new_response (h_spawned h))).

(** [ready] tells whether the API service has a session yet. *)
Definition serveWithArgs (ready : bool) (args : ServiceArgs) (body : request_body)
    : io (handling W) unit :=
  if ready then serve AppConfig am order args body else ret tt.

(** An error of the service as a response. *)
Definition or_bad_request (m : io (handling W) unit) : io (handling W) unit :=
  let* r := try m in
  match r with
  | inr _ => ret tt
  | inl e =>
      let* _ := respond (WriteHeader StatusBadRequest) in
      respond (Write (error_text e))
  end.

(** The handlers of the routes [/join], [/remove], [/rescue], [/kvs],
    [/kv] and [/perm]. *)
Definition apiHandler (ready : bool) (args : ServiceArgs) (body : request_body)
    : io (gateway W) unit :=
  let* _ := new_request in
  let* g := get in
  match gw_conns g with
  | S n =>
      let* _ := set_conns n in
      let* _ := on_handling (respond
        (Header_Set "access-control-allow-origin" (AllowOrigin AppConfig))) in
      let* _ := on_handling (or_bad_request (serveWithArgs ready args body)) in
      let* g := get in
      set_conns (S (gw_conns g))
  | O =>
      let* _ := on_handling (respond (Header_Set "Retry-After" "1")) in
      on_handling (respond
        (Error "Maximum clients reached on this node." StatusServiceUnavailable))
  end.

(** The handler of [/swarm] takes no token. *)
Definition swarmHandler (ready : bool) : io (gateway W) unit :=
  let* _ := new_request in
  on_handling (or_bad_request (serveWithArgs ready (mkServiceArgs SERVE_POST_SWARM None) (inr ""))).
End Handlers.

(** ** The daily limit *)

Section Limit.
Context {C : Type} `{GoCache C Z}.

(** [ProxyDailyLimitCheck]: counts a visit and returns the count. *)
Definition ProxyDailyLimitCheck (c : C) (now : Z) (ip : string) : C * Z :=
  let total := match cache_Get c now ip with Some temp => temp | None => 0 end in
  let total := (total + 1) mod 2 ^ 64 in
  (cache_Set c now ip total (24 * 3600 * Second), total).

(** [check], with the checker installed when [memory] holds. *)
Definition check (ProxyDailyLimit : Z) (memory : bool) (c : C) (now : Z) (ip : string)
    : C * bool :=
  if (0 <? ProxyDailyLimit) && memory then
    let '(c, n) := ProxyDailyLimitCheck c now ip in (c, negb (ProxyDailyLimit <? n))
  else (c, true).
End Limit.

(** ** Requests in flight *)

(** The tokens in the channel, the requests that hold one, and the tokens
    that a panic has lost. *)
Record tokens := mkTokens { t_free : nat; t_busy : nat; t_lost : nat }.

Inductive event := Accept | Refuse | Finish | Crash.

Inductive step (capacity : nat) : tokens -> event -> tokens -> Prop :=
  | step_accept f b l : step capacity (mkTokens (S f) b l) Accept (mkTokens f (S b) l)
  | step_refuse b l : step capacity (mkTokens 0 b l) Refuse (mkTokens 0 b l)
  | step_finish f b l :
      (* a send on the channel blocks when it is full *)
      (f < capacity)%nat -> step capacity (mkTokens f (S b) l) Finish (mkTokens (S f) b l)
  | step_crash f b l : step capacity (mkTokens f (S b) l) Crash (mkTokens f b (S l)).

Inductive steps (capacity : nat) : tokens -> list event -> tokens -> Prop :=
  | steps_nil t : steps capacity t [] t
  | steps_cons t1 e t2 es t3 :
      step capacity t1 e t2 -> steps capacity t2 es t3 -> steps capacity t1 (e :: es) t3.
