(* ===== verification/Proxy.v ===== *)
(** * The reverse proxy: [roo/proxy.go], and its handler in [roo/roo.go]

    A request is looked up under its host and scheme, among the proxies
    made before if the last look at the store is less than a minute old,
    otherwise in the store.  What a [httputil.ReverseProxy] sends upstream
    is recorded; the answer of the upstream server is not modelled. *)
From S2P Require Import Prelude Bytes Utf8 Json Types Pebble DiskKV NodeHost Permissions.
From S2P Require Import KvService Routes Http Serve Net Url GoCache CertCache Gateway.

Definition StatusNotFound : Z := 404.
Definition StatusTooEarly : Z := 425.
Definition HOST_NOT_FOUND : string := "Host Not Found".
Definition API_LIMIT_REACHED : string := "API Limit Reached".

(** [cache.New(60*time.Second, ...)] *)
Definition ProxyExpiration : Z := 60 * Second.

(** ** Requests *)

(** Headers with all their values; [Get], [Set] and [Add]. *)
Abbreviation header := (gmap string (list string)).
Definition h_Get (k : string) (h : header) : string :=
  match h !! CanonicalHeaderKey k with Some (v :: _) => v | _ => "" end.
Definition h_Set (k v : string) (h : header) : header := <[CanonicalHeaderKey k := [v]]> h.
Definition h_Add (k v : string) (h : header) : header :=
  <[CanonicalHeaderKey k := default [] (h !! CanonicalHeaderKey k) ++ [v]]> h.

(** A request as the server hands it over. *)
Record request := mkInRequest {
  rq_Method : string; rq_Host : string; rq_TLS : bool; rq_RemoteAddr : string; rq_Header : header }.

(** A request that is sent upstream: the scheme and the host of its URL, its
    [Host] field and its headers. *)
Record outrequest := mkOutRequest {
  or_Scheme : string; or_URLHost : string; or_Host : string; or_Header : header }.

(** ** The proxies *)

(** A [RooProxy]: the route it was made for, and the destination in the
    closure of its director. *)
Record RooProxy := mkRooProxy { rp_Route : Route; rp_destination : URL }.

Record proxy_config := mkProxyConfig {
  IgnoreProxyOptions : bool; ProxyForceJson : bool; ProxyDailyLimit : Z; MemoryChecker : bool }.

(** The director: what it makes of the outgoing copy of a request. *)
Definition director (pc : proxy_config) (destination : URL) (req : outrequest) : outrequest :=
  let h := or_Header req in
  let h := h_Add "X-Forwarded-For" (h_Get "X-Forwarded-For" h) h in
  let h := h_Add "X-Forwarded-Host" (or_Host req) h in
  let h := h_Add "X-Origin-Host" (Host destination) h in
  let h := if ProxyForceJson pc then h_Set "content-type" "application/json" h else h in
  mkOutRequest (Scheme destination) (Host destination) (or_Host req) h.

(** [strings.Join(vs, ", ")] *)
Fixpoint comma_join (vs : list string) : string :=
  match vs with
  | [] => ""
  | [v] => v
  | v :: vs => v +:+ ", " +:+ comma_join vs
  end.

(** [ReverseProxy.ServeHTTP] directs a copy of the request and appends the
    address of the client. *)
Definition upstream (pc : proxy_config) (rp : RooProxy) (r : request) : outrequest :=
  let out := director pc (rp_destination rp) (mkOutRequest "" "" (rq_Host r) (rq_Header r)) in
  match SplitHostPort (rq_RemoteAddr r) with
  | Some (clientIP, _) =>
      let prior := default [] (or_Header out !! "X-Forwarded-For") in
      let all := if decide (prior = []) then clientIP else comma_join prior +:+ ", " +:+ clientIP in
      mkOutRequest (or_Scheme out) (or_URLHost out) (or_Host out) (h_Set "X-Forwarded-For" all (or_Header out))
  | None => out
  end.

(** The state of the handler: the node, the cache of lookups, the proxies,
    the response being written, and the requests sent upstream. *)
Record proxying (W C : Type) := mkProxying {
  px_node : W; px_cache : C; px_proxies : gmap string RooProxy; px_response : response;
  px_sent : list outrequest }.
Arguments mkProxying {W C} _ _ _ _ _.
Arguments px_node {W C} _.
Arguments px_cache {W C} _.
Arguments px_proxies {W C} _.
Arguments px_response {W C} _.
Arguments px_sent {W C} _.

Section Proxy.
Context {W C : Type} `{NodeHost W} `{GoCache C bool} (AppConfig : AppConfig) (pc : proxy_config).
Abbreviation M := (io (proxying W C)).

Definition px_on_node {A} (m : io W A) : M A :=
  zoom px_node (fun w p => mkProxying w (px_cache p) (px_proxies p) (px_response p) (px_sent p)) m.
Definition px_respond (f : response -> response) : M unit :=
  modify (fun p => mkProxying (px_node p) (px_cache p) (px_proxies p) (f (px_response p)) (px_sent p)).
Definition px_remember (now : Z) (key : string) : M unit :=
  modify (fun p => mkProxying (px_node p) (cache_Set (px_cache p) now key true ProxyExpiration)
    (px_proxies p) (px_response p) (px_sent p)).
Definition px_proxy (f : gmap string RooProxy -> gmap string RooProxy) : M unit :=
  modify (fun p => mkProxying (px_node p) (px_cache p) (f (px_proxies p)) (px_response p) (px_sent p)).
Definition ServeHTTP (rp : RooProxy) (r : request) : M unit :=
  modify (fun p => mkProxying (px_node p) (px_cache p) (px_proxies p) (px_response p)
    (px_sent p ++ [upstream pc rp r])).

Definition notFound : M unit :=
  let* _ := px_respond (WriteHeader StatusNotFound) in px_respond (Write HOST_NOT_FOUND).

(** A new proxy for a destination. *)
Definition install (now : Z) (key scheme : string) (r : request) (destination : URL) : M unit :=
  let fresh := mkRooProxy (mkRoute scheme (rq_Host r) "" (Scheme destination) (Host destination) "")
    destination in
  let* _ := px_proxy (<[key := fresh]>) in
  let* _ := px_remember now key in
  ServeHTTP fresh r.

(** The part of [Proxy] that asks the cluster; [rp] is the proxy there is. *)
Definition fromCluster (now : Z) (key scheme : string) (rp : option RooProxy) (r : request) : M unit :=
  let* x := try (px_on_node (execute AppConfig (mkKVAction GET (Some (mkKVData key None))))) in
  match x with
  | inl _ => notFound
  | inr result =>
      let* b := as_bytes result in
      let dest := slice_bytes b in
      if (String.length dest =? 0)%nat then notFound
      else
        let* _ :=
          if IgnoreProxyOptions pc then ret tt
          else
            let* _ := px_respond (Header_Set "Strict-Transport-Security"
              "max-age=15768000 ; includeSubDomains") in
            px_respond (Header_Set "access-control-allow-origin" (AllowOrigin AppConfig)) in
        match Parse dest with
        | None => panic "nil pointer dereference"
        | Some destination =>
            match rp with
            | Some rp =>
                if bool_decide (Scheme destination <> DestinationScheme (rp_Route rp)) ||
                   bool_decide (Host destination <> DestinationHost (rp_Route rp))
                then
                  let* _ := px_proxy (base.delete key) in
                  install now key scheme r destination
                else
                  let* _ := px_remember now key in
                  ServeHTTP rp r
            | None => install now key scheme r destination
            end
        end
  end.

(** [Proxy] at the time [now]; [ready] tells whether there is a session. *)
Definition Proxy (ready : bool) (now : Z) (r : request) : M unit :=
  if negb ready then
    let* _ := px_respond (WriteHeader StatusTooEarly) in px_respond (Write HOST_NOT_FOUND)
  else
    let scheme := if rq_TLS r then ":https" else ":http" in
    let key := HOST_PREFIX +:+ rq_Host r +:+ scheme in
    let* p := get in
    match px_proxies p !! key, cache_Get (px_cache p) now key with
    | Some rp, Some _ => ServeHTTP rp r
    | rp, _ => fromCluster now key scheme rp r
    end.
End Proxy.

(** ** The handler of all requests to the proxy *)

(** With the tokens of [connc] and the cache of the daily limit. *)
Record front (W C L : Type) := mkFront { fr_proxying : proxying W C; fr_conns : nat; fr_limit : L }.
Arguments mkFront {W C L} _ _ _.
Arguments fr_proxying {W C L} _.
Arguments fr_conns {W C L} _.
Arguments fr_limit {W C L} _.

Section Front.
Context {W C L : Type} `{NodeHost W} `{GoCache C bool} `{GoCache L Z} (AppConfig : AppConfig)
  (pc : proxy_config).

Definition on_proxying {A} (m : io (proxying W C) A) : io (front W C L) A :=
  zoom fr_proxying (fun p f => mkFront p (fr_conns f) (fr_limit f)) m.
Definition fr_tokens (n : nat) : io (front W C L) unit :=
  modify (fun f => mkFront (fr_proxying f) n (fr_limit f)).

(** The call of [check] with the address of the client. *)
Definition checkClient (now : Z) (r : request) : io (front W C L) bool :=
  let* f := get in
  let '(l, ok) := check (ProxyDailyLimit pc) (MemoryChecker pc) (fr_limit f) now
    (getIP (h_Get "X-Forwarded-For" (rq_Header r)) (rq_RemoteAddr r)) in
  let* _ := modify (fun f => mkFront (fr_proxying f) (fr_conns f) l) in
  ret ok.

Definition proxyHandler (ready : bool) (now : Z) (r : request) : io (front W C L) unit :=
  if negb (IgnoreProxyOptions pc) && bool_decide (rq_Method r = "OPTIONS") then
    on_proxying (px_respond (fun w => WriteHeader StatusOK (cors_headers (AllowOrigin AppConfig) w)))
  else
    let* f := get in
    match fr_conns f with
    | S n =>
        let* _ := fr_tokens n in
        let* ok := checkClient now r in
        if ok : bool then
          let* _ := on_proxying (Proxy AppConfig pc ready now r) in
          let* f := get in
          fr_tokens (S (fr_conns f))
        else
          let* _ := on_proxying (px_respond (WriteHeader StatusTooManyRequests)) in
          on_proxying (px_respond (Write API_LIMIT_REACHED))
    | O =>
        let* _ := on_proxying (px_respond (Header_Set "Retry-After" "1")) in
        on_proxying (px_respond
          (Error "Maximum clients reached on this node." StatusServiceUnavailable))
    end.
End Front.
