(* ===== verification/GatewaySpec.v ===== *)
(** * What the API server guarantees, and what it does not *)
From S2P Require Import Prelude Bytes Utf8 Json Types Pebble DiskKV NodeHost Permissions.
From S2P Require Import PermissionSamples.
From S2P Require Import KvService Routes Http Serve GoCache Gateway.

(** ** Handlers *)

Section Handlers.
Context {W : Type} `{NodeHost W, Docker W} (cfg : AppConfig) (am : ambient)
  (order : gmap string string -> list (string * string)).
Abbreviation G := (gateway W).
Abbreviation api := (apiHandler (W := W) cfg am order).

Definition response_of (g : G) : response := h_response (gw_handling g).
Definition node_of (g : G) : W := h_node (gw_handling g).

Lemma run_on_handling {A} (m : io (handling W) A) h n :
  run (on_handling m) (mkGateway h n) = let '(h', x) := run m h in (mkGateway h' n, x).
Proof. unfold on_handling. by rewrite run_zoom. Qed.

(** The response before the service is called. *)
Definition opened : response :=
  Header_Set "access-control-allow-origin" (AllowOrigin cfg) new_response.

(** The handler with the service's own work made explicit. *)
Lemma run_api_free ready args body h n :
  run (api ready args body) (mkGateway h (S n)) =
  match run (or_bad_request (serveWithArgs cfg am order ready args body))
          (mkHandling (h_node h) opened (h_spawned h)) with
  | (h', Ret _) => (mkGateway h' (S n), Ret tt)
  | (h', Err e) => (mkGateway h' n, Err e)
  | (h', Panic p) => (mkGateway h' n, Panic p)
  end.
Proof.
  unfold apiHandler. rewrite run_bind. unfold new_request. rewrite run_on_handling, run_modify.
  cbv beta iota. rewrite run_bind, run_get. cbn [gw_conns]. rewrite run_bind.
  unfold set_conns at 1. rewrite run_modify. cbv beta iota. rewrite run_bind, run_on_handling.
  cbn [gw_handling]. unfold respond at 1. rewrite run_modify. cbv beta iota.
  cbn [h_node h_response h_spawned]. rewrite run_bind, run_on_handling. fold opened.
  destruct (run (or_bad_request _) _) as [h' [[]|e|p]]; done.
Qed.

Lemma run_api_full ready args body h :
  run (api ready args body) (mkGateway h 0) =
  (mkGateway (mkHandling (h_node h)
     (Error "Maximum clients reached on this node." StatusServiceUnavailable
        (Header_Set "Retry-After" "1" new_response)) (h_spawned h)) 0, Ret tt).
Proof. reflexivity. Qed.

Lemma run_or_bad_request m (h : handling W) :
  run (or_bad_request m) h =
  match run m h with
  | (h', Ret _) => (h', Ret tt)
  | (h', Err e) =>
      (mkHandling (h_node h') (Write (error_text e) (WriteHeader StatusBadRequest (h_response h')))
         (h_spawned h'), Ret tt)
  | (h', Panic p) => (h', Panic p)
  end.
Proof.
  unfold or_bad_request. rewrite run_bind, run_try. by destruct (run m h) as [h' [a|e|p]].
Qed.

(** A request that the service answers. *)
Lemma run_api_ok args body w r g n h' :
  run (serve cfg am order args body) (mkHandling w opened g) = (h', Ret tt) ->
  run (apiHandler cfg am order true args body) (mkGateway (mkHandling w r g) (S n)) =
    (mkGateway h' (S n), Ret tt).
Proof.
  intros E. rewrite run_api_free, run_or_bad_request. cbn [serveWithArgs h_node h_spawned].
  by rewrite E.
Qed.

(** C27: an API request never fails: it ends normally, and then it has put
    its token back, or it panics and has lost it.  Without a token the
    answer is 503 with a hint to retry, and the service is not called. *)
Theorem gateway_tokens ready args body (g g' : G) out :
  run (api ready args body) g = (g', out) ->
  match out with
  | Ret _ => gw_conns g' = gw_conns g
  | Err _ => False
  | Panic _ => gw_conns g = S (gw_conns g')
  end /\
  (gw_conns g = 0%nat ->
     out = Ret tt /\ node_of g' = node_of g /\ status (response_of g') = StatusServiceUnavailable /\
     sent_header "Retry-After" (response_of g') = Some "1").
Proof.
  destruct g as [h [|n]]; cbn [gw_conns].
  - rewrite run_api_full. intros [= <- <-]. done.
  - rewrite run_api_free, run_or_bad_request.
    by destruct (run (serveWithArgs _ _ _ _ _ _) _) as [h' [a|e|p]]; intros [= <- <-].
Qed.

(** Until the service has a session the API answers 200 with an empty
    body to everything and does nothing: a value that is put is lost, and
    a permission check is answered as if it was allowed. *)
Theorem gateway_not_ready args body (g g' : G) out :
  (0 < gw_conns g)%nat -> run (api false args body) g = (g', out) ->
  out = Ret tt /\ node_of g' = node_of g /\ gw_conns g' = gw_conns g /\
  status (response_of g') = StatusOK /\ r_body (response_of g') = "".
Proof.
  destruct g as [h [|n]]; cbn [gw_conns]; [lia|]. intros _. rewrite run_api_free.
  intros [= <- <-]. done.
Qed.

(** The request that brings the handler of permission checks down. *)
Definition null_check : io G unit :=
  api true (mkServiceArgs SERVE_POST_PERM None) (inr "null").

Lemma run_null_check h n :
  run null_check (mkGateway h (S n)) =
  (mkGateway (mkHandling (h_node h) opened (h_spawned h)) n, Panic "nil pointer dereference").
Proof. unfold null_check. rewrite run_api_free. reflexivity. Qed.

(** The states after [n] such requests. *)
Fixpoint after_null_checks (n : nat) (g : G) : G :=
  match n with
  | O => g
  | S n => after_null_checks n (fst (run null_check g))
  end.

Lemma after_null_checks_drain n h :
  exists r, after_null_checks n (mkGateway h n) =
    mkGateway (mkHandling (h_node h) r (h_spawned h)) 0.
Proof.
  revert h. induction n as [|n IH]; intros h.
  - exists (h_response h). by destruct h.
  - cbn [after_null_checks]. rewrite run_null_check. cbn [fst].
    destruct (IH (mkHandling (h_node h) opened (h_spawned h))) as [r ->]. by exists r.
Qed.

(** As many requests with the body [null] as there are tokens shut the
    API down: every later request is refused, whatever it asks. *)
Theorem gateway_exhaustion (g g' : G) ready args body out :
  run (api ready args body) (after_null_checks (gw_conns g) g) = (g', out) ->
  node_of g' = node_of g /\ gw_conns g' = 0%nat /\
  status (response_of g') = StatusServiceUnavailable.
Proof.
  destruct g as [h n]. cbn [gw_conns]. destruct (after_null_checks_drain n h) as [r ->].
  rewrite run_api_full. by intros [= <- <-].
Qed.
End Handlers.

(** The answers to a ping and to a status request carry no CORS header,
    and the status no content type: they are set after the status line is
    written. *)
Theorem ping_headers origin st :
  status (pingHandler origin) = StatusOK /\ r_body (pingHandler origin) = "PONG" /\
  sent_header "access-control-allow-origin" (pingHandler origin) = None /\
  sent_header "access-control-allow-origin" (statusHandler origin st) = None /\
  sent_header "Content-Type" (statusHandler origin st) = None /\
  sent_header "access-control-allow-origin" (optionsHandler origin) = Some origin.
Proof. done. Qed.

(** ** Requests in flight *)

#[export] Instance event_eq_dec : EqDecision event.
Proof. solve_decision. Defined.

Section Tokens.
Context (capacity : nat).

Definition conserved (t : tokens) : Prop := (t_free t + t_busy t + t_lost t = capacity)%nat.

Lemma step_conserved t1 e t2 : step capacity t1 e t2 -> conserved t1 -> conserved t2.
Proof. unfold conserved. destruct 1; simpl; lia. Qed.

Lemma steps_conserved t1 es t2 : steps capacity t1 es t2 -> conserved t1 -> conserved t2.
Proof. induction 1; [done|]. intros C. apply IHsteps. by eapply step_conserved. Qed.

Lemma steps_lost t1 es t2 :
  steps capacity t1 es t2 ->
  t_lost t2 = (t_lost t1 + length (filter (fun e => e = Crash) es))%nat.
Proof.
  induction 1 as [|t1 e t2 es t3 Hs _ IH]; [by rewrite Nat.add_0_r|]. rewrite IH.
  destruct Hs; cbn [t_lost]; rewrite filter_cons; [rewrite decide_False by done..|
    rewrite decide_True by done]; cbn [length]; lia.
Qed.

End Tokens.

(** ** The daily limit *)

Section Limit.
Context {C : Type} `{GoCacheLaws C Z}.

Definition Day : Z := 24 * 3600 * Second.

(** The cache after visits of [ip] at the times [ts]. *)
Definition visits (c : C) (ip : string) (ts : list Z) : C :=
  foldl (fun c t => fst (ProxyDailyLimitCheck c t ip)) c ts.

(** Each visit is at most a day after the one before. *)
Fixpoint frequent (last : Z) (ts : list Z) : Prop :=
  match ts with
  | [] => True
  | t :: ts => t <= last + Day /\ frequent t ts
  end.

Lemma visit_counts c t ip :
  exists n, ProxyDailyLimitCheck c t ip = (cache_Set c t ip n Day, n) /\
    n = (default 0 (cache_Get c t ip) + 1) mod 2 ^ 64.
Proof. unfold ProxyDailyLimitCheck. by destruct (cache_Get c t ip); eexists. Qed.

Lemma visits_count c ip n last ts now :
  0 <= n -> n + Z.of_nat (length ts) < 2 ^ 64 -> frequent last (ts ++ [now]) ->
  (forall t, t <= last + Day -> cache_Get c t ip = Some n) ->
  cache_Get (visits c ip ts) now ip = Some (n + Z.of_nat (length ts)).
Proof.
  revert c n last. induction ts as [|t ts IH]; intros c n last Hn Hb Hf Hc.
  - destruct Hf as [Hf _]. cbn [length visits foldl]. rewrite Z.add_0_r. by apply Hc.
  - destruct Hf as [Ht Hf]. cbn [visits foldl]. cbn [length] in Hb |- *.
    destruct (visit_counts c t ip) as (m & -> & Em). cbn [fst]. rewrite (Hc t Ht) in Em.
    cbn [default id] in Em. rewrite Z.mod_small in Em by lia.
    change (foldl _ ?c ts) with (visits c ip ts).
    rewrite (IH _ m t); [f_equal; lia|lia|lia|done|]. intros t' Ht'.
    rewrite cache_Get_Set by done. by rewrite (proj2 (Z.leb_le _ _) Ht').
Qed.

(** The limit lets through exactly the first [limit] visits of a client
    that never stays away for a day, however long ago the first one was:
    every visit starts the day again. *)
Theorem daily_limit c ip limit first ts now :
  0 < limit -> cache_Get c first ip = None -> frequent first (ts ++ [now]) ->
  Z.of_nat (length ts) + 2 < 2 ^ 64 ->
  snd (check limit true (visits c ip (first :: ts)) now ip) =
  (Z.of_nat (length ts) + 2 <=? limit).
Proof.
  intros Hl Hc Hf Hb. unfold check. rewrite (proj2 (Z.ltb_lt _ _) Hl). cbn [andb].
  cbn [visits foldl]. destruct (visit_counts c first ip) as (m & -> & Em). cbn [fst].
  rewrite Hc in Em. change (foldl _ ?c ts) with (visits c ip ts).
  destruct (visit_counts (visits (cache_Set c first ip m Day) ip ts) now ip) as (k & -> & Ek).
  rewrite (visits_count _ _ 1 first) in Ek; [|lia|lia|done|].
  - cbn [default id] in Ek. rewrite Z.mod_small in Ek by lia. cbn [snd].
    rewrite <- Z.leb_antisym. f_equal. lia.
  - intros t Ht. rewrite cache_Get_Set by done. rewrite (proj2 (Z.leb_le _ _) Ht). by subst m.
Qed.
End Limit.

(** ** Witnesses *)

#[local] Instance idle_docker : Docker node_state := {
  NewClientWithOpts := fail (ErrExternal 0); TaskList := ret [] }.

Definition idle_gateway (n : nat) : gateway node_state :=
  mkGateway (mkHandling node_sample new_response []) n.

Lemma gateway_tokens_witness :
  let out := run (apiHandler cfg_sample (now_sample 5) map_to_list true
    (mkServiceArgs SERVE_POST_RESCUE None) (inr "")) (idle_gateway 0) in
  out.2 = Ret tt /\ status (response_of out.1) = 503.
Proof.
  destruct (gateway_tokens cfg_sample (now_sample 5) map_to_list true
    (mkServiceArgs SERVE_POST_RESCUE None) (inr "") (idle_gateway 0) _ _
    (surjective_pairing _)) as [_ K].
  destruct (K eq_refl) as (E & _ & S & _). by split.
Defined.

Lemma gateway_not_ready_witness :
  status (response_of (fst (run (apiHandler cfg_sample (now_sample 5) map_to_list false
    (mkServiceArgs SERVE_POST_PERM None) (inr "")) (idle_gateway 3)))) = 200.
Proof.
  apply (gateway_not_ready cfg_sample (now_sample 5) map_to_list (mkServiceArgs SERVE_POST_PERM None)
    (inr "") (idle_gateway 3) _ _ ltac:(simpl; lia) (surjective_pairing _)).
Defined.

Lemma gateway_exhaustion_witness :
  status (response_of (fst (run (apiHandler cfg_sample (now_sample 5) map_to_list true
    (mkServiceArgs SERVE_GET_KV None) (inr ""))
    (after_null_checks cfg_sample (now_sample 5) map_to_list 3 (idle_gateway 3))))) = 503.
Proof.
  apply (gateway_exhaustion cfg_sample (now_sample 5) map_to_list (idle_gateway 3) _ true
    (mkServiceArgs SERVE_GET_KV None) (inr "") _ (surjective_pairing _)).
Defined.


Lemma daily_limit_witness :
  snd (check 3 true (visits (cache_New (C := gmap string (Z * Z))) "10.0.0.9" [5; 6]) 7 "10.0.0.9") =
  true.
Proof.
  refine (daily_limit (C := gmap string (Z * Z)) cache_New "10.0.0.9" 3 5 [6] 7 _ _ _ _);
    [lia|done| |done].
  by cbn; unfold Day, Second; split_and!; [lia..|].
Defined.
