(* ===== verification/ProxySpec.v ===== *)
(** * Where the proxy sends a request *)
From S2P Require Import Prelude Bytes Utf8 Json Types Pebble DiskKV DiskKVSpec QuerySpec NodeHost.
From S2P Require Import Permissions PermissionSamples.
From S2P Require Import KvService Routes Http Serve ServeSpec RoutesSpec Net NetSpec Url GoCache.
From S2P Require Import CertCache.
From S2P Require Import Gateway GatewaySpec Proxy.

Section Proxy.
Context {W C : Type} `{NodeHostLaws W} `{GoCacheLaws C bool} (cfg : AppConfig) (pc : proxy_config).
Abbreviation P := (proxying W C).
Abbreviation proxy := (Proxy (W := W) (C := C) cfg pc true).

(** ** Steps *)

Lemma run_px_on_node {A} (m : io W A) w c ps r out :
  run (px_on_node m) (mkProxying (C := C) w c ps r out) =
  let '(w', x) := run m w in (mkProxying w' c ps r out, x).
Proof. unfold px_on_node. by rewrite run_zoom. Qed.

(** The key of a request. *)
Definition key_of (r : request) : string := requestKey (rq_TLS r) (rq_Host r).

(** A proxy whose director sends where its route says. *)
Definition coherent (rp : RooProxy) : Prop :=
  Scheme (rp_destination rp) = DestinationScheme (rp_Route rp) /\
  Host (rp_destination rp) = DestinationHost (rp_Route rp).
Definition all_coherent (ps : gmap string RooProxy) : Prop := map_Forall (fun _ => coherent) ps.

(** Where a request was sent. *)
Definition sent_to (d : URL) (r : request) (o : outrequest) : Prop :=
  or_Scheme o = Scheme d /\ or_URLHost o = Host d /\ or_Host o = rq_Host r.

Lemma upstream_sent rp r : sent_to (rp_destination rp) r (upstream pc rp r).
Proof. unfold upstream, sent_to. by destruct (SplitHostPort (rq_RemoteAddr r)) as [[ip port]|]. Qed.

(** The headers that are set on the response before it is proxied. *)
Definition proxy_headers (r : response) : response :=
  if IgnoreProxyOptions pc then r
  else Header_Set "access-control-allow-origin" (AllowOrigin cfg)
    (Header_Set "Strict-Transport-Security" "max-age=15768000 ; includeSubDomains" r).

Definition fresh_proxy (r : request) (d : URL) : RooProxy :=
  mkRooProxy (mkRoute (if rq_TLS r then ":https" else ":http") (rq_Host r) "" (Scheme d) (Host d) "") d.

(** The proxy that serves a request whose destination is [d]. *)
Definition proxy_for (ps : gmap string RooProxy) (r : request) (d : URL) : RooProxy :=
  match ps !! key_of r with
  | Some rp => if bool_decide (Scheme d <> DestinationScheme (rp_Route rp)) ||
                  bool_decide (Host d <> DestinationHost (rp_Route rp))
               then fresh_proxy r d else rp
  | None => fresh_proxy r d
  end.

Lemma proxy_for_sent ps r d :
  all_coherent ps -> coherent (proxy_for ps r d) /\ sent_to d r (upstream pc (proxy_for ps r d) r).
Proof.
  intros Hps. pose proof (upstream_sent (proxy_for ps r d) r) as U.
  unfold proxy_for in *. destruct (ps !! key_of r) as [rp|] eqn:E; [|done].
  destruct (Hps _ _ E) as [E1 E2].
  destruct (bool_decide (Scheme d <> DestinationScheme (rp_Route rp)) ||
            bool_decide (Host d <> DestinationHost (rp_Route rp))) eqn:B; [done|].
  apply orb_false_iff in B as [B1 B2]. apply bool_decide_eq_false, dec_stable in B1, B2.
  split; [done|]. destruct U as (U1 & U2 & U3). split_and!; congruence.
Qed.

(** Neither remembered nor made: the store is asked. *)
Definition unknown (p : P) (now : Z) (r : request) : Prop :=
  px_proxies p !! key_of r = None \/ cache_Get (px_cache p) now (key_of r) = None.

Lemma run_Proxy_known w c ps resp out now r rp :
  ps !! key_of r = Some rp -> cache_Get c now (key_of r) <> None ->
  run (proxy now r) (mkProxying w c ps resp out) =
  (mkProxying w c ps resp (out ++ [upstream pc rp r]), Ret tt).
Proof.
  intros E K. unfold Proxy. cbn [negb]. rewrite run_bind, run_get. cbv beta iota zeta.
  cbn [px_proxies px_cache]. change (HOST_PREFIX +:+ rq_Host r +:+ _) with (key_of r).
  rewrite E. destruct (cache_Get c now (key_of r)); done.
Qed.

(** What the cluster's answer leads to. *)
Definition outcome (w : W) (c : C) (ps : gmap string RooProxy) (resp : response) (out : list outrequest)
    (now : Z) (r : request) (stored : option string) : P * go unit :=
  match stored with
  | None | Some "" =>
      (mkProxying w c ps (Write HOST_NOT_FOUND (WriteHeader StatusNotFound resp)) out, Ret tt)
  | Some dest =>
      match Parse dest with
      | None => (mkProxying w c ps (proxy_headers resp) out, Panic "nil pointer dereference")
      | Some d =>
          let rp := proxy_for ps r d in
          (mkProxying w (cache_Set c now (key_of r) true ProxyExpiration) (<[key_of r := rp]> ps)
             (proxy_headers resp) (out ++ [upstream pc rp r]), Ret tt)
      end
  end.

Lemma run_headers {A} (k : io P A) w c ps resp out :
  run (let* _ :=
         if IgnoreProxyOptions pc then ret tt
         else
           let* _ := px_respond (Header_Set "Strict-Transport-Security"
             "max-age=15768000 ; includeSubDomains") in
           px_respond (Header_Set "access-control-allow-origin" (AllowOrigin cfg)) in k)
    (mkProxying w c ps resp out) = run k (mkProxying w c ps (proxy_headers resp) out).
Proof. unfold proxy_headers. rewrite run_bind. by destruct (IgnoreProxyOptions pc). Qed.

Lemma run_fromCluster w c ps resp out now r :
  nh_ok w ->
  exists w', nh_ok w' /\ nh_view w' = nh_view w /\
  run (fromCluster cfg pc now (key_of r) (if rq_TLS r then ":https" else ":http") (ps !! key_of r) r)
    (mkProxying w c ps resp out) = outcome w' c ps resp out now r (nh_view w !! key_of r).
Proof.
  intros Hw. destruct (run_execute_read cfg w GET (mkKVData (key_of r) None) Hw) as (w' & E & Hw' & V);
    [by left|].
  change (answer_of (nh_view w) GET _) with (ABytes (nh_view w !! key_of r)) in E.
  exists w'. split_and!; [done..|]. unfold fromCluster. rewrite run_bind, run_try, run_px_on_node, E.
  cbv beta iota. rewrite run_bind. cbn [as_bytes]. rewrite run_ret. cbv beta iota zeta. unfold outcome.
  destruct (nh_view w !! key_of r) as [[|a dest]|]; [done| |done].
  cbn [slice_bytes default from_option id String.length Nat.eqb]. rewrite run_headers.
  destruct (Parse (String a dest)) as [d|]; [|done]. unfold proxy_for.
  destruct (ps !! key_of r) as [rp|] eqn:Er; [|done].
  destruct (_ || _); cbv zeta.
  - unfold install, px_proxy. rewrite !run_bind, run_modify. cbv beta iota zeta.
    rewrite run_bind, run_modify. cbn. by rewrite insert_delete_eq.
  - rewrite run_bind. cbn. by rewrite (insert_id ps (key_of r) rp).
Qed.

Lemma run_Proxy_unknown w c ps resp out now r :
  nh_ok w -> unknown (mkProxying w c ps resp out) now r ->
  exists w', nh_ok w' /\ nh_view w' = nh_view w /\
  run (proxy now r) (mkProxying w c ps resp out) = outcome w' c ps resp out now r (nh_view w !! key_of r).
Proof.
  intros Hw Hu. destruct (run_fromCluster w c ps resp out now r Hw) as (w' & Hw' & V & E).
  exists w'. split_and!; [done..|]. rewrite <- E. unfold Proxy. cbn [negb].
  rewrite run_bind, run_get. cbv beta iota zeta. cbn [px_proxies px_cache].
  change (HOST_PREFIX +:+ rq_Host r +:+ _) with (key_of r). unfold unknown in Hu.
  cbn [px_proxies px_cache] in Hu. destruct Hu as [Hu|Hu]; rewrite Hu; [done|].
  by destruct (ps !! key_of r).
Qed.

Lemma outcome_coherent w c ps resp out now r stored :
  all_coherent ps -> all_coherent (px_proxies (fst (outcome w c ps resp out now r stored))).
Proof.
  intros Hps. unfold outcome. destruct stored as [[|a dest]|]; [done| |done].
  destruct (Parse (String a dest)) as [d|]; [|done]. cbn [fst px_proxies].
  apply map_Forall_insert_2; [|done]. by apply proxy_for_sent.
Qed.

(** C18: a request that is not remembered is decided by the cluster: with no
    value under the key of its host and scheme it is answered 404 and goes
    nowhere; with a destination it is sent there, exactly once, under its
    own host; with a value that is no URL the handler is brought down.  In
    all cases every proxy still sends where its route says. *)
Theorem proxy_forwards (p : P) now r :
  nh_ok (px_node p) -> all_coherent (px_proxies p) -> unknown p now r ->
  let '(p', x) := run (proxy now r) p in
  all_coherent (px_proxies p') /\ nh_ok (px_node p') /\ nh_view (px_node p') = nh_view (px_node p) /\
  match nh_view (px_node p) !! key_of r with
  | None | Some "" =>
      x = Ret tt /\ px_sent p' = px_sent p /\
      (r_sent (px_response p) = None -> status (px_response p') = StatusNotFound)
  | Some dest =>
      match Parse dest with
      | Some d => x = Ret tt /\ exists o, px_sent p' = px_sent p ++ [o] /\ sent_to d r o
      | None => x = Panic "nil pointer dereference" /\ px_sent p' = px_sent p
      end
  end.
Proof.
  destruct p as [w c ps resp out]. cbn [px_node px_proxies px_sent px_response]. intros Hw Hps Hu.
  destruct (run_Proxy_unknown w c ps resp out now r Hw Hu) as (w' & Hw' & V & ->).
  pose proof (outcome_coherent w' c ps resp out now r (nh_view w !! key_of r) Hps) as K.
  unfold outcome in *. destruct (nh_view w !! key_of r) as [[|a dest]|].
  - split_and!; try done. intros E. unfold Write, WriteHeader. cbn [px_response]. by rewrite E.
  - destruct (Parse (String a dest)) as [d|]; [|done]. split_and!; [done..|].
    eexists. split; [done|]. by apply proxy_for_sent.
  - split_and!; try done. intros E. unfold Write, WriteHeader. cbn [px_response]. by rewrite E.
Qed.

(** A route that changes takes effect within a minute: after a request
    has been sent to the destination of its route, a later request for the
    same host goes to the old destination for sixty seconds, without a look
    at the cluster, and then to whatever the cluster says. *)
Theorem proxy_follows (p : P) now r d w2 now2 r2 v2 d2 :
  nh_ok (px_node p) -> all_coherent (px_proxies p) -> unknown p now r ->
  (exists v, nh_view (px_node p) !! key_of r = Some v /\ v <> "" /\ Parse v = Some d) ->
  nh_ok w2 -> nh_view w2 !! key_of r = Some v2 -> v2 <> "" -> Parse v2 = Some d2 ->
  rq_Host r2 = rq_Host r -> rq_TLS r2 = rq_TLS r ->
  let p1 := fst (run (proxy now r) p) in
  let p2 := mkProxying w2 (px_cache p1) (px_proxies p1) new_response (px_sent p1) in
  exists o, px_sent (fst (run (proxy now2 r2) p2)) = px_sent p1 ++ [o] /\
    sent_to (if now2 <=? now + ProxyExpiration then d else d2) r2 o.
Proof.
  destruct p as [w c ps resp out]. cbn [px_node px_proxies px_sent px_response].
  intros Hw Hps Hu (v & Ev & Hv & Ed) Hw2 Ev2 Hv2 Ed2 Eh Et.
  assert (key_of r2 = key_of r) as Ek by (unfold key_of; by rewrite Eh, Et).
  destruct (run_Proxy_unknown w c ps resp out now r Hw Hu) as (w' & Hw' & V & ->).
  pose proof (outcome_coherent w' c ps resp out now r (nh_view w !! key_of r) Hps) as K.
  rewrite Ev in *. unfold outcome in *. destruct v as [|a v]; [done|]. rewrite Ed in *.
  cbn [fst px_cache px_proxies px_sent] in *. cbv zeta.
  set (c1 := cache_Set c now (key_of r) true ProxyExpiration).
  set (rp := proxy_for ps r d) in *. set (out1 := out ++ [upstream pc rp r]).
  assert (cache_Get c1 now2 (key_of r2) = if now2 <=? now + ProxyExpiration then Some true else None) as Ec.
  { rewrite Ek. unfold c1. by rewrite cache_Get_Set. }
  destruct (now2 <=? now + ProxyExpiration).
  - rewrite (run_Proxy_known _ _ _ _ _ _ _ rp); [|by rewrite Ek, lookup_insert_eq|by rewrite Ec].
    eexists. split; [done|]. destruct (proxy_for_sent ps r d Hps) as [_ (S1 & S2 & _)].
    destruct (upstream_sent rp r2) as (U1 & U2 & U3). destruct (upstream_sent rp r) as (U4 & U5 & _).
    fold rp in S1, S2. split_and!; congruence.
  - destruct (run_Proxy_unknown w2 c1 (<[key_of r:=rp]> ps) new_response out1 now2 r2 Hw2)
      as (w3 & Hw3 & V3 & ->); [by right|].
    rewrite Ek, Ev2. unfold outcome. destruct v2 as [|a2 v2]; [done|]. rewrite Ed2.
    eexists. split; [done|]. by apply proxy_for_sent.
Qed.
End Proxy.

(** ** Witnesses *)

Definition pc_sample : proxy_config := mkProxyConfig false false 2 true.
Definition get_request (host : string) : request := mkInRequest "GET" host true "10.0.0.9:1234" ∅.
Definition routed_node (v : string) : node_state := mkNode {["com.roo.host:a.example:https" := v]} 1.
Definition idle_proxying (w : node_state) : proxying node_state (gmap string (bool * Z)) :=
  mkProxying w cache_New ∅ new_response [].

Lemma routed_node_ok v : nh_ok (routed_node v).
Proof. by apply map_Forall_singleton. Qed.

Lemma routed_value v : nh_view (routed_node v) !! key_of (get_request "a.example") = Some v.
Proof. change (key_of (get_request "a.example")) with "com.roo.host:a.example:https". apply lookup_singleton_eq. Qed.

Lemma Parse_web : Parse "http://web:80" = Some (mkURL "http" "web:80").
Proof. by vm_compute. Qed.
Lemma Parse_new : Parse "http://new:81" = Some (mkURL "http" "new:81").
Proof. by vm_compute. Qed.

Lemma proxy_forwards_witness :
  exists p' o, run (Proxy cfg_sample pc_sample true 5 (get_request "a.example"))
      (idle_proxying (routed_node "http://web:80")) = (p', Ret tt) /\
    px_sent p' = [o] /\ sent_to (mkURL "http" "web:80") (get_request "a.example") o.
Proof.
  pose proof (proxy_forwards cfg_sample pc_sample (idle_proxying (routed_node "http://web:80")) 5
    (get_request "a.example") (routed_node_ok _) (map_Forall_empty _) (or_introl eq_refl)) as K.
  destruct (run (Proxy _ _ _ _ _) _) as [p' x]. destruct K as (_ & _ & _ & K).
  cbn [px_node idle_proxying] in K. rewrite (routed_value "http://web:80"), Parse_web in K.
  destruct K as (-> & o & E & S). exists p', o. split; [reflexivity|]. split; [exact E|exact S].
Defined.

Lemma proxy_follows_witness :
  let p1 := fst (run (Proxy cfg_sample pc_sample true 0 (get_request "a.example"))
    (idle_proxying (routed_node "http://web:80"))) in
  let p2 := mkProxying (routed_node "http://new:81") (px_cache p1) (px_proxies p1) new_response (px_sent p1) in
  exists o, px_sent (fst (run (Proxy cfg_sample pc_sample true (61 * Second) (get_request "a.example")) p2)) =
      px_sent p1 ++ [o] /\
    sent_to (if 61 * Second <=? 0 + ProxyExpiration then mkURL "http" "web:80" else mkURL "http" "new:81")
      (get_request "a.example") o.
Proof.
  apply (proxy_follows cfg_sample pc_sample (idle_proxying (routed_node "http://web:80")) 0
    (get_request "a.example") (mkURL "http" "web:80") (routed_node "http://new:81") (61 * Second)
    (get_request "a.example") "http://new:81" (mkURL "http" "new:81")).
  - apply routed_node_ok.
  - apply map_Forall_empty.
  - by left.
  - exists "http://web:80". split; [apply routed_value|]. split; [done|apply Parse_web].
  - apply routed_node_ok.
  - apply routed_value.
  - done.
  - apply Parse_new.
  - done.
  - done.
Defined.
