(* ===== verification/FrontSpec.v ===== *)
(** * The front of the proxy: from the labels of the swarm to the upstream
    server, the limit, and the tokens *)
From S2P Require Import Prelude Bytes Utf8 Json Types Pebble DiskKV DiskKVSpec QuerySpec NodeHost.
From S2P Require Import Permissions PermissionSamples.
From S2P Require Import KvService Routes Http Serve ServeSpec RoutesSpec Net NetSpec Url GoCache.
From S2P Require Import CertCache.
From S2P Require Import Gateway GatewaySpec Proxy ProxySpec.

(** ** Routes of the swarm *)

Section Swarm.
Context {W C : Type} `{NodeHostLaws W} `{GoCacheLaws C bool} (cfg : AppConfig) (pc : proxy_config).

(** The destination of a route, as a URL. *)
Definition destination_of (rt : Route) : URL :=
  mkURL (to_lower (if decide (DestinationScheme rt = "") then "http" else DestinationScheme rt))
    (DestinationHost rt +:+ ":" +:+ DestinationPort rt).

(** A destination as the labels should give it. *)
Definition plain_destination (rt : Route) : Prop :=
  (DestinationScheme rt = "" \/ scheme_text (DestinationScheme rt) = true) /\
  plain_host (DestinationHost rt) = true /\ all_digits (DestinationPort rt) = true.

Lemma GetValue_Parse rt : plain_destination rt -> Parse (GetValue rt) = Some (destination_of rt).
Proof.
  intros (Hs & Hh & Hp). unfold GetValue, destination_of.
  destruct (decide (DestinationScheme rt = "")) as [E|E].
  - rewrite E. cbn [String.length Nat.eqb]. by apply (Parse_plain "http").
  - destruct Hs as [?|Hs]; [done|].
    assert ((String.length (DestinationScheme rt) =? 0)%nat = false) as ->
      by (by destruct (DestinationScheme rt)).
    by apply Parse_plain.
Qed.

(** A request to the origin of a route that is stored. *)
Lemma route_forwarded w rt (c : C) ps resp out now r :
  nh_ok w -> nh_view w !! requestKey (https rt) (authority rt) = Some (GetValue rt) ->
  plain_destination rt -> rq_TLS r = https rt -> rq_Host r = authority rt -> all_coherent ps ->
  (ps !! key_of r = None \/ cache_Get c now (key_of r) = None) ->
  exists p o, run (Proxy cfg pc true now r) (mkProxying w c ps resp out) = (p, Ret tt) /\
    px_sent p = out ++ [o] /\ sent_to (destination_of rt) r o.
Proof.
  intros Hw V HD Ht Hh Hps Hu.
  destruct (run_Proxy_unknown cfg pc w c ps resp out now r Hw Hu) as (w2 & _ & _ & ->).
  unfold key_of at 1. rewrite Ht, Hh, V. unfold outcome.
  assert (GetValue rt <> "") as Hne.
  { unfold GetValue. destruct (String.length (DestinationScheme rt) =? 0)%nat eqn:E; [done|].
    by destruct (DestinationScheme rt). }
  destruct (GetValue rt) as [|a v] eqn:EV; [done|]. rewrite <- EV, GetValue_Parse by done.
  eexists _, _. split; [reflexivity|]. split; [reflexivity|]. by apply proxy_for_sent.
Qed.

(** From the labels to the upstream server: once the routes of the
    swarm are written, a request to the origin of a route is sent to the
    destination host and port of the route, over its scheme (http when it
    has none), unless a later route has the same origin. *)
Theorem swarm_request_forwarded w routes1 rt routes2 (c : C) ps resp out now r :
  nh_ok w -> plain_origin rt -> plain_destination rt -> valid_utf8 (GetKey rt) = true ->
  (forall rt', rt' ∈ routes2 -> sanitize (GetKey rt') <> GetKey rt) ->
  rq_TLS r = https rt -> rq_Host r = authority rt -> all_coherent ps ->
  (ps !! key_of r = None \/ cache_Get c now (key_of r) = None) ->
  exists w1, run (writeRoutes cfg (map routeAction (routes1 ++ rt :: routes2))) w = (w1, Ret tt) /\
  exists p o, run (Proxy cfg pc true now r) (mkProxying w1 c ps resp out) = (p, Ret tt) /\
    px_sent p = out ++ [o] /\ sent_to (destination_of rt) r o.
Proof.
  intros Hw HP HD Hv Hl Ht Hh Hps Hu.
  destruct (written_route cfg w routes1 rt routes2 Hw HP Hv Hl) as (w1 & E1 & Hw1 & V1).
  exists w1. split; [done|]. by apply route_forwarded.
Qed.
End Swarm.

(** ** The limit and the tokens *)

Section Front.
Context {W C L : Type} `{NodeHost W} `{GoCache C bool} `{GoCacheLaws L Z} (cfg : AppConfig)
  (pc : proxy_config).
Abbreviation F := (front W C L).
Abbreviation handler := (proxyHandler (W := W) (C := C) (L := L) cfg pc).

(** The address under which a request is counted. *)
Definition client_of (r : request) : string :=
  getIP (h_Get "X-Forwarded-For" (rq_Header r)) (rq_RemoteAddr r).

Lemma run_on_proxying {A} (m : io (proxying W C) A) p n (l : L) :
  run (on_proxying m) (mkFront p n l) = let '(p', x) := run m p in (mkFront p' n l, x).
Proof. unfold on_proxying. by rewrite run_zoom. Qed.

Lemma run_checkClient now r p n (l : L) :
  run (checkClient (W := W) (C := C) pc now r) (mkFront p n l) =
  let '(l', ok) := check (ProxyDailyLimit pc) (MemoryChecker pc) l now (client_of r) in
  (mkFront p n l', Ret ok).
Proof.
  unfold checkClient. rewrite run_bind, run_get. cbv beta iota. cbn [fr_limit].
  unfold client_of. by destruct (check _ _ l now _) as [l' ok].
Qed.

Definition is_preflight (r : request) : bool :=
  negb (IgnoreProxyOptions pc) && bool_decide (rq_Method r = "OPTIONS").

(** A request that gets a token. *)
Lemma run_handler_token ready now r p n (l : L) :
  is_preflight r = false ->
  run (handler ready now r) (mkFront p (S n) l) =
  let '(l', ok) := check (ProxyDailyLimit pc) (MemoryChecker pc) l now (client_of r) in
  if ok then
    match run (Proxy cfg pc ready now r) p with
    | (p', Ret _) => (mkFront p' (S n) l', Ret tt)
    | (p', Err e) => (mkFront p' n l', Err e)
    | (p', Panic m) => (mkFront p' n l', Panic m)
    end
  else
    (mkFront (mkProxying (px_node p) (px_cache p) (px_proxies p)
       (Write API_LIMIT_REACHED (WriteHeader StatusTooManyRequests (px_response p))) (px_sent p)) n l',
     Ret tt).
Proof.
  intros Hp. unfold proxyHandler. unfold is_preflight in Hp. rewrite Hp.
  rewrite run_bind, run_get. cbv beta iota. cbn [fr_conns]. rewrite run_bind. unfold fr_tokens at 1.
  rewrite run_modify. cbv beta iota. cbn [fr_proxying fr_limit].
  rewrite run_bind, run_checkClient. destruct (check _ _ l now _) as [l' []]; cbv beta iota.
  - rewrite run_bind, run_on_proxying. destruct (run (Proxy cfg pc ready now r) p) as [p' [[]|e|m]]; done.
  - rewrite run_bind, run_on_proxying. unfold px_respond. rewrite run_modify. cbv beta iota.
    by rewrite run_on_proxying, run_modify.
Qed.

(** A request that finds none. *)
Lemma run_handler_full ready now r p (l : L) :
  is_preflight r = false ->
  run (handler ready now r) (mkFront p 0 l) =
  (mkFront (mkProxying (px_node p) (px_cache p) (px_proxies p)
     (Error "Maximum clients reached on this node." StatusServiceUnavailable
        (Header_Set "Retry-After" "1" (px_response p))) (px_sent p)) 0 l, Ret tt).
Proof. intros Hp. unfold proxyHandler. unfold is_preflight in Hp. by rewrite Hp. Qed.

Lemma check_counts limit (l : L) now ip k :
  0 < limit -> cache_Get l now ip = Some k -> 0 <= k -> k + 1 < 2 ^ 64 ->
  check limit true l now ip = (cache_Set l now ip (k + 1) Day, (k + 1 <=? limit)).
Proof.
  intros Hl E Hk Hb. unfold check, ProxyDailyLimitCheck. rewrite (proj2 (Z.ltb_lt _ _) Hl), E.
  cbn [andb]. rewrite Z.mod_small by lia. by rewrite Z.leb_antisym.
Qed.

(** The same request [n] times over. *)
Fixpoint repeated (n : nat) (now : Z) (r : request) (f : F) : F :=
  match n with
  | O => f
  | S n => repeated n now r (fst (run (handler true now r) f))
  end.

Lemma repeated_over n : forall p (l : L) now r k,
  is_preflight r = false -> MemoryChecker pc = true -> 0 < ProxyDailyLimit pc <= k ->
  cache_Get l now (client_of r) = Some k -> k + Z.of_nat n < 2 ^ 64 ->
  exists resp l', repeated n now r (mkFront p n l) =
    mkFront (mkProxying (px_node p) (px_cache p) (px_proxies p) resp (px_sent p)) 0 l'.
Proof.
  induction n as [|n IH]; intros p l now r k Hp Hm Hk E Hb.
  - exists (px_response p), l. by destruct p.
  - cbn [repeated]. rewrite run_handler_token by done. rewrite Hm, (check_counts _ _ _ _ k) by (done || lia).
    rewrite (proj2 (Z.leb_gt _ _)) by lia. cbn [fst].
    destruct (IH (mkProxying (px_node p) (px_cache p) (px_proxies p)
       (Write API_LIMIT_REACHED (WriteHeader StatusTooManyRequests (px_response p))) (px_sent p))
       (cache_Set l now (client_of r) (k + 1) Day) now r (k + 1)) as (resp & l' & ->); try (done || lia).
    + rewrite cache_Get_Set by done. by rewrite (proj2 (Z.leb_le _ _)) by (unfold Day, Second; lia).
    + by exists resp, l'.
Qed.

(** C36: a request that is refused because of the daily limit keeps its
    token: one client over its limit takes the proxy down for everybody
    with as many requests as there are tokens, and none is given back. *)
Theorem limit_takes_tokens n p (l : L) now r k now' r' :
  is_preflight r = false -> is_preflight r' = false ->
  MemoryChecker pc = true -> 0 < ProxyDailyLimit pc <= k ->
  cache_Get l now (client_of r) = Some k -> k + Z.of_nat n < 2 ^ 64 ->
  px_response p = new_response ->
  let f := repeated n now r (mkFront p n l) in
  fr_conns f = 0%nat /\ px_sent (fr_proxying f) = px_sent p /\
  let f' := fst (run (handler true now' r') (mkFront (mkProxying (px_node (fr_proxying f))
    (px_cache (fr_proxying f)) (px_proxies (fr_proxying f)) new_response (px_sent p)) (fr_conns f) (fr_limit f))) in
  status (px_response (fr_proxying f')) = StatusServiceUnavailable /\ fr_conns f' = 0%nat.
Proof.
  intros Hp Hp' Hm Hk E Hb Er.
  destruct (repeated_over n p l now r k Hp Hm Hk E Hb) as (resp & l' & ->).
  cbn [fr_conns fr_proxying px_sent px_node px_cache px_proxies fr_limit]. cbv zeta.
  by rewrite run_handler_full.
Qed.

(** The limit counts what the client says: with an address in
    [X-Forwarded-For] that has not been seen, a request passes however many
    requests the same connection has made, and is counted under the forged
    address only. *)
Theorem forged_address_passes now r ip p n (l : L) :
  valid_ip ip -> h_Get "X-Forwarded-For" (rq_Header r) = IP_String ip ->
  cache_Get l now (IP_String ip) = None -> 0 < ProxyDailyLimit pc ->
  exists l', run (checkClient pc now r) (mkFront p n l) = (mkFront (W := W) (C := C) p n l', Ret true) /\
    forall other t, other <> IP_String ip -> cache_Get l' t other = cache_Get l t other.
Proof.
  intros V E Hc Hl. rewrite run_checkClient.
  assert (client_of r = IP_String ip) as ->.
  { unfold client_of, getIP. rewrite E. case_decide as Ee.
    - pose proof (parse_back ip V) as K. by rewrite Ee in K.
    - by apply cleanIP_String. }
  unfold check. rewrite (proj2 (Z.ltb_lt _ _) Hl). cbn [andb].
  destruct (MemoryChecker pc); [|by exists l]. unfold ProxyDailyLimitCheck. rewrite Hc.
  change ((0 + 1) mod 2 ^ 64) with 1. rewrite (proj2 (Z.ltb_ge _ _)) by lia.
  eexists. split; [reflexivity|]. intros other t Ho. by rewrite cache_Get_Set_ne.
Qed.
End Front.

(** ** Witnesses *)

Lemma swarm_request_forwarded_witness :
  exists w1, run (writeRoutes cfg_sample (map routeAction [demo_route "a.example"])) empty_node = (w1, Ret tt) /\
  exists p o, run (Proxy cfg_sample pc_sample true 5 (get_request "a.example"))
      (mkProxying w1 (cache_New (C := gmap string (bool * Z))) ∅ new_response []) = (p, Ret tt) /\
    px_sent p = [o] /\ sent_to (mkURL "http" "web:80") (get_request "a.example") o.
Proof.
  apply (swarm_request_forwarded cfg_sample pc_sample empty_node [] (demo_route "a.example") []
    cache_New ∅ new_response [] 5 (get_request "a.example")).
  - apply empty_node_ok.
  - split; [by left|]. by apply (bool_decide_unpack _).
  - split; [by left|]. by split.
  - done.
  - by intros rt' ?%elem_of_nil.
  - done.
  - done.
  - apply map_Forall_empty.
  - by left.
Defined.

Definition seen_cache (k : Z) : gmap string (Z * Z) := {["10.0.0.9" := (k, 100)]}.

Lemma limit_takes_tokens_witness :
  fr_conns (repeated cfg_sample pc_sample 3 5 (get_request "a.example")
    (mkFront (idle_proxying empty_node) 3 (seen_cache 2))) = 0%nat.
Proof.
  refine (proj1 (limit_takes_tokens cfg_sample pc_sample 3 (idle_proxying empty_node) (seen_cache 2) 5
    (get_request "a.example") 2 6 (get_request "b.example") eq_refl eq_refl eq_refl _ _ _ eq_refl)).
  - simpl. lia.
  - by vm_compute.
  - simpl. lia.
Defined.

Definition forged : request :=
  mkInRequest "GET" "a.example" true "10.0.0.9:1234" {["X-Forwarded-For" := ["192.0.2.7"]]}.

Lemma forged_address_passes_witness :
  exists l', run (checkClient pc_sample 5 forged) (mkFront (idle_proxying empty_node) 3 (seen_cache 2)) =
    (mkFront (idle_proxying empty_node) 3 l', Ret true).
Proof.
  destruct (forged_address_passes pc_sample 5 forged (v4_prefix ++ [192 * 256; 2 * 256 + 7])
    (idle_proxying empty_node) 3 (seen_cache 2)) as (l' & E & _).
  - split; [done|]. apply Forall_app_2; by repeat constructor.
  - by vm_compute.
  - by vm_compute.
  - done.
  - by exists l'.
Defined.
