(* ===== verification/SharedError.v ===== *)
(** * The error variable that the handlers of the API share

    The handlers of [/join], [/remove], [/rescue], [/kvs], [/kv] and [/perm]
    in [roo/roo.go] assign the error of their request to the variable [err]
    of [main], test it, and read it again for the text of the answer.
    [Gateway] gives each handler a variable of its own; here overlapping
    handlers take their steps in any order. *)
From S2P Require Import Prelude Bytes Utf8 Json Types Pebble DiskKV NodeHost Permissions.
From S2P Require Import KvService Routes Http Serve Net GoCache Gateway.

(** ** The steps *)

(** Where a handler is: its request has been served, with its own error or
    none; it has assigned this to [err]; it has found an error there and
    written the header; it has answered, with the text of an error or as a
    success; or it has dereferenced nil. *)
Inductive in_flight :=
  | Served (own : option goerror)
  | Assigned (own : option goerror)
  | Refused (own : option goerror)
  | Answered (own : option goerror) (text : option string)
  | Crashed (own : option goerror).

Definition own_error (h : in_flight) : option goerror :=
  match h with Served o | Assigned o | Refused o | Answered o _ | Crashed o => o end.

(** One step of a handler, with the variable before and after. *)
Definition handler_step (err : option goerror) (h : in_flight) : option (option goerror * in_flight) :=
  match h with
  | Served own => Some (own, Assigned own)
  | Assigned own =>
      match err with
      | None => Some (err, Answered own None)
      | Some _ => Some (err, Refused own)
      end
  | Refused own =>
      match err with
      | None => Some (err, Crashed own)
      | Some e => Some (err, Answered own (Some (error_text e)))
      end
  | Answered _ _ | Crashed _ => None
  end.

(** The variable and the handlers in flight. *)
Record api := mkApi { api_err : option goerror; api_handlers : list in_flight }.

Inductive api_step : api -> api -> Prop :=
  | api_handler i err h err' h' hs :
      hs !! i = Some h -> handler_step err h = Some (err', h') -> api_step (mkApi err hs) (mkApi err' (<[i := h']> hs))
  (* a new request comes in and is served *)
  | api_request err own hs : api_step (mkApi err hs) (mkApi err (hs ++ [Served own])).

Definition idle : api := mkApi None [].
Definition reachable (s : api) : Prop := rtc api_step idle s.

(** A handler run to its end while no other takes a step. *)
Fixpoint finish (n : nat) (err : option goerror) (h : in_flight) : option goerror * in_flight :=
  match n with
  | O => (err, h)
  | S n => match handler_step err h with Some (err', h') => finish n err' h' | None => (err, h) end
  end.

(** ** What is left of the answers *)

(** An error that one of the requests has returned. *)
Definition returned (hs : list in_flight) (e : goerror) : Prop := exists h, h ∈ hs /\ own_error h = Some e.

(** The variable holds an error some request has returned, and so does every
    answer; whoever crashes or is refused has shared it with an error. *)
Definition borrowed (s : api) : Prop :=
  (forall e, api_err s = Some e -> returned (api_handlers s) e) /\
  forall h, h ∈ api_handlers s ->
    match h with
    | Served _ | Assigned _ | Answered _ None => True
    | Answered _ (Some t) => exists e, returned (api_handlers s) e /\ t = error_text e
    | Refused _ | Crashed _ => exists e, returned (api_handlers s) e
    end.

Lemma step_own err h err' h' : handler_step err h = Some (err', h') -> own_error h' = own_error h.
Proof. destruct h, err; simpl; intros [= <- <-] || intros [=]; done. Qed.

Lemma returned_insert hs i h h' e :
  hs !! i = Some h -> own_error h' = own_error h -> returned hs e -> returned (<[i := h']> hs) e.
Proof.
  intros Hi Ho (x & Hx & E). apply list_elem_of_lookup in Hx as [j Hj]. destruct (decide (i = j)) as [<-|Hne].
  - exists h'. split; [|by rewrite Ho; simplify_eq]. apply list_elem_of_lookup. exists i. apply list_lookup_insert_eq.
    by eapply lookup_lt_Some.
  - exists x. split; [|done]. apply list_elem_of_lookup. exists j. by rewrite list_lookup_insert_ne.
Qed.

Lemma returned_app hs x e : returned hs e -> returned (hs ++ [x]) e.
Proof. intros (h & Hh & E). exists h. split; [|done]. apply elem_of_app. by left. Qed.

Lemma borrowed_step s s' : api_step s s' -> borrowed s -> borrowed s'.
Proof.
  intros [i err h err' h' hs Hi Hs|err own hs] [HE HH]; cbn [api_err api_handlers] in *.
  - pose proof (step_own _ _ _ _ Hs) as Ho. pose proof (list_elem_of_lookup_2 _ _ _ Hi) as Hin.
    assert (forall e, returned hs e -> returned (<[i := h']> hs) e) as R by (intros e; by eapply returned_insert).
    assert (forall e, own_error h = Some e -> returned hs e) as RO by (intros e E; by exists h).
    split.
    + cbn [api_err api_handlers]. intros e ->. apply R. destruct h, err; simpl in Hs; simplify_eq; auto.
    + cbn [api_handlers]. intros x Hx. apply list_elem_of_lookup in Hx as [j Hj].
      apply list_lookup_insert_Some in Hj as [(<- & <- & _)|[_ Hj]].
      * specialize (HH h Hin). destruct h, err as [e|]; simpl in Hs; simplify_eq; try done.
        -- exists e. auto.
        -- exists e. split; [auto|done].
        -- destruct HH as (e & He). exists e. auto.
      * specialize (HH x (list_elem_of_lookup_2 _ _ _ Hj)). destruct x as [| | |own [t|]|]; try done.
        -- destruct HH as (e & He). exists e. auto.
        -- destruct HH as (e & He & ->). exists e. auto.
        -- destruct HH as (e & He). exists e. auto.
  - assert (forall e, returned hs e -> returned (hs ++ [Served own]) e) as R by (intros e; apply returned_app).
    split; cbn [api_err api_handlers]; [intros e E; auto|]. intros x Hx. apply elem_of_app in Hx as [Hx|Hx].
    + specialize (HH x Hx). destruct x as [| | |o [t|]|]; try done.
      * destruct HH as (e & He). exists e. auto.
      * destruct HH as (e & He & ->). exists e. auto.
      * destruct HH as (e & He). exists e. auto.
    + apply list_elem_of_singleton in Hx as ->. done.
Qed.


(** The handler at a place takes its step. *)
Ltac turn G i := eapply (G i); [reflexivity|reflexivity|reflexivity|].

(** Two requests, one of which has failed: the failed one may be answered
    as a success, the other as a failure, and the handler of the failed one
    may dereference nil. *)
Theorem errors_confused e :
  reachable (mkApi None [Answered (Some e) None; Answered None None]) /\
  reachable (mkApi (Some e) [Answered (Some e) (Some (error_text e)); Answered None (Some (error_text e))]) /\
  reachable (mkApi None [Crashed (Some e); Answered None None]).
Proof.
  assert (forall s, rtc api_step (mkApi None [Served (Some e); Served None]) s -> reachable s) as K.
  { intros s Hs. eapply rtc_l; [apply (api_request None (Some e))|]. by eapply rtc_l; [apply (api_request None None)|]. }
  assert (forall i err h err' h' hs hs' s, hs !! i = Some h -> handler_step err h = Some (err', h') ->
    <[i := h']> hs = hs' -> rtc api_step (mkApi err' hs') s -> rtc api_step (mkApi err hs) s) as G.
  { intros i err h err' h' hs hs' s Hi Hs <- Hr. eapply rtc_l; [by eapply api_handler|done]. }
  split_and!; apply K.
  - turn G 0%nat. turn G 1%nat. turn G 0%nat. turn G 1%nat. apply rtc_refl.
  - turn G 1%nat. turn G 0%nat. turn G 1%nat. turn G 1%nat. turn G 0%nat. turn G 0%nat. apply rtc_refl.
  - turn G 0%nat. turn G 0%nat. turn G 1%nat. turn G 0%nat. turn G 1%nat. apply rtc_refl.
Qed.

