(* ===== verification/Router.v ===== *)
(** * The routes of the API: the table in [roo/roo.go]

    The handlers are registered with the package gorilla/mux under patterns
    with variables.  Whether a pattern matches a path is the class [Mux],
    with its documented behaviour for the forms of pattern in the table;
    the first entry whose pattern and method match handles the request. *)
From S2P Require Import Prelude Bytes Utf8 Json Types Pebble DiskKV NodeHost Permissions.
From S2P Require Import KvService Routes Http Serve Net GoCache Gateway.

(** The variables of a pattern, if it matches a path. *)
Class Mux := { mux_vars : string -> string -> option (gmap string string) }.

(** What is left of a text after a prefix. *)
Definition after (pre s : string) : option string :=
  if has_prefix pre s then Some (sdrop (String.length pre) s) else None.

Class MuxLaws `{Mux} := {
  mux_plain : forall pat path, has_byte "{" pat = false ->
    mux_vars pat path = if decide (path = pat) then Some ∅ else None;
  (* [{name}] is one non-empty segment *)
  mux_segment : forall pre name path, has_byte "{" pre = false -> has_byte ":" name = false ->
    mux_vars (pre +:+ "{" +:+ name +:+ "}") path =
    x ← after pre path; if decide (x = "") then None
                        else if has_byte "/" x then None else Some {[name := x]};
  (* [{name:.*}] is everything that follows *)
  mux_rest : forall pre name path, has_byte "{" pre = false -> has_byte ":" name = false ->
    mux_vars (pre +:+ "{" +:+ name +:+ ":.*}") path =
    x ← after pre path; Some {[name := x]};
}.

(** The handlers: some pass the variables on to the service, and some are
    those of the package [net/http/pprof]. *)
Inductive endpoint :=
  | EProfile | EOptions | EPing | EStatus | ESwarm
  | EService (service : Z) (with_vars : bool).

#[export] Instance endpoint_eq_dec : EqDecision endpoint.
Proof. solve_decision. Defined.

(** Without a method an entry takes any. *)
Record route_entry := mkEntry { re_pattern : string; re_method : option string; re_endpoint : endpoint }.

Definition debugTable : list route_entry :=
  [ mkEntry "/debug/pprof/cmdline" None EProfile;
    mkEntry "/debug/pprof/profile" None EProfile;
    mkEntry "/debug/pprof/symbol" None EProfile;
    mkEntry "/debug/pprof/trace" None EProfile;
    mkEntry "/debug/pprof/{page:.*}" None EProfile ].

Definition apiTable (version : string) : list route_entry :=
  let base := "/roo/" +:+ version in
  [ mkEntry base (Some "OPTIONS") EOptions;
    mkEntry "/roo/ping" (Some "GET") EPing;
    mkEntry (base +:+ "/status") (Some "GET") EStatus;
    mkEntry (base +:+ "/join") (Some "POST") (EService SERVE_POST_JOIN true);
    mkEntry (base +:+ "/remove") (Some "POST") (EService SERVE_POST_REMOVE true);
    mkEntry (base +:+ "/rescue") (Some "POST") (EService SERVE_POST_RESCUE true);
    mkEntry (base +:+ "/kvs{key:.*}") (Some "GET") (EService SERVE_GET_KVS true);
    mkEntry (base +:+ "/kv/{key}") (Some "GET") (EService SERVE_GET_KV true);
    mkEntry (base +:+ "/kv/{key}") (Some "PUT") (EService SERVE_PUT_KV true);
    mkEntry (base +:+ "/perm") (Some "PUT") (EService SERVE_PUT_PERM false);
    mkEntry (base +:+ "/perm") (Some "POST") (EService SERVE_POST_PERM false);
    mkEntry (base +:+ "/perm/{user}") (Some "DELETE") (EService SERVE_DELETE_PERM true);
    mkEntry (base +:+ "/swarm") (Some "POST") ESwarm ].

Section Dispatch.
Context `{Mux}.

Definition match_entry (e : route_entry) (method path : string)
    : option (endpoint * gmap string string) :=
  vars ← mux_vars (re_pattern e) path;
  if decide (default method (re_method e) = method) then Some (re_endpoint e, vars) else None.

Fixpoint find_route (table : list route_entry) (method path : string)
    : option (endpoint * gmap string string) :=
  match table with
  | [] => None
  | e :: table =>
      match match_entry e method path with
      | Some r => Some r
      | None => find_route table method path
      end
  end.

Definition dispatch (debug : bool) (version : string)
    : string -> string -> option (endpoint * gmap string string) :=
  find_route ((if debug then debugTable else []) ++ apiTable version).
End Dispatch.

(** ** The server *)

(** What the routes read of the configuration of the node, and what the
    profiler of the runtime has to say by method and path. *)
Record node_info := mkNodeInfo {
  ni_Debug : bool; ni_profiler : string -> string -> response;
  ni_MaximumConnections : nat; ni_ReplicaID : Z; ni_Hosts : option (list string);
  ni_Instantiated : Z; ni_Started : Z }.

(** The status for a client at an address, with [free] tokens left. *)
Definition nodeStatus (AppConfig : AppConfig) (info : node_info) (forwarded RemoteAddr : string)
    (free : nat) : ClusterStatus :=
  mkClusterStatus (getIP forwarded RemoteAddr) (cfg_Binding AppConfig)
    (Z.of_nat (ni_MaximumConnections info) - Z.of_nat free) (ni_ReplicaID info)
    (cfg_ShardID AppConfig) (ni_Hosts info) (ni_Instantiated info) (ni_Started info).

Section Server.
Context {W : Type} `{NodeHost W, Docker W, Mux} (AppConfig : AppConfig) (am : ambient)
  (order : gmap string string -> list (string * string)) (version : string) (info : node_info).

(** One request: the response, or none when no route takes it.  [ready]
    tells whether the service has a session, [remote] is the address of
    the client. *)
Definition apiServer (ready : bool) (remote method path : string) (body : request_body)
    : io (gateway W) (option response) :=
  let response_now := let* g := get in ret (Some (h_response (gw_handling g))) in
  match dispatch (ni_Debug info) version method path with
  | None => ret None
  | Some (EProfile, _) => ret (Some (ni_profiler info method path))
  | Some (EOptions, _) => ret (Some (optionsHandler (AllowOrigin AppConfig)))
  | Some (EPing, _) => ret (Some (pingHandler (AllowOrigin AppConfig)))
  | Some (EStatus, _) =>
      let* g := get in
      ret (Some (statusHandler (AllowOrigin AppConfig)
        (nodeStatus AppConfig info "" remote (gw_conns g))))
  | Some (ESwarm, _) => let* _ := swarmHandler AppConfig am order ready in response_now
  | Some (EService service with_vars, vars) =>
      let args := mkServiceArgs service (if with_vars then Some vars else None) in
      let* _ := apiHandler AppConfig am order ready args body in response_now
  end.
End Server.

(** ** An instance of the class *)

(** Patterns without a variable, or with one at the end. *)
Definition match_pattern (pat path : string) : option (gmap string string) :=
  match first_index "{" pat with
  | None => if decide (path = pat) then Some ∅ else None
  | Some i =>
      x ← after (stake i pat) path;
      match split ":" (sdrop (S i) pat) with
      | [name] =>
          if decide (x = "") then None
          else if has_byte "/" x then None
          else Some {[stake (String.length name - 1) name := x]}
      | name :: _ => Some {[name := x]}
      | [] => None
      end
  end.

#[export] Instance pattern_Mux : Mux := { mux_vars := match_pattern }.

Lemma first_index_none c s : has_byte c s = false -> first_index c s = None.
Proof.
  induction s as [|d s IH]; [done|]. simpl. intros [Hd Hs]%orb_false_iff.
  apply bool_decide_eq_false in Hd. rewrite decide_False by done. by rewrite IH.
Qed.

Lemma first_index_app c s t : has_byte c s = false ->
  first_index c (s +:+ String c t) = Some (String.length s).
Proof.
  induction s as [|d s IH]; simpl; [by rewrite decide_True|]. intros [Hd Hs]%orb_false_iff.
  apply bool_decide_eq_false in Hd. rewrite decide_False by done. by rewrite IH.
Qed.

#[export] Instance pattern_MuxLaws : MuxLaws.
Proof.
  split; intros; cbn [mux_vars pattern_Mux]; unfold match_pattern.
  - by rewrite first_index_none.
  - change ("{" +:+ name +:+ "}") with (String "{" (name +:+ "}")).
    rewrite first_index_app, stake_app by done.
    replace (sdrop (S (String.length pre)) (pre +:+ String "{" (name +:+ "}"))) with (name +:+ "}").
    2:{ change (String "{" (name +:+ "}")) with ("{" +:+ (name +:+ "}")).
        rewrite <- string_app_assoc. symmetry. apply sdrop_app. rewrite string_length_app. simpl. lia. }
    rewrite split_none by (rewrite has_byte_app; by rewrite H0).
    rewrite string_length_app, stake_app by (simpl; lia). done.
  - change ("{" +:+ name +:+ ":.*}") with (String "{" (name +:+ ":.*}")).
    rewrite first_index_app, stake_app by done.
    replace (sdrop (S (String.length pre)) (pre +:+ String "{" (name +:+ ":.*}"))) with (name +:+ ":.*}").
    2:{ change (String "{" (name +:+ ":.*}")) with ("{" +:+ (name +:+ ":.*}")).
        rewrite <- string_app_assoc. symmetry. apply sdrop_app. rewrite string_length_app. simpl. lia. }
    change (name +:+ ":.*}") with (name +:+ String ":" ".*}"). by rewrite split_app.
Qed.
