(* ===== verification/RouterSpec.v ===== *)
(** * Which handler a request of the API reaches *)
From S2P Require Import Prelude Bytes Utf8 Json Types Pebble DiskKV NodeHost Permissions.
From S2P Require Import KvService Routes Http Serve Net GoCache Gateway Router.

Lemma after_app p a b : after (p +:+ a) (p +:+ b) = after a b.
Proof.
  unfold after. assert (has_prefix (p +:+ a) (p +:+ b) = has_prefix a b) as ->.
  { induction p; [done|]. simpl. by rewrite Ascii.eqb_refl. }
  case_match; [|done]. f_equal. induction p; done.
Qed.

Lemma after_prefix p a : after p (p +:+ a) = Some a.
Proof. unfold after. rewrite has_prefix_app. by rewrite sdrop_app. Qed.

Section Dispatch.
Context `{MuxLaws} (debug : bool) (version : string).
Hypothesis plain_version : has_byte "{" version = false.
Abbreviation base := ("/roo/" +:+ version).

Lemma plain_base : has_byte "{" base = false.
Proof. by rewrite has_byte_app, plain_version. Qed.

Lemma mux_base y : mux_vars base (base +:+ y) = if decide (y = "") then Some ∅ else None.
Proof.
  rewrite mux_plain by apply plain_base. destruct (decide (y = "")) as [-> |Hy].
  - by rewrite string_app_nil_r, decide_True.
  - rewrite decide_False; [done|]. intros E. apply Hy. apply (inj (String.append base)).
    by rewrite string_app_nil_r.
Qed.

Lemma mux_ping y : mux_vars "/roo/ping" (base +:+ String "/" y) = None.
Proof.
  rewrite mux_plain by done. rewrite decide_False; [done|].
  change "/roo/ping" with ("/roo/" +:+ "ping"). rewrite string_app_assoc. intros E%(inj (String.append "/roo/")).
  apply (f_equal (has_byte "/")) in E. rewrite has_byte_app in E.
  assert (has_byte "/" (String "/" y) = true) as E' by done. rewrite E', orb_true_r in E. done.
Qed.

Lemma mux_fixed p y : has_byte "{" p = false ->
  mux_vars (base +:+ p) (base +:+ y) = if decide (y = p) then Some ∅ else None.
Proof.
  intros Hp. rewrite mux_plain by (by rewrite has_byte_app, plain_base, Hp).
  destruct (decide (y = p)) as [-> |Hy]; [by rewrite decide_True|].
  rewrite decide_False; [done|]. by intros E%(inj (String.append base)).
Qed.

Lemma mux_one pre name y : has_byte "{" pre = false -> has_byte ":" name = false ->
  mux_vars (base +:+ (pre +:+ "{" +:+ name +:+ "}")) (base +:+ y) =
  x ← after pre y; if decide (x = "") then None
                   else if has_byte "/" x then None else Some {[name := x]}.
Proof.
  intros Hp Hn. rewrite <- (string_app_assoc base pre).
  rewrite mux_segment by (done || by rewrite has_byte_app, plain_base, Hp). by rewrite after_app.
Qed.

Lemma mux_all pre name y : has_byte "{" pre = false -> has_byte ":" name = false ->
  mux_vars (base +:+ (pre +:+ "{" +:+ name +:+ ":.*}")) (base +:+ y) =
  x ← after pre y; Some {[name := x]}.
Proof.
  intros Hp Hn. rewrite <- (string_app_assoc base pre).
  rewrite mux_rest by (done || by rewrite has_byte_app, plain_base, Hp). by rewrite after_app.
Qed.

Lemma mux_kvs y :
  mux_vars (base +:+ "/kvs{key:.*}") (base +:+ y) = x ← after "/kvs" y; Some {["key" := x]}.
Proof. by apply (mux_all "/kvs" "key"). Qed.
Lemma mux_kv y :
  mux_vars (base +:+ "/kv/{key}") (base +:+ y) =
  x ← after "/kv/" y; if decide (x = "") then None
                      else if has_byte "/" x then None else Some {["key" := x]}.
Proof. by apply (mux_one "/kv/" "key"). Qed.
Lemma mux_user y :
  mux_vars (base +:+ "/perm/{user}") (base +:+ y) =
  x ← after "/perm/" y; if decide (x = "") then None
                        else if has_byte "/" x then None else Some {["user" := x]}.
Proof. by apply (mux_one "/perm/" "user"). Qed.

(** The profiler is not below the version. *)
Lemma dispatch_below method y : dispatch debug version method (base +:+ y) = find_route (apiTable version) method (base +:+ y).
Proof.
  unfold dispatch. destruct debug; [|done]. unfold debugTable. cbn [app find_route]. unfold match_entry.
  cbn [re_pattern re_method re_endpoint]. rewrite !mux_plain by done.
  rewrite (mux_rest "/debug/pprof/" "page" _ eq_refl eq_refl : mux_vars "/debug/pprof/{page:.*}" _ = _).
  rewrite !decide_False by done. done.
Qed.

(** Evaluate the table on a path below the version. *)
Ltac through_table :=
  rewrite dispatch_below; unfold apiTable; cbv zeta; unfold find_route, match_entry; cbn [re_pattern re_method re_endpoint];
  let M0 := fresh in let M1 := fresh in let M2 := fresh in let M3 := fresh in let M4 := fresh in
  let M5 := fresh in let B := fresh "B" in
  pose proof mux_base as M0; pose proof mux_ping as M1; pose proof mux_kvs as M2;
  pose proof mux_kv as M3; pose proof mux_user as M4; pose proof mux_fixed as M5;
  set (B := "/roo/" +:+ version) in *; clearbody B;
  rewrite M0, decide_False, M1, M2, M3, M4 by done; rewrite !M5 by done;
  repeat first [rewrite decide_False by done | rewrite decide_True by done];
  cbn [mbind option_bind].

Lemma route_status : dispatch debug version "GET" (base +:+ "/status") = Some (EStatus, ∅).
Proof. by through_table. Qed.
Lemma route_join : dispatch debug version "POST" (base +:+ "/join") = Some (EService SERVE_POST_JOIN true, ∅).
Proof. by through_table. Qed.

Lemma route_perm_put : dispatch debug version "PUT" (base +:+ "/perm") = Some (EService SERVE_PUT_PERM false, ∅).
Proof. by through_table. Qed.
Lemma route_perm_post : dispatch debug version "POST" (base +:+ "/perm") = Some (EService SERVE_POST_PERM false, ∅).
Proof. by through_table. Qed.
Lemma route_swarm : dispatch debug version "POST" (base +:+ "/swarm") = Some (ESwarm, ∅).
Proof. by through_table. Qed.

Lemma route_kv method k :
  method = "GET" \/ method = "PUT" ->
  dispatch debug version method (base +:+ "/kv/" +:+ k) =
  if decide (k = "") then None
  else if has_byte "/" k then None
  else Some (EService (if decide (method = "GET") then SERVE_GET_KV else SERVE_PUT_KV) true,
             {["key" := k]}).
Proof.
  intros Hm. change ("/kv/" +:+ k) with (String "/" ("kv/" +:+ k)).
  assert (after "/kv/" (String "/" ("kv/" +:+ k)) = Some k) as A by apply (after_prefix "/kv/").
  assert (after "/kvs" (String "/" ("kv/" +:+ k)) = None) as A' by done.
  assert (after "/perm/" (String "/" ("kv/" +:+ k)) = None) as A'' by done.
  destruct Hm as [-> | ->]; through_table; rewrite A, A', A''; cbn [mbind option_bind];
    repeat case_match; done.
Qed.

Lemma route_kvs x :
  dispatch debug version "GET" (base +:+ "/kvs" +:+ x) = Some (EService SERVE_GET_KVS true, {["key" := x]}).
Proof.
  change ("/kvs" +:+ x) with (String "/" ("kvs" +:+ x)).
  assert (after "/kvs" (String "/" ("kvs" +:+ x)) = Some x) as A by apply (after_prefix "/kvs").
  through_table. by rewrite A.
Qed.

Lemma route_user u :
  u <> "" -> has_byte "/" u = false ->
  dispatch debug version "DELETE" (base +:+ "/perm/" +:+ u) =
  Some (EService SERVE_DELETE_PERM true, {["user" := u]}).
Proof.
  intros Hu Hs. change ("/perm/" +:+ u) with (String "/" ("perm/" +:+ u)).
  assert (after "/perm/" (String "/" ("perm/" +:+ u)) = Some u) as A by apply (after_prefix "/perm/").
  assert (after "/kvs" (String "/" ("perm/" +:+ u)) = None) as A' by done.
  assert (after "/kv/" (String "/" ("perm/" +:+ u)) = None) as A'' by done.
  through_table. rewrite A, A', A''. cbn [mbind option_bind]. rewrite decide_False by done.
  by rewrite Hs.
Qed.

(** Which handler a path of the API reaches, and with which key: a
    value has to have a key without slashes, so a value whose key holds one
    (every directory permission does) can be scanned but not read or
    written; everything after [/kvs] is the prefix of a scan.  The routes of
    the profiler, which the debug mode adds, take none of these. *)
Theorem api_dispatch k x u :
  u <> "" -> has_byte "/" u = false ->
  (k <> "" -> has_byte "/" k = false ->
     dispatch debug version "GET" (base +:+ "/kv/" +:+ k) = Some (EService SERVE_GET_KV true, {["key" := k]}) /\
     dispatch debug version "PUT" (base +:+ "/kv/" +:+ k) = Some (EService SERVE_PUT_KV true, {["key" := k]})) /\
  (has_byte "/" k = true ->
     dispatch debug version "GET" (base +:+ "/kv/" +:+ k) = None /\
     dispatch debug version "PUT" (base +:+ "/kv/" +:+ k) = None) /\
  dispatch debug version "GET" (base +:+ "/kvs" +:+ x) = Some (EService SERVE_GET_KVS true, {["key" := x]}) /\
  dispatch debug version "PUT" (base +:+ "/perm") = Some (EService SERVE_PUT_PERM false, ∅) /\
  dispatch debug version "POST" (base +:+ "/perm") = Some (EService SERVE_POST_PERM false, ∅) /\
  dispatch debug version "DELETE" (base +:+ "/perm/" +:+ u) =
    Some (EService SERVE_DELETE_PERM true, {["user" := u]}) /\
  dispatch debug version "GET" (base +:+ "/status") = Some (EStatus, ∅) /\
  dispatch debug version "POST" (base +:+ "/join") = Some (EService SERVE_POST_JOIN true, ∅) /\
  dispatch debug version "POST" (base +:+ "/swarm") = Some (ESwarm, ∅).
Proof.
  intros Hu Hs. split_and!.
  - intros Hk Hn. split; rewrite route_kv by auto; rewrite (decide_False (P := k = "")) by done;
      rewrite Hn; reflexivity.
  - intros Hn. split; rewrite route_kv by auto; rewrite Hn; by destruct (decide (k = "")).
  - apply route_kvs.
  - apply route_perm_put.
  - apply route_perm_post.
  - by apply route_user.
  - apply route_status.
  - apply route_join.
  - apply route_swarm.
Qed.
End Dispatch.

Lemma api_dispatch_witness :
  dispatch false "v1" "GET" "/roo/v1/kv/com.roo.started" =
    Some (EService SERVE_GET_KV true, {["key" := "com.roo.started"]}) /\
  dispatch false "v1" "DELETE" "/roo/v1/perm/alice" =
    Some (EService SERVE_DELETE_PERM true, {["user" := "alice"]}).
Proof.
  destruct (api_dispatch false "v1" eq_refl "com.roo.started" "" "alice" ltac:(done) eq_refl)
    as (K & _ & _ & _ & _ & U & _).
  split; [|exact U]. by apply (proj1 (K ltac:(done) eq_refl)).
Defined.
