(* ===== verification/ApiSpec.v ===== *)
(** * The API as a client sees it

    A client puts and gets values, writes permissions, and asks whether a
    request is allowed; its requests go through the routes, the tokens and
    the handlers.  The texts it sends are what [json.Marshal] makes of the
    structs; a class of codecs says that they are read back. *)
From S2P Require Import Prelude Bytes Utf8 Json Types Pebble DiskKV DiskKVSpec QuerySpec NodeHost.
From S2P Require Import Permissions PermissionSamples PermissionsSpec GrantSpec.
From S2P Require Import KvService Routes Http Serve ServeSpec Net GoCache Gateway GatewaySpec.
From S2P Require Import Router RouterSpec.

(** ** Codecs *)

(** The values of [T] that survive a JSON text are those in [wf]. *)
Class Codec (T : Type) := {
  c_zero : T;
  c_enc : T -> json;
  c_dec : decoder T;
  c_wf : T -> Prop;
  c_depth : Z;
  c_round : forall t cur, c_wf t -> c_dec cur (clean (c_enc t)) = (t, true);
  c_plain : forall t, plain_numbers (c_enc t) = true;
  c_bound : forall t, 0 <= depth (c_enc t) <= c_depth }.

(** The text is read back as the value. *)
Lemma Unmarshal_codec {T} `{Codec T} t cur :
  c_depth <= maxNestingDepth -> c_wf t -> Unmarshal c_dec cur (print (c_enc t)) = (t, true).
Proof.
  intros Hd Ht. unfold Unmarshal. pose proof (c_bound t).
  rewrite parse_print; [by apply c_round|apply c_plain|lia].
Qed.

Lemma Unmarshal_codec_ptr {T} `{Codec T} t zero cur :
  c_depth <= maxNestingDepth -> c_wf t -> clean (c_enc t) <> JNull ->
  Unmarshal (dec_ptr zero c_dec) cur (print (c_enc t)) = (Some t, true).
Proof.
  intros Hd Ht Hn. unfold Unmarshal. pose proof (c_bound t).
  rewrite parse_print; [|apply c_plain|lia]. unfold dec_ptr.
  destruct (clean (c_enc t)) eqn:E; try done; by rewrite <- E, c_round.
Qed.

(** *** Slices *)

Section Slice.
Context {T : Type} `{Codec T}.

Definition enc_slice (l : option (list T)) : json :=
  match l with None => JNull | Some l => JArr (map c_enc l) end.

Lemma dec_elements_codec l cur :
  Forall c_wf l -> dec_elements c_zero c_dec cur (map clean (map c_enc l)) = (l, true).
Proof.
  intros Hl. revert cur. induction Hl as [|t l Ht _ IH]; intros cur; [done|].
  cbn [map dec_elements]. by rewrite c_round, IH.
Qed.

#[export, refine] Instance slice_Codec : Codec (option (list T)) := {
  c_zero := None;
  c_enc := enc_slice;
  c_dec := dec_slice c_zero c_dec;
  c_wf l := Forall c_wf (default [] l);
  c_depth := 1 + Z.max 0 c_depth }.
Proof.
  - intros [l|] cur Hl; [|done]. cbn [enc_slice clean dec_slice]. by rewrite dec_elements_codec.
  - intros [l|]; [|done]. cbn [enc_slice plain_numbers]. induction l as [|t l IH]; [done|].
    cbn [map forallb]. by rewrite c_plain.
  - intros [l|]; cbn [enc_slice depth]; [|lia].
    assert (0 <= foldr Z.max 0 (map depth (map c_enc l)) <= Z.max 0 c_depth); [|lia].
    induction l as [|t l IH]; cbn [map foldr]; [lia|]. pose proof (c_bound t). lia.
Defined.
End Slice.

(** *** The structs of permissions *)

Definition enc_TypedString (t : TypedString) : json := JObj [("Val", JStr (TVal t)); ("Rune", enc_int (TRune t))].
Definition enc_Permission (p : Permission) : json :=
  JObj [("Entity", enc_TypedString (PEntity p)); ("Context", enc_TypedString (PContext p));
        ("Action", enc_TypedString (PAction p)); ("Right", enc_bytes (PRight p)); ("Delete", JBool (PDelete p))].

Definition wf_typed (t : TypedString) : Prop := valid_utf8 (TVal t) = true /\ - 2 ^ 31 <= TRune t <= 2 ^ 31 - 1.

Lemma enc_bytes_plain b : plain_numbers (enc_bytes b) = true /\ depth (enc_bytes b) = 0.
Proof. by destruct b. Qed.

#[export, refine] Instance TypedString_Codec : Codec TypedString := {
  c_zero := zeroTypedString; c_enc := enc_TypedString; c_dec := dec_TypedString;
  c_wf := wf_typed; c_depth := 1 }.
Proof.
  - intros [v r] cur [Hv Hr]. cbn [TVal TRune] in *.
    change (clean (enc_TypedString (mkTypedString v r))) with
      (JObj [("Val", JStr (sanitize v)); ("Rune", enc_int r)]).
    rewrite sanitize_valid by done. unfold dec_TypedString, dec_struct, field, no_field, dec_rune.
    repeat (eval_fields; cbn [TVal TRune]; rewrite ?dec_enc_int by lia). done.
  - intros t. cbn [enc_TypedString plain_numbers forallb]. by rewrite enc_int_plain.
  - intros t. unfold enc_TypedString, enc_int. cbn [depth map foldr]. lia.
Defined.

(** The laws of this instance, in terms of the function. *)
Lemma typed_round t cur : wf_typed t -> dec_TypedString cur (clean (enc_TypedString t)) = (t, true).
Proof. exact (@c_round TypedString _ t cur). Qed.
Lemma typed_plain t : plain_numbers (enc_TypedString t) = true.
Proof. exact (@c_plain TypedString _ t). Qed.
Lemma typed_bound t : 0 <= depth (enc_TypedString t) <= 1.
Proof. exact (@c_bound TypedString _ t). Qed.

#[export, refine] Instance Permission_Codec : Codec Permission := {
  c_zero := zeroPermission; c_enc := enc_Permission; c_dec := dec_Permission;
  c_wf p := wf_typed (PEntity p) /\ wf_typed (PContext p) /\ wf_typed (PAction p); c_depth := 2 }.
Proof.
  - intros [e c a r d] cur (He & Hc & Ha). cbn [PEntity PContext PAction] in *.
    change (clean (enc_Permission (mkPermission e c a r d))) with
      (JObj [("Entity", clean (enc_TypedString e)); ("Context", clean (enc_TypedString c));
             ("Action", clean (enc_TypedString a)); ("Right", clean (enc_bytes r)); ("Delete", JBool d)]).
    unfold dec_Permission, dec_struct, field, no_field.
    repeat (eval_fields; cbn [PEntity PContext PAction PRight PDelete dec_bool];
      rewrite ?typed_round by done; rewrite ?dec_bytes_clean). done.
  - intros p. cbn [enc_Permission plain_numbers forallb]. destruct (enc_bytes_plain (PRight p)) as [-> _].
    by rewrite !typed_plain.
  - intros p. pose proof (typed_bound (PEntity p)); pose proof (typed_bound (PContext p));
      pose proof (typed_bound (PAction p)); destruct (enc_bytes_plain (PRight p)) as [_ ED].
    cbn [enc_Permission depth map foldr snd]. lia.
Defined.

Definition enc_Request (r : Request) : json :=
  JObj [("User", enc_TypedString (User r)); ("Entities", enc_slice (Entities r));
        ("Resource", enc_TypedString (Resource r)); ("Action", enc_TypedString (RAction r));
        ("Right", enc_bytes (RRight r))].

#[export, refine] Instance Request_Codec : Codec Request := {
  c_zero := zeroRequest; c_enc := enc_Request; c_dec := dec_Request;
  c_wf r := wf_typed (User r) /\ Forall wf_typed (default [] (Entities r)) /\ wf_typed (Resource r) /\
            wf_typed (RAction r);
  c_depth := 3 }.
Proof.
  - intros [u es rs a r] cur (Hu & He & Hr & Ha). cbn [User Entities Resource RAction] in *.
    change (clean (enc_Request (mkRequest u es rs a r))) with
      (JObj [("User", clean (enc_TypedString u)); ("Entities", clean (enc_slice es));
             ("Resource", clean (enc_TypedString rs)); ("Action", clean (enc_TypedString a));
             ("Right", clean (enc_bytes r))]).
    assert (forall cur, dec_slice zeroTypedString dec_TypedString cur (clean (enc_slice es)) = (es, true)) as KS
      by (intros cur'; exact (@c_round (option (list TypedString)) _ es cur' He)).
    unfold dec_Request, dec_struct, field, no_field.
    repeat (eval_fields; cbn [User Entities Resource RAction RRight];
      rewrite ?typed_round by done; rewrite ?KS, ?dec_bytes_clean). done.
  - intros r. cbn [enc_Request plain_numbers forallb]. destruct (enc_bytes_plain (RRight r)) as [-> _].
    rewrite !typed_plain. pose proof (@c_plain (option (list TypedString)) _ (Entities r)) as K.
    cbn [c_enc slice_Codec] in K. by rewrite K.
  - intros r. pose proof (typed_bound (User r)); pose proof (typed_bound (Resource r));
      pose proof (typed_bound (RAction r)); destruct (enc_bytes_plain (RRight r)) as [_ ED].
    pose proof (@c_bound (option (list TypedString)) _ (Entities r)) as K. cbn [c_enc c_depth slice_Codec] in K.
    change (@c_depth TypedString _) with 1 in K. cbn [enc_Request depth map foldr snd]. lia.
Defined.

(** The bodies a client sends. *)
Definition MarshalPermissions (ps : list Permission) : string := print (c_enc (Some ps)).
Definition MarshalRequest (r : Request) : string := print (c_enc r).

(** ** Requests *)

Section Api.
Context {W : Type} `{NodeHostLaws W, Docker W, MuxLaws} (cfg : AppConfig) (am : ambient)
  (order : gmap string string -> list (string * string)) (version : string) (info : node_info)
  (remote : string).
Abbreviation server method path body := (apiServer cfg am order version info true remote method path (inr body)).
Abbreviation perm_path := (("/roo/" +:+ version) +:+ "/perm").
Abbreviation kv_path key := (("/roo/" +:+ version) +:+ "/kv/" +:+ key).
Abbreviation idle w r g n := (mkGateway (mkHandling w r g) (S n)).

Hypothesis plain : has_byte "{" version = false.

(** A request that a handler answers, through the routes and the tokens. *)
Lemma run_server_ok method path service with_vars vars body w g n w' r' :
  dispatch (ni_Debug info) version method path = Some (EService service with_vars, vars) ->
  run (serve cfg am order (mkServiceArgs service (if with_vars then Some vars else None)) (inr body))
    (mkHandling w (opened cfg) g) = (mkHandling w' r' g, Ret tt) ->
  forall r, run (server method path body) (idle w r g n) = (idle w' r' g n, Ret (Some r')).
Proof.
  intros ED E r. unfold apiServer. rewrite ED. cbv beta iota zeta.
  rewrite run_bind, (run_api_ok _ _ _ _ _ _ _ _ _ _ E). cbv beta iota zeta. by rewrite run_bind, run_get.
Qed.


(** What a request is answered by the permissions and the cache. *)
Definition allowed (m : gmap string string) (request : Request) : bool :=
  (if 0 <? CacheSeconds cfg then cached_decision cfg m request else false) || decision cfg m request.

Lemma run_put_perm w r g n ps :
  nh_ok w -> Forall c_wf ps ->
  exists w' i r', run (server "PUT" perm_path (MarshalPermissions ps)) (idle w r g n) =
      (idle w' r' g n, Ret (Some r')) /\ status r' = StatusOK /\ nh_ok w' /\
    run (permiss cfg ps) w = (w', Ret tt) /\
    nh_view w' = stamp i (foldl write (nh_view w) (map permissValue ps)).
Proof.
  intros Hw Hps. destruct (run_permiss cfg w ps Hw) as (w' & i & E & Hw' & V).
  exists w', i, (WriteHeader StatusOK (opened cfg)). split_and!; try done.
  apply (run_server_ok "PUT" _ SERVE_PUT_PERM false ∅); [by apply route_perm_put|].
  change (run (serve _ _ _ _ _) ?h) with (run (servePutPerm cfg (inr (MarshalPermissions ps))) h).
  unfold servePutPerm. rewrite run_bind, run_or_fail, run_body. cbv beta iota zeta.
  assert (Unmarshal (dec_ptr None (dec_slice zeroPermission dec_Permission)) (Some (Some []))
    (MarshalPermissions ps) = (Some (Some ps), true)) as ->.
  { apply (@Unmarshal_codec_ptr _ (slice_Codec (H := Permission_Codec)) (Some ps) None); [by vm_compute|exact Hps|done]. }
  cbn [negb default]. rewrite run_bind, run_or_fail, run_on_node. cbn [id]. rewrite E. reflexivity.
Qed.

Lemma run_post_perm w r g n request :
  nh_ok w -> c_wf request ->
  exists w' r', run (server "POST" perm_path (MarshalRequest request)) (idle w r g n) =
      (idle w' r' g n, Ret (Some r')) /\
    status r' = (if allowed (nh_view w) request then StatusOK else StatusForbidden) /\ nh_ok w' /\
    same_permissions (nh_view w) (nh_view w').
Proof.
  intros Hw Hq.
  destruct (run_postPerm cfg am w (opened cfg) g (MarshalRequest request) request Hw) as (w' & E & Hw' & S).
  { unfold MarshalRequest. apply (@Unmarshal_codec_ptr _ Request_Codec request zeroRequest); [by vm_compute|exact Hq|done]. }
  exists w', (WriteHeader (if allowed (nh_view w) request then StatusOK else StatusForbidden) (opened cfg)).
  split_and!; [|by destruct (allowed _ _)|done..].
  apply (run_server_ok "POST" _ SERVE_POST_PERM false ∅); [by apply route_perm_post|exact E].
Qed.

(** C10: permissions through the API: a client that writes permissions gets
    200, and the answer to a check of a request is 200 or 403 as the keys
    then in the store decide, where the last permission written for a key
    that the request reads counts: with enough of a right it is 200, and
    after its deletion it allows nothing; each request gives its token
    back. *)
Theorem api_grant_then_check w r g n l1 p l2 request e path :
  nh_ok w -> Forall c_wf (l1 ++ p :: l2) -> c_wf request -> matches p request e path ->
  valid_utf8 (Key (permissValue p)) = true ->
  (forall q, q ∈ l2 -> sanitize (Key (permissValue q)) <> Key (permissValue p)) ->
  e ∈ subjects request -> path ∈ paths cfg request ->
  exists w1 r1, run (server "PUT" perm_path (MarshalPermissions (l1 ++ p :: l2))) (idle w r g n) =
      (idle w1 r1 g n, Ret (Some r1)) /\ status r1 = 200 /\
  exists w2 r2, run (server "POST" perm_path (MarshalRequest request)) (idle w1 r1 g n) =
      (idle w2 r2 g n, Ret (Some r2)) /\
    status r2 = (if allowed (nh_view w1) request then 200 else 403) /\
    granted cfg (nh_view w1) (permission_of request e path) =
      (if PDelete p then false
       else permits (PermissionCheckExact cfg) (stored_of p) (required_of request)) /\
    (PDelete p = false -> permits (PermissionCheckExact cfg) (stored_of p) (required_of request) = true ->
     status r2 = 200).
Proof.
  intros Hw Hps Hq HM Hv Hl He Hp.
  destruct (run_put_perm w r g n (l1 ++ p :: l2) Hw Hps) as (w1 & i & r1 & E1 & S1 & Hw1 & _ & V1).
  destruct (run_post_perm w1 r1 g n request Hw1 Hq) as (w2 & r2 & E2 & S2 & _).
  pose proof (written_granted cfg (nh_view w) i l1 p l2 request e path HM Hv Hl) as G. rewrite <- V1 in G.
  exists w1, r1. split_and!; [done..|]. exists w2, r2. split_and!; [done..|].
  intros HD HP. rewrite HD, HP in G. rewrite S2. unfold allowed.
  assert (decision cfg (nh_view w1) request = true) as ->; [|by rewrite orb_true_r].
  by eapply granted_decision.
Qed.
End Api.

(** ** At work *)

#[local] Instance absent_docker : Docker node_state := {
  NewClientWithOpts := fail (ErrExternal 0); TaskList := ret [] }.

Definition api_info : node_info := mkNodeInfo true (fun _ _ => pingHandler "*") 4 7 None 10 12.


Lemma api_grant_then_check_witness :
  exists w1 r1 w2 r2,
    run (apiServer cfg_sample (now_sample 5) map_to_list "v1" api_info true "10.0.0.9:1" "PUT" "/roo/v1/perm"
      (inr (MarshalPermissions [staff_grant]))) (mkGateway (mkHandling empty_node new_response []) 4) =
      (mkGateway (mkHandling w1 r1 []) 4, Ret (Some r1)) /\
    run (apiServer cfg_sample (now_sample 5) map_to_list "v1" api_info true "10.0.0.9:1" "POST" "/roo/v1/perm"
      (inr (MarshalRequest (request_for "/org/x" (right 16))))) (mkGateway (mkHandling w1 r1 []) 4) =
      (mkGateway (mkHandling w2 r2 []) 4, Ret (Some r2)) /\
    status r1 = 200 /\ status r2 = 200.
Proof.
  destruct (api_grant_then_check cfg_sample (now_sample 5) map_to_list "v1" api_info "10.0.0.9:1" eq_refl
    empty_node new_response [] 3 [] staff_grant [] (request_for "/org/x" (right 16)) staff "/org")
    as (w1 & r1 & E1 & S1 & w2 & r2 & E2 & _ & _ & S2).
  - exact empty_node_ok.
  - constructor; [|constructor]. by split_and!.
  - split; [by split_and!|]. split; [|by split_and!]. constructor; [by split_and!|constructor].
  - by split_and!.
  - reflexivity.
  - by intros q ?%elem_of_nil.
  - by apply (proj1 (Contains_spec [alice; staff] staff)).
  - by apply (proj1 (Contains_spec ["" ; "/org"; "/org/x"] "/org")).
  - exists w1, r1, w2, r2. split; [exact E1|]. split; [exact E2|]. split; [exact S1|by apply S2].
Defined.
