(* ===== verification/Bootstrap.v ===== *)
(** * How a node finds its cluster: [connect] of [roo/kv.go]

    A node chooses its address among its own, asks its peers over HTTP
    whether it is the oldest or whether there is a cluster already, and
    then starts its replica, either as a founding member or joining.  HTTP
    requests, and the calls of dragonboat that start a replica, are
    interfaces.  [os.Exit(1)] ends the process and is a panic here; sleeps
    are left out, what the code counts is kept. *)
From S2P Require Import Prelude Bytes Utf8 Json Types Pebble DiskKV NodeHost Permissions.
From S2P Require Import KvService Routes Http Serve Net FileSystem.

Definition ROO_STARTED : string := "com.roo.started".

(** ** Interfaces *)

(** A request: method, URL and body.  It fails, or is answered by a status
    and a body, none if reading the body failed. *)
Class HttpClient (W : Type) := {
  HttpDo : string -> string -> string -> io W (Z * option string);
}.

(** [config.Config] of a replica, as far as it is set. *)
Record raft_config := mkRaftConfig {
  rc_ReplicaID : Z; rc_ShardID : Z; rc_ElectionRTT : Z; rc_HeartbeatRTT : Z;
  rc_CheckQuorum : bool; rc_SnapshotEntries : Z; rc_CompactionOverhead : Z }.

(** [dragonboat.NewNodeHost] for a directory, an address and whether the log
    is kept by tan; [StartOnDiskReplica] for the initial members, whether
    the replica joins, and its configuration. *)
Class RaftHost (W : Type) := {
  NewNodeHost : string -> string -> bool -> io W unit;
  StartOnDiskReplica : gmap Z string -> bool -> raft_config -> io W unit;
}.

Definition exit1 {W A} : io W A := panic "os.Exit(1)".

(** ** The addresses *)

(** The configuration that [connect] reads. *)
Record node_config := mkNodeConfig {
  nc_Binding : string; nc_Hosts : list string; nc_ShardID : Z; nc_DataDirectoryRoot : string;
  nc_LogDB : string; nc_ApiVersionString : string; nc_Instantiated : Z; nc_Swarm : bool }.

(** The configured binding if it is an address of this machine; otherwise
    the last address of this machine that is among the hosts. *)
Definition chooseBinding (myIPs : list IP) (binding : string) (hosts : list string) : string :=
  let binding := if Contains (getIPsString myIPs) binding then binding else "" in
  if decide (binding = "") then
    foldl (fun b ip => if Contains hosts (IP_String ip) then IP_String ip else b) "" myIPs
  else binding.

Definition is_ipv4 (h : string) : bool :=
  match ParseIP h with Some ip => is4 ip | None => false end.

(** The hosts to ask: the IPv4 addresses other than the own. *)
Definition peerHosts (binding : string) (hosts : list string) : list string :=
  filter (fun h => h <> binding /\ is_ipv4 h = true) hosts.

(** [uint64(rand.Intn(65534) + 1)] *)
Definition newReplicaID (rnd : Z) : Z := rnd + 1.

Definition raftConfig (c : node_config) (replica : Z) : raft_config :=
  mkRaftConfig replica (nc_ShardID c) 10 1 true 10 5.

(** [filepath.Join(root, "roo", fmt.Sprintf("node%d", replica))] *)
Definition raftDataDir (c : node_config) (replica : Z) : string :=
  let root := if decide (nc_DataDirectoryRoot c = "") then "cluster-data"
              else nc_DataDirectoryRoot c in
  path_join (path_join root "roo") ("node" +:+ Decimal.FormatUint replica).

(** ** Asking the peers *)

(** The variables of the loop. *)
Record boot := mkBoot {
  initialMembers : gmap Z string; olderThan : Z; bootstrap : bool; readyToJoin : bool; waited : Z }.

Definition with_waited (w : Z) (b : boot) : boot :=
  mkBoot (initialMembers b) (olderThan b) (bootstrap b) (readyToJoin b) w.

Definition apiURL (h version path : string) : string :=
  "http://" +:+ h +:+ API_PORT +:+ "/roo/" +:+ version +:+ path.

Definition is_2xx (code : Z) : bool := (200 <=? code) && (code <=? 299).

Section Connect.
Context {W : Type} `{HttpClient W} (c : node_config) (binding : string) (replica : Z).
Abbreviation url h path := (apiURL h (nc_ApiVersionString c) path).

(** The label [getNodeStatus]: requests are repeated until one is answered
    or the time is up; the answer with the new value of [waited]. *)
Fixpoint getNodeStatus (fuel : nat) (h : string) (waited : Z) : io W (Z * option string) :=
  match fuel with
  | O => panic "out of fuel"
  | S fuel =>
      let* r := try (HttpDo "GET" (url h "/status") "") in
      match r with
      | inl _ =>
          let waited := waited + 1 in
          if BOOTSTRAP_WAIT_S <=? waited then exit1 else getNodeStatus fuel h waited
      | inr (_, body) => ret (waited, body)
      end
  end.

(** What is sent to a peer to join it. *)
Definition joinStatus : ClusterStatus :=
  mkClusterStatus "" binding 0 replica (nc_ShardID c) None 0 0.

(** The label [checkBootstrap], for a peer that has started; the flag tells
    to leave the loop over the hosts. *)
Fixpoint checkBootstrap (fuel : nat) (h : string) (checkedBootstrapped : Z) (b : boot)
    : io W (boot * bool) :=
  match fuel with
  | O => panic "out of fuel"
  | S fuel =>
      let* r := try (HttpDo "GET" (url h ("/kv/" +:+ ROO_STARTED)) "") in
      let found :=
        match r with
        | inr (code, Some body) => is_2xx code && bool_decide (body = "true")
        | _ => false
        end in
      if found then
        let b := mkBoot (initialMembers b) (olderThan b) false (readyToJoin b) (waited b) in
        let* r := try (HttpDo "POST" (url h "/join") (MarshalClusterStatus joinStatus)) in
        let joined := match r with inr (code, _) => is_2xx code | inl _ => false end in
        if joined then ret (mkBoot ∅ (olderThan b) (bootstrap b) true (waited b), true)
        else ret (b, false)
      else if -1 <? checkedBootstrapped then
        ret (mkBoot (initialMembers b) (olderThan b) true (readyToJoin b) (waited b), false)
      else checkBootstrap fuel h (checkedBootstrapped + 1) b
  end.

(** The body of the loop over the hosts. *)
Definition visitPeer (h : string) (b : boot) : io W (boot * bool) :=
  if bool_decide (h = binding) || negb (is_ipv4 h) then ret (b, false)
  else
    let* '(w, body) := getNodeStatus (Z.to_nat BOOTSTRAP_WAIT_S) h (waited b) in
    let b := with_waited w b in
    match body with
    | None => ret (b, false)
    | Some body =>
        let '(status, ok) := Unmarshal dec_ClusterStatus zeroClusterStatus body in
        if negb ok then ret (b, false)
        else if decide (Instantiated status = nc_Instantiated c) then exit1
        else
          let older := if nc_Instantiated c <? Instantiated status then olderThan b + 1
                       else olderThan b in
          let b := mkBoot (<[ReplicaID status := Binding status +:+ KV_PORT]> (initialMembers b))
                     older (bootstrap b) (readyToJoin b) (waited b) in
          if 0 <? Started status then checkBootstrap 2 h 0 b else ret (b, false)
    end.

Fixpoint visitPeers (hosts : list string) (b : boot) : io W boot :=
  match hosts with
  | [] => ret b
  | h :: hosts =>
      let* '(b, leave) := visitPeer h b in
      if leave : bool then ret b else visitPeers hosts b
  end.

(** The loop: whether to bootstrap, and the members to start with. *)
Fixpoint bootLoop (fuel : nat) (hosts : list string) (b : boot) : io W (bool * gmap Z string) :=
  match fuel with
  | O => panic "out of fuel"
  | S fuel =>
      let* b := visitPeers hosts
        (mkBoot (initialMembers b) 0 (bootstrap b) (readyToJoin b) (waited b)) in
      let b := with_waited (waited b + 1) b in
      if bootstrap b then ret (true, initialMembers b)
      else if decide (olderThan b = Z.of_nat (length hosts)) then ret (true, initialMembers b)
      else if readyToJoin b then ret (false, initialMembers b)
      else if BOOTSTRAP_WAIT_S <=? waited b then exit1
      else bootLoop fuel hosts b
  end.

Definition boot0 : boot := mkBoot {[replica := binding +:+ KV_PORT]} 0 false false 0.

Definition findCluster (hosts : list string) : io W (bool * gmap Z string) :=
  bootLoop (Z.to_nat BOOTSTRAP_WAIT_S) hosts boot0.
End Connect.

(** ** Starting the replica *)

Section Start.
Context {W : Type} `{HttpClient W, RaftHost W} (c : node_config).

(** The label [rejoin]: a founding node tries again for ever; [false] when
    [fuel] attempts have failed. *)
Fixpoint startReplica (fuel : nat) (members : gmap Z string) (bootstrap : bool) (rc : raft_config)
    : io W bool :=
  match fuel with
  | O => ret false
  | S fuel =>
      let* r := try (StartOnDiskReplica members (negb bootstrap) rc) in
      match r with
      | inr _ => ret true
      | inl _ => if bootstrap then startReplica fuel members bootstrap rc else exit1
      end
  end.

(** [connect]: the binding and the replica of this node, and whether the
    replica runs after [fuel] attempts. *)
Definition connect (fuel : nat) (interfaces : go (list IP)) (rnd : Z) : io W (string * Z * bool) :=
  let myIPs := match interfaces with Ret ips => ips | _ => [] end in
  let binding := chooseBinding myIPs (nc_Binding c) (nc_Hosts c) in
  match ParseIP binding with
  | None => exit1
  | Some _ =>
      let hosts := peerHosts binding (nc_Hosts c) in
      let replica := newReplicaID rnd in
      let* r := try (NewNodeHost (raftDataDir c replica) (binding +:+ KV_PORT)
        (bool_decide (nc_LogDB c = "tan"))) in
      match r with
      | inl _ => panic "panic(err)"
      | inr _ =>
          let* '(bootstrap, members) := findCluster c binding replica hosts in
          let* running := startReplica fuel members bootstrap (raftConfig c replica) in
          ret (binding, replica, running)
      end
  end.
End Start.

(** ** The goroutines after the start *)

Section Announce.
Context {W : Type} `{NodeHost W, Docker W} (AppConfig : AppConfig) (c : node_config).

Definition startedAction : KVAction :=
  mkKVAction PUT (Some (mkKVData ROO_STARTED (Some "true"))).

(** The goroutine that marks the cluster as started, [BOOTSTRAP_WAIT_S/2]
    seconds later; [false] while it has not managed to. *)
Fixpoint markStarted (fuel : nat) : io W bool :=
  match fuel with
  | O => ret false
  | S fuel =>
      let* r := try (execute AppConfig startedAction) in
      match r with
      | inl _ => markStarted fuel
      | inr _ => ret true
      end
  end.

(** The goroutine that adds this node to the store, and then updates the
    routes; its result is whether it has managed to, with the routes it
    writes in another goroutine. *)
Fixpoint announce (fuel : nat) (replica : Z) : io W (option (list KVAction)) :=
  match fuel with
  | O => ret None
  | S fuel =>
      let* r := try (execute AppConfig (mkKVAction PUT (Some (mkKVData
        (peerKey (cfg_Binding AppConfig)) (Some (Decimal.FormatUint replica)))))) in
      match r with
      | inl _ => announce fuel replica
      | inr _ =>
          if nc_Swarm c then
            let* r := updateFromSwarm AppConfig true in ret (Some r.2)
          else ret (Some [])
      end
  end.
End Announce.
