(* ===== verification/Swarm.v ===== *)
(** * The swarm worker: [runSwarmWorker] of [roo/kvdocker.go]

    Every few seconds the leader asks one manager of the swarm to update
    the routes: it scans the keys under which the managers have announced
    themselves, and asks each in turn, in the order in which Go ranges over
    the map, until one answers with success. *)
From S2P Require Import Prelude Bytes Utf8 Json Types Pebble DiskKV DiskKVSpec QuerySpec NodeHost.
From S2P Require Import Permissions PermissionSamples.
From S2P Require Import KvService Routes Net Url GoCache CertCache Watcher Bootstrap.

(** The seconds between two rounds, or none when there are no rounds. *)
Definition swarmInterval (SwarmRefreshSeconds : Z) : option Z :=
  if SwarmRefreshSeconds <? 1 then None
  else if SwarmRefreshSeconds <? 2 then Some 3
  else Some SwarmRefreshSeconds.

(** The regular expression [.*\:(.+)] on one line: what follows the last
    colon that is not at the end. *)
Fixpoint after_last_colon (s : string) : option string :=
  match s with
  | "" => None
  | String c s' =>
      match after_last_colon s' with
      | Some x => Some x
      | None => if decide (c = ":"%char /\ s' <> "") then Some s' else None
      end
  end.

(** On a text: its first line that matches, as a dot matches no newline. *)
Definition submatch (key : string) : option string :=
  head (omap after_last_colon (split (z2b 10) key)).

Section Worker.
Context {W : Type} `{NodeHost W, Membership W, HttpClient W} (AppConfig : AppConfig)
  (ApiVersionString : string) (own : Z) (order : gmap string string -> list (string * string)).
Abbreviation shard := (cfg_ShardID AppConfig).

Definition swarmURL (host : string) : string := apiURL host ApiVersionString "/swarm".

(** The loop over the keys.  [http.NewRequest] returns nil for a URL that
    does not parse, and the error is ignored. *)
Fixpoint askManagers (items : list (string * string)) : io W unit :=
  match items with
  | [] => ret tt
  | (key, _) :: items =>
      match submatch key with
      | None => askManagers items
      | Some host =>
          match Parse (swarmURL host) with
          | None => panic "nil pointer dereference"
          | Some _ =>
              let* r := try (HttpDo "POST" (swarmURL host) "") in
              match r with
              | inr (code, _) => if is_2xx code then ret tt else askManagers items
              | inl _ => askManagers items
              end
          end
      end
  end.

(** One round. *)
Definition swarmTick : io W unit :=
  let* r := try (GetLeaderID shard) in
  let leader := match r with inr l => l | inl _ => 0 end in
  if decide (leader = own) then
    let* r := try (SyncRead shard (QAction
      (mkKVAction SCAN (Some (mkKVData SWARM_MANAGER_PREFIX None))))) in
    match r with
    | inl _ => ret tt
    | inr (AMap items) => askManagers (order items)
    | inr _ => panic "interface conversion"
    end
  else ret tt.
End Worker.

(** [runSwarmWorker], with the order of the map at each round, and whether
    its loop has returned; below one second there is no loop. *)
Definition runSwarmWorker {W : Type} `{NodeHost W, Membership W, HttpClient W} (AppConfig : AppConfig)
    (ApiVersionString : string) (SwarmRefreshSeconds own : Z)
    (orders : nat -> gmap string string -> list (string * string)) (l : list signal) : io W bool :=
  match swarmInterval SwarmRefreshSeconds with
  | None => ret false
  | Some _ => worker (fun i => swarmTick AppConfig ApiVersionString own (orders i)) 0 l
  end.

(** ** Properties *)

(** *** A node as a part of a larger world *)

Section Lens.
Context {W T : Type} `{NodeHostLaws W, Membership W} (view : T -> W) (update : W -> T -> T).

Definition lens_NodeHost : NodeHost T := {|
  SyncRead sh q := zoom view update (SyncRead sh q);
  SyncPropose sh c := zoom view update (SyncPropose sh c);
  RequestDeleteReplica sh n := zoom view update (RequestDeleteReplica sh n);
  RequestAddReplica sh n a := zoom view update (RequestAddReplica sh n a) |}.
Definition lens_Membership : Membership T := {|
  GetLeaderID sh := zoom view update (GetLeaderID sh);
  SyncGetShardMembership sh := zoom view update (SyncGetShardMembership sh);
  HttpGetOk u := zoom view update (HttpGetOk u) |}.

#[local] Existing Instances lens_NodeHost lens_Membership.
Context `{HttpClient T}.
Hypotheses (view_update : forall w t, view (update w t) = w)
  (update_update : forall w w' t, update w (update w' t) = update w t).
Context (cfg : AppConfig) (version : string) (own : Z)
  (order : gmap string string -> list (string * string)).

(** The keys of the managers, as the map is ranged over. *)
Definition manager_keys (m : gmap string string) : list (string * string) :=
  order (filter (fun kv => has_prefix SWARM_MANAGER_PREFIX kv.1 = true) m).

(** A round of any node, and the managers that the leader then asks. *)
Lemma run_swarmTick t w1 leader :
  run (GetLeaderID (cfg_ShardID cfg)) (view t) = (w1, Ret leader) -> nh_ok w1 ->
  if decide (leader = own) then
    exists w2, nh_ok w2 /\ nh_view w2 = nh_view w1 /\
      run (swarmTick cfg version own order) t =
      run (askManagers version (manager_keys (nh_view w1))) (update w2 t)
  else run (swarmTick cfg version own order) t = (update w1 t, Ret tt).
Proof.
  intros E Hw.
  assert (EL : run (GetLeaderID (cfg_ShardID cfg)) t = (update w1 t, Ret leader)).
  { cbn [GetLeaderID lens_Membership]. rewrite run_zoom. by rewrite E. }
  destruct (decide (leader = own)) as [<-|Hne]; unfold swarmTick; rewrite run_bind, run_try, EL; cbv beta iota zeta;
    [rewrite decide_True by done|by rewrite decide_False].
  destruct (nh_read w1 (cfg_ShardID cfg) (QAction (mkKVAction SCAN (Some (mkKVData SWARM_MANAGER_PREFIX None))))
    (answer_of (nh_view w1) SCAN (mkKVData SWARM_MANAGER_PREFIX None)) Hw eq_refl) as (w2 & E2 & Hw2 & V2).
  exists w2. split_and!; [done..|].
  rewrite run_bind, run_try. cbn [SyncRead lens_NodeHost]. rewrite run_zoom, view_update, E2.
  cbv beta iota zeta. by rewrite update_update.
Qed.
End Lens.

(** The hosts of the managers, in the order of the keys. *)
Definition manager_hosts (items : list (string * string)) : list string := omap (fun kv => submatch kv.1) items.

(** *** Who is asked *)

(** A world that keeps the requests it was asked, over a node. *)
Record observed (W : Type) := mkObserved { ob_node : W; ob_requests : list (string * string) }.
Arguments mkObserved {W} _ _.
Arguments ob_node {W} _.
Arguments ob_requests {W} _.

Section Properties.
Context {W : Type} `{NodeHostLaws W, Membership W} (answers : string -> go (Z * option string))
  (cfg : AppConfig) (version : string) (own : Z)
  (order : gmap string string -> list (string * string)).

Definition ob_set (w : W) (o : observed W) : observed W := mkObserved w (ob_requests o).

#[local] Instance observed_NodeHost : NodeHost (observed W) := lens_NodeHost ob_node ob_set.
#[local] Instance observed_Membership : Membership (observed W) := lens_Membership ob_node ob_set.
#[local] Instance observed_HttpClient : HttpClient (observed W) := {
  HttpDo m u _ := fun o => ([], (mkObserved (ob_node o) (ob_requests o ++ [(m, u)]), answers u)) }.

(** Whether a host answers with success. *)
Definition answers_ok (host : string) : bool :=
  match answers (swarmURL version host) with Ret (code, _) => is_2xx code | _ => false end.

(** The hosts up to the first that answers with success. *)
Fixpoint until_ok (hosts : list string) : list string :=
  match hosts with
  | [] => []
  | h :: hosts => h :: if answers_ok h then [] else until_ok hosts
  end.

Lemma run_askManagers items w log :
  (forall u, match answers u with Panic _ => False | _ => True end) ->
  Forall (fun h => is_Some (Parse (swarmURL version h))) (manager_hosts items) ->
  run (askManagers version items) (mkObserved w log) =
  (mkObserved w (log ++ map (fun h => ("POST", swarmURL version h)) (until_ok (manager_hosts items))), Ret tt).
Proof.
  intros Ha. revert log. induction items as [|[key v] items IH]; intros log Hp.
  - simpl. by rewrite app_nil_r.
  - cbn [askManagers]. unfold manager_hosts in *. cbn [omap list_omap fst] in *.
    destruct (submatch key) as [host|]; [|by apply IH].
    apply Forall_cons in Hp as [[u Hu] Hp]. rewrite Hu. cbn [until_ok map].
    rewrite run_bind, run_try. change (run (HttpDo "POST" (swarmURL version host) "") (mkObserved w log))
      with (mkObserved w (log ++ [("POST", swarmURL version host)]), answers (swarmURL version host)).
    unfold answers_ok at 1. specialize (Ha (swarmURL version host)).
    destruct (answers (swarmURL version host)) as [[code body]|e|p]; [|..|done].
    + destruct (is_2xx code); [done|]. rewrite IH by done. by rewrite <- app_assoc.
    + rewrite IH by done. by rewrite <- app_assoc.
Qed.

Lemma run_observedTick w w1 log leader :
  run (GetLeaderID (cfg_ShardID cfg)) w = (w1, Ret leader) -> nh_ok w1 ->
  if decide (leader = own) then
    exists w2, nh_ok w2 /\ nh_view w2 = nh_view w1 /\
      run (swarmTick cfg version own order) (mkObserved w log) =
      run (askManagers version (manager_keys order (nh_view w1))) (mkObserved w2 log)
  else run (swarmTick cfg version own order) (mkObserved w log) = (mkObserved w1 log, Ret tt).
Proof.
  intros E Hw. exact (run_swarmTick ob_node ob_set (fun _ _ => eq_refl) (fun _ _ _ => eq_refl)
    cfg version own order (mkObserved w log) w1 leader E Hw).
Qed.

(** In a round of the swarm worker the leader asks the managers that
    have announced themselves, one after the other, up to the first that
    answers with success, and no other node asks anyone. *)
Theorem swarm_delegates w w1 log leader :
  run (GetLeaderID (cfg_ShardID cfg)) w = (w1, Ret leader) -> nh_ok w1 ->
  (forall u, match answers u with Panic _ => False | _ => True end) ->
  Forall (fun h => is_Some (Parse (swarmURL version h))) (manager_hosts (manager_keys order (nh_view w1))) ->
  exists w2, run (swarmTick cfg version own order) (mkObserved w log) =
    (mkObserved w2 (log ++ map (fun h => ("POST", swarmURL version h))
       (if decide (leader = own) then until_ok (manager_hosts (manager_keys order (nh_view w1))) else [])), Ret tt).
Proof.
  intros E Hw Ha Hp. pose proof (run_observedTick w w1 log leader E Hw) as K.
  destruct (decide (leader = own)).
  - destruct K as (w2 & _ & _ & ->). exists w2. by apply run_askManagers.
  - exists w1. rewrite K. simpl. by rewrite app_nil_r.
Qed.

(** A key below the prefix of the managers whose last part is no host
    brings the leader down: the URL does not parse, the error is ignored,
    and the panic is in a goroutine, so the process ends.  Whoever may write
    keys below the prefix can do so. *)
Theorem bad_manager_key w w1 log key v host items :
  run (GetLeaderID (cfg_ShardID cfg)) w = (w1, Ret own) -> nh_ok w1 ->
  manager_keys order (nh_view w1) = (key, v) :: items ->
  submatch key = Some host -> Parse (swarmURL version host) = None ->
  exists w2, run (swarmTick cfg version own order) (mkObserved w log) =
    (mkObserved w2 log, Panic "nil pointer dereference").
Proof.
  intros E Hw Hk Hs Hp. pose proof (run_observedTick w w1 log own E Hw) as K.
  rewrite decide_True in K by done. destruct K as (w2 & _ & _ & ->). exists w2.
  rewrite Hk. cbn [askManagers]. by rewrite Hs, Hp.
Qed.
End Properties.

(** ** Witnesses *)

(** The node leads; of three managers, only the first answers. *)
#[local] Instance led_Membership : Membership node_state := {
  GetLeaderID _ := ret 7;
  SyncGetShardMembership _ := ret [];
  HttpGetOk _ := ret true }.

Definition managed (hosts : list string) : node_state :=
  mkNode (list_to_map (map (fun h => ((SWARM_MANAGER_PREFIX ++ h)%string, "")) hosts)) 1.

Definition first_answers (u : string) : go (Z * option string) :=
  if bool_decide (u = swarmURL "v1" "10.0.0.1") then Ret (200, None) else Err (ErrExternal 1).

Lemma utf8_keys_managed hosts :
  Forall (fun h => valid_utf8 (SWARM_MANAGER_PREFIX ++ h)%string = true) hosts ->
  utf8_keys (n_contents (managed hosts)).
Proof.
  induction 1 as [|h hosts Hh _ IH]; [apply utf8_keys_empty|].
  unfold managed in *. cbn [map list_to_map foldr n_contents fst snd uncurry] in *.
  by apply map_Forall_insert_2.
Qed.

#[local] Existing Instances observed_NodeHost observed_Membership.
#[local] Instance first_HttpClient : HttpClient (observed node_state) := observed_HttpClient first_answers.

Lemma swarm_delegates_witness :
  exists w2, run (swarmTick cfg_sample "v1" 7 map_to_list)
    (mkObserved (managed ["10.0.0.1"; "10.0.0.2"; "10.0.0.3"]) []) =
    (mkObserved w2 [("POST", swarmURL "v1" "10.0.0.3"); ("POST", swarmURL "v1" "10.0.0.1")], Ret tt).
Proof.
  destruct (swarm_delegates first_answers cfg_sample "v1" 7 map_to_list
    (managed ["10.0.0.1"; "10.0.0.2"; "10.0.0.3"]) (managed ["10.0.0.1"; "10.0.0.2"; "10.0.0.3"]) [] 7)
    as (w2 & E).
  - reflexivity.
  - apply utf8_keys_managed. by repeat constructor.
  - intros u. unfold first_answers. by destruct (bool_decide _).
  - assert (manager_hosts (manager_keys map_to_list
      (nh_view (managed ["10.0.0.1"; "10.0.0.2"; "10.0.0.3"]))) = ["10.0.0.3"; "10.0.0.1"; "10.0.0.2"]) as ->
      by (vm_compute; reflexivity).
    repeat constructor; eexists; vm_compute; reflexivity.
  - exists w2. refine (eq_trans E _). vm_compute. reflexivity.
Defined.

Lemma bad_manager_key_witness :
  exists w2, run (swarmTick cfg_sample "v1" 7 (fun m => reverse (map_to_list m))) (mkObserved (managed ["10.0 .1"; "10.0.0.2"]) []) =
    (mkObserved w2 [], Panic "nil pointer dereference").
Proof.
  apply (bad_manager_key first_answers cfg_sample "v1" 7 (fun m => reverse (map_to_list m))
    (managed ["10.0 .1"; "10.0.0.2"]) (managed ["10.0 .1"; "10.0.0.2"]) []
    (SWARM_MANAGER_PREFIX ++ "10.0 .1") "" "10.0 .1" [((SWARM_MANAGER_PREFIX ++ "10.0.0.2")%string, "")]).
  - reflexivity.
  - apply utf8_keys_managed. by repeat constructor.
  - vm_compute. reflexivity.
  - vm_compute. reflexivity.
  - vm_compute. reflexivity.
Defined.
