(* ===== verification/Nats.v ===== *)
(** * The NATS sessions: [roo/nats.go], and how [main] loads them

    A service of the configuration whose name is [nats] is connected at
    start, as a notifier for what leaves the node or as a consumer of what
    comes in.  The client library is an interface. *)
From S2P Require Import Prelude Bytes Utf8 Json Types KvService Bootstrap.

Definition SERVICE_TYPE_NATS : string := "nats".
Definition NATS_QUEUE_GROUP : string := "roo".

(** ** Data: [Filter], [Service] and [WriteArgs] of [roo/typedefs.go] *)

Record Filter := mkFilter { f_Type : string; f_Alias : string; f_Id : string }.

(** The fields of a service that are read; the session is the connection,
    if there is one. *)
Record Service := mkService {
  sv_Service : string; sv_Hosts : list string; sv_CACert : string; sv_Cert : string; sv_Key : string;
  sv_Secure : bool; sv_Critical : bool; sv_Context : string; sv_Filter : list Filter;
  sv_Session : option Z }.

Definition with_session (nc : Z) (s : Service) : Service :=
  mkService (sv_Service s) (sv_Hosts s) (sv_CACert s) (sv_Cert s) (sv_Key s) (sv_Secure s)
    (sv_Critical s) (sv_Context s) (sv_Filter s) (Some nc).

(** A JSON object stands for [map[string]interface{}], the last of equal
    names counting, and [JNull] for a nil map. *)
Record WriteArgs := mkWriteArgs { wa_WriteType : Z; wa_Values : json }.

(** ** The client library *)

(** [Connect] takes the joined URLs and [InsecureSkipVerify], and returns a
    connection. *)
Class Nats (W : Type) := {
  LoadX509KeyPair : string -> string -> io W unit;
  ReadFile : string -> io W string;
  AppendCertsFromPEM : string -> bool;
  NatsConnect : string -> bool -> io W Z;
  NewEncodedConn : Z -> io W unit;
  NatsClose : Z -> io W unit;
  Publish : Z -> string -> json -> io W unit;
  QueueSubscribe : Z -> string -> string -> io W unit;
}.

(** ** Numbers of a message

    [json.Unmarshal] turns the numbers below an [interface{}] into
    [float64]s and fails on those that are too large. *)
Definition exponent (s : string) : Z :=
  match s with
  | "" => 0
  | String c s' =>
      if b2z c =? 45 then - default 0 (digits_val 0 s')
      else if b2z c =? 43 then default 0 (digits_val 0 s')
      else default 0 (digits_val 0 s)
  end.

(** The digits of a literal as one number, and its power of ten. *)
Fixpoint decimal (m e : Z) (frac : bool) (s : string) : Z * Z :=
  match s with
  | "" => (m, e)
  | String c s' =>
      if is_digit c then decimal (m * 10 + (b2z c - 48)) (if frac then e - 1 else e) frac s'
      else if b2z c =? 46 then decimal m e true s'
      else if (b2z c =? 101) || (b2z c =? 69) then (m, e + exponent s')
      else decimal m e frac s'
  end.

(** Whether a literal rounds to a finite [float64]. *)
Definition finite_literal (lit : string) : bool :=
  let '(m, e) := decimal 0 0 false lit in
  (m =? 0) ||
  (if 0 <=? e then m * 10 ^ e <? 2 ^ 1024 - 2 ^ 970 else m <? (2 ^ 1024 - 2 ^ 970) * 10 ^ (- e)).

Fixpoint finite_numbers (j : json) : bool :=
  match j with
  | JNum lit => finite_literal lit
  | JArr l => forallb finite_numbers l
  | JObj ms => forallb (fun '(_, v) => finite_numbers v) ms
  | _ => true
  end.

(** [json.Unmarshal(data, &j)] into a map. *)
Definition Unmarshal_map (data : string) : option json :=
  match parse data with
  | Some (JObj ms) => if finite_numbers (JObj ms) then Some (JObj ms) else None
  | Some JNull => Some JNull
  | _ => None
  end.

Section Sessions.
Context {W : Type} `{Nats W}.

(** ** The session *)

(** [InsecureSkipVerify] is set to [Secure].  The error of reading the
    certificates of the authority is dropped. *)
Definition natsConnect (s : Service) : io W Service :=
  let* cert := try (LoadX509KeyPair (sv_Cert s) (sv_Key s)) in
  match cert with
  | inl _ => exit1
  | inr _ =>
      let* file := try (ReadFile (sv_CACert s)) in
      let rootPEM := match file with inr p => p | inl _ => "" end in
      if AppendCertsFromPEM rootPEM then
        let* nc := NatsConnect (String.concat "," (sv_Hosts s)) (sv_Secure s) in
        let* _ := NewEncodedConn nc in
        ret (with_session nc s)
      else exit1
  end.

Definition natsClose (s : Service) : io W unit :=
  match sv_Session s with
  | Some nc => let* _ := try (NatsClose nc) in ret tt
  | None => panic "nil pointer dereference"
  end.

Definition natsWrite (s : Service) (w : WriteArgs) : io W unit :=
  match sv_Session s with
  | Some nc => Publish nc (sv_Context s) (wa_Values w)
  | None => panic "nil pointer dereference"
  end.

Definition natsServe : io W unit := fail (ErrorString "[ERROR] Nats service not implemented").

(** ** Messages *)

(** To every notifier with a session; errors are only logged. *)
Fixpoint notify (Notify : list Service) (w : WriteArgs) : io W unit :=
  match Notify with
  | [] => ret tt
  | n :: Notify =>
      match sv_Session n with
      | Some _ => let* _ := try (natsWrite n w) in notify Notify w
      | None => notify Notify w
      end
  end.

(** The subscriber that [listen] installs.  The switch on the alias of the
    filter has no cases, so the type of the message stays 0. *)
Definition onMessage (Notify : list Service) (f : Filter) (data : string) : io W unit :=
  match Unmarshal_map data with
  | None => ret tt
  | Some j =>
      let wargs := mkWriteArgs 0 j in
      if negb (wa_WriteType wargs =? 0) then notify Notify wargs else ret tt
  end.

Fixpoint subscribe (nc : Z) (fs : list Filter) : io W unit :=
  match fs with
  | [] => ret tt
  | f :: fs => let* _ := try (QueueSubscribe nc (f_Id f) NATS_QUEUE_GROUP) in subscribe nc fs
  end.

Definition natsListen (s : Service) : io W unit :=
  match sv_Session s with
  | Some nc => subscribe nc (sv_Filter s)
  | None => panic "nil pointer dereference"
  end.

(** ** Loading, in [main] *)

(** One service: its new state, and whether to go on with it.  [log.Fatalf]
    ends the process. *)
Definition loadService (s : Service) : io W (Service * bool) :=
  if decide (sv_Service s = SERVICE_TYPE_NATS) then
    let* r := try (natsConnect s) in
    match r with
    | inl _ => if sv_Critical s then exit1 else ret (s, false)
    | inr s' => ret (s', true)
    end
  else ret (s, false).

Fixpoint loadNotifiers (l : list Service) : io W (list Service) :=
  match l with
  | [] => ret []
  | s :: l => let* r := loadService s in let* rest := loadNotifiers l in ret (r.1 :: rest)
  end.

(** The result of [listen] is not looked at. *)
Fixpoint loadConsumers (l : list Service) : io W (list Service) :=
  match l with
  | [] => ret []
  | s :: l =>
      let* r := loadService s in
      let* _ := if r.2 then try (natsListen r.1) else ret (inr tt) in
      let* rest := loadConsumers l in
      ret (r.1 :: rest)
  end.
End Sessions.

(** ** Properties *)

(** A world in which calls of the library have fixed outcomes: the
    subscriptions that were made and the messages that were published. *)
Record broker := mkBroker {
  bk_subscriptions : list (Z * string * string);
  bk_published : list (string * json) }.

Section Properties.
Context (pair_ok : string -> string -> bool) (authority : string -> go string) (pem_ok : string -> bool)
  (dial : string -> bool -> go Z) (encoder : Z -> go unit).

#[local] Instance broker_Nats : Nats broker := {
  LoadX509KeyPair cert key := if pair_ok cert key then ret tt else fail (ErrExternal 1);
  ReadFile f := lift (authority f);
  AppendCertsFromPEM := pem_ok;
  NatsConnect urls insecure := lift (dial urls insecure);
  NewEncodedConn nc := lift (encoder nc);
  NatsClose _ := ret tt;
  Publish _ subject v := modify (fun b => mkBroker (bk_subscriptions b) (bk_published b ++ [(subject, v)]));
  QueueSubscribe nc subject queue :=
    modify (fun b => mkBroker (bk_subscriptions b ++ [(nc, subject, queue)]) (bk_published b)) }.

(** What becomes of a service: the process ends, or the service has a
    session, or it is left out. *)
Inductive fate := Dies | Connected (nc : Z) | LeftOut.

(** The certificates of a service can be loaded. *)
Definition certified (s : Service) : bool :=
  pair_ok (sv_Cert s) (sv_Key s) &&
  pem_ok (match authority (sv_CACert s) with Ret p => p | _ => "" end).

Definition fate_of (s : Service) : fate :=
  if negb (bool_decide (sv_Service s = SERVICE_TYPE_NATS)) then LeftOut
  else if negb (certified s) then Dies
  else match (let? nc := dial (String.concat "," (sv_Hosts s)) (sv_Secure s) in
              let? _ := encoder nc in Ret nc) with
       | Ret nc => Connected nc
       | _ => if sv_Critical s then Dies else LeftOut
       end.

(** The library does not panic. *)
Definition well_behaved : Prop :=
  (forall f p, authority f <> Panic p) /\ (forall u b p, dial u b <> Panic p) /\
  (forall nc p, encoder nc <> Panic p).

Lemma run_loadService s b :
  well_behaved ->
  run (loadService s) b = (b, match fate_of s with
    | Dies => Panic "os.Exit(1)"
    | Connected nc => Ret (with_session nc s, true)
    | LeftOut => Ret (s, false)
    end).
Proof.
  intros (HA & HD & HE). unfold loadService, fate_of, certified.
  destruct (decide _) as [E|E]; [rewrite bool_decide_true by done|by rewrite bool_decide_false].
  unfold natsConnect. rewrite run_bind, run_try, run_bind, run_try. cbn [negb LoadX509KeyPair broker_Nats].
  destruct (pair_ok _ _); [cbn [andb]|done]. cbn [run ret lift snd].
  rewrite run_bind, run_try. cbn [ReadFile AppendCertsFromPEM broker_Nats]. rewrite run_lift.
  specialize (HA (sv_CACert s)).
  destruct (authority (sv_CACert s)) as [pem|e|p]; [..|by destruct (HA p)];
    (destruct (pem_ok _); [cbn [negb]|done]);
    rewrite run_bind; cbn [NatsConnect NewEncodedConn broker_Nats]; rewrite run_lift;
    specialize (HD (String.concat "," (sv_Hosts s)) (sv_Secure s));
    (destruct (dial _ _) as [nc|e'|p]; cbn [go_bind]; [|by destruct (sv_Critical s)|by destruct (HD p)]);
    rewrite run_bind, run_lift; specialize (HE nc);
    (destruct (encoder nc) as [[]|e'|p]; cbn [go_bind]; [done|by destruct (sv_Critical s)|by destruct (HE p)]).
Qed.

(** The services after the start, and the subscriptions of the consumers. *)
Definition loaded (s : Service) : Service :=
  match fate_of s with Connected nc => with_session nc s | _ => s end.

Definition subscriptions (l : list Service) : list (Z * string * string) :=
  mbind (fun s => match fate_of s with
                  | Connected nc => map (fun f => (nc, f_Id f, NATS_QUEUE_GROUP)) (sv_Filter s)
                  | _ => []
                  end) l.

Definition subscribed (l : list Service) (b : broker) : broker :=
  mkBroker (bk_subscriptions b ++ subscriptions l) (bk_published b).

Lemma run_subscribe nc fs b :
  run (subscribe nc fs) b =
  (mkBroker (bk_subscriptions b ++ map (fun f => (nc, f_Id f, NATS_QUEUE_GROUP)) fs) (bk_published b), Ret tt).
Proof.
  revert b. induction fs as [|f fs IH]; intros b; cbn [subscribe map].
  - rewrite run_ret, app_nil_r. by destruct b.
  - rewrite run_bind, run_try. cbn [QueueSubscribe broker_Nats]. rewrite run_modify, IH.
    cbn [bk_subscriptions bk_published]. by rewrite <- app_assoc.
Qed.

Lemma run_loadNotifiers l b :
  well_behaved -> Forall (fun s => fate_of s <> Dies) l -> run (loadNotifiers l) b = (b, Ret (map loaded l)).
Proof.
  intros Hw. induction 1 as [|s l Hs _ IH]; [done|]. cbn [loadNotifiers map].
  rewrite run_bind, run_loadService by done. unfold loaded at 1.
  destruct (fate_of s); [done|..]; by rewrite run_bind, IH.
Qed.

Lemma run_loadConsumers pre l b :
  well_behaved -> Forall (fun s => fate_of s <> Dies) pre ->
  run (loadConsumers (pre ++ l)) b =
  run (let* rest := loadConsumers l in ret (map loaded pre ++ rest)) (subscribed pre b).
Proof.
  intros Hw. intros Hp. revert b. induction Hp as [|s pre Hs _ IH]; intros b.
  - unfold subscribed. cbn [subscriptions mbind list_bind app map]. rewrite app_nil_r, run_bind.
    destruct b. cbn [bk_subscriptions bk_published]. by destruct (run (loadConsumers l) _) as [? []].
  - cbn [app loadConsumers map]. rewrite run_bind, run_loadService by done. unfold loaded at 1.
    unfold subscribed, subscriptions. cbn [mbind list_bind]. fold (subscriptions pre).
    destruct (fate_of s) as [|nc|]; [done|..]; cbn [fst snd].
    + rewrite run_bind, run_try. unfold natsListen. cbn [sv_Session with_session sv_Filter].
      rewrite run_subscribe. cbv beta iota zeta. rewrite run_bind, IH, !run_bind.
      unfold subscribed. cbn [bk_subscriptions bk_published]. rewrite <- app_assoc.
      by destruct (run (loadConsumers l) _) as [? []].
    + rewrite run_bind, run_ret. cbv beta iota zeta. rewrite run_bind, IH, !run_bind.
      unfold subscribed. cbn [app]. by destruct (run (loadConsumers l) _) as [? []].
Qed.

(** The consumers of the configuration are connected one after the
    other.  A service whose certificates cannot be loaded ends the process
    even if it is not critical; an unreachable one does so only if it is
    critical, and is left out otherwise.  If none does, exactly the filters
    of the connected services are subscribed to, all in one queue group. *)
Theorem consumers_loaded l b :
  well_behaved ->
  (Forall (fun s => fate_of s <> Dies) l -> run (loadConsumers l) b = (subscribed l b, Ret (map loaded l))) /\
  (forall pre s post, l = pre ++ s :: post -> Forall (fun s => fate_of s <> Dies) pre -> fate_of s = Dies ->
   run (loadConsumers l) b = (subscribed pre b, Panic "os.Exit(1)")).
Proof.
  intros Hw. split.
  - intros Hl. rewrite <- (app_nil_r l) at 1. rewrite run_loadConsumers by done.
    rewrite run_bind. cbn [loadConsumers]. by rewrite run_ret, run_ret, app_nil_r.
  - intros pre s post -> Hp Hs. rewrite run_loadConsumers by done. rewrite run_bind.
    cbn [loadConsumers]. by rewrite run_bind, run_loadService, Hs.
Qed.

(** The messages that come in, with the filters they match. *)
Fixpoint deliver (Notify : list Service) (msgs : list (Filter * string)) : io broker unit :=
  match msgs with
  | [] => ret tt
  | (f, data) :: msgs => let* _ := onMessage Notify f data in deliver Notify msgs
  end.

(** Once notifiers and consumers are loaded, no message that a consumer
    receives is ever passed on to a notifier: its type is never set. *)
Theorem nats_forwards_nothing ns cs msgs b :
  well_behaved -> Forall (fun s => fate_of s <> Dies) (ns ++ cs) ->
  run (let* Notify := loadNotifiers ns in let* _ := loadConsumers cs in deliver Notify msgs) b =
  (subscribed cs b, Ret tt).
Proof.
  intros Hw [Hn Hc]%Forall_app. rewrite run_bind, run_loadNotifiers by done.
  rewrite run_bind. rewrite <- (app_nil_r cs) at 1. rewrite run_loadConsumers, run_bind by done.
  cbn [loadConsumers]. rewrite !run_ret. cbv beta iota zeta.
  generalize (subscribed cs b) as b'. induction msgs as [|[f data] msgs IH]; intros b'; [reflexivity|].
  cbn [deliver]. rewrite run_bind. unfold onMessage. destruct (Unmarshal_map data); exact (IH b').
Qed.
End Properties.

(** ** Witnesses *)

(** A notifier without certificates is fatal though it is not critical. *)
Definition service_of (host cert : string) (critical : bool) : Service :=
  mkService SERVICE_TYPE_NATS [host] "ca" cert "key" true critical "" [mkFilter "" "" "events.>"] None.

Definition pairs (cert key : string) : bool := bool_decide (cert = "cert").
Definition only_first (urls : string) (insecure : bool) : go Z :=
  if bool_decide (urls = "nats1") then Ret 3 else Err (ErrExternal 1).

Lemma consumers_loaded_witness :
  run (loadConsumers (H := broker_Nats pairs (fun _ => Ret "pem") (fun _ => true) only_first (fun _ => Ret tt))
    [service_of "nats2" "cert" false; service_of "nats1" "cert" true; service_of "nats1" "" false])
    (mkBroker [] []) = (mkBroker [(3, "events.>", "roo")] [], Panic "os.Exit(1)").
Proof.
  apply (consumers_loaded pairs (fun _ => Ret "pem") (fun _ => true) only_first (fun _ => Ret tt))
    with (pre := [service_of "nats2" "cert" false; service_of "nats1" "cert" true])
      (s := service_of "nats1" "" false) (post := []); [|done|by repeat constructor|done].
  split_and!; [done| |done]; intros u c p; unfold only_first; by destruct (bool_decide _).
Defined.

Lemma nats_forwards_nothing_witness :
  run (let* Notify := loadNotifiers
         (H := broker_Nats pairs (fun _ => Ret "pem") (fun _ => true) only_first (fun _ => Ret tt))
         [service_of "nats1" "cert" true] in
       let* _ := loadConsumers
         (H := broker_Nats pairs (fun _ => Ret "pem") (fun _ => true) only_first (fun _ => Ret tt))
         [service_of "nats1" "cert" true] in
       deliver pairs (fun _ => Ret "pem") (fun _ => true) only_first (fun _ => Ret tt) Notify
         [(mkFilter "" "" "events.>", "{}")]) (mkBroker [] []) = (mkBroker [(3, "events.>", "roo")] [], Ret tt).
Proof.
  apply (nats_forwards_nothing pairs (fun _ => Ret "pem") (fun _ => true) only_first (fun _ => Ret tt)).
  - split_and!; [done| |done]; intros u c p; unfold only_first; by destruct (bool_decide _).
  - by repeat constructor.
Defined.
