(* ===== verification/Startup.v ===== *)
(** * The start of [main] ([roo/roo.go]): configuration, delay, hosts, tokens

    What happens between reading the configuration and serving the API:
    the environment overrides the file, defaults fill what is missing, the
    node waits for its name service, looks up its peers, and makes the
    channel of tokens. *)
From S2P Require Import Prelude Bytes Utf8 Json Types Bootstrap.

Definition ENV_ROO_DNS : string := "ROO_DNS".
Definition ENV_ROO_RESOLVER : string := "ROO_RESOLVER".
Definition ENV_ROO_START_DELAY : string := "ROO_START_DELAY".
Definition ENV_ROO_ACME_STAGING : string := "ROO_ACME_STAGING".
Definition ACME_STAGING : string := "https://acme-staging-v02.api.letsencrypt.org/directory".
Definition ACME_PRODUCTION : string := "https://acme-v02.api.letsencrypt.org/directory".

(** The fields of [Configuration] and [Cluster] that the start reads. *)
Record Configuration := mkConfiguration {
  c_ApiVersion : Z; c_ApiVersionString : string; c_AllowOrigin : string; c_SwarmRefreshSeconds : Z;
  c_DNS : string; c_Resolver : string; c_BootstrapHosts : bool; c_StartDelaySeconds : Z;
  c_Hosts : list string; c_MaximumConnections : Z; c_AcmeStaging : bool }.

(** ** [strconv] and [time] *)

(** [strconv.Itoa] *)
Definition Itoa (z : Z) : string :=
  if z <? 0 then String "-" (Decimal.FormatUint (- z)) else Decimal.FormatUint z.

(** [strconv.ParseUint(s, 10, 64)] without its error: 0 for a syntax error,
    and the largest number as soon as the digits read exceed it. *)
Fixpoint saturating_digits (acc : Z) (s : string) : Z :=
  match s with
  | "" => acc
  | String c s' =>
      if is_digit c then
        let n := acc * 10 + (b2z c - 48) in
        if n <? 2 ^ 64 then saturating_digits n s' else 2 ^ 64 - 1
      else 0
  end.

(** [v, _ := strconv.ParseInt(s, 10, 64)] *)
Definition ParseInt (s : string) : Z :=
  match s with
  | "" => 0
  | String c s' =>
      if b2z c =? 45 then Z.max (- 2 ^ 63) (- saturating_digits 0 s')
      else if b2z c =? 43 then Z.min (2 ^ 63 - 1) (saturating_digits 0 s')
      else Z.min (2 ^ 63 - 1) (saturating_digits 0 s)
  end.

(** The product of two [int64]s. *)
Definition mul64 (x y : Z) : Z := (x * y + 2 ^ 63) mod 2 ^ 64 - 2 ^ 63.

(** [time.Sleep(time.Duration(d) * time.Second)]: the nanoseconds slept. *)
Definition sleep_seconds (d : Z) : Z := Z.max 0 (mul64 d (10 ^ 9)).

Section Start.
Context (Getenv : string -> string).

(** ** Overrides and defaults *)

Definition overrides (c : Configuration) : Configuration :=
  mkConfiguration (c_ApiVersion c) ("v" +:+ Itoa (c_ApiVersion c))
    (if decide (c_AllowOrigin c = "") then "*" else c_AllowOrigin c)
    (if c_SwarmRefreshSeconds c =? 0 then 60 else c_SwarmRefreshSeconds c)
    (if decide (Getenv ENV_ROO_DNS = "") then c_DNS c else Getenv ENV_ROO_DNS)
    (if decide (Getenv ENV_ROO_RESOLVER = "") then c_Resolver c else Getenv ENV_ROO_RESOLVER)
    (c_BootstrapHosts c) (c_StartDelaySeconds c) (c_Hosts c) (c_MaximumConnections c) (c_AcmeStaging c).

(** ** The fixed delay *)

Definition with_delay (d : Z) (c : Configuration) : Configuration :=
  mkConfiguration (c_ApiVersion c) (c_ApiVersionString c) (c_AllowOrigin c) (c_SwarmRefreshSeconds c)
    (c_DNS c) (c_Resolver c) (c_BootstrapHosts c) d (c_Hosts c) (c_MaximumConnections c) (c_AcmeStaging c).

(** The configuration with the delay it ends up with, and the nanoseconds
    slept. *)
Definition fixedDelay (c : Configuration) : Configuration * Z :=
  let envStartDelay := ParseInt (Getenv ENV_ROO_START_DELAY) in
  let c := if 0 <? envStartDelay then with_delay envStartDelay c else c in
  if negb (bool_decide (c_DNS c = "")) && negb (bool_decide (c_DNS c = "localhost")) then
    let c := if c_StartDelaySeconds c =? 0 then with_delay 10 c else c in
    (c, sleep_seconds (c_StartDelaySeconds c))
  else (c, 0).

(** ** The directory of certificates *)

Definition acmeURL (c : Configuration) : string :=
  if c_AcmeStaging c || bool_decide (Getenv ENV_ROO_ACME_STAGING = "true") then ACME_STAGING
  else ACME_PRODUCTION.
End Start.

(** ** The peers *)

(** [LookupHost] of the resolver of the system, or of one at an address. *)
Class Resolver (W : Type) := { LookupHost : option string -> string -> io W (list string) }.

Section Peers.
Context {W : Type} `{Resolver W}.

(** An error of the system's resolver is dropped, one of a configured
    resolver ends the process. *)
Definition bootstrapHosts (c : Configuration) : io W (list string) :=
  if c_BootstrapHosts c then
    if decide (c_Resolver c = "") then
      let* r := try (LookupHost None (c_DNS c)) in
      match r with inr hosts => ret hosts | inl _ => ret [] end
    else
      let* r := try (LookupHost (Some (c_Resolver c +:+ ":53")) (c_DNS c)) in
      match r with inr hosts => ret hosts | inl _ => exit1 end
  else ret [].

Definition with_hosts (hosts : list string) (c : Configuration) : Configuration :=
  mkConfiguration (c_ApiVersion c) (c_ApiVersionString c) (c_AllowOrigin c) (c_SwarmRefreshSeconds c)
    (c_DNS c) (c_Resolver c) (c_BootstrapHosts c) (c_StartDelaySeconds c) hosts (c_MaximumConnections c)
    (c_AcmeStaging c).

(** ** The tokens *)

(** [make] panics on a negative size. *)
Definition makeTokens (MaximumConnections : Z) : go nat :=
  if MaximumConnections <? 0 then Panic "makechan: size out of range"
  else Ret (Z.to_nat MaximumConnections).

(** From the file to the tokens; the nanoseconds slept are returned. *)
Definition start (Getenv : string -> string) (c : Configuration) : io W (Configuration * Z * nat) :=
  let '(c, slept) := fixedDelay Getenv (overrides Getenv c) in
  let* tmpHosts := bootstrapHosts c in
  let c := with_hosts (c_Hosts c ++ tmpHosts) c in
  let* connc := lift (makeTokens (c_MaximumConnections c)) in
  ret (c, slept, connc).
End Peers.

(** ** Properties *)

Lemma is_digit_spec c : is_digit c = true -> 48 <= b2z c <= 57.
Proof. unfold is_digit, in_range. lia. Qed.

Lemma digits_val_le acc s z : digits_val acc s = Some z -> 0 <= acc -> acc <= z.
Proof.
  revert acc. induction s as [|c s IH]; intros acc; cbn [digits_val]; [intros [= ->]; lia|].
  destruct (is_digit c) eqn:Ed; [|done]. apply is_digit_spec in Ed. intros E Ha.
  apply IH in E; lia.
Qed.

Lemma saturating_digits_val acc s z :
  0 <= acc < 2 ^ 64 -> digits_val acc s = Some z -> saturating_digits acc s = Z.min z (2 ^ 64 - 1).
Proof.
  revert acc. induction s as [|c s IH]; intros acc Ha; cbn [digits_val saturating_digits]; [intros [= ->]; lia|].
  destruct (is_digit c) eqn:Ed; [|done]. apply is_digit_spec in Ed. intros E. cbv zeta.
  destruct (Z.ltb_spec (acc * 10 + (b2z c - 48)) (2 ^ 64)); [apply IH; [lia|done]|].
  apply digits_val_le in E; lia.
Qed.

(** Reading back what was printed, up to the largest [int64]. *)
Lemma ParseInt_FormatUint n : 0 <= n -> ParseInt (Decimal.FormatUint n) = Z.min (2 ^ 63 - 1) n.
Proof.
  intros Hn. pose proof (digits_val_FormatUint n Hn) as D. pose proof (plain_FormatUint n) as P.
  apply saturating_digits_val in D; [|lia].
  destruct (Decimal.FormatUint n) as [|c s] eqn:E; [done|]. cbn [ParseInt].
  assert (is_digit c = true) as Hc%is_digit_spec.
  { cbn [plain_nat] in P. destruct (Z.eqb_spec (b2z c) 48) as [Ec|]; [|by apply andb_true_iff in P as [-> _]].
    unfold is_digit, in_range. by rewrite Ec. }
  rewrite !(proj2 (Z.eqb_neq _ _)) by lia. rewrite D. lia.
Qed.

(** The seconds a node waits before it asks for its peers: those of the
    environment as long as their nanoseconds fit into 63 bits, about 292
    years, and none at all if they are too many for an [int64], where the
    product wraps around; without the variable those of the file, or 10. *)
Theorem start_delay Getenv c :
  c_DNS c <> "" -> c_DNS c <> "localhost" ->
  (forall n, Getenv ENV_ROO_START_DELAY = Decimal.FormatUint n -> 0 < n ->
    c_StartDelaySeconds (fixedDelay Getenv c).1 = Z.min (2 ^ 63 - 1) n /\
    (n <= 9223372036 -> (fixedDelay Getenv c).2 = n * 10 ^ 9) /\
    (2 ^ 63 - 1 <= n -> (fixedDelay Getenv c).2 = 0)) /\
  (Getenv ENV_ROO_START_DELAY = "" -> 0 <= c_StartDelaySeconds c <= 9223372036 ->
    (fixedDelay Getenv c).2 = (if c_StartDelaySeconds c =? 0 then 10 else c_StartDelaySeconds c) * 10 ^ 9).
Proof.
  intros H1 H2. unfold fixedDelay. split.
  - intros n -> Hn. rewrite ParseInt_FormatUint by lia. rewrite (proj2 (Z.ltb_lt _ _)) by lia.
    cbn [c_DNS with_delay]. rewrite !bool_decide_false by done. cbn [negb andb c_StartDelaySeconds with_delay].
    rewrite (proj2 (Z.eqb_neq _ _)) by lia. cbn [fst snd c_StartDelaySeconds with_delay].
    split; [done|]. unfold sleep_seconds, mul64. split; intros K.
    + rewrite Z.min_r by lia. rewrite Z.mod_small; lia.
    + rewrite Z.min_l by lia. reflexivity.
  - intros -> Hc. change (0 <? ParseInt "") with false. cbv iota.
    rewrite !bool_decide_false by done. cbn [negb andb].
    destruct (c_StartDelaySeconds c =? 0) eqn:E; cbn [snd c_StartDelaySeconds with_delay]; [done|].
    unfold sleep_seconds, mul64. rewrite Z.mod_small; lia.
Qed.

Definition file_config : Configuration :=
  mkConfiguration 1 "" "" 0 "tasks.roo" "" true 0 ["10.0.0.1"] 500 false.

Lemma start_delay_witness :
  (fixedDelay (fun _ => Decimal.FormatUint 20) file_config).2 = 20 * 10 ^ 9 /\
  (fixedDelay (fun _ => Decimal.FormatUint (2 ^ 63)) file_config).2 = 0.
Proof.
  split.
  - apply (start_delay (fun _ => Decimal.FormatUint 20) file_config); [done|done|reflexivity|lia|lia].
  - apply (proj1 (start_delay (fun _ => Decimal.FormatUint (2 ^ 63)) file_config ltac:(done) ltac:(done))
      (2 ^ 63)); [reflexivity|lia|lia].
Defined.
