(* ===== verification/BootstrapSpec.v ===== *)
(** * What finding the cluster comes to

    For any behaviour of the network the search ends within sixty rounds
    and a bounded number of requests; a node founds a cluster only for the
    two reasons of the code; nodes that see each other agree on the
    founder. *)
From S2P Require Import Prelude Bytes Utf8 Json Types Pebble DiskKV NodeHost Permissions.
From S2P Require Import PermissionSamples.
From S2P Require Import KvService Routes Http Serve Net NetSpec Bootstrap.

(** ** What holds when a computation returns

    [ensures P m Q]: from a state in [P] the computation returns a result
    in [Q], or it ends the process with [os.Exit(1)] in a state in [X]. *)
Section Ensures.
Context {W : Type} (X : W -> Prop).

Definition ensures {A} (P : W -> Prop) (m : io W A) (Q : A -> W -> Prop) : Prop :=
  forall w, P w ->
  match run m w with
  | (w', Ret a) => Q a w'
  | (w', Err _) => False
  | (w', Panic p) => p = "os.Exit(1)" /\ X w'
  end.

Lemma ensures_ret {A} (P : W -> Prop) (a : A) (Q : A -> W -> Prop) :
  (forall w, P w -> Q a w) -> ensures P (ret a) Q.
Proof. intros H w Hw. apply H, Hw. Qed.

Lemma ensures_exit {A} (P : W -> Prop) (Q : A -> W -> Prop) :
  (forall w, P w -> X w) -> ensures P exit1 Q.
Proof. intros H w Hw. split; [done|]. by apply H. Qed.

Lemma ensures_bind {A B} (P : W -> Prop) (m : io W A) (k : A -> io W B) (R : A -> W -> Prop)
    (Q : B -> W -> Prop) :
  ensures P m R -> (forall a, ensures (R a) (k a) Q) -> ensures P (bind m k) Q.
Proof.
  intros Hm Hk w Hw. specialize (Hm w Hw). rewrite run_bind.
  destruct (run m w) as [w' [a|e|p]]; [|done..]. by apply Hk.
Qed.

Lemma ensures_weaken {A} (P P' : W -> Prop) (m : io W A) (Q Q' : A -> W -> Prop) :
  ensures P m Q -> (forall w, P' w -> P w) -> (forall a w, Q a w -> Q' a w) -> ensures P' m Q'.
Proof.
  intros H HP HQ w Hw. specialize (H w (HP w Hw)).
  destruct (run m w) as [w' [a|e|p]]; [|done..]. by apply HQ.
Qed.

(** A fact that does not depend on the state. *)
Lemma ensures_pure {A} (F : Prop) (P : W -> Prop) (m : io W A) (Q : A -> W -> Prop) :
  (F -> ensures P m Q) -> ensures (fun w => F /\ P w) m Q.
Proof. intros H w [HF Hw]. by apply H. Qed.
End Ensures.

(** ** Counting requests *)

Class HttpClientLaws (W : Type) `{HttpClient W} := {
  (* a request returns or fails *)
  http_returns : forall m u b w, match run (HttpDo m u b) w with (_, Panic _) => False | _ => True end;
}.

Record counted (W : Type) := mkCounted { ct_world : W; ct_requests : Z }.
Arguments mkCounted {W} _ _.
Arguments ct_world {W} _.
Arguments ct_requests {W} _.

#[export] Instance counted_HttpClient {W} `{HttpClient W} : HttpClient (counted W) := {
  HttpDo m u b :=
    let* _ := modify (fun s => mkCounted (ct_world s) (ct_requests s + 1)) in
    zoom ct_world (fun w s => mkCounted w (ct_requests s)) (HttpDo m u b) }.

Section Bounds.
Context {W : Type} `{HttpClientLaws W} (c : node_config) (binding : string) (replica : Z).

Definition upto (n : Z) (s : counted W) : Prop := ct_requests s <= n.

Lemma ensures_request X n m u b :
  ensures X (upto n) (try (HttpDo (W := counted W) m u b)) (fun _ => upto (n + 1)).
Proof.
  intros [w k] Hk. unfold upto in *. cbn [ct_requests] in Hk. cbn [HttpDo counted_HttpClient].
  rewrite run_try, run_bind, run_modify, run_zoom. cbn [ct_world ct_requests].
  pose proof (http_returns m u b w) as K. destruct (run (HttpDo m u b) w) as [w' [a|e|p]]; simpl; done || lia.
Qed.

Variable B : Z.
Abbreviation ens := (ensures (upto B)).

Lemma upto_mono n m s : n <= m -> upto n s -> upto m s.
Proof. unfold upto. lia. Qed.

(** A result with a new value of [waited] and the requests it took. *)
Definition within (n w extra : Z) (w' : Z) (s : counted W) : Prop :=
  w <= w' < BOOTSTRAP_WAIT_S /\ upto (n + (w' - w) + extra) s.

Lemma getNodeStatus_bound fuel h : forall w n,
  0 <= w < BOOTSTRAP_WAIT_S -> BOOTSTRAP_WAIT_S - w <= Z.of_nat fuel ->
  n + (BOOTSTRAP_WAIT_S - w) <= B ->
  ens (upto n) (getNodeStatus c fuel h w) (fun r => within n w 1 r.1).
Proof.
  unfold BOOTSTRAP_WAIT_S. induction fuel as [|fuel IH]; intros w n Hw Hf Hn; [lia|].
  cbn [getNodeStatus]. eapply ensures_bind; [apply ensures_request|]. intros [e|[code body]].
  - unfold BOOTSTRAP_WAIT_S. destruct (Z.leb_spec 60 (w + 1)).
    + apply ensures_exit. intros s. apply upto_mono. lia.
    + eapply ensures_weaken; [apply (IH (w + 1) (n + 1)); lia|done|].
      unfold within, BOOTSTRAP_WAIT_S. intros r s [? ?]. split; [lia|].
      eapply upto_mono; [|done]. lia.
  - apply ensures_ret. unfold within, BOOTSTRAP_WAIT_S. intros s Hs. split; [simpl; lia|].
    eapply upto_mono; [|done]. simpl. lia.
Qed.

Lemma checkBootstrap_bound fuel h checked b n :
  (0 < fuel)%nat -> -1 < checked -> n + 2 <= B ->
  ens (upto n) (checkBootstrap c binding replica fuel h checked b)
    (fun r s => waited r.1 = waited b /\ upto (n + 2) s).
Proof.
  intros Hf Hc Hn. destruct fuel as [|fuel]; [lia|]. cbn [checkBootstrap].
  eapply ensures_bind; [apply ensures_request|]. intros r.
  set (found := match r with inr (code, Some body) => _ | _ => _ end).
  destruct found.
  - eapply ensures_bind; [apply ensures_request|]. intros r'.
    set (joined := match r' with inr (code, _) => _ | _ => _ end).
    destruct joined; apply ensures_ret; intros s Hs; (split; [done|]);
      (eapply upto_mono; [|done]); lia.
  - rewrite (proj2 (Z.ltb_lt _ _)) by done. apply ensures_ret. intros s Hs.
    split; [done|]. eapply upto_mono; [|done]; lia.
Qed.

Lemma visitPeer_bound h b n :
  0 <= waited b < BOOTSTRAP_WAIT_S -> n + (BOOTSTRAP_WAIT_S - waited b) + 2 <= B ->
  ens (upto n) (visitPeer c binding replica h b) (fun r => within n (waited b) 3 (waited r.1)).
Proof.
  unfold BOOTSTRAP_WAIT_S. intros Hw Hn. unfold visitPeer.
  assert (forall w b' (x : bool) s, waited b' = w -> within n (waited b) 1 w s ->
    within n (waited b) 3 (waited (b', x).1) s) as K.
  { intros w b' x s <- [? ?]. split; [done|]. eapply upto_mono; [|done]. simpl. lia. }
  destruct (bool_decide (h = binding) || negb (is_ipv4 h)).
  { apply ensures_ret. intros s Hs. unfold within, BOOTSTRAP_WAIT_S. split; [simpl; lia|].
    eapply upto_mono; [|done]. simpl. lia. }
  eapply ensures_bind.
  { apply getNodeStatus_bound; unfold BOOTSTRAP_WAIT_S; lia. }
  intros [w body]. cbn [fst]. destruct body as [body|]; [|apply ensures_ret; intros s; by apply K].
  destruct (Unmarshal dec_ClusterStatus zeroClusterStatus body) as [status ok].
  destruct ok; [|apply ensures_ret; intros s; by apply K]. cbn [negb].
  destruct (decide (Instantiated status = nc_Instantiated c)).
  { apply ensures_exit. intros s [? ?]. unfold BOOTSTRAP_WAIT_S in *.
    eapply upto_mono; [|done]. lia. }
  destruct (0 <? Started status); [|apply ensures_ret; intros s; by apply K].
  intros s [Hs1 Hs2]. unfold BOOTSTRAP_WAIT_S in *.
  match goal with |- context [checkBootstrap _ _ _ _ _ _ ?b'] => set (b1 := b') end.
  eapply ensures_weaken; [apply (checkBootstrap_bound 2 h 0 b1 (n + (w - waited b) + 1)); lia|
    intros ?; exact id| |exact Hs2].
  intros r s' [E Hs']. cbn [b1 with_waited waited] in E. rewrite E. split; [done|].
  eapply upto_mono; [|done]. lia.
Qed.

Lemma visitPeers_bound hosts : forall b n,
  0 <= waited b < BOOTSTRAP_WAIT_S ->
  n + (BOOTSTRAP_WAIT_S - waited b) + 3 * Z.of_nat (length hosts) <= B ->
  ens (upto n) (visitPeers c binding replica hosts b)
    (fun r => within n (waited b) (3 * Z.of_nat (length hosts)) (waited r)).
Proof.
  unfold BOOTSTRAP_WAIT_S. induction hosts as [|h hosts IH]; intros b n Hw Hn.
  - apply ensures_ret. intros s Hs. unfold within, BOOTSTRAP_WAIT_S. split; [simpl; lia|].
    eapply upto_mono; [|done]. simpl. lia.
  - cbn [visitPeers length] in *. rewrite Nat2Z.inj_succ in *. eapply ensures_bind.
    { apply visitPeer_bound; unfold BOOTSTRAP_WAIT_S; lia. }
    intros [b' leave]. cbn [fst]. destruct leave.
    + apply ensures_ret. intros s [? ?]. split; [done|]. eapply upto_mono; [|done]. lia.
    + intros s [Hs1 Hs2]. unfold BOOTSTRAP_WAIT_S in *.
      eapply ensures_weaken; [apply (IH b' (n + (waited b' - waited b) + 3)); lia|
        intros ?; exact id| |exact Hs2].
      intros r s' [? ?]. unfold BOOTSTRAP_WAIT_S in *. split; [unfold BOOTSTRAP_WAIT_S; lia|].
      eapply upto_mono; [|done]. lia.
Qed.

Lemma bootLoop_bound fuel hosts : forall b n,
  0 <= waited b < BOOTSTRAP_WAIT_S -> BOOTSTRAP_WAIT_S - waited b <= Z.of_nat fuel ->
  n + (BOOTSTRAP_WAIT_S - waited b) * (1 + 3 * Z.of_nat (length hosts)) <= B ->
  ens (upto n) (bootLoop c binding replica fuel hosts b) (fun _ => upto B).
Proof.
  unfold BOOTSTRAP_WAIT_S. induction fuel as [|fuel IH]; intros b n Hw Hf Hn; [lia|].
  cbn [bootLoop]. eapply ensures_bind.
  { apply visitPeers_bound; cbn [waited]; unfold BOOTSTRAP_WAIT_S; [lia|nia]. }
  intros b'. cbn [waited]. set (b1 := with_waited (waited b' + 1) b').
  intros s [Hs1 Hs2]. unfold BOOTSTRAP_WAIT_S in *.
  set (n1 := n + (waited b' - waited b) + 3 * Z.of_nat (length hosts)) in *.
  assert (n1 + (60 - waited b1) * (1 + 3 * Z.of_nat (length hosts)) <= B) as Hn1.
  { unfold n1, b1. cbn [with_waited waited]. nia. }
  assert (n1 <= B) as Hn2.
  { assert (0 <= 60 - waited b1) by (unfold b1; cbn [with_waited waited]; lia). nia. }
  cut (ens (upto n1) (
    if bootstrap b1 then ret (true, initialMembers b1)
    else if decide (olderThan b1 = Z.of_nat (length hosts)) then ret (true, initialMembers b1)
    else if readyToJoin b1 then ret (false, initialMembers b1)
    else if 60 <=? waited b1 then exit1
    else bootLoop c binding replica fuel hosts b1) (fun _ => upto B)).
  { intros K. exact (K s Hs2). }
  repeat case_match; try (apply ensures_ret; intros s'; by apply upto_mono).
  - apply ensures_exit. intros s'. by apply upto_mono.
  - apply IH; [unfold b1 in *; cbn [with_waited waited] in *; lia..|exact Hn1].
Qed.
End Bounds.

(** C16: whatever the peers answer, and however often they do not, the
    search for the cluster ends after at most [60 * (1 + 3 * hosts)]
    requests: the process exits, or it knows how to start. *)
Theorem findCluster_bounded {W} `{HttpClientLaws W} c binding replica hosts (w : W) :
  exists w' n out,
    run (findCluster c binding replica hosts) (mkCounted w 0) = (mkCounted w' n, out) /\
    n <= 60 * (1 + 3 * Z.of_nat (length hosts)) /\
    (out = Panic "os.Exit(1)" \/ exists founder members, out = Ret (founder, members)).
Proof.
  pose proof (bootLoop_bound c binding replica (60 * (1 + 3 * Z.of_nat (length hosts))) (Z.to_nat 60)
    hosts (boot0 binding replica) 0) as K.
  specialize (K ltac:(done) ltac:(done) ltac:(cbn [waited boot0]; unfold BOOTSTRAP_WAIT_S; lia)
    (mkCounted w 0) ltac:(unfold upto; simpl; lia)).
  change (bootLoop c binding replica (Z.to_nat 60) hosts (boot0 binding replica)) with
    (findCluster (W := counted W) c binding replica hosts) in K.
  destruct (run (findCluster c binding replica hosts) (mkCounted w 0)) as [[w' n] [[f ms]|e|p]].
  - exists w', n, (Ret (f, ms)). split_and!; [done|exact K|right; eauto].
  - done.
  - destruct K as [-> K]. exists w', n, (Panic "os.Exit(1)"). split_and!; [done|exact K|by left].
Qed.

(** ** Who founds a cluster *)

Section Safety.
Context {W : Type} `{HttpClient W} (c : node_config) (binding : string) (replica : Z).
Abbreviation url h path := (apiURL h (nc_ApiVersionString c) path).
(** The worlds the search goes through. *)
Variable I : W -> Prop.

(** A request leads from such a world to another and does not panic; and
    every status that a host of the list answers with is as [S] says. *)
Definition reports (hosts : list string) (S : string -> ClusterStatus -> Prop) : Prop :=
  (forall m u b w, I w -> match run (HttpDo m u b) w with (_, Panic _) => False | (w', _) => I w' end) /\
  forall h w w' code body st,
    h ∈ hosts -> I w -> run (HttpDo "GET" (url h "/status") "") w = (w', Ret (code, Some body)) ->
    Unmarshal dec_ClusterStatus zeroClusterStatus body = (st, true) -> S h st.

(** An answer to a request for the status. *)
Definition answered (h : string) (r : Z * option string) : Prop :=
  match r.2 with
  | Some body =>
      exists w w' code, I w /\ run (HttpDo "GET" (url h "/status") "") w = (w', Ret (code, Some body))
  | None => True
  end.

Abbreviation ens := (ensures (fun _ => True)).

Lemma getNodeStatus_answered fuel h hosts S : reports hosts S -> forall w,
  0 <= w < BOOTSTRAP_WAIT_S -> BOOTSTRAP_WAIT_S - w <= Z.of_nat fuel ->
  ens I (getNodeStatus c fuel h w) (fun r w' => I w' /\ answered h r /\ w <= r.1 < BOOTSTRAP_WAIT_S).
Proof.
  intros [HT _]. unfold BOOTSTRAP_WAIT_S. induction fuel as [|fuel IH]; intros w Hw Hf; [lia|].
  intros w0 Hw0. cbn [getNodeStatus]. rewrite run_bind, run_try.
  specialize (HT "GET" (url h "/status") "" w0 Hw0).
  destruct (run (HttpDo "GET" (url h "/status") "") w0) as [w1 [[code body]|e|p]] eqn:E; [|..|done].
  - cbn. split_and!; [done| |lia..]. unfold answered. cbn [snd]. destruct body as [body|]; [|done].
    by exists w0, w1, code.
  - unfold BOOTSTRAP_WAIT_S. destruct (Z.leb_spec 60 (w + 1)); [done|].
    eapply ensures_weaken; [apply (IH (w + 1)); lia|done| |exact HT].
    intros r w2 (? & ? & ?). split_and!; [done..|lia|lia].
Qed.

Variables (hosts0 : list string) (h0 : string).

(** No peer has started, and [h0] is older than this node. *)
Definition older_peer (h : string) (st : ClusterStatus) : Prop :=
  Started st <= 0 /\ (h = h0 -> Instantiated st < nc_Instantiated c).

Hypothesis Hreports : reports hosts0 older_peer.
Hypothesis Hh0 : h0 ∈ hosts0.

(** Neither reason to start holds yet. *)
Definition searching (b : boot) : Prop :=
  bootstrap b = false /\ readyToJoin b = false /\ 0 <= waited b < BOOTSTRAP_WAIT_S.

Definition credit (h : string) : Z := if decide (h = h0) then 0 else 1.

Lemma credit_range h : 0 <= credit h <= 1.
Proof. unfold credit. case_decide; lia. Qed.

Lemma visitPeer_young h b :
  h ∈ hosts0 -> searching b ->
  ens I (visitPeer c binding replica h b)
    (fun r w => I w /\ r.2 = false /\ searching r.1 /\ waited b <= waited r.1 /\
       olderThan r.1 <= olderThan b + credit h).
Proof.
  intros Hh (Hb & Hr & Hw). pose proof (credit_range h) as Hc. unfold visitPeer.
  destruct (bool_decide (h = binding) || negb (is_ipv4 h)).
  { apply ensures_ret. intros w HI. split_and!; done || (simpl; lia). }
  eapply ensures_bind.
  { eapply getNodeStatus_answered; [exact Hreports|done|unfold BOOTSTRAP_WAIT_S in *; lia]. }
  intros [w body] w0 (HI & Ha & Hw'). cbn [fst] in Hw'. unfold answered in Ha. cbn [snd] in Ha.
  assert (searching (with_waited w b)) as Hs0 by (split_and!; simpl; done || lia).
  destruct body as [body|]; [|split_and!; done || (simpl; lia)].
  destruct (Unmarshal dec_ClusterStatus zeroClusterStatus body) as [status ok] eqn:EU.
  destruct ok; [|split_and!; done || (simpl; lia)]. cbn [negb].
  destruct Ha as (w1 & w2 & code & HI1 & Ha).
  destruct (proj2 Hreports h w1 w2 code body status Hh HI1 Ha EU) as [Hs Hi].
  destruct (decide (Instantiated status = nc_Instantiated c)); [done|].
  rewrite (proj2 (Z.ltb_ge 0 (Started status))) by done.
  split; [done|]. split; [done|]. split; [exact Hs0|].
  cbn [waited olderThan fst with_waited]. split; [lia|].
  unfold credit in *. destruct (Z.ltb_spec (nc_Instantiated c) (Instantiated status)); [|lia].
  case_decide; [specialize (Hi ltac:(done)); lia|lia].
Qed.

Lemma visitPeers_young hosts : forall b,
  hosts ⊆ hosts0 -> searching b ->
  ens I (visitPeers c binding replica hosts b)
    (fun r w => I w /\ searching r /\ waited b <= waited r /\
       olderThan r <= olderThan b + foldr (fun h n => credit h + n) 0 hosts).
Proof.
  induction hosts as [|h hosts IH]; intros b Hh Hb.
  - apply ensures_ret. intros w HI. split_and!; done || (simpl; lia).
  - cbn [visitPeers]. eapply ensures_bind; [apply visitPeer_young; [set_solver|done]|].
    intros [b' leave]. cbn [fst snd]. intros w (HI & -> & Hb' & Hm & Ho).
    eapply ensures_weaken; [apply (IH b'); [set_solver|done]|done| |exact HI].
    intros r w' (HI' & Hr & Hm' & Hn). split_and!; [done|done|lia|]. simpl. lia.
Qed.

Lemma credits_bound hosts : foldr (fun h n => credit h + n) 0 hosts <= Z.of_nat (length hosts).
Proof.
  induction hosts as [|h hosts IH]; [done|]. pose proof (credit_range h). cbn [foldr length]. lia.
Qed.

Lemma credits_lt hosts : h0 ∈ hosts ->
  foldr (fun h n => credit h + n) 0 hosts < Z.of_nat (length hosts).
Proof.
  induction hosts as [|h hosts IH]; [by intros ?%elem_of_nil|]. cbn [foldr length].
  pose proof (credits_bound hosts). pose proof (credit_range h).
  intros [<-|?%IH]%elem_of_cons; [|lia]. unfold credit at 1. rewrite decide_True by done. lia.
Qed.

Lemma bootLoop_young fuel : forall b,
  searching b -> BOOTSTRAP_WAIT_S - waited b <= Z.of_nat fuel ->
  ens I (bootLoop c binding replica fuel hosts0 b) (fun _ _ => False).
Proof.
  unfold BOOTSTRAP_WAIT_S. induction fuel as [|fuel IH]; intros b (Hb & Hr & Hw) Hf;
    unfold BOOTSTRAP_WAIT_S in *; [lia|].
  cbn [bootLoop]. eapply ensures_bind.
  { apply (visitPeers_young hosts0 (mkBoot (initialMembers b) 0 (bootstrap b) (readyToJoin b) (waited b)));
      [done|unfold searching, BOOTSTRAP_WAIT_S; cbn; auto]. }
  intros b' w (HI & (Hb' & Hr' & Hw') & Hm & Ho). pose proof (credits_lt hosts0 Hh0).
  cbn [olderThan waited] in Ho, Hm. unfold BOOTSTRAP_WAIT_S in *.
  set (b1 := with_waited (waited b' + 1) b').
  assert (bootstrap b1 = false) as Hb1 by done. assert (readyToJoin b1 = false) as Hr1 by done.
  assert (olderThan b1 = olderThan b') as Eo by done.
  assert (waited b1 = waited b' + 1) as Ew by done. clearbody b1.
  rewrite Hb1, Hr1, decide_False, Ew by lia. destruct (Z.leb_spec 60 (waited b' + 1)); [done|].
  apply IH; [|lia|done]. unfold searching, BOOTSTRAP_WAIT_S. split_and!; done || lia.
Qed.
End Safety.

Lemma run_younger {W} `{HttpClient W} (I : W -> Prop) c binding replica hosts older w :
  older ∈ hosts -> I w ->
  reports c I hosts (fun h st => Started st <= 0 /\ (h = older -> Instantiated st < nc_Instantiated c)) ->
  exists w', run (findCluster c binding replica hosts) w = (w', Panic "os.Exit(1)").
Proof.
  intros Ho HI Hr. pose proof (bootLoop_young c binding replica I hosts older Hr Ho
    (Z.to_nat BOOTSTRAP_WAIT_S) (boot0 binding replica) ltac:(done) ltac:(done) w HI) as K.
  change (bootLoop c binding replica (Z.to_nat BOOTSTRAP_WAIT_S) hosts (boot0 binding replica)) with
    (findCluster c binding replica hosts) in K.
  destruct (run (findCluster c binding replica hosts) w) as [w' [a|e|p]]; [done..|].
  destruct K as [-> _]. by exists w'.
Qed.

(** C17: as long as no peer has started, a node that has an older peer never
    founds a cluster: its search can only end the process, whatever the
    other peers answer and however the answers change. *)
Theorem younger_never_founds {W} `{HttpClient W} (I : W -> Prop) c binding replica hosts older w :
  older ∈ hosts -> I w ->
  reports c I hosts (fun h st => Started st <= 0 /\ (h = older -> Instantiated st < nc_Instantiated c)) ->
  exists w', run (findCluster c binding replica hosts) w = (w', Panic "os.Exit(1)").
Proof. intros Ho HI Hr. by eapply run_younger. Qed.

(** ** Witnesses *)

Definition config_of (started : Z) : node_config :=
  mkNodeConfig "" [] 1 "" "" "v1" started false.
Definition status_of (host : string) (replica instantiated started : Z) : ClusterStatus :=
  mkClusterStatus "" host 0 replica 1 None instantiated started.

(** A network in which no request is answered. *)
#[local] Instance silent_HttpClient : HttpClient unit := { HttpDo _ _ _ := fail (ErrExternal 1) }.
#[local] Instance silent_Laws : HttpClientLaws unit.
Proof. split. by intros m u b []. Qed.

Lemma findCluster_bounded_witness :
  exists n out, run (findCluster (config_of 10) "10.0.0.1" 7 ["10.0.0.2"]) (mkCounted tt 0) =
    (mkCounted tt n, out) /\ n <= 240.
Proof.
  destruct (findCluster_bounded (config_of 10) "10.0.0.1" 7 ["10.0.0.2"] tt) as ([] & n & out & E & K & _).
  exists n, out. split; [exact E|exact K].
Defined.

(** Only the peer [10.0.0.2] answers, now and then. *)
Definition flaky (u : string) (w : bool) : go (Z * option string) :=
  if w && bool_decide (u = apiURL "10.0.0.2" "v1" "/status")
  then Ret (200, Some (MarshalClusterStatus (status_of "10.0.0.2" 8 5 0))) else Err (ErrExternal 1).
#[local] Instance flaky_HttpClient : HttpClient bool := {
  HttpDo _ u _ := fun w => ([], (negb w, flaky u w)) }.

Lemma younger_never_founds_witness :
  exists w', run (findCluster (config_of 10) "10.0.0.1" 7 ["10.0.0.2"; "10.0.0.3"]) true =
    (w', Panic "os.Exit(1)").
Proof.
  apply (younger_never_founds (fun _ => True) (config_of 10) "10.0.0.1" 7 ["10.0.0.2"; "10.0.0.3"]
    "10.0.0.2" true); [by left|done|]. split.
  - intros m u b w _. change (run (HttpDo m u b) w) with (negb w, flaky u w). unfold flaky.
    by destruct (w && _).
  - intros h w w' code body st _ _ E EU.
    change (run (HttpDo _ ?u _) w) with (negb w, flaky u w) in E. unfold flaky in E.
    destruct (w && _); [|done]. injection E as _ _ <-.
    rewrite Unmarshal_ClusterStatus in EU by (unfold status_ok; cbn; lia). injection EU as <-.
    split; [done|]. intros _.
    cbn [Instantiated sanitize_status status_of nc_Instantiated config_of]. lia.
Defined.
