(* ===== verification/FoundingSpec.v ===== *)
(** * Founding and joining, when the peers answer

    The answers of the network are a function of the request: the oldest
    node founds the cluster with every peer as a member and the younger one
    waits; what the code does when the oldest node comes late, and when one
    request is lost. *)
From S2P Require Import Prelude Bytes Utf8 Json Types Pebble DiskKV NodeHost Permissions.
From S2P Require Import PermissionSamples.
From S2P Require Import KvService Routes Http Serve Net NetSpec Bootstrap BootstrapSpec.

(** A network is its own state. *)
Definition network : Type := string -> string -> string -> go (Z * option string).

#[export] Instance network_HttpClient : HttpClient network := {
  HttpDo m u b := fun n => ([], (n, n m u b)) }.

Lemma run_HttpDo m u b (n : network) : run (HttpDo m u b) n = (n, n m u b).
Proof. done. Qed.
#[export] Hint Rewrite run_HttpDo : go_run.

Section Founding.
Variables (c : node_config) (binding : string) (replica : Z) (n : network).
Context {W : Type} `{HttpClient W} (w : W).
Hypothesis fixed : forall m u b, run (HttpDo m u b) w = (w, n m u b).
Abbreviation url h path := (apiURL h (nc_ApiVersionString c) path).

(** A peer that answers with its status. *)
Definition peer_is (h : string) (st : ClusterStatus) : Prop :=
  h <> binding /\ is_ipv4 h = true /\ status_ok st /\ valid_utf8 (Binding st) = true /\
  n "GET" (url h "/status") "" = Ret (200, Some (MarshalClusterStatus st)).

(** The state after the status of a peer. *)
Definition noted (st : ClusterStatus) (b : boot) : boot :=
  mkBoot (<[ReplicaID st := Binding st +:+ KV_PORT]> (initialMembers b))
    (if nc_Instantiated c <? Instantiated st then olderThan b + 1 else olderThan b)
    (bootstrap b) (readyToJoin b) (waited b).

Lemma run_visitPeer h st b :
  peer_is h st -> Instantiated st <> nc_Instantiated c ->
  run (visitPeer c binding replica h b) w =
  if 0 <? Started st then run (checkBootstrap c binding replica 2 h 0 (noted st b)) w
  else (w, Ret (noted st b, false)).
Proof.
  intros (Hne & H4 & Hok & Hu & E) Hi. unfold visitPeer.
  rewrite bool_decide_eq_false_2 by done. rewrite H4. cbn [orb negb].
  change (Z.to_nat BOOTSTRAP_WAIT_S) with (S 59).
  generalize 59%nat as k. intros k. cbn [getNodeStatus].
  rewrite !run_bind, run_try, fixed, E. cbn beta iota zeta. rewrite run_ret. cbn beta iota zeta.
  rewrite Unmarshal_ClusterStatus by done. cbn [negb].
  change (Instantiated (sanitize_status st)) with (Instantiated st).
  change (Started (sanitize_status st)) with (Started st).
  change (ReplicaID (sanitize_status st)) with (ReplicaID st).
  change (Binding (sanitize_status st)) with (sanitize (Binding st)).
  rewrite sanitize_valid, decide_False by done. by destruct (0 <? Started st).
Qed.

(** The members after hearing of the peers. *)
Definition members_of_peers (peers : list (string * ClusterStatus)) (ms : gmap Z string)
    : gmap Z string :=
  foldl (fun ms '(_, st) => <[ReplicaID st := Binding st +:+ KV_PORT]> ms) ms peers.

Lemma run_visitPeers peers : forall b,
  Forall (fun '(h, st) => peer_is h st /\ nc_Instantiated c < Instantiated st /\ Started st <= 0) peers ->
  run (visitPeers c binding replica (map fst peers) b) w =
  (w, Ret (mkBoot (members_of_peers peers (initialMembers b)) (olderThan b + Z.of_nat (length peers))
     (bootstrap b) (readyToJoin b) (waited b))).
Proof.
  induction peers as [|[h st] peers IH]; intros b Hp.
  - cbn [map visitPeers members_of_peers foldl length]. rewrite run_ret. destruct b. simpl.
    by rewrite Z.add_0_r.
  - apply Forall_cons in Hp as [(Hh & Hi & Hs) Hp]. cbn [map fst visitPeers]. rewrite run_bind.
    rewrite (run_visitPeer h st) by (done || lia). rewrite (proj2 (Z.ltb_ge _ _)) by done.
    cbn beta iota zeta. rewrite IH by done. unfold noted. cbn [initialMembers olderThan bootstrap readyToJoin waited].
    rewrite (proj2 (Z.ltb_lt _ _)) by done. cbn [length]. rewrite Nat2Z.inj_succ.
    by replace (olderThan b + 1 + Z.of_nat (length peers)) with
      (olderThan b + Z.succ (Z.of_nat (length peers))) by lia.
Qed.

(** The oldest of the peers founds the cluster in its first round. *)
Lemma run_oldest peers :
  Forall (fun '(h, st) => peer_is h st /\ nc_Instantiated c < Instantiated st /\ Started st <= 0) peers ->
  run (findCluster c binding replica (map fst peers)) w =
  (w, Ret (true, members_of_peers peers {[replica := binding +:+ KV_PORT]})).
Proof.
  intros Hp. unfold findCluster. change (Z.to_nat BOOTSTRAP_WAIT_S) with (S 59).
  generalize 59%nat as k. intros k. cbn [bootLoop].
  rewrite run_bind, run_visitPeers by done. cbn beta iota zeta.
  cbn [with_waited bootstrap olderThan boot0 initialMembers].
  rewrite decide_True by (rewrite length_map; lia). done.
Qed.

(** A peer of a started cluster that takes the node in. *)
Lemma run_joined h b code' body' :
  n "GET" (url h ("/kv/" +:+ ROO_STARTED)) "" = Ret (200, Some "true") ->
  n "POST" (url h "/join") (MarshalClusterStatus (joinStatus c binding replica)) = Ret (code', body') ->
  is_2xx code' = true ->
  run (checkBootstrap c binding replica 2 h 0 b) w =
  (w, Ret (mkBoot ∅ (olderThan b) false true (waited b), true)).
Proof.
  intros E EP Hc. cbn [checkBootstrap]. rewrite !run_bind, run_try, fixed, E. cbn beta iota zeta.
  change (is_2xx 200 && bool_decide ("true" = "true")) with true. cbv iota.
  rewrite run_bind, run_try, fixed, EP. cbn beta iota zeta. by rewrite Hc.
Qed.

(** A started peer whose answer about the cluster is lost. *)
Lemma run_unfixed h b e :
  n "GET" (url h ("/kv/" +:+ ROO_STARTED)) "" = Err e ->
  run (checkBootstrap c binding replica 2 h 0 b) w =
  (w, Ret (mkBoot (initialMembers b) (olderThan b) true (readyToJoin b) (waited b), false)).
Proof.
  intros E. cbn [checkBootstrap]. rewrite !run_bind, run_try, fixed, E. done.
Qed.

(** The search with one peer that has started. *)
Lemma run_one_peer h st : 
  peer_is h st -> Instantiated st <> nc_Instantiated c -> 0 < Started st ->
  run (findCluster c binding replica [h]) w =
  match run (checkBootstrap c binding replica 2 h 0 (noted st (boot0 binding replica))) w with
  | (w', Ret (b, _)) =>
      run (let b := with_waited (waited b + 1) b in
       if bootstrap b then ret (true, initialMembers b)
       else if decide (olderThan b = 1) then ret (true, initialMembers b)
       else if readyToJoin b then ret (false, initialMembers b)
       else if BOOTSTRAP_WAIT_S <=? waited b then exit1
       else bootLoop c binding replica 59 [h] b) w'
  | (w', Err e) => (w', Err e)
  | (w', Panic p) => (w', Panic p)
  end.
Proof.
  intros Hp Hi Hs. unfold findCluster. change (Z.to_nat BOOTSTRAP_WAIT_S) with (S 59).
  generalize 59%nat as k. intros k. cbn [bootLoop visitPeers]. rewrite !run_bind.
  change (mkBoot (initialMembers (boot0 binding replica)) 0 (bootstrap (boot0 binding replica))
    (readyToJoin (boot0 binding replica)) (waited (boot0 binding replica))) with (boot0 binding replica).
  rewrite (run_visitPeer h st) by done. rewrite (proj2 (Z.ltb_lt _ _)) by done.
  destruct (run (checkBootstrap c binding replica 2 h 0 (noted st (boot0 binding replica))) w)
    as [w' [[b []]|e|p]]; reflexivity.
Qed.
End Founding.

(** Two nodes that see each other, neither started: the one that was
    instantiated first founds the cluster with both as members (one, if
    they drew the same replica number), the other waits until the process
    ends. *)
Theorem two_founders cA cB a b rA rB (nA nB : network) stA stB :
  peer_is cA a nA b stB -> peer_is cB b nB a stA ->
  Instantiated stA = nc_Instantiated cA -> Instantiated stB = nc_Instantiated cB ->
  ReplicaID stB = rB -> Binding stB = b -> Started stA <= 0 -> Started stB <= 0 ->
  (forall m u x, match nB m u x with Panic _ => False | _ => True end) ->
  nc_Instantiated cA < nc_Instantiated cB ->
  run (findCluster cA a rA [b]) nA =
    (nA, Ret (true, <[rB := b +:+ ":6300"]> {[rA := a +:+ ":6300"]})) /\
  exists n', run (findCluster cB b rB [a]) nB = (n', Panic "os.Exit(1)").
Proof.
  intros PA PB IA IB <- <- SA SB TB L. split.
  - apply (run_oldest cA a rA nA nA (fun m u b => run_HttpDo m u b nA) [(Binding stB, stB)]).
    constructor; [split_and!; [done|lia|done]|constructor].
  - apply (run_younger (fun n => n = nB)) with (older := a); [set_solver|done|]. split.
    + intros m u x n ->. rewrite run_HttpDo. specialize (TB m u x). by destruct (nB m u x).
    + intros h n n' code body st ->%list_elem_of_singleton -> E EU.
      destruct PB as (_ & _ & Hok & Hu & EB). rewrite run_HttpDo, EB in E. injection E as <- _ <-.
      rewrite Unmarshal_ClusterStatus in EU by done. injection EU as <-.
      split; [done|]. intros _. cbn [Instantiated sanitize_status]. lia.
Qed.

(** A node that is booting: its configuration, address and replica number,
    what the others see of it, whom it asks, and what it sees. *)
Record booting := mkBooting {
  bt_config : node_config; bt_address : string; bt_replica : Z; bt_status : ClusterStatus;
  bt_hosts : list string; bt_network : network }.

Definition bt_search (x : booting) : network * go (bool * gmap Z string) :=
  run (findCluster (bt_config x) (bt_address x) (bt_replica x) (bt_hosts x)) (bt_network x).

(** One node sees another. *)
Definition sees (x y : booting) : Prop :=
  peer_is (bt_config x) (bt_address x) (bt_network x) (bt_address y) (bt_status y).

(** What a node shows is what it is, and it has not started. *)
Definition shows (x : booting) : Prop :=
  Instantiated (bt_status x) = nc_Instantiated (bt_config x) /\ ReplicaID (bt_status x) = bt_replica x /\
  Binding (bt_status x) = bt_address x /\ Started (bt_status x) <= 0.

Definition member_of (x : booting) : Z * string := (bt_replica x, bt_address x +:+ KV_PORT).

Lemma members_of_booting l : forall ms,
  Forall shows l ->
  members_of_peers (map (fun y => (bt_address y, bt_status y)) l) ms =
  foldl (fun ms y => <[bt_replica y := bt_address y +:+ KV_PORT]> ms) ms l.
Proof.
  induction l as [|y l IH]; intros ms Hl; [done|]. apply Forall_cons in Hl as [(_ & E1 & E2 & _) Hl].
  cbn [map members_of_peers foldl]. rewrite <- E1, <- E2. by apply IH.
Qed.

Lemma foldl_members l : forall (ms : gmap Z string),
  NoDup (map bt_replica l) -> (forall y, y ∈ l -> ms !! bt_replica y = None) ->
  foldl (fun ms y => <[bt_replica y := bt_address y +:+ KV_PORT]> ms) ms l =
  list_to_map (map member_of l) ∪ ms.
Proof.
  induction l as [|y l IH]; intros ms Hd Hms; [cbn; by rewrite (left_id_L ∅ (∪))|].
  cbn [map foldl list_to_map foldr] in *. apply NoDup_cons in Hd as [Hy Hd]. rewrite IH; [|done|].
  - cbn [member_of uncurry fst snd]. rewrite <- insert_union_l, insert_union_r; [done|].
    apply not_elem_of_list_to_map_1. rewrite <- list_fmap_compose. exact Hy.
  - intros z Hz. rewrite lookup_insert_ne; [apply Hms; by apply list_elem_of_further|].
    intros E. apply Hy. rewrite E. apply list_elem_of_fmap. by exists z.
Qed.


(** C34: a node that comes late to a started cluster, but is older than its
    only peer, is taken in by the peer and then decides to found a cluster
    without members; starting that replica fails, and it tries for ever. *)
Theorem older_joiner_stuck c a r h (n : network) st body fuel `{RaftHost W} (w : W) :
  peer_is c a n h st -> nc_Instantiated c < Instantiated st -> 0 < Started st ->
  n "GET" (apiURL h (nc_ApiVersionString c) ("/kv/" +:+ ROO_STARTED)) "" = Ret (200, Some "true") ->
  n "POST" (apiURL h (nc_ApiVersionString c) "/join") (MarshalClusterStatus (joinStatus c a r)) =
    Ret (200, body) ->
  (* a replica that neither joins nor has members is not started *)
  (forall rc w, exists e, run (StartOnDiskReplica ∅ false rc) w = (w, Err e)) ->
  run (findCluster c a r [h]) n = (n, Ret (true, ∅)) /\
  run (startReplica fuel ∅ true (raftConfig c r)) w = (w, Ret false).
Proof.
  intros P L S EK EJ HS. split.
  - rewrite (run_one_peer _ _ _ n _ (fun m u b => run_HttpDo m u b n) _ st) by (done || lia).
    erewrite (run_joined _ _ _ n _ (fun m u b => run_HttpDo m u b n)) by done.
    cbn [olderThan noted boot0]. rewrite (proj2 (Z.ltb_lt _ _)) by done. reflexivity.
  - induction fuel as [|fuel IH]; [done|]. cbn [startReplica negb].
    destruct (HS (raftConfig c r) w) as [e E]. rewrite run_bind, run_try, E. exact IH.
Qed.

(** C35: one lost request is enough to split the cluster: when a started
    peer gives its status but the question whether there is a cluster
    fails, the node founds one of its own with itself and that peer, and
    does not ask again. *)
Theorem lost_answer_founds c a r h (n : network) st e :
  peer_is c a n h st -> Instantiated st <> nc_Instantiated c -> 0 < Started st ->
  n "GET" (apiURL h (nc_ApiVersionString c) ("/kv/" +:+ ROO_STARTED)) "" = Err e ->
  run (findCluster c a r [h]) n =
    (n, Ret (true, <[ReplicaID st := Binding st +:+ ":6300"]> {[r := a +:+ ":6300"]})).
Proof.
  intros P L S E. rewrite (run_one_peer _ _ _ n _ (fun m u b => run_HttpDo m u b n) _ st) by (done || lia).
  by erewrite run_unfixed by done.
Qed.

(** ** Witnesses *)

(** A network with one peer: its status, what it knows of the cluster and
    what it answers to a node that joins. *)
Definition one_peer (h : string) (st : ClusterStatus) (known joined : go (Z * option string))
    : network := fun m u _ =>
  if decide (m = "POST") then joined
  else if decide (u = apiURL h "v1" "/status") then Ret (200, Some (MarshalClusterStatus st))
  else known.

Definition lost : go (Z * option string) := Err (ErrExternal 1).

Lemma two_founders_witness :
  run (findCluster (config_of 10) "10.0.0.1" 7 ["10.0.0.2"])
    (one_peer "10.0.0.2" (status_of "10.0.0.2" 8 11 0) lost lost) =
  (one_peer "10.0.0.2" (status_of "10.0.0.2" 8 11 0) lost lost,
   Ret (true, {[8 := "10.0.0.2:6300"; 7 := "10.0.0.1:6300"]})) /\
  exists n', run (findCluster (config_of 11) "10.0.0.2" 8 ["10.0.0.1"])
    (one_peer "10.0.0.1" (status_of "10.0.0.1" 7 10 0) lost lost) = (n', Panic "os.Exit(1)").
Proof.
  apply (two_founders (config_of 10) (config_of 11) "10.0.0.1" "10.0.0.2" 7 8
    (one_peer "10.0.0.2" (status_of "10.0.0.2" 8 11 0) lost lost)
    (one_peer "10.0.0.1" (status_of "10.0.0.1" 7 10 0) lost lost)
    (status_of "10.0.0.1" 7 10 0) (status_of "10.0.0.2" 8 11 0)); try done.
  intros m u x. unfold one_peer, lost. by repeat case_match.
Defined.

(** A network in which some hosts show their status. *)
Definition shown (l : list (string * ClusterStatus)) : network := fun m u _ =>
  match list_find (fun p => u = apiURL p.1 "v1" "/status") l with
  | Some (_, (_, st)) => Ret (200, Some (MarshalClusterStatus st))
  | None => lost
  end.

(** Three nodes that boot together. *)
Definition addresses : list (string * (Z * Z)) :=
  [("10.0.0.1", (7, 10)); ("10.0.0.2", (8, 11)); ("10.0.0.3", (9, 12))].
Definition statuses (l : list (string * (Z * Z))) : list (string * ClusterStatus) :=
  map (fun '(a, (r, t)) => (a, status_of a r t 0)) l.
Definition booting_of (a : string) (r t : Z) : booting :=
  let others := statuses (filter (fun p => p.1 <> a) addresses) in
  mkBooting (config_of t) a r (status_of a r t 0) (map fst others) (shown others).


(** A host that starts no replica without members. *)
#[local] Instance unit_RaftHost : RaftHost unit := {
  NewNodeHost _ _ _ := ret tt;
  StartOnDiskReplica members join _ :=
    if negb join && bool_decide (members = ∅) then fail (ErrExternal 2) else ret tt }.

Lemma older_joiner_stuck_witness :
  run (startReplica 100 ∅ true (raftConfig (config_of 10) 7)) tt = (tt, Ret false).
Proof.
  apply (older_joiner_stuck (config_of 10) "10.0.0.1" 7 "10.0.0.2"
    (one_peer "10.0.0.2" (status_of "10.0.0.2" 8 11 12) (Ret (200, Some "true")) (Ret (200, None)))
    (status_of "10.0.0.2" 8 11 12) None 100 tt); try done.
  intros rc []. by exists (ErrExternal 2).
Defined.

Lemma lost_answer_founds_witness :
  exists ms, run (findCluster (config_of 13) "10.0.0.1" 7 ["10.0.0.2"])
    (one_peer "10.0.0.2" (status_of "10.0.0.2" 8 11 12) lost lost) =
  (one_peer "10.0.0.2" (status_of "10.0.0.2" 8 11 12) lost lost, Ret (true, ms)).
Proof.
  eexists. apply (lost_answer_founds (config_of 13) "10.0.0.1" 7 "10.0.0.2"
    (one_peer "10.0.0.2" (status_of "10.0.0.2" 8 11 12) lost lost)
    (status_of "10.0.0.2" 8 11 12) (ErrExternal 1)); done.
Defined.
