(* ===== verification/JoinSpec.v ===== *)
(** * A newcomer joins a started cluster

    The parts together: a member marks the cluster as started through the
    store; the requests of a newcomer's search go through the routes, the
    tokens and the handlers of that member; in its first round the newcomer
    is added to the shard. *)
From S2P Require Import Prelude Bytes Utf8 Json Types Pebble DiskKV DiskKVSpec QuerySpec NodeHost.
From S2P Require Import Permissions PermissionSamples MaintenanceSpec.
From S2P Require Import KvService Routes Http Serve ServeSpec Net NetSpec GoCache Gateway.
From S2P Require Import GatewaySpec.
From S2P Require Import Router RouterSpec Bootstrap BootstrapSpec.

(** The HTTP server recovers from a panic of a handler and closes the
    connection: the client sees an error. *)
Definition recovered {S A} (m : io S A) : io S A := fun s =>
  let '(t, (s', r)) := m s in
  (t, (s', match r with Panic _ => Err (ErrExternal 0) | _ => r end)).

Lemma run_recovered {S A} (m : io S A) s :
  run (recovered m) s =
  let '(s', r) := run m s in (s', match r with Panic _ => Err (ErrExternal 0) | _ => r end).
Proof. unfold run, recovered. by destruct (m s) as [t [s' r]]. Qed.

Section Member.
Context {W : Type} `{NodeHostLaws W, Docker W, MuxLaws} (cfg : AppConfig) (am : ambient)
  (order : gmap string string -> list (string * string)) (version : string) (info : node_info)
  (h remote : string).

(** Requests to the member [h], which serves the API. *)
Definition askMember (m u b : string) : io (gateway W) (Z * option string) :=
  match after ("http://" +:+ h +:+ API_PORT) u with
  | None => fail (ErrExternal 0)
  | Some path =>
      let* r := recovered (apiServer cfg am order version info true remote m path (inr b)) in
      ret (match r with
           | Some r => (status r, Some (r_body r))
           | None => (404, Some "404 page not found")
           end)
  end.

#[local] Instance member_HttpClient : HttpClient (gateway W) := { HttpDo := askMember }.

Hypothesis plain : has_byte "{" version = false.
Abbreviation url path := (apiURL h version path).

Lemma url_path path : after ("http://" +:+ h +:+ API_PORT) (url path) = Some (("/roo/" +:+ version) +:+ path).
Proof.
  unfold apiURL. rewrite <- (string_app_assoc "/roo/" version path).
  replace ("http://" +:+ h +:+ API_PORT +:+ ("/roo/" +:+ version) +:+ path) with
    (("http://" +:+ h +:+ API_PORT) +:+ (("/roo/" +:+ version) +:+ path)).
  - apply after_prefix.
  - by rewrite !string_app_assoc.
Qed.

Lemma run_askMember m path b g :
  run (askMember m (url path) b) g =
  match run (apiServer cfg am order version info true remote m (("/roo/" +:+ version) +:+ path) (inr b)) g with
  | (g', Ret (Some r)) => (g', Ret (status r, Some (r_body r)))
  | (g', Ret None) => (g', Ret (404, Some "404 page not found"))
  | (g', Err e) => (g', Err e)
  | (g', Panic _) => (g', Err (ErrExternal 0))
  end.
Proof.
  unfold askMember. rewrite url_path, run_bind, run_recovered.
  by destruct (run (apiServer _ _ _ _ _ _ _ _ _ _) g) as [g' [[r|]|e|p]].
Qed.

(** The status of the member. *)
Abbreviation member_status n := (nodeStatus cfg info "" remote n).

Lemma ask_status hd n :
  run (askMember "GET" (url "/status") "") (mkGateway hd n) =
  (mkGateway hd n, Ret (200, Some (MarshalClusterStatus (member_status n)))).
Proof.
  rewrite run_askMember. unfold apiServer. rewrite route_status by done.
  by rewrite run_bind, run_get.
Qed.

Lemma ask_started w r g n :
  nh_ok w ->
  exists w' r', run (askMember "GET" (url ("/kv/" +:+ ROO_STARTED)) "") (mkGateway (mkHandling w r g) (S n)) =
      (mkGateway (mkHandling w' r' g) (S n), Ret (200, Some (slice_bytes (nh_view w !! ROO_STARTED)))) /\
    nh_ok w' /\ nh_view w' = nh_view w.
Proof.
  intros Hw. destruct (run_getKv cfg am order w (opened cfg) g ROO_STARTED Hw) as (w' & E & Hw' & V).
  exists w'. eexists. split; [|done]. rewrite run_askMember. unfold apiServer.
  rewrite route_kv by auto. rewrite decide_False by done.
  change (has_byte "/" ROO_STARTED) with false. cbv iota. rewrite decide_True by done.
  rewrite run_bind, (run_api_ok _ _ _ _ _ _ _ _ _ _ E). cbv beta iota.
  rewrite run_bind, run_get. cbn beta iota. rewrite run_ret. cbn [gw_handling h_response]. reflexivity.
Qed.

(** The node host takes a new replica in. *)
Hypothesis delete_ok : forall w sh n, nh_ok w ->
  exists w', run (RequestDeleteReplica sh n) w = (w', Ret tt) /\ nh_ok w' /\ nh_view w' = nh_view w.
Hypothesis add_ok : forall w sh n a, nh_ok w ->
  exists w', run (RequestAddReplica sh n a) w = (w', Ret true) /\ nh_ok w' /\ nh_view w' = nh_view w.

Lemma ask_join w r g n st :
  nh_ok w -> status_ok st -> valid_utf8 (Binding st) = true -> free_key (peerKey (Binding st)) ->
  exists w' r', run (askMember "POST" (url "/join") (MarshalClusterStatus st)) (mkGateway (mkHandling w r g) (S n)) =
      (mkGateway (mkHandling w' r' g) (S n), Ret (200, Some "")) /\
    nh_ok w' /\ nh_view w' !! peerKey (Binding st) = Some (Decimal.FormatUint (ReplicaID st)).
Proof.
  intros Hw Hst Hu Hf.
  assert (valid_utf8 (peerKey (Binding st)) = true) as Hk.
  { unfold peerKey. by repeat apply valid_app. }
  destruct (run_postJoin cfg delete_ok
    ltac:(intros w0 sh k a w1 x Hw0 E; destruct (add_ok w0 sh k a Hw0) as (w2 & E' & K);
          rewrite E' in E; by injection E as <- <-)
    w (opened cfg) g (MarshalClusterStatus st) (sanitize_status st) Hw) as (w1 & Hw1 & V1 & K);
    [done|by apply Unmarshal_ClusterStatus|].
  cbv zeta in K. change (Binding (sanitize_status st)) with (sanitize (Binding st)) in K.
  rewrite (sanitize_valid (Binding st)) in K by done. rewrite (sanitize_valid (peerKey _)) in K by done.
  change (ReplicaID (sanitize_status st)) with (ReplicaID st) in K.
  destruct (add_ok w1 (ShardID (sanitize_status st)) (ReplicaID st) (Binding st +:+ ":6300") Hw1)
    as (w2 & EA & _ & _). rewrite EA in K. destruct K as (w' & E & Hw' & Hk').
  exists w'. eexists. split; [|split; [done|by apply Hk']].
  rewrite run_askMember. unfold apiServer. rewrite route_join by done. cbv beta iota.
  rewrite run_bind. erewrite run_api_ok by exact E. cbv beta iota.
  rewrite run_bind, run_get. cbn beta iota. rewrite run_ret. cbn [gw_handling h_response]. reflexivity.
Qed.

(** ** The search of the newcomer *)

Variables (c : node_config) (binding : string) (replica : Z).

Lemma run_newcomer w r g n :
  nh_ok w -> nh_view w !! ROO_STARTED = Some "true" ->
  nc_ApiVersionString c = version -> h <> binding -> is_ipv4 h = true ->
  status_ok (member_status (S n)) -> valid_utf8 (cfg_Binding cfg) = true ->
  0 < ni_Started info -> ni_Instantiated info < nc_Instantiated c ->
  status_ok (joinStatus c binding replica) -> valid_utf8 binding = true -> free_key (peerKey binding) ->
  exists w' r', run (findCluster c binding replica [h]) (mkGateway (mkHandling w r g) (S n)) =
      (mkGateway (mkHandling w' r' g) (S n), Ret (false, ∅)) /\
    nh_ok w' /\ nh_view w' !! peerKey binding = Some (Decimal.FormatUint replica).
Proof.
  intros Hw Hflag Hver Hne H4 Hst Hu Hs Hi Hj Hub Hf.
  destruct (ask_started w r g n Hw) as (w1 & r1 & E1 & Hw1 & V1). rewrite Hflag in E1.
  destruct (ask_join w1 r1 g n (joinStatus c binding replica) Hw1 Hj Hub Hf) as (w2 & r2 & E2 & Hw2 & V2).
  exists w2, r2. split; [|done]. unfold findCluster. change (Z.to_nat BOOTSTRAP_WAIT_S) with (S 59).
  generalize 59%nat as k. intros k. cbn [bootLoop visitPeers].
  rewrite !run_bind. unfold visitPeer. rewrite bool_decide_eq_false_2 by done. rewrite H4. cbn [orb negb].
  change (Z.to_nat BOOTSTRAP_WAIT_S) with (S 59). generalize 59%nat as k'. intros k'.
  cbn [getNodeStatus]. rewrite Hver. cbn [HttpDo member_HttpClient].
  rewrite !run_bind, run_try, ask_status. cbn beta iota zeta. rewrite run_ret. cbn beta iota zeta.
  rewrite Unmarshal_ClusterStatus by done. cbn [negb].
  change (Instantiated (sanitize_status (member_status (S n)))) with (ni_Instantiated info).
  change (Started (sanitize_status (member_status (S n)))) with (ni_Started info).
  rewrite decide_False, (proj2 (Z.ltb_ge (nc_Instantiated c) (ni_Instantiated info))),
    (proj2 (Z.ltb_lt 0 (ni_Started info))) by lia.
  cbn [checkBootstrap]. rewrite Hver. cbn [HttpDo member_HttpClient].
  rewrite run_bind, run_try, E1. cbn beta iota zeta.
  change (is_2xx 200 && bool_decide (slice_bytes (Some "true") = "true")) with true. cbv iota.
  rewrite run_bind, run_try, E2. reflexivity.
Qed.
End Member.

(** C13: once a member of a healthy cluster has marked it as started, a
    newcomer that asks this member joins in its first round: its requests
    reach the handlers of the member, the search ends with the decision to
    join, the member has stored the newcomer's replica number, and it has
    all its tokens back. *)
Theorem newcomer_joins {W} `{NodeHostLaws W, Docker W, MuxLaws} cfg am order version info h remote c
    binding replica w0 r g n fuel :
  (forall w sh n, nh_ok w ->
     exists w', run (RequestDeleteReplica sh n) w = (w', Ret tt) /\ nh_ok w' /\ nh_view w' = nh_view w) ->
  (forall w sh n a, nh_ok w ->
     exists w', run (RequestAddReplica sh n a) w = (w', Ret true) /\ nh_ok w' /\ nh_view w' = nh_view w) ->
  has_byte "{" version = false -> nc_ApiVersionString c = version -> h <> binding -> is_ipv4 h = true ->
  status_ok (nodeStatus cfg info "" remote (S n)) -> valid_utf8 (cfg_Binding cfg) = true ->
  0 < ni_Started info -> ni_Instantiated info < nc_Instantiated c ->
  status_ok (joinStatus c binding replica) -> valid_utf8 binding = true -> free_key (peerKey binding) ->
  nh_ok w0 ->
  exists w1, run (markStarted cfg (S fuel)) w0 = (w1, Ret true) /\
  exists w2 r2,
    run (findCluster (H := member_HttpClient cfg am order version info h remote) c binding replica [h])
      (mkGateway (mkHandling w1 r g) (S n)) = (mkGateway (mkHandling w2 r2 g) (S n), Ret (false, ∅)) /\
    nh_view w2 !! peerKey binding = Some (Decimal.FormatUint replica).
Proof.
  intros HD HA Hp Hver Hne H4 Hst Hu Hs Hi Hj Hub Hf Hw.
  destruct (run_execute_put cfg w0 (mkKVData ROO_STARTED (Some "true")) Hw ltac:(done))
    as (w1 & i & k & E & Hw1 & V).
  exists w1. split.
  - cbn [markStarted]. unfold startedAction. by rewrite run_bind, run_try, E.
  - assert (nh_view w1 !! ROO_STARTED = Some "true") as Hflag.
    { rewrite V, stamp_free by done. unfold write. cbn [Val Key].
      change (sanitize ROO_STARTED) with ROO_STARTED. by rewrite lookup_insert_eq. }
    destruct (run_newcomer cfg am order version info h remote Hp HD HA c binding replica w1 r g n
      Hw1 Hflag Hver Hne H4 Hst Hu Hs Hi Hj Hub Hf) as (w2 & r2 & E2 & _ & V2).
    by exists w2, r2.
Qed.

(** ** Witnesses *)

#[local] Instance bare_docker : Docker node_state := {
  NewClientWithOpts := fail (ErrExternal 0); TaskList := ret [] }.

Definition member_info : node_info := mkNodeInfo true (fun _ _ => pingHandler "*") 4 7 None 10 12.

Lemma newcomer_joins_witness :
  exists w1 w2 r2, run (markStarted cfg_sample 1) empty_node = (w1, Ret true) /\
    run (findCluster (H := member_HttpClient cfg_sample (now_sample 5) map_to_list "v1" member_info
        "10.0.0.1" "10.0.0.2:40000") (config_of 20) "10.0.0.2" 8 ["10.0.0.1"])
      (mkGateway (mkHandling w1 new_response []) 4) = (mkGateway (mkHandling w2 r2 []) 4, Ret (false, ∅)) /\
    nh_view w2 !! "com.roo.peer:10.0.0.2:node" = Some "8".
Proof.
  destruct (newcomer_joins cfg_sample (now_sample 5) map_to_list "v1" member_info "10.0.0.1"
    "10.0.0.2:40000" (config_of 20) "10.0.0.2" 8 empty_node new_response [] 3 0)
    as (w1 & E1 & w2 & r2 & E2 & V); try done.
  - intros w sh n Hw. by exists w.
  - intros w sh n a Hw. by exists w.
  - exists w1, w2, r2. split; [exact E1|]. split; [exact E2|exact V].
Defined.
