(* ===== verification/SwarmSpec.v ===== *)
(** * A round of the swarm worker, from the leader to the upstream server

    The parts together: the leader's worker asks a manager over HTTP; the
    request goes through the routes and the handler of that manager, which
    reads the labels of the tasks of the swarm and starts the goroutine
    that writes the routes; from then on the proxies of all nodes, which
    share the store, send the requests to an origin to its destination. *)
From S2P Require Import Prelude Bytes Utf8 Json Types Pebble DiskKV DiskKVSpec QuerySpec NodeHost.
From S2P Require Import Permissions PermissionSamples.
From S2P Require Import KvService Routes Http Serve ServeSpec RoutesSpec Net NetSpec Url GoCache.
From S2P Require Import CertCache Watcher Gateway GatewaySpec Proxy ProxySpec FrontSpec.
From S2P Require Import Router RouterSpec Bootstrap BootstrapSpec Swarm JoinSpec.

(** ** Which host a URL names *)

Lemma after_other h h' rest :
  has_byte ":" h = false -> has_byte ":" h' = false -> h <> h' ->
  after ("http://" +:+ h +:+ API_PORT) ("http://" +:+ h' +:+ API_PORT +:+ rest) = None.
Proof.
  intros Hh Hh' Hne. rewrite (after_app "http://"). unfold after.
  destruct (has_prefix (h +:+ API_PORT) (h' +:+ API_PORT +:+ rest)) eqn:E; [|done]. exfalso. apply Hne.
  apply has_prefix_spec in E as [t E]. rewrite string_app_assoc in E.
  change (API_PORT +:+ t) with (String ":" ("6299" +:+ t)) in E.
  change (API_PORT +:+ rest) with (String ":" ("6299" +:+ rest)) in E.
  assert (String.length h = String.length h') as El.
  { pose proof (first_index_app ":" h ("6299" +:+ t) Hh) as E1. rewrite <- E, first_index_app in E1 by done.
    by injection E1. }
  apply (f_equal (stake (String.length h))) in E. rewrite stake_app in E by done.
  by rewrite El, stake_app in E.
Qed.

Section Swarm.
Context {W C : Type} `{NodeHostLaws W, Docker W, Membership W} `{MuxLaws} `{GoCacheLaws C bool}.
Context (cfg : AppConfig) (am : ambient) (pc : proxy_config)
  (keys_order : gmap string string -> list (string * string)) (version : string) (info : node_info)
  (h remote : string).

Definition gw_view (g : gateway W) : W := h_node (gw_handling g).
Definition gw_set (w : W) (g : gateway W) : gateway W :=
  mkGateway (mkHandling w (h_response (gw_handling g)) (h_spawned (gw_handling g))) (gw_conns g).

(** The leader reads the store that all nodes share, and reaches the
    manager [h]; the other managers do not answer. *)
#[local] Instance leader_NodeHost : NodeHost (gateway W) := lens_NodeHost gw_view gw_set.
#[local] Instance leader_Membership : Membership (gateway W) := lens_Membership gw_view gw_set.
#[local] Instance leader_HttpClient : HttpClient (gateway W) :=
  member_HttpClient cfg am keys_order version info h remote.

Hypothesis plain : has_byte "{" version = false.

(** What Docker answers on the manager. *)
Variables (tasks : list Task) (routes : list Route).
Hypotheses (docker_ok : forall w, nh_ok w -> exists w1 w2,
    run NewClientWithOpts w = (w1, Ret tt) /\ run TaskList w1 = (w2, Ret tasks) /\
    nh_ok w2 /\ nh_view w2 = nh_view w)
  (labels_ok : taskRoutes tasks = Ret routes).

Lemma run_updateFromSwarm w :
  nh_ok w -> exists w', run (updateFromSwarm cfg false) w = (w', Ret (None, map routeAction routes)) /\
    nh_ok w' /\ nh_view w' = nh_view w.
Proof.
  intros Hw. destruct (docker_ok w Hw) as (w1 & w2 & E1 & E2 & Hw2 & V). exists w2. split; [|done].
  unfold updateFromSwarm, GetDockerRoutes. rewrite run_bind, run_try, run_bind, run_try, E1.
  cbv beta iota zeta. rewrite run_bind, run_try, E2. cbv beta iota zeta. by rewrite run_lift, labels_ok.
Qed.

Lemma run_postSwarm w r g :
  nh_ok w ->
  exists w', run (serve cfg am keys_order (mkServiceArgs SERVE_POST_SWARM None) (inr "")) (mkHandling w r g) =
    (mkHandling w' (Write "" (WriteHeader StatusOK r)) (g ++ [map routeAction routes]), Ret tt) /\
    nh_ok w' /\ nh_view w' = nh_view w.
Proof.
  intros Hw. destruct (run_updateFromSwarm w Hw) as (w' & E & Hw' & V). exists w'. split; [|done].
  change (run (serve _ _ _ _ _) (mkHandling w r g)) with (run (servePostSwarm cfg) (mkHandling w r g)).
  unfold servePostSwarm. rewrite run_bind. unfold on_node. rewrite run_zoom. cbn [h_node]. by rewrite E.
Qed.

(** The manager's answer to the leader. *)
Lemma ask_swarm w r g n :
  nh_ok w ->
  exists w' r', run (askMember cfg am keys_order version info h remote "POST" (swarmURL version h) "")
      (mkGateway (mkHandling w r g) n) =
    (mkGateway (mkHandling w' r' (g ++ [map routeAction routes])) n, Ret (200, Some "")) /\
    nh_ok w' /\ nh_view w' = nh_view w.
Proof.
  intros Hw. destruct (run_postSwarm w new_response g Hw) as (w' & E & Hw' & V).
  exists w'. eexists. split; [|done]. unfold swarmURL.
  rewrite run_askMember by done. unfold apiServer. rewrite route_swarm by done. cbv beta iota.
  rewrite run_bind. unfold swarmHandler, new_request. rewrite run_bind, run_on_handling, run_modify.
  cbv beta iota zeta. rewrite run_on_handling, run_or_bad_request. cbn [gw_handling gw_conns serveWithArgs h_node h_spawned].
  rewrite E. cbv beta iota zeta. rewrite run_bind, run_get. reflexivity.
Qed.

(** The managers before [h] do not answer. *)
Lemma run_ask_until items w r g n :
  nh_ok w -> h ∈ manager_hosts items -> has_byte ":" h = false ->
  Forall (fun h' => has_byte ":" h' = false /\ is_Some (Parse (swarmURL version h'))) (manager_hosts items) ->
  exists w' r', run (askManagers version items) (mkGateway (mkHandling w r g) n) =
    (mkGateway (mkHandling w' r' (g ++ [map routeAction routes])) n, Ret tt) /\ nh_ok w' /\ nh_view w' = nh_view w.
Proof.
  intros Hw Hin Hc. induction items as [|[key v] items IH]; [by apply not_elem_of_nil in Hin|].
  unfold manager_hosts in *. cbn [omap list_omap fst askManagers] in *.
  destruct (submatch key) as [h'|]; [|by apply IH]. intros [[Hc' [u Hu]] Hp]%Forall_cons.
  rewrite Hu, run_bind, run_try. cbn [HttpDo leader_HttpClient member_HttpClient].
  destruct (decide (h' = h)) as [->|Hne].
  - destruct (ask_swarm w r g n Hw) as (w' & r' & E & Hw' & V). exists w', r'. by rewrite E.
  - assert (run (askMember cfg am keys_order version info h remote "POST" (swarmURL version h') "")
      (mkGateway (mkHandling w r g) n) = (mkGateway (mkHandling w r g) n, Err (ErrExternal 0))) as ->.
    { unfold askMember, swarmURL, apiURL. by rewrite after_other by congruence. }
    apply IH; [|done]. by apply elem_of_cons in Hin as [?|].
Qed.

Context (own : Z) (order : gmap string string -> list (string * string)).

(** C12: one round of the leader's swarm worker brings the routes of the
    swarm to the proxies: when one of the announced managers answers and
    its Docker client lists the tasks, the leader's request starts the
    goroutine that writes the routes of their labels, and once that has
    run, a request to the origin of a route is sent to the destination of
    the route, unless a later route has the same origin. *)
Theorem swarm_round_forwards w w1 r g n routes1 rt routes2 (c : C) ps resp out now rq :
  run (GetLeaderID (cfg_ShardID cfg)) w = (w1, Ret own) -> nh_ok w1 ->
  h ∈ manager_hosts (manager_keys order (nh_view w1)) -> has_byte ":" h = false ->
  Forall (fun h' => has_byte ":" h' = false /\ is_Some (Parse (swarmURL version h')))
    (manager_hosts (manager_keys order (nh_view w1))) ->
  routes = routes1 ++ rt :: routes2 ->
  plain_origin rt -> plain_destination rt -> valid_utf8 (GetKey rt) = true ->
  (forall rt', rt' ∈ routes2 -> sanitize (GetKey rt') <> GetKey rt) ->
  rq_TLS rq = https rt -> rq_Host rq = authority rt -> all_coherent ps ->
  (ps !! key_of rq = None \/ cache_Get c now (key_of rq) = None) ->
  exists w2 r2, run (swarmTick cfg version own order) (mkGateway (mkHandling w r g) n) =
    (mkGateway (mkHandling w2 r2 (g ++ [map routeAction routes])) n, Ret tt) /\
  exists w3, run (writeRoutes cfg (map routeAction routes)) w2 = (w3, Ret tt) /\
  exists p o, run (Proxy cfg pc true now rq) (mkProxying w3 c ps resp out) = (p, Ret tt) /\
    px_sent p = out ++ [o] /\ sent_to (destination_of rt) rq o.
Proof.
  intros EL Hw Hin Hc Hall Er HP HD Hv Hl Ht Hh Hps Hu.
  pose proof (run_swarmTick gw_view gw_set (fun _ _ => eq_refl) (fun _ _ _ => eq_refl) cfg version own order
    (mkGateway (mkHandling w r g) n) w1 own EL Hw) as K.
  rewrite decide_True in K by done. destruct K as (w2 & Hw2 & _ & E).
  destruct (run_ask_until (manager_keys order (nh_view w1)) w2 r g n Hw2 Hin Hc Hall)
    as (w2' & r2 & E2 & Hw2' & _).
  exists w2', r2. split; [by rewrite <- E2|]. rewrite Er.
  destruct (written_route cfg w2' routes1 rt routes2 Hw2' HP Hv Hl) as (w3 & E3 & Hw3 & V3).
  exists w3. split; [done|]. by apply route_forwarded.
Qed.
End Swarm.

(** ** A round at work *)

(** Node 7 leads; of two managers the first is down, and the second sees a
    task with two hosts. *)
#[local] Instance led_Membership : Membership node_state := {
  GetLeaderID _ := ret 7;
  SyncGetShardMembership _ := ret [];
  HttpGetOk _ := ret true }.

#[local] Instance task_docker : Docker node_state := {
  NewClientWithOpts := ret tt; TaskList := ret [mkTask (Some demo_labels)] }.

Definition announced : node_state :=
  mkNode (<["com.roo.swarm.manager:10.0.0.1" := ""]> {["com.roo.swarm.manager:10.0.0.2" := ""]}) 1.
Definition demo_routes : list Route := [demo_route "a.example"; demo_route "b.example"].

Lemma announced_ok : nh_ok announced.
Proof. apply map_Forall_insert_2; [done|]. by apply map_Forall_singleton. Qed.

Lemma announced_hosts :
  manager_hosts (manager_keys sorted_entries (nh_view announced)) = ["10.0.0.1"; "10.0.0.2"].
Proof. vm_compute. reflexivity. Qed.

Lemma swarm_round_forwards_witness :
  exists w2 r2, run (swarmTick (H := leader_NodeHost) (H0 := leader_Membership)
      (H1 := leader_HttpClient cfg_sample (now_sample 5) map_to_list "v1" (mkNodeInfo true (fun _ _ => pingHandler "*") 4 7 None 10 12)
        "10.0.0.2" "10.0.0.3:40000") cfg_sample "v1" 7 sorted_entries)
      (mkGateway (mkHandling announced new_response []) 4) =
    (mkGateway (mkHandling w2 r2 [map routeAction demo_routes]) 4, Ret tt) /\
  exists w3, run (writeRoutes cfg_sample (map routeAction demo_routes)) w2 = (w3, Ret tt) /\
  exists p o, run (Proxy cfg_sample pc_sample true 5 (get_request "a.example"))
      (mkProxying w3 (cache_New (C := gmap string (bool * Z))) ∅ new_response []) = (p, Ret tt) /\
    px_sent p = [o] /\ sent_to (mkURL "http" "web:80") (get_request "a.example") o.
Proof.
  apply (swarm_round_forwards cfg_sample (now_sample 5) pc_sample map_to_list "v1" (mkNodeInfo true (fun _ _ => pingHandler "*") 4 7 None 10 12)
    "10.0.0.2" "10.0.0.3:40000" eq_refl [mkTask (Some demo_labels)] demo_routes
    ltac:(intros w Hw; by exists w, w) ltac:(vm_compute; reflexivity) 7 sorted_entries announced announced
    new_response [] 4 [] (demo_route "a.example") [demo_route "b.example"]).
  - reflexivity.
  - exact announced_ok.
  - rewrite announced_hosts. right. left.
  - reflexivity.
  - rewrite announced_hosts. repeat constructor; eexists; vm_compute; reflexivity.
  - reflexivity.
  - split; [by left|]. by apply (bool_decide_unpack _).
  - split; [by left|]. by split.
  - reflexivity.
  - intros rt' ->%list_elem_of_singleton. vm_compute. congruence.
  - reflexivity.
  - reflexivity.
  - apply map_Forall_empty.
  - by left.
Defined.
