(* ===== verification/SnapshotSpec.v ===== *)
(** * Snapshots: saving, restoring and hashing the state

    A snapshot is the number of records and the records in key order, each
    a length and the JSON text of a key with its value.  Reading back what
    was written gives the same map, because the keys of a replica are valid
    UTF-8.  Restoring builds a new store beside the one in use and makes it
    current by a rename. *)
From S2P Require Import Prelude Bytes Md5 Utf8 Json Types Pebble FileSystem Crash DataDir.
From S2P Require Import DataDirSpec DiskKV DiskKVSpec Samples.

(** ** The text of a snapshot *)

Definition record_text (d : KVData) : string :=
  LittleEndian.PutUint64 (Z.of_nat (String.length (MarshalKVData d))) +:+ MarshalKVData d.

Definition records_text (values : list KVData) : string :=
  foldr (fun d s => record_text d +:+ s) "" values.

Definition kv_data (kv : string * string) : KVData := mkKVData kv.1 (Some kv.2).

Definition map_values (m : gmap string string) : list KVData := map kv_data (sorted_entries m).

(** The snapshot of a replica with contents [m]. *)
Definition snapshot_text (m : gmap string string) : string :=
  LittleEndian.PutUint64 (Z.of_nat (length (map_values m))) +:+ records_text (map_values m).

(** Every size fits the 64-bit platform. *)
Definition fits (m : gmap string string) : Prop :=
  Forall (fun d => Z.of_nat (String.length (MarshalKVData d)) <= maxAlloc) (map_values m) /\
  Z.of_nat (length (map_values m)) < 2 ^ 64.

#[export] Instance fits_dec m : Decision (fits m).
Proof. unfold fits. apply _. Defined.

Lemma writeRecords_buffer w values : writeRecords w values = inr (w +:+ records_text values).
Proof.
  revert w. induction values as [|d values IH]; intros w; [by rewrite string_app_nil_r|].
  cbn [writeRecords]. unfold writer_write, buffer_Writer. rewrite IH.
  cbn [records_text foldr]. unfold record_text. by rewrite !string_app_assoc.
Qed.

Lemma ReadFull_app a b n :
  Z.of_nat (String.length a) = n -> ReadFull (a +:+ b) n = Ret (a, b).
Proof.
  intros <-. unfold ReadFull. rewrite string_length_app.
  destruct (Z.ltb_spec (Z.of_nat (String.length a + String.length b))
    (Z.of_nat (String.length a))); [lia|].
  by rewrite Nat2Z.id, stake_app, sdrop_app by done.
Qed.

Lemma ReadFull_word {A} z r (k : Z -> string -> go A) :
  0 <= z < 2 ^ 64 ->
  (let? p := ReadFull (LittleEndian.PutUint64 z +:+ r) 8 in
   let? n := LittleEndian.Uint64 p.1 in k n p.2) = k z r.
Proof.
  intros Hz. rewrite (ReadFull_app _ r 8) by (unfold LittleEndian.PutUint64;
    by rewrite LittleEndian.put_length).
  cbn [go_bind fst snd]. by rewrite LittleEndian.Uint64_PutUint64.
Qed.

Lemma records_text_length l : (length l <= String.length (records_text l))%nat.
Proof.
  induction l as [|d l IH]; [done|].
  change (S (length l) <= String.length (record_text d +:+ records_text l))%nat.
  unfold record_text. rewrite !string_length_app. unfold LittleEndian.PutUint64.
  rewrite LittleEndian.put_length. lia.
Qed.

(** What one record gives back: its key as JSON carries it. *)
Definition restored_op (d : KVData) : batch_op :=
  OpSet (sanitize (Key d)) (slice_bytes (Val d)).

Lemma readRecords_text values r fuel :
  (length values <= fuel)%nat ->
  Forall (fun d => Z.of_nat (String.length (MarshalKVData d)) <= maxAlloc) values ->
  readRecords fuel (Z.of_nat (length values)) (records_text values +:+ r) =
  Ret (map restored_op values).
Proof.
  intros Hf Hv. revert fuel Hf.
  induction Hv as [|d values Hd Hv IH]; intros fuel Hf; [by destruct fuel|].
  destruct fuel as [|fuel]; simpl in Hf; [lia|].
  assert (0 <= Z.of_nat (String.length (MarshalKVData d)) < 2 ^ 64) as Hr
    by (unfold maxAlloc in Hd; lia).
  change (readRecords (S fuel) (Z.of_nat (S (length values)))
    ((record_text d +:+ records_text values) +:+ r) = Ret (map restored_op (d :: values))).
  unfold record_text. rewrite !string_app_assoc. cbn [readRecords].
  destruct (Z.leb_spec (Z.of_nat (S (length values))) 0); [lia|].
  rewrite (ReadFull_word _ _ (fun toRead rest =>
    if maxAlloc <? toRead then Panic "makeslice: len out of range"
    else let? q := ReadFull rest toRead in
         let '(dataKv, ok) := Unmarshal dec_KVData zeroKVData q.1 in
         if ok : bool then
           let? ops := readRecords fuel (Z.of_nat (S (length values)) - 1) q.2 in
           Ret (OpSet (Key dataKv) (slice_bytes (Val dataKv)) :: ops)
         else Panic "panic(err)")) by done.
  destruct (Z.ltb_spec maxAlloc (Z.of_nat (String.length (MarshalKVData d)))); [lia|].
  rewrite (ReadFull_app _ _ _ eq_refl). cbn [go_bind fst snd].
  rewrite Unmarshal_KVData. replace (Z.of_nat (S (length values)) - 1) with
    (Z.of_nat (length values)) by lia.
  rewrite IH by lia. by destruct d as [k [v|]].
Qed.

Lemma map_restored_op l :
  Forall (fun kv => valid_utf8 kv.1 = true) l ->
  map restored_op (map kv_data l) = map (fun kv => OpSet kv.1 kv.2) l.
Proof.
  induction 1 as [|[k v] l Hk _ IH]; [done|]. simpl in *. rewrite IH. do 2 f_equal.
  unfold restored_op. simpl. by rewrite sanitize_valid.
Qed.

Lemma run_ops_sets m (l : list (string * string)) :
  NoDup l.*1 -> run_ops m (map (fun kv => OpSet kv.1 kv.2) l) = list_to_map l ∪ m.
Proof.
  revert m. induction l as [|[k v] l IH]; intros m; simpl.
  - intros _. by rewrite (left_id_L ∅ (∪)).
  - intros [Hk Hl]%NoDup_cons. change (run_ops (<[k:=v]> m) (map (fun kv => OpSet kv.1 kv.2) l) =
      <[k:=v]> (list_to_map l) ∪ m).
    rewrite IH by done. rewrite <- insert_union_r by (by apply not_elem_of_list_to_map_1).
    by rewrite insert_union_l.
Qed.

Lemma sorted_entries_NoDup m : NoDup (sorted_entries m).*1.
Proof. rewrite sorted_entries_perm. apply NoDup_fst_map_to_list. Qed.

Lemma utf8_entries m : utf8_keys m -> Forall (fun kv => valid_utf8 kv.1 = true) (sorted_entries m).
Proof.
  intros Hm. apply Forall_forall. intros [k v] Hkv%elem_of_sorted_entries. by eapply Hm.
Qed.

Lemma readSnapshot_text m :
  fits m ->
  readSnapshot (snapshot_text m) = Ret (map restored_op (map_values m)).
Proof.
  intros [Hv Hn]. unfold readSnapshot, snapshot_text.
  assert (0 <= Z.of_nat (length (map_values m)) < 2 ^ 64) as Hr by lia.
  rewrite (ReadFull_word _ _ (fun total rest => readRecords (S (String.length rest)) total rest))
    by done.
  rewrite <- (string_app_nil_r (records_text _)) at 2.
  apply readRecords_text; [|done].
  pose proof (records_text_length (map_values m)). lia.
Qed.

(** Writing the map back from its snapshot. *)
Lemma run_ops_snapshot m :
  utf8_keys m -> run_ops ∅ (map restored_op (map_values m)) = m.
Proof.
  intros Hm. unfold map_values. rewrite map_restored_op by (by apply utf8_entries).
  rewrite run_ops_sets by apply sorted_entries_NoDup.
  by rewrite (right_id_L ∅ (∪)), list_to_map_sorted_entries.
Qed.

(** ** Reading a stream *)

Lemma ReadFull_length r n p :
  0 <= n -> ReadFull r n = Ret p ->
  Z.of_nat (String.length p.1) = n /\
  Z.of_nat (String.length p.2) + n = Z.of_nat (String.length r).
Proof.
  intros Hn. unfold ReadFull. destruct (Z.ltb_spec (Z.of_nat (String.length r)) n); [done|].
  intros [= <-]. cbn [fst snd]. rewrite stake_length, sdrop_length; lia.
Qed.

(** The loop meets the end of the stream before it is out of fuel. *)
Lemma readRecords_step fuel total r :
  (String.length r < fuel)%nat -> readRecords fuel total r = readRecords (S fuel) total r.
Proof.
  revert total r. induction fuel as [|fuel IH]; intros total r L; [lia|].
  cbn [readRecords]. destruct (total <=? 0); [done|].
  destruct (ReadFull r 8) as [p| |] eqn:E; cbn [go_bind]; [|done..].
  apply ReadFull_length in E; [|lia].
  unfold LittleEndian.Uint64. destruct (_ <? 8)%nat; cbn [go_bind]; [done|].
  destruct (_ <? _); [done|].
  destruct (ReadFull p.2 _) as [q| |] eqn:E2; cbn [go_bind]; [|done..].
  apply ReadFull_length in E2; [|apply LittleEndian.val_range].
  destruct (Unmarshal _ _ _) as [d []]; [|done].
  pose proof (LittleEndian.val_range (stake 8 p.1)) as V.
  rewrite (IH (total - 1) q.2) by lia. done.
Qed.

Lemma readRecords_fuel fuel total r :
  (String.length r < fuel)%nat ->
  readRecords fuel total r = readRecords (S (String.length r)) total r.
Proof.
  intros L. induction fuel as [|fuel IH]; [lia|].
  destruct (decide (String.length r = fuel)) as [->|]; [done|].
  rewrite <- readRecords_step by lia. apply IH. lia.
Qed.

Lemma Unmarshal_data_utf8 text d ok :
  Unmarshal dec_KVData zeroKVData text = (d, ok) -> valid_utf8 (Key d) = true.
Proof.
  intros E. change (utf8_key d). change d with ((d, ok).1). rewrite <- E.
  apply Unmarshal_keeps; [|done]. intros j Hj. by apply dec_KVData_utf8.
Qed.

(** A stream holds valid keys only, whoever wrote it. *)
Lemma readRecords_utf8 fuel total r ops : readRecords fuel total r = Ret ops -> Forall utf8_op ops.
Proof.
  revert total r ops. induction fuel as [|fuel IH]; intros total r ops; cbn [readRecords];
    (destruct (total <=? 0); [intros [= <-]; constructor|]); [done|].
  destruct (ReadFull r 8) as [p| |]; cbn [go_bind]; [|done..].
  destruct (LittleEndian.Uint64 p.1) as [n| |]; cbn [go_bind]; [|done..].
  destruct (maxAlloc <? n); [done|].
  destruct (ReadFull p.2 n) as [q| |]; cbn [go_bind]; [|done..].
  destruct (Unmarshal _ _ _) as [d []] eqn:E; [|done].
  destruct (readRecords fuel _ q.2) as [ops'| |] eqn:ER; cbn [go_bind]; [|done..].
  intros [= <-]. constructor; [by apply Unmarshal_data_utf8 in E|by eapply IH].
Qed.

Lemma readSnapshot_utf8 r ops : readSnapshot r = Ret ops -> Forall utf8_op ops.
Proof.
  unfold readSnapshot. destruct (ReadFull r 8) as [p| |]; cbn [go_bind]; [|done..].
  destruct (LittleEndian.Uint64 p.1) as [n| |]; cbn [go_bind]; [|done..].
  apply readRecords_utf8.
Qed.

(** The contents a stream restores, if it is well formed. *)
Definition restored (rd : string) : option (gmap string string) :=
  match readSnapshot rd with
  | Ret ops => Some (run_ops ∅ ops)
  | _ => None
  end.

(** ** Properties *)

Lemma saveToWriter_text {DB} `{PebbleLaws DB} `{!StableIter DB} (ss : DB) :
  saveToWriter ss "" = inr (snapshot_text (pb_view ss)).
Proof.
  unfold saveToWriter, snapshotValues. rewrite stable_iter, pb_iter_all.
  assert (map (fun '(k, v) => mkKVData k (Some v)) (sorted_entries (pb_view ss)) =
    map_values (pb_view ss)) as ->.
  { apply map_ext. by intros []. }
  unfold writer_write, buffer_Writer. rewrite writeRecords_buffer. done.
Qed.

Lemma restored_text m : utf8_keys m -> fits m -> restored (snapshot_text m) = Some m.
Proof.
  intros Hm Hf. unfold restored. by rewrite readSnapshot_text, run_ops_snapshot.
Qed.

Lemma stake_idem n s : stake n (stake n s) = stake n s.
Proof. revert s. induction n as [|n IH]; intros [|c s]; simpl; by rewrite ?IH. Qed.


(** C39: the loop over the records of any stream ends: it stops with the
    stream, so more fuel than bytes never changes what it returns, and the
    fuel given never runs out. *)
Theorem readSnapshot_terminates rd :
  readSnapshot rd <> Panic "out of fuel" /\
  forall total r fuel, (String.length r < fuel)%nat ->
    readRecords fuel total r = readRecords (S (String.length r)) total r.
Proof.
  split; [|intros; by apply readRecords_fuel].
  assert (forall fuel total r, (String.length r < fuel)%nat ->
    readRecords fuel total r <> Panic "out of fuel") as K.
  { induction fuel as [|fuel IH]; intros total r L; [lia|]. cbn [readRecords].
    destruct (total <=? 0); [done|].
    destruct (ReadFull r 8) as [p| |] eqn:E; cbn [go_bind]; [|done|unfold ReadFull in E; by case_match].
    apply ReadFull_length in E; [|lia].
    unfold LittleEndian.Uint64. destruct (_ <? 8)%nat; cbn [go_bind]; [done|].
    destruct (_ <? _); [done|].
    destruct (ReadFull p.2 _) as [q| |] eqn:E2; cbn [go_bind];
      [|done|unfold ReadFull in E2; by case_match].
    apply ReadFull_length in E2; [|apply LittleEndian.val_range].
    destruct (Unmarshal _ _ _) as [d []]; [|done].
    pose proof (LittleEndian.val_range (stake 8 p.1)) as V.
    specialize (IH (total - 1) q.2 ltac:(lia)). by destruct (readRecords fuel _ _). }
  unfold readSnapshot, LittleEndian.Uint64.
  destruct (ReadFull rd 8) as [p| |] eqn:E; cbn [go_bind]; [|done|unfold ReadFull in E; by case_match].
  destruct (_ <? 8)%nat; cbn [go_bind]; [done|]. apply K. lia.
Qed.

Section Hash.
Context {DB : Type} `{PebbleHealthy DB} `{!StableIter DB}.
Abbreviation sys := (sys (DB := DB)).

(** The hash of a replica is a function of its contents alone: the
    first word of the MD5 digest of its snapshot. *)
Theorem GetHash_contents (s : sys) m :
  Replica s m ->
  exists x, run GetHash s = (s, Ret x) /\
    LittleEndian.Uint64 (stake 8 (md5_sum (snapshot_text m))) = Ret x.
Proof.
  intros (i & h & db & R & <- & _). exists (LittleEndian.val (stake 8 (md5_sum
    (snapshot_text (pb_view db))))).
  assert (LittleEndian.Uint64 (stake 8 (md5_sum (snapshot_text (pb_view db)))) =
    Ret (LittleEndian.val (stake 8 (md5_sum (snapshot_text (pb_view db)))))) as E.
  { unfold LittleEndian.Uint64. assert (String.length (stake 8 (md5_sum
      (snapshot_text (pb_view db)))) = 8%nat) as L by (apply stake_length; rewrite md5_length; lia).
    rewrite L. simpl Nat.ltb. cbv iota. do 2 f_equal.
    apply stake_idem. }
  split; [|done]. unfold GetHash. rewrite run_bind, run_get, (run_db _ _ _ _ R).
  rewrite (run_with_store _ _ _ _ _ R), saveToWriter_text. by rewrite run_lift, E.
Qed.
End Hash.

(** Two different replica contents never have the same snapshot, so
    their hashes agree only if MD5 collides. *)
Theorem snapshot_text_inj m1 m2 :
  utf8_keys m1 -> utf8_keys m2 -> fits m1 -> fits m2 ->
  m1 <> m2 -> snapshot_text m1 <> snapshot_text m2.
Proof.
  intros K1 K2 F1 F2 Hne E. apply (f_equal restored) in E. rewrite !restored_text in E by done.
  by injection E.
Qed.

Lemma sample_fits : fits (sample_map 9).
Proof. refine (bool_decide_unpack _ _). vm_compute. exact I. Qed.

Lemma sample_utf8 i : utf8_keys (sample_map i).
Proof. apply utf8_keys_stamp, map_Forall_insert_2; [done|apply utf8_keys_empty]. Qed.

Lemma empty_fits : fits ∅.
Proof. refine (bool_decide_unpack _ _). vm_compute. exact I. Qed.


Lemma GetHash_contents_witness :
  exists x, run GetHash (sample (sample_map 9) 9) = (sample (sample_map 9) 9, Ret x) /\
    LittleEndian.Uint64 (stake 8 (md5_sum (snapshot_text (sample_map 9)))) = Ret x.
Proof. exact (GetHash_contents _ _ (sample_map_Replica 9 ltac:(done))). Defined.

Lemma snapshot_text_inj_witness : snapshot_text ∅ <> snapshot_text (sample_map 9).
Proof.
  apply (snapshot_text_inj ∅ (sample_map 9) utf8_keys_empty (sample_utf8 9) empty_fits sample_fits).
  intros E. apply (f_equal (fun m : gmap string string => m !! "a")) in E.
  vm_compute in E. discriminate E.
Defined.
