(* ===== verification/RecoverSpec.v ===== *)
(** * Restoring a snapshot

    [RecoverFromSnapshot] builds a new store beside the one in use,
    publishes it by renaming the file that names it, and only then drops
    the old one.  The first part proves what holds at every step, whatever
    fails; the second that nothing stops a well-formed snapshot when no
    call fails. *)
From S2P Require Import Prelude Bytes Md5 Utf8 Json Types Pebble FileSystem Crash DataDir.
From S2P Require Import DataDirSpec DiskKV DiskKVSpec Samples SnapshotSpec.

Section Recover.
Context {DB : Type} `{PebbleLaws DB}.
Abbreviation sys := (sys (DB := DB)).
Abbreviation state := (gmap string (node DB)).
Abbreviation files s := (nodes (s_fs s)).

(** A file system computation inside the replica. *)
Lemma spec_on_fs {A} (G : list pebbledb -> DiskKV -> Prop) (I : FS DB -> Prop)
    (m : io (FS DB) A) Q E C :
  spec I m Q E C ->
  spec (fun t => I (s_fs t) /\ G (s_handles t) (s_kv t)) (on_fs m)
    (fun a t => Q a (s_fs t) /\ G (s_handles t) (s_kv t))
    (fun t => E (s_fs t) /\ G (s_handles t) (s_kv t))
    (fun t => C (s_fs t) /\ G (s_handles t) (s_kv t)).
Proof. intros Hm. by apply spec_zoom. Qed.

(** The steps of a restore: [d] is in use and [d'] is being built. *)
Definition Building (c r : Z) (d d' : string) (db : DB) (m : gmap string string) (ns : state) : Prop :=
  Committed c r d db ns /\ exists db', ns !! d' = Some (NDir (Some db')) /\ pb_view db' = m.

Definition Done (c r : Z) (d' : string) (m : gmap string string) (ns : state) : Prop :=
  exists db', Committed c r d' db' ns /\ pb_view db' = m.

Lemma Building_updating c r d d' db m ns x :
  db_name (getNodeDBDirName c r) d' -> Building c r d d' db m ns ->
  Building c r d d' db m (<[path_join (getNodeDBDirName c r) updatingDBFilename := x]> ns).
Proof.
  intros (n & -> & Hn & _ & Hu) [HC (db' & E & V)]. split.
  - apply Committed_insert; [apply updating_ne_current|by eapply Committed_updating|done].
  - exists db'. split; [|done]. rewrite lookup_insert_ne; [done|]. by intros ?%(inj _).
Qed.

Lemma Building_commit c r d d' db m ns :
  db_name (getNodeDBDirName c r) d' -> Building c r d d' db m ns ->
  Done c r d' m (<[path_join (getNodeDBDirName c r) currentDBFilename :=
                     NFile (checksum d' +:+ d')]>
                  (base.delete (path_join (getNodeDBDirName c r) updatingDBFilename) ns)).
Proof.
  intros Hd [[[st1 H1] [st2 H2] _ _ _] (db' & E & V)]. exists db'. split; [|done].
  destruct (child_ne c r currentDBFilename), (child_ne c r updatingDBFilename).
  destruct Hd as (n & -> & Hn & Hc & Hu).
  split; [exists st1|exists st2|by exists n|by apply lookup_insert_eq|];
    (rewrite lookup_insert_ne, lookup_delete_ne; [done|..]); try done; by intros ?%(inj _).
Qed.

Lemma Done_remove c r d d' m ns :
  db_name (getNodeDBDirName c r) d -> d <> d' -> Done c r d' m ns -> Done c r d' m (remove_under d ns).
Proof.
  intros (n & -> & Hn & Hc & _) Hne (db' & HC & V). exists db'. split; [|done].
  by apply Committed_remove.
Qed.

(** Creating the new store leaves the one in use alone. *)
Lemma spec_createDB c r d d' db :
  db_name (getNodeDBDirName c r) d' -> d <> d' ->
  spec (on (fun ns => Committed c r d db ns /\ ns !! d' = None)) (createDB d')
    (fun _ => on (Building c r d d' db ∅)) (on (Committed c r d db)) (on (Committed c r d db)).
Proof.
  intros Hd Hne. pose proof Hd as (n & Ed & Hn & Hc & _). unfold createDB, MkdirAll.
  eapply (spec_bind _ _ _ (fun _ => on (fun ns => Committed c r d db ns /\ ns !! d' = Some (NDir None)))).
  - apply (spec_os _ _ _ (fun _ ns => Committed c r d db ns /\ ns !! d' = Some (NDir None)));
      [by intros ns []|]. intros ns [HC E].
    assert (mkdirs ns (ancestors d') = (<[d' := NDir None]> ns, Ret tt)) as ->.
    { rewrite Ed, ancestors_child by done. cbn [mkdirs].
      destruct HC as [[st1 ->] [st2 ->] _ _ _]. rewrite <- Ed, E. done. }
    cbn [fst snd]. rewrite lookup_insert_eq.
    assert (Committed c r d db (<[d' := NDir None]> ns)) by (rewrite Ed; apply Committed_insert; congruence).
    done.
  - intros []. intros fs [HC E]. unfold history, run, openStore. rewrite E.
    destruct (pb_Open None) as [e|db'] eqn:EO; [by split; [constructor|]|].
    assert (Building c r d d' db ∅ (<[d' := NDir (Some db')]> (nodes fs))) as HB.
    { split; [rewrite Ed; apply Committed_insert; congruence|].
      exists db'. rewrite lookup_insert_eq. split; [done|]. by apply pb_Open_fresh. }
    split; [constructor; [apply HB|constructor]|done].
Qed.

Lemma spec_queryAppliedIndex i h db (P : sys -> Prop) :
  (forall t, P t -> s_handles t !! i = Some h /\ pd_closed h = false /\
     store_at (s_fs t) (pd_dir h) = Some db) ->
  spec P (queryAppliedIndex i) (fun x t => applied_index (pb_view db) = Ret x /\ P t) P P.
Proof.
  intros HP t Ht. destruct (HP t Ht) as (E1 & E2 & E3).
  unfold history, run, queryAppliedIndex, with_store. rewrite E1, E2, E3.
  destruct (pb_Get db appliedIndexKey) as [[]|v] eqn:E; try by split; [constructor|].
  - split; [constructor|]. split; [|done]. unfold applied_index. by rewrite pb_Get_missing.
  - destruct (String.length v =? 0)%nat eqn:EL.
    + split; [constructor|]. split; [|done].
      unfold applied_index. by rewrite (pb_Get_inr _ _ _ E), EL.
    + split; [constructor|]. destruct (LittleEndian.Uint64 v) as [x| |] eqn:EV; simpl; try done.
      unfold applied_index. by rewrite (pb_Get_inr _ _ _ E), EL, EV.
Qed.

Section Steps.
Context (s : sys) (i : nat) (h : pebbledb) (db : DB) (rn ct : Z).
Context (R : Running s i h db).
Abbreviation c := (dk_clusterID (s_kv s)).
Abbreviation r := (dk_ReplicaID (s_kv s)).
Abbreviation d' := (getNewRandomDBDirName (getNodeDBDirName c r) rn ct).
Hypothesis fresh : files s !! d' = None.

Definition before (hs : list pebbledb) (kv : DiskKV) : Prop := hs = s_handles s /\ kv = s_kv s.
Definition opened (hs : list pebbledb) (kv : DiskKV) : Prop :=
  hs = s_handles s ++ [mkPebbledb d' false] /\ kv = s_kv s.

Abbreviation old := (Committed c r (pd_dir h) db).
Abbreviation building := (Building c r (pd_dir h) d' db).

Lemma fresh_ne : pd_dir h <> d'.
Proof. intros E. pose proof (com_store _ _ _ _ _ (run_files _ _ _ _ R)). congruence. Qed.

Lemma spec_newHandle :
  spec (fun t => (old (files t) /\ files t !! d' = None) /\ before (s_handles t) (s_kv t))
    (newHandle d')
    (fun j t => j = length (s_handles s) /\ building ∅ (files t) /\ opened (s_handles t) (s_kv t))
    (fun t => old (files t)) (fun t => old (files t)).
Proof.
  unfold newHandle. eapply spec_bind.
  - eapply spec_conseq; [apply (spec_on_fs before), (spec_createDB c r (pd_dir h) d' db);
      [apply db_name_random|apply fresh_ne]|..]; [done|intros a t Ht; exact Ht|..];
      by intros t [].
  - intros [] t [HB [Eh Ek]]. unfold history, run. cbn [fst snd].
    split; [constructor; [apply HB|constructor]|]. rewrite Eh. split_and!; try done; apply HB.
Qed.

Lemma store_building t m j :
  building m (files t) -> opened (s_handles t) (s_kv t) -> j = length (s_handles s) ->
  exists db', s_handles t !! j = Some (mkPebbledb d' false) /\
    store_at (s_fs t) d' = Some db' /\ pb_view db' = m.
Proof.
  intros [_ (db' & E & V)] [-> _] ->. exists db'.
  rewrite lookup_app_r, Nat.sub_diag by done. unfold store_at. by rewrite E.
Qed.

Lemma spec_applySnapshot j ops :
  spec (fun t => j = length (s_handles s) /\ building ∅ (files t) /\ opened (s_handles t) (s_kv t))
    (applyBatch j ops)
    (fun _ t => building (run_ops ∅ ops) (files t) /\ opened (s_handles t) (s_kv t))
    (fun t => old (files t)) (fun t => old (files t)).
Proof.
  intros t (Ej & HB & HO). destruct (store_building t ∅ j HB HO Ej) as (db' & E1 & E2 & V).
  unfold history, run, applyBatch, with_store. rewrite E1. cbn [pd_closed pd_dir]. rewrite E2.
  destruct (pb_Apply db' ops) as [e|db2] eqn:EA; [by split; [constructor|apply HB]|].
  assert (building (run_ops ∅ ops) (<[d' := NDir (Some db2)]> (files t))) as HB2.
  { split.
    - apply Committed_insert; [|apply not_eq_sym, fresh_ne|apply HB].
      destruct (db_name_random (getNodeDBDirName c r) rn ct) as (n & E & _ & Hn & _).
      by apply (inj (path_join (getNodeDBDirName c r))) in E as ->.
    - exists db2. rewrite lookup_insert_eq. split; [done|].
      by rewrite (pb_Apply_inr _ _ _ EA), V. }
  split; [|done]. constructor; [apply HB2|constructor].
Qed.

(** Publishing the new store. *)
Lemma spec_save m :
  spec (fun t => building m (files t) /\ opened (s_handles t) (s_kv t))
    (on_fs (saveCurrentDBDirName (getNodeDBDirName c r) d'))
    (fun _ t => (files t !! path_join (getNodeDBDirName c r) updatingDBFilename =
                   Some (NFile (checksum d' +:+ d')) /\ building m (files t)) /\
                opened (s_handles t) (s_kv t))
    (fun t => old (files t)) (fun t => old (files t)).
Proof.
  pose proof (db_name_random (getNodeDBDirName c r) rn ct) as Hd.
  eapply spec_conseq; [apply (spec_on_fs opened),
    (spec_saveCurrent (building m) (getNodeDBDirName c r) d')|..].
  - intros ns x. by apply Building_updating.
  - done.
  - intros a t Ht; exact Ht.
  - by intros t [[HB _] _].
  - by intros t [[HB _] _].
Qed.

Lemma spec_replace m :
  spec (fun t => (files t !! path_join (getNodeDBDirName c r) updatingDBFilename =
                    Some (NFile (checksum d' +:+ d')) /\ building m (files t)) /\
                 opened (s_handles t) (s_kv t))
    (on_fs (replaceCurrentDBFile (getNodeDBDirName c r)))
    (fun _ t => Done c r d' m (files t) /\ opened (s_handles t) (s_kv t))
    (fun t => old (files t) \/ Done c r d' m (files t))
    (fun t => old (files t) \/ Done c r d' m (files t)).
Proof.
  pose proof (db_name_random (getNodeDBDirName c r) rn ct) as Hd.
  eapply spec_conseq; [apply (spec_on_fs opened),
    (spec_replaceCurrent (building m) (Done c r d' m))|..].
  - intros ns HB _. by eapply Building_commit.
  - done.
  - done.
  - intros t [[[HB _]|HD] _]; [by left|by right].
  - intros t [[[HB _]|HD] _]; [by left|by right].
Qed.

(** Switching the replica to it. *)
Definition switched (x : Z) (hs : list pebbledb) (kv : DiskKV) : Prop :=
  hs = <[i := mkPebbledb (pd_dir h) true]> (s_handles s ++ [mkPebbledb d' false]) /\
  kv = mkDiskKV c r x (Some (length (s_handles s))) false false.

Lemma switched_Replica x m t :
  Done c r d' m (files t) -> switched x (s_handles t) (s_kv t) -> utf8_keys m ->
  applied_index m = Ret x -> Replica t m.
Proof.
  intros (db' & HC & V) [Eh Ek] Hm Hx.
  exists (length (s_handles s)), (mkPebbledb d' false), db'. rewrite Ek. split_and!; try done.
  pose proof (lookup_lt_Some _ _ _ (run_handle _ _ _ _ R)) as L.
  split; rewrite ?Ek, ?Eh; try done.
  rewrite list_lookup_insert_ne by lia. by rewrite lookup_app_r, Nat.sub_diag by done.
Qed.

Abbreviation done_files m := (fun t : sys => Done c r d' m (files t)).

Lemma spec_switch m x :
  spec (fun t => Done c r d' m (files t) /\ opened (s_handles t) (s_kv t))
    (let* _ := modify (set_lastApplied x) in
     let* _ := modify (set_db (Some (length (s_handles s)))) in
     let* _ := close i in
     let* _ := on_fs (RemoveAll (pd_dir h)) in
     on_fs (syncDir (path_dir (pd_dir h))))
    (fun _ t => Done c r d' m (files t) /\ switched x (s_handles t) (s_kv t))
    (done_files m) (done_files m).
Proof.
  eapply (spec_bind _ _ _ (fun _ t => t = set_lastApplied x (mkSys (s_fs t)
    (s_handles s ++ [mkPebbledb d' false]) (s_kv s)) /\ Done c r d' m (files t))).
  { apply spec_modify. intros [fs hs kv] [HD [Eh Ek]]. simpl in *. by subst. }
  intros []. eapply (spec_bind _ _ _ (fun _ t => t = set_db (Some (length (s_handles s)))
    (set_lastApplied x (mkSys (s_fs t) (s_handles s ++ [mkPebbledb d' false]) (s_kv s))) /\
    Done c r d' m (files t))).
  { apply spec_modify. intros t [-> HD]. done. }
  intros []. eapply (spec_bind _ _ _ (fun _ t =>
    on (Done c r d' m) (s_fs t) /\ switched x (s_handles t) (s_kv t))).
  { intros t [-> HD]. unfold history, run, close. cbn [s_handles set_db set_lastApplied set_kv].
    rewrite (lookup_app_l_Some _ _ _ _ (run_handle _ _ _ _ R)).
    split; [repeat constructor; exact HD|]. split; [exact HD|]. split; [done|].
    cbn. by rewrite (run_open _ _ _ _ R), (run_aborted _ _ _ _ R). }
  intros []. eapply (spec_bind _ _ _ (fun _ t =>
    on (Done c r d' m) (s_fs t) /\ switched x (s_handles t) (s_kv t))).
  - eapply spec_conseq; [apply (spec_on_fs (switched x) (on (Done c r d' m)) _
      (fun _ => on (Done c r d' m)) (on (Done c r d' m)) (on (Done c r d' m))), keeps_os|..].
    + intros ns HD. apply Done_remove; [apply (com_name _ _ _ _ _ (run_files _ _ _ _ R))|
        apply fresh_ne|exact HD].
    + done.
    + done.
    + by intros t [].
    + by intros t [].
  - intros []. eapply spec_conseq; [apply (spec_on_fs (switched x) (on (Done c r d' m)) _
      (fun _ => on (Done c r d' m)) (on (Done c r d' m)) (on (Done c r d' m))), keeps_syncDir|..].
    + done.
    + done.
    + by intros t [].
    + by intros t [].
Qed.

(** What is left once the new store is published. *)
Lemma spec_finish rd m (ok : sys -> Prop) :
  (forall t, Done c r d' m (files t) -> ok t) -> restored rd = Some m ->
  spec (fun t => Done c r d' m (files t) /\ opened (s_handles t) (s_kv t))
    (let* i0 := try (queryAppliedIndex (length (s_handles s))) in
     match i0 with
     | inl _ => panic "panic(err)"
     | inr newLastApplied =>
         if newLastApplied <? dk_lastApplied (s_kv s)
         then panic "last applied not moving forward"
         else
           let* _ := modify (set_lastApplied newLastApplied) in
           let* _ := modify (set_db (Some (length (s_handles s)))) in
           let* _ := close i in
           let* _ := on_fs (RemoveAll (pd_dir h)) in
           on_fs (syncDir (path_dir (pd_dir h)))
     end)
    (fun _ t => exists m x, restored rd = Some m /\ Done c r d' m (files t) /\
       switched x (s_handles t) (s_kv t) /\ applied_index m = Ret x /\
       dk_lastApplied (s_kv s) <= x)
    ok ok.
Proof.
  intros Hok Em. eapply (spec_conseq (fun t => exists db0, pb_view db0 = m /\
    (Committed c r d' db0 (files t) /\ opened (s_handles t) (s_kv t))));
    [apply spec_exists; intros db0; apply spec_pure; intros V0
    |by intros t [(db0 & HC & V) HO]; exists db0|intros ? t Ht; exact Ht|done|done].
  assert (forall t, Committed c r d' db0 (files t) /\ opened (s_handles t) (s_kv t) ->
    Done c r d' m (files t)) as HDone by (intros t [HC _]; by exists db0).
  eapply spec_bind.
  { eapply spec_conseq; [eapply spec_try, (spec_queryAppliedIndex _ (mkPebbledb d' false) db0
      (fun t => Committed c r d' db0 (files t) /\ opened (s_handles t) (s_kv t)))|done|..].
    - intros t [HC [-> _]]. rewrite lookup_app_r, Nat.sub_diag by done. split_and!; try done.
      unfold store_at. simpl. by rewrite (com_store _ _ _ _ _ HC).
    - intros a t Ht. exact Ht.
    - intros t Ht. exact (Hok t (HDone t Ht)).
    - intros t Ht. exact (Hok t (HDone t Ht)). }
  intros [e|x].
  { apply spec_lift. intros t Ht. exact (Hok t (HDone t Ht)). }
  apply spec_pure. intros Hx. rewrite V0 in Hx.
  destruct (Z.ltb_spec x (dk_lastApplied (s_kv s))).
  { apply spec_lift. intros t Ht. exact (Hok t (HDone t Ht)). }
  eapply spec_conseq; [apply (spec_switch m x)|..]; [|intros ? t []; eauto 8|done|done].
  intros t Ht. split; [by apply HDone|apply Ht].
Qed.

(** The old store is in use, or the complete new one is. *)
Definition recover_ok (rd : string) (t : sys) : Prop :=
  old (files t) \/ exists m, restored rd = Some m /\ Done c r d' m (files t).

Lemma spec_Recover rd :
  spec (eq s) (RecoverFromSnapshot rn ct rd)
    (fun _ t => exists m x, restored rd = Some m /\ Done c r d' m (files t) /\
       switched x (s_handles t) (s_kv t) /\ applied_index m = Ret x /\
       dk_lastApplied (s_kv s) <= x)
    (recover_ok rd) (recover_ok rd).
Proof.
  unfold RecoverFromSnapshot. eapply (spec_bind _ _ _ (fun a t => t = s /\ a = s)).
  { eapply spec_conseq; [apply (spec_get (eq s))|..]; try done. by intros a t [<- ->]. }
  intros s0. eapply (spec_conseq (fun t => s0 = s /\ t = s));
    [apply spec_pure; intros ->|by intros t []|intros ? t Ht; exact Ht|
     intros t Ht; exact Ht|intros t Ht; exact Ht].
  rewrite (run_open _ _ _ _ R), (run_db _ _ _ _ R). cbn zeta.
  eapply (spec_bind _ _ _ (fun x t => x = pd_dir h /\
    (old (files t) /\ files t !! d' = None) /\ before (s_handles t) (s_kv t))).
  { eapply spec_conseq; [apply (spec_on_fs before), (spec_getCurrent
      (fun ns => old ns /\ ns !! d' = None) _ (pd_dir h))|..].
    - intros ns [HC _]. by eapply Committed_names.
    - intros t ->. split; [|done]. split; [apply R|done].
    - by intros x t [[-> Ht] HB].
    - intros t [[Ht _] _]. by left.
    - intros t [[Ht _] _]. by left. }
  intros x. apply spec_pure. intros ->.
  eapply spec_bind; [eapply spec_conseq; [apply spec_newHandle|done|..]|].
  { intros j t Ht; exact Ht. }
  { by left. }
  { by left. }
  intros j. eapply (spec_bind _ _ _ (fun ops t => readSnapshot rd = Ret ops /\
    j = length (s_handles s) /\ building ∅ (files t) /\ opened (s_handles t) (s_kv t))).
  { apply spec_lift. intros t Ht. destruct (readSnapshot rd); [done|left..]; apply Ht. }
  intros ops. apply spec_pure. intros ER. set (m := run_ops ∅ ops).
  assert (restored rd = Some m) as Em by (unfold restored; by rewrite ER).
  apply spec_pure. intros ->.
  eapply spec_bind; [eapply spec_conseq; [apply spec_applySnapshot|..]|].
  { done. } { intros a t Ht; exact Ht. } { by left. } { by left. }
  intros []. eapply spec_bind; [eapply spec_conseq; [apply (spec_save m)|..]|].
  { done. } { intros a t Ht; exact Ht. } { by left. } { by left. }
  intros []. eapply spec_bind; [eapply spec_conseq; [apply (spec_replace m)|..]|].
  { done. } { intros a t Ht; exact Ht. }
  { intros t [|]; [by left|right; eauto]. } { intros t [|]; [by left|right; eauto]. }
  intros []. apply spec_finish; [|done]. intros t HD. right. eauto.
Qed.

(** *** Without faults a well-formed snapshot is restored *)

Lemma run_createDB_fresh `{!PebbleHealthy DB} (fs : FS DB) :
  calm fs -> old (nodes fs) -> nodes fs !! d' = None ->
  exists db', pb_view db' = ∅ /\
    run (createDB d') fs = (set_nodes (<[d' := NDir (Some db')]> (nodes fs)) fs, Ret tt).
Proof.
  intros Hc [[st1 H1] [st2 H2] _ _ _] E.
  destruct (healthy_Open (DB := DB) None) as [db' EO]. exists db'.
  split; [by apply pb_Open_fresh|]. unfold createDB, MkdirAll. rewrite run_bind, run_os by done.
  destruct (db_name_random (getNodeDBDirName c r) rn ct) as (n & Ed & Hn & _).
  assert (mkdirs (nodes fs) (ancestors d') = (<[d' := NDir None]> (nodes fs), Ret tt)) as ->.
  { rewrite Ed, ancestors_child by done. cbn [mkdirs]. rewrite H1, H2, <- Ed, E. done. }
  cbn [fst snd]. unfold run, openStore. simpl nodes. rewrite lookup_insert_eq, EO. simpl.
  by rewrite insert_insert_eq.
Qed.

Abbreviation dir := (getNodeDBDirName c r).

(** Building the new store beside the old one. *)
Lemma run_build `{!PebbleHealthy DB} ops :
  calm (s_fs s) ->
  exists db0 db1, pb_view db1 = run_ops ∅ ops /\
    let t db := mkSys (set_nodes (<[d' := NDir (Some db)]> (files s)) (s_fs s))
                  (s_handles s ++ [mkPebbledb d' false]) (s_kv s) in
    run (newHandle d') s = (t db0, Ret (length (s_handles s))) /\
    run (applyBatch (length (s_handles s)) ops) (t db0) = (t db1, Ret tt).
Proof.
  intros Hc. destruct (run_createDB_fresh (s_fs s) Hc (run_files _ _ _ _ R) fresh)
    as (db0 & V0 & RC). destruct (healthy_Apply db0 ops) as [db1 EA].
  exists db0, db1. split; [by rewrite (pb_Apply_inr _ _ _ EA), V0|]. split.
  - unfold newHandle, on_fs. by rewrite run_bind, run_zoom, RC.
  - unfold run, applyBatch, with_store. cbn [s_handles s_fs].
    rewrite lookup_app_r, Nat.sub_diag by done.
    change ([mkPebbledb d' false] !! 0%nat) with (Some (mkPebbledb d' false)).
    cbn [pd_closed pd_dir]. unfold store_at. simpl nodes. rewrite lookup_insert_eq, EA. cbn.
    unfold set_fs, set_nodes. simpl. by rewrite insert_insert_eq.
Qed.

(** Publishing it. *)
Lemma run_publish (fs : FS DB) :
  calm fs -> old (nodes fs) -> ~ is_dir (nodes fs) (path_join dir updatingDBFilename) ->
  exists fs2 fs3, run (saveCurrentDBDirName dir d') fs = (fs2, Ret tt) /\
    run (replaceCurrentDBFile dir) fs2 = (fs3, Ret tt) /\ calm fs3 /\
    forall p, p <> path_join dir updatingDBFilename -> p <> path_join dir currentDBFilename ->
      nodes fs3 !! p = nodes fs !! p.
Proof.
  intros Hc [_ [st Hst] _ Hcur _] Hu. unfold names in Hcur.
  assert (path_join dir currentDBFilename <> path_join dir updatingDBFilename) as Ncu
    by (intros E%(inj _); discriminate E).
  eexists _, _. split_and!.
  - apply run_saveCurrent; [done|by exists st|by apply path_dir_child|done].
  - apply run_replaceCurrent; [done|..].
    + exists st. simpl. rewrite lookup_insert_ne; [done|]. apply child_ne.
    + simpl. by rewrite lookup_insert_eq.
    + intros [st' Hst']. simpl in Hst'. rewrite lookup_insert_ne in Hst' by done. congruence.
  - done.
  - intros p N1 N2. simpl. by rewrite lookup_insert_ne, lookup_delete_ne, lookup_insert_ne.
Qed.

Lemma run_close (t : sys) k hk :
  s_handles t !! k = Some hk ->
  run (close k) t = (set_handles (<[k := mkPebbledb (pd_dir hk) true]> (s_handles t)) t, Ret tt).
Proof. intros E. unfold run, close. by rewrite E. Qed.

(** Dropping the old one. *)
Lemma run_drop (fs : FS DB) :
  calm fs -> is_dir (nodes fs) dir ->
  exists fs', run (RemoveAll (pd_dir h)) fs = (fs', Ret tt) /\
    run (syncDir (path_dir (pd_dir h))) fs' = (fs', Ret tt).
Proof.
  intros Hc [st Hst]. destruct (com_name _ _ _ _ _ (run_files _ _ _ _ R)) as (n0 & E0 & Hn0 & _).
  eexists. split; [by apply run_RemoveAll|]. apply run_syncDir; [done|].
  exists st. rewrite E0, path_dir_child by done. simpl. rewrite lookup_remove_under.
  rewrite under_short; [done|]. rewrite path_join_length. lia.
Qed.

Lemma Recover_run `{!PebbleHealthy DB} rd m x :
  calm (s_fs s) -> ~ is_dir (files s) (path_join dir updatingDBFilename) ->
  restored rd = Some m -> applied_index m = Ret x -> dk_lastApplied (s_kv s) <= x ->
  exists t, run (RecoverFromSnapshot rn ct rd) s = (t, Ret tt).
Proof.
  intros Hc Hu Em Hx Hle. pose proof (run_files _ _ _ _ R) as HC.
  destruct (Committed_names _ _ _ _ _ HC) as [Hne Hcur].
  unfold restored in Em. destruct (readSnapshot rd) as [ops| |] eqn:ER; try done.
  injection Em as <-. destruct (run_build ops Hc) as (db0 & db1 & V1 & RN & RA).
  pose proof (db_name_random dir rn ct) as (n & Ed & _ & Hnc & Hnu).
  set (fs1 := set_nodes (<[d' := NDir (Some db1)]> (files s)) (s_fs s)) in *.
  assert (old (nodes fs1)) as HC1.
  { subst fs1. cbn [nodes set_nodes]. rewrite Ed.
    apply Committed_insert; [done|rewrite <- Ed; apply not_eq_sym, fresh_ne|done]. }
  destruct (run_publish fs1) as (fs2 & fs3 & RS & RR & Hc3 & F3); [done|done| |].
  { intros [st Hst]. apply Hu. exists st. simpl in Hst. rewrite lookup_insert_ne in Hst; [done|].
    rewrite Ed. by intros ?%(inj _). }
  destruct (run_drop fs3 Hc3) as (fs4 & R4 & R5).
  { destruct (com_dir _ _ _ _ _ HC1) as [st Hst]. exists st.
    rewrite F3; [done|apply not_eq_sym, child_ne..]. }
  assert (nodes fs3 !! d' = Some (NDir (Some db1))) as S3.
  { rewrite F3; [simpl; by rewrite lookup_insert_eq|..]; rewrite Ed; by intros ?%(inj _). }
  eexists. unfold RecoverFromSnapshot, on_fs. rewrite run_bind, run_get.
  rewrite (run_open _ _ _ _ R), (run_db _ _ _ _ R). cbn zeta iota beta.
  rewrite run_bind, run_zoom, (run_getCurrent dir (pd_dir h)) by done. cbv iota beta.
  replace (set_fs (s_fs s) s) with s by (by destruct s).
  rewrite run_bind, RN. cbv iota beta. rewrite run_bind, run_lift, ER. cbv iota beta.
  rewrite run_bind, RA. cbv iota beta. rewrite run_bind, run_zoom. cbn [s_fs]. rewrite RS.
  cbv iota beta. rewrite run_bind, run_zoom. cbn [s_fs set_fs]. rewrite RR. cbv iota beta.
  rewrite run_bind, run_try, (run_queryAppliedIndex _ _ (mkPebbledb d' false) db1 x); cycle 1.
  { cbn. by rewrite lookup_app_r, Nat.sub_diag by done. }
  { done. } { unfold store_at. simpl. by rewrite S3. } { by rewrite V1. }
  cbv iota beta. destruct (Z.ltb_spec x (dk_lastApplied (s_kv s))); [lia|].
  rewrite run_bind, run_modify. cbv iota beta. rewrite run_bind, run_modify. cbv iota beta.
  rewrite run_bind, (run_close _ _ h); cycle 1.
  { simpl. apply lookup_app_l_Some, R. }
  cbv iota beta. rewrite run_bind, run_zoom.
  cbn [s_fs set_handles set_db set_kv set_lastApplied set_fs]. rewrite R4. cbv iota beta.
  rewrite run_zoom. cbn [s_fs set_fs]. rewrite R5. reflexivity.
Qed.
End Steps.
End Recover.

(** ** Properties *)

Section Properties.
Context {DB : Type} `{PebbleHealthy DB}.
Abbreviation sys := (sys (DB := DB)).
Abbreviation fresh_dir s rn ct :=
  (getNewRandomDBDirName (getNodeDBDirName (dk_clusterID (s_kv s)) (dk_ReplicaID (s_kv s))) rn ct).

Lemma run_PrepareSnapshot (l : sys) i h db :
  Running l i h db -> run PrepareSnapshot l = (l, Ret (mkCtx i db)).
Proof.
  intros R. unfold PrepareSnapshot. rewrite run_bind, run_get.
  rewrite (run_open _ _ _ _ R), (run_aborted _ _ _ _ R), (run_db _ _ _ _ R).
  by rewrite (run_with_store _ _ _ _ _ R).
Qed.

Lemma run_SaveSnapshot `{!StableIter DB} (l : sys) ctx :
  dk_closed (s_kv l) = false -> dk_aborted (s_kv l) = false ->
  run (SaveSnapshot ctx "") l = (l, Ret (snapshot_text (pb_view (ctx_snapshot ctx)))).
Proof.
  intros Hc Ha. unfold SaveSnapshot. rewrite run_bind, run_get, Hc, Ha.
  by rewrite saveToWriter_text.
Qed.


(** C3: the process may die at any point of a restore, any call may fail
    and the stream may be anything; a process started over the files that
    are left opens with the contents it had, or with the whole snapshot. *)
Theorem Recover_crash (s s' : sys) m rd rn ct rn' ct' hs :
  Replica s m -> nodes (s_fs s) !! fresh_dir s rn ct = None ->
  (forall m', restored rd = Some m' -> exists x, applied_index m' = Ret x) ->
  s' ∈ history (RecoverFromSnapshot rn ct rd) s \/
  s' = (run (RecoverFromSnapshot rn ct rd) s).1 ->
  exists s2 x m',
    run (Open rn' ct') (mkSys (quiet (nodes (s_fs s'))) hs
      (NewDiskKV (dk_clusterID (s_kv s)) (dk_ReplicaID (s_kv s)))) = (s2, Ret x) /\
    Replica s2 m' /\ applied_index m' = Ret x /\
    (m' = m \/ restored rd = Some m').
Proof.
  intros (i & h & db & R & <- & Hk & Hx) Hfr Hap Hs.
  destruct (spec_Recover s i h db rn ct R Hfr rd s eq_refl) as [K1 K2].
  assert (recover_ok s h db rn ct rd s') as K.
  { destruct Hs as [Hs| ->]; [by eapply Forall_forall in K1|].
    destruct (run (RecoverFromSnapshot rn ct rd) s) as [s1 [a|err|p]]; [|done..].
    destruct K2 as (m & x & Em & HD & _). right. by exists m. }
  set (c := dk_clusterID (s_kv s)). set (r := dk_ReplicaID (s_kv s)).
  destruct K as [HC|(m' & Em & db' & HC & V)].
  - destruct (Open_run c r (pd_dir h) db (quiet (nodes (s_fs s'))) hs rn' ct'
      (dk_lastApplied (s_kv s))) as (s2 & E & R2 & _); try done.
    exists s2, (dk_lastApplied (s_kv s)), (pb_view db). split_and!; try done. by left.
  - destruct (Hap m' Em) as [x Hx']. assert (utf8_keys m') as Hk'.
    { unfold restored in Em. destruct (readSnapshot rd) as [ops| |] eqn:ER; try done.
      injection Em as <-. apply utf8_keys_run_ops; [apply utf8_keys_empty|].
      by eapply readSnapshot_utf8. }
    destruct (Open_run c r (fresh_dir s rn ct) db' (quiet (nodes (s_fs s'))) hs rn' ct' x)
      as (s2 & E & R2 & _); try done; [by rewrite V..|].
    exists s2, x, m'. rewrite V in R2. split_and!; try done. by right.
Qed.

End Properties.


Lemma Recover_crash_witness :
  let s' := (run (RecoverFromSnapshot 3 4 (snapshot_text (sample_map 9))) (sample ∅ 0)).1 in
  exists s2 x m',
    run (Open 5 6) (mkSys (quiet (nodes (s_fs s'))) [] (NewDiskKV 1 1)) = (s2, Ret x) /\
    Replica s2 m' /\ applied_index m' = Ret x /\
    (m' = ∅ \/ restored (snapshot_text (sample_map 9)) = Some m').
Proof.
  apply (Recover_crash (sample ∅ 0) _ ∅ (snapshot_text (sample_map 9)) 3 4 5 6 []);
    [apply sample_empty|done| |by right].
  intros m'. rewrite restored_text by (apply sample_utf8 || apply sample_fits).
  intros [= <-]. exists 9. by apply applied_index_stamp.
Defined.
