(* ===== verification/OpenSpec.v ===== *)
(** * Opening and closing a replica

    The first run of a node creates its directories and an empty store; a
    later run cleans up and opens the store that [current] names.  A
    process that dies in its first run after [current] is in place and
    before the store exists leaves a directory no later run can open. *)
From S2P Require Import Prelude Bytes Md5 Utf8 Json Types Pebble FileSystem Crash DataDir.
From S2P Require Import DataDirSpec DiskKV DiskKVSpec Samples.

(** ** History of a sequence *)

Lemma history_bind_l {S A B} (m : io S A) (k : A -> io S B) s t :
  t ∈ history m s -> t ∈ history (bind m k) s.
Proof. intros Ht. rewrite history_bind. apply elem_of_app. by left. Qed.

Lemma history_bind_r {S A B} (m : io S A) (k : A -> io S B) s s1 a t :
  run m s = (s1, Ret a) -> t ∈ history (k a) s1 -> t ∈ history (bind m k) s.
Proof. intros E Ht. rewrite history_bind, E. apply elem_of_app. by right. Qed.

Section Open.
Context {DB : Type} `{PebbleHealthy DB}.
Abbreviation sys := (sys (DB := DB)).
Abbreviation state := (gmap string (node DB)).
Context (c r rn ct : Z).
Abbreviation dir := (getNodeDBDirName c r).
Abbreviation d' := (getNewRandomDBDirName dir rn ct).

(** Nothing is in the way of a first run. *)
Record unused (ns : state) : Prop := {
  un_root : ns !! testDBDirName = None \/ is_dir ns testDBDirName;
  un_dir : ns !! dir = None \/ is_dir ns dir;
  un_current : ns !! path_join dir currentDBFilename = None;
  un_updating : ~ is_dir ns (path_join dir updatingDBFilename);
  un_store : ns !! d' = None }.

Lemma mkdirs_ok (ns : state) ps :
  Forall (fun p => ns !! p = None \/ is_dir ns p) ps -> exists ns', mkdirs ns ps = (ns', Ret tt).
Proof.
  revert ns. induction ps as [|p ps IH]; intros ns; [by eexists|].
  intros [[E|[st E]] Hps]%Forall_cons; simpl; rewrite E; apply IH; [|done].
  eapply Forall_impl; [exact Hps|]. intros q Hq. simpl.
  destruct (decide (p = q)) as [<-|Hne].
  - right. exists None. by rewrite lookup_insert_eq.
  - unfold is_dir. by rewrite lookup_insert_ne.
Qed.

(** The directories of the node, created. *)
Record prepared (ns : state) : Prop := {
  pr_root : is_dir ns testDBDirName;
  pr_dir : is_dir ns dir;
  pr_current : ns !! path_join dir currentDBFilename = None;
  pr_updating : ~ is_dir ns (path_join dir updatingDBFilename);
  pr_store : ns !! d' = None }.

Lemma run_createNodeDataDir_unused fs :
  calm fs -> unused (nodes fs) ->
  exists ns', run (createNodeDataDir dir) fs = (set_nodes ns' fs, Ret tt) /\ prepared ns'.
Proof.
  intros Hc [Q1 Q2 Q3 Q4 Q5]. unfold createNodeDataDir, MkdirAll.
  destruct (mkdirs_ok (nodes fs) (ancestors dir)) as [ns' E].
  { rewrite ancestors_node. by constructor; [|constructor; [|constructor]]. }
  exists ns'. rewrite ancestors_node in E.
  assert (forall q, ns' !! q = match nodes fs !! q with
    | Some n => Some n
    | None => if decide (q ∈ [testDBDirName; dir]) then Some (NDir None) else None end) as K.
  { intros q. apply (lookup_mkdirs _ _ _ _ E). }
  assert (forall n, path_join dir n ∉ [testDBDirName; dir]) as N.
  { intros n. destruct (child_ne c r n). rewrite !not_elem_of_cons. split_and!; try done.
    apply not_elem_of_nil. }
  assert (prepared ns') as P.
  { split.
    - red. rewrite K. destruct Q1 as [->|[st ->]]; [|by eexists].
      rewrite decide_True by apply list_elem_of_here. by eexists.
    - red. rewrite K. destruct Q2 as [->|[st ->]]; [|by eexists].
      rewrite decide_True by (apply list_elem_of_further, list_elem_of_here). by eexists.
    - by rewrite K, Q3, decide_False by apply N.
    - intros [st Hst]. apply Q4. rewrite K in Hst.
      destruct (nodes fs !! path_join dir updatingDBFilename) eqn:EU; [exists st; congruence|].
      by rewrite decide_False in Hst by apply N.
    - by rewrite K, Q5, decide_False by apply N. }
  split; [|done]. rewrite run_bind, run_os, ancestors_node, E by done. cbn [fst snd].
  apply run_syncDir; [done|]. rewrite path_dir_node. apply P.
Qed.

(** The file system after the name of the new store is published. *)
Definition published (ns : state) : state :=
  <[path_join dir currentDBFilename := NFile (checksum d' +:+ d')]>
    (base.delete (path_join dir updatingDBFilename)
      (<[path_join dir updatingDBFilename := NFile (checksum d' +:+ d')]> ns)).

Lemma run_publish_first fs :
  calm fs -> prepared (nodes fs) ->
  exists fs1, run (saveCurrentDBDirName dir d') fs = (fs1, Ret tt) /\
    run (replaceCurrentDBFile dir) fs1 = (set_nodes (published (nodes fs)) fs, Ret tt) /\
    set_nodes (published (nodes fs)) fs ∈ history (replaceCurrentDBFile dir) fs1.
Proof.
  intros Hc [_ [st Hst] Hcur Hu _]. eexists. split.
  { apply run_saveCurrent; [done|by exists st|by apply path_dir_child|done]. }
  set (fs1 := set_nodes _ fs).
  assert (is_dir (nodes fs1) dir) as D.
  { exists st. simpl. rewrite lookup_insert_ne; [done|]. apply child_ne. }
  assert (nodes fs1 !! path_join dir updatingDBFilename = Some (NFile (checksum d' +:+ d'))) as U
    by (simpl; by rewrite lookup_insert_eq).
  assert (nodes fs1 !! path_join dir currentDBFilename = None) as N.
  { simpl. rewrite lookup_insert_ne; [done|]. by intros E%(inj _). }
  split.
  - rewrite (run_replaceCurrent dir (checksum d' +:+ d') fs1); [done..|].
    intros [st' E]. congruence.
  - unfold replaceCurrentDBFile. apply history_bind_l. unfold history, Rename, os.
    change (faults fs1) with (faults fs). rewrite Hc, U, N. apply list_elem_of_here.
Qed.

Lemma published_names ns : names dir d' (published ns).
Proof. unfold names, published. apply lookup_insert_eq. Qed.

Lemma published_other ns p :
  p <> path_join dir currentDBFilename -> p <> path_join dir updatingDBFilename ->
  published ns !! p = ns !! p.
Proof. intros. unfold published. by rewrite lookup_insert_ne, lookup_delete_ne, lookup_insert_ne. Qed.

(** [current] names a store that does not exist. *)
Record torn (d : string) (ns : state) : Prop := {
  to_root : is_dir ns testDBDirName;
  to_dir : is_dir ns dir;
  to_name : db_name dir d;
  to_current : names dir d ns;
  to_store : ns !! d = None }.

Lemma published_torn ns : prepared ns -> torn d' (published ns).
Proof.
  intros [[st1 Q1] [st2 Q2] _ _ Q5]. destruct (child_ne c r currentDBFilename) as [A1 A2].
  destruct (child_ne c r updatingDBFilename) as [B1 B2].
  destruct (db_name_random dir rn ct) as (n & En & _ & Hc & Hu).
  split; [exists st1|exists st2|apply db_name_random|apply published_names|];
    rewrite published_other; try done; rewrite En; by intros ?%(inj _).
Qed.

(** ** What [Open] does *)

Abbreviation start fs hs := (mkSys fs hs (NewDiskKV c r)).

Lemma run_newHandle_first fs hs :
  calm fs -> is_dir (nodes fs) testDBDirName -> is_dir (nodes fs) dir -> nodes fs !! d' = None ->
  exists db, pb_view db = ∅ /\
    run (newHandle d') (start fs hs) =
    (mkSys (set_nodes (<[d' := NDir (Some db)]> (nodes fs)) fs) (hs ++ [mkPebbledb d' false])
       (NewDiskKV c r), Ret (length hs)).
Proof.
  intros Hc [st1 Q1] [st2 Q2] E. destruct (healthy_Open (DB := DB) None) as [db EO].
  exists db. split; [by apply pb_Open_fresh|].
  unfold newHandle, on_fs, createDB, MkdirAll. rewrite run_bind, run_zoom. cbn [s_fs].
  rewrite run_bind, run_os by done.
  destruct (db_name_random dir rn ct) as (n & Ed & Hn & _).
  assert (mkdirs (nodes fs) (ancestors d') = (<[d' := NDir None]> (nodes fs), Ret tt)) as ->.
  { rewrite Ed, ancestors_child by done. cbn [mkdirs]. rewrite Q1, Q2, <- Ed, E. done. }
  cbn [fst snd]. unfold run at 1, openStore. simpl nodes. rewrite lookup_insert_eq, EO.
  cbn. by rewrite insert_insert_eq.
Qed.

Lemma torn_store d db ns : torn d ns -> Committed c r d db (<[d := NDir (Some db)]> ns).
Proof.
  intros [[st1 Q1] [st2 Q2] Q3 Q4 Q5]. pose proof Q3 as (n & -> & Hn & Hc & Hu).
  destruct (child_ne c r n).
  split; [exists st1|exists st2|done|red|by rewrite lookup_insert_eq];
    (rewrite lookup_insert_ne; [done|]); try done; by intros ?%(inj _).
Qed.

Lemma history_on_fs {A} (m : io (FS DB) A) (t : sys) fs :
  fs ∈ history m (s_fs t) -> set_fs fs t ∈ history (on_fs m) t.
Proof.
  intros Ht. unfold on_fs. rewrite history_zoom. apply list_elem_of_fmap. by exists fs.
Qed.

Lemma Open_first_run fs hs :
  calm fs -> unused (nodes fs) ->
  exists s', run (Open rn ct) (start fs hs) = (s', Ret 0) /\ Replica s' ∅ /\ calm (s_fs s') /\
    (dk_lastApplied (s_kv s') = 0 /\ dk_clusterID (s_kv s') = c /\ dk_ReplicaID (s_kv s') = r) /\
    exists t, t ∈ history (Open rn ct) (start fs hs) /\ calm (s_fs t) /\ torn d' (nodes (s_fs t)).
Proof.
  intros Hc Hun. destruct (run_createNodeDataDir_unused fs Hc Hun) as (ns1 & RC & HP).
  destruct (run_publish_first (set_nodes ns1 fs) Hc HP) as (fs1 & RS & RR & HR).
  change (nodes (set_nodes ns1 fs)) with ns1 in RR, HR. rewrite set_nodes_twice in RR, HR.
  pose proof (published_torn ns1 HP) as HT.
  destruct (run_newHandle_first (set_nodes (published ns1) fs) hs) as (db & V & RN); try done;
    [apply HT..|].
  assert (run (isNewRun dir) (set_nodes ns1 fs) = (set_nodes ns1 fs, Ret true)) as RI.
  { unfold isNewRun, Stat. rewrite run_bind, run_try, run_read by done. simpl nodes.
    by rewrite (pr_current _ HP). }
  exists (set_lastApplied 0 (set_db (Some (length hs)) (mkSys
    (set_nodes (<[d' := NDir (Some db)]> (published ns1)) fs) (hs ++ [mkPebbledb d' false])
    (NewDiskKV c r)))).
  split_and!.
  - unfold Open. rewrite run_bind, run_get. cbn [s_kv NewDiskKV dk_clusterID dk_ReplicaID].
    unfold on_fs. rewrite run_bind, run_try, run_zoom. cbn [s_fs]. rewrite RC. cbv iota beta.
    rewrite run_bind, run_zoom. cbn [s_fs set_fs]. rewrite RI. cbv iota beta.
    rewrite run_bind, run_bind, run_zoom. cbn [s_fs set_fs]. rewrite RS. cbv iota beta.
    rewrite run_bind, run_zoom. cbn [s_fs set_fs]. rewrite RR. cbv iota beta.
    rewrite run_ret. cbv iota beta. unfold set_fs. cbn [s_fs s_handles s_kv].
    rewrite run_bind, RN. go_step.
    rewrite (run_queryAppliedIndex _ _ (mkPebbledb d' false) db 0); try done.
    + simpl. by rewrite lookup_app_r, Nat.sub_diag by done.
    + unfold store_at. simpl. by rewrite lookup_insert_eq.
    + by rewrite V.
  - exists (length hs), (mkPebbledb d' false), db. split_and!; try done.
    split; try done; [|by apply torn_store].
    simpl. by rewrite lookup_app_r, Nat.sub_diag by done.
  - done.
  - done.
  - done.
  - done.
  - exists (set_fs (set_nodes (published ns1) fs) (set_fs fs1 (start fs hs))).
    split; [|split; [done|exact HT]].
    eapply history_bind_r; [apply run_get|]. cbn [s_kv NewDiskKV dk_clusterID dk_ReplicaID].
    eapply history_bind_r. { unfold on_fs. rewrite run_try, run_zoom. cbn [s_fs]. by rewrite RC. }
    cbv iota beta. eapply history_bind_r. { unfold on_fs. rewrite run_zoom. cbn [s_fs set_fs]. by rewrite RI. }
    cbv iota beta. apply history_bind_l.
    eapply history_bind_r. { unfold on_fs. rewrite run_zoom. cbn [s_fs set_fs]. by rewrite RS. }
    apply history_bind_l, history_on_fs, HR.
Qed.

Lemma torn_remove d ns n :
  plain_name n -> n <> currentDBFilename -> path_join dir n <> d -> torn d ns ->
  torn d (remove_under (path_join dir n) ns).
Proof.
  intros Hn Hne Hd [[st1 Q1] [st2 Q2] Q3 Q4 Q5]. pose proof Q3 as (n' & -> & Hn' & _ & _).
  pose proof (node_length c r). pose proof (path_join_length dir n).
  split; [exists st1|exists st2|done|red|]; rewrite lookup_remove_under.
  - by rewrite under_short by lia.
  - by rewrite under_short by lia.
  - by rewrite under_sibling by (done || apply plain_current).
  - by destruct (under _ _).
Qed.

(** A later run cannot open it. *)
Lemma Open_torn_run d fs hs :
  calm fs -> torn d (nodes fs) ->
  exists s', run (Open rn ct) (start fs hs) = (s', Panic "db dir unexpectedly deleted") /\
    calm (s_fs s') /\ torn d (nodes (s_fs s')).
Proof.
  intros Hc HT. pose proof HT as [Q1 Q2 Q3 Q4 Q5].
  destruct (run_cleanup c r d (torn d) (to_dir d) (to_current d) (torn_remove d) Q3 fs Hc HT)
    as (ns' & RC & HT' & _ & _). pose proof HT' as [_ _ _ Q4' Q5'].
  exists (set_fs (set_nodes ns' fs) (start fs hs)). split; [|done].
  unfold Open. rewrite run_bind, run_get. cbn [s_kv NewDiskKV dk_clusterID dk_ReplicaID].
  unfold on_fs. rewrite run_bind, run_try, run_zoom. cbn [s_fs].
  rewrite run_createNodeDataDir by done. cbv iota beta.
  assert (run (isNewRun dir) fs = (fs, Ret false)) as RI.
  { unfold isNewRun, Stat. rewrite run_bind, run_try, run_read by done.
    unfold names in Q4. by rewrite Q4. }
  rewrite run_bind, run_zoom. cbn [s_fs set_fs]. rewrite RI. cbv iota beta.
  rewrite !run_bind, run_zoom. cbn [s_fs set_fs]. rewrite RC. cbv iota beta.
  rewrite run_bind, run_zoom. cbn [s_fs set_fs].
  rewrite (run_getCurrent dir d); [|done|by destruct Q3 as (n & -> & _)|done].
  cbv iota beta. rewrite run_bind, run_try, run_zoom. cbn [s_fs set_fs].
  unfold Stat at 1. rewrite run_read by done. simpl nodes. by rewrite Q5'.
Qed.
End Open.

(** ** Properties *)

(** The file [current] is accepted exactly when it is the checksum of a
    non-empty directory name followed by that name; anything else panics. *)
Theorem checkCurrent_iff data d :
  checkCurrent data = Ret d <-> d <> "" /\ data = checksum d +:+ d.
Proof.
  split; [|by intros [Hd ->]; apply checkCurrent_saved].
  unfold checkCurrent. destruct (Nat.leb_spec (String.length data) 8); [done|].
  case_decide as E; [|done]. intros E'. assert (d = sdrop 8 data) as -> by congruence. split.
  - intros Hd. apply (f_equal String.length) in Hd. rewrite sdrop_length in Hd. simpl in Hd. lia.
  - by rewrite <- E, stake_sdrop.
Qed.

Section Properties.
Context {DB : Type} `{PebbleHealthy DB}.
Abbreviation sys := (sys (DB := DB)).

(** The first run of a node creates its directories, an empty store and
    the file that names it, and starts from index 0. *)
Theorem Open_first c r rn ct (fs : FS DB) hs :
  calm fs -> unused c r rn ct (nodes fs) ->
  exists s', run (Open rn ct) (mkSys fs hs (NewDiskKV c r)) = (s', Ret 0) /\ Replica s' ∅.
Proof.
  intros Hc Hu. destruct (Open_first_run c r rn ct fs hs Hc Hu) as (s' & E & R & _). eauto.
Qed.

(** A process that takes over the files of a running replica, whatever
    directories an interrupted restore has left beside them, opens with the
    same contents and index, and removes all other directories. *)
Theorem Open_restart (s : sys) m rn ct hs :
  Replica s m -> calm (s_fs s) ->
  exists s' d, run (Open rn ct) (mkSys (s_fs s) hs
      (NewDiskKV (dk_clusterID (s_kv s)) (dk_ReplicaID (s_kv s)))) =
      (s', Ret (dk_lastApplied (s_kv s))) /\
    Replica s' m /\
    only_dir (dk_clusterID (s_kv s)) (dk_ReplicaID (s_kv s)) d (nodes (s_fs s')).
Proof.
  intros (i & h & db & R & <- & Hk & Hx) Hc.
  destruct (Open_run _ _ (pd_dir h) db (s_fs s) hs rn ct _ Hc (run_files _ _ _ _ R) Hk Hx)
    as (s' & E & R' & Ho & _). by exists s', (pd_dir h).
Qed.

(** The first run passes through a state, after [current] is in place
    and before the store exists, from which every later run panics, and
    leaves it so. *)
Theorem Open_torn c r rn ct (fs : FS DB) hs :
  calm fs -> unused c r rn ct (nodes fs) ->
  exists t, t ∈ history (Open rn ct) (mkSys fs hs (NewDiskKV c r)) /\
    forall rn1 ct1 hs1, exists s1,
      run (Open rn1 ct1) (mkSys (s_fs t) hs1 (NewDiskKV c r)) =
        (s1, Panic "db dir unexpectedly deleted") /\
      forall rn2 ct2 hs2, exists s2,
        run (Open rn2 ct2) (mkSys (s_fs s1) hs2 (NewDiskKV c r)) =
          (s2, Panic "db dir unexpectedly deleted").
Proof.
  intros Hc Hu. destruct (Open_first_run c r rn ct fs hs Hc Hu) as (_ & _ & _ & _ & _ & t & Ht & Hct & HT).
  exists t. split; [done|]. intros rn1 ct1 hs1.
  destruct (Open_torn_run c r rn1 ct1 _ (s_fs t) hs1 Hct HT) as (s1 & E1 & Hc1 & HT1).
  exists s1. split; [done|]. intros rn2 ct2 hs2.
  destruct (Open_torn_run c r rn2 ct2 _ (s_fs s1) hs2 Hc1 HT1) as (s2 & E2 & _). eauto.
Qed.

(** A closed replica refuses everything: reads return errors, updates
    and snapshots panic, and so does closing it again. *)
Theorem Close_final (s : sys) m :
  Replica s m ->
  exists s', run CloseKV s = (s', Ret tt) /\
    (forall k, run (Get (KeyString k)) s' = (s', Err (ErrorString "db closed"))) /\
    (forall q, run (Scan q) s' = (s', Err (ErrorString "db closed"))) /\
    (forall k v, run (ReverseScan k v) s' = (s', Err (ErrorString "Could not connect to db"))) /\
    (forall ents, run (Update ents) s' = (s', Panic "update called after Close()")) /\
    run PrepareSnapshot s' = (s', Panic "prepare snapshot called after Close()") /\
    (forall rn ct rd, run (RecoverFromSnapshot rn ct rd) s' =
       (s', Panic "recover from snapshot called after Close()")) /\
    (exists s2, run CloseKV s' = (s2, Panic "close called twice")).
Proof.
  intros (i & h & db & R & _).
  exists (set_handles (<[i := mkPebbledb (pd_dir h) true]> (s_handles s))
    (set_closed (set_db None s))).
  split.
  - unfold CloseKV. rewrite run_bind, run_get. rewrite run_bind, run_modify.
    rewrite (run_db _ _ _ _ R). rewrite run_bind, run_modify.
    unfold run, close. cbn [s_handles set_closed set_db set_kv].
    by rewrite (run_handle _ _ _ _ R).
  - pose proof (run_aborted _ _ _ _ R) as Ea. destruct s as [fs hs [c r la d cl ab]].
    simpl in Ea. subst ab. split_and!; intros; try reflexivity. by eexists.
Qed.
End Properties.

Lemma unused_empty : unused 1 1 7 9 (∅ : gmap string (node (gmap string string))).
Proof. split; [by left|by left|done|by intros [st E]|done]. Qed.

Lemma Open_first_witness :
  exists s', run (Open 7 9) (mkSys (quiet (∅ : gmap string (node (gmap string string)))) []
      (NewDiskKV 1 1)) = (s', Ret 0) /\ Replica s' ∅.
Proof. exact (Open_first 1 1 7 9 (quiet ∅) [] (fun _ => eq_refl) unused_empty). Defined.

Lemma Open_restart_witness :
  exists s' d, run (Open 5 6) (mkSys (s_fs (sample (sample_map 9) 9)) [] (NewDiskKV 1 1)) =
      (s', Ret 9) /\ Replica s' (sample_map 9) /\ only_dir 1 1 d (nodes (s_fs s')).
Proof.
  exact (Open_restart (sample (sample_map 9) 9) _ 5 6 [] (sample_map_Replica 9 ltac:(done))
    (fun _ => eq_refl)).
Defined.

Lemma Open_torn_witness :
  exists t, t ∈ history (Open 7 9) (mkSys (quiet (∅ : gmap string (node (gmap string string)))) []
      (NewDiskKV 1 1)) /\
    forall rn1 ct1 hs1, exists s1,
      run (Open rn1 ct1) (mkSys (s_fs t) hs1 (NewDiskKV 1 1)) =
        (s1, Panic "db dir unexpectedly deleted") /\
      forall rn2 ct2 hs2, exists s2,
        run (Open rn2 ct2) (mkSys (s_fs s1) hs2 (NewDiskKV 1 1)) =
          (s2, Panic "db dir unexpectedly deleted").
Proof. exact (Open_torn 1 1 7 9 (quiet ∅) [] (fun _ => eq_refl) unused_empty). Defined.

Lemma Close_final_witness :
  exists s', run CloseKV (sample ∅ 0) = (s', Ret tt) /\
    (forall k, run (Get (KeyString k)) s' = (s', Err (ErrorString "db closed"))) /\
    (forall q, run (Scan q) s' = (s', Err (ErrorString "db closed"))) /\
    (forall k v, run (ReverseScan k v) s' = (s', Err (ErrorString "Could not connect to db"))) /\
    (forall ents, run (Update ents) s' = (s', Panic "update called after Close()")) /\
    run PrepareSnapshot s' = (s', Panic "prepare snapshot called after Close()") /\
    (forall rn ct rd, run (RecoverFromSnapshot rn ct rd) s' =
       (s', Panic "recover from snapshot called after Close()")) /\
    (exists s2, run CloseKV s' = (s2, Panic "close called twice")).
Proof. exact (Close_final (sample ∅ 0) ∅ sample_empty). Defined.
