(* ===== verification/Replication.v ===== *)
(** * A shard: the replicas of one log

    What a committed log does to the replicas of a shard over time.  The
    replicas are machines that run [DiskKV]; the steps are the calls that
    dragonboat makes of an on-disk state machine, as its documentation
    promises them: entries are handed over in the order of the log, from
    the entry after the last applied one; a snapshot is installed only if
    it is not older than the replica; after a restart [Open] is called.  A
    machine may stop at any point of any call.

    A position of the log is empty where Raft itself has put an entry
    (a change of members, a new leader), which is not handed over. *)
From S2P Require Import Prelude Bytes Utf8 Json Types Pebble FileSystem Crash DataDir DataDirSpec.
From S2P Require Import DiskKV DiskKVSpec SnapshotSpec RecoverSpec OpenSpec.

(** ** The log *)

Definition log := list (option string).

(** The entries that are handed over, from index [i] on. *)
Fixpoint entries (i : Z) (l : log) : list Entry :=
  match l with
  | [] => []
  | Some cmd :: l => mkEntry i cmd 0 :: entries (i + 1) l
  | None :: l => entries (i + 1) l
  end.

(** The entries after position [x], up to position [y]. *)
Definition batch (l : log) (x y : nat) : list Entry :=
  entries (Z.of_nat x + 1) (drop x (take y l)).

(** A position that can be the last one applied. *)
Definition handed (l : log) (x : nat) : Prop := x = 0%nat \/ exists cmd, l !! (x - 1)%nat = Some (Some cmd).

(** ** The abstract specification

    The contents after the first [x] positions, if every entry decodes. *)
Definition state_after (l : log) (x : nat) : go (gmap string string) :=
  let? p := updateEntries (batch l 0 x) in
  Ret (if decide (x = 0%nat) then ∅ else stamp (Z.of_nat x) (run_ops ∅ p.1)).

Definition holds (l : log) (x : nat) (m : gmap string string) : Prop :=
  handed l x /\ state_after l x = Ret m.

(** ** The machines *)

Section Shard.
Context {DB : Type} `{PebbleHealthy DB} (shard : Z).
Abbreviation sys := (sys (DB := DB)).
Abbreviation files s := (nodes (s_fs s)).
Abbreviation applied s := (Z.to_nat (dk_lastApplied (s_kv s))).
Abbreviation fresh_dir s rn ct :=
  (getNewRandomDBDirName (getNodeDBDirName (dk_clusterID (s_kv s)) (dk_ReplicaID (s_kv s))) rn ct).

(** A machine runs its replica, or only its disk is left. *)
Inductive machine :=
  | Up (s : sys)
  | Down (disk : gmap string (node DB)).

(** The machines by replica number, the snapshots that have been prepared
    and the texts of those that have been saved. *)
Record shard_state := mkShard {
  sh_log : log;
  sh_machines : gmap Z machine;
  sh_prepared : list (diskKVCtx (DB := DB));
  sh_saved : list string }.

Definition set_machine (r : Z) (p : machine) (g : shard_state) : shard_state :=
  mkShard (sh_log g) (<[r := p]> (sh_machines g)) (sh_prepared g) (sh_saved g).

(** A call that does not return leaves the disk. *)
Definition after_call {A} (out : sys * go A) : machine :=
  match out with
  | (s, Ret _) => Up s
  | (s, _) => Down (files s)
  end.

(** A snapshot that is not older than a replica. *)
Definition not_older (text : string) (s : sys) : Prop :=
  forall m x, restored text = Some m -> applied_index m = Ret x -> dk_lastApplied (s_kv s) <= x.

Inductive step : shard_state -> shard_state -> Prop :=
  | step_commit g o :
      Z.of_nat (length (sh_log g)) + 1 < 2 ^ 64 ->
      step g (mkShard (sh_log g ++ [o]) (sh_machines g) (sh_prepared g) (sh_saved g))
  | step_first g r rn ct disk :
      sh_machines g !! r = None -> unused shard r rn ct disk ->
      step g (set_machine r (after_call
        (run (Open rn ct) (mkSys (quiet disk) [] (NewDiskKV shard r)))) g)
  | step_apply g r s y cmd :
      sh_machines g !! r = Some (Up s) -> (applied s < y)%nat ->
      sh_log g !! (y - 1)%nat = Some (Some cmd) ->
      step g (set_machine r (after_call (run (Update (batch (sh_log g) (applied s) y)) s)) g)
  | step_stop g r s :
      sh_machines g !! r = Some (Up s) -> step g (set_machine r (Down (files s)) g)
  | step_stop_apply g r s y cmd s' :
      sh_machines g !! r = Some (Up s) -> (applied s < y)%nat ->
      sh_log g !! (y - 1)%nat = Some (Some cmd) ->
      s' ∈ history (Update (batch (sh_log g) (applied s) y)) s ->
      step g (set_machine r (Down (files s')) g)
  | step_restart g r disk rn ct :
      sh_machines g !! r = Some (Down disk) ->
      step g (set_machine r (after_call
        (run (Open rn ct) (mkSys (quiet disk) [] (NewDiskKV shard r)))) g)
  | step_prepare g r s ctx :
      sh_machines g !! r = Some (Up s) -> run PrepareSnapshot s = (s, Ret ctx) ->
      step g (mkShard (sh_log g) (sh_machines g) (ctx :: sh_prepared g) (sh_saved g))
  | step_save g r s ctx text :
      sh_machines g !! r = Some (Up s) -> ctx ∈ sh_prepared g ->
      fits (pb_view (ctx_snapshot ctx)) -> run (SaveSnapshot ctx "") s = (s, Ret text) ->
      step g (mkShard (sh_log g) (sh_machines g) (sh_prepared g) (text :: sh_saved g))
  | step_install g r s rn ct text :
      sh_machines g !! r = Some (Up s) -> text ∈ sh_saved g -> not_older text s ->
      files s !! fresh_dir s rn ct = None ->
      step g (set_machine r (after_call (run (RecoverFromSnapshot rn ct text) s)) g)
  | step_stop_install g r s rn ct text s' :
      sh_machines g !! r = Some (Up s) -> text ∈ sh_saved g -> not_older text s ->
      files s !! fresh_dir s rn ct = None ->
      s' ∈ history (RecoverFromSnapshot rn ct text) s ->
      step g (set_machine r (Down (files s')) g).

(** A shard starts without machines and with an empty log. *)
Definition shard_start : shard_state := mkShard [] ∅ [] [].

Definition reachable (g : shard_state) : Prop := rtc step shard_start g.
End Shard.
Arguments Up {DB} s.
Arguments Down {DB} disk.
