(* ===== verification/ReplicationSpec.v ===== *)
(** * A shard: what its replicas agree on *)
From S2P Require Import Prelude Bytes Utf8 Json Types Pebble FileSystem Crash DataDir DataDirSpec.
From S2P Require Import DiskKV DiskKVSpec QuerySpec NodeHost SnapshotSpec RecoverSpec OpenSpec.
From S2P Require Import Replication.

(** ** The log and the contents after a position *)

Lemma entries_app i l1 l2 : entries i (l1 ++ l2) = entries i l1 ++ entries (i + Z.of_nat (length l1)) l2.
Proof.
  revert i. induction l1 as [|[cmd|] l1 IH]; intros i; cbn [app entries length].
  - by rewrite Z.add_0_r.
  - rewrite IH. f_equal. f_equal. f_equal. lia.
  - rewrite IH. f_equal. f_equal. lia.
Qed.

Lemma batch_split l x y z :
  (x <= y <= z)%nat -> (y <= length l)%nat -> batch l x z = batch l x y ++ batch l y z.
Proof.
  intros Hz Hy. unfold batch.
  assert (take y l = take y (take z l)) as -> by (by rewrite take_take, Nat.min_l by lia).
  rewrite <- (take_drop y (take z l)) at 1. rewrite drop_app_le by (rewrite !length_take; lia).
  rewrite entries_app. f_equal. f_equal. rewrite length_drop, !length_take. lia.
Qed.

Lemma batch_app l o x y : (y <= length l)%nat -> batch (l ++ [o]) x y = batch l x y.
Proof. intros Hy. unfold batch. by rewrite take_app_le. Qed.

(** A batch ends with the entry of its last position. *)
Lemma batch_last l x y cmd :
  (x < y)%nat -> l !! (y - 1)%nat = Some (Some cmd) -> last (batch l x y) = Some (mkEntry (Z.of_nat y) cmd 0).
Proof.
  intros Hxy E. unfold batch. destruct y as [|y]; [lia|]. rewrite Nat.sub_succ, Nat.sub_0_r in E.
  pose proof (lookup_lt_Some _ _ _ E). rewrite (take_S_r _ _ _ E), drop_app_le by (rewrite length_take; lia).
  rewrite entries_app. cbn [entries]. rewrite last_snoc, length_drop, length_take. f_equal. f_equal. lia.
Qed.

Lemma batch_elem l x y z cmd :
  (x < y <= z)%nat -> l !! (y - 1)%nat = Some (Some cmd) -> mkEntry (Z.of_nat y) cmd 0 ∈ batch l x z.
Proof.
  intros Hy E. pose proof (lookup_lt_Some _ _ _ E). rewrite (batch_split l x y z) by lia.
  apply elem_of_app. left. apply last_Some_elem_of. by apply batch_last; [lia|].
Qed.

(** A batch that holds an entry that does not decode does not decode. *)
Lemma undecodable_batch ents e :
  e ∈ ents -> match commandOps (Cmd e) with Ret _ => False | _ => True end ->
  match updateEntries ents with Ret _ => False | _ => True end.
Proof.
  intros He Hc. apply list_elem_of_split in He as (l1 & l2 & ->). rewrite updateEntries_app.
  destruct (updateEntries l1) as [p| |]; [|done..]. cbn [go_bind updateEntries].
  by destruct (commandOps (Cmd e)).
Qed.

Lemma handed_le l x : handed l x -> (x <= length l)%nat.
Proof. intros [->|[cmd E]]; [lia|]. apply lookup_lt_Some in E. lia. Qed.

Lemma holds_empty l : holds l 0 ∅.
Proof. split; [by left|]. unfold state_after, batch. rewrite take_0. done. Qed.

Lemma holds_app l o x m : holds l x m -> holds (l ++ [o]) x m.
Proof.
  intros [Hh Hs]. pose proof (handed_le _ _ Hh). split.
  - destruct Hh as [->|[cmd E]]; [by left|right]. exists cmd. by apply lookup_app_l_Some.
  - unfold state_after in *. by rewrite batch_app.
Qed.

Lemma holds_fun l x m1 m2 : holds l x m1 -> holds l x m2 -> m1 = m2.
Proof. intros [_ H1] [_ H2]. congruence. Qed.

Lemma holds_stamp l x m :
  holds l x m -> Z.of_nat (length l) < 2 ^ 64 -> applied_index m = Ret (Z.of_nat x) /\ utf8_keys m.
Proof.
  intros [Hh Hs] Hl. pose proof (handed_le _ _ Hh). unfold state_after in Hs.
  destruct (updateEntries (batch l 0 x)) as [[ops es]| |] eqn:E; try done. injection Hs as <-.
  destruct (decide (x = 0%nat)) as [->|Hx]; [split; [done|apply utf8_keys_empty]|]. split.
  - apply applied_index_stamp. lia.
  - apply utf8_keys_stamp, utf8_keys_run_ops; [apply utf8_keys_empty|]. by eapply updateEntries_utf8.
Qed.

(** The next batch. *)
Lemma holds_batch l x y m ops es cmd :
  holds l x m -> (x < y)%nat -> l !! (y - 1)%nat = Some (Some cmd) ->
  updateEntries (batch l x y) = Ret (ops, es) -> holds l y (stamp (Z.of_nat y) (run_ops m ops)).
Proof.
  intros [Hh Hs] Hxy E EU. pose proof (handed_le _ _ Hh). split; [right; by exists cmd|].
  unfold state_after in *. rewrite (batch_split l 0 x y) by lia. rewrite updateEntries_app.
  destruct (updateEntries (batch l 0 x)) as [[ops0 es0]| |] eqn:E0; try done.
  rewrite EU. cbn [go_bind fst snd] in *. injection Hs as <-. rewrite decide_False by lia.
  f_equal. rewrite run_ops_app. destruct (decide (x = 0%nat)) as [->|].
  - unfold batch in E0. rewrite take_0 in E0. by injection E0 as <- _.
  - by rewrite stamp_run_ops.
Qed.

(** A batch between two positions whose contents are defined decodes. *)
Lemma holds_between l x y m m' :
  holds l x m -> holds l y m' -> (x <= y)%nat -> exists ops es, updateEntries (batch l x y) = Ret (ops, es).
Proof.
  intros [Hx Sx] [Hy Sy] Hxy. pose proof (handed_le _ _ Hx). unfold state_after in Sy.
  rewrite (batch_split l 0 x y), updateEntries_app in Sy by lia.
  destruct (updateEntries (batch l 0 x)) as [[o1 e1]| |]; try done. cbn [go_bind] in Sy.
  destruct (updateEntries (batch l x y)) as [[o2 e2]| |]; try done. by exists o2, e2.
Qed.

(** ** The invariant *)

Section Shard.
Context {DB : Type} `{PebbleHealthy DB} `{!StableIter DB} (shard : Z).
Abbreviation sys := (sys (DB := DB)).
Abbreviation files s := (nodes (s_fs s)).
Abbreviation applied s := (Z.to_nat (dk_lastApplied (s_kv s))).
Abbreviation machine := (machine (DB := DB)).
Abbreviation fresh_dir s rn ct :=
  (getNewRandomDBDirName (getNodeDBDirName (dk_clusterID (s_kv s)) (dk_ReplicaID (s_kv s))) rn ct).

(** The disk of machine [r] holds the contents after position [x]. *)
Definition stored (l : log) (r : Z) (x : nat) (disk : gmap string (node DB)) : Prop :=
  exists d db, Committed shard r d db disk /\ holds l x (pb_view db).

(** Machine [r] has applied the first [x] positions. *)
Definition has_applied (l : log) (r : Z) (x : nat) (p : machine) : Prop :=
  match p with
  | Up s => dk_clusterID (s_kv s) = shard /\ dk_ReplicaID (s_kv s) = r /\ applied s = x /\
            exists m, Replica s m /\ holds l x m
  | Down disk => stored l r x disk
  end.

Lemma has_applied_app l o r x p : has_applied l r x p -> has_applied (l ++ [o]) r x p.
Proof.
  destruct p as [s|disk]; cbn [has_applied].
  - intros (? & ? & ? & m & ? & ?). split_and!; try done. exists m. by split; [|apply holds_app].
  - intros (d & db & ? & ?). exists d, db. by split; [|apply holds_app].
Qed.

Lemma has_applied_stop l r x s : has_applied l r x (Up s) -> stored l r x (files s).
Proof.
  intros (C1 & C2 & _ & m & (i & h & db & R & <- & _) & Hm). exists (pd_dir h), db.
  rewrite <- C1, <- C2. split; [apply (run_files _ _ _ _ R)|done].
Qed.

(** An index that a replica has reached is in its log, so it is small. *)
Lemma has_applied_index l r x s :
  has_applied l r x (Up s) -> dk_lastApplied (s_kv s) = Z.of_nat x.
Proof.
  intros (_ & _ & <- & m & (i & h & db & _ & _ & _ & Hx) & _). apply applied_index_range in Hx. lia.
Qed.

(** *** One call *)

Lemma update_between l r x y s cmd (ns : gmap string (node DB)) :
  Z.of_nat (length l) < 2 ^ 64 -> has_applied l r x (Up s) -> (x < y)%nat ->
  l !! (y - 1)%nat = Some (Some cmd) ->
  (forall m, Replica s m ->
    old_or_new (dk_clusterID (s_kv s)) (dk_ReplicaID (s_kv s)) m
      (match updateEntries (batch l x y), last (batch l x y) with
       | Ret (ops, _), Some e => stamp (Index e) (run_ops m ops)
       | _, _ => m
       end) ns) ->
  exists x', (x <= x')%nat /\ stored l r x' ns.
Proof.
  intros Hl (C1 & C2 & Hx & m & R & Hm) Hxy E Ho. specialize (Ho m R) as (d & db & HC & V).
  rewrite C1, C2 in HC.
  rewrite (batch_last l x y cmd) in V by done. cbn [Index] in V.
  assert (pb_view db = m -> exists x', (x <= x')%nat /\
    stored l r x' ns) as Hold.
  { intros V'. exists x. split; [done|]. exists d, db. by rewrite V'. }
  destruct (updateEntries (batch l x y)) as [[ops es]| |] eqn:EU; try (apply Hold; by destruct V).
  destruct V as [V|V]; [by apply Hold|]. exists y. split; [lia|]. exists d, db. split; [done|].
  rewrite V. by eapply holds_batch.
Qed.

Lemma apply_ok l r x y s cmd :
  Z.of_nat (length l) < 2 ^ 64 -> has_applied l r x (Up s) -> (x < y)%nat ->
  l !! (y - 1)%nat = Some (Some cmd) ->
  exists x', (x <= x')%nat /\ has_applied l r x' (after_call (run (Update (batch l x y)) s)).
Proof.
  intros Hl Hs Hxy E. pose proof Hs as (C1 & C2 & Hx & m & R & Hm).
  pose proof (has_applied_index _ _ _ _ Hs) as Hi. pose proof (lookup_lt_Some _ _ _ E).
  destruct (updateEntries (batch l x y)) as [[ops es]| |] eqn:EU.
  - destruct (Update_run_to s m _ ops es _ R EU (batch_last l x y cmd Hxy E)) as (h & db' & RU & R');
      [cbn [Index]; lia|cbn [Index]; lia|].
    exists y. split; [lia|]. rewrite RU. cbn [after_call has_applied]. split_and!; try done.
    + cbn. lia.
    + eexists. split; [exact R'|]. cbn [Index]. by eapply holds_batch.
  - exists x. split; [done|]. rewrite (Update_undecodable s m) by (done || by rewrite EU).
    rewrite EU. cbn [after_call has_applied]. by apply has_applied_stop.
  - exists x. split; [done|]. rewrite (Update_undecodable s m) by (done || by rewrite EU).
    rewrite EU. cbn [after_call has_applied]. by apply has_applied_stop.
Qed.

Lemma stop_apply_ok l r x y s s' cmd :
  Z.of_nat (length l) < 2 ^ 64 -> has_applied l r x (Up s) -> (x < y)%nat ->
  l !! (y - 1)%nat = Some (Some cmd) -> s' ∈ history (Update (batch l x y)) s ->
  exists x', (x <= x')%nat /\ has_applied l r x' (Down (files s')).
Proof.
  intros Hl Hs Hxy E Hin. cbn [has_applied]. eapply update_between; try done. intros m R.
  destruct (spec_Update s m (batch l x y) R s eq_refl) as [K _]. by eapply Forall_forall in K.
Qed.

Lemma restart_ok l r x disk rn ct :
  Z.of_nat (length l) < 2 ^ 64 -> stored l r x disk ->
  has_applied l r x (after_call (run (Open rn ct) (mkSys (quiet disk) [] (NewDiskKV shard r)))).
Proof.
  intros Hl (d & db & HC & Hm). destruct (holds_stamp _ _ _ Hm Hl) as [Hx Hu].
  destruct (Open_run shard r d db (quiet disk) [] rn ct (Z.of_nat x)) as (s & E & R & _ & _ & Hi & C1 & C2);
    try done.
  rewrite E. cbn [after_call has_applied]. split_and!; [done|done|lia|]. by exists (pb_view db).
Qed.

Lemma first_ok l r rn ct disk :
  unused shard r rn ct disk ->
  has_applied l r 0 (after_call (run (Open rn ct) (mkSys (quiet disk) [] (NewDiskKV shard r)))).
Proof.
  intros Hu. destruct (Open_first_run shard r rn ct (quiet disk) []) as (s & E & R & _ & (Hi & C1 & C2) & _);
    [done|done|].
  rewrite E. cbn [after_call has_applied]. split_and!; [done|done|lia|]. exists ∅. split; [done|apply holds_empty].
Qed.

(** A restore leaves the old contents or those of the snapshot. *)
Lemma recovered_stored l r x s i h db rn ct text m y ns :
  Z.of_nat (length l) < 2 ^ 64 -> has_applied l r x (Up s) -> Running s i h db ->
  text = snapshot_text m -> fits m -> holds l y m -> not_older text s ->
  Committed (dk_clusterID (s_kv s)) (dk_ReplicaID (s_kv s)) (pd_dir h) db ns \/
  (exists m', restored text = Some m' /\
     Done (dk_clusterID (s_kv s)) (dk_ReplicaID (s_kv s)) (fresh_dir s rn ct) m' ns) ->
  exists x', (x <= x')%nat /\ stored l r x' ns.
Proof.
  intros Hl Hs R Et Hf Hm Hn K. pose proof (has_applied_index _ _ _ _ Hs) as Hi.
  destruct (holds_stamp _ _ _ Hm Hl) as [Hy Hu].
  pose proof Hs as (C1 & C2 & _ & m0 & (i0 & h0 & db0 & R0 & V0 & _) & Hm0).
  assert (restored text = Some m) as Er by (subst text; by apply restored_text).
  destruct K as [HC|(m' & E' & db' & HC & V)].
  - exists x. split; [done|]. exists (pd_dir h), db. rewrite <- C1, <- C2. split; [done|].
    assert (i = i0) as <- by (pose proof (run_db _ _ _ _ R); pose proof (run_db _ _ _ _ R0); congruence).
    assert (h = h0) as <-
      by (pose proof (run_handle _ _ _ _ R); pose proof (run_handle _ _ _ _ R0); congruence).
    assert (db = db0) as ->
      by (pose proof (com_store _ _ _ _ _ (run_files _ _ _ _ R));
          pose proof (com_store _ _ _ _ _ (run_files _ _ _ _ R0)); congruence).
    by rewrite V0.
  - rewrite Er in E'. injection E' as <-. exists y. split.
    + specialize (Hn m _ Er Hy). lia.
    + exists (fresh_dir s rn ct), db'. rewrite <- C1, <- C2. split; [done|]. by rewrite V.
Qed.

Lemma install_ok l r x s rn ct text m y :
  Z.of_nat (length l) < 2 ^ 64 -> has_applied l r x (Up s) ->
  text = snapshot_text m -> fits m -> holds l y m -> not_older text s ->
  files s !! fresh_dir s rn ct = None ->
  (exists x', (x <= x')%nat /\ has_applied l r x' (after_call (run (RecoverFromSnapshot rn ct text) s))) /\
  (forall s', s' ∈ history (RecoverFromSnapshot rn ct text) s ->
   exists x', (x <= x')%nat /\ has_applied l r x' (Down (files s'))).
Proof.
  intros Hl Hs Et Hf Hm Hn Hfr. pose proof Hs as (C1 & C2 & Hx & m0 & (i & h & db & R & _) & _).
  destruct (spec_Recover s i h db rn ct R Hfr text s eq_refl) as [K1 K2].
  split; [|intros s' Hin; eapply recovered_stored; try done; by eapply Forall_forall in K1].
  destruct (run (RecoverFromSnapshot rn ct text) s) as [t [[]|e|q]]; cbn [after_call has_applied];
    [|by eapply recovered_stored..].
  destruct K2 as (m' & z & Er & HD & HS & Hz & Hle).
  rewrite Et, restored_text in Er; [|by destruct (holds_stamp _ _ _ Hm Hl)|done]. injection Er as <-.
  destruct (holds_stamp _ _ _ Hm Hl) as [Hy Hu]. assert (z = Z.of_nat y) as -> by congruence.
  pose proof (has_applied_index _ _ _ _ Hs). pose proof HS as [_ Ek].
  exists y. split; [lia|]. rewrite Ek. cbn [dk_clusterID dk_ReplicaID dk_lastApplied].
  split_and!; [done|done|lia|]. exists m. split; [by eapply switched_Replica|done].
Qed.

(** *** All machines *)

Record inv (g : shard_state (DB := DB)) : Prop := {
  inv_log : Z.of_nat (length (sh_log g)) < 2 ^ 64;
  inv_machines : forall r p, sh_machines g !! r = Some p -> exists x, has_applied (sh_log g) r x p;
  inv_prepared : Forall (fun ctx => exists x, holds (sh_log g) x (pb_view (ctx_snapshot ctx))) (sh_prepared g);
  inv_saved : Forall (fun text => exists x m, text = snapshot_text m /\ fits m /\ holds (sh_log g) x m)
    (sh_saved g) }.

(** No machine falls back. *)
Definition advances (g g' : shard_state (DB := DB)) : Prop :=
  forall r p x, sh_machines g !! r = Some p -> has_applied (sh_log g) r x p ->
  exists p' x', sh_machines g' !! r = Some p' /\ (x <= x')%nat /\ has_applied (sh_log g') r x' p'.

Lemma advances_same g g' :
  sh_machines g' = sh_machines g -> sh_log g' = sh_log g -> advances g g'.
Proof. intros Em El r p x Hp Hx. exists p, x. rewrite Em, El. split_and!; [done|lia|done]. Qed.

Lemma set_machine_inv g r p :
  inv g -> (exists x, has_applied (sh_log g) r x p) ->
  (forall q x, sh_machines g !! r = Some q -> has_applied (sh_log g) r x q ->
     exists x', (x <= x')%nat /\ has_applied (sh_log g) r x' p) ->
  inv (set_machine r p g) /\ advances g (set_machine r p g).
Proof.
  intros [I1 I2 I3 I4] Hp Ha. split.
  - split; try done. cbn [sh_machines sh_log set_machine]. intros r' p'.
    destruct (decide (r = r')) as [<-|Hr]; [rewrite lookup_insert_eq; by intros [= <-]|].
    rewrite lookup_insert_ne by done. apply I2.
  - intros r' q x. cbn [sh_machines sh_log set_machine]. destruct (decide (r = r')) as [<-|Hr].
    + intros Hq Hx. destruct (Ha q x Hq Hx) as (x' & Hle & Hx'). exists p, x'.
      by rewrite lookup_insert_eq.
    + intros Hq Hx. exists q, x. by rewrite lookup_insert_ne.
Qed.

(** A call on a running machine. *)
Lemma call_inv g r s p :
  inv g -> sh_machines g !! r = Some (Up s) ->
  (has_applied (sh_log g) r (applied s) (Up s) ->
     exists x', (applied s <= x')%nat /\ has_applied (sh_log g) r x' p) ->
  inv (set_machine r p g) /\ advances g (set_machine r p g).
Proof.
  intros I Hs Hc. destruct (inv_machines _ I _ _ Hs) as [x0 Hx0].
  assert (forall x, has_applied (sh_log g) r x (Up s) -> x = applied s) as Hu by (by intros x (_ & _ & <- & _)).
  pose proof (Hu _ Hx0) as ->. destruct (Hc Hx0) as (x' & Hle & Hx').
  apply set_machine_inv; [done|by exists x'|]. intros q x Hq Hx. rewrite Hs in Hq. injection Hq as <-.
  pose proof (Hu _ Hx) as ->. by exists x'.
Qed.

Lemma step_inv g g' : step shard g g' -> inv g -> inv g' /\ advances g g'.
Proof.
  intros St I. pose proof (inv_log _ I) as Hl. destruct St as
    [g o Hb|g r rn ct disk Hn Hu|g r s y cmd Hs Hy E|g r s Hs|g r s y cmd s' Hs Hy E Hin
    |g r disk rn ct Hd|g r s ctx Hs E|g r s ctx text Hs Hin Hf E|g r s rn ct text Hs Ht Hn Hfr
    |g r s rn ct text s' Hs Ht Hn Hfr Hin].
  - split.
    + split; cbn [sh_log sh_machines sh_prepared sh_saved].
      * rewrite length_app. cbn [length]. lia.
      * intros r p Hp. destruct (inv_machines _ I _ _ Hp) as [x Hx]. exists x. by apply has_applied_app.
      * eapply Forall_impl; [apply (inv_prepared _ I)|]. intros ctx [x Hx]. exists x. by apply holds_app.
      * eapply Forall_impl; [apply (inv_saved _ I)|]. intros t (x & m & Et & Hf & Hx).
        exists x, m. split_and!; [done|done|by apply holds_app].
    + intros r p x Hp Hx. exists p, x. cbn [sh_log sh_machines]. split_and!; [done|lia|by apply has_applied_app].
  - apply set_machine_inv; [done|exists 0%nat; by apply first_ok|]. intros q x Hq. congruence.
  - apply call_inv with s; [done..|]. intros Hx. by eapply apply_ok.
  - apply call_inv with s; [done..|]. intros Hx. exists (applied s). split; [lia|].
    cbn [has_applied]. by apply has_applied_stop.
  - apply call_inv with s; [done..|]. intros Hx. by eapply stop_apply_ok.
  - destruct (inv_machines _ I _ _ Hd) as [x0 Hx0].
    apply set_machine_inv; [done|exists x0; by apply restart_ok|]. intros q x Hq Hx. rewrite Hd in Hq.
    injection Hq as <-. exists x. split; [lia|by apply restart_ok].
  - split; [|by apply advances_same]. destruct (inv_machines _ I _ _ Hs) as (x & _ & _ & _ & m & R & Hm).
    split; try apply I; [].
    apply Forall_cons. split; [|apply I]. exists x.
    destruct R as (i & h & db & R & <- & _). rewrite (run_PrepareSnapshot _ _ _ _ R) in E.
    by injection E as <-.
  - split; [|by apply advances_same]. destruct (inv_machines _ I _ _ Hs) as (x & _ & _ & _ & m & R & Hm).
    split; try apply I; [].
    apply Forall_cons. split; [|apply I].
    destruct R as (i & h & db & R & _). rewrite run_SaveSnapshot in E
      by (apply (run_open _ _ _ _ R) || apply (run_aborted _ _ _ _ R)). injection E as <-.
    pose proof (inv_prepared _ I) as K. rewrite Forall_forall in K. destruct (K _ Hin) as [z Hz].
    by exists z, (pb_view (ctx_snapshot ctx)).
  - pose proof (inv_saved _ I) as K. rewrite Forall_forall in K. destruct (K _ Ht) as (y & m & Et & Hf & Hm).
    apply call_inv with s; [done..|]. intros Hx. by eapply (install_ok _ _ _ _ _ _ _ m y).
  - pose proof (inv_saved _ I) as K. rewrite Forall_forall in K. destruct (K _ Ht) as (y & m & Et & Hf & Hm).
    apply call_inv with s; [done..|]. intros Hx. by eapply (install_ok _ _ _ _ _ _ _ m y).
Qed.

Lemma inv_start : inv shard_start.
Proof. split; cbn; [lia|intros r p Hp; by rewrite lookup_empty in Hp|constructor|constructor]. Qed.

Lemma reachable_inv g : reachable shard g -> inv g.
Proof.
  assert (forall g0 g1, rtc (step shard) g0 g1 -> inv g0 -> inv g1) as K.
  { induction 1 as [|g0 g1 g2 St _ IH]; [done|]. intros I. by apply IH, (step_inv g0). }
  intros Hr. by eapply K, inv_start.
Qed.
End Shard.

(** ** Properties *)

(** The contents a log of commands asks for. *)
Definition executed (cs : list command) (x : nat) : gmap string string :=
  if decide (x = 0%nat) then ∅ else stamp (Z.of_nat x) (foldl exec ∅ (take x cs)).

Lemma entries_commands i cs :
  map Cmd (entries i (map (Some ∘ encode) cs)) = map encode cs.
Proof. revert i. induction cs as [|c cs IH]; intros i; [done|]. cbn. by rewrite IH. Qed.

Lemma state_after_commands cs x : state_after (map (Some ∘ encode) cs) x = Ret (executed cs x).
Proof.
  unfold state_after, batch. rewrite drop_0, <- fmap_take. change (fmap (Some ∘ encode)) with (map (Some ∘ encode)).
  rewrite (updateEntries_encode _ (take x cs)) by apply entries_commands. cbn [go_bind fst].
  by rewrite run_flat_map.
Qed.

Section Properties.
Context {DB : Type} `{PebbleHealthy DB} `{!StableIter DB} (shard : Z).
Abbreviation sys := (sys (DB := DB)).
Abbreviation applied s := (Z.to_nat (dk_lastApplied (s_kv s))).

Lemma reachable_Up g r s :
  reachable shard g -> sh_machines g !! r = Some (Up s) ->
  dk_lastApplied (s_kv s) = Z.of_nat (applied s) /\
  exists m, Replica s m /\ holds (sh_log g) (applied s) m.
Proof.
  intros Hr Hs. destruct (inv_machines _ _ (reachable_inv shard g Hr) _ _ Hs) as [x Hx].
  pose proof (has_applied_index _ _ _ _ _ Hx) as Hi. destruct Hx as (_ & _ & <- & m & R & Hm).
  split; [done|]. by exists m.
Qed.


Lemma steps_advance g g' : rtc (step shard) g g' -> inv shard g -> inv shard g' /\ advances shard g g'.
Proof.
  induction 1 as [|g g1 g2 St _ IH]; intros I; [by split; [|apply advances_same]|].
  destruct (step_inv shard _ _ St I) as [I1 A1]. destruct (IH I1) as [I2 A2]. split; [done|].
  intros r p x Hp Hx. destruct (A1 r p x Hp Hx) as (p1 & x1 & Hp1 & L1 & Hx1).
  destruct (A2 r p1 x1 Hp1 Hx1) as (p2 & x2 & Hp2 & L2 & Hx2). exists p2, x2. split_and!; [done|lia|done].
Qed.

Lemma steps_log g g' : rtc (step shard) g g' -> exists l, sh_log g' = sh_log g ++ l.
Proof.
  induction 1 as [g|g g1 g2 St _ [l ->]]; [exists []; by rewrite app_nil_r|].
  assert (exists l', sh_log g1 = sh_log g ++ l') as [l' ->].
  { destruct St; cbn [sh_log set_machine]; (by exists [o]) || (exists []; by rewrite app_nil_r). }
  exists (l' ++ l). by rewrite app_assoc.
Qed.


(** A machine that is there can be started. *)
Lemma can_start g r p :
  inv shard g -> sh_machines g !! r = Some p ->
  exists g1 s1, rtc (step shard) g g1 /\ sh_log g1 = sh_log g /\ sh_machines g1 !! r = Some (Up s1).
Proof.
  intros I Hp. destruct p as [s|disk]; [by exists g, s|].
  destruct (inv_machines _ _ I _ _ Hp) as [x (d & db & HC & Hx)].
  destruct (holds_stamp _ _ _ Hx (inv_log _ _ I)) as [Hz Hu].
  destruct (Open_run shard r d db (quiet disk) [] 0 0 (Z.of_nat x)) as (s' & E & _); try done.
  exists (set_machine r (Up s') g), s'. split_and!; [|done|by apply lookup_insert_eq].
  apply rtc_once. change (Up s') with (after_call (s', Ret (Z.of_nat x))). rewrite <- E.
  by apply step_restart.
Qed.

(** A running replica can be fed the log up to a position whose contents
    are defined. *)
Lemma can_feed g r s n m :
  inv shard g -> sh_machines g !! r = Some (Up s) -> holds (sh_log g) n m -> (applied s < n)%nat ->
  exists s', step shard g (set_machine r (Up s') g) /\
    dk_lastApplied (s_kv s') = Z.of_nat n /\ Replica s' m.
Proof.
  intros I Hs Hm Hlt. destruct (inv_machines _ _ I _ _ Hs) as [x Hx].
  pose proof (has_applied_index _ _ _ _ _ Hx) as Hi. pose proof (inv_log _ _ I).
  destruct Hx as (C1 & C2 & Ex & m1 & R1 & Hm1). rewrite Ex in Hlt.
  destruct (holds_between _ _ _ _ _ Hm1 Hm) as (ops & es & EU); [lia|].
  destruct (proj1 Hm) as [->|[cmd E]]; [lia|]. pose proof (lookup_lt_Some _ _ _ E).
  destruct (Update_run_to s m1 _ ops es _ R1 EU (batch_last _ x n cmd Hlt E)) as (h & db' & RU & R');
    [cbn [Index]; lia..|]. cbn [Index] in *.
  exists (set_lastApplied (Z.of_nat n) (with_db s h db')). split_and!; [|done|].
  - change (Up (set_lastApplied (Z.of_nat n) (with_db s h db')))
      with (after_call (set_lastApplied (Z.of_nat n) (with_db s h db'), Ret es)).
    rewrite <- RU, <- Ex. apply step_apply with cmd; [done|lia|done].
  - replace m with (stamp (Z.of_nat n) (run_ops m1 ops)); [done|].
    eapply holds_fun; [|exact Hm]. by eapply holds_batch.
Qed.


End Properties.

(** ** A small shard *)

(** The only replica of a shard that has stored one value, [log] being what
    is committed. *)
Abbreviation store := (gmap string string).

Definition put_a : string := encode (CData (mkKVData "a" (Some "x"))).

Definition machine_of (r : Z) : machine (DB := store) :=
  after_call (run (Open 7 9) (mkSys (quiet ∅) [] (NewDiskKV 1 r))).
Definition fed (p : machine (DB := store)) (ents : list Entry) : machine :=
  match p with Up s => after_call (run (Update ents) s) | Down d => Down d end.
Definition disk_of (p : machine (DB := store)) : machine :=
  match p with Up s => Down (nodes (s_fs s)) | Down d => Down d end.
Definition sys_of (p : machine (DB := store)) : sys :=
  match p with Up s => s | Down d => mkSys (quiet d) [] (NewDiskKV 1 1) end.

Definition shard1 : shard_state := set_machine 1 (machine_of 1) shard_start.
Definition shard2 : shard_state := set_machine 2 (machine_of 2) shard1.
Definition commit (o : option string) (g : shard_state (DB := store)) : shard_state :=
  mkShard (sh_log g ++ [o]) (sh_machines g) (sh_prepared g) (sh_saved g).
Definition shard3 : shard_state := commit (Some put_a) (commit None shard2).
Definition one_batch : list Entry := [mkEntry 2 put_a 0].
Definition shard4 : shard_state := set_machine 1 (fed (machine_of 1) one_batch) shard3.
Definition shard5 : shard_state := set_machine 2 (fed (machine_of 2) one_batch) shard4.

Lemma is_up (p : machine (DB := store)) : match p with Up _ => true | _ => false end = true -> p = Up (sys_of p).
Proof. by destruct p. Qed.

Lemma shard3_reachable : reachable 1 shard3.
Proof.
  eapply rtc_l; [apply (step_first 1 shard_start 1 7 9 ∅); [done|split; [by left|by left|done|by intros [st E]|done]]|].
  eapply rtc_l; [apply (step_first 1 _ 2 7 9 ∅); [done|split; [by left|by left|done|by intros [st E]|done]]|].
  eapply rtc_l; [apply (step_commit 1 _ None); vm_compute; reflexivity|].
  eapply rtc_l; [apply (step_commit 1 _ (Some put_a)); vm_compute; reflexivity|].
  apply rtc_refl.
Qed.

Lemma feed_step (g : shard_state (DB := store)) r p y cmd ents :
  sh_machines g !! r = Some p -> match p with Up _ => true | _ => false end = true ->
  (Z.to_nat (dk_lastApplied (s_kv (sys_of p))) < y)%nat -> sh_log g !! (y - 1)%nat = Some (Some cmd) ->
  batch (sh_log g) (Z.to_nat (dk_lastApplied (s_kv (sys_of p)))) y = ents ->
  step 1 g (set_machine r (fed p ents) g).
Proof.
  intros Hp Hu Hy E <-. destruct p as [s|]; [|done]. by eapply step_apply.
Qed.

Lemma shard5_reachable : reachable 1 shard5.
Proof.
  eapply rtc_r; [eapply rtc_r; [exact shard3_reachable|]|].
  - apply (feed_step shard3 1 (machine_of 1) 2 put_a);
      [reflexivity|vm_compute; reflexivity|vm_compute; lia|reflexivity|vm_compute; reflexivity].
  - apply (feed_step shard4 2 (machine_of 2) 2 put_a);
      [reflexivity|vm_compute; reflexivity|vm_compute; lia|reflexivity|vm_compute; reflexivity].
Qed.

(** ** The properties at work *)

Definition replica_of (r : Z) : sys := sys_of (fed (machine_of r) one_batch).

Lemma shard5_up r : r = 1 \/ r = 2 -> sh_machines shard5 !! r = Some (Up (replica_of r)).
Proof. intros [-> | ->]; unfold replica_of; rewrite <- is_up by (vm_compute; reflexivity); reflexivity. Qed.

Lemma replica_of_applied r : r = 1 \/ r = 2 -> dk_lastApplied (s_kv (replica_of r)) = 2.
Proof. intros [-> | ->]; vm_compute; reflexivity. Qed.

(** What the log of these shards asks for. *)
Definition asked : store := stamp 2 {["a" := "x"]}.

Lemma asked_holds : holds [None; Some put_a] 2 asked.
Proof.
  split; [right; by exists put_a|]. unfold state_after.
  change (batch [None; Some put_a] 0 2) with one_batch.
  rewrite (updateEntries_encode one_batch [CData (mkKVData "a" (Some "x"))] eq_refl). cbn [go_bind fst].
  by rewrite run_flat_map.
Qed.




(** An entry without data. *)
Definition poison : string := MarshalKVAction (mkKVAction PUT None).

