(* ===== verification/Config.v ===== *)
(** * The configuration: what [main] of [roo/roo.go] reads from its file

    One JSON value is decoded into the [Configuration] of
    [roo/typedefs.go]; what follows it in the file is not looked at.  A
    struct is decoded field by field, each from the members that name it,
    in their order.  Fields that no part of the program reads are decoded
    too, since a value of a wrong type in one of them is an error.  The
    parts of the program get what they read of the configuration from
    here. *)
From S2P Require Import Prelude Bytes Utf8 Json Types Permissions Url Proxy Nats Startup.

Definition MEMORY_CHECKER : string := "memory".

(** ** Decoding structs *)

(** Two decoded values, and whether both are free of errors. *)
Definition both {A B} (x : A * bool) (f : A -> B * bool) : B * bool :=
  let '(a, ok) := x in let '(b, ok') := f a in (b, ok && ok').
Notation "'let+' x := a 'in' b" := (both a (fun x => b)) (at level 10, x name, a at level 100, b at level 200).

(** A field, from the members with its name. *)
Definition get_field {F} (name : string) (dec : decoder F) (cur : F) (ms : list (string * json)) : F * bool :=
  foldl (fun '(x, ok) '(_, v) => let '(x', ok') := dec x v in (x', ok && ok'))
    (cur, true) (filter (fun m => field_is name m.1 = true) ms).

(** A field whose value nobody reads. *)
Definition unread {F} (name : string) (dec : decoder F) (zero : F) (ms : list (string * json)) : unit * bool :=
  (tt, (get_field name dec zero ms).2).

Definition struct_of {T} (build : list (string * json) -> T -> T * bool) : decoder T := fun cur j =>
  match j with
  | JNull => (cur, true)
  | JObj ms => build ms cur
  | _ => (cur, false)
  end.

(** A slice of values, nil being the empty one. *)
Definition dec_list {T} (zero : T) (dec : decoder T) : decoder (list T) := fun cur j =>
  let '(l, ok) := dec_slice zero dec (Some cur) j in (default [] l, ok).

(** Functions and interfaces take nothing but [null]; a struct without
    exported fields takes any object. *)
Definition dec_none : decoder unit := fun _ j => (tt, match j with JNull => true | _ => false end).
Definition dec_closed : decoder unit := struct_of (fun _ _ => (tt, true)).

(** All of several unread fields. *)
Fixpoint unread_all (l : list (list (string * json) -> unit * bool)) (ms : list (string * json)) : unit * bool :=
  match l with
  | [] => (tt, true)
  | f :: l => let+ _ := f ms in unread_all l ms
  end.

Abbreviation str name := (unread name dec_string "").
Abbreviation int name := (unread name dec_int64 0).
Abbreviation boolean name := (unread name dec_bool false).

(** ** The structs *)

Definition dec_Field : decoder unit := struct_of (fun ms _ => unread_all [str "Type"; str "Id"; str "Default"] ms).
Definition dec_Query : decoder unit := struct_of (fun ms _ =>
  unread_all [str "Statement"; str "QueryType"; unread "Fields" (dec_list tt dec_Field) []] ms).

Definition zeroFilter : Filter := mkFilter "" "" "".
Definition dec_Filter : decoder Filter := struct_of (fun ms cur =>
  let+ ty := get_field "Type" dec_string (f_Type cur) ms in
  let+ al := get_field "Alias" dec_string (f_Alias cur) ms in
  let+ id := get_field "Id" dec_string (f_Id cur) ms in
  let+ _ := unread "Queries" (dec_list tt dec_Query) [] ms in
  (mkFilter ty al id, true)).

Definition zeroService : Service := mkService "" [] "" "" "" false false "" [] None.
Definition dec_Service : decoder Service := struct_of (fun ms cur =>
  let+ service := get_field "Service" dec_string (sv_Service cur) ms in
  let+ hosts := get_field "Hosts" (dec_list "" dec_string) (sv_Hosts cur) ms in
  let+ cacert := get_field "CACert" dec_string (sv_CACert cur) ms in
  let+ cert := get_field "Cert" dec_string (sv_Cert cur) ms in
  let+ key := get_field "Key" dec_string (sv_Key cur) ms in
  let+ secure := get_field "Secure" dec_bool (sv_Secure cur) ms in
  let+ critical := get_field "Critical" dec_bool (sv_Critical cur) ms in
  let+ context := get_field "Context" dec_string (sv_Context cur) ms in
  let+ filter := get_field "Filter" (dec_list zeroFilter dec_Filter) (sv_Filter cur) ms in
  let+ _ := unread_all [boolean "Retry"; str "Format"; int "MessageLimit"; int "ByteLimit"; int "Timeout";
    int "Connections"; boolean "Consumer"; boolean "Ephemeral"; str "Note"; unread "Session" dec_none tt;
    int "Instantiated"; int "Started"] ms in
  (mkService service hosts cacert cert key secure critical context filter None, true)).

(** [Service] is a pointer. *)
Record Cluster := mkCluster {
  cl_Service : option Service; cl_DNS : string; cl_Resolver : string; cl_BootstrapHosts : bool;
  cl_Binding : string; cl_ReplicaID : Z; cl_ShardID : Z; cl_StartDelaySeconds : Z }.

Definition zeroCluster : Cluster := mkCluster None "" "" false "" 0 0 0.
Definition dec_Cluster : decoder Cluster := struct_of (fun ms cur =>
  let+ service := get_field "Service" (dec_ptr zeroService dec_Service) (cl_Service cur) ms in
  let+ dns := get_field "DNS" dec_string (cl_DNS cur) ms in
  let+ resolver := get_field "Resolver" dec_string (cl_Resolver cur) ms in
  let+ hosts := get_field "BootstrapHosts" dec_bool (cl_BootstrapHosts cur) ms in
  let+ binding := get_field "Binding" dec_string (cl_Binding cur) ms in
  let+ replica := get_field "ReplicaID" dec_uint64 (cl_ReplicaID cur) ms in
  let+ shard := get_field "ShardID" dec_uint64 (cl_ShardID cur) ms in
  let+ delay := get_field "StartDelaySeconds" dec_int64 (cl_StartDelaySeconds cur) ms in
  (mkCluster service dns resolver hosts binding replica shard delay, true)).

(** [Proxies] is a map of structs. *)
Definition dec_map {T} (zero : T) (dec : decoder T) : decoder unit := fun _ j =>
  match j with
  | JNull => (tt, true)
  | JObj ms => (tt, forallb (fun '(_, v) => (dec zero v).2) ms)
  | _ => (tt, false)
  end.
Abbreviation pointer dec := (dec_ptr tt dec).
Definition dec_Route : decoder unit := struct_of (fun ms _ =>
  unread_all [str "OriginScheme"; str "OriginHost"; str "OriginPort"; str "DestinationScheme";
    str "DestinationHost"; str "DestinationPort"] ms).
Definition dec_ReverseProxy : decoder unit := struct_of (fun ms _ =>
  unread_all [unread "Rewrite" dec_none tt; unread "Director" dec_none tt; unread "Transport" dec_none tt;
    int "FlushInterval"; unread "ErrorLog" (pointer dec_closed) None; unread "BufferPool" dec_none tt;
    unread "ModifyResponse" dec_none tt; unread "ErrorHandler" dec_none tt] ms).
Definition dec_RooProxy : decoder unit := struct_of (fun ms _ =>
  unread_all [unread "Route" (pointer dec_Route) None; unread "Proxy" (pointer dec_ReverseProxy) None] ms).

Record config := mkConfig {
  cf_ApiVersion : Z; cf_DataDirectoryRoot : string; cf_AuthorizeSubpaths : bool; cf_AcmeStaging : bool;
  cf_Tests : list string; cf_Swarm : bool; cf_SwarmRefreshSeconds : Z; cf_CheckHostnames : bool;
  cf_Cluster : Cluster; cf_Notify : list Service; cf_Consume : list Service; cf_IgnoreProxyOptions : bool;
  cf_PermissionCheckExact : bool; cf_ProxyForceJson : bool; cf_ProxyDailyLimit : Z;
  cf_ProxyDailyLimitChecker : string; cf_Debug : bool; cf_AllowOrigin : string; cf_LogDB : string;
  cf_MaximumConnections : Z; cf_ReadTimeoutSeconds : Z; cf_CacheSeconds : Z;
  cf_ReadHeaderTimeoutSeconds : Z; cf_WriteTimeoutSeconds : Z; cf_IdleTimeoutSeconds : Z;
  cf_MaxHeaderBytes : Z }.

(** The caches have types of another package without exported fields. *)
Definition dec_config : decoder config := struct_of (fun ms cur =>
  let+ api := get_field "ApiVersion" dec_int64 (cf_ApiVersion cur) ms in
  let+ root := get_field "DataDirectoryRoot" dec_string (cf_DataDirectoryRoot cur) ms in
  let+ subpaths := get_field "AuthorizeSubpaths" dec_bool (cf_AuthorizeSubpaths cur) ms in
  let+ staging := get_field "AcmeStaging" dec_bool (cf_AcmeStaging cur) ms in
  let+ tests := get_field "Tests" (dec_list "" dec_string) (cf_Tests cur) ms in
  let+ swarm := get_field "Swarm" dec_bool (cf_Swarm cur) ms in
  let+ refresh := get_field "SwarmRefreshSeconds" dec_int64 (cf_SwarmRefreshSeconds cur) ms in
  let+ hostnames := get_field "CheckHostnames" dec_bool (cf_CheckHostnames cur) ms in
  let+ cluster := get_field "Cluster" dec_Cluster (cf_Cluster cur) ms in
  let+ notify := get_field "Notify" (dec_list zeroService dec_Service) (cf_Notify cur) ms in
  let+ consume := get_field "Consume" (dec_list zeroService dec_Service) (cf_Consume cur) ms in
  let+ options := get_field "IgnoreProxyOptions" dec_bool (cf_IgnoreProxyOptions cur) ms in
  let+ exact := get_field "PermissionCheckExact" dec_bool (cf_PermissionCheckExact cur) ms in
  let+ force := get_field "ProxyForceJson" dec_bool (cf_ProxyForceJson cur) ms in
  let+ limit := get_field "ProxyDailyLimit" dec_uint64 (cf_ProxyDailyLimit cur) ms in
  let+ checker := get_field "ProxyDailyLimitChecker" dec_string (cf_ProxyDailyLimitChecker cur) ms in
  let+ debug := get_field "Debug" dec_bool (cf_Debug cur) ms in
  let+ origin := get_field "AllowOrigin" dec_string (cf_AllowOrigin cur) ms in
  let+ logdb := get_field "LogDB" dec_string (cf_LogDB cur) ms in
  let+ connections := get_field "MaximumConnections" dec_int64 (cf_MaximumConnections cur) ms in
  let+ rd := get_field "ReadTimeoutSeconds" dec_int64 (cf_ReadTimeoutSeconds cur) ms in
  let+ cached := get_field "CacheSeconds" dec_int64 (cf_CacheSeconds cur) ms in
  let+ header := get_field "ReadHeaderTimeoutSeconds" dec_int64 (cf_ReadHeaderTimeoutSeconds cur) ms in
  let+ wr := get_field "WriteTimeoutSeconds" dec_int64 (cf_WriteTimeoutSeconds cur) ms in
  let+ idle := get_field "IdleTimeoutSeconds" dec_int64 (cf_IdleTimeoutSeconds cur) ms in
  let+ bytes := get_field "MaxHeaderBytes" dec_int64 (cf_MaxHeaderBytes cur) ms in
  let+ _ := unread_all [int "SchemaVersion"; str "ApiVersionString"; unread "TestMutex" dec_closed tt;
    str "SwarmRole"; unread "HostCache" (pointer dec_closed) None; str "ClusterDNS";
    unread "API" (dec_ptr zeroService dec_Service) None; boolean "IgnoreInsecureTLS"; str "ProxyUrlFilter";
    unread "ProxyDailyLimitCheck" dec_none tt; unread "ProxyCache" (pointer dec_closed) None;
    unread "Proxies" (dec_map tt dec_RooProxy) tt; unread "ProxySharedBufferPool" dec_none tt;
    str "UrlFilter"; int "UrlFilterMatchGroup"; boolean "IsUrlFiltered"; str "DefaultRedirect";
    str "IgnoreQueryParamsKey"; str "AccountHashMixer"] ms in
  (mkConfig api root subpaths staging tests swarm refresh hostnames cluster notify consume options exact
     force limit checker debug origin logdb connections rd cached header wr idle bytes, true)).

Definition zeroConfig : config :=
  mkConfig 0 "" false false [] false 0 false zeroCluster [] [] false false false 0 "" false "" "" 0 0 0 0 0 0 0.

(** ** The file *)

(** [decoder.Decode]: the first value of the text. *)
Definition Decode (text : string) : option json :=
  fst <$> value (2 * String.length text + 2) 0 text.

Definition configFile (args : list string) : string :=
  match args with _ :: f :: _ => f | _ => "config.json" end.

(** The configuration, unless the file is missing or has errors. *)
Definition loadConfig (read : string -> option string) (args : list string) : option config :=
  text ← read (configFile args);
  j ← Decode text;
  match dec_config zeroConfig j with
  | (c, true) => Some c
  | _ => None
  end.

(** ** What the parts of the program get *)

Definition start_of (c : config) (s : Service) : Configuration :=
  let k := cf_Cluster c in
  mkConfiguration (cf_ApiVersion c) "" (cf_AllowOrigin c) (cf_SwarmRefreshSeconds c) (cl_DNS k) (cl_Resolver k)
    (cl_BootstrapHosts k) (cl_StartDelaySeconds k) (sv_Hosts s) (cf_MaximumConnections c) (cf_AcmeStaging c).

(** [binding] is the address the node has chosen. *)
Definition app_of (c : config) (conf : Configuration) (binding : string) : AppConfig :=
  mkAppConfig (cf_CacheSeconds c) (cf_AuthorizeSubpaths c) (cf_PermissionCheckExact c)
    (cl_ShardID (cf_Cluster c)) binding (c_AllowOrigin conf).

Definition proxy_of (c : config) : proxy_config :=
  mkProxyConfig (cf_IgnoreProxyOptions c) (cf_ProxyForceJson c) (cf_ProxyDailyLimit c)
    (bool_decide (cf_ProxyDailyLimitChecker c = MEMORY_CHECKER)).

(** ** The log *)

Inductive level := LevelDebug | LevelInfo | LevelError.

(** The levels that are set, one after the other, and whether the output of
    the package [log] is discarded. *)
Definition logLevels (c : config) : list (string * level) * bool :=
  let quiet := map (fun l => (l, LevelError)) ["logdb"; "raftpb"; "raft"; "rsm"; "transport"; "grpc"; "dragonboat"]
    ++ [("roo", LevelInfo); ("config", LevelError)] in
  let loud := map (fun l => (l, LevelDebug)) ["raft"; "rsm"; "transport"; "grpc"; "dragonboat"; "roo"; "config"] in
  let tested := (0 <? length (cf_Tests c))%nat in
  ((if cf_Debug c then loud else quiet) ++
   (if cf_Debug c || tested then [("roo", LevelDebug)] else []) ++
   (if tested then [("tests", LevelDebug)] else []), negb (cf_Debug c)).

(** ** The server of the proxy *)

Record server := mkServer {
  Addr : string; ReadTimeout : Z; ReadHeaderTimeout : Z; WriteTimeout : Z; IdleTimeout : Z;
  MaxHeaderBytes : Z; PreferServerCipherSuites : bool; CipherSuites : list Z }.

(** The numbers that [crypto/tls] gives to the suites that are allowed. *)
Definition TLS_ECDHE_ECDSA_WITH_CHACHA20_POLY1305 : Z := 0xcca9.
Definition TLS_ECDHE_ECDSA_WITH_AES_128_GCM_SHA256 : Z := 0xc02b.
Definition TLS_ECDHE_ECDSA_WITH_AES_256_GCM_SHA384 : Z := 0xc02c.
Definition TLS_ECDHE_RSA_WITH_AES_128_GCM_SHA256 : Z := 0xc02f.
Definition TLS_ECDHE_ECDSA_WITH_AES_128_CBC_SHA : Z := 0xc009.

(** [time.Duration(n) * time.Second] *)
Definition seconds (n : Z) : Z := mul64 n (10 ^ 9).

Definition server_of (c : config) (binding : string) : server :=
  mkServer (binding +:+ ":https") (seconds (cf_ReadTimeoutSeconds c)) (seconds (cf_ReadHeaderTimeoutSeconds c))
    (seconds (cf_WriteTimeoutSeconds c)) (seconds (cf_IdleTimeoutSeconds c)) (cf_MaxHeaderBytes c) true
    [TLS_ECDHE_ECDSA_WITH_CHACHA20_POLY1305; TLS_ECDHE_ECDSA_WITH_AES_128_GCM_SHA256;
     TLS_ECDHE_ECDSA_WITH_AES_256_GCM_SHA384; TLS_ECDHE_RSA_WITH_AES_128_GCM_SHA256;
     TLS_ECDHE_ECDSA_WITH_AES_128_CBC_SHA].
