(* ===== verification/ConfigSpec.v ===== *)
(** * The configuration: what can be in it and which keys count *)
From S2P Require Import Prelude Bytes Utf8 Json Types Permissions Nats Startup Proxy Config.

(** ** Fields *)

Lemma both_fst {A B} (x : A * bool) (f : A -> B * bool) : (both x f).1 = (f x.1).1.
Proof. destruct x as [a ok]. unfold both. simpl. by destruct (f a). Qed.

Lemma both_ext {A B} (x y : A * bool) (f g : A -> B * bool) :
  x = y -> (forall a, f a = g a) -> both x f = both y g.
Proof. intros -> E. unfold both. destruct y as [a ok]. by rewrite E. Qed.

Lemma get_field_keeps {F} (P : F -> Prop) name (dec : decoder F) cur ms :
  (forall t j, P t -> P (dec t j).1) -> P cur -> P (get_field name dec cur ms).1.
Proof.
  intros Hd. unfold get_field.
  generalize (filter (fun m => field_is name m.1 = true) ms) as l. intros l. generalize true as ok.
  revert cur. induction l as [|[k v] l IH]; intros cur ok Hc; cbn [foldl]; [done|].
  specialize (Hd cur v Hc). destruct (dec cur v) as [x ok']. by apply IH.
Qed.

(** Members with other names do not matter to a field. *)
Lemma filter_known keys name (ms : list (string * json)) :
  name ∈ keys ->
  filter (fun m => field_is name m.1 = true)
    (filter (fun m => existsb (fun key => field_is key m.1) keys = true) ms) =
  filter (fun m => field_is name m.1 = true) ms.
Proof.
  intros Hn. rewrite list_filter_filter. apply list_filter_iff. intros [k v]. cbn [fst]. split; [by intros []|].
  intros E. split; [done|]. apply existsb_exists. exists name. split; [by apply list_elem_of_In|done].
Qed.

Section Known.
Context (keys : list string).
Abbreviation known ms := (filter (fun m => existsb (fun key => field_is key m.1) keys = true) ms).

Lemma get_field_known {F} name (dec : decoder F) cur ms :
  name ∈ keys -> get_field name dec cur (known ms) = get_field name dec cur ms.
Proof. intros Hn. unfold get_field. by rewrite filter_known. Qed.

Lemma unread_known {F} name (dec : decoder F) zero ms :
  name ∈ keys -> unread name dec zero (known ms) = unread name dec zero ms.
Proof. intros Hn. unfold unread. by rewrite get_field_known. Qed.

Lemma unread_all_known l ms :
  Forall (fun f => f (known ms) = f ms) l -> unread_all l (known ms) = unread_all l ms.
Proof. induction 1 as [|f l E _ IH]; [done|]. cbn [unread_all]. by rewrite E, IH. Qed.
End Known.

(** ** Keys *)

(** The names of the fields of [Configuration]. *)
Definition config_keys : list string :=
  ["SchemaVersion"; "ApiVersion"; "ApiVersionString"; "DataDirectoryRoot"; "AuthorizeSubpaths"; "AcmeStaging";
   "Tests"; "TestMutex"; "Swarm"; "SwarmRefreshSeconds"; "SwarmRole"; "CheckHostnames"; "HostCache"; "Cluster";
   "ClusterDNS"; "Notify"; "Consume"; "API"; "IgnoreInsecureTLS"; "ProxyUrlFilter"; "IgnoreProxyOptions";
   "PermissionCheckExact"; "ProxyForceJson"; "ProxyDailyLimit"; "ProxyDailyLimitChecker"; "ProxyDailyLimitCheck";
   "ProxyCache"; "Proxies"; "ProxySharedBufferPool"; "Debug"; "UrlFilter"; "UrlFilterMatchGroup"; "AllowOrigin";
   "LogDB"; "IsUrlFiltered"; "MaximumConnections"; "ReadTimeoutSeconds"; "CacheSeconds";
   "ReadHeaderTimeoutSeconds"; "WriteTimeoutSeconds"; "IdleTimeoutSeconds"; "MaxHeaderBytes"; "DefaultRedirect";
   "IgnoreQueryParamsKey"; "AccountHashMixer"].

Definition known_members (ms : list (string * json)) : list (string * json) :=
  filter (fun m => existsb (fun key => field_is key m.1) config_keys = true) ms.

Ltac is_key := apply (bool_decide_unpack _); vm_compute; exact I.

Lemma dec_config_known cur ms : dec_config cur (JObj (known_members ms)) = dec_config cur (JObj ms).
Proof.
  unfold dec_config, struct_of, known_members.
  repeat (apply both_ext; [first
    [ apply get_field_known; is_key
    | apply unread_all_known; repeat (apply Forall_cons; split; [apply unread_known; is_key|]); constructor ]
    |intros ?]). reflexivity.
Qed.

(** The keys that count are the names of the fields, in any spelling of
    case: two files whose objects agree on those members load the same
    configuration, or are both refused, whatever other keys they have; a
    key that names no field is not an error. *)
Theorem config_keys_decide read1 read2 args1 args2 text1 text2 ms1 ms2 :
  read1 (configFile args1) = Some text1 -> read2 (configFile args2) = Some text2 ->
  Decode text1 = Some (JObj ms1) -> Decode text2 = Some (JObj ms2) ->
  known_members ms1 = known_members ms2 -> loadConfig read1 args1 = loadConfig read2 args2.
Proof.
  intros E1 E2 D1 D2 K. unfold loadConfig. rewrite E1, E2. cbn [mbind option_bind]. rewrite D1, D2.
  cbn [mbind option_bind]. by rewrite <- (dec_config_known _ ms1), <- (dec_config_known _ ms2), K.
Qed.

(** ** Numbers *)

Definition int64 (z : Z) : Prop := - 2 ^ 63 <= z < 2 ^ 63.
Definition uint64 (z : Z) : Prop := 0 <= z < 2 ^ 64.

Lemma dec_int_keeps lo hi t j : lo <= t <= hi -> lo <= (dec_int lo hi t j).1 <= hi.
Proof.
  intros Ht. destruct j as [| |lit| | |]; try done. cbn [dec_int]. unfold parse_int.
  destruct (match lit with "" => None | _ => _ end) as [z|]; cbn [mbind option_bind]; [|done].
  destruct (in_range lo hi z) eqn:E; [|done]. unfold in_range in E. simpl. lia.
Qed.

Lemma get_int64 name cur ms : int64 cur -> int64 (get_field name dec_int64 cur ms).1.
Proof.
  apply get_field_keeps. intros t j Ht. unfold int64 in *.
  pose proof (dec_int_keeps (- 2 ^ 63) (2 ^ 63 - 1) t j) as K. unfold dec_int64. lia.
Qed.
Lemma get_uint64 name cur ms : uint64 cur -> uint64 (get_field name dec_uint64 cur ms).1.
Proof.
  apply get_field_keeps. intros t j Ht. unfold uint64 in *.
  pose proof (dec_int_keeps 0 (2 ^ 64 - 1) t j) as K. unfold dec_uint64. lia.
Qed.

Definition Cluster_ok (k : Cluster) : Prop :=
  uint64 (cl_ReplicaID k) /\ uint64 (cl_ShardID k) /\ int64 (cl_StartDelaySeconds k).

Definition config_ok (c : config) : Prop :=
  int64 (cf_ApiVersion c) /\ int64 (cf_SwarmRefreshSeconds c) /\ Cluster_ok (cf_Cluster c) /\
  uint64 (cf_ProxyDailyLimit c) /\ int64 (cf_MaximumConnections c) /\ int64 (cf_ReadTimeoutSeconds c) /\
  int64 (cf_CacheSeconds c) /\ int64 (cf_ReadHeaderTimeoutSeconds c) /\ int64 (cf_WriteTimeoutSeconds c) /\
  int64 (cf_IdleTimeoutSeconds c) /\ int64 (cf_MaxHeaderBytes c).

Lemma dec_Cluster_ok k j : Cluster_ok k -> Cluster_ok (dec_Cluster k j).1.
Proof.
  intros (H1 & H2 & H3). destruct j; try done. unfold dec_Cluster, struct_of. rewrite !both_fst.
  split_and!; by (apply get_uint64 || apply get_int64).
Qed.

Lemma dec_config_ok c j : config_ok c -> config_ok (dec_config c j).1.
Proof.
  intros (? & ? & Hk & ? & ? & ? & ? & ? & ? & ? & ?). destruct j; try done. unfold dec_config, struct_of.
  rewrite !both_fst. repeat split;
    first [by apply get_int64 | by apply get_uint64 | apply (get_field_keeps Cluster_ok); [apply dec_Cluster_ok|done]].
Qed.

Lemma seconds_exact n : Z.abs n <= 9223372036 -> seconds n = n * 10 ^ 9.
Proof. intros Hn. unfold seconds, mul64. rewrite Z.mod_small by lia. lia. Qed.

Lemma seconds_int64 n : int64 (seconds n).
Proof.
  unfold seconds, mul64, int64. pose proof (Z.mod_pos_bound (n * 10 ^ 9 + 2 ^ 63) (2 ^ 64) ltac:(lia)). lia.
Qed.


(** ** A file at work *)

(** Texts with apostrophes for quotes. *)
Fixpoint quoted (s : string) : string :=
  match s with
  | "" => ""
  | String c s => String (if decide (c = "'"%char) then z2b 34 else c) (quoted s)
  end.

Definition one_file (text f : string) : option string :=
  if decide (f = "config.json") then Some (quoted text) else None.

(** A misspelt key, one in another case, and text after the object. *)
Lemma config_keys_decide_witness :
  loadConfig (one_file "{'Debugg': 3, 'apiversion': 1} garbage") ["roo"] =
  loadConfig (one_file "{'apiversion': 1}") ["roo"].
Proof.
  refine (config_keys_decide (one_file "{'Debugg': 3, 'apiversion': 1} garbage") (one_file "{'apiversion': 1}")
    ["roo"] ["roo"] (quoted "{'Debugg': 3, 'apiversion': 1} garbage") (quoted "{'apiversion': 1}")
    [("Debugg", JNum "3"); ("apiversion", JNum "1")] [("apiversion", JNum "1")] _ _ _ _ _).
  - reflexivity.
  - reflexivity.
  - vm_compute. reflexivity.
  - vm_compute. reflexivity.
  - vm_compute. reflexivity.
Defined.

