(* ===== verification/Main.v ===== *)
(** * The process: [main] of [roo/roo.go]

    The file ([Config]); delay and peers ([Startup]); the API begins to
    listen; the cluster is found and its replica started ([Bootstrap]); the
    NATS services are loaded ([Nats]); then the proxy listens.  The result
    is what a process holds once all its listeners run. *)
From S2P Require Import Prelude Bytes Utf8 Json Types Pebble DiskKV NodeHost Permissions.
From S2P Require Import KvService Routes Http Serve Net FileSystem Bootstrap Nats Startup Proxy.
From S2P Require Import Config.

Definition SERVICE_TYPE_KV : string := "kv".

(** What [connect] reads, with [Instantiated] set to the time. *)
Definition node_of (c : config) (conf : Configuration) (now : Z) : node_config :=
  let k := cf_Cluster c in
  mkNodeConfig (cl_Binding k) (c_Hosts conf) (cl_ShardID k) (cf_DataDirectoryRoot c) (cf_LogDB c)
    (c_ApiVersionString conf) now (cf_Swarm c).

(** The address the API listens on: before the binding is chosen. *)
Definition apiEndpoint (c : config) : string := cl_Binding (cf_Cluster c) +:+ API_PORT.

(** The node that [connect] has started. *)
Record node_started := mkNodeStarted { ns_Binding : string; ns_ReplicaID : Z; ns_running : bool }.

(** What goes on in the background: the removal of expired cache entries
    every thirty seconds, and the self tests that have been asked for. *)
Inductive job := JobPrune | JobTestKV | JobTestPermissions.

Definition testJobs (c : config) : list job :=
  (if Contains (cf_Tests c) "kv" then [JobTestKV] else []) ++
  (if Contains (cf_Tests c) "perms" then [JobTestPermissions] else []).

(** The listeners: of the API, of the redirection from HTTP, and the proxy. *)
Inductive listener :=
  | LApi (endpoint : string)
  | LRedirect (endpoint : string)
  | LProxy (s : server).

Class Listeners (W : Type) := { Listen : listener -> io W unit }.

(** A process whose listeners run. *)
Record process := mkProcess {
  ps_config : Configuration; ps_log : list (string * level) * bool; ps_slept : Z; ps_tokens : nat;
  ps_node : node_started; ps_jobs : list job; ps_Notify : list Service; ps_Consume : list Service;
  ps_app : AppConfig; ps_proxy : proxy_config; ps_server : server; ps_acme : string }.

Section Main.
Context {W : Type} `{HttpClient W, RaftHost W, Resolver W, Nats W, Listeners W}
  (Getenv : string -> string).

(** A listener in a goroutine of its own: its error is dropped. *)
Definition goListen (l : listener) : io W unit :=
  let* _ := try (Listen l) in
  ret tt.

(** The cluster: an error of [connect] ends the process if the service is
    critical and is printed otherwise. *)
Definition loadCluster (fuel : nat) (c : config) (s : Service) (conf : Configuration)
    (interfaces : go (list IP)) (rnd now : Z) : io W (option node_started * list job) :=
  if decide (sv_Service s = SERVICE_TYPE_KV) then
    let* r := try (connect (node_of c conf now) fuel interfaces rnd) in
    match r with
    | inr (binding, replica, running) =>
        ret (Some (mkNodeStarted binding replica running), JobPrune :: testJobs c)
    | inl _ => if sv_Critical s then exit1 else ret (None, [JobPrune])
    end
  else panic "[ERROR] Cluster not implemented".

(** From the configuration to the replica.  Without a service the hosts
    found have no place to go. *)
Definition boot_process (fuel : nat) (c : config) (interfaces : go (list IP)) (rnd now : Z)
    : io W (Configuration * Z * nat * option node_started * list job) :=
  match cl_Service (cf_Cluster c) with
  | None =>
      let '(conf, _) := fixedDelay Getenv (overrides Getenv (start_of c zeroService)) in
      let* _ := bootstrapHosts conf in
      panic "nil pointer dereference"
  | Some s =>
      let* '(conf, slept, connc) := start Getenv (start_of c s) in
      let* _ := goListen (LApi (apiEndpoint c)) in
      let* '(node, jobs) := loadCluster fuel c s conf interfaces rnd now in
      ret (conf, slept, connc, node, jobs)
  end.

(** [main]: without a session the cache of certificates is a failed type
    assertion. *)
Definition main (fuel : nat) (read : string -> option string) (args : list string)
    (interfaces : go (list IP)) (rnd now : Z) : io W process :=
  match loadConfig read args with
  | None => exit1
  | Some c =>
      let* '(conf, slept, connc, node, jobs) := boot_process fuel c interfaces rnd now in
      let* Notify := loadNotifiers (cf_Notify c) in
      let* Consume := loadConsumers (cf_Consume c) in
      match node with
      | None => panic "interface conversion: interface is nil"
      | Some n =>
          let srv := server_of c (ns_Binding n) in
          let* _ := goListen (LRedirect (ns_Binding n +:+ ":http")) in
          let* r := try (Listen (LProxy srv)) in
          match r with
          | inl _ => exit1
          | inr _ =>
              ret (mkProcess conf (logLevels c) slept connc n jobs Notify Consume
                (app_of c conf (ns_Binding n)) (proxy_of c) srv (acmeURL Getenv conf))
          end
      end
  end.
End Main.
