(* ===== verification/MainSpec.v ===== *)
(** * The process: what its start does

    The composition of the start, the search for the cluster and the start
    of the replica, over a machine whose name service and network are
    given, and that records the calls of dragonboat and the listeners. *)
From S2P Require Import Prelude Bytes Utf8 Json Types Pebble DiskKV NodeHost Permissions.
From S2P Require Import KvService Routes Http Serve Net NetSpec FileSystem Bootstrap.
From S2P Require Import BootstrapSpec FoundingSpec.
From S2P Require Import Nats Startup Proxy Config ConfigSpec Main.

(** ** The machine *)

Inductive host_call :=
  | CNewNodeHost (dir address : string) (tan : bool)
  | CStartReplica (members : gmap Z string) (join : bool) (rc : raft_config)
  | CListen (l : listener).

Record host := mkHost { ho_network : network; ho_calls : list host_call }.

Definition called (x : host_call) (w : host) : host := mkHost (ho_network w) (ho_calls w ++ [x]).

#[export] Instance host_HttpClient : HttpClient host := {
  HttpDo m u b := fun w => ([], (w, ho_network w m u b)) }.
#[export] Instance host_RaftHost : RaftHost host := {
  NewNodeHost dir address tan := modify (called (CNewNodeHost dir address tan));
  StartOnDiskReplica members join rc := modify (called (CStartReplica members join rc)) }.

#[export] Instance host_Listeners : Listeners host := { Listen l := modify (called (CListen l)) }.

Lemma host_fixed w m u b : run (HttpDo m u b) w = (w, ho_network w m u b).
Proof. done. Qed.

(** ** The choice of the address *)

(** Of the addresses of the machine, one is among the hosts. *)
Lemma chooseBinding_only ips hosts own :
  own <> "" -> own ∈ getIPsString ips -> own ∈ hosts ->
  (forall s, s ∈ getIPsString ips -> s ∈ hosts -> s = own) -> chooseBinding ips "" hosts = own.
Proof.
  intros Hne Hin Ho Hu. unfold chooseBinding.
  assert ((if Contains (getIPsString ips) "" then "" else "") = "") as ->
    by (by destruct (Contains _ _)).
  rewrite decide_True by done.
  assert (forall l b, (forall s, s ∈ getIPsString l -> s ∈ hosts -> s = own) ->
    b = own \/ own ∈ getIPsString l ->
    foldl (fun b ip => if Contains hosts (IP_String ip) then IP_String ip else b) b l = own) as K.
  { induction l as [|ip l IH]; intros b Hl Hb; cbn [foldl].
    - destruct Hb as [|Hb]; [done|by apply not_elem_of_nil in Hb].
    - apply IH; [intros s Hs; apply Hl; by apply list_elem_of_further|].
      unfold getIPsString in Hb. cbn [map] in Hb.
      destruct (Contains hosts (IP_String ip)) eqn:E.
      + apply Contains_spec in E. left. apply Hl; [apply list_elem_of_here|done].
      + destruct Hb as [|[Hb|Hb]%elem_of_cons]; [by left| |by right].
        rewrite <- Hb in E. apply Contains_spec in Ho. congruence. }
  apply K; [done|by right].
Qed.

Section Founding.
Context (dns : option string -> string -> go (list string)) (Getenv : string -> string).

#[local] Instance host_Resolver : Resolver host := {
  LookupHost server name := lift (dns server name) }.

(** The server that is asked and the name that is looked up: the ones of
    the environment before those of the file. *)
Definition env_or (variable file : string) : string :=
  if decide (Getenv variable = "") then file else Getenv variable.
Definition lookup_of (c : Configuration) : go (list string) :=
  dns (if decide (env_or ENV_ROO_RESOLVER (c_Resolver c) = "") then None
       else Some (env_or ENV_ROO_RESOLVER (c_Resolver c) +:+ ":53")) (env_or ENV_ROO_DNS (c_DNS c)).

Lemma run_start c hosts (w : host) :
  c_BootstrapHosts c = true -> lookup_of c = Ret hosts -> 0 <= c_MaximumConnections c ->
  exists conf slept, run (start Getenv c) w = (w, Ret (conf, slept, Z.to_nat (c_MaximumConnections c))) /\
    c_Hosts conf = c_Hosts c ++ hosts /\ c_ApiVersionString conf = "v" +:+ Itoa (c_ApiVersion c).
Proof.
  intros Hb Hl Hm. unfold start.
  assert (let '(c', _) := fixedDelay Getenv (overrides Getenv c) in
    c_BootstrapHosts c' = true /\ c_Resolver c' = env_or ENV_ROO_RESOLVER (c_Resolver c) /\
    c_DNS c' = env_or ENV_ROO_DNS (c_DNS c) /\ c_Hosts c' = c_Hosts c /\
    c_MaximumConnections c' = c_MaximumConnections c /\
    c_ApiVersionString c' = "v" +:+ Itoa (c_ApiVersion c)) as K.
  { unfold fixedDelay. set (d := ParseInt _). clearbody d.
    destruct (0 <? d); destruct (negb _ && negb _); try destruct (c_StartDelaySeconds _ =? 0);
      unfold with_delay, overrides; cbn; by rewrite Hb. }
  destruct (fixedDelay Getenv (overrides Getenv c)) as [c' slept].
  destruct K as (K1 & K2 & K3 & K4 & K5 & K6). rewrite run_bind.
  assert (run (bootstrapHosts c') w = (w, Ret hosts)) as ->.
  { unfold bootstrapHosts, lookup_of in *. rewrite K1, K2, K3.
    destruct (decide (env_or ENV_ROO_RESOLVER (c_Resolver c) = ""));
      rewrite run_bind, run_try; cbn [LookupHost host_Resolver]; by rewrite run_lift, Hl. }
  cbv beta iota zeta. rewrite run_bind. cbn [c_MaximumConnections with_hosts]. unfold makeTokens.
  rewrite K5, (proj2 (Z.ltb_ge _ _)), run_lift by done. cbv beta iota zeta. rewrite run_ret.
  eexists _, slept. split; [done|]. cbn [c_Hosts c_ApiVersionString with_hosts]. by rewrite K4, K6.
Qed.

(** [connect] of the oldest of some peers. *)
Lemma run_connect_oldest nc fuel ips rnd own peers (w : host) :
  chooseBinding ips (nc_Binding nc) (nc_Hosts nc) = own -> is_Some (ParseIP own) ->
  peerHosts own (nc_Hosts nc) = map fst peers ->
  Forall (fun '(h, st) => peer_is nc own (ho_network w) h st /\
    nc_Instantiated nc < Instantiated st /\ Started st <= 0) peers ->
  run (connect nc (S fuel) (Ret ips) rnd) w =
  (called (CStartReplica (members_of_peers peers {[newReplicaID rnd := own +:+ KV_PORT]}) false
     (raftConfig nc (newReplicaID rnd)))
   (called (CNewNodeHost (raftDataDir nc (newReplicaID rnd)) (own +:+ KV_PORT)
     (bool_decide (nc_LogDB nc = "tan"))) w), Ret (own, newReplicaID rnd, true)).
Proof.
  intros Hb [ip Hip] Hp Hall. unfold connect. rewrite Hb, Hip, Hp.
  rewrite run_bind, run_try. cbn [NewNodeHost host_RaftHost]. rewrite run_modify. cbv beta iota zeta.
  rewrite run_bind.
  rewrite (run_oldest nc own (newReplicaID rnd) (ho_network w) _
    (host_fixed (called (CNewNodeHost (raftDataDir nc (newReplicaID rnd)) (own +:+ KV_PORT)
      (bool_decide (nc_LogDB nc = "tan"))) w)) peers) by done.
  cbv beta iota zeta. rewrite run_bind. cbn [startReplica negb]. rewrite run_bind, run_try.
  cbn [StartOnDiskReplica host_RaftHost]. by rewrite run_modify.
Qed.

(** A process that founds: from the configuration to the replica. *)
Lemma run_boot_founds c sv fuel ips rnd now own hosts peers (w : host) :
  cl_Service (cf_Cluster c) = Some sv -> sv_Service sv = SERVICE_TYPE_KV -> cl_Binding (cf_Cluster c) = "" ->
  cl_BootstrapHosts (cf_Cluster c) = true -> lookup_of (start_of c sv) = Ret hosts ->
  0 <= cf_MaximumConnections c ->
  own ∈ getIPsString ips -> own ∈ sv_Hosts sv ++ hosts -> is_Some (ParseIP own) ->
  (forall s, s ∈ getIPsString ips -> s ∈ sv_Hosts sv ++ hosts -> s = own) ->
  peerHosts own (sv_Hosts sv ++ hosts) = map fst peers ->
  (forall nc, nc_ApiVersionString nc = "v" +:+ Itoa (cf_ApiVersion c) ->
    Forall (fun '(h, st) => peer_is nc own (ho_network w) h st /\
      now < Instantiated st /\ Started st <= 0) peers) ->
  exists dir rc conf slept,
    run (boot_process Getenv (S fuel) c (Ret ips) rnd now) w =
    (mkHost (ho_network w) (ho_calls w ++
       [CListen (LApi ":6299");
        CNewNodeHost dir (own +:+ ":6300") (bool_decide (cf_LogDB c = "tan"));
        CStartReplica (members_of_peers peers {[rnd + 1 := own +:+ ":6300"]}) false rc]),
     Ret (conf, slept, Z.to_nat (cf_MaximumConnections c),
       Some (mkNodeStarted own (rnd + 1) true), JobPrune :: testJobs c)) /\
    rc_ReplicaID rc = rnd + 1 /\ rc_ShardID rc = cl_ShardID (cf_Cluster c).
Proof.
  intros ES HS HB Hbh Hl Hm Hi Ho Hip Hu Hp Hall.
  destruct (run_start (start_of c sv) hosts w Hbh Hl Hm) as (conf & slept & ER & EH & EV).
  set (nc := node_of c conf now).
  assert (chooseBinding ips (nc_Binding nc) (nc_Hosts nc) = own) as EB.
  { subst nc. cbn [node_of nc_Binding nc_Hosts]. rewrite HB, EH. apply chooseBinding_only; try done.
    intros ->. destruct Hip as [ip Hip]. vm_compute in Hip. discriminate. }
  exists (raftDataDir nc (rnd + 1)), (raftConfig nc (rnd + 1)), conf, slept. split; [|done].
  unfold boot_process. rewrite ES. rewrite run_bind, ER. cbv beta iota zeta.
  unfold goListen. rewrite run_bind, run_bind, run_try. cbn [Listen host_Listeners].
  rewrite run_modify. cbv beta iota zeta. rewrite run_ret. cbv beta iota zeta.
  unfold loadCluster. rewrite decide_True by done. rewrite run_bind, run_bind, run_try. fold nc.
  rewrite (run_connect_oldest nc fuel ips rnd own peers _ EB Hip).
  - unfold called, apiEndpoint. rewrite HB. cbn [ho_network ho_calls]. rewrite <- !app_assoc. reflexivity.
  - subst nc. cbn [node_of nc_Hosts]. by rewrite EH.
  - specialize (Hall nc EV). eapply Forall_impl; [exact Hall|]. by intros [h st].
Qed.

(** C29: what keeps a process from starting: a file that is missing or does
    not decode ends it at once; a configuration without a service for the
    cluster makes it dereference nil after it has looked for its peers;
    a negative number of connections panics; and a service of another kind
    does so too, when the API is already served. *)
Theorem main_refuses read args fuel interfaces rnd now (w : host) `{Nats host} :
  match loadConfig read args with
  | None => run (main Getenv fuel read args interfaces rnd now) w = (w, Panic "os.Exit(1)")
  | Some c =>
      cl_BootstrapHosts (cf_Cluster c) = false ->
      match cl_Service (cf_Cluster c) with
      | None => run (main Getenv fuel read args interfaces rnd now) w = (w, Panic "nil pointer dereference")
      | Some sv =>
          (cf_MaximumConnections c < 0 ->
             run (main Getenv fuel read args interfaces rnd now) w = (w, Panic "makechan: size out of range")) /\
          (0 <= cf_MaximumConnections c -> sv_Service sv <> SERVICE_TYPE_KV ->
             run (main Getenv fuel read args interfaces rnd now) w =
             (called (CListen (LApi (cl_Binding (cf_Cluster c) +:+ ":6299"))) w,
              Panic "[ERROR] Cluster not implemented"))
      end
  end.
Proof.
  unfold main. destruct (loadConfig read args) as [c|]; [|done]. intros Hb.
  assert (forall sv, c_BootstrapHosts (fixedDelay Getenv (overrides Getenv (start_of c sv))).1 = false) as Hf.
  { intros sv. unfold fixedDelay. set (d := ParseInt _). clearbody d.
    destruct (0 <? d); destruct (negb _ && negb _); try destruct (c_StartDelaySeconds _ =? 0); exact Hb. }
  assert (forall sv, c_MaximumConnections (fixedDelay Getenv (overrides Getenv (start_of c sv))).1 =
    cf_MaximumConnections c) as Hc.
  { intros sv. unfold fixedDelay. set (d := ParseInt _). clearbody d.
    destruct (0 <? d); destruct (negb _ && negb _); try destruct (c_StartDelaySeconds _ =? 0); done. }
  unfold boot_process. destruct (cl_Service (cf_Cluster c)) as [sv|].
  - specialize (Hf sv). specialize (Hc sv). unfold start.
    destruct (fixedDelay Getenv (overrides Getenv (start_of c sv))) as [conf slept]. cbn [fst] in Hf, Hc.
    unfold bootstrapHosts. rewrite Hf. rewrite run_bind, run_bind, run_bind, run_ret. cbv beta iota zeta.
    cbn [c_MaximumConnections with_hosts]. rewrite Hc. unfold makeTokens. split; intros Hm.
    + by rewrite (proj2 (Z.ltb_lt _ _) Hm), run_bind, run_lift.
    + rewrite (proj2 (Z.ltb_ge _ _) Hm), run_bind, run_lift. cbv beta iota zeta. rewrite run_ret.
      cbv beta iota zeta. intros Hk. unfold goListen. rewrite run_bind, run_bind, run_try.
      cbn [Listen host_Listeners]. rewrite run_modify. cbv beta iota zeta. rewrite run_ret. cbv beta iota zeta.
      unfold loadCluster. by rewrite decide_False, run_bind by done.
  - specialize (Hf zeroService).
    destruct (fixedDelay Getenv (overrides Getenv (start_of c zeroService))) as [conf slept]. cbn [fst] in Hf.
    unfold bootstrapHosts. by rewrite Hf, run_bind, run_bind.
Qed.
End Founding.


(** ** A process at work *)

(** A configuration as it is shipped with the program; one of its keys names
    no field. *)
Definition shipped : string := quoted (String.concat ", " [
  "{ 'SchemaVersion': 1, 'ApiVersion': 1, 'Swarm': true, 'Tests' : [], 'TestsAll' : ['kv','perms']";
  "'SwarmRefreshSeconds': 30, 'CheckHostnames' : true, 'IgnoreInsecureTLS': true, 'ProxyDailyLimit': 0";
  "'ProxyDailyLimitChecker': 'memory', 'AuthorizeSubpaths' : false, 'IgnoreProxyOptions' : true";
  "'MaximumConnections': 150000, 'ReadTimeoutSeconds': 20, 'ReadHeaderTimeoutSeconds': 20";
  "'ScanDockerSwarmSeconds': 30, 'WriteTimeoutSeconds': 20, 'IdleTimeoutSeconds': 20";
  "'MaxHeaderBytes': 1048576, 'AllowOrigin': '*', 'DefaultRedirect': 'https://sfpl.io', 'Debug': true";
  "'PermissionCheckExact' : false, 'AcmeStaging': false, 'DataDirectoryRoot' : '', 'LogDB': 'pebble'";
  "'CacheSeconds': 86400, 'Cluster': { 'StartDelaySeconds': 0, 'DNS': 'localhost', 'Resolver': ''";
  "'ReplicaID': 1, 'ShardID': 1, 'Binding' : '', 'BootstrapHosts': true, 'Service': { 'Service': 'kv'";
  "'Secure': true, 'Critical': true, 'CACert': './.setup/keys/rootCa.crt'";
  "'Cert': './.setup/keys/nginx.crt', 'Key': './.setup/keys/nginx.key', 'Format': 'json'";
  "'MessageLimit': 65536, 'ByteLimit': 67108864, 'Hosts' : [] } } }"]).

Definition shipped_files (f : string) : option string := if decide (f = "config.json") then Some shipped else None.

(** What is loaded from it. *)
Definition shipped_config : config := default zeroConfig (loadConfig shipped_files ["roo"]).
Definition shipped_service : Service := default zeroService (cl_Service (cf_Cluster shipped_config)).

Lemma shipped_loaded : loadConfig shipped_files ["roo"] = Some shipped_config.
Proof.
  assert (is_Some (loadConfig shipped_files ["roo"])) as [c E] by (eexists; vm_compute; reflexivity).
  unfold shipped_config. by rewrite E.
Qed.

(** The variable of the environment names the network; it has two hosts. *)
Definition sample_env (v : string) : string := if decide (v = ENV_ROO_DNS) then "tasks.roo_roo" else "".
Definition sample_dns (server : option string) (name : string) : go (list string) :=
  if decide (name = "tasks.roo_roo") then Ret ["10.0.0.1"; "10.0.0.2"] else Err (ErrExternal 1).
Definition sample_ips : list IP := omap ParseIP ["127.0.0.1"; "10.0.0.1"].
Definition sample_peer : ClusterStatus := status_of "10.0.0.2" 8 11 0.
Definition sample_host : host := mkHost (shown [("10.0.0.2", sample_peer)]) [].

#[local] Instance no_Nats : Nats host := {
  LoadX509KeyPair _ _ := fail (ErrExternal 1); ReadFile _ := fail ErrNotExist; AppendCertsFromPEM _ := false;
  NatsConnect _ _ := fail (ErrExternal 1); NewEncodedConn _ := fail (ErrExternal 1); NatsClose _ := ret tt;
  Publish _ _ _ := ret tt; QueueSubscribe _ _ _ := ret tt }.


Lemma main_refuses_witness :
  run (main (H1 := host_Resolver sample_dns) sample_env 1 (one_file "{'Cluster': {'DNS': ''}}") ["roo"]
    (Ret sample_ips) 6 10) sample_host = (sample_host, Panic "nil pointer dereference").
Proof.
  pose proof (main_refuses sample_dns sample_env (one_file "{'Cluster': {'DNS': ''}}") ["roo"] 1 (Ret sample_ips) 6 10
    sample_host) as K.
  destruct (loadConfig (one_file "{'Cluster': {'DNS': ''}}") ["roo"]) as [c|] eqn:E; [|vm_compute in E; discriminate E].
  assert (option_map (fun c => (cl_BootstrapHosts (cf_Cluster c), cl_Service (cf_Cluster c))) (Some c) =
    Some (false, None)) as L by (rewrite <- E; vm_compute; reflexivity).
  cbn [option_map] in L. assert (cl_BootstrapHosts (cf_Cluster c) = false) as L1 by congruence.
  assert (cl_Service (cf_Cluster c) = None) as L2 by congruence. specialize (K L1). rewrite L2 in K. exact K.
Defined.
