(* ===== verification/Utils.v ===== *)
(** * What is left of [roo/utils.go]: [sha] and the cleaning of texts

    [crypto/sha1] and the URL alphabet of [encoding/base64] are executable;
    the case of the runes beyond ASCII is a table of the package [unicode]
    and an argument.  [hash], [Contains] and the comparisons of rights are
    in [Bytes] and [Permissions], the addresses in [Net]. *)
From S2P Require Import Prelude Bytes Md5 Utf8.

(** ** [crypto/sha1] *)

Definition state5 : Type := Z * Z * Z * Z * Z.

Definition sha1_init : state5 := (0x67452301, 0xefcdab89, 0x98badcfe, 0x10325476, 0xc3d2e1f0).

(** The text of a word, most significant byte first. *)
Fixpoint put_big (n : nat) (z : Z) : string :=
  match n with
  | O => ""
  | S n => String (z2b (z / 256 ^ Z.of_nat n)) (put_big n z)
  end.

Fixpoint big_val (acc : Z) (s : string) : Z :=
  match s with
  | "" => acc
  | String c s => big_val (256 * acc + b2z c) s
  end.

(** The big-endian words of a 64-byte block. *)
Fixpoint big_words (n : nat) (s : string) : list Z :=
  match n with
  | O => []
  | S n => big_val 0 (stake 4 s) :: big_words n (sdrop 4 s)
  end.

(** The message schedule: [ws] holds the words so far, the last one first. *)
Fixpoint schedule (n : nat) (ws : list Z) : list Z :=
  match n with
  | O => rev ws
  | S n =>
      let x := Z.lxor (Z.lxor (nth 2 ws 0) (nth 7 ws 0)) (Z.lxor (nth 13 ws 0) (nth 15 ws 0)) in
      schedule n (rotl32 x 1 :: ws)
  end.

(** The function and the constant of step [i]. *)
Definition sha1_round (i : nat) (b c d : Z) : Z * Z :=
  match (i / 20)%nat with
  | 0%nat => (Z.lor (Z.land b c) (Z.land (Z.lxor b (2 ^ 32 - 1)) d), 0x5a827999)
  | 1%nat => (Z.lxor b (Z.lxor c d), 0x6ed9eba1)
  | 2%nat => (Z.lor (Z.land b c) (Z.lor (Z.land b d) (Z.land c d)), 0x8f1bbcdc)
  | _ => (Z.lxor b (Z.lxor c d), 0xca62c1d6)
  end.

Definition sha1_step (st : state5) (iw : nat * Z) : state5 :=
  let '(a, b, c, d, e) := st in
  let '(f, k) := sha1_round iw.1 b c d in
  (w32 (rotl32 a 5 + f + e + k + iw.2), a, rotl32 b 30, c, d).

Definition sha1_block (st : state5) (blk : string) : state5 :=
  let ws := schedule 64 (rev (big_words 16 blk)) in
  let '(a, b, c, d, e) := st in
  let '(a', b', c', d', e') := foldl sha1_step st (zip (seq 0 80) ws) in
  (w32 (a + a'), w32 (b + b'), w32 (c + c'), w32 (d + d'), w32 (e + e')).

Fixpoint sha1_blocks (n : nat) (st : state5) (s : string) : state5 :=
  match n with
  | O => st
  | S n => sha1_blocks n (sha1_block st (stake 64 s)) (sdrop 64 s)
  end.

Definition sha1_pad (s : string) : string :=
  let n := Z.of_nat (String.length s) in
  s +:+ String (z2b 128) (zeros (Z.to_nat ((55 - n) mod 64)) +:+ put_big 8 (8 * n)).

Definition sha1_sum (s : string) : string :=
  let p := sha1_pad s in
  let '(a, b, c, d, e) := sha1_blocks (String.length p / 64) sha1_init p in
  put_big 4 a +:+ put_big 4 b +:+ put_big 4 c +:+ put_big 4 d +:+ put_big 4 e.

(** ** [sha] *)

(** The URL alphabet differs from the standard one in two characters. *)
Definition url_char (c : ascii) : ascii :=
  if decide (c = "+"%char) then "-"%char else if decide (c = "/"%char) then "_"%char else c.

Fixpoint url_text (s : string) : string :=
  match s with "" => "" | String c s => String (url_char c) (url_text s) end.

Definition sha (s : string) : string := url_text (Base64.encode (sha1_sum s)).

(** Vectors of RFC 3174 and of the empty text. *)
Example sha_empty : sha "" = "2jmj7l5rSw0yVb_vlWAYkK_YBwk=".
Proof. vm_compute. reflexivity. Qed.
Example sha_abc : sha "abc" = "qZk-NkcGgWq6PiVxeFDCbJzQ2J0=".
Proof. vm_compute. reflexivity. Qed.
Example sha_two_blocks : sha "abcdbcdecdefdefgefghfghighijhijkijkljklmklmnlmnomnopnopq" = "hJg-RBw70m66rkqh-VEp5eVGcPE=".
Proof. vm_compute. reflexivity. Qed.

(** ** [cleanString] *)

Section Clean.
(** [unicode.ToLower] beyond ASCII. *)
Context (lower : Z -> Z).

Definition to_lower (r : Z) : Z :=
  if r <? 128 then (if in_range 65 90 r then r + 32 else r) else lower r.

(** [strings.ToLower]: a byte that is not UTF-8 becomes U+FFFD, unless the
    text is ASCII. *)
Definition ToLower (s : string) : string :=
  utf8_fold (fun _ r acc => encode_rune (to_lower r) +:+ acc) (fun _ acc => replacement +:+ acc) "" s.

(** [cleanString] on the text a pointer leads to. *)
Definition cleanString (s : option string) : option string :=
  match s with
  | Some s => Some (if decide (s = "") then s else ToLower (TrimSpace s))
  | None => None
  end.

(** [cleanInterfaceString] is handed a copy: what its parameter is changed
    to, and what the caller still has. *)
Inductive interface := IString (s : string) | IOther.

Definition cleanInterfaceString (i : interface) : interface * interface :=
  (match i with IString temp => IString (ToLower (TrimSpace temp)) | IOther => IOther end, i).
End Clean.

(** ** Properties *)

Lemma url_text_safe s c : c = "+"%char \/ c = "/"%char -> has_byte c (url_text s) = false.
Proof.
  intros Hc. induction s as [|d s IH]; [done|]. simpl. rewrite IH, orb_false_r. apply bool_decide_eq_false.
  unfold url_char. repeat case_decide; destruct Hc as [->| ->]; congruence.
Qed.

Lemma url_text_length s : String.length (url_text s) = String.length s.
Proof. induction s; simpl; congruence. Qed.

Lemma base64_length s :
  (String.length (Base64.encode s) = 4 * ((String.length s + 2) / 3))%nat.
Proof.
  induction s as [| | |a b c s IH] using Base64.string_ind3; [done..|].
  cbn [Base64.encode String.length]. rewrite IH.
  replace (S (S (S (String.length s))) + 2)%nat with (String.length s + 2 + 1 * 3)%nat by lia.
  rewrite Nat.div_add by done. lia.
Qed.

Lemma put_big_length n z : String.length (put_big n z) = n.
Proof. induction n; simpl; congruence. Qed.

(** What [sha] makes of any text: twenty-eight characters, none of which
    has a meaning in a path or a query. *)
Theorem sha_form s :
  String.length (sha s) = 28%nat /\ has_byte "+" (sha s) = false /\ has_byte "/" (sha s) = false.
Proof.
  unfold sha. split_and!; [|apply url_text_safe; auto..]. rewrite url_text_length, base64_length.
  assert (String.length (sha1_sum s) = 20%nat) as ->; [|done]. unfold sha1_sum.
  destruct (sha1_blocks _ _ _) as [[[[a b] c] d] e]. by rewrite !string_length_app, !put_big_length.
Qed.

Section Cleaning.
Context (lower : Z -> Z).

Definition blank (c : ascii) : bool := is_space (b2z c).
Definition low (c : ascii) : ascii := if in_range 65 90 (b2z c) then z2b (b2z c + 32) else c.

Fixpoint ltrim (l : list ascii) : list ascii :=
  match l with c :: l' => if blank c then ltrim l' else l | [] => [] end.
Definition trim (l : list ascii) : list ascii := rev (ltrim (rev (ltrim l))).

Definition is_ascii (c : ascii) : bool := b2z c <? 128.
Abbreviation chars := String.list_ascii_of_string.
Abbreviation text := String.string_of_list_ascii.

Lemma low_facts c : is_ascii c = true ->
  encode_rune (to_lower lower (b2z c)) = String (low c) "" /\ blank (low c) = blank c /\ low (low c) = low c /\
  is_ascii (low c) = true.
Proof.
  intros Hc. unfold to_lower. unfold is_ascii in Hc. rewrite Hc. revert Hc.
  destruct c as [[] [] [] [] [] [] [] []]; vm_compute; intros; try done.
Qed.

Lemma drop_space_chars l : drop_space (map (fun c => (String c "", blank c)) l) = map (fun c => (String c "", blank c)) (ltrim l).
Proof. induction l as [|c l IH]; [done|]. simpl. by destruct (blank c) eqn:E; simpl; rewrite ?E. Qed.

Lemma spaced_chars l : forallb is_ascii l = true -> spaced (text l) = map (fun c => (String c "", blank c)) l.
Proof.
  induction l as [|c l IH]; [done|]. simpl. intros [Hc Hl]%andb_true_iff. unfold spaced in *. cbn [utf8_fold].
  unfold is_ascii in Hc. rewrite Hc. f_equal. by apply IH.
Qed.

Lemma TrimSpace_chars l : forallb is_ascii l = true -> TrimSpace (text l) = text (trim l).
Proof.
  intros Hl. unfold TrimSpace. rewrite spaced_chars, drop_space_chars, <- map_rev, drop_space_chars, <- map_rev by done.
  unfold trim. induction (rev _) as [|c l' IH]; [done|]. simpl. by rewrite IH.
Qed.

Lemma ToLower_chars l : forallb is_ascii l = true -> ToLower lower (text l) = text (map low l).
Proof.
  induction l as [|c l IH]; [done|]. simpl. intros [Hc Hl]%andb_true_iff. unfold ToLower in *. cbn [utf8_fold].
  destruct (low_facts c Hc) as (E & _). unfold is_ascii in Hc. rewrite Hc, E, IH by done. done.
Qed.

Lemma ltrim_sub l c : c ∈ ltrim l -> c ∈ l.
Proof.
  induction l as [|d l IH]; [done|]. simpl. destruct (blank d); [|done]. intros Hc. right. auto.
Qed.

Lemma trim_ascii l : forallb is_ascii l = true -> forallb is_ascii (trim l) = true.
Proof.
  rewrite !forallb_forall. intros H c Hc. apply H. unfold trim in Hc. rewrite <- in_rev in Hc.
  apply list_elem_of_In, ltrim_sub, list_elem_of_In in Hc. rewrite <- in_rev in Hc.
  by apply list_elem_of_In, ltrim_sub, list_elem_of_In in Hc.
Qed.

Lemma ltrim_low l : forallb is_ascii l = true -> ltrim (map low l) = map low (ltrim l).
Proof.
  induction l as [|c l IH]; [done|]. simpl. intros [Hc Hl]%andb_true_iff.
  destruct (low_facts c Hc) as (_ & -> & _). destruct (blank c); [by apply IH|done].
Qed.

Lemma ltrim_app_last l c : blank c = false -> ltrim (l ++ [c]) = ltrim l ++ [c].
Proof. intros Hc. induction l as [|d l IH]; simpl; [by rewrite Hc|]. by destruct (blank d). Qed.

Lemma ltrim_head l : ltrim l = [] \/ exists c l', ltrim l = c :: l' /\ blank c = false.
Proof.
  induction l as [|c l IH]; [by left|]. simpl. destruct (blank c) eqn:E; [done|]. right. by exists c, l.
Qed.

Lemma ltrim_idem l : ltrim (ltrim l) = ltrim l.
Proof. destruct (ltrim_head l) as [->|(c & l' & -> & E)]; simpl; by rewrite ?E. Qed.

Lemma ltrim_trim l : ltrim (trim l) = trim l.
Proof.
  unfold trim. destruct (ltrim_head l) as [->|(c & l' & -> & E)]; [done|]. simpl.
  rewrite ltrim_app_last, rev_app_distr by done. simpl. by rewrite E.
Qed.

Lemma trim_idem l : trim (trim l) = trim l.
Proof. unfold trim at 1. rewrite ltrim_trim. unfold trim. by rewrite rev_involutive, ltrim_idem. Qed.

Lemma trim_low l : forallb is_ascii l = true -> trim (map low l) = map low (trim l).
Proof.
  intros Hl. unfold trim. rewrite ltrim_low, <- map_rev by done. rewrite ltrim_low, map_rev; [done|].
  apply forallb_forall. intros c Hc. rewrite <- in_rev in Hc. apply list_elem_of_In, ltrim_sub, list_elem_of_In in Hc.
  by apply (proj1 (forallb_forall _ _) Hl).
Qed.

(** Cleaning a text of ASCII takes the space from both ends and makes
    capitals small; doing it again changes nothing. *)
Theorem cleanString_idem s :
  all_ascii s = true -> cleanString lower (cleanString lower (Some s)) = cleanString lower (Some s) /\
  cleanString lower (Some s) = Some (text (map low (trim (chars s)))).
Proof.
  assert (forall l, forallb is_ascii l = true -> cleanString lower (Some (text l)) = Some (text (map low (trim l)))) as K.
  { intros l Hl. unfold cleanString. case_decide as E; [|by rewrite TrimSpace_chars, ToLower_chars by (done || by apply trim_ascii)].
    destruct l; [done|discriminate]. }
  intros Hs. assert (forallb is_ascii (chars s) = true) as Hl.
  { induction s as [|c s IH]; [done|]. cbn in Hs. apply andb_true_iff in Hs as [Hc Hs]. simpl. unfold is_ascii at 1.
    by rewrite Hc, IH. }
  rewrite <- (String.string_of_list_ascii_of_string s) at 1 2 3. rewrite !(K _ Hl). split; [|done].
  pose proof (trim_ascii _ Hl) as Ht. assert (forall l, forallb is_ascii l = true ->
    forallb is_ascii (map low l) = true /\ map low (map low l) = map low l) as KL.
  { induction l as [|c l IH]; [done|]. simpl. intros [Hc Hl']%andb_true_iff.
    destruct (low_facts c Hc) as (_ & _ & -> & ->). destruct (IH Hl') as [-> ->]. done. }
  destruct (KL _ Ht) as [K1 K2]. by rewrite K, trim_low, trim_idem, K2 by done.
Qed.
End Cleaning.

Lemma cleanString_idem_witness :
  cleanString (fun r => r) (cleanString (fun r => r) (Some " Roo ")) = Some "roo".
Proof.
  destruct (cleanString_idem (fun r => r) " Roo " eq_refl) as [E _]. rewrite E. vm_compute. reflexivity.
Defined.
