(* ===== verification/Support.v ===== *)
(** * The buffer pool and the dialer: [roo/bufferpool.go], [roo/network.go]

    [sync.Pool] may hand out any buffer that has been put back, or forget
    it; the choice is an argument.  A connection of the dialer has one
    deadline for all that is ever read from it or written to it. *)
From S2P Require Import Prelude.

(** ** Buffers *)

(** The size of a new buffer: [32*1024]. *)
Definition bufferPoolSize : nat := 32 * 1024.

(** A buffer is its place in memory; the pool holds those that were put
    back, and memory has been used up to [bp_next]. *)
Record bufferPool := mkBufferPool { bp_free : list nat; bp_next : nat }.

Definition newBufferPool : bufferPool := mkBufferPool [] 0.

Definition bp_New (b : bufferPool) : nat * bufferPool := (bp_next b, mkBufferPool (bp_free b) (S (bp_next b))).

(** [Get], where [sync.Pool] chooses the buffer at [pick], or none. *)
Definition bp_Get (pick : option nat) (b : bufferPool) : nat * bufferPool :=
  match pick with
  | Some i =>
      match bp_free b !! i with
      | Some x => (x, mkBufferPool (delete i (bp_free b)) (bp_next b))
      | None => bp_New b
      end
  | None => bp_New b
  end.

Definition bp_Put (x : nat) (b : bufferPool) : bufferPool := mkBufferPool (x :: bp_free b) (bp_next b).

(** ** Connections *)

Record conn := mkConn { cn_deadline : Z }.

(** [TimeoutDialer]: the connection, if it is made in time. *)
Definition TimeoutDialer (cTimeout rwTimeout : Z) (dial : Z -> option Z) (now : Z) : option conn :=
  connected ← dial (now + cTimeout); Some (mkConn (connected + rwTimeout)).

(** Whether a read or a write at a time can succeed. *)
Definition usable (c : conn) (t : Z) : bool := t <? cn_deadline c.

(** ** Who holds what *)

(** The requests of a proxy take buffers and put back what they hold, and
    the collector may empty part of the pool. *)
Inductive pool_step : bufferPool * list nat -> bufferPool * list nat -> Prop :=
  | pool_get b held pick : pool_step (b, held) ((bp_Get pick b).2, (bp_Get pick b).1 :: held)
  | pool_put b held1 x held2 : pool_step (b, held1 ++ x :: held2) (bp_Put x b, held1 ++ held2)
  | pool_collect b held i : pool_step (b, held) (mkBufferPool (delete i (bp_free b)) (bp_next b), held).

Definition pool_inv (s : bufferPool * list nat) : Prop :=
  NoDup (s.2 ++ bp_free s.1) /\ Forall (fun x => (x < bp_next s.1)%nat) (s.2 ++ bp_free s.1).

Lemma pool_inv_sub b held l held' :
  pool_inv (b, held) -> held' ++ l ⊆+ held ++ bp_free b -> pool_inv (mkBufferPool l (bp_next b), held').
Proof.
  intros [Hd Hf] Hs. cbn [fst snd bp_free bp_next] in *. apply submseteq_Permutation in Hs as [k Hk].
  rewrite Hk in Hd, Hf. apply NoDup_app in Hd as [Hd _]. apply Forall_app in Hf as [Hf _]. by split.
Qed.

Lemma pool_inv_new b held : pool_inv (b, held) -> pool_inv ((bp_New b).2, (bp_New b).1 :: held).
Proof.
  intros [Hd Hf]. cbn [fst snd bp_free bp_next] in *. unfold bp_New. split; cbn [fst snd bp_free bp_next app].
  - apply NoDup_cons. split; [|done]. rewrite Forall_forall in Hf. intros K. specialize (Hf _ K). lia.
  - apply Forall_cons. split; [lia|]. eapply Forall_impl; [exact Hf|]. cbn. lia.
Qed.

Lemma pool_step_inv s s' : pool_step s s' -> pool_inv s -> pool_inv s'.
Proof.
  intros [b held pick|b held1 x held2|b held i] I.
  - unfold bp_Get. destruct pick as [i|]; [|by apply pool_inv_new].
    destruct (bp_free b !! i) as [x|] eqn:E; [|by apply pool_inv_new]. cbn [fst snd].
    apply (pool_inv_sub b held); [done|]. cbn [app].
    rewrite (delete_Permutation _ _ _ E) at 2. by rewrite <- Permutation_middle.
  - unfold bp_Put. apply (pool_inv_sub b (held1 ++ x :: held2)); [done|].
    rewrite <- !(assoc_L (++)). by rewrite <- Permutation_middle.
  - apply (pool_inv_sub b held); [done|]. apply submseteq_skips_l, sublist_submseteq, sublist_delete.
Qed.

(** Two requests never hold the same buffer of the pool, and a buffer
    in the pool is held by none, however the pool chooses and forgets, as
    long as a request puts back only what it holds. *)
Theorem pool_exclusive b held :
  rtc pool_step (newBufferPool, []) (b, held) -> NoDup held /\ forall x, x ∈ held -> x ∉ bp_free b.
Proof.
  intros Hs. assert (pool_inv (b, held)) as [Hd _].
  { assert (forall s s', rtc pool_step s s' -> pool_inv s -> pool_inv s') as K.
    { induction 1 as [|s s1 s2 St _ IH]; [done|]. intros I. by eapply IH, pool_step_inv. }
    eapply K; [exact Hs|]. split; constructor. }
  apply NoDup_app in Hd as (H1 & H2 & _). by split.
Qed.

Lemma pool_exclusive_witness :
  NoDup [1%nat; 0%nat] /\ forall x, x ∈ [1%nat; 0%nat] -> x ∉ ([] : list nat).
Proof.
  apply (pool_exclusive (mkBufferPool [] 2) [1%nat; 0%nat]).
  eapply rtc_l; [apply (pool_get newBufferPool [] None)|].
  eapply rtc_l; [apply (pool_put _ [] 0 [])|].
  eapply rtc_l; [apply (pool_get _ _ (Some 0%nat))|].
  eapply rtc_l; [apply (pool_get _ _ (Some 0%nat))|]. apply rtc_refl.
Defined.
