(* ===== verification/SelfTests.v ===== *)
(** * The self tests: [roo/tests.go]

    Load tests that a configuration can ask a running node to make of its
    own cluster.  The number of rounds, 999999 of the permissions and
    1000000 of the keys, and the random keys that are read are arguments.
    The test of the keys writes to a store of its own first, next to the
    directories of the replicas. *)
From S2P Require Import Prelude Bytes Utf8 Json Types Pebble FileSystem Crash DataDir DataDirSpec.
From S2P Require Import DiskKV DiskKVSpec NodeHost.
From S2P Require Import Permissions PermissionSamples PermissionsSpec GrantSpec MaintenanceSpec.
From S2P Require Import Startup.

(** ** The tests *)

Definition test_grant : Permission :=
  mkPermission (mkTypedString "dioptre" 117) (mkTypedString "/folder" 102) no_action
    (Some (String (z2b 4) "")) false.
Definition test_removal (i : nat) : Permission :=
  mkPermission (mkTypedString ("dioptre" +:+ Itoa (Z.of_nat i)) 117)
    (mkTypedString ("/folder" +:+ Itoa (Z.of_nat i)) 102) no_action None true.
Definition test_request : Request :=
  mkRequest (mkTypedString "dioptre" 117)
    (Some [mkTypedString "admins" 103; mkTypedString "marketing" 103])
    (mkTypedString "/folder1/folder2/wb1" 102) no_action (Some (String (z2b 4) "")).

Definition test_key (i : nat) : string := "_test" +:+ Itoa (Z.of_nat i).
Definition test_batch (n : nat) (v : slice) : KVBatch :=
  mkKVBatch "" (Some (map (fun i => Some (mkKVData (test_key i) v)) (seq 0 n))).

Section Tests.
Context {W : Type} `{NodeHost W} (AppConfig : AppConfig).
Abbreviation shard := (cfg_ShardID AppConfig).

Fixpoint authorizeOften (n : nat) (am : nat -> ambient) : io W unit :=
  match n with
  | O => ret tt
  | S n =>
      let* _ := try (authorize AppConfig (am n) test_request) in
      authorizeOften n am
  end.

Definition testPermissions (max : nat) (am : nat -> ambient) : io W unit :=
  let* _ := try (permiss AppConfig (repeat test_grant max)) in
  let* _ := authorizeOften max am in
  let* _ := try (permiss AppConfig (map test_removal (seq 0 max))) in
  ret tt.

Fixpoint readOften (n : nat) (Intn : nat -> nat) : io W unit :=
  match n with
  | O => ret tt
  | S n =>
      let* _ := try (SyncRead shard (QString (test_key (Intn n)))) in
      readOften n Intn
  end.

(** The half of [testKV] that goes through the cluster. *)
Definition testCluster (n : nat) (Intn : nat -> nat) : io W unit :=
  let* _ := try (SyncPropose shard (MarshalKVBatch (test_batch n (Some "_test")))) in
  let* _ := readOften n Intn in
  let* _ := try (SyncPropose shard (MarshalKVBatch (test_batch n None))) in
  ret tt.

(** ** The store of [testKV] *)

Definition testDir : string := testDBDirName +:+ "/_testing".

Context {DB : Type} `{Pebble DB}.
Abbreviation FS := (FS DB).

(** [db.db.Set]; without [Sync] the store has the key as well. *)
Definition setTest (dbdir k v : string) : io FS unit := fun fs =>
  match nodes fs !! dbdir with
  | Some (NDir (Some db)) =>
      match pb_Apply db [OpSet k v] with
      | inl e => ([], (fs, Err e))
      | inr db' =>
          let fs' := set_nodes (<[dbdir := NDir (Some db')]> (nodes fs)) fs in
          ([fs'], (fs', Ret tt))
      end
  | _ => ([], (fs, Panic "nil pointer dereference"))
  end.

(** [db.db.Get] *)
Definition getTest (dbdir k : string) : io FS string := fun fs =>
  match nodes fs !! dbdir with
  | Some (NDir (Some db)) =>
      match pb_Get db k with
      | inl e => ([], (fs, Err e))
      | inr v => ([], (fs, Ret v))
      end
  | _ => ([], (fs, Panic "nil pointer dereference"))
  end.

Fixpoint setOften (i n : nat) : io FS unit :=
  match n with
  | O => ret tt
  | S n =>
      let* _ := try (setTest testDir (test_key i) "_test") in
      setOften (S i) n
  end.

Fixpoint getOften (n : nat) (Intn : nat -> nat) : io FS unit :=
  match n with
  | O => ret tt
  | S n =>
      let* _ := try (getTest testDir (test_key (Intn n))) in
      getOften n Intn
  end.

(** An error of [createDB] is dropped, and there is no store to write to. *)
Definition testStore (n : nat) (Intn : nat -> nat) : io FS unit :=
  let* r := try (createDB testDir) in
  match r with
  | inl _ => if (n =? 0)%nat then ret tt else panic "nil pointer dereference"
  | inr _ =>
      let* _ := setOften 0 n in
      getOften n Intn
  end.

Definition testKV (n : nat) (Intn Intn' : nat -> nat) : io (FS * W) unit :=
  let* _ := zoom fst (fun fs t => (fs, t.2)) (testStore n Intn) in
  zoom snd (fun w t => (t.1, w)) (testCluster n Intn').
End Tests.

(** ** What they leave behind *)

Definition leftover : string := "p:e:dioptre:f:/folder".

Lemma test_grant_key : Key (permissValue test_grant) = leftover.
Proof. by rewrite permissValue_key. Qed.

(** A number begins with a digit. *)
Lemma FormatUint_first n : exists c s, Decimal.FormatUint n = String c s /\ is_digit c = true.
Proof.
  pose proof (plain_FormatUint n) as K. destruct (Decimal.FormatUint n) as [|c s]; [done|].
  exists c, s. split; [done|]. simpl in K. destruct (b2z c =? 48) eqn:E.
  - apply Z.eqb_eq in E. unfold is_digit. by rewrite E.
  - by apply andb_true_iff in K as [K _].
Qed.

Lemma valid_digit c : is_digit c = true -> valid_utf8 (String c "") = true /\ c <> ":"%char.
Proof. destruct c as [[] [] [] [] [] [] [] []]; vm_compute; done. Qed.

(** The keys that are cleaned up are not the key that was written. *)
Lemma test_removal_key i : sanitize (Key (permissValue (test_removal i))) <> leftover.
Proof.
  rewrite permissValue_key. cbn [test_removal PEntity TVal]. unfold Itoa.
  rewrite (proj2 (Z.ltb_ge _ _)) by lia. destruct (FormatUint_first (Z.of_nat i)) as (c & s & -> & Hc).
  destruct (valid_digit c Hc) as [Hv Hne]. set (rest := encode_rune _ +:+ _). clearbody rest.
  intros E. assert (sanitize ("p:e:dioptre" +:+ String c "" +:+ (s +:+ ":" +:+ rest)) = leftover) as E'.
  { by rewrite <- E. }
  rewrite (sanitize_app "p:e:dioptre"), (sanitize_app (String c "")) in E' by done.
  apply Hne. unfold leftover in E'. cbn in E'. congruence.
Qed.

Lemma writes_repeat m d n k :
  (0 < n)%nat -> sanitize (Key d) = k -> foldl write m (repeat d n) !! k = Val d.
Proof.
  intros Hn E. destruct n as [|n]; [lia|]. rewrite (repeat_cons n d : repeat d (S n) = _).
  by apply (writes_last m (repeat d n) d []).
Qed.

Section Properties.
Context {W : Type} `{NodeHostLaws W} (cfg : AppConfig).

Lemma run_authorizeOften n am w :
  nh_ok w -> exists w', run (authorizeOften cfg n am) w = (w', Ret tt) /\ nh_ok w' /\
    same_permissions (nh_view w) (nh_view w').
Proof.
  revert w. induction n as [|n IH]; intros w Hw; [by exists w|].
  destruct (run_authorize cfg w (am n) test_request Hw) as (w1 & E1 & Hw1 & S1).
  destruct (IH w1 Hw1) as (w2 & E2 & Hw2 & S2). exists w2. split_and!; [|done|].
  - cbn [authorizeOften]. by rewrite run_bind, run_try, E1.
  - by eapply same_permissions_trans.
Qed.

Definition folder_request : Request :=
  mkRequest (mkTypedString "dioptre" 117) None (mkTypedString "/folder" 102) no_action
    (Some (String (z2b 4) "")).

(** The test of the permissions does not clean up after itself: it
    writes one permission many times over, on a folder its own requests
    never ask for, and removes others, which it has not written; so the
    user [dioptre] keeps the right on [/folder] of the running cluster. *)
Theorem permission_test_leaves_grant w max am am' :
  nh_ok w -> (0 < max)%nat ->
  exists w1, run (testPermissions cfg max am) w = (w1, Ret tt) /\ nh_ok w1 /\
    nh_view w1 !! leftover = Some (String (z2b 4) "") /\
    exists w2, run (authorize cfg am' folder_request) w1 = (w2, Ret true).
Proof.
  intros Hw Hn. destruct (run_permiss cfg w (repeat test_grant max) Hw) as (w1 & i & E1 & Hw1 & V1).
  destruct (run_authorizeOften max am w1 Hw1) as (w2 & E2 & Hw2 & S2).
  destruct (run_permiss cfg w2 (map test_removal (seq 0 max)) Hw2) as (w3 & j & E3 & Hw3 & V3).
  assert (nh_view w3 !! leftover = Some (String (z2b 4) "")) as L.
  { rewrite V3, stamp_permission by done. rewrite writes_other.
    - rewrite S2, V1, stamp_permission by done. rewrite map_repeat. by apply writes_repeat.
    - apply Forall_forall. intros d Hd. rewrite map_map in Hd.
      apply list_elem_of_In, in_map_iff in Hd as (x & <- & _). apply test_removal_key. }
  exists w3. split_and!; [|done|done|].
  - unfold testPermissions. rewrite run_bind, run_try, E1. cbv beta iota zeta.
    rewrite run_bind, E2. cbv beta iota zeta. by rewrite run_bind, run_try, E3.
  - destruct (run_authorize cfg w3 am' folder_request Hw3) as (w4 & E4 & _). exists w4. rewrite E4.
    do 2 f_equal. apply orb_true_iff. right. unfold decision. apply existsb_exists.
    exists "/folder". split.
    + unfold paths. destruct (AuthorizeSubpaths cfg); vm_compute; auto.
    + unfold decision_at, granted. cbn [subjects folder_request existsb User]. apply orb_true_iff. left.
      rewrite permission_of_eq. cbn [Key Val].
      change ("p:e:" +:+ _) with leftover. rewrite L. by destruct (PermissionCheckExact cfg).
Qed.

Lemma run_readOften n Intn w :
  nh_ok w -> exists w', run (readOften cfg n Intn) w = (w', Ret tt) /\ nh_ok w' /\ nh_view w' = nh_view w.
Proof.
  revert w. induction n as [|n IH]; intros w Hw; [by exists w|].
  destruct (read_key w (cfg_ShardID cfg) (test_key (Intn n)) Hw) as (w1 & E1 & Hw1 & V1).
  destruct (IH w1 Hw1) as (w2 & E2 & Hw2 & V2). exists w2. split_and!; [|done|by rewrite V2].
  cbn [readOften]. by rewrite run_bind, run_try, E1.
Qed.

Definition test_data (n : nat) (v : slice) : list KVData := map (fun i => mkKVData (test_key i) v) (seq 0 n).

Lemma propose_batch w n v :
  nh_ok w -> exists w' i k, run (SyncPropose (cfg_ShardID cfg) (MarshalKVBatch (test_batch n v))) w = (w', Ret k) /\
    nh_ok w' /\ nh_view w' = stamp i (foldl write (nh_view w) (test_data n v)).
Proof.
  intros Hw. destruct (propose_command w (cfg_ShardID cfg) (CBatch "" (test_data n v)) Hw)
    as (w' & i & k & E & Hw' & V).
  exists w', i, k. split; [|done]. unfold test_batch. rewrite <- E. cbn [encode]. unfold test_data.
  by rewrite map_map.
Qed.

Lemma writes_deleted m l k :
  (forall d, d ∈ l -> Val d = None) -> k ∈ map (fun d => sanitize (Key d)) l -> foldl write m l !! k = None.
Proof.
  induction l as [|d l IH] using rev_ind; intros Hn Hk; [by apply not_elem_of_nil in Hk|].
  rewrite foldl_app. cbn [foldl]. unfold write at 1. rewrite Hn by (apply elem_of_app; right; left).
  destruct (decide (sanitize (Key d) = k)) as [<-|Hne]; [by rewrite lookup_delete_eq|].
  rewrite lookup_delete_ne by done. apply IH; [intros x Hx; apply Hn, elem_of_app; by left|].
  rewrite map_app in Hk. apply elem_of_app in Hk as [?|Hk]; [done|]. by apply list_elem_of_singleton in Hk.
Qed.

(** The keys of the test are gone from the cluster and no other has
    changed. *)
Lemma run_testCluster w n Intn :
  nh_ok w ->
  exists w', run (testCluster cfg n Intn) w = (w', Ret tt) /\ nh_ok w' /\
    forall k, free_key k ->
      nh_view w' !! k = if decide (k ∈ map (fun i => sanitize (test_key i)) (seq 0 n)) then None else nh_view w !! k.
Proof.
  intros Hw. destruct (propose_batch w n (Some "_test") Hw) as (w1 & i & x & E1 & Hw1 & V1).
  destruct (run_readOften n Intn w1 Hw1) as (w2 & E2 & Hw2 & V2).
  destruct (propose_batch w2 n None Hw2) as (w3 & j & y & E3 & Hw3 & V3).
  exists w3. split_and!; [|done|].
  - unfold testCluster. rewrite run_bind, run_try, E1. cbv beta iota zeta.
    rewrite run_bind, E2. cbv beta iota zeta. by rewrite run_bind, run_try, E3.
  - assert (forall v, map (fun d => sanitize (Key d)) (test_data n v) =
      map (fun i => sanitize (test_key i)) (seq 0 n)) as K.
    { intros v. unfold test_data. by rewrite map_map. }
    intros k Hk. rewrite V3, stamp_free by done. destruct (decide _) as [Hi|Hni].
    + apply writes_deleted; [|by rewrite K].
      intros d Hd. unfold test_data in Hd. by apply list_elem_of_In, in_map_iff in Hd as (? & <- & _).
    + assert (forall v, Forall (fun d => sanitize (Key d) <> k) (test_data n v)) as F.
      { intros v. apply (Forall_map (fun d => sanitize (Key d)) (fun x => x <> k)). unfold compose. rewrite K.
        apply Forall_forall. intros z Hz ->. done. }
      rewrite writes_other by apply F. rewrite V2, V1, stamp_free by done. by rewrite writes_other by apply F.
Qed.
(** *** The store next to the replicas *)

Context {DB : Type} `{PebbleLaws DB}.

Lemma testDir_other c r :
  testDir <> testDBDirName /\ testDir <> getNodeDBDirName c r /\
  forall n, plain_name n -> testDir <> path_join (getNodeDBDirName c r) n.
Proof.
  split_and!; [done| |].
  - intros E. apply (f_equal (split "/")) in E. rewrite split_node in E. vm_compute (split _ testDir) in E.
    destruct (FormatUint_first c) as (a & s & K & Ha). rewrite K in E. injection E as E.
    by rewrite <- E in Ha.
  - intros n Hn E. apply (f_equal (split "/")) in E. by rewrite split_node_child in E.
Qed.

(** The paths a replica needs are not those of the test. *)
Lemma Committed_test c r d (db : DB) ns x :
  Committed c r d db ns -> Committed c r d db (<[testDir := x]> ns).
Proof.
  intros HC. apply (Committed_frame c r d db ns); [|done]. destruct (testDir_other c r) as (T1 & T2 & T3).
  destruct (com_name _ _ _ _ _ HC) as (n & Ed & Hn & _). intros p Hp. apply lookup_insert_ne.
  destruct Hp as [->|[->|[->| ->]]]; [done|done|rewrite Ed; by apply T3|by apply T3].
Qed.

Lemma keeps_createDB c r d (db : DB) : keeps (on (Committed c r d db)) (createDB testDir).
Proof.
  apply keeps_bind.
  - apply keeps_os. intros ns HC. destruct (com_root _ _ _ _ _ HC) as [st E].
    assert (ancestors testDir = [testDBDirName; testDir]) as -> by done. cbn [mkdirs]. rewrite E. destruct (ns !! testDir) as [[?|?]|]; cbn [fst]; [exact HC..|]. by apply Committed_test.
  - intros [] fs HC. unfold history, run, openStore. destruct (nodes fs !! testDir) as [[?|st]|]; [by split|..|by split].
    destruct (pb_Open st) as [e|db']; [by split|]. pose proof (Committed_test c r d db (nodes fs) (NDir (Some db')) HC).
    split; [by constructor|done].
Qed.

Lemma keeps_setTest c r d (db : DB) k v : keeps (on (Committed c r d db)) (setTest testDir k v).
Proof.
  intros fs HC. unfold history, run, setTest. destruct (nodes fs !! testDir) as [[?|[db1|]]|]; try by split.
  destruct (pb_Apply db1 _) as [e|db']; [by split|]. pose proof (Committed_test c r d db (nodes fs) (NDir (Some db')) HC).
  split; [by constructor|done].
Qed.

Lemma keeps_getTest (I : gmap string (node DB) -> Prop) k : keeps (on I) (getTest testDir k).
Proof.
  intros fs HI. unfold history, run, getTest. destruct (nodes fs !! testDir) as [[?|[db1|]]|]; try by split.
  by destruct (pb_Get db1 k).
Qed.

Lemma keeps_testStore c r d (db : DB) n Intn : keeps (on (Committed c r d db)) (testStore n Intn).
Proof.
  assert (forall i, keeps (on (Committed c r d db)) (setOften i n)) as KS.
  { induction n as [|n IH]; intros i; [apply (keeps_lift _ (Ret tt))|].
    apply keeps_bind; [apply keeps_try, keeps_setTest|done]. }
  assert (keeps (on (Committed c r d db)) (getOften n Intn)) as KG.
  { clear KS. induction n as [|n IH]; [apply (keeps_lift _ (Ret tt))|].
    apply keeps_bind; [apply keeps_try, keeps_getTest|done]. }
  apply keeps_bind; [apply keeps_try, keeps_createDB|]. intros [e|[]].
  - destruct (n =? 0)%nat; [apply (keeps_lift _ (Ret tt))|apply (keeps_lift _ (Panic _))].
  - apply keeps_bind; [apply KS|done].
Qed.

(** With a store, the loops come to their end. *)
Definition has_store (fs : FS DB) : Prop := exists db, nodes fs !! testDir = Some (NDir (Some db)).

Lemma run_setOften n i fs : has_store fs -> exists fs', run (setOften i n) fs = (fs', Ret tt) /\ has_store fs'.
Proof.
  revert i fs. induction n as [|n IH]; intros i fs [db E]; [exists fs; split; [done|by exists db]|].
  cbn [setOften]. rewrite run_bind, run_try. unfold setTest. unfold run at 1. rewrite E.
  destruct (pb_Apply db _) as [e|db']; [apply IH; by exists db|]. apply IH. exists db'. apply lookup_insert_eq.
Qed.

Lemma run_getOften n Intn fs : has_store fs -> run (getOften n Intn) fs = (fs, Ret tt).
Proof.
  intros [db E]. induction n as [|n IH]; [done|]. cbn [getOften]. rewrite run_bind, run_try.
  unfold getTest. unfold run at 1. rewrite E. by destruct (pb_Get db _).
Qed.

Lemma run_testStore n Intn fs fs1 :
  run (createDB testDir) fs = (fs1, Ret tt) -> exists fs', run (testStore n Intn) fs = (fs', Ret tt).
Proof.
  intros E. assert (has_store fs1) as S1.
  { unfold createDB in E. rewrite run_bind in E. destruct (run (MkdirAll testDir) fs) as [fs0 [[]| |]]; [|done..].
    unfold run, openStore in E. destruct (nodes fs0 !! testDir) as [[?|st]|]; [done| |done].
    destruct (pb_Open st) as [?|db]; [done|]. injection E as <-. exists db. apply lookup_insert_eq. }
  destruct (run_setOften n 0 fs1 S1) as (fs2 & E2 & S2). exists fs2. unfold testStore.
  rewrite run_bind, run_try, E. cbv beta iota zeta. rewrite run_bind, E2. by apply run_getOften.
Qed.

(** The test of the keys leaves a node as it was.  Where its own store
    can be created it comes to its end; the keys it has proposed are gone
    from the cluster and no other key has changed; and the store in use of
    every replica whose directory lies next to the one of the test is
    there as before.  Without its store it takes the process down, with the
    directories of the replicas intact at every point. *)
Theorem kv_test_cleans_up fs w n Intn Intn' :
  nh_ok w ->
  (forall fs1, run (createDB testDir) fs = (fs1, Ret tt) ->
   exists fs' w', run (testKV cfg n Intn Intn') (fs, w) = ((fs', w'), Ret tt) /\ nh_ok w' /\
    forall k, free_key k ->
      nh_view w' !! k = if decide (k ∈ map (fun i => sanitize (test_key i)) (seq 0 n)) then None else nh_view w !! k) /\
  (forall fs1 e, (0 < n)%nat -> run (createDB testDir) fs = (fs1, Err e) ->
   exists p, run (testKV cfg n Intn Intn') (fs, w) = ((fs1, w), Panic p)) /\
  (forall c r d (db : DB), Committed c r d db (nodes fs) ->
   Forall (fun t => Committed c r d db (nodes t.1)) (history (testKV cfg n Intn Intn') (fs, w)) /\
   Committed c r d db (nodes (run (testKV cfg n Intn Intn') (fs, w)).1.1)).
Proof.
  intros Hw. unfold testKV. split_and!.
  - intros fs1 E. destruct (run_testStore n Intn fs fs1 E) as (fs' & E').
    destruct (run_testCluster w n Intn' Hw) as (w' & Ew & K). exists fs', w'. split; [|done].
    rewrite run_bind, run_zoom. cbn [fst]. rewrite E'. cbv beta iota zeta. rewrite run_zoom. cbn [snd]. by rewrite Ew.
  - intros fs1 e Hn E. eexists. rewrite run_bind, run_zoom. cbn [fst]. unfold testStore. rewrite run_bind, run_try, E.
    destruct n; [lia|]. done.
  - intros c r d db HC. rewrite history_bind, run_bind, history_zoom, run_zoom. cbn [fst].
    destruct (keeps_testStore c r d db n Intn fs HC) as [K1 K2].
    destruct (run (testStore n Intn) fs) as [fs' [[]|e|p]].
    + rewrite history_zoom, run_zoom. cbn [snd]. destruct (run (testCluster cfg n Intn') w) as [w' x].
      split; [|done]. apply Forall_app. split; [by apply Forall_map|]. apply Forall_map, Forall_true. intros w0. done.
    + split; [|done]. rewrite app_nil_r. by apply Forall_map.
    + split; [|done]. rewrite app_nil_r. by apply Forall_map.
Qed.
End Properties.

(** ** Witnesses *)

Lemma permission_test_leaves_grant_witness :
  exists w1, run (testPermissions cfg_sample 3 (fun _ => now_sample 5)) empty_node = (w1, Ret tt) /\
    nh_view w1 !! "p:e:dioptre:f:/folder" = Some (String (z2b 4) "").
Proof.
  destruct (permission_test_leaves_grant cfg_sample empty_node 3 (fun _ => now_sample 5) (now_sample 6)
    empty_node_ok ltac:(lia)) as (w1 & E & _ & L & _).
  exists w1. split; [exact E|exact L].
Defined.

(** A machine with an empty disk. *)
Lemma kv_test_cleans_up_witness :
  exists fs' w', run (testKV cfg_sample 3 (fun _ => 1%nat) (fun _ => 1%nat)) ((quiet ∅ : FS (gmap string string)), node_sample) =
      ((fs', w'), Ret tt) /\ nh_view w' !! "_test1" = None.
Proof.
  destruct (kv_test_cleans_up cfg_sample (quiet ∅ : FS (gmap string string)) node_sample 3 (fun _ => 1%nat) (fun _ => 1%nat) node_sample_ok)
    as (K & _).
  destruct (K (run (createDB testDir) (quiet ∅ : FS (gmap string string))).1) as (fs' & w' & E & _ & V).
  - vm_compute. reflexivity.
  - exists fs', w'. split; [exact E|]. rewrite V by done. reflexivity.
Defined.
